(* ===== verification/_CoqProject ===== *)
-Q . S2P
Prelude.v
Datetime.v
Regex.v
PyVal.v
Externals.v
Json.v
Request.v
Decision.v
NetAddr.v
Timeutil.v
Capability.v
Contract.v
Policy.v
State.v
AuditTrail.v
AuditFleet.v
Effects.v
Interceptor.v
Executor.v
Harness.v
System.v
RateLimit.v
Postgres.v
Cluster.v
Base64.v
Workload.v
Identity.v
PyObj.v
Api.v
Gateway.v
Bridge.v
Client.v
Edge.v
Server.v
ToolService.v
Toolset.v
Upstream.v
Simulation.v
Render.v
Inspect.v
InspectServer.v
Cli.v
Artifacts.v
Fetch.v
AgentLoop.v
Manifests.v
Adversary.v
Sandbox.v
Verdicts.v
Deploy.v
EndToEnd.v
MutualTLS.v
Demos.v
