(* ===== verification/Prelude.v ===== *)
(** * Capgate: a verification development

    Capgate puts a policy between agents and their tools. An agent proposes an action; the harness evaluates
    the proposal under the one contract the agent is bound to, records the decision in a hash-chained audit
    trail, and hands out a signed, single-use grant for exactly that action and those arguments; only the
    executor, which holds the tools, turns a grant into an effect. Around that core are agent messages,
    delegation in two stages, escalation to a human approver, an HTTP API with signed tokens and rate
    limits, an MCP gateway, a simulator and an inspector. This library models that code, the files of
    src/src/capgate/, with the client, the scripts of deploy/ and the programs of examples/, and proves what
    makes it correct. Names are the source's wherever Rocq allows.

    ** How the code is modelled

    - A Python value is a [PyVal.pyval]; a dict an association list with distinct keys in insertion order
      ([wf_val] is that condition); a str its UTF-8 bytes, without lone surrogates; an int a [Z]; a float
      its repr; a datetime microseconds of the wall clock with an offset. Times of float seconds (monotonic
      clocks, expiry of grants) are exact microseconds, or an abstract arithmetic with stated laws (RateLimit).
    - A raised exception is [Raise e] of the type [result]; code that changes state lives in the monad
      [Effects.M], a state monad with exceptions that keeps the effects made before a raise. Its state, the
      [world], holds the authority store, the audit log, the ledger of tool calls, and how often each source
      of outside values was read. [Effects.transaction] is the context manager of the stores.
    - What comes from outside the source is a parameter: digests, clocks, uuids, random bytes, float
      parsing, address registries and whether a write succeeds are fields of the class [Externals]; tools are
      the class [Effects.Tools]; YAML, name resolution, the network, files and the person who approves are
      section variables. No law about them is assumed except as a named hypothesis of a theorem
      ([Sample] in Externals is the instance the examples run on).
    - The store is an interface: [State.StateStore] is the class of operations with their laws over the
      abstract [authority]; MemoryStateStore, SQLiteStateStore and PostgresStateStore are its instances, so
      every theorem about the harness holds over each. [stored] is what a store gives back of a record: the
      record itself in a [FaithfulStore], what JSONB keeps of it in PostgreSQL. [TransactionalStore] adds the
      laws of a store that rolls back.

    ** The files

    - Prelude: results, strings, numerals, tactics. Datetime, Regex, PyVal, Externals, Json: the parts of the
      language and its standard library the source uses: calendar and ISO 8601, regular expressions with a
      verified matcher, values, canonical_json and json.loads (request.py), with the round trip of whatever
      json.dumps prints with any separators.
    - Request (request.py): ActionRequest with its frozen canonical arguments; messages and delegations as
      requests. Decision (decision.py): decisions and their persisted form. Timeutil (timeutil.py). NetAddr
      (netaddr.py): host names, IP literals, public addresses, urlsplit.
    - Capability (capability.py): constraints, their parsing and their checks in order. Contract
      (contract.py): validation, content hash, bindings. Policy (policy.py): [evaluate], the decision itself.
    - State (state.py): the two local stores and the refinement of the abstract state. Postgres (state.py): the
      store on a database, and which store a URL opens; Cluster: replicas that share the database, as a step
      relation over its advisory lock. AuditTrail (audit.py): the chain, its file and its verification;
      AuditFleet: queries and the Postgres sink. Effects: the monad.
    - Interceptor (interceptor.py): decide, count and record in one transaction. Executor (executor.py):
      grants, their signature, the checks before a tool runs. Harness (core.py): authorize, execute, messages,
      delegation, approvals. System: every public operation as a value, and an invariant principle ([stable],
      [keeps]) for arbitrary sequences of them.
    - RateLimit (ratelimit.py and the rate tables of state.py), Base64, Workload (workload.py), Identity
      (identity.py, with its keyring files), Api (api.py), Gateway (mcp/gateway.py).
    - Transports: Edge (mtlsedge.py, asgi.py), Server (server.py), Bridge (mcp/bridge.py, stdio to HTTP).
    - Tools: Toolset (tools.py, secretsource.py), Upstream (mcp/upstream.py, a state machine over the events
      of callers, readers and child processes), ToolService (toolservice.py and the tool that calls it).
    - Around the harness: Simulation and Render (simulation.py), Inspect (inspect/model.py), InspectServer
      (inspect/server.py), Cli (cli.py, each command over its parsed arguments and a map of files), Client
      (sdk/python/capgate_client), Artifacts and Fetch (deploy/fetch_artifacts.py: the dependency closure; the
      cache directory as a map of files), AgentLoop (examples/agent_loop/loop.py: the loop between a model and the
      gateway), Demos (the examples that run the library).
    - The adversary and the deployment: PyObj holds what scripts do with values of any type, and a monad for a
      script that may exit. Adversary (examples/adversarial-agent/malicious_agent.py) is the compromised agent:
      each request it makes, in order, over any network, its forged tokens, its log and its scan for secrets;
      Sandbox, its probes of its own sandbox. EndToEnd (examples/adversarial-agent/run.py) puts agent, server,
      API, harness and tool service together as one system; MutualTLS does so behind the edge (deploy/mtls).
      Verdicts holds the checks that judge a run (deploy/demo.py, deploy/mtls/demo.py,
      deploy/k8s-e2e/assert.py), Deploy the scripts around them as sequences of docker commands, Manifests the
      checks of the Kubernetes manifests (deploy/k8s/validate.py).

    ** What the theorems show

    - Nothing happens without authority: [Executor.complete_mediation] over the attempts of a run (each call of a
      tool belongs to an accepted attempt, whose grant is valid at the attempt's own reading of the clock),
      [execute_guarded] (what the tool is asked, what a message delivers and what is reported), [signature_binds];
      [Harness.grant_only_if_authorized]; [Api.effects_need_token]; [ToolService.ledger_needs_credential] at
      the far end. Put together, [EndToEnd.no_way_around]: no run of requests, to the harness or past it,
      changes anything without a verified token or the credential of the tools; and what was granted does happen,
      once: [Harness.minted_grant_executes], [System.claim_outlives_runs].
    - The policy is its specification: [Policy.evaluate_allow_iff] and [evaluate_escalate_iff] against the
      declarative [authorized], [evaluate_total], [hash_pins_policy]; [Capability.check_constraints_spec], whose
      clause for URLs is written over the text of the URL and the host it names, without the functions that read
      them, and shows that blocked_domains says nothing of IP addresses; [allowed_host_labels]; [Contract.contract_from_dict_wf], [build_bindings_spec].
    - Counting and budgets over whole runs: [Interceptor.decide_counts], [step_budget_bound],
      [System.call_limits_hold], [RateLimit.shared_rate_bound] (in any window, whatever came before: the burst and
      what the rate gives); and over replicas that run at once:
      [Cluster.replicas_serialize] (an execution is one of committed transactions in some order),
      [cluster_single_use], [cluster_call_limit].
    - People and delegation: [Harness.delegation_needs_both], [approval_sound], at the counters and the reading
      of the clock of each stage; [approval_single_use],
      [escalation_persisted]; the page of the inspector, [InspectServer.inspect_guarded].
    - Identity: [Identity.verify_sound], [Edge.workload_unforgeable] from the certificate to the API, and
      [Cli.keyring_commands] through the file of the keyring. What an attacker makes of a token:
      [Adversary.forged_tokens_do_nothing] for each forgery of the compromised agent, up to a coincidence of
      HMACs; [MutualTLS.stolen_token_useless] for a bound token in the Authorization header of another workload.
    - The checks mean what they say: [Manifests.validated_confined], [Sandbox.scan_spec] and [scan_finds],
      [Verdicts.demo_passes], [Deploy.demo_cleans_up], [Fetch.wheels_verified] and [pyyaml_verified],
      [Demos.obedience_contained]. The whole demonstrations are evaluated: [EndToEnd.Witnesses.attacks_answered],
      [MutualTLS.Witnesses.demonstrated], [Demos.Witnesses.boundary_printed], [loop_printed].
    - Failure: [Interceptor.decide_fails_closed], [AuditTrail.tamper_evident],
      [AuditFleet.fleet_appends_verify], [RateLimit.evidence_kept]; [Cli.bootstrap_idempotent].
    - Two descriptions of one thing agree: [State.sqlite_refines_memory], over sessions with transactions that are
      committed or rolled back, pruning and restarts: the SQLite store is the specification that rolls back and
      lasts, the memory store the one that does not, and they answer alike while nothing is rolled back or
      restarted; [RateLimit.local_shared_agree];
      [Server.transports_agree], for the methods both know; [Simulation.simulation_faithful] (simulation reports
      what enforcement decides) beside [System.simulation_inert] (and does nothing, but that a grant which verifies
      is executed in any mode); [Inspect.explain_predicts],
      [audit_view_verifies]; [Gateway.listed_tools_exact]; [Api.action_status].
    - Texts and messages arrive as they were meant: [Identity.token_round_trip], [keyring_round_trip],
      [Workload.spiffe_id_exact], [Client.client_round_trip], [ToolService.endpoint_through_service],
      [Bridge.bridge_replies], [Upstream.replies_reach_their_caller] (by their ids, among the lines read while the
      call was open), [Render.rows_are_lines],
      [AgentLoop.transcript_is_sent] and [AgentLoop.conversation_kept] for whatever model; and where the
      network is concerned [Toolset.fetch_connects_where_vetted], [Artifacts.packages_resolved].
    Each theorem with hypotheses that is a property of the program has a witness in the [Witnesses] module of
    its file, an instance on concrete contracts and stores where they hold.

    ** Fuel

    [Json.loads] gives its parser one more than the length of the text as fuel. A list or dictionary costs
    two steps and has two brackets, each further element one step and a comma; [loads_print_with] proves that
    the fuel is enough for everything the program writes. [Upstream.list_tools] reads pages for as long as a
    server names a next one, which need not end: [list_tools_ends] proves that fuel for the pages there are is
    enough. [Artifacts.resolve] has fuel for the packages asked for and every dependency of the index, which
    [packages_resolved] proves enough. [Adversary.pieces] has the length of the run it cuts, of which every
    step takes at least sixteen characters.

    ** What is not modelled

    - Threads within a process (operations are interleaved as whole steps, but for the upstream client, whose
      caller and readers are separate events), sockets and TLS, the start-up of servers, the SQL statements a
      database refuses (a NUL in a text, a value JSONB cannot hold), argparse, the printing of tables by the
      command line, the static page of the inspector, what docker and the archives' formats do, the minting of
      test certificates, and the demonstrations of examples/inspect and examples/mcp, which start servers for a
      browser and for a client of another project.
    - ExecutionGrant.from_dict (nothing calls it), the echo stream of an audit trail, the interpreter's limits
      (recursion depth, digits of huge integers in JSON), float arithmetic beyond the abstract laws of
      RateLimit, the wording of messages that quote a parser or an operating system, which are parameters. *)

From Stdlib Require Export ZArith Lia Ascii.
From Stdlib Require Import DecimalString DecimalZ DecimalPos.
From stdpp Require Export base tactics list gmap strings option sorting.

#[global] Open Scope Z_scope.

(** ** The exceptions the source raises, and fallible results *)

Inductive exn :=
| MalformedRequest (msg : string)
| CapabilityError (msg : string)
| ContractError (msg : string)
| ExecutionRefused (reason detail : string)
| ApprovalError (msg : string)
| TokenError (reason : string)
| AuditIntegrityError (msg : string)
| InvalidHost (msg : string)
| WorkloadError (msg : string)
| TaskError (msg : string)
| InputError (msg : string)
| DestinationRefused (msg : string)
| UpstreamError (msg : string)
| RuntimeError (msg : string)
| FileNotFoundError (msg : string)
| ValueError (msg : string)
| KeyError (key : string)
| TypeError (msg : string)
| AttributeError (msg : string)
| OverflowError (msg : string)
| ZeroDivisionError
| StopIteration
| IndexError (msg : string)
| OSError (msg : string).

Inductive result (A : Type) :=
| Ok (a : A)
| Raise (e : exn).
Arguments Ok {A} a.
Arguments Raise {A} e.

Definition result_bind {A B} (r : result A) (f : A -> result B) : result B :=
  match r with
  | Ok a => f a
  | Raise e => Raise e
  end.

Definition is_ok {A} (r : result A) : bool :=
  match r with Ok _ => true | Raise _ => false end.

Definition require (b : bool) (e : exn) : result unit :=
  if b then Ok tt else Raise e.

Declare Scope result_scope.
Delimit Scope result_scope with result.
Notation "'let?' x ':=' r 'in' k" := (result_bind r (fun x => k))
  (at level 10, x pattern, r at level 100, k at level 200) : result_scope.
Notation "r ';?' k" := (result_bind r (fun _ => k))
  (at level 199, right associativity) : result_scope.
#[global] Open Scope result_scope.

(** [traverse f l] applies a fallible function left to right, stopping at the first failure. *)
Fixpoint traverse {A B} (f : A -> result B) (l : list A) : result (list B) :=
  match l with
  | [] => Ok []
  | x :: l' => let? y := f x in let? ys := traverse f l' in Ok (y :: ys)
  end.

(** ** Characters and strings

    A Python [str] is represented by its UTF-8 bytes. *)

Definition byte_of (c : ascii) : Z := Z.of_N (N_of_ascii c).
Definition char_of (z : Z) : ascii := ascii_of_N (Z.to_N z).

Definition in_range (lo hi : Z) (c : ascii) : bool := (lo <=? byte_of c) && (byte_of c <=? hi).
Definition is_char (d c : ascii) : bool := Ascii.eqb d c.
Definition is_lower (c : ascii) : bool := in_range 97 122 c.
Definition is_upper (c : ascii) : bool := in_range 65 90 c.
Definition is_digit (c : ascii) : bool := in_range 48 57 c.
Definition is_alpha (c : ascii) : bool := is_lower c || is_upper c.
Definition is_alnum (c : ascii) : bool := is_alpha c || is_digit c.
Definition is_hex_lower (c : ascii) : bool := is_digit c || in_range 97 102 c.
Definition is_hex (c : ascii) : bool := is_hex_lower c || in_range 65 70 c.

Definition chr1 (c : ascii) : string := String c EmptyString.
Definition newline : ascii := char_of 10.
Definition dquote : ascii := char_of 34.

Fixpoint s_forall (p : ascii -> bool) (s : string) : bool :=
  match s with
  | EmptyString => true
  | String c s' => p c && s_forall p s'
  end.

Definition s_exists (p : ascii -> bool) (s : string) : bool := negb (s_forall (fun c => negb (p c)) s).

Fixpoint s_map (f : ascii -> ascii) (s : string) : string :=
  match s with
  | EmptyString => EmptyString
  | String c s' => String (f c) (s_map f s')
  end.

Fixpoint s_rev_append (s acc : string) : string :=
  match s with
  | EmptyString => acc
  | String c s' => s_rev_append s' (String c acc)
  end.
Definition s_rev (s : string) : string := s_rev_append s EmptyString.

Definition s_is_empty (s : string) : bool :=
  match s with EmptyString => true | String _ _ => false end.

Definition is_ascii (s : string) : bool := s_forall (fun c => byte_of c <? 128) s.

(** [s.startswith(p)], [s[len(p):]] when it does, and [s.endswith(p)]. *)
Fixpoint strip_prefix (p s : string) : option string :=
  match p with
  | EmptyString => Some s
  | String a p' =>
      match s with
      | EmptyString => None
      | String c s' => if Ascii.eqb a c then strip_prefix p' s' else None
      end
  end.
Definition starts_with (p s : string) : bool :=
  match strip_prefix p s with Some _ => true | None => false end.
Definition ends_with (p s : string) : bool := starts_with (s_rev p) (s_rev s).
Definition any_prefix (ps : list string) (s : string) : bool := existsb (fun p => starts_with p s) ps.
Definition any_suffix (ps : list string) (s : string) : bool := existsb (fun p => ends_with p s) ps.

Fixpoint lstrip_by (p : ascii -> bool) (s : string) : string :=
  match s with
  | EmptyString => EmptyString
  | String c s' => if p c then lstrip_by p s' else s
  end.
Definition rstrip_by (p : ascii -> bool) (s : string) : string := s_rev (lstrip_by p (s_rev s)).
Definition strip_by (p : ascii -> bool) (s : string) : string := rstrip_by p (lstrip_by p s).

(** [s.split(c)]: never empty. *)
Fixpoint split_on (c : ascii) (s : string) : list string :=
  match s with
  | EmptyString => [EmptyString]
  | String d s' =>
      if Ascii.eqb c d then EmptyString :: split_on c s'
      else match split_on c s' with
           | [] => [chr1 d]
           | w :: ws => String d w :: ws
           end
  end.

(** [s.partition(c)]: the part before the first [c], whether [c] occurs, the part after. *)
Fixpoint partition_on (c : ascii) (s : string) : string * bool * string :=
  match s with
  | EmptyString => (EmptyString, false, EmptyString)
  | String d s' =>
      if Ascii.eqb c d then (EmptyString, true, s')
      else match partition_on c s' with (a, b, z) => (String d a, b, z) end
  end.

(** [s.rpartition(c)]: as [partition_on] at the last [c]; with none, everything is the last part. *)
Definition rpartition_on (c : ascii) (s : string) : string * bool * string :=
  match partition_on c (s_rev s) with
  | (a, true, z) => (s_rev z, true, s_rev a)
  | (_, false, _) => (EmptyString, false, s)
  end.

Fixpoint s_concat (sep : string) (l : list string) : string :=
  match l with
  | [] => EmptyString
  | [w] => w
  | w :: l' => w +:+ sep +:+ s_concat sep l'
  end.

Fixpoint s_take (n : nat) (s : string) : string :=
  match n, s with
  | O, _ => EmptyString
  | S n', String c s' => String c (s_take n' s')
  | S _, EmptyString => EmptyString
  end.

(** Bytes 0x80 to 0xBF continue a character, so [py_len] counts code points, as [len] does. *)
Definition is_continuation (c : ascii) : bool := in_range 128 191 c.
Fixpoint py_len (s : string) : Z :=
  match s with
  | EmptyString => 0
  | String c s' => (if is_continuation c then 0 else 1) + py_len s'
  end.

(** [str.lower] on the letters that can meet an ASCII string: the ASCII capitals, and the two
    other code points whose lower case contains an ASCII letter, U+212A (bytes E2 84 AA, lower
    case k) and U+0130 (bytes C4 B0, lower case i followed by U+0307). *)
Definition lower_ascii (c : ascii) : ascii := if is_upper c then char_of (byte_of c + 32) else c.
Fixpoint py_lower (s : string) : string :=
  match s with
  | EmptyString => EmptyString
  | String a s1 =>
      match s1 with
      | String b s2 =>
          if (byte_of a =? 196) && (byte_of b =? 176)
          then String "i"%char (String (char_of 204) (String (char_of 135) (py_lower s2)))
          else match s2 with
               | String c s3 =>
                   if (byte_of a =? 226) && (byte_of b =? 132) && (byte_of c =? 170)
                   then String "k"%char (py_lower s3)
                   else String (lower_ascii a) (py_lower s1)
               | EmptyString => String (lower_ascii a) (py_lower s1)
               end
      | EmptyString => String (lower_ascii a) (py_lower s1)
      end
  end.

(** Python's ordering of strings: by code point, which is the bytewise order of UTF-8. *)
Definition sorted_strs (l : list string) : list string := merge_sort String.le l.

Definition str_in (x : string) (l : list string) : bool := existsb (String.eqb x) l.

(** ** Numerals *)

Definition show_Z (z : Z) : string := NilZero.string_of_int (Z.to_int z).
Definition read_Z (s : string) : option Z := Z.of_int <$> NilZero.int_of_string s.

Definition digit_of (z : Z) : ascii := char_of (48 + z mod 10).
(** [pad n z]: the last [n] decimal digits of [z], zero padded. *)
Fixpoint pad (n : nat) (z : Z) : string :=
  match n with
  | O => EmptyString
  | S n' => pad n' (z / 10) +:+ chr1 (digit_of z)
  end.
Definition digit_value (c : ascii) : Z := byte_of c - 48.
Fixpoint read_digits_from (acc : Z) (s : string) : Z :=
  match s with
  | EmptyString => acc
  | String c s' => read_digits_from (acc * 10 + digit_value c) s'
  end.
Definition read_digits (s : string) : Z := read_digits_from 0 s.

(** Seconds as microseconds, the unit of time of the development. *)
Definition seconds (n : Z) : Z := n * 1000000.

(** ** Automation

    [capgate] collects the lemmas that close routine goals, [strings] and [capgate_simpl] the
    rewriting rules of strings and results. *)

Create HintDb capgate discriminated.
Create Rewrite HintDb strings.
Create Rewrite HintDb capgate_simpl.

(** Case analysis on the first match of the goal (or of a hypothesis), keeping the equation. *)
Ltac case_goal :=
  match goal with
  | |- context [match ?x with _ => _ end] => destruct x eqn:?
  end.
Ltac case_in H :=
  match type of H with
  | context [match ?x with _ => _ end] => destruct x eqn:?; simpl in H; try discriminate H
  end.
(** Split every conjunction of booleans that is known to be true. *)
Ltac bools :=
  repeat match goal with
  | H : (_ && _) = true |- _ => apply andb_true_iff in H as [? ?]
  | H : negb _ = true |- _ => apply negb_true_iff in H
  | H : (_ || _) = false |- _ => apply orb_false_iff in H as [? ?]
  | H : negb _ = false |- _ => apply negb_false_iff in H
  | H : String.eqb _ _ = true |- _ => apply String.eqb_eq in H
  | H : String.eqb _ _ = false |- _ => apply String.eqb_neq in H
  | H : Ascii.eqb _ _ = true |- _ => apply Ascii.eqb_eq in H
  | H : Ascii.eqb _ _ = false |- _ => apply Ascii.eqb_neq in H
  end.
(** Invert [_ = Ok _] through the binds of [result]. *)
Ltac inv_ok H :=
  repeat match type of H with
  | result_bind ?r _ = Ok _ => destruct r eqn:?; simpl in H; [|discriminate H]
  | require ?b _ = Ok _ => destruct b eqn:?; simpl in H; [|discriminate H]
  end.

Lemma Ok_inj {A} (x y : A) : Ok x = Ok y <-> x = y.
Proof. split; congruence. Qed.

Lemma result_bind_ok {A B} (r : result A) (f : A -> result B) b : result_bind r f = Ok b <-> exists a, r = Ok a /\ f a = Ok b.
Proof. destruct r as [a|]; simpl; [|by split; [|intros (? & [=] & _)]]. split; [eauto|by intros (? & [= <-] & ?)]. Qed.

(** ** Lemmas on strings *)

Lemma s_app_nil_l s : EmptyString +:+ s = s.
Proof. done. Qed.

Lemma s_app_cons c s t : String c s +:+ t = String c (s +:+ t).
Proof. done. Qed.

Lemma s_app_nil_r s : s +:+ EmptyString = s.
Proof. induction s as [|c s IH]; [done|]. rewrite s_app_cons. by f_equal. Qed.

Lemma s_app_assoc s t u : (s +:+ t) +:+ u = s +:+ t +:+ u.
Proof. induction s as [|c s IH]; [done|]. rewrite !s_app_cons. by f_equal. Qed.

#[export] Hint Rewrite s_app_nil_l s_app_cons s_app_nil_r s_app_assoc : strings.

Lemma s_rev_append_app s acc : s_rev_append s acc = s_rev s +:+ acc.
Proof.
  unfold s_rev. revert acc. induction s as [|c s IH]; intros acc; simpl; [done|].
  rewrite (IH (String c acc)), (IH (String c EmptyString)). by autorewrite with strings.
Qed.

Lemma s_rev_cons c s : s_rev (String c s) = s_rev s +:+ chr1 c.
Proof. unfold s_rev at 1. simpl. apply s_rev_append_app. Qed.

Lemma s_rev_app s t : s_rev (s +:+ t) = s_rev t +:+ s_rev s.
Proof.
  induction s as [|c s IH]; [by rewrite s_app_nil_l, s_app_nil_r|].
  rewrite s_app_cons, !s_rev_cons, IH. by rewrite s_app_assoc.
Qed.

Lemma s_rev_involutive s : s_rev (s_rev s) = s.
Proof. induction s as [|c s IH]; [done|]. by rewrite s_rev_cons, s_rev_app, IH. Qed.

#[export] Hint Rewrite s_rev_involutive s_rev_app : strings.

Lemma s_forall_app p s t : s_forall p (s +:+ t) = s_forall p s && s_forall p t.
Proof.
  induction s as [|c s IH]; [done|]. rewrite s_app_cons. simpl. by rewrite IH, andb_assoc.
Qed.

Lemma s_forall_impl (p q : ascii -> bool) s :
  (forall c, p c = true -> q c = true) -> s_forall p s = true -> s_forall q s = true.
Proof.
  intros Hpq. induction s as [|c s IH]; simpl; [done|].
  intros [Hc Hs]%andb_true_iff. by rewrite (Hpq c Hc), IH.
Qed.

Lemma s_forall_rev p s : s_forall p (s_rev s) = s_forall p s.
Proof.
  induction s as [|c s IH]; [done|].
  rewrite s_rev_cons, s_forall_app, IH. simpl. by rewrite andb_true_r, andb_comm.
Qed.

Lemma s_take_all n s : (String.length s <= n)%nat -> s_take n s = s.
Proof. revert n. induction s as [|c s IH]; intros [|n] Hn; simpl in *; try lia; try done. f_equal. apply IH. lia. Qed.

Lemma strip_prefix_app p s : strip_prefix p (p +:+ s) = Some s.
Proof.
  induction p as [|c p IH]; [done|]. rewrite s_app_cons. simpl. by rewrite Ascii.eqb_refl.
Qed.

Lemma strip_prefix_spec p s r : strip_prefix p s = Some r <-> s = p +:+ r.
Proof.
  split; [|intros ->; apply strip_prefix_app].
  revert s; induction p as [|c p IH]; intros s; simpl; [rewrite s_app_nil_l; congruence|].
  destruct s as [|d s]; [done|]. destruct (Ascii.eqb c d) eqn:E; [|done].
  apply Ascii.eqb_eq in E as <-. intros H. rewrite s_app_cons. f_equal. by apply IH.
Qed.

Lemma starts_with_spec p s : starts_with p s = true <-> exists r, s = p +:+ r.
Proof.
  unfold starts_with. split.
  - destruct (strip_prefix p s) as [r|] eqn:E; [|done]. intros _. exists r. by apply strip_prefix_spec.
  - intros [r ->]. by rewrite strip_prefix_app.
Qed.

Lemma ends_with_spec p s : ends_with p s = true <-> exists r, s = r +:+ p.
Proof.
  unfold ends_with. rewrite starts_with_spec. split; intros [r Hr].
  - exists (s_rev r). by rewrite <- (s_rev_involutive s), Hr, s_rev_app, s_rev_involutive.
  - exists (s_rev r). by rewrite Hr, s_rev_app.
Qed.

Lemma split_on_not_nil c s : split_on c s <> [].
Proof.
  induction s as [|d s IH]; simpl; [done|]. destruct (Ascii.eqb c d); [done|].
  by destruct (split_on c s).
Qed.

(** Splitting distributes over a separator. *)
Lemma split_on_app c s t : split_on c (s +:+ String c t) = split_on c s ++ split_on c t.
Proof.
  induction s as [|d s IH]; [simpl; by rewrite Ascii.eqb_refl|].
  rewrite s_app_cons. simpl. destruct (Ascii.eqb c d); [by rewrite IH|].
  rewrite IH. pose proof (split_on_not_nil c s). by destruct (split_on c s).
Qed.

(** [c] does not occur in [s]. *)
Definition lacks (c : ascii) (s : string) : bool := s_forall (fun d => negb (is_char c d)) s.

Lemma split_on_lacks c s : lacks c s = true -> split_on c s = [s].
Proof.
  induction s as [|d s IH]; [done|]. unfold lacks, is_char. simpl. intros [Hd Hs]%andb_true_iff.
  apply negb_true_iff in Hd. by rewrite Hd, (IH Hs).
Qed.

Lemma split_on_each c s : Forall (fun w => lacks c w = true) (split_on c s).
Proof.
  induction s as [|d s IH]; [by repeat constructor|]. simpl. destruct (Ascii.eqb c d) eqn:E; [by constructor|].
  destruct IH as [|w ws Hw Hws]; (constructor; [|done]); unfold lacks, is_char in *; simpl; by rewrite E.
Qed.

Lemma s_concat_cons sep w w' l : s_concat sep (w :: w' :: l) = w +:+ sep +:+ s_concat sep (w' :: l).
Proof. done. Qed.

Lemma s_concat_split c s : s_concat (chr1 c) (split_on c s) = s.
Proof.
  induction s as [|d s IH]; [done|]. simpl. pose proof (split_on_not_nil c s) as Hne.
  destruct (Ascii.eqb_spec c d) as [<-|].
  - simpl. destruct (split_on c s) as [|w ws]; [done|]. by rewrite IH.
  - destruct (split_on c s) as [|w [|w' ws]]; [done|simpl in *; by rewrite IH|].
    rewrite s_concat_cons, s_app_cons, <- IH. by rewrite s_concat_cons.
Qed.

Lemma split_on_concat c l : l <> [] -> Forall (fun w => lacks c w = true) l -> split_on c (s_concat (chr1 c) l) = l.
Proof.
  intros Hne Hl. induction Hl as [|w l Hw Hl IH]; [done|]. destruct l as [|w' l]; [by apply split_on_lacks|].
  rewrite s_concat_cons. unfold chr1 at 1. rewrite s_app_cons, s_app_nil_l, split_on_app, IH by done.
  by rewrite split_on_lacks.
Qed.

Lemma partition_on_app c a b : lacks c a = true -> partition_on c (a +:+ String c b) = (a, true, b).
Proof.
  induction a as [|d a IH]; [simpl; by rewrite Ascii.eqb_refl|]. unfold lacks, is_char. rewrite s_app_cons. simpl.
  intros [Hd Ha]%andb_true_iff. apply negb_true_iff in Hd. by rewrite Hd, (IH Ha).
Qed.

Lemma partition_on_lacks c s : lacks c s = true -> partition_on c s = (s, false, EmptyString).
Proof.
  induction s as [|d s IH]; [done|]. unfold lacks, is_char. simpl. intros [Hd Hs]%andb_true_iff.
  apply negb_true_iff in Hd. by rewrite Hd, (IH Hs).
Qed.

Lemma partition_on_spec c s a b z : partition_on c s = (a, b, z) ->
  lacks c a = true /\ s = if b then a +:+ String c z else a.
Proof.
  revert a z. induction s as [|d s IH]; intros a z; simpl; [by intros [= <- <- <-]|].
  destruct (Ascii.eqb_spec c d) as [<-|Hne]; [by intros [= <- <- <-]|].
  destruct (partition_on c s) as [[a' b'] z']. intros [= <- <- <-].
  destruct (IH _ _ eq_refl) as [Ha ->]. unfold lacks, is_char in *. simpl.
  apply Ascii.eqb_neq in Hne. rewrite Hne. split; [done|]. by destruct b'.
Qed.

(** ** Lemmas on numerals *)

Lemma byte_of_char_of z : 0 <= z < 256 -> byte_of (char_of z) = z.
Proof. intros H. unfold byte_of, char_of. rewrite N_ascii_embedding, Z2N.id; lia. Qed.

Lemma byte_of_inj a b : byte_of a = byte_of b -> a = b.
Proof.
  unfold byte_of. intros H%N2Z.inj. rewrite <- (ascii_N_embedding a), H. apply ascii_N_embedding.
Qed.

Lemma byte_of_bound c : 0 <= byte_of c < 256.
Proof. unfold byte_of. pose proof (N_ascii_bounded c). lia. Qed.

Lemma byte_of_digit_of z : byte_of (digit_of z) = 48 + z mod 10.
Proof.
  pose proof (Z.mod_pos_bound z 10 ltac:(lia)). unfold digit_of. apply byte_of_char_of. lia.
Qed.

Lemma digit_of_is_digit z : is_digit (digit_of z) = true.
Proof.
  unfold is_digit, in_range. rewrite byte_of_digit_of.
  pose proof (Z.mod_pos_bound z 10 ltac:(lia)). lia.
Qed.

Lemma digit_value_of z : digit_value (digit_of z) = z mod 10.
Proof. unfold digit_value. rewrite byte_of_digit_of. lia. Qed.

Lemma pad_digits n z : s_forall is_digit (pad n z) = true.
Proof.
  revert z; induction n as [|n IH]; intros z; [done|].
  simpl pad. rewrite s_forall_app, IH. simpl. by rewrite digit_of_is_digit.
Qed.

Lemma to_int_nonnil z : Z.to_int z <> Decimal.Pos Decimal.Nil /\ Z.to_int z <> Decimal.Neg Decimal.Nil.
Proof.
  destruct z as [|p|p]; simpl; split; try done; intros [= H];
    by apply DecimalPos.Unsigned.to_uint_nonnil in H.
Qed.

Lemma read_show_Z z : read_Z (show_Z z) = Some z.
Proof.
  unfold read_Z, show_Z. destruct (to_int_nonnil z) as [H1 H2].
  rewrite NilZero.isi by done. simpl. by rewrite DecimalZ.of_to.
Qed.

Lemma show_Z_inj x y : show_Z x = show_Z y -> x = y.
Proof. intros H. apply (f_equal read_Z) in H. rewrite !read_show_Z in H. congruence. Qed.

Definition is_sign_digit (c : ascii) : bool := is_digit c || is_char "-" c.

Lemma show_Z_chars z : exists c s,
  show_Z z = String c s /\ is_sign_digit c = true /\ s_forall is_sign_digit s = true.
Proof.
  assert (forall d, s_forall is_sign_digit (NilEmpty.string_of_uint d) = true) as Hd
    by (induction d; simpl; done).
  assert (forall d, exists c s, NilZero.string_of_uint d = String c s /\
            is_sign_digit c = true /\ s_forall is_sign_digit s = true) as Hz.
  { destruct d; simpl; eauto. }
  unfold show_Z. destruct (Z.to_int z) as [d|d]; simpl; [apply Hz|].
  destruct (Hz d) as (c & s & -> & Hc & Hs). exists "-"%char, (String c s).
  split_and!; [done..|simpl]. by rewrite Hc, Hs.
Qed.
