(* ===== verification/Datetime.v ===== *)
(** * Instants, civil dates and ISO-8601 text

    The part of Python's [datetime] the program uses. An aware datetime in UTC is its number of
    microseconds since 1970-01-01T00:00:00+00:00; [datetime] is the general value, a wall clock
    reading with an optional UTC offset, as [datetime.fromisoformat] and YAML deliver it. *)

From S2P Require Import Prelude.

Record datetime := mk_datetime {
  dt_local : Z;              (* microseconds of the wall clock since 1970-01-01T00:00:00 *)
  dt_offset : option Z;      (* UTC offset in microseconds; None for a naive datetime *)
}.

(** ** The proleptic Gregorian calendar, as the reference implementation of [datetime] computes it *)

Definition is_leap (y : Z) : bool :=
  (y mod 4 =? 0) && (negb (y mod 100 =? 0) || (y mod 400 =? 0)).
Definition days_in_month_leap (leap : bool) (m : Z) : Z :=
  if m =? 2 then (if leap then 29 else 28)
  else if (m =? 4) || (m =? 6) || (m =? 9) || (m =? 11) then 30 else 31.
Definition days_in_month (y m : Z) : Z := days_in_month_leap (is_leap y) m.
Definition days_before_year (y : Z) : Z :=
  let y' := y - 1 in y' * 365 + y' / 4 - y' / 100 + y' / 400.
Definition days_before_month_table : list Z := [0; 0; 31; 59; 90; 120; 151; 181; 212; 243; 273; 304; 334].
Definition days_before_month (leap : bool) (m : Z) : Z :=
  default 0 (days_before_month_table !! Z.to_nat m) + (if (2 <? m) && leap then 1 else 0).

(** [date.toordinal]: 0001-01-01 is day 1. *)
Definition ymd2ord (y m d : Z) : Z := days_before_year y + days_before_month (is_leap y) m + d.

(** Month and day of the day [n] (from 0) of a year. *)
Definition month_day (leap : bool) (n : Z) : Z * Z :=
  let month := Z.shiftr (n + 50) 5 in
  let preceding := days_before_month leap month in
  if n <? preceding
  then let month' := month - 1 in
       (month', n - (preceding - days_in_month_leap leap month') + 1)
  else (month, n - preceding + 1).

Definition ord2ymd (ordinal : Z) : Z * Z * Z :=
  let n := ordinal - 1 in
  let n400 := n / 146097 in let n := n mod 146097 in
  let n100 := n / 36524 in let n := n mod 36524 in
  let n4 := n / 1461 in let n := n mod 1461 in
  let n1 := n / 365 in let n := n mod 365 in
  let year := n400 * 400 + 1 + n100 * 100 + n4 * 4 + n1 in
  if (n1 =? 4) || (n100 =? 4) then (year - 1, 12, 31)
  else let '(m, d) := month_day ((n1 =? 3) && (negb (n4 =? 24) || (n100 =? 3))) n in (year, m, d).

(** The ordinal of 1970-01-01. *)
Definition epoch_ordinal : Z := 719163.
Definition days_of_civil (y m d : Z) : Z := ymd2ord y m d - epoch_ordinal.
Definition civil_of_days (z : Z) : Z * Z * Z := ord2ymd (z + epoch_ordinal).

Definition valid_date (y m d : Z) : bool :=
  (1 <=? y) && (y <=? 9999) && (1 <=? m) && (m <=? 12) && (1 <=? d) && (d <=? days_in_month y m).

Definition us_per_second : Z := 1000000.
Definition us_per_day : Z := 86400000000.
(** 0001-01-01 and 10000-01-01: the bounds of [datetime.min] and [datetime.max]. *)
Definition min_us : Z := -719162 * us_per_day.
Definition max_us : Z := 2932897 * us_per_day.
Definition in_datetime_range (t : Z) : bool := (min_us <=? t) && (t <? max_us).

(** ** [datetime.isoformat] *)

Definition iso_time (us : Z) : string :=
  let s := us / us_per_second in
  let f := us mod us_per_second in
  pad 2 (s / 3600) +:+ ":" +:+ pad 2 (s / 60 mod 60) +:+ ":" +:+ pad 2 (s mod 60)
    +:+ (if f =? 0 then EmptyString else "." +:+ pad 6 f).

Definition iso_local (t : Z) : string :=
  let '(y, m, d) := civil_of_days (t / us_per_day) in
  pad 4 y +:+ "-" +:+ pad 2 m +:+ "-" +:+ pad 2 d +:+ "T" +:+ iso_time (t mod us_per_day).

(** [isoformat] of an aware UTC datetime. *)
Definition isoformat (t : Z) : string := iso_local t +:+ "+00:00".

(** ** [datetime.fromisoformat]

    The grammar of every supported Python version: YYYY-MM-DD, then optionally any separator
    character, HH[:MM[:SS[.fff[fff]]]] and an offset +HH:MM[:SS[.ffffff]]. *)

Fixpoint take_digits_from (n : nat) (acc : Z) (s : string) : option (Z * string) :=
  match n with
  | O => Some (acc, s)
  | S n' =>
      match s with
      | String c s' => if is_digit c then take_digits_from n' (acc * 10 + digit_value c) s' else None
      | EmptyString => None
      end
  end.
Definition take_digits (n : nat) (s : string) : option (Z * string) := take_digits_from n 0 s.

Definition take_char (c : ascii) (s : string) : option string :=
  match s with
  | String d s' => if Ascii.eqb c d then Some s' else None
  | EmptyString => None
  end.

(** After HH:MM:SS: an optional fraction of three or six digits. *)
Definition take_fraction (s : string) : option (Z * string) :=
  match take_char "."%char s with
  | None => Some (0, s)
  | Some s1 =>
      match take_digits 6 s1 with
      | Some r => Some r
      | None => '(ms, s2) ← take_digits 3 s1; Some (ms * 1000, s2)
      end
  end.

Definition clock_us (h mi s f : Z) : Z := ((h * 60 + mi) * 60 + s) * us_per_second + f.

Definition take_seconds (h mi : Z) (s : string) : option (Z * string) :=
  match take_char ":"%char s with
  | None => Some (clock_us h mi 0 0, s)
  | Some s1 =>
      '(sec, s2) ← take_digits 2 s1;
      '(f, s3) ← take_fraction s2;
      if sec <? 60 then Some (clock_us h mi sec f, s3) else None
  end.

Definition take_clock (minutes_required : bool) (s : string) : option (Z * string) :=
  '(h, s1) ← take_digits 2 s;
  if negb (h <? 24) then None else
  match take_char ":"%char s1 with
  | None => if minutes_required then None else Some (clock_us h 0 0 0, s1)
  | Some s2 =>
      '(mi, s3) ← take_digits 2 s2;
      if mi <? 60 then take_seconds h mi s3 else None
  end.

Definition take_offset (s : string) : option (option Z) :=
  match s with
  | EmptyString => Some None
  | String c s' =>
      '(o, rest) ← take_clock true s';
      if negb (s_is_empty rest) then None
      else if Ascii.eqb c "+"%char then Some (Some o)
      else if Ascii.eqb c "-"%char then Some (Some (- o))
      else None
  end.

Definition take_date (s : string) : option (Z * string) :=
  '(y, s1) ← take_digits 4 s;
  s2 ← take_char "-"%char s1;
  '(m, s3) ← take_digits 2 s2;
  s4 ← take_char "-"%char s3;
  '(d, s5) ← take_digits 2 s4;
  if valid_date y m d then Some (days_of_civil y m d * us_per_day, s5) else None.

Definition fromisoformat (s : string) : option datetime :=
  '(day, s1) ← take_date s;
  match s1 with
  | EmptyString | String _ EmptyString => Some (mk_datetime day None)
  | String _ s2 =>
      '(us, s3) ← take_clock false s2;
      o ← take_offset s3;
      Some (mk_datetime (day + us) o)
  end.

(** ** Lemmas *)

Definition month_day_ok (leap : bool) (n : Z) : bool :=
  let '(m, d) := month_day leap n in
  (days_before_month leap m + d =? n + 1) && (1 <=? m) && (m <=? 12)
    && (1 <=? d) && (d <=? days_in_month_leap leap m).

Fixpoint check_from (p : Z -> bool) (n : nat) (z : Z) : bool :=
  match n with
  | O => true
  | S n' => p z && check_from p n' (z + 1)
  end.

Lemma check_from_sound p n z : check_from p n z = true ->
  forall x, z <= x < z + Z.of_nat n -> p x = true.
Proof.
  revert z; induction n as [|n IH]; intros z H x Hx; simpl in *; [lia|].
  apply andb_true_iff in H as [H1 H2].
  destruct (decide (x = z)) as [->|]; [done|]. apply (IH (z + 1)); [done|lia].
Qed.

Lemma month_day_ok_all (leap : bool) n : 0 <= n < (if leap then 366 else 365) -> month_day_ok leap n = true.
Proof.
  intros H. destruct leap.
  - apply (check_from_sound _ (Z.to_nat 366) 0); [vm_compute; reflexivity|lia].
  - apply (check_from_sound _ (Z.to_nat 365) 0); [vm_compute; reflexivity|lia].
Qed.

Lemma days_before_year_split a b c d : 0 <= b <= 3 -> 0 <= c <= 24 -> 0 <= d <= 3 ->
  days_before_year (a * 400 + 1 + b * 100 + c * 4 + d) = a * 146097 + b * 36524 + c * 1461 + d * 365.
Proof.
  intros Hb Hc Hd. unfold days_before_year. cbv zeta.
  replace (a * 400 + 1 + b * 100 + c * 4 + d - 1) with (a * 400 + b * 100 + c * 4 + d) by ring.
  rewrite <- (Z.div_unique_pos _ 4 (a * 100 + b * 25 + c) d) by lia.
  rewrite <- (Z.div_unique_pos _ 100 (a * 4 + b) (c * 4 + d)) by lia.
  rewrite <- (Z.div_unique_pos _ 400 a (b * 100 + c * 4 + d)) by lia. ring.
Qed.

Lemma is_leap_split a b c d : 0 <= b <= 3 -> 0 <= c <= 24 -> 0 <= d <= 3 ->
  is_leap (a * 400 + 1 + b * 100 + c * 4 + d) = (d =? 3) && (negb (c =? 24) || (b =? 3)).
Proof.
  intros Hb Hc Hd. unfold is_leap.
  destruct (decide (d = 3)) as [->|Hd3].
  - rewrite <- (Z.mod_unique_pos _ 4 (a * 100 + b * 25 + c + 1) 0) by lia.
    destruct (decide (c = 24)) as [->|Hc24].
    + rewrite <- (Z.mod_unique_pos _ 100 (a * 4 + b + 1) 0) by lia.
      destruct (decide (b = 3)) as [->|Hb3].
      * rewrite <- (Z.mod_unique_pos _ 400 (a + 1) 0) by lia. done.
      * rewrite <- (Z.mod_unique_pos _ 400 a (b * 100 + 100)) by lia. lia.
    + rewrite <- (Z.mod_unique_pos _ 100 (a * 4 + b) (c * 4 + 4)) by lia. lia.
  - rewrite <- (Z.mod_unique_pos _ 4 (a * 100 + b * 25 + c) (d + 1)) by lia. lia.
Qed.

(** The two days the quotients overshoot on: 31 December of a leap year that ends a cycle. *)
Lemma ymd2ord_year_end y : ymd2ord y 12 31 = days_before_year (y + 1).
Proof.
  unfold ymd2ord, days_before_year, days_before_month, is_leap. cbv zeta.
  change (default 0 (days_before_month_table !! Z.to_nat 12)) with 334.
  replace (y + 1 - 1) with y by ring.
  pose proof (Z.div_mod y 4 ltac:(lia)). pose proof (Z.div_mod y 100 ltac:(lia)).
  pose proof (Z.div_mod y 400 ltac:(lia)).
  pose proof (Z.mod_pos_bound y 4 ltac:(lia)). pose proof (Z.mod_pos_bound y 100 ltac:(lia)).
  pose proof (Z.mod_pos_bound y 400 ltac:(lia)).
  assert (forall k r, 0 < k -> 0 <= r < k -> forall q, y = k * q + r ->
            (y - 1) / k = if r =? 0 then q - 1 else q) as Hpred.
  { intros k r Hk Hr q ->. destruct (r =? 0) eqn:E; symmetry.
    - apply (Z.div_unique_pos _ k (q - 1) (k - 1)); lia.
    - apply (Z.div_unique_pos _ k q (r - 1)); lia. }
  rewrite (Hpred 4 (y mod 4) ltac:(lia) ltac:(lia) (y / 4) ltac:(lia)).
  rewrite (Hpred 100 (y mod 100) ltac:(lia) ltac:(lia) (y / 100) ltac:(lia)).
  rewrite (Hpred 400 (y mod 400) ltac:(lia) ltac:(lia) (y / 400) ltac:(lia)).
  set (m4 := y mod 4) in *. set (m100 := y mod 100) in *. set (m400 := y mod 400) in *.
  destruct (m4 =? 0) eqn:E4, (m100 =? 0) eqn:E100, (m400 =? 0) eqn:E400; simpl; lia.
Qed.

Lemma days_of_civil_of_days z y m d : civil_of_days z = (y, m, d) ->
  days_of_civil y m d = z /\ 1 <= m <= 12 /\ 1 <= d <= days_in_month y m.
Proof.
  unfold civil_of_days, days_of_civil, ord2ymd. cbv zeta.
  set (n := z + epoch_ordinal - 1). intros H.
  set (a := n / 146097) in *. set (n1 := n mod 146097) in *.
  set (b := n1 / 36524) in *. set (n2 := n1 mod 36524) in *.
  set (c := n2 / 1461) in *. set (n3 := n2 mod 1461) in *.
  set (e := n3 / 365) in *. set (n4 := n3 mod 365) in *.
  assert (n = 146097 * a + n1 /\ 0 <= n1 < 146097) as [Hn Hn1]
    by (split; [apply Z.div_mod; lia|apply Z.mod_pos_bound; lia]).
  assert (n1 = 36524 * b + n2 /\ 0 <= n2 < 36524) as [Hb Hn2]
    by (split; [apply Z.div_mod; lia|apply Z.mod_pos_bound; lia]).
  assert (n2 = 1461 * c + n3 /\ 0 <= n3 < 1461) as [Hc Hn3]
    by (split; [apply Z.div_mod; lia|apply Z.mod_pos_bound; lia]).
  assert (n3 = 365 * e + n4 /\ 0 <= n4 < 365) as [He Hn4]
    by (split; [apply Z.div_mod; lia|apply Z.mod_pos_bound; lia]).
  clearbody a b c e n1 n2 n3 n4.
  destruct ((e =? 4) || (b =? 4)) eqn:E.
  - injection H as <- <- <-. rewrite ymd2ord_year_end. split; [|split; [lia|done]].
    replace (a * 400 + 1 + b * 100 + c * 4 + e - 1 + 1) with (a * 400 + 1 + b * 100 + c * 4 + e) by ring.
    destruct (decide (b = 4)) as [->|Hb4].
    + assert (c = 0 /\ e = 0 /\ n4 = 0) as (-> & -> & ->) by lia.
      replace (a * 400 + 1 + 4 * 100 + 0 * 4 + 0) with ((a + 1) * 400 + 1 + 0 * 100 + 0 * 4 + 0) by ring.
      rewrite days_before_year_split by lia. unfold epoch_ordinal in *. lia.
    + assert (e = 4 /\ n4 = 0) as [-> ->] by lia.
      assert (0 <= b <= 3) by lia. assert (0 <= c <= 24) by lia.
      destruct (decide (c = 24)) as [->|Hc24]; [lia|].
      replace (a * 400 + 1 + b * 100 + c * 4 + 4) with (a * 400 + 1 + b * 100 + (c + 1) * 4 + 0) by ring.
      rewrite days_before_year_split by lia. unfold epoch_ordinal in *. lia.
  - assert (0 <= b <= 3 /\ 0 <= c <= 24 /\ 0 <= e <= 3) as (? & ? & ?) by lia.
    set (leap := (e =? 3) && (negb (c =? 24) || (b =? 3))) in *.
    destruct (month_day leap n4) as [m0 d0] eqn:Emd. injection H as <- <- <-.
    pose proof (month_day_ok_all leap n4) as Hok. unfold month_day_ok in Hok. rewrite Emd in Hok.
    unfold ymd2ord, days_in_month.
    rewrite days_before_year_split, is_leap_split by lia. fold leap.
    specialize (Hok ltac:(destruct leap; lia)). unfold epoch_ordinal in *. lia.
Qed.

Lemma take_digits_from_pad n z acc rest : 0 <= z ->
  take_digits_from n acc (pad n z +:+ rest) = Some (acc * 10 ^ Z.of_nat n + z mod 10 ^ Z.of_nat n, rest).
Proof.
  revert z acc rest; induction n as [|n IH]; intros z acc rest Hz.
  - simpl. rewrite Z.mod_1_r, s_app_nil_l. do 2 f_equal. lia.
  - cbn [pad]. rewrite s_app_assoc.
    assert (forall k a s, take_digits_from (S k) a s =
              '(a', s') ← take_digits_from k a s; take_digits_from 1 a' s') as Hsplit.
    { clear. intros k. induction k as [|k IHk]; intros a s; [done|].
      cbn [take_digits_from]. destruct s as [|c s]; [done|]. destruct (is_digit c); [|done].
      rewrite <- IHk. done. }
    rewrite Hsplit, IH by (apply Z.div_pos; lia). cbn [mbind option_bind].
    unfold chr1. rewrite s_app_cons, s_app_nil_l. cbn [take_digits_from].
    rewrite digit_of_is_digit, digit_value_of. do 2 f_equal.
    rewrite Nat2Z.inj_succ, Z.pow_succ_r by lia.
    rewrite (Z.rem_mul_r z 10 (10 ^ Z.of_nat n)) by lia. ring.
Qed.

Lemma take_digits_pad n z rest : 0 <= z < 10 ^ Z.of_nat n ->
  take_digits n (pad n z +:+ rest) = Some (z, rest).
Proof.
  intros H. unfold take_digits. rewrite take_digits_from_pad by lia.
  rewrite Z.mod_small by lia. done.
Qed.

Lemma days_before_year_mono y1 y2 : y1 <= y2 -> days_before_year y1 <= days_before_year y2.
Proof.
  intros H. rewrite <- (Z.sub_add y1 y2), Z.add_comm.
  generalize (Zle_minus_le_0 _ _ H). generalize (y2 - y1) as k. clear H y2.
  apply natlike_ind; [rewrite Z.add_0_r; lia|].
  intros k Hk IH. rewrite Z.add_succ_r, <- Z.add_1_r, <- ymd2ord_year_end.
  unfold ymd2ord, days_before_month.
  change (default 0 (days_before_month_table !! Z.to_nat 12)) with 334. destruct (is_leap _); simpl; lia.
Qed.

Lemma civil_year_bounds z y m d : civil_of_days z = (y, m, d) -> -719162 <= z < 2932897 -> 1 <= y <= 9999.
Proof.
  intros H Hz. apply days_of_civil_of_days in H as (H & Hm & Hd).
  unfold days_of_civil, ymd2ord, epoch_ordinal in H.
  assert (0 <= days_before_month (is_leap y) m /\
          days_before_month (is_leap y) m + days_in_month y m <= 366) as [Hlo Hhi].
  { unfold days_in_month. destruct (is_leap y);
      assert (m = 1 \/ m = 2 \/ m = 3 \/ m = 4 \/ m = 5 \/ m = 6 \/ m = 7 \/ m = 8 \/ m = 9
              \/ m = 10 \/ m = 11 \/ m = 12) as Hcases by lia;
      repeat (destruct Hcases as [->|Hcases]; [vm_compute; by split|]); subst m; vm_compute; by split. }
  assert (days_before_year y <= 719163 + z - 1) as Hle by lia.
  assert (719163 + z - 366 <= days_before_year y) as Hge by lia.
  split; apply Z.nlt_ge; intros Hy.
  - pose proof (days_before_year_mono y 0 ltac:(lia)) as Hmono.
    change (days_before_year 0) with (-366) in Hmono. lia.
  - pose proof (days_before_year_mono 10000 y ltac:(lia)) as Hmono.
    change (days_before_year 10000) with 3652059 in Hmono. lia.
Qed.

Lemma take_char_cons c s : take_char c (String c s) = Some s.
Proof. simpl. by rewrite Ascii.eqb_refl. Qed.

Lemma take_date_iso z y m d rest : civil_of_days z = (y, m, d) -> -719162 <= z < 2932897 ->
  take_date (pad 4 y +:+ "-" +:+ pad 2 m +:+ "-" +:+ pad 2 d +:+ rest) = Some (z * us_per_day, rest).
Proof.
  intros Hc Hz. pose proof (civil_year_bounds _ _ _ _ Hc Hz) as Hy.
  apply days_of_civil_of_days in Hc as (Hd & Hm & Hdm).
  assert (days_in_month y m <= 31) by (unfold days_in_month, days_in_month_leap; repeat case_match; lia).
  unfold take_date. rewrite take_digits_pad by lia. cbn [mbind option_bind].
  rewrite s_app_cons, s_app_nil_l, take_char_cons. cbn [mbind option_bind].
  rewrite take_digits_pad by lia. cbn [mbind option_bind].
  rewrite s_app_cons, s_app_nil_l, take_char_cons. cbn [mbind option_bind].
  rewrite take_digits_pad by lia. cbn [mbind option_bind].
  replace (valid_date y m d) with true by (unfold valid_date; lia). by rewrite Hd.
Qed.

Lemma take_fraction_iso f rest : 0 <= f < us_per_second -> take_char "."%char rest = None ->
  take_fraction ((if f =? 0 then EmptyString else "." +:+ pad 6 f) +:+ rest) = Some (f, rest).
Proof.
  intros Hf Hrest. unfold take_fraction. destruct (f =? 0) eqn:E.
  - rewrite s_app_nil_l, Hrest. do 2 f_equal. lia.
  - rewrite !s_app_cons, s_app_nil_l, take_char_cons, take_digits_pad; [done|].
    unfold us_per_second in Hf. change (10 ^ Z.of_nat 6) with 1000000. lia.
Qed.

Lemma take_clock_iso us rest : 0 <= us < us_per_day -> take_char "."%char rest = None ->
  take_clock false (iso_time us +:+ rest) = Some (us, rest).
Proof.
  intros Hus Hrest. unfold us_per_day in Hus. unfold iso_time, take_clock, take_seconds.
  pose proof (Z.div_mod us us_per_second ltac:(done)) as Hdiv.
  pose proof (Z.mod_pos_bound us us_per_second ltac:(done)) as Hf.
  set (s := us / us_per_second) in *. set (f := us mod us_per_second) in *.
  assert (0 <= s < 86400) as Hs by (unfold us_per_second in *; lia).
  pose proof (Z.mod_pos_bound (s / 60) 60 ltac:(lia)). pose proof (Z.mod_pos_bound s 60 ltac:(lia)).
  assert (0 <= s / 3600 < 24) by (split; [apply Z.div_pos; lia|apply Z.div_lt_upper_bound; lia]).
  rewrite !s_app_assoc, take_digits_pad by (change (10 ^ Z.of_nat 2) with 100; lia).
  cbn [mbind option_bind]. replace (s / 3600 <? 24) with true by lia. cbn [negb].
  rewrite s_app_cons, s_app_nil_l, take_char_cons, take_digits_pad by (change (10 ^ Z.of_nat 2) with 100; lia).
  cbn [mbind option_bind]. replace (s / 60 mod 60 <? 60) with true by lia.
  rewrite s_app_cons, s_app_nil_l, take_char_cons, take_digits_pad by (change (10 ^ Z.of_nat 2) with 100; lia).
  cbn [mbind option_bind]. rewrite take_fraction_iso by done.
  cbn [mbind option_bind]. replace (s mod 60 <? 60) with true by lia.
  do 2 f_equal. unfold clock_us.
  pose proof (Z.div_mod s 60 ltac:(lia)). pose proof (Z.div_mod (s / 60) 60 ltac:(lia)).
  replace (s / 60 / 60) with (s / 3600) in * by (rewrite Z.div_div by lia; done).
  rewrite Hdiv. unfold us_per_second. lia.
Qed.

(** [fromisoformat] reads back every timestamp that [isoformat] writes. *)
Lemma fromisoformat_isoformat t : in_datetime_range t = true ->
  fromisoformat (isoformat t) = Some (mk_datetime t (Some 0)).
Proof.
  intros Hr. unfold in_datetime_range, min_us, max_us in Hr.
  assert (-719162 <= t / us_per_day < 2932897) as Hd.
  { split; [apply Z.div_le_lower_bound|apply Z.div_lt_upper_bound]; unfold us_per_day in *; lia. }
  pose proof (Z.mod_pos_bound t us_per_day ltac:(done)) as Hm.
  unfold isoformat, iso_local, fromisoformat.
  destruct (civil_of_days (t / us_per_day)) as [[y m] d] eqn:Hc.
  rewrite !s_app_assoc, (take_date_iso _ _ _ _ _ Hc Hd). cbn [mbind option_bind].
  rewrite !s_app_cons, !s_app_nil_l.
  assert (exists c s, iso_time (t mod us_per_day) +:+ "+00:00" = String c s) as (c & s & Heq).
  { unfold iso_time. cbn [pad]. rewrite !s_app_assoc. unfold chr1. rewrite s_app_cons. eauto. }
  pose proof (take_clock_iso (t mod us_per_day) "+00:00" Hm eq_refl) as Htc.
  rewrite Heq in *. rewrite Htc. cbn [mbind option_bind].
  change (take_offset "+00:00") with (Some (Some 0)). cbn [mbind option_bind].
  do 2 f_equal. pose proof (Z.div_mod t us_per_day ltac:(done)). lia.
Qed.
