(* ===== verification/Regex.v ===== *)
(** * Regular expressions

    The validation rules of the program are anchored regular expressions. This file holds their
    syntax, a denotational semantics [re_in], a derivative-based matcher that decides it, and the
    two ways the source applies a pattern: [re.fullmatch(p, s)], and [re.match] of a pattern that
    ends in a dollar sign, which also accepts one newline at the end of the string. *)

From S2P Require Import Prelude.

Inductive re :=
| Never
| Eps
| Chr (p : ascii -> bool)
| Cat (r1 r2 : re)
| Alt (r1 r2 : re)
| Star (r : re).

Inductive re_in : re -> string -> Prop :=
| in_eps : re_in Eps EmptyString
| in_chr p c : p c = true -> re_in (Chr p) (chr1 c)
| in_cat r1 r2 s1 s2 : re_in r1 s1 -> re_in r2 s2 -> re_in (Cat r1 r2) (s1 +:+ s2)
| in_alt_l r1 r2 s : re_in r1 s -> re_in (Alt r1 r2) s
| in_alt_r r1 r2 s : re_in r2 s -> re_in (Alt r1 r2) s
| in_star_nil r : re_in (Star r) EmptyString
| in_star_cons r s1 s2 : re_in r s1 -> re_in (Star r) s2 -> re_in (Star r) (s1 +:+ s2).

(** ** Shorthands for the source's patterns *)

Definition opt (r : re) : re := Alt Eps r.
Definition plus (r : re) : re := Cat r (Star r).
Definition lit (c : ascii) : re := Chr (is_char c).
Fixpoint text (s : string) : re :=
  match s with EmptyString => Eps | String c s' => Cat (lit c) (text s') end.
(** r{0,n} and r{n} *)
Fixpoint up_to (n : nat) (r : re) : re :=
  match n with O => Eps | S n' => opt (Cat r (up_to n' r)) end.
Fixpoint times (n : nat) (r : re) : re :=
  match n with O => Eps | S n' => Cat r (times n' r) end.

(** ** The matcher *)

Definition cat (r1 r2 : re) : re :=
  match r1, r2 with
  | Never, _ => Never
  | _, Never => Never
  | Eps, r => r
  | r, Eps => r
  | _, _ => Cat r1 r2
  end.
Definition alt (r1 r2 : re) : re :=
  match r1, r2 with
  | Never, r => r
  | r, Never => r
  | _, _ => Alt r1 r2
  end.

Fixpoint nullable (r : re) : bool :=
  match r with
  | Never | Chr _ => false
  | Eps | Star _ => true
  | Cat r1 r2 => nullable r1 && nullable r2
  | Alt r1 r2 => nullable r1 || nullable r2
  end.

Fixpoint deriv (c : ascii) (r : re) : re :=
  match r with
  | Never | Eps => Never
  | Chr p => if p c then Eps else Never
  | Cat r1 r2 =>
      if nullable r1 then alt (cat (deriv c r1) r2) (deriv c r2) else cat (deriv c r1) r2
  | Alt r1 r2 => alt (deriv c r1) (deriv c r2)
  | Star r1 => cat (deriv c r1) (Star r1)
  end.

Fixpoint fullmatch (r : re) (s : string) : bool :=
  match s with
  | EmptyString => nullable r
  | String c s' => fullmatch (deriv c r) s'
  end.

Definition drop_newline (s : string) : option string :=
  match s_rev s with
  | String c s' => if Ascii.eqb newline c then Some (s_rev s') else None
  | EmptyString => None
  end.
Definition match_dollar (r : re) (s : string) : bool :=
  fullmatch r s || match drop_newline s with Some s' => fullmatch r s' | None => false end.

(** ** The matcher decides the semantics *)

Lemma re_in_cat_iff r1 r2 s : re_in (Cat r1 r2) s <->
  exists s1 s2, s = s1 +:+ s2 /\ re_in r1 s1 /\ re_in r2 s2.
Proof.
  split; [|intros (s1 & s2 & -> & H1 & H2); by constructor].
  remember (Cat r1 r2) as r eqn:E. destruct 1; try done. injection E as -> ->. eauto.
Qed.

Lemma re_in_chr_iff p s : re_in (Chr p) s <-> exists c, s = chr1 c /\ p c = true.
Proof.
  split; [|intros (c & -> & H); by constructor].
  remember (Chr p) as r eqn:E. destruct 1; try done. injection E as ->. eauto.
Qed.

Ltac inv_empty :=
  match goal with
  | H : re_in Never _ |- _ => inversion H
  | H : re_in Eps _ |- _ => inversion H; subst; clear H
  end.

Lemma re_in_cat_smart r1 r2 s : re_in (cat r1 r2) s <-> re_in (Cat r1 r2) s.
Proof.
  assert (forall r, re_in (Cat Never r) s -> False) as Hl by (intros r H; inversion H; subst; inv_empty).
  assert (forall r, re_in (Cat r Never) s -> False) as Hr by (intros r H; inversion H; subst; inv_empty).
  assert (forall r, re_in (Cat Eps r) s <-> re_in r s) as Hel.
  { intros r; split; [intros H; inversion H; subst; by inv_empty|].
    intros H. rewrite <- (s_app_nil_l s). by repeat constructor. }
  assert (forall r, re_in (Cat r Eps) s <-> re_in r s) as Her.
  { intros r; split; [intros H; inversion H; subst; inv_empty; by rewrite s_app_nil_r|].
    intros H. rewrite <- (s_app_nil_r s). by repeat constructor. }
  assert (re_in Never s -> False) as Hn by (by inversion 1).
  destruct r1; destruct r2; simpl;
    first [reflexivity | (symmetry; apply Hel) | (symmetry; apply Her)
          | (split; intros H; exfalso; eauto)].
Qed.

Lemma re_in_alt_iff r1 r2 s : re_in (Alt r1 r2) s <-> re_in r1 s \/ re_in r2 s.
Proof. split; [inversion 1; auto|intros [?|?]; eauto using re_in]. Qed.

Lemma re_in_alt_smart r1 r2 s : re_in (alt r1 r2) s <-> re_in r1 s \/ re_in r2 s.
Proof.
  assert (re_in Never s -> False) as Hn by (by inversion 1).
  destruct r1; destruct r2; simpl; rewrite ?re_in_alt_iff; tauto.
Qed.

Lemma nullable_spec r : nullable r = true <-> re_in r EmptyString.
Proof.
  induction r as [| |p|r1 IH1 r2 IH2|r1 IH1 r2 IH2|r IH]; simpl.
  - split; [done|by inversion 1].
  - split; [constructor|done].
  - split; [done|by inversion 1].
  - rewrite andb_true_iff, IH1, IH2. split.
    + intros [H1 H2]. rewrite <- (s_app_nil_l EmptyString). by constructor.
    + intros (s1 & s2 & E & H1 & H2)%re_in_cat_iff.
      destruct s1; [|done]. rewrite s_app_nil_l in E. by subst.
  - by rewrite orb_true_iff, IH1, IH2, re_in_alt_iff.
  - split; [constructor|done].
Qed.

(** The unfolding of a non-empty word of a starred expression. *)
Lemma re_in_star_cons_inv r c s : re_in (Star r) (String c s) ->
  exists s1 s2, s = s1 +:+ s2 /\ re_in r (String c s1) /\ re_in (Star r) s2.
Proof.
  remember (Star r) as q eqn:Eq. remember (String c s) as w eqn:Ew. intros H. revert c s Ew.
  induction H as [| | | | | |q0 s1 s2 H1 _ H2 IH2]; intros c0 s0 Ew; try done.
  injection Eq as ->. destruct s1 as [|d s1].
  - rewrite s_app_nil_l in Ew. by apply IH2.
  - rewrite s_app_cons in Ew. injection Ew as -> <-. eauto.
Qed.

Lemma re_in_cat_cons_iff r1 r2 c s : re_in (Cat r1 r2) (String c s) <->
  (exists s1 s2, s = s1 +:+ s2 /\ re_in r1 (String c s1) /\ re_in r2 s2)
  \/ (re_in r1 EmptyString /\ re_in r2 (String c s)).
Proof.
  split.
  - intros (s1 & s2 & E & H1 & H2)%re_in_cat_iff. destruct s1 as [|d s1].
    + rewrite s_app_nil_l in E. subst. by right.
    + rewrite s_app_cons in E. injection E as -> ->. left. eauto.
  - intros [(s1 & s2 & -> & H1 & H2)|[H1 H2]].
    + rewrite <- s_app_cons. by constructor.
    + rewrite <- (s_app_nil_l (String c s)). by constructor.
Qed.

Lemma deriv_spec c r s : re_in (deriv c r) s <-> re_in r (String c s).
Proof.
  revert s. induction r as [| |p|r1 IH1 r2 IH2|r1 IH1 r2 IH2|r IH]; intros s; simpl.
  - split; by inversion 1.
  - split; by inversion 1.
  - destruct (p c) eqn:E.
    + rewrite re_in_chr_iff. split; [inversion 1; subst; eauto|].
      intros (d & [= -> ->] & _). constructor.
    + rewrite re_in_chr_iff. split; [by inversion 1|]. intros (d & [= <- _] & H). congruence.
  - assert (re_in (cat (deriv c r1) r2) s <->
      exists s1 s2, s = s1 +:+ s2 /\ re_in r1 (String c s1) /\ re_in r2 s2) as Hcat.
    { rewrite re_in_cat_smart, re_in_cat_iff. by setoid_rewrite IH1. }
    rewrite re_in_cat_cons_iff, <- nullable_spec, <- Hcat.
    destruct (nullable r1); rewrite ?re_in_alt_smart, ?IH2; intuition discriminate.
  - by rewrite re_in_alt_smart, re_in_alt_iff, IH1, IH2.
  - rewrite re_in_cat_smart. split.
    + intros (s1 & s2 & -> & H1 & H2)%re_in_cat_iff.
      rewrite <- s_app_cons. constructor; [by apply IH|done].
    + intros (s1 & s2 & -> & H1 & H2)%re_in_star_cons_inv. constructor; [by apply IH|done].
Qed.

Lemma fullmatch_spec r s : fullmatch r s = true <-> re_in r s.
Proof.
  revert r; induction s as [|c s IH]; intros r; simpl; [apply nullable_spec|].
  by rewrite IH, deriv_spec.
Qed.

Lemma drop_newline_spec s t : drop_newline s = Some t <-> s = t +:+ chr1 newline.
Proof.
  unfold drop_newline. split.
  - intros H. destruct (s_rev s) as [|c s'] eqn:E; [done|].
    destruct (Ascii.eqb newline c) eqn:Ec; [|done]. apply Ascii.eqb_eq in Ec as <-. injection H as <-.
    by rewrite <- (s_rev_involutive s), E, s_rev_cons.
  - intros ->. rewrite s_rev_app. change (s_rev (chr1 newline)) with (chr1 newline).
    unfold chr1 at 1. rewrite s_app_cons, s_app_nil_l, Ascii.eqb_refl. by rewrite s_rev_involutive.
Qed.

Lemma match_dollar_spec r s :
  match_dollar r s = true <-> re_in r s \/ exists t, s = t +:+ chr1 newline /\ re_in r t.
Proof.
  unfold match_dollar. rewrite orb_true_iff, fullmatch_spec.
  split; (intros [H|H]; [by left|right]).
  - destruct (drop_newline s) as [t|] eqn:E; [|done]. exists t. by rewrite <- drop_newline_spec, <- fullmatch_spec.
  - destruct H as (t & ->%drop_newline_spec & H). by apply fullmatch_spec.
Qed.

(** ** Reasoning about the characters of a match *)

Fixpoint re_over (p : ascii -> bool) (r : re) : Prop :=
  match r with
  | Never | Eps => True
  | Chr q => forall c, q c = true -> p c = true
  | Cat r1 r2 | Alt r1 r2 => re_over p r1 /\ re_over p r2
  | Star r1 => re_over p r1
  end.

Lemma re_over_forall p r s : re_over p r -> re_in r s -> s_forall p s = true.
Proof.
  intros Hp H. induction H; simpl in *; try tauto.
  - by rewrite Hp.
  - destruct Hp. rewrite s_forall_app, IHre_in1, IHre_in2; done.
  - rewrite s_forall_app, IHre_in1, IHre_in2; done.
Qed.

Lemma match_dollar_over p r s : re_over p r -> p newline = true -> match_dollar r s = true -> s_forall p s = true.
Proof.
  intros Hr Hp [Hin|(t & -> & Hin)]%match_dollar_spec; [by eapply re_over_forall|].
  rewrite s_forall_app, (re_over_forall p r t) by done. simpl. by rewrite Hp.
Qed.

(** [re_sim f r r']: [r'] is [r] with every character class sent through [f]. *)
Fixpoint re_sim (f : ascii -> ascii) (r r' : re) : Prop :=
  match r, r' with
  | Never, Never | Eps, Eps => True
  | Chr p, Chr q => forall c, p c = true -> q (f c) = true
  | Cat r1 r2, Cat q1 q2 | Alt r1 r2, Alt q1 q2 => re_sim f r1 q1 /\ re_sim f r2 q2
  | Star r1, Star q1 => re_sim f r1 q1
  | _, _ => False
  end.

Lemma s_map_app f s t : s_map f (s +:+ t) = s_map f s +:+ s_map f t.
Proof. induction s as [|c s IH]; [done|]. rewrite s_app_cons. simpl. by rewrite IH. Qed.

Lemma re_sim_map f r r' s : re_sim f r r' -> re_in r s -> re_in r' (s_map f s).
Proof.
  intros Hs H. revert r' Hs.
  induction H; intros r'; destruct r'; simpl; try done; rewrite ?s_map_app;
    intros Hs; try destruct Hs; eauto using re_in.
Qed.

Lemma s_map_map f g s : s_forall (fun c => Ascii.eqb (g (f c)) c) s = true -> s_map g (s_map f s) = s.
Proof.
  induction s as [|c s IH]; simpl; [done|]. intros [Hc Hs]%andb_true_iff.
  apply Ascii.eqb_eq in Hc. by rewrite Hc, IH.
Qed.
