(* ===== verification/PyVal.v ===== *)
(** * Dynamically typed values and canonical JSON

    The values a request, a contract document or a JSON body can hold, the dictionary operations
    the program uses on them, [canonical_json] of src/capgate/request.py, and [json.loads]. *)

From S2P Require Import Prelude Datetime Regex.

(** ** Values *)

(** A float is identified by its [repr]; [NonFinite] holds the infinities and NaN. *)
Inductive pyfloat :=
| Finite (repr : string)
| NonFinite (repr : string).

Inductive pyval :=
| PNone
| PBool (b : bool)
| PInt (z : Z)
| PFloat (f : pyfloat)
| PStr (s : string)
| PList (l : list pyval)
| PTuple (l : list pyval)
| PDict (d : list (string * pyval))
| PDatetime (t : datetime)
| PDate (t : datetime)
| POther (repr : string).        (* any other object, known by its repr *)

(** ** Dictionaries: insertion ordered, keys distinct *)

Abbreviation dict V := (list (string * V)).

Fixpoint dget {V} (k : string) (d : dict V) : option V :=
  match d with
  | [] => None
  | (k', v) :: d' => if String.eqb k k' then Some v else dget k d'
  end.
(** [d[k] = v] keeps the position of a present key and appends a new one. *)
Fixpoint dset {V} (k : string) (v : V) (d : dict V) : dict V :=
  match d with
  | [] => [(k, v)]
  | (k', v') :: d' => if String.eqb k k' then (k', v) :: d' else (k', v') :: dset k v d'
  end.
Fixpoint ddel {V} (k : string) (d : dict V) : dict V :=
  match d with
  | [] => []
  | (k', v) :: d' => if String.eqb k k' then d' else (k', v) :: ddel k d'
  end.
Definition dkeys {V} (d : dict V) : list string := map fst d.
Definition dvalues {V} (d : dict V) : list V := map snd d.
Definition dmem {V} (k : string) (d : dict V) : bool := match dget k d with Some _ => true | None => false end.
(** [{**d, **e}] and [d.update(e)] *)
Definition dupdate {V} (d e : dict V) : dict V := foldl (fun acc '(k, v) => dset k v acc) d e.
(** [d.get(k)] on a dictionary of dynamic values. *)
Definition pget (k : string) (d : dict pyval) : pyval := default PNone (dget k d).
(** [set(d) - allowed], sorted, as the error messages list it. *)
Definition unknown_keys {V} (allowed : list string) (d : dict V) : list string :=
  sorted_strs (List.filter (fun k => negb (str_in k allowed)) (dkeys d)).

(** ** Dynamic type tests and conversions *)

Definition is_none (v : pyval) : bool := match v with PNone => true | _ => false end.
Definition as_str (v : pyval) : option string := match v with PStr s => Some s | _ => None end.
Definition as_dict (v : pyval) : option (dict pyval) := match v with PDict d => Some d | _ => None end.
Definition as_int (v : pyval) : option Z :=      (* isinstance(v, int): a bool is an int *)
  match v with PInt z => Some z | PBool b => Some (if b then 1 else 0) | _ => None end.
Definition as_sequence (v : pyval) : option (list pyval) :=
  match v with PList l | PTuple l => Some l | _ => None end.
Definition all_strs (l : list pyval) : option (list string) := mapM as_str l.
Definition ostr (o : option string) : pyval := match o with Some s => PStr s | None => PNone end.
Definition pstrs (l : list string) : pyval := PList (map PStr l).

(** [bool(v)] *)
Definition truthy (v : pyval) : bool :=
  match v with
  | PNone => false
  | PBool b => b
  | PInt z => negb (z =? 0)
  | PFloat (Finite r) => negb (String.eqb r "0.0" || String.eqb r "-0.0")
  | PStr s => negb (s_is_empty s)
  | PList l | PTuple l => negb (match l with [] => true | _ => false end)
  | PDict d => negb (match d with [] => true | _ => false end)
  | _ => true
  end.

(** [v or {}], then asked for a key: only a mapping has [get]. *)
Definition or_mapping (v : pyval) : result (dict pyval) :=
  if truthy v then match v with PDict d => Ok d | _ => Raise (AttributeError "object has no attribute 'get'") end
  else Ok [].

(** ** Text of values in messages *)

Definition hex_digit (z : Z) : ascii := char_of (if z <? 10 then 48 + z else 87 + z).
Definition hex2 (z : Z) : string := String (hex_digit (z / 16)) (chr1 (hex_digit (z mod 16))).

Definition backslash : ascii := char_of 92.
Definition squote : ascii := char_of 39.

(** [repr] of a string: single quotes unless that would need an escape and double quotes do not. *)
Fixpoint repr_chars (quote : ascii) (s : string) : string :=
  match s with
  | EmptyString => EmptyString
  | String c s' =>
      (if Ascii.eqb c quote || Ascii.eqb c backslash then String backslash (chr1 c)
       else if byte_of c =? 10 then String backslash "n"
       else if byte_of c =? 13 then String backslash "r"
       else if byte_of c =? 9 then String backslash "t"
       else if (byte_of c <? 32) || (byte_of c =? 127) then String backslash (String "x" (hex2 (byte_of c)))
       else chr1 c) +:+ repr_chars quote s'
  end.
Definition repr_str (s : string) : string :=
  let quote := if s_exists (is_char squote) s && negb (s_exists (is_char dquote) s) then dquote else squote in
  String quote (repr_chars quote s +:+ chr1 quote).
Definition repr_strs (l : list string) : string := "[" +:+ s_concat ", " (map repr_str l) +:+ "]".

Definition repr_timedelta (us : Z) : string :=
  let d := us / us_per_day in
  let s := us mod us_per_day / us_per_second in
  let f := us mod us_per_second in
  let parts := (if d =? 0 then [] else ["days=" +:+ show_Z d])
            ++ (if s =? 0 then [] else ["seconds=" +:+ show_Z s])
            ++ (if f =? 0 then [] else ["microseconds=" +:+ show_Z f]) in
  "datetime.timedelta(" +:+ (match parts with [] => "0" | _ => s_concat ", " parts end) +:+ ")".
Definition repr_datetime (t : datetime) : string :=
  let '(y, m, d) := civil_of_days (dt_local t / us_per_day) in
  let us := dt_local t mod us_per_day in
  let sec := us / us_per_second in
  let f := us mod us_per_second in
  let tail := if negb (f =? 0) then [show_Z (sec mod 60); show_Z f]
              else if negb (sec mod 60 =? 0) then [show_Z (sec mod 60)] else [] in
  let tz := match dt_offset t with
            | None => []
            | Some 0 => ["tzinfo=datetime.timezone.utc"]
            | Some o => ["tzinfo=datetime.timezone(" +:+ repr_timedelta o +:+ ")"]
            end in
  "datetime.datetime(" +:+
    s_concat ", " ([show_Z y; show_Z m; show_Z d; show_Z (sec / 3600); show_Z (sec / 60 mod 60)] ++ tail ++ tz)
  +:+ ")".
Definition repr_date (t : datetime) : string :=
  let '(y, m, d) := civil_of_days (dt_local t / us_per_day) in
  "datetime.date(" +:+ s_concat ", " [show_Z y; show_Z m; show_Z d] +:+ ")".

Fixpoint py_repr (v : pyval) : string :=
  match v with
  | PNone => "None"
  | PBool true => "True"
  | PBool false => "False"
  | PInt z => show_Z z
  | PFloat (Finite r) | PFloat (NonFinite r) => r
  | PStr s => repr_str s
  | PList l => "[" +:+ s_concat ", " (map py_repr l) +:+ "]"
  | PTuple [x] => "(" +:+ py_repr x +:+ ",)"
  | PTuple l => "(" +:+ s_concat ", " (map py_repr l) +:+ ")"
  | PDict d => "{" +:+ s_concat ", " (map (fun '(k, x) => repr_str k +:+ ": " +:+ py_repr x) d) +:+ "}"
  | PDatetime t => repr_datetime t
  | PDate t => repr_date t
  | POther r => r
  end.
(** [str] of a datetime and of a date: the ISO form with a space, and the ISO date. *)
Definition offset_text (o : Z) : string :=
  let a := Z.abs o in
  let sec := a / us_per_second in
  (if o <? 0 then "-" else "+") +:+ pad 2 (sec / 3600) +:+ ":" +:+ pad 2 (sec / 60 mod 60)
  +:+ (if (sec mod 60 =? 0) && (a mod us_per_second =? 0) then EmptyString else ":" +:+ pad 2 (sec mod 60))
  +:+ (if a mod us_per_second =? 0 then EmptyString else "." +:+ pad 6 (a mod us_per_second)).
Definition str_date (t : datetime) : string :=
  let '(y, m, d) := civil_of_days (dt_local t / us_per_day) in
  pad 4 y +:+ "-" +:+ pad 2 m +:+ "-" +:+ pad 2 d.
Definition str_datetime (t : datetime) : string :=
  str_date t +:+ " " +:+ iso_time (dt_local t mod us_per_day)
  +:+ match dt_offset t with Some o => offset_text o | None => EmptyString end.
(** [str(v)] *)
Definition py_str (v : pyval) : string :=
  match v with
  | PStr s => s
  | PDatetime t => str_datetime t
  | PDate t => str_date t
  | _ => py_repr v
  end.

(** ** Induction on values *)

Section pyval_ind.
Variable P : pyval -> Prop.
Hypothesis P_none : P PNone.
Hypothesis P_bool : forall b, P (PBool b).
Hypothesis P_int : forall z, P (PInt z).
Hypothesis P_float : forall f, P (PFloat f).
Hypothesis P_str : forall s, P (PStr s).
Hypothesis P_list : forall l, Forall P l -> P (PList l).
Hypothesis P_tuple : forall l, Forall P l -> P (PTuple l).
Hypothesis P_dict : forall d, Forall (fun kv => P kv.2) d -> P (PDict d).
Hypothesis P_datetime : forall t, P (PDatetime t).
Hypothesis P_date : forall t, P (PDate t).
Hypothesis P_other : forall r, P (POther r).

Fixpoint pyval_rect_nested (v : pyval) : P v :=
  let fix all (l : list pyval) : Forall P l :=
    match l with
    | [] => Forall_nil_2 P
    | x :: l' => Forall_cons_2 P x l' (pyval_rect_nested x) (all l')
    end in
  let fix all_items (d : dict pyval) : Forall (fun kv => P kv.2) d :=
    match d with
    | [] => Forall_nil_2 _
    | kv :: d' => Forall_cons_2 _ kv d' (pyval_rect_nested kv.2) (all_items d')
    end in
  match v with
  | PNone => P_none
  | PBool b => P_bool b
  | PInt z => P_int z
  | PFloat f => P_float f
  | PStr s => P_str s
  | PList l => P_list l (all l)
  | PTuple l => P_tuple l (all l)
  | PDict d => P_dict d (all_items d)
  | PDatetime t => P_datetime t
  | PDate t => P_date t
  | POther r => P_other r
  end.
End pyval_ind.

(** ** Decidable equality *)

#[export] Instance pyfloat_eq_dec : EqDecision pyfloat.
Proof. solve_decision. Defined.
#[export] Instance datetime_eq_dec : EqDecision datetime.
Proof. solve_decision. Defined.

Section val_eqb.
Variable eqb : pyval -> pyval -> bool.
Fixpoint vals_eqb (l m : list pyval) : bool :=
  match l, m with
  | [], [] => true
  | x :: l', y :: m' => eqb x y && vals_eqb l' m'
  | _, _ => false
  end.
Fixpoint items_eqb (d e : dict pyval) : bool :=
  match d, e with
  | [], [] => true
  | (k, x) :: d', (j, y) :: e' => String.eqb k j && eqb x y && items_eqb d' e'
  | _, _ => false
  end.

Lemma vals_eqb_spec l m : Forall (fun v => forall w, eqb v w = true <-> v = w) l -> vals_eqb l m = true <-> l = m.
Proof.
  intros Hl. revert m. induction Hl as [|v l Hv Hl IH]; intros [|w m]; cbn [vals_eqb]; try done.
  rewrite andb_true_iff, Hv, IH. split; [by intros [-> ->]|by intros [= -> ->]].
Qed.

Lemma items_eqb_spec d e : Forall (fun kv => forall w, eqb kv.2 w = true <-> kv.2 = w) d -> items_eqb d e = true <-> d = e.
Proof.
  intros Hd. revert e. induction Hd as [|[k v] d Hv Hd IH]; intros [|[j w] e]; cbn [items_eqb]; try done.
  cbn [snd] in Hv. rewrite !andb_true_iff, String.eqb_eq, Hv, IH.
  split; [by intros [[-> ->] ->]|by intros [= -> -> ->]].
Qed.
End val_eqb.

Fixpoint val_eqb (v w : pyval) : bool :=
  match v, w with
  | PNone, PNone => true
  | PBool a, PBool b => Bool.eqb a b
  | PInt a, PInt b => a =? b
  | PFloat a, PFloat b => bool_decide (a = b)
  | PStr a, PStr b => String.eqb a b
  | PList l, PList m | PTuple l, PTuple m => vals_eqb val_eqb l m
  | PDict d, PDict e => items_eqb val_eqb d e
  | PDatetime a, PDatetime b => bool_decide (a = b)
  | PDate a, PDate b => bool_decide (a = b)
  | POther a, POther b => String.eqb a b
  | _, _ => false
  end.

Lemma val_eqb_spec v w : val_eqb v w = true <-> v = w.
Proof.
  revert w. induction v as [|b|z|f|s|l IH|l IH|d IH|a|a|r] using pyval_rect_nested; intros w;
    destruct w; cbn [val_eqb]; try done;
    rewrite ?Bool.eqb_true_iff, ?Z.eqb_eq, ?bool_decide_eq_true, ?String.eqb_eq, ?(vals_eqb_spec val_eqb), ?(items_eqb_spec val_eqb) by done;
    split; congruence.
Qed.

(** ** Lemmas on dictionaries *)

Section dict_lemmas.
Context {V : Type}.
Implicit Types (d : dict V) (k : string) (v : V).

Lemma dget_Some_in k v d : dget k d = Some v -> (k, v) ∈ d.
Proof.
  induction d as [|[k' v'] d IH]; simpl; [done|].
  rewrite elem_of_cons.
  destruct (String.eqb k k') eqn:E; bools; intros H; simplify_eq; auto.
Qed.

Lemma dget_in_Some k v d : NoDup (dkeys d) -> (k, v) ∈ d -> dget k d = Some v.
Proof.
  induction d as [|[k' v'] d IH]; simpl; [by rewrite elem_of_nil|].
  intros [Hni Hnd]%NoDup_cons [[= -> ->]|Hin]%elem_of_cons; [by rewrite String.eqb_refl|].
  destruct (String.eqb k k') eqn:E; bools; [|auto]. subst k'. exfalso. apply Hni.
  unfold dkeys. apply list_elem_of_fmap. by exists (k, v).
Qed.

Lemma dget_None k d : dget k d = None <-> k ∉ dkeys d.
Proof.
  induction d as [|[k' v'] d IH]; simpl; [rewrite elem_of_nil; tauto|].
  rewrite elem_of_cons. destruct (String.eqb_spec k k') as [->|Hne].
  - split; [done|]. intros H. exfalso. apply H. by left.
  - rewrite IH. tauto.
Qed.

Lemma dmem_spec k d : dmem k d = true <-> k ∈ dkeys d.
Proof.
  unfold dmem. destruct (dget k d) eqn:E.
  - split; [|done]. intros _. apply dget_Some_in in E.
    unfold dkeys. apply list_elem_of_fmap. by eexists (_, _).
  - apply dget_None in E. split; [done|]. by intros ?%E.
Qed.

Lemma dget_dset_eq k v d : dget k (dset k v d) = Some v.
Proof.
  induction d as [|[k' v'] d IH]; simpl; [by rewrite String.eqb_refl|].
  destruct (String.eqb k k') eqn:E; simpl; rewrite E; done.
Qed.

Lemma dget_dset_ne k k' v d : k <> k' -> dget k' (dset k v d) = dget k' d.
Proof.
  intros Hne. assert (String.eqb k' k = false) as Hne' by (apply String.eqb_neq; done).
  induction d as [|[j w] d IH]; simpl; [by rewrite Hne'|].
  destruct (String.eqb_spec k j) as [<-|Hkj]; simpl; [by rewrite Hne'|]. by rewrite IH.
Qed.

Lemma dget_dset k k' v d : dget k' (dset k v d) = if String.eqb k' k then Some v else dget k' d.
Proof.
  destruct (String.eqb k' k) eqn:E; bools; [subst; apply dget_dset_eq|by apply dget_dset_ne].
Qed.

Lemma dkeys_dset_in k v d : k ∈ dkeys d -> dkeys (dset k v d) = dkeys d.
Proof.
  induction d as [|[k' v'] d IH]; simpl; [by rewrite elem_of_nil|].
  destruct (String.eqb k k') eqn:E; simpl; [done|].
  bools. rewrite elem_of_cons. intros [?|?]; [done|]. by rewrite IH.
Qed.

Lemma dset_notin k v d : k ∉ dkeys d -> dset k v d = d ++ [(k, v)].
Proof.
  induction d as [|[k' v'] d IH]; simpl; [done|].
  rewrite elem_of_cons. intros Hni. destruct (String.eqb_spec k k') as [->|Hne]; [by destruct Hni; left|].
  rewrite IH; tauto.
Qed.

Lemma dset_NoDup k v d : NoDup (dkeys d) -> NoDup (dkeys (dset k v d)).
Proof.
  intros H. destruct (decide (k ∈ dkeys d)) as [Hin|Hni].
  - by rewrite dkeys_dset_in.
  - rewrite dset_notin by done. unfold dkeys in *. rewrite map_app. simpl.
    apply NoDup_app. split_and!; [done| |by apply NoDup_singleton].
    intros x Hx ->%list_elem_of_singleton. done.
Qed.

Lemma dset_in k v d k' v' : (k', v') ∈ dset k v d -> (k', v') ∈ d \/ (k' = k /\ v' = v).
Proof.
  induction d as [|[j w] d IH]; simpl.
  - intros [= -> ->]%list_elem_of_singleton. auto.
  - destruct (String.eqb k j) eqn:E; bools; rewrite !elem_of_cons; naive_solver.
Qed.

(** Writing distinct keys one by one into a dictionary that has none of them appends them. *)
Lemma dupdate_distinct d e : NoDup (dkeys d ++ dkeys e) -> dupdate d e = d ++ e.
Proof.
  unfold dupdate. revert d. induction e as [|[k v] e IH]; intros d H; simpl; [by rewrite app_nil_r|].
  simpl in H. assert (k ∉ dkeys d) as Hk.
  { intros Hin. apply NoDup_app in H as (_ & H & _). apply (H k Hin). by apply elem_of_cons; left. }
  rewrite dset_notin by done. rewrite IH; [by rewrite <- app_assoc|].
  unfold dkeys in *. rewrite map_app. simpl. by rewrite <- app_assoc.
Qed.

Lemma dget_perm d e k : d ≡ₚ e -> NoDup (dkeys d) -> dget k d = dget k e.
Proof.
  intros Hp Hnd. assert (NoDup (dkeys e)) as Hnd' by (unfold dkeys in *; by rewrite <- Hp).
  destruct (dget k d) as [v|] eqn:E.
  - symmetry. apply dget_in_Some; [done|]. rewrite <- Hp. by apply dget_Some_in.
  - symmetry. apply dget_None. apply dget_None in E. unfold dkeys in *. by rewrite <- Hp.
Qed.

End dict_lemmas.

Lemma dget_map {V W} (f : V -> W) (k : string) (d : dict V) :
  dget k (map (fun '(j, x) => (j, f x)) d) = f <$> dget k d.
Proof.
  induction d as [|[j x] d IH]; simpl; [done|]. by destruct (String.eqb k j).
Qed.

Lemma dkeys_map {V W} (f : V -> W) (d : dict V) : dkeys (map (fun '(j, x) => (j, f x)) d) = dkeys d.
Proof. induction d as [|[j x] d IH]; simpl; [done|]. unfold dkeys in *. by rewrite IH. Qed.

#[export] Hint Rewrite @dget_dset_eq @dget_dset : capgate_simpl.
