(* ===== verification/Externals.v ===== *)
(** * What the program takes from outside its source

    Digest functions, the interpreter's conversion between decimal text and numbers, its codecs, and the
    process environment: clocks, the uuid generator, random bytes, and whether a write to disk
    succeeds. Every definition of the development is parametric in them, and no law about them
    is assumed here: a theorem that needs one states it. *)

From S2P Require Import Prelude PyVal.

Class Externals := {
  (* hashlib and hmac, as raw digests *)
  sha256 : string -> string;
  hmac_sha256 : string -> string -> string;
  (* float(text), and the repr of the float nearest to a number of microseconds, in seconds *)
  read_float : string -> pyfloat;
  seconds_repr : Z -> string;
  (* int(text), and int of a finite float, by its repr *)
  read_int : string -> option Z;
  trunc_float : string -> Z;
  (* the text of JSON given as bytes that are not all ASCII, decoded as json.loads detects; None when
     they cannot be decoded *)
  decode_bytes : string -> option string;
  (* the is_global registry of the interpreter's ipaddress module, by integer value, and whether
     urlsplit of the interpreter accepts a network location with its brackets and Unicode *)
  ipv4_is_global : Z -> bool;
  ipv6_is_global : Z -> bool;
  netloc_accepted : string -> bool;
  (* text of the exception json.dumps raises on a value it cannot write *)
  dumps_error : pyval -> string;
  (* the n-th uuid4, token_bytes and token_hex of the process *)
  uuid4 : nat -> string;
  token_bytes : nat -> string;
  (* the n-th reading of the injected clock and of the system clock, microseconds UTC *)
  clock_at : nat -> Z;
  system_clock_at : nat -> Z;
  (* whether the n-th write to the audit file or table succeeds *)
  write_ok : nat -> bool;
}.

Fixpoint hexdigest (s : string) : string :=
  match s with
  | EmptyString => EmptyString
  | String c s' => hex2 (byte_of c) +:+ hexdigest s'
  end.

Definition sha256_hex `{Externals} (text : string) : string := hexdigest (sha256 text).

(** A pair of different texts with the same digest. *)
Definition sha256_collision `{Externals} (x y : string) : Prop := x <> y /\ sha256 x = sha256 y.

Lemma hex_digit_inj x y : 0 <= x < 16 -> 0 <= y < 16 -> hex_digit x = hex_digit y -> x = y.
Proof.
  unfold hex_digit. intros Hx Hy H.
  apply (f_equal byte_of) in H.
  destruct (x <? 10) eqn:Ex, (y <? 10) eqn:Ey; rewrite !byte_of_char_of in H by lia; lia.
Qed.

Lemma hexdigest_inj s t : hexdigest s = hexdigest t -> s = t.
Proof.
  revert t. induction s as [|c s IH]; intros [|d t]; [done| | |]; cbn [hexdigest hex2]; unfold hex2, chr1;
    rewrite ?s_app_cons, ?s_app_nil_l; [done|done|].
  intros [= H1 H2 H3]. pose proof (byte_of_bound c). pose proof (byte_of_bound d).
  apply hex_digit_inj in H1; [|split; [apply Z.div_pos|apply Z.div_lt_upper_bound]; lia..].
  apply hex_digit_inj in H2; [|apply Z.mod_pos_bound; lia..].
  f_equal; [|by apply IH]. apply byte_of_inj.
  pose proof (Z.div_mod (byte_of c) 16 ltac:(lia)). pose proof (Z.div_mod (byte_of d) 16 ltac:(lia)). lia.
Qed.

Lemma hex_digit_hex z : 0 <= z < 16 -> is_hex_lower (hex_digit z) = true.
Proof.
  intros Hz. unfold is_hex_lower, is_digit, in_range, hex_digit.
  destruct (z <? 10) eqn:E; rewrite byte_of_char_of by lia; lia.
Qed.

Lemma hexdigest_hex s : s_forall is_hex_lower (hexdigest s) = true.
Proof.
  induction s as [|c s IH]; [done|]. cbn [hexdigest]. unfold hex2, chr1.
  rewrite !s_app_cons, s_app_nil_l. cbn [s_forall]. rewrite IH. pose proof (byte_of_bound c).
  rewrite !hex_digit_hex; [done|apply Z.mod_pos_bound; lia|]. split; [apply Z.div_pos|apply Z.div_lt_upper_bound]; lia.
Qed.

(** Equal digests mean equal texts, or a collision. *)
Lemma sha256_hex_inj `{Externals} x y : sha256_hex x = sha256_hex y -> x = y \/ sha256_collision x y.
Proof.
  unfold sha256_hex, sha256_collision. intros Hd%hexdigest_inj.
  destruct (decide (x = y)); auto.
Qed.

(** ** A concrete environment

    An instance for examples: the digest is the identity, so that no two texts collide; the clocks
    start in November 2023 and advance a second per reading. *)

Module Sample.
Definition start : Z := 1700000000000000.
Definition numbered (prefix : string) (n : nat) : string := prefix +:+ show_Z (Z.of_nat n).
Definition externals : Externals := {|
  sha256 := fun text => text;
  hmac_sha256 := fun key text => "mac:" +:+ key +:+ text;
  read_float := Finite;
  read_int := read_Z;
  trunc_float := fun text => default 0 (read_Z text);
  decode_bytes := Some;
  seconds_repr := fun us => show_Z (us / 1000000) +:+ "." +:+ pad 6 (us mod 1000000);
  ipv4_is_global := fun n => negb (n / 2 ^ 24 =? 10) && negb (n / 2 ^ 24 =? 127);
  ipv6_is_global := fun n => negb (n =? 1);
  netloc_accepted := fun _ => true;
  dumps_error := fun _ => "not JSON serializable";
  uuid4 := numbered "uuid-";
  token_bytes := numbered "bytes-";
  clock_at := fun n => start + Z.of_nat n * 1000000;
  system_clock_at := fun n => start + Z.of_nat n * 1000000;
  write_ok := fun _ => true;
|}.

(** An environment that differs from [e] in its clock and in which writes to disk succeed. *)
Definition with_io (e : Externals) (clock : nat -> Z) (writes : nat -> bool) : Externals := {|
  sha256 := @sha256 e; hmac_sha256 := @hmac_sha256 e;
  read_float := @read_float e; read_int := @read_int e; trunc_float := @trunc_float e;
  decode_bytes := @decode_bytes e; seconds_repr := @seconds_repr e;
  ipv4_is_global := @ipv4_is_global e; ipv6_is_global := @ipv6_is_global e;
  netloc_accepted := @netloc_accepted e; dumps_error := @dumps_error e;
  uuid4 := @uuid4 e; token_bytes := @token_bytes e;
  clock_at := clock; system_clock_at := @system_clock_at e;
  write_ok := writes;
|}.

(** An environment that differs from [e] in its digests: long runs stay small under short ones. *)
Definition with_digest (e : Externals) (digest : string -> string) (mac : string -> string -> string) : Externals := {|
  sha256 := digest; hmac_sha256 := mac;
  read_float := @read_float e; read_int := @read_int e; trunc_float := @trunc_float e;
  decode_bytes := @decode_bytes e; seconds_repr := @seconds_repr e;
  ipv4_is_global := @ipv4_is_global e; ipv6_is_global := @ipv6_is_global e;
  netloc_accepted := @netloc_accepted e; dumps_error := @dumps_error e;
  uuid4 := @uuid4 e; token_bytes := @token_bytes e;
  clock_at := @clock_at e; system_clock_at := @system_clock_at e;
  write_ok := @write_ok e;
|}.
End Sample.
