(* ===== verification/Json.v ===== *)
(** * JSON: [canonical_json] of src/capgate/request.py and [json.loads] *)

From Stdlib Require Import DecimalString DecimalZ.
From S2P Require Import Prelude Datetime Regex PyVal Externals.

(** ** Writing

    [json.dumps(value, sort_keys=True, separators=(",", ":"), ensure_ascii=False,
    allow_nan=False)]: tuples are written as lists and the items of a dictionary in the order of
    their keys, so writing is [print] after [norm]. *)

Definition item_le (a b : string * pyval) : Prop := String.le a.1 b.1.
#[export] Instance item_le_dec : RelDecision item_le.
Proof. intros a b. unfold item_le. apply _. Defined.

Definition sort_items (d : dict pyval) : dict pyval := merge_sort item_le d.

Fixpoint norm (v : pyval) : pyval :=
  match v with
  | PList l | PTuple l => PList (map norm l)
  | PDict d => PDict (sort_items (map (fun '(k, x) => (k, norm x)) d))
  | _ => v
  end.

(** Whether [json.dumps] accepts the value. *)
Fixpoint jsonable (v : pyval) : bool :=
  match v with
  | PNone | PBool _ | PInt _ | PFloat (Finite _) | PStr _ => true
  | PFloat (NonFinite _) | PDatetime _ | PDate _ | POther _ => false
  | PList l | PTuple l => forallb jsonable l
  | PDict d => forallb (fun '(_, x) => jsonable x) d
  end.

Definition esc (c : ascii) (rest : string) : string :=
  let b := byte_of c in
  if b =? 34 then String backslash (String dquote rest)
  else if b =? 92 then String backslash (String backslash rest)
  else if b =? 10 then String backslash (String "n" rest)
  else if b =? 13 then String backslash (String "r" rest)
  else if b =? 9 then String backslash (String "t" rest)
  else if b =? 12 then String backslash (String "f" rest)
  else if b =? 8 then String backslash (String "b" rest)
  else if b <? 32 then String backslash (String "u" (String "0" (String "0" (hex2 b +:+ rest))))
  else String c rest.
Fixpoint escape (s : string) : string :=
  match s with
  | EmptyString => EmptyString
  | String c s' => esc c (escape s')
  end.
Definition quote (s : string) : string := String dquote (escape s +:+ chr1 dquote).

(** The constants [json.dumps] writes for the floats that are not finite; canonical JSON refuses them. *)
Definition nonfinite_text (repr : string) : string :=
  if String.eqb repr "nan" then "NaN" else if String.eqb repr "-inf" then "-Infinity" else "Infinity".

Fixpoint print (v : pyval) : string :=
  match v with
  | PNone => "null"
  | PBool true => "true"
  | PBool false => "false"
  | PInt z => show_Z z
  | PFloat (Finite r) => r
  | PStr s => quote s
  | PList l | PTuple l => "[" +:+ s_concat "," (map print l) +:+ "]"
  | PDict d => "{" +:+ s_concat "," (map (fun '(k, x) => quote k +:+ ":" +:+ print x) d) +:+ "}"
  | PFloat (NonFinite r) => nonfinite_text r
  | PDatetime _ | PDate _ | POther _ => EmptyString
  end.

(** The same text with other separators. *)
Fixpoint print_with (item_sep key_sep : string) (v : pyval) : string :=
  match v with
  | PNone => "null"
  | PBool true => "true"
  | PBool false => "false"
  | PInt z => show_Z z
  | PFloat (Finite r) => r
  | PFloat (NonFinite r) => nonfinite_text r
  | PStr s => quote s
  | PList l | PTuple l => "[" +:+ s_concat item_sep (map (print_with item_sep key_sep) l) +:+ "]"
  | PDict d => "{" +:+ s_concat item_sep (map (fun '(k, x) => quote k +:+ key_sep +:+ print_with item_sep key_sep x) d) +:+ "}"
  | PDatetime _ | PDate _ | POther _ => EmptyString
  end.

Definition canonical (v : pyval) : string := print (norm v).

Definition canonical_json `{Externals} (v : pyval) : result string :=
  if jsonable v then Ok (canonical v)
  else Raise (MalformedRequest ("arguments must be JSON-serializable: " +:+ dumps_error v)).

(** ** Reading *)

Definition is_ws (c : ascii) : bool :=
  let b := byte_of c in (b =? 32) || (b =? 9) || (b =? 10) || (b =? 13).
Definition skip_ws (s : string) : string := lstrip_by is_ws s.

(** A string literal is first read as bytes and \u code units, then the code units are encoded. *)
Inductive unit16 :=
| Byte (c : ascii)
| Code (n : Z).

Definition hex_value (c : ascii) : option Z :=
  if is_digit c then Some (byte_of c - 48)
  else if in_range 97 102 c then Some (byte_of c - 87)
  else if in_range 65 70 c then Some (byte_of c - 55)
  else None.
Definition hex4_value (a b c d : ascii) : option Z :=
  a' ← hex_value a; b' ← hex_value b; c' ← hex_value c; d' ← hex_value d;
  Some (((a' * 16 + b') * 16 + c') * 16 + d').

Definition simple_escape (e : ascii) : option ascii :=
  let b := byte_of e in
  if (b =? 34) || (b =? 92) || (b =? 47) then Some e
  else if b =? 98 then Some (char_of 8)
  else if b =? 102 then Some (char_of 12)
  else if b =? 110 then Some (char_of 10)
  else if b =? 114 then Some (char_of 13)
  else if b =? 116 then Some (char_of 9)
  else None.

(** The units up to the closing quote, and the text after it. *)
Fixpoint read_units (s : string) : option (list unit16 * string) :=
  match s with
  | EmptyString => None
  | String c s1 =>
      if byte_of c =? 34 then Some ([], s1)
      else if byte_of c <? 32 then None
      else if negb (byte_of c =? 92) then '(us, r) ← read_units s1; Some (Byte c :: us, r)
      else match s1 with
           | EmptyString => None
           | String e s2 =>
               if negb (byte_of e =? 117)
               then ch ← simple_escape e; '(us, r) ← read_units s2; Some (Byte ch :: us, r)
               else match s2 with
                    | String h1 (String h2 (String h3 (String h4 s3))) =>
                        n ← hex4_value h1 h2 h3 h4;
                        '(us, r) ← read_units s3; Some (Code n :: us, r)
                    | _ => None
                    end
           end
  end.

Definition utf8 (n : Z) : string :=
  if n <? 128 then chr1 (char_of n)
  else if n <? 2048 then String (char_of (192 + n / 64)) (chr1 (char_of (128 + n mod 64)))
  else if n <? 65536
  then String (char_of (224 + n / 4096)) (String (char_of (128 + n / 64 mod 64)) (chr1 (char_of (128 + n mod 64))))
  else String (char_of (240 + n / 262144)) (String (char_of (128 + n / 4096 mod 64))
         (String (char_of (128 + n / 64 mod 64)) (chr1 (char_of (128 + n mod 64))))).
Definition high_surrogate (n : Z) : bool := (55296 <=? n) && (n <=? 56319).
Definition low_surrogate (n : Z) : bool := (56320 <=? n) && (n <=? 57343).

Fixpoint encode_units (us : list unit16) : string :=
  match us with
  | [] => EmptyString
  | Byte c :: us' => String c (encode_units us')
  | Code n :: us1 =>
      match us1 with
      | Code m :: us2 =>
          if high_surrogate n && low_surrogate m
          then utf8 (65536 + (n - 55296) * 1024 + (m - 56320)) +:+ encode_units us2
          else utf8 n +:+ encode_units us1
      | _ => utf8 n +:+ encode_units us1
      end
  end.

Definition read_string (s : string) : option (string * string) :=
  '(us, r) ← read_units s; Some (encode_units us, r).

Definition is_numchar (c : ascii) : bool :=
  is_digit c || is_char "-" c || is_char "+" c || is_char "." c || is_char "e" c || is_char "E" c.
Definition is_floatmark (c : ascii) : bool := is_char "." c || is_char "e" c || is_char "E" c.
Fixpoint span (p : ascii -> bool) (s : string) : string * string :=
  match s with
  | EmptyString => (EmptyString, EmptyString)
  | String c s' => if p c then let '(a, b) := span p s' in (String c a, b) else (EmptyString, s)
  end.

(** The number grammar: an optional minus, zero or digits without a leading zero, then an
    optional fraction and an optional exponent. *)
Definition re_number : re :=
  Cat (opt (lit "-"))
  (Cat (Alt (lit "0") (Cat (Chr (in_range 49 57)) (Star (Chr is_digit))))
  (Cat (opt (Cat (lit ".") (plus (Chr is_digit))))
       (opt (Cat (Alt (lit "e") (lit "E")) (Cat (opt (Alt (lit "-") (lit "+"))) (plus (Chr is_digit))))))).

Definition read_number `{Externals} (tok : string) : option pyval :=
  if s_exists is_floatmark tok
  then if fullmatch re_number tok then Some (PFloat (read_float tok)) else None
  else z ← read_Z tok;
       if String.eqb (show_Z z) tok || String.eqb "-0" tok then Some (PInt z) else None.

(** The constants outside JSON that [json.loads] reads unless [parse_constant] refuses them. *)
Definition read_constant (s : string) : option (pyval * string) :=
  match strip_prefix "NaN" s with
  | Some r => Some (PFloat (NonFinite "nan"), r)
  | None => match strip_prefix "Infinity" s with
  | Some r => Some (PFloat (NonFinite "inf"), r)
  | None => match strip_prefix "-Infinity" s with
  | Some r => Some (PFloat (NonFinite "-inf"), r)
  | None => None
  end end end.

(** [fuel] bounds the nesting and the number of elements still to be read; [loads] gives the
    length of the text, which is always enough. *)
Fixpoint parse_value `{Externals} (constants : bool) (fuel : nat) (s : string) : option (pyval * string) :=
  match fuel with
  | O => None
  | S fuel' =>
      match s with
      | EmptyString => None
      | String c s1 =>
          let b := byte_of c in
          if b =? 34 then '(str, r) ← read_string s1; Some (PStr str, r)
          else if b =? 91 then
            match skip_ws s1 with
            | String d s2 =>
                if byte_of d =? 93 then Some (PList [], s2)
                else '(l, r) ← parse_elements constants fuel' (skip_ws s1); Some (PList l, r)
            | EmptyString => None
            end
          else if b =? 123 then
            match skip_ws s1 with
            | String d s2 =>
                if byte_of d =? 125 then Some (PDict [], s2)
                else '(ms, r) ← parse_members constants fuel' (skip_ws s1); Some (PDict (dupdate [] ms), r)
            | EmptyString => None
            end
          else match strip_prefix "null" s with
          | Some r => Some (PNone, r)
          | None => match strip_prefix "true" s with
          | Some r => Some (PBool true, r)
          | None => match strip_prefix "false" s with
          | Some r => Some (PBool false, r)
          | None => let '(tok, r) := span is_numchar s in
              match read_number tok with
              | Some v => Some (v, r)
              | None => if constants then read_constant s else None
              end
          end end end
      end
  end
with parse_elements `{Externals} (constants : bool) (fuel : nat) (s : string) : option (list pyval * string) :=
  match fuel with
  | O => None
  | S fuel' =>
      '(v, r) ← parse_value constants fuel' s;
      match skip_ws r with
      | String c r1 =>
          if byte_of c =? 93 then Some ([v], r1)
          else if byte_of c =? 44
          then '(vs, r2) ← parse_elements constants fuel' (skip_ws r1); Some (v :: vs, r2)
          else None
      | EmptyString => None
      end
  end
with parse_members `{Externals} (constants : bool) (fuel : nat) (s : string) : option (dict pyval * string) :=
  match fuel with
  | O => None
  | S fuel' =>
      s1 ← take_char dquote s;
      '(k, r) ← read_string s1;
      r1 ← take_char ":" (skip_ws r);
      '(v, r2) ← parse_value constants fuel' (skip_ws r1);
      match skip_ws r2 with
      | String c r3 =>
          if byte_of c =? 125 then Some ([(k, v)], r3)
          else if byte_of c =? 44
          then '(ms, r4) ← parse_members constants fuel' (skip_ws r3); Some ((k, v) :: ms, r4)
          else None
      | EmptyString => None
      end
  end.

(** [json.loads(text)]; None is a decode error. [loads_strict] is with a [parse_constant] that raises. *)
Definition loads_with `{Externals} (constants : bool) (text : string) : option pyval :=
  '(v, r) ← parse_value constants (S (String.length text)) (skip_ws text);
  if s_is_empty (skip_ws r) then Some v else None.
Definition loads `{Externals} (text : string) : option pyval := loads_with true text.
Definition loads_strict `{Externals} (text : string) : option pyval := loads_with false text.

(** ** Well-formed values

    A Python dictionary has distinct keys, and a finite float is the one its own text denotes. *)

Definition float_text_ok `{Externals} (r : string) : bool :=
  s_exists is_floatmark r && fullmatch re_number r
    && match read_float r with Finite r' => String.eqb r r' | NonFinite _ => false end.

Fixpoint distinct (l : list string) : bool :=
  match l with
  | [] => true
  | x :: l' => negb (str_in x l') && distinct l'
  end.

Fixpoint wf_val `{Externals} (v : pyval) : bool :=
  match v with
  | PFloat (Finite r) => float_text_ok r
  | PList l | PTuple l => forallb wf_val l
  | PDict d => distinct (dkeys d) && forallb (fun '(_, x) => wf_val x) d
  | _ => true
  end.

(** The values [loads] can return: no tuples. *)
Fixpoint plain `{Externals} (v : pyval) : bool :=
  match v with
  | PNone | PBool _ | PInt _ | PStr _ => true
  | PFloat (Finite r) => float_text_ok r
  | PList l => forallb plain l
  | PDict d => distinct (dkeys d) && forallb (fun '(_, x) => plain x) d
  | _ => false
  end.

(** The values a reader returns that may accept the constants. *)
Fixpoint readable `{Externals} (constants : bool) (v : pyval) : bool :=
  match v with
  | PNone | PBool _ | PInt _ | PStr _ => true
  | PFloat (Finite r) => float_text_ok r
  | PFloat (NonFinite r) => constants && str_in r ["nan"; "inf"; "-inf"]
  | PList l => forallb (readable constants) l
  | PDict d => distinct (dkeys d) && forallb (fun '(_, x) => readable constants x) d
  | _ => false
  end.

(** ** Strings: reading undoes escaping *)

Definition unit_of (c : ascii) : unit16 :=
  let b := byte_of c in
  if (b <? 32) && negb ((b =? 8) || (b =? 9) || (b =? 10) || (b =? 12) || (b =? 13)) then Code b else Byte c.

Lemma read_units_esc c t : read_units (esc c t) = '(us, r) ← read_units t; Some (unit_of c :: us, r).
Proof. destruct c as [[] [] [] [] [] [] [] []]; reflexivity. Qed.

Lemma encode_unit_of c us : encode_units (unit_of c :: us) = String c (encode_units us).
Proof. destruct c as [[] [] [] [] [] [] [] []]; destruct us as [|[]]; reflexivity. Qed.

Lemma read_units_escape s t : exists us,
  read_units (escape s +:+ String dquote t) = Some (us, t) /\ encode_units us = s.
Proof.
  assert (forall c u w, esc c u +:+ w = esc c (u +:+ w)) as Hesc.
  { intros c u w. unfold esc. repeat case_match; rewrite ?s_app_cons, ?s_app_assoc; done. }
  induction s as [|c s (us & IH & Hus)]; [by exists []|].
  exists (unit_of c :: us). cbn [escape]. rewrite Hesc, read_units_esc, IH. split; [done|].
  by rewrite encode_unit_of, Hus.
Qed.

Lemma read_string_quote s t : read_string (escape s +:+ String dquote t) = Some (s, t).
Proof. unfold read_string. destruct (read_units_escape s t) as (us & -> & <-). done. Qed.

Lemma quote_app s t : quote s +:+ t = String dquote (escape s +:+ String dquote t).
Proof. unfold quote, chr1. by rewrite s_app_cons, s_app_assoc, s_app_cons, s_app_nil_l. Qed.

(** ** Numbers *)

Definition follows (p : ascii -> bool) (s : string) : bool :=
  match s with EmptyString => true | String c _ => negb (p c) end.

Lemma span_app p tok rest : s_forall p tok = true -> follows p rest = true ->
  span p (tok +:+ rest) = (tok, rest).
Proof.
  intros Ht Hr. induction tok as [|c tok IH].
  - rewrite s_app_nil_l. destruct rest as [|c rest]; [done|]. simpl in *. by destruct (p c).
  - rewrite s_app_cons. simpl in *. apply andb_true_iff in Ht as [-> Ht]. by rewrite IH.
Qed.

Lemma number_head c s : re_in re_number (String c s) -> is_sign_digit c = true.
Proof.
  unfold re_number. intros (s1 & s2 & E & H1 & H2)%re_in_cat_iff.
  apply re_in_alt_iff in H1 as [H1|(d & -> & Hd)%re_in_chr_iff].
  - inversion H1; subst. rewrite s_app_nil_l in E. subst.
    apply re_in_cat_iff in H2 as (t1 & t2 & E & H2 & _).
    apply re_in_alt_iff in H2 as [(d & -> & Hd)%re_in_chr_iff|H2].
    + unfold chr1 in E. rewrite s_app_cons in E. injection E as -> _.
      apply Ascii.eqb_eq in Hd as <-. done.
    + apply re_in_cat_iff in H2 as (u1 & u2 & -> & (d & -> & Hd)%re_in_chr_iff & _).
      unfold chr1 in E. rewrite !s_app_cons in E. injection E as -> _.
      unfold is_sign_digit, is_digit, in_range in *. lia.
  - unfold chr1 in E. rewrite s_app_cons in E. injection E as -> _.
    apply Ascii.eqb_eq in Hd as <-. done.
Qed.

Lemma number_chars s : re_in re_number s -> s_forall is_numchar s = true.
Proof.
  apply re_over_forall. cbn [re_over re_number opt plus lit].
  assert (forall d, is_numchar d = true -> forall c, is_char d c = true -> is_numchar c = true) as Hlit
    by (intros d Hd c Hc; by apply Ascii.eqb_eq in Hc as <-).
  assert (forall c, in_range 48 57 c = true -> is_numchar c = true) as Hdig
    by (intros c Hc; unfold is_numchar, is_digit; by rewrite Hc).
  split_and!; try done; try (by apply Hlit).
  intros c Hc. apply Hdig. unfold in_range in *. lia.
Qed.

(** What [parse_value] relies on: the token starts like a number and has no other characters. *)
Lemma float_token `{Externals} r : float_text_ok r = true ->
  read_number r = Some (PFloat (Finite r)) /\ s_forall is_numchar r = true
  /\ exists c s, r = String c s /\ is_sign_digit c = true.
Proof.
  unfold float_text_ok, read_number. intros Hok.
  apply andb_true_iff in Hok as [[Hm Hf]%andb_true_iff Hr]. rewrite Hm, Hf.
  destruct (read_float r) as [r'|]; [|done]. apply String.eqb_eq in Hr as <-.
  apply fullmatch_spec in Hf. split_and!; [done|by apply number_chars|].
  destruct r as [|c s]; [done|]. exists c, s. split; [done|]. by eapply number_head.
Qed.

Lemma sign_digit_numchar c : is_sign_digit c = true -> is_numchar c = true.
Proof. unfold is_sign_digit, is_numchar. intros [->| ->]%orb_true_iff; by rewrite ?orb_true_r. Qed.

Lemma sign_digit_not_mark c : is_sign_digit c = true -> is_floatmark c = false.
Proof.
  unfold is_sign_digit, is_floatmark, is_char. intros H.
  destruct (Ascii.eqb_spec "."%char c) as [<-|]; [done|].
  destruct (Ascii.eqb_spec "e"%char c) as [<-|]; [done|].
  by destruct (Ascii.eqb_spec "E"%char c) as [<-|].
Qed.

Lemma int_token `{Externals} z : read_number (show_Z z) = Some (PInt z)
  /\ s_forall is_numchar (show_Z z) = true
  /\ exists c s, show_Z z = String c s /\ is_sign_digit c = true.
Proof.
  destruct (show_Z_chars z) as (c & s & Heq & Hc & Hs). split_and!.
  - unfold read_number. assert (s_exists is_floatmark (show_Z z) = false) as ->.
    { unfold s_exists. rewrite negb_false_iff, Heq. simpl.
      rewrite sign_digit_not_mark by done. simpl.
      eapply s_forall_impl; [|exact Hs]. intros d Hd. by rewrite sign_digit_not_mark. }
    rewrite read_show_Z. cbn [mbind option_bind]. by rewrite String.eqb_refl.
  - rewrite Heq. simpl. rewrite sign_digit_numchar by done.
    eapply s_forall_impl; [|exact Hs]. apply sign_digit_numchar.
  - eauto.
Qed.

(** ** Sorting the items of a dictionary *)

Lemma s_length_app s t : String.length (s +:+ t) = (String.length s + String.length t)%nat.
Proof. induction s as [|c s IH]; [done|]. rewrite s_app_cons. simpl. by rewrite IH. Qed.

Lemma list_sum_cons n l : list_sum (n :: l) = (n + list_sum l)%nat.
Proof. done. Qed.

Lemma str_in_spec x l : str_in x l = true <-> x ∈ l.
Proof.
  unfold str_in. rewrite existsb_exists, list_elem_of_In. split.
  - by intros (y & Hy & ->%String.eqb_eq).
  - intros Hx. exists x. by rewrite String.eqb_refl.
Qed.

Lemma distinct_NoDup l : distinct l = true <-> NoDup l.
Proof.
  induction l as [|x l IH]; simpl; [split; [constructor|done]|].
  by rewrite andb_true_iff, negb_true_iff, NoDup_cons, <- str_in_spec, not_true_iff_false, IH.
Qed.

Lemma forallb_perm {A} (p : A -> bool) l l' : l ≡ₚ l' -> forallb p l = forallb p l'.
Proof.
  induction 1; simpl; [done|congruence| |congruence]. by rewrite !andb_assoc, (andb_comm (p y)).
Qed.

Lemma sort_items_keys d : dkeys (sort_items d) ≡ₚ dkeys d.
Proof. unfold dkeys, sort_items. apply Permutation_map, merge_sort_Permutation. Qed.

Lemma dget_sort_items k d : NoDup (dkeys d) -> dget k (sort_items d) = dget k d.
Proof.
  intros Hd. symmetry. apply dget_perm; [|done]. unfold sort_items. symmetry. apply merge_sort_Permutation.
Qed.

#[export] Instance item_le_trans : Transitive item_le.
Proof. intros a b c. unfold item_le. by transitivity b.1. Qed.
#[export] Instance item_le_total : Total item_le.
Proof. intros a b. unfold item_le. apply String.le_total. Qed.

(** The sorted items depend only on which items there are. *)
Lemma sort_items_perm d e : d ≡ₚ e -> NoDup (dkeys d) -> sort_items d = sort_items e.
Proof.
  intros Hp Hd. unfold sort_items.
  assert (merge_sort item_le d ≡ₚ merge_sort item_le e) as Hpp by (by rewrite !merge_sort_Permutation).
  apply (Sorted_unique_strong item_le); [|apply Sorted_merge_sort, _..|done].
  intros [k v] [j w] Hv Hw Hle Hge. rewrite merge_sort_Permutation in Hv.
  rewrite merge_sort_Permutation, <- Hp in Hw. unfold item_le in *. simpl in *.
  assert (k = j) as -> by (by apply (anti_symm String.le)).
  apply dget_in_Some in Hv; [|done]. apply dget_in_Some in Hw; [|done]. congruence.
Qed.

(** ** Values: [parse_value] reads back what [print] writes *)

Fixpoint vsize (v : pyval) : nat :=
  match v with
  | PList l => S (list_sum (map (fun x => S (vsize x)) l))
  | PDict d => S (list_sum (map (fun '(_, x) => S (vsize x)) d))
  | _ => 1%nat
  end.

(** A separator is its character and white space. *)
Definition separator (c : ascii) (s : string) : Prop := exists w, s = String c w /\ s_forall is_ws w = true.

Section roundtrip.
Context `{Externals}.

Lemma skip_ws_head c s : is_ws c = false -> skip_ws (String c s) = String c s.
Proof. intros Hc. unfold skip_ws. simpl. by rewrite Hc. Qed.
Lemma skip_ws_app w s : s_forall is_ws w = true -> skip_ws (w +:+ s) = skip_ws s.
Proof.
  unfold skip_ws. induction w as [|c w IH]; [done|]. cbn [s_forall]. intros [Hc Hw]%andb_true_iff.
  rewrite s_app_cons. cbn [lstrip_by]. rewrite Hc. auto.
Qed.

Lemma plain_readable v : plain v = true -> readable true v = true /\ readable false v = true.
Proof.
  induction v as [| | |[]| |l IH|l IH|d IH| | |] using pyval_rect_nested; intros Hp; try done; cbn [plain readable] in *.
  - split; (apply forallb_forall; intros x Hx; rewrite forallb_forall in Hp; specialize (Hp x Hx); rewrite Forall_forall in IH;
      by apply (IH x (proj2 (list_elem_of_In _ _) Hx))).
  - apply andb_true_iff in Hp as [-> Hp]. cbn [andb]. split; (apply forallb_forall; intros [k x] Hx; rewrite forallb_forall in Hp;
      specialize (Hp _ Hx); rewrite Forall_forall in IH; by apply (IH (k, x) (proj2 (list_elem_of_In _ _) Hx))).
Qed.

Lemma print_print_with v : print_with "," ":" v = print v.
Proof.
  induction v as [| | |[]| |l IH|l IH|d IH| | |] using pyval_rect_nested; try done; cbn [print print_with].
  1-2: do 2 f_equal; f_equal; by apply List.map_ext_Forall.
  do 3 f_equal. apply List.map_ext_Forall. eapply Forall_impl; [exact IH|]. intros [k x] Hx. cbn [snd] in *. by rewrite Hx.
Qed.

Section separators.
Variable constants : bool.
Variables item_sep key_sep : string.
Hypothesis item_ok : separator "," item_sep.
Hypothesis key_ok : separator ":" key_sep.
#[local] Abbreviation printed := (print_with item_sep key_sep).
#[local] Abbreviation member := (fun '(k, x) => quote k +:+ key_sep +:+ printed x).

Lemma parse_number_head f c s v r : is_sign_digit c = true -> (let '(tok, r) := span is_numchar (String c s) in v ← read_number tok; Some (v, r)) = Some (v, r) ->
  parse_value constants (S f) (String c s) = Some (v, r).
Proof.
  destruct c as [[] [] [] [] [] [] [] []]; intros Hc; try discriminate Hc; clear Hc; cbn [parse_value];
    destruct (span is_numchar _) as [tok r']; intros Hv; cbn in *; destruct (read_number tok); try discriminate Hv; exact Hv.
Qed.

Lemma parse_number tok v f rest :
  read_number tok = Some v -> s_forall is_numchar tok = true ->
  (exists c s, tok = String c s /\ is_sign_digit c = true) -> follows is_numchar rest = true ->
  parse_value constants (S f) (tok +:+ rest) = Some (v, rest).
Proof.
  intros Hv Ht (c & s & -> & Hc) Hr. rewrite s_app_cons. apply parse_number_head; [done|].
  rewrite <- s_app_cons, span_app by done. by rewrite Hv.
Qed.

Lemma parse_constant_text r f rest : constants && str_in r ["nan"; "inf"; "-inf"] = true ->
  parse_value constants (S f) (nonfinite_text r +:+ rest) = Some (PFloat (NonFinite r), rest).
Proof.
  intros [Hc Hr%str_in_spec]%andb_true_iff. rewrite Hc, !elem_of_cons in *. destruct Hr as [->|[->|[->|[]%not_elem_of_nil]]]; reflexivity.
Qed.

Lemma value_head v : readable constants v = true ->
  exists c s, printed v = String c s /\ is_ws c = false /\ byte_of c <> 93.
Proof.
  assert (forall c, is_sign_digit c = true -> is_ws c = false /\ byte_of c <> 93) as Hsd
    by (intros c; destruct c as [[] [] [] [] [] [] [] []]; done).
  destruct v as [|[]|z|[r|r]|s|l| |d| | |]; try done; intros Hp; cbn [print_with].
  1-3: by eexists _, _.
  - destruct (int_token z) as (_ & _ & c & s & -> & Hc). exists c, s. split; [done|auto].
  - destruct (float_token r Hp) as (_ & _ & c & s & -> & Hc). exists c, s. split; [done|auto].
  - unfold nonfinite_text. case_match; [by eexists _, _|]. case_match; by eexists _, _.
  - by eexists _, _.
  - by eexists _, _.
  - by eexists _, _.
Qed.

Definition reads_back (v : pyval) : Prop := readable constants v = true ->
  forall fuel rest, (vsize v <= fuel)%nat -> follows is_numchar rest = true ->
    parse_value constants fuel (printed v +:+ rest) = Some (v, rest).

(** The list of items goes on: another one follows a separator. *)
Lemma item_sep_next rest : exists w, item_sep +:+ rest = String "," (w +:+ rest) /\ skip_ws (w +:+ rest) = skip_ws rest.
Proof. destruct item_ok as (w & -> & Hw). exists w. rewrite s_app_cons. split; [done|by apply skip_ws_app]. Qed.
Lemma key_sep_next rest : exists w, key_sep +:+ rest = String ":" (w +:+ rest) /\ skip_ws (w +:+ rest) = skip_ws rest.
Proof. destruct key_ok as (w & -> & Hw). exists w. rewrite s_app_cons. split; [done|by apply skip_ws_app]. Qed.

Lemma skip_ws_printed v rest : readable constants v = true -> skip_ws (printed v +:+ rest) = printed v +:+ rest.
Proof. intros Hp. destruct (value_head v Hp) as (c & s & -> & Hws & _). rewrite s_app_cons. by apply skip_ws_head. Qed.

Lemma skip_ws_quoted k rest : skip_ws (quote k +:+ rest) = quote k +:+ rest.
Proof. rewrite quote_app. by apply skip_ws_head. Qed.

Lemma items_head {A} (f : A -> string) (l : list A) (good : A -> Prop) rest : Forall good l -> l <> [] ->
  (forall x t, good x -> skip_ws (f x +:+ t) = f x +:+ t) -> skip_ws (s_concat item_sep (map f l) +:+ rest) = s_concat item_sep (map f l) +:+ rest.
Proof.
  intros Hl Hne Hf. destruct Hl as [|x l Hx Hl]; [done|]. destruct l as [|y l]; cbn [map s_concat]; rewrite ?s_app_assoc; by apply Hf.
Qed.

Lemma parse_elements_print l : Forall reads_back l -> forallb (readable constants) l = true -> l <> [] ->
  forall fuel rest, (list_sum (map (fun x => S (vsize x)) l) <= fuel)%nat ->
    parse_elements constants fuel (s_concat item_sep (map printed l) +:+ String "]" rest) = Some (l, rest).
Proof.
  induction 1 as [|v l Hv Hl IH]; intros Hp Hne fuel rest Hf; [done|].
  cbn [forallb] in Hp. apply andb_true_iff in Hp as [Hpv Hpl]. simpl in Hf.
  destruct fuel as [|fuel]; [lia|]. cbn [parse_elements].
  destruct l as [|w l].
  - cbn [map s_concat]. rewrite Hv by (simpl in *; done || lia). done.
  - cbn [map]. rewrite s_concat_cons, !s_app_assoc. change (printed w :: map printed l) with (map printed (w :: l)).
    destruct (item_sep_next (s_concat item_sep (map printed (w :: l)) +:+ String "]" rest)) as (ws & Hsep & Hws).
    rewrite Hsep, Hv by (done || lia). cbn [mbind option_bind]. rewrite skip_ws_head by done.
    change (byte_of "," =? 93) with false. change (byte_of "," =? 44) with true. cbn iota.
    rewrite Hws, (items_head printed (w :: l) (fun x => readable constants x = true)), IH;
      [done|done|done|simpl in *; lia| |done|intros x t; apply skip_ws_printed].
    apply Forall_forall. rewrite forallb_forall in Hpl. intros x Hx. by apply Hpl, list_elem_of_In.
Qed.

(** One member of an object. *)
Lemma parse_member f k v rest : readable constants v = true -> reads_back v -> (vsize v <= f)%nat -> follows is_numchar rest = true ->
  parse_members constants (S f) ((quote k +:+ key_sep +:+ printed v) +:+ rest) =
    match skip_ws rest with
    | String c r3 =>
        if byte_of c =? 125 then Some ([(k, v)], r3)
        else if byte_of c =? 44 then '(ms, r4) ← parse_members constants f (skip_ws r3); Some ((k, v) :: ms, r4)
        else None
    | EmptyString => None
    end.
Proof.
  intros Hp Hv Hf Hr. rewrite !s_app_assoc, quote_app. cbn [parse_members]. rewrite take_char_cons. cbn [mbind option_bind].
  rewrite read_string_quote. cbn [mbind option_bind]. destruct (key_sep_next (printed v +:+ rest)) as (w & -> & Hw).
  rewrite skip_ws_head, take_char_cons by done. cbn [mbind option_bind].
  rewrite Hw, skip_ws_printed, Hv by done. done.
Qed.

Lemma parse_members_print d : Forall (fun kv => reads_back kv.2) d ->
  forallb (fun '(_, x) => readable constants x) d = true -> d <> [] ->
  forall fuel rest, (list_sum (map (fun '(_, x) => S (vsize x)) d) <= fuel)%nat ->
    parse_members constants fuel (s_concat item_sep (map member d) +:+ String "}" rest) = Some (d, rest).
Proof.
  induction 1 as [|[k v] d Hv Hd IH]; intros Hp Hne fuel rest Hf; [done|].
  cbn [forallb] in Hp. apply andb_true_iff in Hp as [Hpv Hpd]. simpl in Hf, Hv.
  destruct fuel as [|fuel]; [lia|]. destruct d as [|[j w] d].
  - cbn [map s_concat]. rewrite parse_member by (done || lia). by rewrite skip_ws_head.
  - cbn [map]. rewrite s_concat_cons, !(s_app_assoc _ _ (String _ _)).
    change ((quote j +:+ key_sep +:+ printed w) :: map member d) with (map member ((j, w) :: d)).
    destruct (item_sep_next (s_concat item_sep (map member ((j, w) :: d)) +:+ String "}" rest)) as (ws & Hsep & Hws).
    rewrite Hsep, parse_member by (done || lia). rewrite skip_ws_head by done.
    change (byte_of "," =? 125) with false. change (byte_of "," =? 44) with true. cbn iota.
    rewrite Hws, (items_head member ((j, w) :: d) (fun _ => True)), IH;
      [done|done|done|simpl in *; lia|by apply Forall_true|done|].
    intros [i x] t _. cbn beta iota. rewrite !s_app_assoc. apply skip_ws_quoted.
Qed.

Lemma parse_print v : reads_back v.
Proof.
  induction v as [| | | | |l IH|l IH|d IH| | |] using pyval_rect_nested; intros Hp fuel rest Hf Hr;
    try discriminate Hp; (destruct fuel as [|fuel]; [simpl in Hf; lia|]).
  - done.
  - by destruct b.
  - destruct (int_token z) as (H1 & H2 & H3). by apply parse_number.
  - destruct f as [r|r]; [|by apply parse_constant_text]. destruct (float_token r Hp) as (H1 & H2 & H3). by apply parse_number.
  - cbn [print_with]. rewrite quote_app. cbn [parse_value]. change (byte_of dquote =? 34) with true. cbn iota.
    by rewrite read_string_quote.
  - cbn [print_with readable vsize] in *. rewrite s_app_cons, s_app_nil_l, s_app_cons, s_app_assoc, s_app_cons, s_app_nil_l.
    cbn [parse_value]. change (byte_of "[" =? 34) with false. change (byte_of "[" =? 91) with true. cbn iota.
    destruct (decide (l = [])) as [->|Hne]; [done|].
    pose proof (parse_elements_print l IH Hp Hne fuel rest ltac:(lia)) as Hl.
    assert (exists c s, s_concat item_sep (map printed l) +:+ String "]" rest = String c s
              /\ is_ws c = false /\ byte_of c <> 93) as (c & s & Hs & Hws & H93).
    { destruct l as [|x l]; [done|]. cbn [forallb] in Hp. apply andb_true_iff in Hp as [Hx _].
      destruct (value_head x Hx) as (c & s & Hc & ? & ?). exists c.
      destruct l; cbn [map s_concat]; rewrite Hc, s_app_cons; eauto. }
    rewrite Hs in *. rewrite skip_ws_head by done.
    replace (byte_of c =? 93) with false by lia. by rewrite Hl.
  - cbn [print_with readable vsize] in *. apply andb_true_iff in Hp as [Hd Hp].
    rewrite s_app_cons, s_app_nil_l, s_app_cons, s_app_assoc, s_app_cons, s_app_nil_l.
    cbn [parse_value]. change (byte_of "{" =? 34) with false. change (byte_of "{" =? 91) with false.
    change (byte_of "{" =? 123) with true. cbn iota.
    destruct (decide (d = [])) as [->|Hne]; [done|].
    pose proof (parse_members_print d IH Hp Hne fuel rest ltac:(lia)) as Hl.
    set (body := s_concat item_sep (map member d)) in *.
    assert (exists s, body +:+ String "}" rest = String dquote s) as (s & Hs).
    { unfold body. destruct d as [|[k x] d]; [done|].
      destruct d; cbn [map s_concat]; rewrite ?s_app_assoc, quote_app; eauto. }
    rewrite Hs in *. rewrite skip_ws_head by done. change (byte_of dquote =? 125) with false. cbn iota.
    rewrite Hl. cbn [mbind option_bind]. rewrite dupdate_distinct; [done|].
    simpl. by apply distinct_NoDup.
Qed.

Lemma length_items {A} (size : A -> nat) (f : A -> string) (l : list A) : Forall (fun x => (size x <= String.length (f x))%nat) l ->
  (list_sum (map (fun x => S (size x)) l) <= S (String.length (s_concat item_sep (map f l))))%nat.
Proof.
  intros Hl. assert (1 <= String.length item_sep)%nat as Hsep by (destruct item_ok as (w & -> & _); simpl; lia).
  induction Hl as [|x l Hx Hl IH]; [simpl; lia|]. destruct l as [|y l]; [simpl in *; lia|].
  rewrite !map_cons in *. rewrite s_concat_cons, !s_length_app, list_sum_cons. lia.
Qed.

Lemma vsize_print v : readable constants v = true -> (vsize v <= String.length (printed v))%nat.
Proof.
  induction v as [| | | | |l IH|l IH|d IH| | |] using pyval_rect_nested; intros Hp; try discriminate Hp.
  1-5: destruct (value_head _ Hp) as (c0 & s0 & -> & _); simpl; lia.
  - cbn [vsize print_with readable] in *. rewrite !s_length_app. cbn [String.length].
    enough (list_sum (map (fun x => S (vsize x)) l) <= S (String.length (s_concat item_sep (map printed l))))%nat by lia.
    apply length_items. rewrite forallb_forall in Hp. rewrite Forall_forall in *. intros x Hx. apply IH; [done|]. by apply Hp, list_elem_of_In.
  - cbn [vsize print_with readable] in *. apply andb_true_iff in Hp as [_ Hp]. rewrite !s_length_app. cbn [String.length].
    enough (list_sum (map (fun '(_, x) => S (vsize x)) d) <= S (String.length (s_concat item_sep (map member d))))%nat by lia.
    assert (map (fun '(_, x) => S (vsize x)) d = map (fun kv => S (vsize kv.2)) d) as -> by (apply map_ext; by intros []).
    apply (length_items (fun kv => vsize kv.2)). rewrite forallb_forall in Hp. rewrite Forall_forall in *. intros [k x] Hx.
    specialize (IH _ Hx (Hp _ (proj1 (list_elem_of_In _ _) Hx))). cbn [snd] in *. rewrite !s_length_app. lia.
Qed.

(** [loads] reads back what is printed with any separators, for every value it can return. *)
Lemma loads_print_with v : readable constants v = true -> loads_with constants (printed v) = Some v.
Proof.
  intros Hp. unfold loads_with. rewrite <- (s_app_nil_r (printed v)) at 2. rewrite skip_ws_printed by done.
  rewrite (parse_print v Hp); [done|pose proof (vsize_print v Hp); lia|done].
Qed.
End separators.

(** The separators the program uses. *)
Lemma item_separators : separator "," "," /\ separator "," ", ".
Proof. split; [by exists EmptyString|by exists " "]. Qed.
Lemma key_separators : separator ":" ":" /\ separator ":" ": ".
Proof. split; [by exists EmptyString|by exists " "]. Qed.

Lemma print_head v : plain v = true -> exists c s, print v = String c s /\ is_ws c = false /\ byte_of c <> 93.
Proof. intros Hp. rewrite <- print_print_with. apply (value_head true). by apply plain_readable. Qed.

Lemma loads_print_any constants v : plain v = true -> loads_with constants (print v) = Some v.
Proof.
  intros Hp. rewrite <- print_print_with. apply loads_print_with; [apply item_separators|apply key_separators|].
  destruct (plain_readable v Hp). by destruct constants.
Qed.
Lemma loads_print v : plain v = true -> loads (print v) = Some v.
Proof. apply loads_print_any. Qed.

(** ** Normal forms *)

Lemma plain_norm v : wf_val v = true -> jsonable v = true -> plain (norm v) = true.
Proof.
  assert (forall l, Forall (fun v => wf_val v = true -> jsonable v = true -> plain (norm v) = true) l ->
    forallb wf_val l = true -> forallb jsonable l = true -> forallb plain (map norm l) = true) as Hlist.
  { induction 1 as [|x l Hx Hl IHl]; simpl; [done|].
    intros [? ?]%andb_true_iff [? ?]%andb_true_iff. by rewrite Hx, IHl. }
  induction v as [| | |[]| |l IH|l IH|d IH| | |] using pyval_rect_nested; simpl; try done.
  - by apply Hlist.
  - by apply Hlist.
  - intros [Hd Hw]%andb_true_iff Hj.
    apply andb_true_iff. split.
    + apply distinct_NoDup. rewrite sort_items_keys, (dkeys_map norm d). by apply distinct_NoDup.
    + unfold sort_items. rewrite (forallb_perm _ _ _ (merge_sort_Permutation item_le _)).
      clear Hd. induction IH as [|[k x] d Hx Hd IHd]; simpl in *; [done|].
      apply andb_true_iff in Hw as [? ?]. apply andb_true_iff in Hj as [? ?]. by rewrite Hx, IHd.
Qed.

Lemma norm_norm v : wf_val v = true -> norm (norm v) = norm v.
Proof.
  assert (forall l, Forall (fun v => wf_val v = true -> norm (norm v) = norm v) l ->
    forallb wf_val l = true -> map norm (map norm l) = map norm l) as Hlist.
  { induction 1 as [|x l Hx Hl IHl]; simpl; [done|]. intros [? ?]%andb_true_iff. by rewrite Hx, IHl. }
  induction v as [| | | | |l IH|l IH|d IH| | |] using pyval_rect_nested; simpl; try done.
  - intros. f_equal. by apply Hlist.
  - intros. f_equal. by apply Hlist.
  - intros [Hd Hw]%andb_true_iff. f_equal.
    set (g := fun '(k, x) => (k, norm x)). set (e := map g d).
    transitivity (sort_items (map g e)).
    + apply sort_items_perm; [|unfold e, g; rewrite (dkeys_map norm), sort_items_keys, (dkeys_map norm); by apply distinct_NoDup].
      apply Permutation_map. unfold sort_items. apply merge_sort_Permutation.
    + f_equal. unfold e. clear Hd e. induction IH as [|[k x] d Hx Hd IHd]; simpl in *; [done|].
      apply andb_true_iff in Hw as [? ?]. by rewrite Hx, IHd.
Qed.

Lemma jsonable_norm v : jsonable (norm v) = jsonable v.
Proof.
  assert (forall l, Forall (fun v => jsonable (norm v) = jsonable v) l ->
    forallb jsonable (map norm l) = forallb jsonable l) as Hlist
    by (induction 1 as [|x l Hx Hl IHl]; simpl; [done|by rewrite Hx, IHl]).
  induction v as [| | | | |l IH|l IH|d IH| | |] using pyval_rect_nested; simpl; try done.
  - by apply Hlist.
  - by apply Hlist.
  - unfold sort_items. rewrite (forallb_perm _ _ _ (merge_sort_Permutation item_le _)).
    induction IH as [|[k x] d Hx Hd IHd]; simpl in *; [done|]. by rewrite Hx, IHd.
Qed.

Lemma loads_canonical v : wf_val v = true -> jsonable v = true -> loads (canonical v) = Some (norm v).
Proof. intros Hw Hj. apply loads_print. by apply plain_norm. Qed.

Lemma canonical_inj v w : wf_val v = true -> jsonable v = true -> wf_val w = true -> jsonable w = true ->
  canonical v = canonical w -> norm v = norm w.
Proof.
  intros Hv Hjv Hw Hjw Heq. apply (f_equal loads) in Heq.
  rewrite !loads_canonical in Heq by done. congruence.
Qed.
End roundtrip.
