(* ===== verification/Request.v ===== *)
(** * Requests: src/capgate/request.py

    Every tool call, message and delegation is an [ActionRequest] before it reaches the policy
    engine. The fields that come from a caller are dynamic values; the arguments are held as the
    canonical JSON text they were frozen into. *)

From S2P Require Import Prelude Datetime Regex PyVal Externals Json.

(** ACTION_NAME: a lower case identifier, or several joined by dots. *)
Definition ident_tail : re := Star (Chr (fun c => is_lower c || is_digit c || is_char "_" c)).
Definition ident : re := Cat (Chr is_lower) ident_tail.
Definition ACTION_NAME : re := Cat ident (Star (Cat (lit ".") ident)).

Definition MESSAGE_ACTION : string := "agent.message".
Definition DELEGATE_ACTION : string := "agent.delegate".

Record ActionRequest := mk_request {
  rq_agent_id : pyval;
  rq_action : pyval;
  rq_arguments_json : string;
  rq_contract_id : pyval;
}.

Section request.
Context `{Externals}.

(** [ActionRequest(agent_id, action, arguments, contract_id)] with its [__post_init__]. *)
Definition make_request (agent_id action arguments contract_id : pyval) : result ActionRequest :=
  let args := if is_none arguments then PDict [] else arguments in
  match as_dict args with
  | None => Raise (MalformedRequest "arguments must be a mapping")
  | Some d =>
      let? frozen := canonical_json (PDict d) in
      Ok (mk_request agent_id action frozen contract_id)
  end.

Definition arguments_hash (r : ActionRequest) : string := sha256_hex (rq_arguments_json r).

(** [json.loads] of the frozen text; [arguments_copy_spec] shows the default is never used. *)
Definition arguments_copy (r : ActionRequest) : dict pyval :=
  match loads (rq_arguments_json r) with
  | Some (PDict d) => d
  | _ => []
  end.

(** [r.arguments.get(key)] through the read-only view. *)
Definition argument (r : ActionRequest) (key : string) : pyval := pget key (arguments_copy r).

Definition valid_action_name (a : string) : bool := match_dollar ACTION_NAME a.

Definition problems (r : ActionRequest) : list string :=
  (match rq_agent_id r with
   | PStr s => if s_is_empty s then ["agent_id must be a non-empty string"] else []
   | _ => ["agent_id must be a non-empty string"]
   end)
  ++ (match rq_action r with
      | PStr s => if valid_action_name s then [] else ["invalid action name: " +:+ repr_str s]
      | v => ["invalid action name: " +:+ py_repr v]
      end)
  ++ (match rq_contract_id r with
      | PNone | PStr _ => []
      | _ => ["contract_id must be a string"]
      end).

Definition request_to_dict (r : ActionRequest) : dict pyval :=
  [("agent_id", rq_agent_id r); ("contract_id", rq_contract_id r); ("action", rq_action r);
   ("arguments", PDict (arguments_copy r))].

(** ** Messages and delegations are requests too *)

Record MessageRequest := mk_message_request {
  mr_sender : pyval;
  mr_recipient : pyval;
  mr_body : pyval;
  mr_contract_id : pyval;
}.

Definition to_action_request (m : MessageRequest) : result ActionRequest :=
  make_request (mr_sender m) (PStr MESSAGE_ACTION)
    (PDict [("to", mr_recipient m); ("body", mr_body m)]) (mr_contract_id m).

Record DelegationRequest := mk_delegation_request {
  dr_sender : pyval;
  dr_recipient : pyval;
  dr_action : pyval;
  dr_arguments : pyval;
  dr_contract_id : pyval;
}.

(** [dict(v or {})]: a mapping, or a list of pairs with text keys; other values raise. *)
Definition pair_of (v : pyval) : option (string * pyval) :=
  match v with
  | PList [PStr k; x] => Some (k, x)
  | PStr (String a (String b EmptyString)) => Some (chr1 a, PStr (chr1 b))
  | _ => None
  end.
Definition dict_of (v : pyval) : result (dict pyval) :=
  if truthy v then
    match v with
    | PDict d => Ok d
    | PList l =>
        match mapM pair_of l with
        | Some kvs => Ok (dupdate [] kvs)
        | None => Raise (TypeError "cannot convert dictionary update sequence")
        end
    | PStr _ => Raise (ValueError "dictionary update sequence element #0 has length 1; 2 is required")
    | _ => Raise (TypeError "object is not iterable")
    end
  else Ok [].

Definition delegation_request (d : DelegationRequest) : result ActionRequest :=
  let? arguments := dict_of (dr_arguments d) in
  make_request (dr_sender d) (PStr DELEGATE_ACTION)
    (PDict [("to", dr_recipient d); ("action", dr_action d); ("arguments", PDict arguments)])
    (dr_contract_id d).

(** The recipient acts under its own binding: the contract id is left out. *)
Definition delegated_action (d : DelegationRequest) : result ActionRequest :=
  let? arguments := dict_of (dr_arguments d) in
  make_request (dr_recipient d) (dr_action d) (PDict arguments) PNone.

(** ** Lemmas *)

(** The arguments of a constructed request are those it was given, in canonical order. *)
Lemma arguments_copy_spec a act d c r : wf_val (PDict d) = true ->
  make_request a act (PDict d) c = Ok r ->
  PDict (arguments_copy r) = norm (PDict d)
  /\ rq_arguments_json r = canonical (PDict d)
  /\ rq_agent_id r = a /\ rq_action r = act /\ rq_contract_id r = c.
Proof.
  unfold make_request, canonical_json, arguments_copy. intros Hw Hr. cbn [is_none as_dict] in Hr.
  destruct (jsonable (PDict d)) eqn:Hj; [|done]. injection Hr as <-. simpl rq_arguments_json.
  by rewrite loads_canonical.
Qed.

(** What the policy engine may assume once [problems] is empty. *)
Lemma problems_nil r : problems r = [] <->
  exists a act, rq_agent_id r = PStr a /\ a <> EmptyString /\ rq_action r = PStr act
    /\ valid_action_name act = true /\ (rq_contract_id r = PNone \/ exists c, rq_contract_id r = PStr c).
Proof.
  unfold problems. split.
  - intros [Ha [Hact Hc]%app_eq_nil]%app_eq_nil.
    destruct (rq_agent_id r); try done. destruct s as [|ch a]; [done|].
    destruct (rq_action r) as [| | | |act| | | | | |]; try done.
    destruct (valid_action_name act) eqn:E; [|done].
    destruct (rq_contract_id r); try done; eexists _, _; split_and!; eauto.
  - intros (a & act & -> & Ha & -> & -> & Hc). destruct a; [done|].
    by destruct Hc as [-> |[c ->]].
Qed.
End request.
