(* ===== verification/Decision.v ===== *)
(** * Decisions: src/capgate/decision.py, and [Usage] of src/capgate/policy.py *)

From S2P Require Import Prelude Datetime Regex PyVal Externals Json Request.

Inductive DecisionType := ALLOW | DENY | ESCALATE.

Inductive ReasonCode :=
| CAPABILITY_GRANTED | APPROVED_BY_HUMAN
| REQUIRES_APPROVAL
| MALFORMED_REQUEST | UNAUTHENTICATED | IDENTITY_MISMATCH | UNKNOWN_AGENT | CONTRACT_MISMATCH
| CONTRACT_EXPIRED | RESERVED_ACTION
| TOOL_NOT_ALLOWED | EXPLICITLY_DENIED | CAPABILITY_EXPIRED | BUDGET_EXHAUSTED
| ARGUMENT_NOT_ALLOWED | ARGUMENT_MISSING | DOMAIN_NOT_ALLOWED | TARGET_NOT_ALLOWED
| DELEGATED_ACTION_NOT_ALLOWED
| DELEGATION_NOT_AUTHORIZED | APPROVAL_REJECTED.

#[export] Instance DecisionType_eq_dec : EqDecision DecisionType.
Proof. solve_decision. Defined.
#[export] Instance ReasonCode_eq_dec : EqDecision ReasonCode.
Proof. solve_decision. Defined.

Definition decision_value (d : DecisionType) : string :=
  match d with ALLOW => "allow" | DENY => "deny" | ESCALATE => "escalate" end.

Definition all_reason_codes : list ReasonCode :=
  [CAPABILITY_GRANTED; APPROVED_BY_HUMAN; REQUIRES_APPROVAL; MALFORMED_REQUEST; UNAUTHENTICATED;
   IDENTITY_MISMATCH; UNKNOWN_AGENT; CONTRACT_MISMATCH; CONTRACT_EXPIRED; RESERVED_ACTION;
   TOOL_NOT_ALLOWED; EXPLICITLY_DENIED; CAPABILITY_EXPIRED; BUDGET_EXHAUSTED; ARGUMENT_NOT_ALLOWED;
   ARGUMENT_MISSING; DOMAIN_NOT_ALLOWED; TARGET_NOT_ALLOWED; DELEGATED_ACTION_NOT_ALLOWED;
   DELEGATION_NOT_AUTHORIZED; APPROVAL_REJECTED].

Definition reason_value (r : ReasonCode) : string :=
  match r with
  | CAPABILITY_GRANTED => "CAPABILITY_GRANTED"
  | APPROVED_BY_HUMAN => "APPROVED_BY_HUMAN"
  | REQUIRES_APPROVAL => "REQUIRES_APPROVAL"
  | MALFORMED_REQUEST => "MALFORMED_REQUEST"
  | UNAUTHENTICATED => "UNAUTHENTICATED"
  | IDENTITY_MISMATCH => "IDENTITY_MISMATCH"
  | UNKNOWN_AGENT => "UNKNOWN_AGENT"
  | CONTRACT_MISMATCH => "CONTRACT_MISMATCH"
  | CONTRACT_EXPIRED => "CONTRACT_EXPIRED"
  | RESERVED_ACTION => "RESERVED_ACTION"
  | TOOL_NOT_ALLOWED => "TOOL_NOT_ALLOWED"
  | EXPLICITLY_DENIED => "EXPLICITLY_DENIED"
  | CAPABILITY_EXPIRED => "CAPABILITY_EXPIRED"
  | BUDGET_EXHAUSTED => "BUDGET_EXHAUSTED"
  | ARGUMENT_NOT_ALLOWED => "ARGUMENT_NOT_ALLOWED"
  | ARGUMENT_MISSING => "ARGUMENT_MISSING"
  | DOMAIN_NOT_ALLOWED => "DOMAIN_NOT_ALLOWED"
  | TARGET_NOT_ALLOWED => "TARGET_NOT_ALLOWED"
  | DELEGATED_ACTION_NOT_ALLOWED => "DELEGATED_ACTION_NOT_ALLOWED"
  | DELEGATION_NOT_AUTHORIZED => "DELEGATION_NOT_AUTHORIZED"
  | APPROVAL_REJECTED => "APPROVAL_REJECTED"
  end.

(** [DecisionType(value)] and [ReasonCode(value)]. *)
Definition read_decision (s : string) : result DecisionType :=
  match find (fun d => String.eqb (decision_value d) s) [ALLOW; DENY; ESCALATE] with
  | Some d => Ok d
  | None => Raise (ValueError (repr_str s +:+ " is not a valid DecisionType"))
  end.
Definition read_reason (s : string) : result ReasonCode :=
  match find (fun r => String.eqb (reason_value r) s) all_reason_codes with
  | Some r => Ok r
  | None => Raise (ValueError (repr_str s +:+ " is not a valid ReasonCode"))
  end.

Record PolicyEvaluation := mk_evaluation {
  ev_decision : DecisionType;
  ev_reason_code : ReasonCode;
  ev_detail : string;
  ev_capability : option string;
  ev_rule : option string;
}.

Record Usage := mk_usage { contract_steps : Z; action_calls : Z }.

Record Decision := mk_decision {
  d_decision_id : string;
  d_request : ActionRequest;
  d_decision : DecisionType;
  d_reason_code : ReasonCode;
  d_detail : string;
  d_contract_id : option string;
  d_contract_hash : option string;
  d_capability : option string;
  d_rule : option string;
  d_timestamp : Z;
  d_delegated_by : option string;
  d_parent_decision_id : option string;
  d_approved_by : option string;
}.

Definition allowed (d : Decision) : bool := bool_decide (d_decision d = ALLOW).
Definition denied (d : Decision) : bool := bool_decide (d_decision d = DENY).
Definition escalated (d : Decision) : bool := bool_decide (d_decision d = ESCALATE).

(** ** Persisted form *)

Definition key (k : string) (d : dict pyval) : result pyval :=
  match dget k d with Some v => Ok v | None => Raise (KeyError k) end.
Definition want_str (v : pyval) : result string :=
  match v with PStr s => Ok s | _ => Raise (TypeError "str expected") end.
Definition want_opt_str (v : pyval) : result (option string) :=
  match v with PNone => Ok None | PStr s => Ok (Some s) | _ => Raise (TypeError "str or None expected") end.
Definition want_dict (v : pyval) : result (dict pyval) :=
  match v with PDict d => Ok d | _ => Raise (TypeError "dict expected") end.
Definition want_int (v : pyval) : result Z :=
  match v with PInt z => Ok z | _ => Raise (TypeError "int expected") end.
(** [datetime.fromisoformat] of a stored timestamp, as an instant. *)
Definition want_instant (v : pyval) : result Z :=
  let? s := want_str v in
  match fromisoformat s with
  | Some (mk_datetime local (Some off)) => Ok (local - off)
  | Some (mk_datetime _ None) => Raise (ValueError "naive timestamp")
  | None => Raise (ValueError ("Invalid isoformat string: " +:+ repr_str s))
  end.

Section decision.
Context `{Externals}.

Definition decision_to_dict (d : Decision) : dict pyval :=
  [("decision_id", PStr (d_decision_id d));
   ("decision", PStr (decision_value (d_decision d)));
   ("reason_code", PStr (reason_value (d_reason_code d)));
   ("detail", PStr (d_detail d));
   ("agent_id", rq_agent_id (d_request d));
   ("contract_id", ostr (d_contract_id d));
   ("contract_hash", ostr (d_contract_hash d));
   ("action", rq_action (d_request d));
   ("arguments_hash", PStr (arguments_hash (d_request d)));
   ("capability", ostr (d_capability d));
   ("policy_rule", ostr (d_rule d));
   ("delegated_by", ostr (d_delegated_by d));
   ("parent_decision_id", ostr (d_parent_decision_id d));
   ("approved_by", ostr (d_approved_by d));
   ("timestamp", PStr (isoformat (d_timestamp d)))].

Definition decision_to_record (d : Decision) : dict pyval :=
  decision_to_dict d ++ [("request", PDict (request_to_dict (d_request d)))].

Definition decision_from_record (record : dict pyval) : result Decision :=
  let? reqv := key "request" record in
  let? req := want_dict reqv in
  let? decision_id := let? v := key "decision_id" record in want_str v in
  let? agent := key "agent_id" req in
  let? action := key "action" req in
  let? arguments := key "arguments" req in
  let? contract := key "contract_id" req in
  let? request := make_request agent action arguments contract in
  let? decision := (let? v := key "decision" record in let? s := want_str v in read_decision s) in
  let? reason := (let? v := key "reason_code" record in let? s := want_str v in read_reason s) in
  let? detail := (let? v := key "detail" record in want_str v) in
  let? contract_id := (let? v := key "contract_id" record in want_opt_str v) in
  let? contract_hash := (let? v := key "contract_hash" record in want_opt_str v) in
  let? capability := (let? v := key "capability" record in want_opt_str v) in
  let? rule := (let? v := key "policy_rule" record in want_opt_str v) in
  let? timestamp := (let? v := key "timestamp" record in want_instant v) in
  let? delegated_by := want_opt_str (pget "delegated_by" record) in
  let? parent := want_opt_str (pget "parent_decision_id" record) in
  let? approved_by := want_opt_str (pget "approved_by" record) in
  Ok (mk_decision decision_id request decision reason detail contract_id contract_hash capability
        rule timestamp delegated_by parent approved_by).

(** A request whose frozen text is the canonical text of well-formed arguments. *)
Definition wf_request (r : ActionRequest) : Prop :=
  exists d, wf_val (PDict d) = true /\ jsonable (PDict d) = true
    /\ rq_arguments_json r = canonical (PDict d).

Lemma make_request_wf a act d c r : wf_val (PDict d) = true ->
  make_request a act (PDict d) c = Ok r -> wf_request r.
Proof.
  intros Hw Hr. exists d. unfold make_request, canonical_json in Hr. cbn [is_none as_dict] in Hr.
  destruct (jsonable (PDict d)) eqn:Hj; [|done]. by injection Hr as <-.
Qed.

(** Rebuilding a request from its own fields gives the request back. *)
Lemma rebuild_request r : wf_request r ->
  make_request (rq_agent_id r) (rq_action r) (PDict (arguments_copy r)) (rq_contract_id r) = Ok r.
Proof.
  intros (d & Hw & Hj & Hjson). unfold make_request, arguments_copy, canonical_json. cbn [is_none as_dict].
  rewrite Hjson, loads_canonical by done. cbn [norm].
  set (e := sort_items (map (fun '(k, x) => (k, norm x)) d)).
  assert (norm (PDict d) = PDict e) as He by done.
  rewrite <- He. rewrite jsonable_norm, Hj by done. cbn [result_bind].
  unfold canonical. rewrite norm_norm by done. destruct r; simpl in *. subst. done.
Qed.

Lemma read_decision_value d : read_decision (decision_value d) = Ok d.
Proof. by destruct d. Qed.

Lemma read_reason_value r : read_reason (reason_value r) = Ok r.
Proof. by destruct r. Qed.

Lemma want_opt_ostr o : want_opt_str (ostr o) = Ok o.
Proof. by destruct o. Qed.

Lemma want_instant_isoformat t : in_datetime_range t = true -> want_instant (PStr (isoformat t)) = Ok t.
Proof.
  intros Ht. unfold want_instant. cbn [want_str result_bind].
  rewrite fromisoformat_isoformat by done. by rewrite Z.sub_0_r.
Qed.

(** A persisted decision is read back unchanged. *)
Lemma decision_record_roundtrip d :
  wf_request (d_request d) -> in_datetime_range (d_timestamp d) = true ->
  decision_from_record (decision_to_record d) = Ok d.
Proof.
  intros Hreq Ht. unfold decision_from_record, decision_to_record, decision_to_dict, request_to_dict, pget, key.
  cbn [app dget String.eqb Ascii.eqb Bool.eqb result_bind want_dict want_str from_option id].
  rewrite (rebuild_request _ Hreq), read_decision_value, read_reason_value, !want_opt_ostr.
  cbn [result_bind]. rewrite want_instant_isoformat by done. cbn [result_bind]. by destruct d.
Qed.
End decision.
