(* ===== verification/NetAddr.v ===== *)
(** * Hosts, addresses and URLs: src/capgate/netaddr.py

    Host and address classification, with the parsing of [ipaddress], [socket.inet_aton] and
    [urllib.parse.urlsplit] it relies on. *)

From S2P Require Import Prelude Regex PyVal Externals.

(** ** IP addresses *)

Inductive ip :=
| IPv4 (n : Z)
| IPv6 (n : Z).

Definition s_len (s : string) : Z := Z.of_nat (String.length s).
Definition contains (c : ascii) (s : string) : bool := s_exists (is_char c) s.

(** An octet of [ipaddress.IPv4Address]: one to three ASCII digits, no leading zero, at most 255. *)
Definition parse_octet (s : string) : option Z :=
  match s with
  | EmptyString => None
  | String c rest =>
      if negb (s_forall is_digit s) || (3 <? s_len s) || (is_char "0" c && negb (s_is_empty rest))
      then None
      else let n := read_digits s in if 255 <? n then None else Some n
  end.

Definition parse_ipv4 (s : string) : option Z :=
  match split_on "."%char s with
  | [a; b; c; d] =>
      a' ← parse_octet a; b' ← parse_octet b; c' ← parse_octet c; d' ← parse_octet d;
      Some (((a' * 256 + b') * 256 + c') * 256 + d')
  | _ => None
  end.

Definition hex_char_value (c : ascii) : Z :=
  if is_digit c then byte_of c - 48 else if in_range 97 102 c then byte_of c - 87 else byte_of c - 55.
Fixpoint read_hex_from (acc : Z) (s : string) : Z :=
  match s with EmptyString => acc | String c s' => read_hex_from (acc * 16 + hex_char_value c) s' end.

Definition parse_hextet (s : string) : option Z :=
  if s_is_empty s || negb (s_forall is_hex s) || (4 <? s_len s) then None else Some (read_hex_from 0 s).

(** The hextets after the rewriting of a dotted IPv4 tail: [inl] texts, [inr] values. *)
Definition ipv6_parts (s : string) : option (list (string + Z)) :=
  let parts := split_on ":"%char s in
  if (length parts <? 3)%nat then None else
  match List.rev parts with
  | l :: before =>
      if contains "." l
      then n ← parse_ipv4 l;
           Some (map inl (List.rev before) ++ [inr (n / 65536); inr (n mod 65536)])
      else Some (map inl parts)
  | [] => None
  end.

Definition part_is_empty (p : string + Z) : bool := match p with inl s => s_is_empty s | inr _ => false end.
Definition hextet_of (p : string + Z) : option Z := match p with inl s => parse_hextet s | inr n => Some n end.
Definition join_hextets (l : list Z) : Z := foldl (fun acc h => acc * 65536 + h) 0 l.

(** The positions, from 1 to len-2, of empty parts. *)
Definition inner_empties (parts : list (string + Z)) : list nat :=
  List.filter (fun i => match parts !! i with Some p => part_is_empty p | None => false end)
    (seq 1 (length parts - 2)).

Definition parse_ipv6_body (s : string) : option Z :=
  parts ← ipv6_parts s;
  if (9 <? length parts)%nat then None else
  let first_empty := match parts with p :: _ => part_is_empty p | [] => false end in
  let last_empty := match List.rev parts with p :: _ => part_is_empty p | [] => false end in
  match inner_empties parts with
  | [] =>
      if negb (length parts =? 8)%nat then None
      else hs ← mapM hextet_of parts; Some (join_hextets hs)
  | [skip] =>
      let hi := if first_empty then (skip - 1)%nat else skip in
      let lo := if last_empty then (length parts - skip - 2)%nat else (length parts - skip - 1)%nat in
      if (first_empty && negb (hi =? 0)%nat) || (last_empty && negb (lo =? 0)%nat) then None
      else if (8 <=? hi + lo)%nat then None
      else hs ← mapM hextet_of (firstn hi parts);
           ls ← mapM hextet_of (skipn (length parts - lo) parts);
           Some (join_hextets (hs ++ replicate (8 - (hi + lo)) 0 ++ ls))
  | _ => None
  end.

(** [ipaddress.IPv6Address]: an optional scope id after a percent sign is allowed and ignored. *)
Definition parse_ipv6 (s : string) : option Z :=
  let '(addr, has_scope, scope) := partition_on "%"%char s in
  if has_scope && (s_is_empty scope || contains "%" scope) then None else parse_ipv6_body addr.

Definition ip_address (s : string) : option ip :=
  if contains "/" s then None else
  match parse_ipv4 s with
  | Some n => Some (IPv4 n)
  | None => IPv6 <$> parse_ipv6 s
  end.

(** ** [socket.inet_aton]: the legacy spellings of an IPv4 address *)

Definition is_octal (c : ascii) : bool := in_range 48 55 c.
Fixpoint read_base_from (base acc : Z) (s : string) : Z :=
  match s with EmptyString => acc | String c s' => read_base_from base (acc * base + hex_char_value c) s' end.

(** A number as [strtoul] with base 0 reads it, when it reads all of it. *)
Definition aton_number (s : string) : option Z :=
  match s with
  | String z (String x rest) =>
      if is_char "0" z && (is_char "x" x || is_char "X" x)
      then if s_is_empty rest || negb (s_forall is_hex rest) then None else Some (read_base_from 16 0 rest)
      else if is_char "0" z
      then if s_forall is_octal s then Some (read_base_from 8 0 s) else None
      else if s_forall is_digit s then Some (read_digits s) else None
  | _ => if negb (s_is_empty s) && s_forall is_digit s then Some (read_digits s) else None
  end.

Definition is_c_space (c : ascii) : bool := (byte_of c =? 32) || in_range 9 13 c.

Definition inet_aton (s : string) : option Z :=
  ns ← mapM aton_number (split_on "."%char (rstrip_by is_c_space s));
  match ns with
  | [a] => if a <? 2 ^ 32 then Some a else None
  | [a; b] => if (a <? 256) && (b <? 2 ^ 24) then Some (a * 2 ^ 24 + b) else None
  | [a; b; c] => if (a <? 256) && (b <? 256) && (c <? 2 ^ 16) then Some (a * 2 ^ 24 + b * 2 ^ 16 + c) else None
  | [a; b; c; d] =>
      if (a <? 256) && (b <? 256) && (c <? 256) && (d <? 256)
      then Some (a * 2 ^ 24 + b * 2 ^ 16 + c * 256 + d) else None
  | _ => None
  end.

(** ** Classification of hosts *)

Definition NUMERIC_LABEL : re :=
  Alt (Cat (lit "0") (Cat (Chr (fun c => is_char "x" c || is_char "X" c)) (Star (Chr is_hex)))) (plus (Chr is_digit)).

Definition is_bracket (c : ascii) : bool := is_char "[" c || is_char "]" c.

(** The IP a host literal denotes, legacy IPv4 spellings included; [Raise] for a numeric host that
    no reading accepts. *)
Definition ip_literal (host : string) : result (option ip) :=
  let candidate := strip_by is_bracket host in
  match ip_address candidate with
  | Some a => Ok (Some a)
  | None =>
      let labels := split_on "."%char candidate in
      if (length labels <=? 4)%nat && forallb (match_dollar NUMERIC_LABEL) labels
      then match inet_aton candidate with
           | Some n => Ok (Some (IPv4 n))
           | None => Raise (InvalidHost ("ambiguous numeric host " +:+ repr_str host))
           end
      else Ok None
  end.

Definition host_char (c : ascii) : bool := is_lower c || is_digit c.
Definition host_inner (c : ascii) : bool := host_char c || is_char "-" c.
Definition HOST_LABEL : re :=
  Cat (Chr host_char) (opt (Cat (up_to 61 (Chr host_inner)) (Chr host_char))).
Definition HOSTNAME : re := Cat HOST_LABEL (Star (Cat (lit ".") HOST_LABEL)).

Definition hostname_fits (h : string) : bool := (1 <=? s_len h) && (s_len h <=? 253) && fullmatch HOSTNAME h.
Definition valid_hostname (h : string) : bool :=
  hostname_fits h || match drop_newline h with Some h' => hostname_fits h' | None => false end.

Definition normalize_hostname (host0 : string) : result string :=
  let host := rstrip_by (is_char ".") (py_lower host0) in
  let? literal := ip_literal host in
  match literal with
  | Some _ =>
      match ip_address (strip_by is_bracket host) with
      | Some _ => Ok host
      | None => Raise (InvalidHost ("non-canonical IP address " +:+ repr_str host))
      end
  | None =>
      if valid_hostname host then Ok host
      else Raise (InvalidHost ("host " +:+ repr_str host +:+ " is not a plain ASCII DNS name"))
  end.

Definition PRIVATE_SUFFIXES : list string :=
  [".localhost"; ".local"; ".internal"; ".intranet"; ".lan"; ".corp"; ".home.arpa"].

Section netaddr.
Context `{Externals}.

(** [ip.ipv4_mapped], [ip.sixtofour] and the client address of [ip.teredo]. *)
Definition embedded_ipv4 (n : Z) : list Z :=
  (if n / 2 ^ 32 =? 65535 then [n mod 2 ^ 32] else [])
  ++ (if n / 2 ^ 112 =? 8194 then [n / 2 ^ 80 mod 2 ^ 32] else [])
  ++ (if n / 2 ^ 96 =? 536936448 then [2 ^ 32 - 1 - n mod 2 ^ 32] else []).

Definition is_multicast (a : ip) : bool :=
  match a with
  | IPv4 n => n / 2 ^ 28 =? 14
  | IPv6 n => n / 2 ^ 120 =? 255
  end.

Definition is_public_ipv4 (n : Z) : bool := ipv4_is_global n && negb (is_multicast (IPv4 n)).
Definition is_public_ip (a : ip) : bool :=
  match a with
  | IPv4 n => is_public_ipv4 n
  | IPv6 n => forallb is_public_ipv4 (embedded_ipv4 n) && ipv6_is_global n && negb (is_multicast a)
  end.

Definition is_private_host (host : string) : result bool :=
  let? literal := ip_literal host in
  match literal with
  | Some a => Ok (negb (is_public_ip a))
  | None => Ok (String.eqb host "localhost" || any_suffix PRIVATE_SUFFIXES host || negb (contains "." host))
  end.

(** ** [urllib.parse.urlsplit] and the parts of its result the program reads *)

Record url_parts := mk_url {
  u_scheme : string;
  u_netloc : string;
  u_path : string;
  u_query : string;
}.

Definition is_scheme_char (c : ascii) : bool := is_alnum c || is_char "+" c || is_char "-" c || is_char "." c.

Definition split_scheme (url : string) : string * string :=
  match partition_on ":"%char url with
  | (String c s, true, rest) =>
      if is_alpha c && s_forall is_scheme_char (String c s) then (py_lower (String c s), rest)
      else (EmptyString, url)
  | _ => (EmptyString, url)
  end.

Definition is_netloc_end (c : ascii) : bool := is_char "/" c || is_char "?" c || is_char "#" c.
Fixpoint split_netloc (s : string) : string * string :=
  match s with
  | EmptyString => (EmptyString, EmptyString)
  | String c s' => if is_netloc_end c then (EmptyString, s) else let '(a, b) := split_netloc s' in (String c a, b)
  end.

(** [None] is the ValueError of unbalanced brackets or of a rejected network location. *)
Definition urlsplit (url : string) : option url_parts :=
  let '(scheme, rest) := split_scheme url in
  let '(netloc, rest) := match strip_prefix "//" rest with
                         | Some r => split_netloc r
                         | None => (EmptyString, rest)
                         end in
  if negb (Bool.eqb (contains "[" netloc) (contains "]" netloc)) || negb (netloc_accepted netloc) then None
  else let '(rest, _, _) := partition_on "#"%char rest in
       let '(path, _, query) := partition_on "?"%char rest in
       Some (mk_url scheme netloc path query).

(** [_hostinfo]: host and port texts. *)
Definition hostinfo (netloc : string) : string * string :=
  let '(_, _, info) := rpartition_on "@"%char netloc in
  let '(before, bracket, bracketed) := partition_on "["%char info in
  if bracket
  then let '(host, _, port) := partition_on "]"%char bracketed in
       let '(_, _, port) := partition_on ":"%char port in (host, port)
  else let '(host, _, port) := partition_on ":"%char info in (host, port).

(** [parts.hostname or an empty string]: the zone of a scoped address is not lower-cased. *)
Definition u_hostname (u : url_parts) : string :=
  let '(h, percent, zone) := partition_on "%"%char (hostinfo (u_netloc u)).1 in
  py_lower h +:+ (if percent then String "%"%char zone else EmptyString).

(** [parts.port]: [None] is the ValueError of a malformed port, [Some None] no port. *)
Definition u_port (u : url_parts) : option (option Z) :=
  let port := (hostinfo (u_netloc u)).2 in
  if s_is_empty port then Some None
  else if s_forall is_digit port
       then let n := read_digits port in if n <=? 65535 then Some (Some n) else None
       else None.

Definition u_has_userinfo (u : url_parts) : bool := contains "@" (u_netloc u).
End netaddr.

(** ** What the classification means

    Read off the texts: a host is an address when [ipaddress] reads it, brackets stripped. It is a name
    when it is none, nor a spelling of one that some resolver would read - up to four labels, each a
    number - and is a plain DNS name: dot-separated labels of lower-case letters, digits and inner
    hyphens, 253 characters at most. (A [$] admits a newline at the end.) *)
Definition literal_of (h : string) : option ip := ip_address (strip_by is_bracket h).
Definition numeric_spelling (h : string) : Prop :=
  let labels := split_on "."%char (strip_by is_bracket h) in
  (length labels <= 4)%nat /\ forall l, l ∈ labels -> match_dollar NUMERIC_LABEL l = true.
Definition dns_name (h : string) : Prop :=
  exists n, (h = n \/ h = n +:+ chr1 newline) /\ 1 <= s_len n <= 253 /\ re_in HOSTNAME n.

Definition host_is_address (h : string) : Prop := exists a, literal_of h = Some a.
Definition host_is_name (h : string) : Prop := literal_of h = None /\ ~ numeric_spelling h /\ dns_name h.

Lemma ip_literal_spec h a : ip_literal h = Ok (Some a) -> literal_of h = Some a \/ literal_of h = None /\ numeric_spelling h.
Proof.
  unfold ip_literal, literal_of, numeric_spelling. destruct (ip_address _); [by intros [= ->]; left|].
  destruct (_ && _) eqn:E; [|done]. intros _. right. split; [done|]. apply andb_true_iff in E as [El Ea].
  apply Nat.leb_le in El. split; [done|]. intros l Hl%list_elem_of_In. by apply (proj1 (forallb_forall _ _) Ea).
Qed.

Lemma ip_literal_none h : ip_literal h = Ok None <-> literal_of h = None /\ ~ numeric_spelling h.
Proof.
  unfold ip_literal, literal_of, numeric_spelling. destruct (ip_address _); [split; [done|by intros [? _]]|].
  destruct (_ && _) eqn:E.
  - apply andb_true_iff in E as [El Ea]. apply Nat.leb_le in El. split; [by destruct (inet_aton _)|].
    intros [_ Hn]. destruct Hn. split; [done|]. intros l Hl%list_elem_of_In. by apply (proj1 (forallb_forall _ _) Ea).
  - split; [|done]. intros _. split; [done|]. intros [El Ea]. apply Nat.leb_le in El. rewrite El in E. cbn [andb] in E.
    apply not_true_iff_false in E. apply E, forallb_forall. intros l Hl%list_elem_of_In. by apply Ea.
Qed.

Lemma valid_hostname_spec h : valid_hostname h = true <-> dns_name h.
Proof.
  unfold valid_hostname, dns_name. rewrite orb_true_iff.
  assert (forall n, hostname_fits n = true <-> 1 <= s_len n <= 253 /\ re_in HOSTNAME n) as Hf.
  { intros n. unfold hostname_fits. rewrite !andb_true_iff, fullmatch_spec, !Z.leb_le. tauto. }
  split.
  - intros [Hh|Hh]; [exists h; split; [by left|by apply Hf]|]. destruct (drop_newline h) as [n|] eqn:E; [|done].
    apply drop_newline_spec in E. exists n. split; [by right|by apply Hf].
  - intros (n & [->|Hn] & Hn'); [left; by apply Hf|]. right. apply drop_newline_spec in Hn. rewrite Hn. by apply Hf.
Qed.

(** Normalizing a host gives it in lower case without the dots at its end, if that is an address or a name. *)
Lemma normalize_hostname_spec raw h : normalize_hostname raw = Ok h <->
  h = rstrip_by (is_char ".") (py_lower raw) /\ (host_is_address h \/ host_is_name h).
Proof.
  unfold normalize_hostname. set (h' := rstrip_by _ _). unfold host_is_address, host_is_name. fold (literal_of h').
  destruct (ip_literal h') as [[a|]|e] eqn:E; cbn [result_bind].
  - apply ip_literal_spec in E as E'. split.
    + destruct (literal_of h') as [b|] eqn:El; [|done]. intros [= <-]. eauto.
    + intros [-> [[b ->]|(Hn & Hnot & _)]]; [done|]. destruct E' as [E'|[_ E']]; [congruence|done].
  - apply ip_literal_none in E as [El Hn]. split.
    + destruct (valid_hostname h') eqn:Ev; [|done]. intros [= <-]. split; [done|]. right. by rewrite <- valid_hostname_spec.
    + intros [-> [[a Ha]|(_ & _ & Hv)]]; [congruence|]. apply valid_hostname_spec in Hv. by rewrite Hv.
  - split; [done|]. intros [-> [[a Ha]|(Hn & Hnot & _)]].
    + unfold ip_literal, literal_of in *. by rewrite Ha in E.
    + assert (ip_literal h' = Ok None) as Hx by (by apply ip_literal_none). congruence.
Qed.

(** Public addresses, and names that are not local: the address globally routable and no multicast, with
    the IPv4 address it may hide; the name with a dot and under none of the local suffixes. *)
Definition public_ipv4 `{Externals} (n : Z) : Prop := ipv4_is_global n = true /\ n / 2 ^ 28 <> 14.
Definition public_address `{Externals} (a : ip) : Prop :=
  match a with
  | IPv4 n => public_ipv4 n
  | IPv6 n => ipv6_is_global n = true /\ n / 2 ^ 120 <> 255 /\ forall m, m ∈ embedded_ipv4 n -> public_ipv4 m
  end.
Definition public_host `{Externals} (h : string) : Prop :=
  (exists a, literal_of h = Some a /\ public_address a)
  \/ (host_is_name h /\ h <> "localhost" /\ contains "." h = true
      /\ forall suffix, suffix ∈ PRIVATE_SUFFIXES -> ~ exists r, h = r +:+ suffix).

Lemma is_public_ipv4_spec `{Externals} n : is_public_ipv4 n = true <-> public_ipv4 n.
Proof. unfold is_public_ipv4, public_ipv4. simpl. by rewrite andb_true_iff, negb_true_iff, Z.eqb_neq. Qed.

Lemma is_public_ip_spec `{Externals} a : is_public_ip a = true <-> public_address a.
Proof.
  destruct a as [n|n]; cbn [is_public_ip public_address]; [apply is_public_ipv4_spec|].
  rewrite !andb_true_iff, negb_true_iff, forallb_forall. cbn [is_multicast]. rewrite Z.eqb_neq.
  setoid_rewrite <- list_elem_of_In. setoid_rewrite is_public_ipv4_spec. tauto.
Qed.

Lemma is_private_host_spec `{Externals} h : host_is_address h \/ host_is_name h ->
  is_private_host h = Ok false <-> public_host h.
Proof.
  intros Hh. unfold is_private_host, public_host. destruct Hh as [[a Ha]|(Hn & Hnum & Hd)].
  - assert (ip_literal h = Ok (Some a)) as -> by (unfold ip_literal, literal_of in *; by rewrite Ha). cbn [result_bind].
    rewrite Ok_inj, negb_false_iff, is_public_ip_spec. split; [eauto|].
    intros [(b & Hb & Hp)|((Hn & _) & _)]; congruence.
  - rewrite (proj2 (ip_literal_none h)) by done. cbn [result_bind].
    rewrite Ok_inj, !orb_false_iff, negb_false_iff, String.eqb_neq.
    assert (any_suffix PRIVATE_SUFFIXES h = false <-> forall suffix, suffix ∈ PRIVATE_SUFFIXES -> ~ exists r, h = r +:+ suffix) as ->.
    { unfold any_suffix. rewrite <- not_true_iff_false, existsb_exists. split.
      - intros Hno p Hp Hr. apply Hno. exists p. split; [by apply list_elem_of_In|by apply ends_with_spec].
      - intros Hno (p & Hp%list_elem_of_In & Hr%ends_with_spec). by apply (Hno p Hp). }
    split; [intros [[? ?] ?]; right; by split_and!|]. intros [(a & Ha & _)|(_ & ? & ? & ?)]; [congruence|by split_and!].
Qed.

(** ** Examples *)

Example inet_aton_forms :
  map inet_aton ["127.1"; "0x7f.0.0.1"; "0177.0.0.1"; "2130706433"; "0x"; "08.1"]
  = [Some 2130706433; Some 2130706433; Some 2130706433; Some 2130706433; None; None].
Proof. reflexivity. Qed.

Example ip_address_forms :
  map ip_address ["127.0.0.1"; "127.1"; "01.2.3.4"; "::1"; "::ffff:10.0.0.1"; "1::2::3"; "fe80::1%eth0"]
  = [Some (IPv4 2130706433); None; None; Some (IPv6 1); Some (IPv6 281470849515521); None;
     Some (IPv6 338288524927261089654018896841347694593)].
Proof. reflexivity. Qed.
