(* ===== verification/Timeutil.v ===== *)
(** * Timestamps of contracts: src/capgate/timeutil.py *)

From S2P Require Import Prelude Datetime PyVal.

(** [s.replace(c, r)] for a single character [c]. *)
Fixpoint s_replace (c : ascii) (r s : string) : string :=
  match s with
  | EmptyString => EmptyString
  | String d s' => (if Ascii.eqb c d then r else chr1 d) +:+ s_replace c r s'
  end.

(** [dt.astimezone(timezone.utc)] of an aware datetime. *)
Definition astimezone_utc (local offset : Z) : result Z :=
  let t := local - offset in
  if in_datetime_range t then Ok t else Raise (OverflowError "date value out of range").

(** A datetime, or ISO 8601 text with an offset; the result is the instant. *)
Definition parse_timestamp (value : pyval) : result Z :=
  let? dt :=
    match value with
    | PDatetime t => Ok t
    | PDate _ => Raise (ValueError "expires_at must be a full timestamp with timezone, not a date")
    | PStr s =>
        match fromisoformat (s_replace "Z"%char "+00:00" s) with
        | Some t => Ok t
        | None => Raise (ValueError ("invalid timestamp: " +:+ py_repr value))
        end
    | _ => Raise (ValueError ("invalid timestamp: " +:+ py_repr value))
    end in
  match dt_offset dt with
  | None => Raise (ValueError ("timestamp must include a timezone: " +:+ py_repr value))
  | Some o => astimezone_utc (dt_local dt) o
  end.

Lemma parse_timestamp_range v t : parse_timestamp v = Ok t -> in_datetime_range t = true.
Proof.
  unfold parse_timestamp, astimezone_utc. intros H. inv_ok H.
  destruct (dt_offset a) as [o|]; [|done]. case_in H. congruence.
Qed.

Lemma s_replace_id c r s : s_forall (fun d => negb (Ascii.eqb c d)) s = true -> s_replace c r s = s.
Proof.
  induction s as [|d s IH]; simpl; [done|]. intros H. bools.
  destruct (Ascii.eqb c d) eqn:E; bools; [done|]. by rewrite IH.
Qed.
