(* ===== verification/Capability.v ===== *)
(** * Capabilities and argument constraints: src/capgate/capability.py

    A capability is parsed from a contract document into an effect and a dictionary of typed
    constraints; [check_constraints] returns the first constraint a request violates. *)

From S2P Require Import Prelude Datetime Regex PyVal Externals Json Request Decision NetAddr Timeutil.

Definition RESERVED_PREFIXES : list string := ["harness."; "contract."].
Definition is_reserved (action : string) : bool := any_prefix RESERVED_PREFIXES action.

Inductive Effect := EAllow | EDeny | EEscalate.

#[export] Instance Effect_eq_dec : EqDecision Effect.
Proof. solve_decision. Defined.

Definition effect_value (e : Effect) : string :=
  match e with EAllow => "allow" | EDeny => "deny" | EEscalate => "escalate" end.
(** [Effect(v)]: any value that is not one of the three texts raises ValueError. *)
Definition read_effect (v : pyval) : option Effect :=
  s ← as_str v; find (fun e => String.eqb (effect_value e) s) [EAllow; EDeny; EEscalate].

Definition CONSTRAINTS : list string :=
  ["allowed_arguments"; "required_arguments"; "max_argument_length"; "url_argument"; "allowed_domains";
   "blocked_domains"; "block_private_hosts"; "allowed_targets"; "allowed_actions"; "max_calls"].
Definition LIST_CONSTRAINTS : list string :=
  ["allowed_arguments"; "required_arguments"; "allowed_domains"; "blocked_domains"; "allowed_targets"; "allowed_actions"].
Definition INT_CONSTRAINTS : list string := ["max_argument_length"; "max_calls"].

(** The value of a parsed constraint. *)
Inductive cvalue :=
| CStrs (l : list string)
| CInt (n : Z)
| CBool (b : bool)
| CStr (s : string).

Definition c_strs (k : string) (c : dict cvalue) : option (list string) :=
  match dget k c with Some (CStrs l) => Some l | _ => None end.
Definition c_int (k : string) (c : dict cvalue) : option Z :=
  match dget k c with Some (CInt n) => Some n | _ => None end.
Definition c_bool (k : string) (c : dict cvalue) : bool :=
  match dget k c with Some (CBool b) => b | _ => false end.
Definition c_str (k dflt : string) (c : dict cvalue) : string :=
  match dget k c with Some (CStr s) => s | _ => dflt end.

Record Capability := mk_capability {
  cap_action : string;
  cap_effect : Effect;
  cap_constraints : dict cvalue;
  cap_expires_at : option Z;
}.

Definition cvalue_to_val (v : cvalue) : pyval :=
  match v with CStrs l => pstrs l | CInt n => PInt n | CBool b => PBool b | CStr s => PStr s end.

Definition capability_to_dict (c : Capability) : dict pyval :=
  [("effect", PStr (effect_value (cap_effect c)))]
  ++ (match cap_constraints c with
      | [] => []
      | cs => [("constraints", PDict (map (fun '(k, v) => (k, cvalue_to_val v)) cs))]
      end)
  ++ (match cap_expires_at c with
      | Some t => [("expires_at", PStr (isoformat t))]
      | None => []
      end).

(** ** Parsing *)

Definition domain_name (v : string) : string := rstrip_by (is_char ".") (py_lower v).

Definition nonempty_strs (v : pyval) : option (list string) :=
  l ← as_sequence v; ss ← all_strs l; if forallb (fun s => negb (s_is_empty s)) ss then Some ss else None.

Definition parse_constraint (action name : string) (value : pyval) : result cvalue :=
  let fail msg := Raise (CapabilityError (action +:+ "." +:+ name +:+ ": " +:+ msg)) in
  if str_in name LIST_CONSTRAINTS then
    match nonempty_strs value with
    | Some ss => Ok (CStrs (if ends_with "domains" name then map domain_name ss else ss))
    | None => fail "must be a list of non-empty strings"
    end
  else if str_in name INT_CONSTRAINTS then
    match value with
    | PInt n => if n <? 0 then fail "must be a non-negative integer" else Ok (CInt n)
    | _ => fail "must be a non-negative integer"
    end
  else if String.eqb name "block_private_hosts" then
    match value with PBool b => Ok (CBool b) | _ => fail "must be true or false" end
  else
    match value with
    | PStr s => if s_is_empty s then fail "must be a non-empty string" else Ok (CStr s)
    | _ => fail "must be a non-empty string"
    end.

Definition parse_constraints (action : string) (raw : dict pyval) : result (dict cvalue) :=
  match unknown_keys CONSTRAINTS raw with
  | [] => traverse (fun '(name, value) => let? v := parse_constraint action name value in Ok (name, v)) raw
  | unknown => Raise (CapabilityError (action +:+ ": unknown constraints " +:+ repr_strs unknown))
  end.

(** What a contract gives for an action: a built [Capability], or a document value. *)
Inductive cap_spec :=
| SpecCapability (c : Capability)
| SpecValue (v : pyval).

(** [x or {}], then required to be a mapping. *)
Definition or_empty_mapping (v : pyval) : option (dict pyval) := if truthy v then as_dict v else Some [].

Definition cap_error {A} (action msg : string) : result A := Raise (CapabilityError (action +:+ msg)).

Definition parse_capability_mapping (action : string) (spec : dict pyval) : result Capability :=
  match unknown_keys ["effect"; "constraints"; "expires_at"] spec with
  | (_ :: _) as unknown => cap_error action (": unknown capability fields " +:+ repr_strs unknown)
  | [] =>
      match read_effect (pget "effect" spec) with
      | None => cap_error action ": effect must be one of allow, deny, escalate"
      | Some effect =>
          match or_empty_mapping (pget "constraints" spec) with
          | None => cap_error action ": constraints must be a mapping"
          | Some raw =>
              let? constraints := parse_constraints action raw in
              if negb (bool_decide (effect = EDeny)) && str_in action [MESSAGE_ACTION; DELEGATE_ACTION]
                 && negb (dmem "allowed_targets" constraints)
              then cap_error action ": requires an explicit allowed_targets constraint"
              else if negb (bool_decide (effect = EDeny)) && String.eqb action DELEGATE_ACTION
                      && negb (dmem "allowed_actions" constraints)
              then cap_error action ": requires an explicit allowed_actions constraint"
              else
                let? expires_at :=
                  (if is_none (pget "expires_at" spec) then Ok None
                   else match parse_timestamp (pget "expires_at" spec) with
                        | Ok t => Ok (Some t)
                        | Raise (ValueError msg) => cap_error action (": " +:+ msg)
                        | Raise e => Raise e
                        end) in
                Ok (mk_capability action effect constraints expires_at)
          end
      end
  end.

Definition parse_capability (action : string) (spec : cap_spec) : result Capability :=
  if negb (valid_action_name action)
  then Raise (CapabilityError ("invalid action name: " +:+ repr_str action))
  else if is_reserved action
  then Raise (CapabilityError (repr_str action +:+ " is reserved: contracts cannot grant authority over the harness or contracts"))
  else match spec with
       | SpecCapability c => Ok c
       | SpecValue (PBool _) => Raise (CapabilityError (action +:+ ": use 'allow', 'deny' or 'escalate', not a boolean"))
       | SpecValue (PStr s) => parse_capability_mapping action [("effect", PStr s)]
       | SpecValue (PDict d) => parse_capability_mapping action d
       | SpecValue _ => Raise (CapabilityError (action +:+ ": capability must be an effect string or a mapping"))
       end.

(** ** Checking *)

Record ConstraintViolation := mk_violation {
  cv_reason_code : ReasonCode;
  cv_rule : string;
  cv_detail : string;
}.

Fixpoint longest_string (v : pyval) : Z :=
  match v with
  | PStr s => py_len s
  | PDict d => foldr Z.max 0 (map (fun '(k, x) => Z.max (py_len k) (longest_string x)) d)
  | PList l => foldr Z.max 0 (map longest_string l)
  | _ => 0
  end.

(** The class of backslashes, whitespace and control characters. Outside ASCII it has the Unicode
    spaces: U+0085, U+00A0, U+1680, U+2000 to U+200A, U+2028, U+2029, U+202F, U+205F, U+3000. *)
Definition url_forbidden_char (c : ascii) : bool :=
  Ascii.eqb c backslash || (byte_of c <=? 32) || (byte_of c =? 127).
Definition unicode_space2 (a b : Z) : bool := (a =? 194) && ((b =? 133) || (b =? 160)).
Definition unicode_space3 (a b c : Z) : bool :=
  ((a =? 225) && (b =? 154) && (c =? 128))
  || ((a =? 226) && (b =? 128) && (((128 <=? c) && (c <=? 138)) || (c =? 168) || (c =? 169) || (c =? 175)))
  || ((a =? 226) && (b =? 129) && (c =? 159))
  || ((a =? 227) && (b =? 128) && (c =? 128)).
Fixpoint url_has_forbidden (s : string) : bool :=
  match s with
  | EmptyString => false
  | String a s1 =>
      url_forbidden_char a || url_has_forbidden s1
      || match s1 with
         | String b s2 =>
             unicode_space2 (byte_of a) (byte_of b)
             || match s2 with
                | String c _ => unicode_space3 (byte_of a) (byte_of b) (byte_of c)
                | EmptyString => false
                end
         | EmptyString => false
         end
  end.

(** [host == d or host.endswith("." + d)] *)
Definition host_under (host d : string) : bool := String.eqb host d || ends_with ("." +:+ d) host.

Section check.
Context `{Externals}.

Definition matches (host : string) (domains : list string) : result bool :=
  let? literal := ip_literal host in
  match literal with
  | Some _ => Ok false
  | None => Ok (existsb (host_under host) domains)
  end.

(** The host of an acceptable URL, or the detail of the refusal. Control characters and spaces have
    been refused before [urlsplit], which would strip some of them. *)
Definition url_host (name : string) (url : pyval) : result string + string :=
  match url with
  | PStr url =>
      if url_has_forbidden url then inr "URL contains backslashes, whitespace or control characters" else
      match urlsplit url with
      | None => inr "unparseable URL"
      | Some parts =>
          match u_port parts with
          | None => inr "unparseable URL"
          | Some _ =>
              if negb (str_in (u_scheme parts) ["http"; "https"]) || s_is_empty (u_hostname parts)
              then inr "URL must be http(s) with a host"
              else if u_has_userinfo parts then inr "URLs with embedded credentials are not allowed"
              else match normalize_hostname (u_hostname parts) with
                   | Raise (InvalidHost msg) => inr msg
                   | r => inl r
                   end
          end
      end
  | _ => inr ("argument " +:+ repr_str name +:+ " must be a URL string")
  end.

Definition check_url (c : dict cvalue) (args : dict pyval) : result (option ConstraintViolation) :=
  let name := c_str "url_argument" "url" c in
  let deny rule detail := Ok (Some (mk_violation DOMAIN_NOT_ALLOWED rule detail)) in
  match url_host name (pget name args) with
  | inr detail => deny "constraint:url" detail
  | inl host =>
      let? host := host in
      let? blocked := matches host (default [] (c_strs "blocked_domains" c)) in
      if blocked then deny "constraint:blocked_domains" ("host " +:+ repr_str host +:+ " is blocked") else
      let? private := (if c_bool "block_private_hosts" c then is_private_host host else Ok false) in
      if private then deny "constraint:block_private_hosts" ("host " +:+ repr_str host +:+ " is private or internal") else
      match c_strs "allowed_domains" c with
      | Some domains =>
          let? ok := matches host domains in
          if ok then Ok None
          else deny "constraint:allowed_domains" ("host " +:+ repr_str host +:+ " not in allowed_domains")
      | None => Ok None
      end
  end.

(** The constraints in the order of the code, each a check that passes ([None]) or is violated. *)
Definition check_max_calls (c : dict cvalue) (r : ActionRequest) (calls : Z) : option ConstraintViolation :=
  n ← c_int "max_calls" c;
  if n <=? calls
  then Some (mk_violation BUDGET_EXHAUSTED "constraint:max_calls"
               (py_str (rq_action r) +:+ " limited to " +:+ show_Z n +:+ " calls"))
  else None.

Definition check_allowed_arguments (c : dict cvalue) (args : dict pyval) : option ConstraintViolation :=
  l ← c_strs "allowed_arguments" c;
  match unknown_keys l args with
  | [] => None
  | extra => Some (mk_violation ARGUMENT_NOT_ALLOWED "constraint:allowed_arguments"
                     ("arguments not permitted: " +:+ repr_strs extra))
  end.

Definition check_required_arguments (c : dict cvalue) (args : dict pyval) : option ConstraintViolation :=
  l ← c_strs "required_arguments" c;
  match sorted_strs (remove_dups (List.filter (fun k => negb (dmem k args)) l)) with
  | [] => None
  | missing => Some (mk_violation ARGUMENT_MISSING "constraint:required_arguments"
                       ("missing arguments: " +:+ repr_strs missing))
  end.

Definition check_argument_length (c : dict cvalue) (args : dict pyval) : option ConstraintViolation :=
  n ← c_int "max_argument_length" c;
  let longest := longest_string (PDict args) in
  if n <? longest
  then Some (mk_violation ARGUMENT_NOT_ALLOWED "constraint:max_argument_length"
               ("string argument of length " +:+ show_Z longest +:+ " exceeds " +:+ show_Z n))
  else None.

Definition checks_url (c : dict cvalue) : bool :=
  dmem "allowed_domains" c || dmem "blocked_domains" c || dmem "block_private_hosts" c.

Definition is_str_in (v : pyval) (l : list string) : bool :=
  match v with PStr s => str_in s l | _ => false end.

Definition check_targets (c : dict cvalue) (args : dict pyval) : option ConstraintViolation :=
  l ← c_strs "allowed_targets" c;
  if is_str_in (pget "to" args) l then None
  else Some (mk_violation TARGET_NOT_ALLOWED "constraint:allowed_targets"
               ("target " +:+ py_repr (pget "to" args) +:+ " not in allowed_targets")).

Definition check_actions (c : dict cvalue) (args : dict pyval) : option ConstraintViolation :=
  l ← c_strs "allowed_actions" c;
  if is_str_in (pget "action" args) l then None
  else Some (mk_violation DELEGATED_ACTION_NOT_ALLOWED "constraint:allowed_actions"
               ("may not ask another agent to perform " +:+ py_repr (pget "action" args))).

(** [first v k]: the violation [v], or what the later checks [k] find. *)
Definition first (v : option ConstraintViolation) (k : result (option ConstraintViolation)) :
    result (option ConstraintViolation) :=
  match v with Some _ => Ok v | None => k end.

Definition check_constraints (cap : Capability) (r : ActionRequest) (calls_so_far : Z) :
    result (option ConstraintViolation) :=
  let c := cap_constraints cap in
  let args := arguments_copy r in
  first (check_max_calls c r calls_so_far)
    (first (check_allowed_arguments c args)
      (first (check_required_arguments c args)
        (first (check_argument_length c args)
          (let? violation := (if checks_url c then check_url c args else Ok None) in
           first violation
             (first (check_targets c args)
               (Ok (check_actions c args))))))).
End check.

(** ** What the checks mean *)

(** [occurs s v]: the string [s] is a value or a key somewhere in [v]. *)
Inductive occurs (s : string) : pyval -> Prop :=
| occurs_here : occurs s (PStr s)
| occurs_key d v : (s, v) ∈ d -> occurs s (PDict d)
| occurs_value d k v : (k, v) ∈ d -> occurs s v -> occurs s (PDict d)
| occurs_elem l v : v ∈ l -> occurs s v -> occurs s (PList l).

(** [under_domain h d]: [h] is [d] or a subdomain of it. *)
Definition under_domain (h d : string) : Prop := h = d \/ exists sub, h = sub +:+ "." +:+ d.

(** A text without a backslash, whitespace or a control character anywhere. *)
Record plain_text (s : string) : Prop := {
  pt_ascii a before after : s = before +:+ String a after -> url_forbidden_char a = false;
  pt_space2 a b before after : s = before +:+ String a (String b after) -> unicode_space2 (byte_of a) (byte_of b) = false;
  pt_space3 a b c before after : s = before +:+ String a (String b (String c after)) ->
    unicode_space3 (byte_of a) (byte_of b) (byte_of c) = false;
}.

(** [url_names url h]: [url] is an acceptable URL and [h] its host: a plain text that [urlsplit] takes apart,
    with scheme http or https, a host, a port that is well formed if there is one, and no credentials; [h]
    is the host in lower case without dots at its end, an address or a name. *)
Definition url_names `{Externals} (url h : string) : Prop :=
  plain_text url /\ exists parts, urlsplit url = Some parts
    /\ (u_scheme parts = "http" \/ u_scheme parts = "https") /\ u_hostname parts <> EmptyString
    /\ u_port parts <> None /\ (forall a b, u_netloc parts <> a +:+ String "@" b)
    /\ h = rstrip_by (is_char ".") (py_lower (u_hostname parts)) /\ (host_is_address h \/ host_is_name h).

(** The URL rules for the host of an acceptable URL. The domain lists are about names: an address is inside
    no allowed domain, and - unlike what is documented of blocked_domains - outside every blocked one. *)
Record url_permitted `{Externals} (c : dict cvalue) (h : string) : Prop := {
  up_blocked l d : c_strs "blocked_domains" c = Some l -> d ∈ l -> host_is_name h -> ~ under_domain h d;
  up_private : c_bool "block_private_hosts" c = true -> public_host h;
  up_allowed l : c_strs "allowed_domains" c = Some l -> host_is_name h /\ exists d, d ∈ l /\ under_domain h d;
}.

(** What it means for a request to satisfy every constraint of a capability. *)
Record within_constraints `{Externals} (c : dict cvalue) (args : dict pyval) (calls : Z) : Prop := {
  wc_calls n : c_int "max_calls" c = Some n -> calls < n;
  wc_allowed l k : c_strs "allowed_arguments" c = Some l -> k ∈ dkeys args -> k ∈ l;
  wc_required l k : c_strs "required_arguments" c = Some l -> k ∈ l -> k ∈ dkeys args;
  wc_length n s : c_int "max_argument_length" c = Some n -> occurs s (PDict args) -> py_len s <= n;
  wc_url : checks_url c = true ->
    exists url h, pget (c_str "url_argument" "url" c) args = PStr url /\ url_names url h /\ url_permitted c h;
  wc_targets l : c_strs "allowed_targets" c = Some l -> exists t, pget "to" args = PStr t /\ t ∈ l;
  wc_actions l : c_strs "allowed_actions" c = Some l -> exists a, pget "action" args = PStr a /\ a ∈ l;
}.

(** ** Lemmas *)

Lemma sorted_strs_nil l : sorted_strs l = [] <-> l = [].
Proof.
  unfold sorted_strs. pose proof (merge_sort_Permutation String.le l) as Hp. split; [|by intros ->].
  intros E. rewrite E in Hp. by apply Permutation_nil in Hp.
Qed.

Lemma filter_nil_iff {A} (p : A -> bool) l : List.filter p l = [] <-> forall x, x ∈ l -> p x = false.
Proof.
  induction l as [|y l IH]; simpl.
  - split; [|done]. intros _ x Hx. by apply elem_of_nil in Hx.
  - destruct (p y) eqn:E.
    + split; [done|]. intros Hall. specialize (Hall y ltac:(by apply elem_of_cons; left)). congruence.
    + rewrite IH. setoid_rewrite elem_of_cons. naive_solver.
Qed.

Lemma unknown_keys_nil {V} allowed (d : dict V) :
  unknown_keys allowed d = [] <-> forall k, k ∈ dkeys d -> k ∈ allowed.
Proof.
  unfold unknown_keys. rewrite sorted_strs_nil, filter_nil_iff.
  setoid_rewrite negb_false_iff. by setoid_rewrite str_in_spec.
Qed.

Lemma remove_dups_nil (l : list string) : remove_dups l = [] <-> l = [].
Proof.
  split; [|by intros ->]. destruct l as [|x l]; [done|]. intros E.
  assert (x ∈ remove_dups (x :: l)) as Hx by (apply elem_of_remove_dups, elem_of_cons; by left).
  rewrite E in Hx. by apply elem_of_nil in Hx.
Qed.

Lemma foldr_max_bound {A} (f : A -> Z) l n :
  foldr Z.max 0 (map f l) <= n <-> 0 <= n /\ forall x, x ∈ l -> f x <= n.
Proof.
  induction l as [|y l IH]; simpl.
  - split; [|tauto]. intros. split; [done|]. intros x Hx. by apply elem_of_nil in Hx.
  - rewrite Z.max_lub_iff, IH. setoid_rewrite elem_of_cons. naive_solver.
Qed.

Lemma longest_string_nonneg v : 0 <= longest_string v.
Proof.
  assert (forall s, 0 <= py_len s) as Hlen.
  { induction s as [|c s IH]; simpl; [done|]. case_match; lia. }
  assert (forall l, 0 <= foldr Z.max 0 l) as Hmax.
  { induction l as [|x l IH]; simpl; lia. }
  destruct v; simpl; auto; lia.
Qed.

(** The longest string is a bound of exactly the strings that occur. *)
Lemma longest_string_spec n v : 0 <= n ->
  longest_string v <= n <-> forall s, occurs s v -> py_len s <= n.
Proof.
  intros Hn. induction v as [| | | |t|l IH|l IH|d IH| | |] using pyval_rect_nested; simpl;
    try (split; [intros _ s Hs; inversion Hs|lia]).
  - split; [intros Ht s Hs; by inversion Hs|]. intros Ht. apply Ht. constructor.
  - rewrite foldr_max_bound. rewrite Forall_forall in IH. split.
    + intros [_ Hl] s Hs. inversion Hs as [| | |? v Hv Hsv]; subst. by apply (IH v Hv); [apply Hl|].
    + intros Hl. split; [done|]. intros v Hv. apply (IH v Hv). intros s Hs. apply Hl. by econstructor.
  - rewrite foldr_max_bound. rewrite Forall_forall in IH. split.
    + intros [_ Hl] s Hs.
      inversion Hs as [|? v Hv|? k v Hv Hsv|]; subst; specialize (Hl _ Hv); simpl in Hl; [lia|].
      apply (IH _ Hv); [simpl; lia|done].
    + intros Hl. split; [done|]. intros [k v] Hv. apply Z.max_lub.
      * apply Hl. by econstructor.
      * apply (IH _ Hv). intros s Hs. apply Hl. by econstructor.
Qed.

Lemma host_under_spec h d : host_under h d = true <-> under_domain h d.
Proof.
  unfold host_under, under_domain. by rewrite orb_true_iff, String.eqb_eq, ends_with_spec.
Qed.

(** The hosts a list of domains covers: names under one of them. *)
Definition covers (domains : list string) (h : string) : Prop :=
  host_is_name h /\ exists d, d ∈ domains /\ under_domain h d.

Lemma matches_spec h domains : host_is_address h \/ host_is_name h ->
  exists b, matches h domains = Ok b /\ (b = true <-> covers domains h).
Proof.
  unfold matches, covers. intros [[a Ha]|Hn].
  - exists false. assert (ip_literal h = Ok (Some a)) as -> by (unfold ip_literal, literal_of in *; by rewrite Ha).
    split; [done|]. split; [done|]. intros [(Hn & _) _]. congruence.
  - destruct Hn as (Hl & Hs & Hd). rewrite (proj2 (ip_literal_none h)) by done. eexists. split; [done|].
    rewrite existsb_exists. setoid_rewrite host_under_spec. setoid_rewrite list_elem_of_In.
    split; [intros (d & ? & ?); split; [by split_and!|eauto]|by intros [_ ?]].
Qed.

Lemma covers_nil h : ~ covers [] h.
Proof. intros (_ & d & Hd & _). by apply elem_of_nil in Hd. Qed.

Lemma url_permitted_spec `{Externals} c h : host_is_address h \/ host_is_name h -> url_permitted c h <->
  (~ covers (default [] (c_strs "blocked_domains" c)) h)
  /\ (c_bool "block_private_hosts" c = true -> is_private_host h = Ok false)
  /\ (forall l, c_strs "allowed_domains" c = Some l -> covers l h).
Proof.
  intros Hh. split.
  - intros [Hbl Hpr Hal]. split_and!; [|intros Hc; by apply is_private_host_spec; auto|done].
    destruct (c_strs "blocked_domains" c) as [l|]; [|apply covers_nil]. simpl. intros (Hn & d & Hd & Hu). by apply (Hbl l d).
  - intros (Hbl & Hpr & Hal). split; [|intros Hc; apply is_private_host_spec; auto|done].
    intros l d Hl Hd Hn Hu. apply Hbl. rewrite Hl. simpl. split; [done|]. by exists d.
Qed.

(** The characters of the class, at any place. *)
Lemma url_has_forbidden_spec s : url_has_forbidden s = false <-> plain_text s.
Proof.
  induction s as [|a s IH].
  - split; [|done]. intros _. split; intros; destruct before; done.
  - cbn [url_has_forbidden]. rewrite !orb_false_iff, IH. clear IH. split.
    + intros [[Ha [H1 H2 H3]] Hp]. split.
      * intros x [|y before] after [= ? Heq]; [by subst|by apply (H1 _ _ _ Heq)].
      * intros x y [|z before] after [= ? Heq]; [|by apply (H2 _ _ _ _ Heq)]. subst. simpl in Hp. by apply orb_false_iff in Hp as [? _].
      * intros x y z [|u before] after [= ? Heq]; [|by apply (H3 _ _ _ _ _ Heq)]. subst. simpl in Hp. by apply orb_false_iff in Hp as [_ ?].
    + intros [H1 H2 H3]. split; [split|].
      * by apply (H1 a EmptyString s).
      * split; intros * Heq; [eapply (H1 _ (String a before))|eapply (H2 _ _ (String a before))|eapply (H3 _ _ _ (String a before))];
          simpl; by rewrite Heq.
      * destruct s as [|b [|c s]]; [done| |]; rewrite orb_false_iff.
        -- split; [|done]. by apply (H2 a b EmptyString EmptyString).
        -- split; [by apply (H2 a b EmptyString (String c s))|by apply (H3 a b c EmptyString s)].
Qed.

Lemma is_str_in_spec v l : is_str_in v l = true <-> exists s, v = PStr s /\ s ∈ l.
Proof.
  destruct v; simpl; try (split; [done|]; by intros (? & ? & _)).
  rewrite str_in_spec. naive_solver.
Qed.

(** A normalized host reads the same way everywhere it is classified. *)
Lemma normalize_hostname_literal h0 h : normalize_hostname h0 = Ok h -> is_ok (ip_literal h) = true.
Proof.
  unfold normalize_hostname. set (h' := rstrip_by _ _). intros Hn.
  destruct (ip_literal h') as [o|e] eqn:E; simpl in Hn; [|done].
  assert (h' = h) as <-; [|by rewrite E].
  destruct o; repeat case_in Hn; congruence.
Qed.

Lemma normalize_hostname_raises h e : normalize_hostname h = Raise e -> exists msg, e = InvalidHost msg.
Proof.
  unfold normalize_hostname. set (h' := rstrip_by _ _). unfold ip_literal. intros Hn.
  repeat (case_in Hn; simpl in Hn); simplify_eq; eauto.
Qed.

Section check_lemmas.
Context `{Externals}.

Lemma contains_spec c s : contains c s = true <-> exists a b, s = a +:+ String c b.
Proof.
  unfold contains, s_exists. induction s as [|x s IH]; [split; [done|by intros ([] & ? & ?)]|]. cbn [s_forall].
  rewrite negb_andb, orb_true_iff, IH, negb_involutive. unfold is_char. rewrite Ascii.eqb_eq. split.
  - intros [->|(a & b & ->)]; [by exists EmptyString, s|by exists (String x a), b].
  - intros ([|y a] & b & [= -> Heq]); [by left|]. right. by exists a, b.
Qed.

(** Reading the host of a URL: it is the host the URL names, or there is none. *)
Lemma url_host_spec name v h : url_host name v = inl (Ok h) <-> exists url, v = PStr url /\ url_names url h.
Proof.
  unfold url_host, url_names. destruct v as [| | | |s| | | | | |]; try (split; [done|by intros (? & ? & _)]).
  setoid_rewrite <- url_has_forbidden_spec.
  destruct (url_has_forbidden s) eqn:Ef; [split; [done|by intros (? & [= <-] & ? & _); congruence]|].
  transitivity (exists parts, urlsplit s = Some parts
    /\ (u_scheme parts = "http" \/ u_scheme parts = "https") /\ u_hostname parts <> EmptyString
    /\ u_port parts <> None /\ (forall a b, u_netloc parts <> a +:+ String "@" b)
    /\ h = rstrip_by (is_char ".") (py_lower (u_hostname parts)) /\ (host_is_address h \/ host_is_name h)).
  2: { split; [intros Hx; exists s; by split_and!|]. by intros (? & [= <-] & _ & ?). }
  destruct (urlsplit s) as [parts|]; [|split; [done|by intros (? & ? & _)]].
  assert (str_in (u_scheme parts) ["http"; "https"] = true <-> u_scheme parts = "http" \/ u_scheme parts = "https") as Hscheme
    by (rewrite str_in_spec; set_solver).
  pose proof (contains_spec "@" (u_netloc parts)) as Hat. unfold u_has_userinfo.
  pose proof (normalize_hostname_spec (u_hostname parts) h) as Hn.
  assert (s_is_empty (u_hostname parts) = true <-> u_hostname parts = EmptyString) as He by (by destruct (u_hostname parts)).
  split.
  - destruct (u_port parts) eqn:Ep; [|done]. destruct (str_in _ _); [|done]. destruct (s_is_empty _); [done|]. cbn [negb orb].
    destruct (contains _ _); [done|]. intros Hu. exists parts.
    assert (normalize_hostname (u_hostname parts) = Ok h) as Hh.
    { destruct (normalize_hostname _) as [h'|e] eqn:E; [congruence|]. by destruct (normalize_hostname_raises _ _ E) as [msg ->]. }
    apply Hn in Hh as [? ?]. split; [done|]. split; [by apply Hscheme|]. split; [by intros Hx%He|]. split; [by rewrite Ep|].
    split; [|done]. intros a b Hx. assert (false = true) by (apply Hat; eauto). done.
  - intros (p & [= <-] & Hs & Hne & Hp & Hno & Hh). destruct (u_port parts); [|done]. apply Hscheme in Hs as ->.
    destruct (s_is_empty _) eqn:Ese; [by destruct Hne; apply He|]. cbn [negb orb].
    destruct (contains _ _) eqn:Ec; [|apply Hn in Hh as ->; done].
    destruct (proj1 Hat eq_refl) as (a & b & Hab). by destruct (Hno a b).
Qed.

Lemma url_host_ok name url r : url_host name url = inl r -> exists h, r = Ok h /\ is_ok (ip_literal h) = true.
Proof.
  unfold url_host. intros Hu.
  destruct url; try done. case_in Hu. case_in Hu. case_in Hu. case_in Hu. case_in Hu.
  destruct (normalize_hostname _) as [h|e] eqn:E.
  - simplify_eq. exists h. split; [done|]. by eapply normalize_hostname_literal.
  - apply normalize_hostname_raises in E as [msg ->]. done.
Qed.

Lemma matches_total h domains : is_ok (ip_literal h) = true -> exists b, matches h domains = Ok b.
Proof. unfold matches. destruct (ip_literal h) as [[a|]|e]; simpl; [eauto..|done]. Qed.

Lemma is_private_host_total h : is_ok (ip_literal h) = true -> exists b, is_private_host h = Ok b.
Proof. unfold is_private_host. destruct (ip_literal h) as [[a|]|e]; simpl; [eauto..|done]. Qed.

(** The URL check never raises. *)
Lemma check_url_total c args : exists v, check_url c args = Ok v.
Proof.
  unfold check_url. destruct (url_host _ _) as [r|detail] eqn:E; [|eauto].
  apply url_host_ok in E as (h & -> & Hlit). cbn [result_bind].
  destruct (matches_total h (default [] (c_strs "blocked_domains" c)) Hlit) as [b ->]. cbn [result_bind].
  destruct b; [eauto|]. destruct (is_private_host_total h Hlit) as [p Hp]. rewrite Hp.
  destruct (matches_total h (default [] (c_strs "allowed_domains" c)) Hlit) as [a Ha].
  destruct (c_bool _ _); cbn [result_bind]; [destruct p; [eauto|]|];
    destruct (c_strs _ _) as [l|]; eauto; simpl in Ha; rewrite Ha; cbn [result_bind]; destruct a; eauto.
Qed.

Lemma check_url_none c args : check_url c args = Ok None <->
  exists url h, pget (c_str "url_argument" "url" c) args = PStr url /\ url_names url h /\ url_permitted c h.
Proof.
  unfold check_url. set (name := c_str "url_argument" "url" c). pose proof (url_host_spec name (pget name args)) as Hspec.
  assert ((exists url h, pget name args = PStr url /\ url_names url h /\ url_permitted c h)
    <-> exists h, url_host name (pget name args) = inl (Ok h) /\ url_permitted c h) as ->.
  { split; [intros (u & h & Hu & Hh & Hp); exists h; split; [apply Hspec; eauto|done]|].
    intros (h & (u & Hu & Hh)%Hspec & Hp). eauto 6. }
  destruct (url_host _ _) as [r|detail] eqn:E; [|split; [done|by intros (? & ? & _)]].
  pose proof (url_host_ok _ _ _ E) as (h & -> & Hlit). cbn [result_bind].
  assert (host_is_address h \/ host_is_name h) as Hh.
  { destruct (proj1 (Hspec h) eq_refl) as (u & _ & _ & parts & _ & _ & _ & _ & _ & _ & Hh). exact Hh. }
  destruct (matches_spec h (default [] (c_strs "blocked_domains" c)) Hh) as (b & -> & Hb). cbn [result_bind].
  destruct (is_private_host_total h Hlit) as [p Hp].
  transitivity (url_permitted c h); [|naive_solver]. rewrite (url_permitted_spec c h Hh), <- Hb, Hp. clear Hb Hspec E.
  destruct b; [naive_solver|].
  assert (forall q, q = false -> (let? private := Ok q in
      if private then Ok (Some (mk_violation DOMAIN_NOT_ALLOWED "constraint:block_private_hosts" ("host " +:+ repr_str h +:+ " is private or internal")))
      else match c_strs "allowed_domains" c with
      | Some domains => let? ok := matches h domains in
          if ok then Ok None else Ok (Some (mk_violation DOMAIN_NOT_ALLOWED "constraint:allowed_domains" ("host " +:+ repr_str h +:+ " not in allowed_domains")))
      | None => Ok None end) = Ok None <-> (forall l, c_strs "allowed_domains" c = Some l -> covers l h)) as Htail.
  { intros q ->. cbn [result_bind]. destruct (c_strs _ c) as [l|]; [|naive_solver].
    destruct (matches_spec h l Hh) as (a & -> & Ha). cbn [result_bind]. destruct a; naive_solver. }
  destruct (c_bool _ c); [destruct p|]; [naive_solver|rewrite Htail by done; naive_solver..].
Qed.

Lemma first_none v k : first v k = Ok None <-> v = None /\ k = Ok None.
Proof. destruct v; naive_solver. Qed.

Lemma check_max_calls_none c r calls :
  check_max_calls c r calls = None <-> forall n, c_int "max_calls" c = Some n -> calls < n.
Proof.
  unfold check_max_calls. destruct (c_int _ c) as [n|]; simpl; [|naive_solver].
  destruct (n <=? calls) eqn:E; split; try done; [|intros _ ? [= <-]; lia].
  intros Hn. specialize (Hn n eq_refl). lia.
Qed.

Lemma check_allowed_arguments_none c args : check_allowed_arguments c args = None <->
  forall l k, c_strs "allowed_arguments" c = Some l -> k ∈ dkeys args -> k ∈ l.
Proof.
  unfold check_allowed_arguments. destruct (c_strs _ c) as [l|]; simpl; [|naive_solver].
  pose proof (unknown_keys_nil l args). destruct (unknown_keys l args) as [|x xs]; [naive_solver|].
  split; [done|]. intros Hall. exfalso. destruct H0 as [_ Hnil]. by discriminate Hnil; eauto.
Qed.

Lemma check_required_arguments_none c args : check_required_arguments c args = None <->
  forall l k, c_strs "required_arguments" c = Some l -> k ∈ l -> k ∈ dkeys args.
Proof.
  unfold check_required_arguments. destruct (c_strs _ c) as [l|]; simpl; [|naive_solver].
  set (m := sorted_strs _).
  assert (m = [] <-> forall k, k ∈ l -> k ∈ dkeys args) as Hm.
  { unfold m. rewrite sorted_strs_nil, remove_dups_nil, filter_nil_iff.
    setoid_rewrite negb_false_iff. by setoid_rewrite dmem_spec. }
  destruct m; [naive_solver|]. split; [done|]. intros Hall. destruct Hm as [_ Hm]. discriminate Hm. eauto.
Qed.

Lemma check_argument_length_none c args :
  (forall n, c_int "max_argument_length" c = Some n -> 0 <= n) ->
  check_argument_length c args = None <->
  forall n s, c_int "max_argument_length" c = Some n -> occurs s (PDict args) -> py_len s <= n.
Proof.
  unfold check_argument_length. intros Hpos. destruct (c_int _ c) as [n|]; [|naive_solver].
  specialize (Hpos n eq_refl). cbn [mbind option_bind].
  pose proof (longest_string_spec n (PDict args) Hpos) as Hs.
  destruct (n <? longest_string (PDict args)) eqn:E; split; try done.
  - intros Hall. exfalso. apply Z.ltb_lt in E. apply (Z.lt_irrefl n). eapply Z.lt_le_trans; [exact E|].
    apply Hs. eauto.
  - intros _ n' s [= <-] Ho. apply Hs; [lia|done].
Qed.

Lemma check_targets_none c args : check_targets c args = None <->
  forall l, c_strs "allowed_targets" c = Some l -> exists t, pget "to" args = PStr t /\ t ∈ l.
Proof.
  unfold check_targets. destruct (c_strs _ c) as [l|]; simpl; [|naive_solver].
  pose proof (is_str_in_spec (pget "to" args) l). destruct (is_str_in _ l); naive_solver.
Qed.

Lemma check_actions_none c args : check_actions c args = None <->
  forall l, c_strs "allowed_actions" c = Some l -> exists a, pget "action" args = PStr a /\ a ∈ l.
Proof.
  unfold check_actions. destruct (c_strs _ c) as [l|]; simpl; [|naive_solver].
  pose proof (is_str_in_spec (pget "action" args) l). destruct (is_str_in _ l); naive_solver.
Qed.

(** The checks pass exactly when every constraint holds. *)
Lemma check_constraints_none cap r calls :
  (forall n, c_int "max_argument_length" (cap_constraints cap) = Some n -> 0 <= n) ->
  check_constraints cap r calls = Ok None <-> within_constraints (cap_constraints cap) (arguments_copy r) calls.
Proof.
  intros Hpos. unfold check_constraints. set (c := cap_constraints cap). set (args := arguments_copy r).
  assert ((let? violation := if checks_url c then check_url c args else Ok None in
           first violation (first (check_targets c args) (Ok (check_actions c args)))) = Ok None
    <-> (checks_url c = true -> check_url c args = Ok None)
        /\ check_targets c args = None /\ check_actions c args = None) as Hurl.
  { destruct (checks_url c).
    - destruct (check_url_total c args) as [v ->]. cbn [result_bind]. rewrite !first_none, !Ok_inj. tauto.
    - cbn [result_bind]. rewrite !first_none, !Ok_inj. intuition congruence. }
  rewrite !first_none, Hurl, check_max_calls_none, check_allowed_arguments_none, check_required_arguments_none,
    check_argument_length_none, check_targets_none, check_actions_none, check_url_none by done.
  split; [intros (? & ? & ? & ? & ? & ? & ?)|intros []]; [split|split_and!]; done.
Qed.

Lemma first_total v k : (exists w, k = Ok w) -> exists w, first v k = Ok w.
Proof. intros [w ->]. destruct v; simpl; eauto. Qed.

Lemma check_constraints_total cap r calls : exists v, check_constraints cap r calls = Ok v.
Proof.
  unfold check_constraints. do 4 apply first_total.
  assert (exists v, (if checks_url (cap_constraints cap) then check_url (cap_constraints cap) (arguments_copy r)
                     else Ok None) = Ok v) as [v ->] by (destruct (checks_url _); [apply check_url_total|eauto]).
  cbn [result_bind]. do 2 apply first_total. eauto.
Qed.
End check_lemmas.

(** ** What parsing guarantees *)

(** The constraint [k] may hold the value [v]. *)
Definition constraint_ok (kv : string * cvalue) : bool :=
  let '(k, v) := kv in
  if str_in k LIST_CONSTRAINTS
  then match v with
       | CStrs l => ends_with "domains" k || forallb (fun s => negb (s_is_empty s)) l
       | _ => false
       end
  else if str_in k INT_CONSTRAINTS then match v with CInt n => 0 <=? n | _ => false end
  else if String.eqb k "block_private_hosts" then match v with CBool _ => true | _ => false end
  else String.eqb k "url_argument" && match v with CStr s => negb (s_is_empty s) | _ => false end.

Definition expiry_ok (e : option Z) : bool :=
  match e with Some t => in_datetime_range t | None => true end.

Definition talks_to_agents (action : string) : bool := str_in action [MESSAGE_ACTION; DELEGATE_ACTION].

(** A capability as [parse_capability] builds it from a document: a plain action outside the
    reserved name spaces, typed constraints, and for messages and delegations explicit targets. *)
Definition wf_capability (c : Capability) : bool :=
  valid_action_name (cap_action c) && negb (is_reserved (cap_action c))
  && distinct (dkeys (cap_constraints c)) && forallb constraint_ok (cap_constraints c)
  && (bool_decide (cap_effect c = EDeny)
      || ((negb (talks_to_agents (cap_action c)) || dmem "allowed_targets" (cap_constraints c))
          && (negb (String.eqb (cap_action c) DELEGATE_ACTION) || dmem "allowed_actions" (cap_constraints c))))
  && expiry_ok (cap_expires_at c).

Lemma wf_capability_inv c : wf_capability c = true ->
  is_reserved (cap_action c) = false
  /\ (forall k v, dget k (cap_constraints c) = Some v -> constraint_ok (k, v) = true)
  /\ (cap_effect c <> EDeny -> talks_to_agents (cap_action c) = true -> dmem "allowed_targets" (cap_constraints c) = true)
  /\ (cap_effect c <> EDeny -> cap_action c = DELEGATE_ACTION -> dmem "allowed_actions" (cap_constraints c) = true)
  /\ NoDup (dkeys (cap_constraints c)) /\ expiry_ok (cap_expires_at c) = true.
Proof.
  unfold wf_capability. rewrite !andb_true_iff, negb_true_iff, orb_true_iff, andb_true_iff, bool_decide_eq_true.
  rewrite distinct_NoDup. intros (((((_ & Hr) & Hd) & Hok) & Heff) & Hex). split_and!; try done.
  - intros k v Hin%dget_Some_in%list_elem_of_In. by apply (proj1 (forallb_forall _ _) Hok) in Hin.
  - intros He Ht. destruct Heff as [?|[Ht' _]]; [done|]. by rewrite Ht in Ht'.
  - intros He Ha. destruct Heff as [?|[_ Ha']]; [done|]. by rewrite Ha in Ha'.
Qed.

Lemma traverse_keys {V W} (f : string * V -> result W) (d : dict V) e :
  traverse (fun kv => let? v := f kv in Ok (kv.1, v)) d = Ok e ->
  dkeys e = dkeys d /\ Forall2 (fun kv kw => f kv = Ok kw.2 /\ kw.1 = kv.1) d e.
Proof.
  revert e; induction d as [|[k v] d IH]; intros e; simpl; [intros [= <-]; by split|].
  destruct (f (k, v)) as [w|] eqn:E; simpl; [|done].
  destruct (traverse _ d) as [e'|] eqn:E'; simpl; [|done]. intros [= <-].
  destruct (IH e' eq_refl) as [Hk Hf]. simpl. split; [by rewrite <- Hk|]. by constructor.
Qed.

Lemma parse_constraint_ok action k v w : k ∈ CONSTRAINTS ->
  parse_constraint action k v = Ok w -> constraint_ok (k, w) = true.
Proof.
  unfold parse_constraint, constraint_ok. intros Hk Hp.
  destruct (str_in k LIST_CONSTRAINTS) eqn:El.
  - destruct (nonempty_strs v) as [l|] eqn:E; [|done]. injection Hp as <-.
    destruct (ends_with "domains" k); [done|]. simpl. unfold nonempty_strs in E.
    destruct (as_sequence v); simpl in E; [|done]. destruct (all_strs _); simpl in E; [|done].
    case_match; congruence.
  - destruct (str_in k INT_CONSTRAINTS) eqn:Ei.
    + destruct v; try done. destruct (z <? 0) eqn:Ez; [done|]. injection Hp as <-. lia.
    + destruct (String.eqb k "block_private_hosts") eqn:Eb.
      * destruct v; try done. by injection Hp as <-.
      * destruct v; try done. destruct (s_is_empty s) eqn:Es; [done|]. injection Hp as <-.
        rewrite Es, andb_true_r. unfold CONSTRAINTS in Hk.
        repeat (apply elem_of_cons in Hk as [->|Hk]; [done|]). by apply elem_of_nil in Hk.
Qed.

Lemma parse_constraints_ok action raw c : NoDup (dkeys raw) -> parse_constraints action raw = Ok c ->
  distinct (dkeys c) = true /\ forallb constraint_ok c = true.
Proof.
  unfold parse_constraints. intros Hnd Hp. destruct (unknown_keys CONSTRAINTS raw) eqn:Hu; [|done].
  assert (traverse (fun kv => let? v := parse_constraint action kv.1 kv.2 in Ok (kv.1, v)) raw = Ok c) as Hp'.
  { rewrite <- Hp. clear. induction raw as [|[k v] raw IH]; [done|]. simpl. by rewrite IH. }
  apply (traverse_keys (fun kv => parse_constraint action kv.1 kv.2)) in Hp' as [Hk Hf].
  rewrite Hk. split; [by apply distinct_NoDup|].
  rewrite unknown_keys_nil in Hu. apply forallb_forall. intros [k w] Hin%list_elem_of_In.
  apply list_elem_of_lookup in Hin as [i Hi].
  destruct (Forall2_lookup_r _ _ _ _ _ Hf Hi) as ([k' v] & Hv & Hpv & Heq). simpl in *. subst k'.
  apply (parse_constraint_ok action k v); [|done]. apply Hu.
  apply list_elem_of_lookup_2 in Hv. unfold dkeys. apply list_elem_of_fmap. by exists (k, v).
Qed.

Definition wf_spec (spec : cap_spec) : Prop :=
  match spec with
  | SpecValue v => forall c d, v = PDict c -> pget "constraints" c = PDict d -> NoDup (dkeys d)
  | SpecCapability c => wf_capability c = true
  end.

Lemma parse_capability_mapping_ok action spec c :
  valid_action_name action = true -> is_reserved action = false ->
  (forall d, pget "constraints" spec = PDict d -> NoDup (dkeys d)) ->
  parse_capability_mapping action spec = Ok c -> wf_capability c = true /\ cap_action c = action.
Proof.
  intros Hv Hr Hnd. unfold parse_capability_mapping, cap_error, or_empty_mapping.
  destruct (unknown_keys _ spec); [|done]. destruct (read_effect _) as [eff|]; [|done].
  destruct (if truthy _ then _ else _) as [raw|] eqn:Eraw; [|done].
  destruct (parse_constraints action raw) as [cs|] eqn:Ecs; simpl; [|done].
  apply parse_constraints_ok in Ecs as [Hd Hok].
  2: { destruct (truthy _); [|injection Eraw as <-; constructor].
       destruct (pget "constraints" spec) eqn:Ep; try done. injection Eraw as <-. eauto. }
  destruct (negb _ && _ && _) eqn:E1; [done|]. destruct (negb _ && _ && _) eqn:E2 in |- *; [done|].
  intros Hp.
  destruct (if is_none _ then _ else _) as [ex|] eqn:Eex; simpl in Hp; [|done]. injection Hp as <-.
  assert (expiry_ok ex = true) as Hex.
  { destruct (is_none _); [by injection Eex as <-|].
    destruct (parse_timestamp _) as [t|[]] eqn:Et; try done. injection Eex as <-.
    simpl. by eapply parse_timestamp_range. }
  split; [|done]. unfold wf_capability, talks_to_agents. simpl. rewrite Hv, Hr, Hd, Hok, Hex. simpl.
  rewrite andb_true_r. destruct (bool_decide (eff = EDeny)); [done|].
  simpl in E1, E2 |- *.
  destruct (String.eqb action MESSAGE_ACTION), (String.eqb action DELEGATE_ACTION),
    (dmem "allowed_targets" cs), (dmem "allowed_actions" cs); done.
Qed.

Lemma parse_capability_ok action spec c : wf_spec spec ->
  parse_capability action spec = Ok c ->
  wf_capability c = true /\ is_reserved action = false /\ valid_action_name action = true
  /\ (forall v, spec = SpecValue v -> cap_action c = action).
Proof.
  unfold parse_capability. intros Hw Hp.
  destruct (valid_action_name action) eqn:Hv; [|done]. destruct (is_reserved action) eqn:Hr; [done|]. simpl in Hp.
  destruct spec as [c'|v]; [injection Hp as <-; by split_and!|].
  assert (exists spec, parse_capability_mapping action spec = Ok c
    /\ forall d, pget "constraints" spec = PDict d -> NoDup (dkeys d)) as (d & Hd & Hnd).
  { destruct v; try done; eexists; (split; [exact Hp|]); [by intros|]. intros d' Hd'. by eapply Hw. }
  apply parse_capability_mapping_ok in Hd as [? ?]; [|done..]. by split_and!.
Qed.

(** ** Properties *)

Section properties.
Context `{Externals}.

(** Constraint integers of a well-formed capability are not negative. *)
Lemma wf_length cap n : wf_capability cap = true ->
  c_int "max_argument_length" (cap_constraints cap) = Some n -> 0 <= n.
Proof.
  intros Hwf%wf_capability_inv. destruct Hwf as (_ & Hok & _). unfold c_int. intros Hn.
  destruct (dget "max_argument_length" (cap_constraints cap)) as [[]|] eqn:E; try done. injection Hn as ->.
  apply Hok in E. simpl in E. lia.
Qed.

(** C31. For a well-formed capability the constraint check always answers, and it answers no violation
    exactly when every constraint holds: fewer calls than the limit, only allowed and all required
    arguments, no string longer than the limit at any depth, an allowed target and action, and an
    acceptable URL - plain text, http or https, no credentials, its host an address in canonical form or
    a plain name - whose host is a name under an allowed domain if there are any, is public if private
    hosts are blocked, and, if it is a name, is not under a blocked domain. A host that is an address
    passes blocked_domains whatever the list says, which the documentation does not. *)
Theorem check_constraints_spec (cap : Capability) (r : ActionRequest) (calls : Z) : wf_capability cap = true ->
  (exists v, check_constraints cap r calls = Ok v)
  /\ (check_constraints cap r calls = Ok None
      <-> within_constraints (cap_constraints cap) (arguments_copy r) calls).
Proof.
  intros Hwf. split; [apply check_constraints_total|]. apply check_constraints_none. intros n. by apply wf_length.
Qed.

(** Parsing a capability from a document never yields authority over the harness or over contracts:
    the result is for the action asked for, whose name is valid and not reserved, its constraints are
    known and well typed, and a message or delegation capability names its targets explicitly. *)
Theorem parse_capability_wf (action : string) (spec : pyval) (c : Capability) :
  wf_val spec = true -> parse_capability action (SpecValue spec) = Ok c ->
  wf_capability c = true /\ cap_action c = action /\ is_reserved action = false
  /\ (cap_effect c <> EDeny -> talks_to_agents action = true -> exists l, c_strs "allowed_targets" (cap_constraints c) = Some l).
Proof.
  intros Hw Hp. apply parse_capability_ok in Hp as (Hwf & Hr & _ & Ha).
  - specialize (Ha spec eq_refl). subst action. split_and!; try done. intros He Ht.
    apply wf_capability_inv in Hwf as (_ & Hok & Htargets & _). specialize (Htargets He Ht).
    unfold c_strs, dmem in *. destruct (dget "allowed_targets" _) as [v|] eqn:E; [|done].
    apply Hok in E. destruct v; try done. eauto.
  - intros c' d -> Hd. cbn [wf_val] in Hw. apply andb_true_iff in Hw as [_ Hw].
    unfold pget in Hd. destruct (dget "constraints" c') as [v|] eqn:E; [|done]. simpl in Hd. subst v.
    apply dget_Some_in, list_elem_of_In in E. apply (proj1 (forallb_forall _ _) Hw) in E.
    cbn [wf_val] in E. apply andb_true_iff in E as [E _]. by apply distinct_NoDup.
Qed.

(** Domain rules hold at label boundaries: when a request passes a capability with allowed domains,
    its URL has a host that is no address and whose dot-separated labels end with the labels of an
    allowed domain, and whose labels end with no blocked domain's. *)
Theorem allowed_host_labels (cap : Capability) (r : ActionRequest) (calls : Z) (allowed : list string) :
  wf_capability cap = true -> c_strs "allowed_domains" (cap_constraints cap) = Some allowed ->
  check_constraints cap r calls = Ok None ->
  exists url host d labels,
    argument r (c_str "url_argument" "url" (cap_constraints cap)) = PStr url /\ url_names url host
    /\ host_is_name host
    /\ d ∈ allowed /\ split_on "."%char host = labels ++ split_on "."%char d
    /\ forall blocked b, c_strs "blocked_domains" (cap_constraints cap) = Some blocked -> b ∈ blocked ->
         host <> b /\ forall sub, host <> sub +:+ "." +:+ b.
Proof.
  intros Hwf Hal Hc. apply check_constraints_none in Hc; [|intros n; by apply wf_length].
  destruct (wc_url _ _ _ Hc) as (url & h & Hurl & Hh & Hperm).
  { unfold checks_url, dmem, c_strs in *. by destruct (dget "allowed_domains" (cap_constraints cap)). }
  destruct (up_allowed _ _ Hperm allowed Hal) as (Hip & d & Hd & Hu).
  exists url, h, d. assert (forall blocked b, c_strs "blocked_domains" (cap_constraints cap) = Some blocked -> b ∈ blocked ->
         h <> b /\ forall sub, h <> sub +:+ "." +:+ b) as Hblocked.
  { intros blocked b Hb Hin. pose proof (up_blocked _ _ Hperm blocked b Hb Hin Hip) as Hno.
    split; [intros ->|intros sub ->]; apply Hno; [by left|right; eauto]. }
  destruct Hu as [-> |[sub ->]]; [exists []; by split_and!|].
  exists (split_on "."%char sub). split_and!; try done. simpl. apply split_on_app.
Qed.
End properties.

Module Witnesses.
Import Sample.
Local Existing Instance externals.

Definition spec : pyval := PDict [("effect", PStr "allow"); ("constraints", PDict [
  ("max_calls", PInt 2); ("allowed_domains", PList [PStr "Example.org."]); ("blocked_domains", PList [PStr "bad.example.org"]);
  ("block_private_hosts", PBool true)])].
Definition cap : Capability :=
  match parse_capability "web.fetch" (SpecValue spec) with Ok c => c | Raise _ => mk_capability EmptyString EDeny [] None end.
Definition fetch_of (url : string) : ActionRequest :=
  match make_request (PStr "b") (PStr "web.fetch") (PDict [("url", PStr url)]) PNone with
  | Ok r => r
  | Raise _ => mk_request PNone PNone EmptyString PNone
  end.

Lemma check_constraints_spec_witness :
  within_constraints (cap_constraints cap) (arguments_copy (fetch_of "https://docs.example.org/a")) 1
  /\ ~ within_constraints (cap_constraints cap) (arguments_copy (fetch_of "https://docs.badexample.org/a")) 1
  /\ ~ within_constraints (cap_constraints cap) (arguments_copy (fetch_of "https://docs.example.org/a")) 2.
Proof.
  split; [|split].
  - apply (check_constraints_spec cap); vm_compute; reflexivity.
  - intros Hw. apply (check_constraints_spec cap) in Hw; [|vm_compute; reflexivity]. vm_compute in Hw. discriminate Hw.
  - intros Hw. apply (check_constraints_spec cap) in Hw; [|vm_compute; reflexivity]. vm_compute in Hw. discriminate Hw.
Defined.

Lemma parse_capability_wf_witness : wf_capability cap = true /\ cap_action cap = "web.fetch".
Proof.
  destruct (parse_capability_wf "web.fetch" spec cap) as (Hw & Ha & _); [vm_compute; reflexivity..|].
  split; [exact Hw|exact Ha].
Defined.

Lemma allowed_host_labels_witness : exists host d labels,
  d ∈ ["example.org"] /\ split_on "."%char host = labels ++ split_on "."%char d /\ host_is_name host.
Proof.
  destruct (allowed_host_labels cap (fetch_of "https://docs.example.org/a") 0 ["example.org"])
    as (url & host & d & labels & _ & _ & Hip & Hd & Hl & _); [vm_compute; reflexivity..|].
  exists host, d, labels. split; [exact Hd|split; [exact Hl|exact Hip]].
Defined.

(** An address in [blocked_domains] blocks nothing: an address is matched by no domain. *)
Example blocked_address_passes :
  check_constraints (mk_capability "web.fetch" EAllow [("blocked_domains", CStrs ["203.0.113.7"])] None)
    (fetch_of "http://203.0.113.7/") 0 = Ok None.
Proof. vm_compute. reflexivity. Qed.

(** Look-alikes of an allowed domain, credentials, odd spellings of addresses and control characters. *)
Example refused_urls :
  map (fun url => match check_constraints cap (fetch_of url) 0 with Ok (Some v) => cv_rule v | _ => "passed" end)
    ["https://badexample.org/"; "https://example.org.evil.com/"; "http://user@example.org/"; "http://0x7f.1/";
     "http://127.0.0.1/"; "ftp://example.org/"; "https://example.org\@evil.com/"; "https://bad.example.org/"; "https://EXAMPLE.org:8443/"]
  = ["constraint:allowed_domains"; "constraint:allowed_domains"; "constraint:url"; "constraint:url";
     "constraint:block_private_hosts"; "constraint:url"; "constraint:url"; "constraint:blocked_domains"; "passed"].
Proof. vm_compute. reflexivity. Qed.
End Witnesses.
