(* ===== verification/Contract.v ===== *)
(** * Task contracts: src/capgate/contract.py

    A contract document is validated strictly into a [TaskContract], identified by the hash of its
    canonical text; [build_bindings] binds every agent of a set of contracts to exactly one. *)

From S2P Require Import Prelude Datetime Regex PyVal Externals Json Request Decision NetAddr Timeutil Capability.

Definition id_char (c : ascii) : bool := is_alnum c || is_char "_" c || is_char "." c || is_char ":" c || is_char "-" c.
Definition ID : re := Cat (Chr is_alnum) (up_to 127 (Chr id_char)).
Definition valid_id (s : string) : bool := match_dollar ID s.

Definition TOP_LEVEL : list string :=
  ["contract_id"; "goal"; "version"; "max_steps"; "expires_at"; "approvers"; "agents"; "agent"; "allowed_tools"].

Record AgentGrant := mk_grant {
  ag_agent_id : string;
  ag_capabilities : dict Capability;
}.

Record TaskContract := mk_contract {
  tc_contract_id : string;
  tc_goal : string;
  tc_agents : dict AgentGrant;
  tc_max_steps : Z;
  tc_expires_at : option Z;
  tc_approvers : list string;
  tc_version : string;
  tc_content_hash : string;
}.

Definition capabilities_for (c : TaskContract) (agent_id : string) : dict Capability :=
  match dget agent_id (tc_agents c) with Some g => ag_capabilities g | None => [] end.

Definition grant_to_dict (g : AgentGrant) : pyval :=
  PDict [("capabilities", PDict (sort_items (map (fun '(a, c) => (a, PDict (capability_to_dict c))) (ag_capabilities g))))].

Definition contract_to_dict (c : TaskContract) : dict pyval :=
  [("contract_id", PStr (tc_contract_id c));
   ("version", PStr (tc_version c));
   ("goal", PStr (tc_goal c));
   ("max_steps", PInt (tc_max_steps c));
   ("expires_at", match tc_expires_at c with Some t => PStr (isoformat t) | None => PNone end);
   ("approvers", pstrs (tc_approvers c));
   ("agents", PDict (sort_items (map (fun '(a, g) => (a, grant_to_dict g)) (tc_agents c))))].

(** ** Construction *)

(** [not s.strip()]: only white space. *)
Definition is_space_char (c : ascii) : bool := (byte_of c =? 32) || in_range 9 13 c || in_range 28 31 c.
Fixpoint is_blank (s : string) : bool :=
  match s with
  | EmptyString => true
  | String a s1 =>
      if is_space_char a then is_blank s1 else
      match s1 with
      | EmptyString => false
      | String b s2 =>
          if unicode_space2 (byte_of a) (byte_of b) then is_blank s2 else
          match s2 with
          | EmptyString => false
          | String c s3 => if unicode_space3 (byte_of a) (byte_of b) (byte_of c) then is_blank s3 else false
          end
      end
  end.

(** [s.strip()] *)
Fixpoint py_lstrip (s : string) : string :=
  match s with
  | EmptyString => EmptyString
  | String a s1 =>
      if is_space_char a then py_lstrip s1 else
      match s1 with
      | EmptyString => s
      | String b s2 =>
          if unicode_space2 (byte_of a) (byte_of b) then py_lstrip s2 else
          match s2 with
          | EmptyString => s
          | String c s3 => if unicode_space3 (byte_of a) (byte_of b) (byte_of c) then py_lstrip s3 else s
          end
      end
  end.
Fixpoint py_rstrip (s : string) : string :=
  if is_blank s then EmptyString
  else match s with EmptyString => EmptyString | String c s' => String c (py_rstrip s') end.
Definition py_strip (s : string) : string := py_rstrip (py_lstrip s).

(** What a contract gives for an agent: a built [AgentGrant], or a document value. *)
Inductive agent_spec :=
| AgentObject (g : AgentGrant)
| AgentValue (v : pyval).

Definition parse_agent (contract_id agent_id : string) (grant : agent_spec) : result AgentGrant :=
  let where_ := contract_id +:+ "." +:+ agent_id in
  match grant with
  | AgentObject g => Ok g
  | AgentValue (PDict d) =>
      match unknown_keys ["capabilities"] d with
      | (_ :: _) as unknown => Raise (ContractError (where_ +:+ ": unknown fields " +:+ repr_strs unknown))
      | [] =>
          match or_empty_mapping (pget "capabilities" d) with
          | None => Raise (ContractError (where_ +:+ ": capabilities must be a mapping of action -> effect"))
          | Some raw =>
              let? caps := traverse (fun '(action, spec) =>
                match parse_capability action (SpecValue spec) with
                | Ok c => Ok (action, c)
                | Raise (CapabilityError msg) => Raise (ContractError (where_ +:+ ": " +:+ msg))
                | Raise e => Raise e
                end) raw in
              Ok (mk_grant agent_id caps)
          end
      end
  | AgentValue _ => Raise (ContractError (where_ +:+ ": agent entry must be a mapping"))
  end.

Definition check_approver (contract_id : string) (agents : dict AgentGrant) (approver : pyval) : result string :=
  match approver with
  | PStr a =>
      if negb (valid_id a)
      then Raise (ContractError (contract_id +:+ ": invalid approver id " +:+ repr_str a))
      else if dmem a agents
      then Raise (ContractError (contract_id +:+ ": " +:+ repr_str a +:+ " cannot be both an agent and an approver"))
      else Ok a
  | v => Raise (ContractError (contract_id +:+ ": invalid approver id " +:+ py_repr v))
  end.

Section contract.
Context `{Externals}.

(** [content_hash]: over the canonical text of everything the contract says. *)
Definition contract_hash (c : TaskContract) : result string :=
  let? text := canonical_json (PDict (contract_to_dict c)) in
  Ok ("sha256:" +:+ sha256_hex text).

(** [TaskContract(...)] with its [__post_init__]; [agents] is [None] for a value that is no mapping. *)
Definition make_contract (contract_id goal : pyval) (agents : option (dict agent_spec))
    (max_steps expires_at : pyval) (approvers : list pyval) (version : pyval) : result TaskContract :=
  let? id := match contract_id with
             | PStr s => if valid_id s then Ok s else Raise (ContractError ("invalid contract_id: " +:+ repr_str s))
             | v => Raise (ContractError ("invalid contract_id: " +:+ py_repr v))
             end in
  let? goal := match goal with
               | PStr g => if is_blank g then Raise (ContractError (id +:+ ": goal must be a non-empty string")) else Ok g
               | _ => Raise (ContractError (id +:+ ": goal must be a non-empty string"))
               end in
  let? max_steps := match max_steps with
                    | PNone => Raise (ContractError (id +:+ ": max_steps is required — every contract needs a step budget (it bounds probing, escalation spam and message floods)"))
                    | PInt n => if n <? 1 then Raise (ContractError (id +:+ ": max_steps must be a positive integer")) else Ok n
                    | _ => Raise (ContractError (id +:+ ": max_steps must be a positive integer"))
                    end in
  let? expires := (if is_none expires_at then Ok None
                   else match parse_timestamp expires_at with
                        | Ok t => Ok (Some t)
                        | Raise (ValueError msg) => Raise (ContractError (id +:+ ": " +:+ msg))
                        | Raise e => Raise e
                        end) in
  let? agents := match agents with
                 | None | Some [] => Raise (ContractError (id +:+ ": at least one agent must be declared"))
                 | Some l =>
                     traverse (fun '(agent_id, grant) =>
                       if valid_id agent_id
                       then let? g := parse_agent id agent_id grant in Ok (agent_id, g)
                       else Raise (ContractError (id +:+ ": invalid agent id " +:+ repr_str agent_id))) l
                 end in
  let? approvers := traverse (check_approver id agents) approvers in
  let c := mk_contract id goal agents max_steps expires approvers (py_str version) EmptyString in
  let? hash := contract_hash c in
  Ok (mk_contract id goal agents max_steps expires approvers (py_str version) hash).

Definition parse_approvers (v : pyval) : result (list pyval) :=
  if is_none v then Ok [] else
  match (l ← as_sequence v; _ ← all_strs l; Some l) with
  | Some l => Ok l
  | None => Raise (ContractError "approvers must be a list of principal ids")
  end.

(** The agents of a document: the [agents] mapping, or the single-agent shorthand. *)
Definition document_agents (data : dict pyval) : result pyval :=
  let agents := pget "agents" data in
  if dmem "allowed_tools" data || dmem "agent" data then
    if negb (is_none agents)
    then Raise (ContractError "use either 'agents' or the 'agent' + 'allowed_tools' shorthand, not both")
    else
      let agent_id := pget "agent" data in
      let tools := pget "allowed_tools" data in
      if is_none agent_id || is_none tools
      then Raise (ContractError "the shorthand form requires both 'agent' and 'allowed_tools'")
      else match agent_id with
           | PStr a =>
               match (match tools with PList l => all_strs l | _ => None end) with
               | Some ts =>
                   Ok (PDict [(a, PDict [("capabilities", PDict (dupdate [] (map (fun t => (t, PStr "allow")) ts)))])])
               | None => Raise (ContractError "allowed_tools must be a list of action names")
               end
           | _ => Raise (ContractError "agent must be a string")
           end
  else Ok agents.

Definition contract_from_dict (v : pyval) : result TaskContract :=
  match as_dict v with
  | None => Raise (ContractError "contract must be a mapping")
  | Some data =>
      match unknown_keys TOP_LEVEL data with
      | (_ :: _) as unknown => Raise (ContractError ("unknown contract fields: " +:+ repr_strs unknown))
      | [] =>
          match List.filter (fun k => negb (dmem k data)) ["contract_id"; "goal"] with
          | required :: _ => Raise (ContractError ("missing required field: " +:+ required))
          | [] =>
              let? agents := document_agents data in
              let? approvers := parse_approvers (pget "approvers" data) in
              make_contract (pget "contract_id" data) (pget "goal" data)
                (map (fun '(a, g) => (a, AgentValue g)) <$> or_empty_mapping agents)
                (pget "max_steps" data) (pget "expires_at" data) approvers
                (default (PStr "1") (dget "version" data))
          end
      end
  end.

(** ** Files of contracts: [docs] is what the YAML parser returns, [None] for invalid YAML *)

(** [for d in v]: the keys of a mapping and the pieces of a text are never mappings themselves. *)
Definition iterate (v : pyval) : result (list pyval) :=
  match v with
  | PList l | PTuple l => Ok l
  | PDict d => Ok (map PStr (dkeys d))
  | PStr s => Ok (map (fun c => PStr (chr1 c)) (String.list_ascii_of_string s))
  | _ => Raise (TypeError "object is not iterable")
  end.

Definition document_contracts (doc : pyval) : result (list TaskContract) :=
  match doc with
  | PDict [("contracts", contracts)] => let? l := iterate contracts in traverse contract_from_dict l
  | _ => let? c := contract_from_dict doc in Ok [c]
  end.

(** [docs] is what the YAML parser makes of the file: its documents, or the text of its error. *)
Definition load_contracts (path : string) (docs : list pyval + string) : result (list TaskContract) :=
  match docs with
  | inr e => Raise (ContractError (path +:+ ": invalid YAML: " +:+ e))
  | inl docs =>
      match List.filter (fun d => negb (is_none d)) docs with
      | [] => Raise (ContractError (path +:+ ": no contracts found"))
      | docs => let? ls := traverse document_contracts docs in Ok (List.concat ls)
      end
  end.

Definition load_contract (path : string) (docs : list pyval + string) : result TaskContract :=
  let? cs := load_contracts path docs in
  match cs with
  | [c] => Ok c
  | _ => Raise (ContractError (path +:+ ": expected exactly one contract, found " +:+ show_Z (Z.of_nat (length cs))))
  end.

(** ** Bindings *)

Record index := mk_index {
  ix_by_id : dict TaskContract;
  ix_bindings : dict string;
  ix_approvers : list string;
}.

Fixpoint bind_agents (contract_id : string) (agents : list string) (bindings : dict string) : result (dict string) :=
  match agents with
  | [] => Ok bindings
  | a :: agents' =>
      match dget a bindings with
      | Some other =>
          Raise (ContractError ("agent " +:+ repr_str a +:+ " is bound to both " +:+ repr_str other +:+ " and "
                   +:+ repr_str contract_id +:+ "; an agent acts under exactly one contract"))
      | None => bind_agents contract_id agents' (dset a contract_id bindings)
      end
  end.

Fixpoint index_contracts (contracts : list TaskContract) (ix : index) : result index :=
  match contracts with
  | [] => Ok ix
  | c :: contracts' =>
      if dmem (tc_contract_id c) (ix_by_id ix)
      then Raise (ContractError ("duplicate contract_id: " +:+ tc_contract_id c))
      else
        let? bindings := bind_agents (tc_contract_id c) (dkeys (tc_agents c)) (ix_bindings ix) in
        index_contracts contracts'
          (mk_index (dset (tc_contract_id c) c (ix_by_id ix)) bindings (ix_approvers ix ++ tc_approvers c))
  end.

Definition build_bindings (contracts : list TaskContract) : result (dict TaskContract * dict string) :=
  let? ix := index_contracts contracts (mk_index [] [] []) in
  match sorted_strs (remove_dups (List.filter (fun a => dmem a (ix_bindings ix)) (ix_approvers ix))) with
  | [] => Ok (ix_by_id ix, ix_bindings ix)
  | overlap => Raise (ContractError ("approvers cannot also be agents: " +:+ repr_strs overlap))
  end.
End contract.

(** ** What construction guarantees *)

Definition wf_grant (g : AgentGrant) : bool :=
  distinct (dkeys (ag_capabilities g))
  && forallb (fun '(a, c) => String.eqb a (cap_action c) && wf_capability c) (ag_capabilities g).

(** A contract as [contract_from_dict] builds it. *)
Record wf_contract (c : TaskContract) : Prop := {
  wfc_id : valid_id (tc_contract_id c) = true;
  wfc_goal : is_blank (tc_goal c) = false;
  wfc_steps : 1 <= tc_max_steps c;
  wfc_expiry : expiry_ok (tc_expires_at c) = true;
  wfc_some_agent : tc_agents c <> [];
  wfc_agents : NoDup (dkeys (tc_agents c));
  wfc_ids : forall a g, dget a (tc_agents c) = Some g -> valid_id a = true /\ ag_agent_id g = a /\ wf_grant g = true;
  wfc_approvers : forall p, p ∈ tc_approvers c -> valid_id p = true /\ p ∉ dkeys (tc_agents c);
}.

Section contract_lemmas.
Context `{Externals}.

Lemma wf_val_dict_keys d : wf_val (PDict d) = true -> NoDup (dkeys d).
Proof. simpl. intros Hw. bools. by apply distinct_NoDup. Qed.

Lemma wf_val_in d k v : wf_val (PDict d) = true -> (k, v) ∈ d -> wf_val v = true.
Proof.
  simpl. intros Hw Hin%list_elem_of_In. bools. by apply (proj1 (forallb_forall _ _) H1 (k, v)).
Qed.

Lemma wf_val_get d k : wf_val (PDict d) = true -> wf_val (pget k d) = true.
Proof.
  unfold pget. intros Hw. destruct (dget k d) as [v|] eqn:E; [|done]. simpl.
  by apply (wf_val_in d k); [|apply dget_Some_in].
Qed.

Lemma or_empty_mapping_wf v d : wf_val v = true -> or_empty_mapping v = Some d -> wf_val (PDict d) = true.
Proof.
  unfold or_empty_mapping. intros Hw. destruct (truthy v); [|by intros [= <-]].
  by destruct v; simpl; intros [= <-].
Qed.

Lemma wf_spec_value v : wf_val v = true -> wf_spec (SpecValue v).
Proof.
  intros Hw c d -> Hd. apply (wf_val_get _ "constraints") in Hw. rewrite Hd in Hw. by apply wf_val_dict_keys.
Qed.

Lemma traverse_dict {V W} (f : string -> V -> result W) (d : dict V) e :
  traverse (fun '(k, v) => let? w := f k v in Ok (k, w)) d = Ok e ->
  dkeys e = dkeys d /\ forall k w, (k, w) ∈ e -> exists v, (k, v) ∈ d /\ f k v = Ok w.
Proof.
  revert e; induction d as [|[k v] d IH]; intros e; simpl.
  - intros [= <-]. split; [done|]. intros k w Hin. by apply elem_of_nil in Hin.
  - destruct (f k v) as [w|] eqn:E; simpl; [|done].
    destruct (traverse _ d) as [e'|] eqn:E'; simpl; [|done]. intros [= <-].
    destruct (IH e' eq_refl) as [Hk Hf]. simpl. split; [by rewrite <- Hk|].
    intros k' w' [[= -> ->]|Hin]%elem_of_cons; [exists v|apply Hf in Hin as (v' & Hv & Hw); exists v'];
      (split; [apply elem_of_cons|]); auto.
Qed.

Lemma traverse_ext {A B} (f g : A -> result B) l : (forall x, f x = g x) -> traverse f l = traverse g l.
Proof. intros He. induction l as [|x l IH]; simpl; [done|]. by rewrite He, IH. Qed.

Lemma traverse_map {A B C} (f : B -> result C) (g : A -> B) l : traverse f (map g l) = traverse (fun x => f (g x)) l.
Proof. induction l as [|x l IH]; simpl; [done|]. by rewrite IH. Qed.

Lemma parse_agent_ok id a v g : wf_val v = true ->
  parse_agent id a (AgentValue v) = Ok g -> ag_agent_id g = a /\ wf_grant g = true.
Proof.
  intros Hw. unfold parse_agent. destruct v as [| | | | | | |d| | |]; try done.
  destruct (unknown_keys _ d); [|done].
  destruct (or_empty_mapping _) as [raw|] eqn:Eraw; [|done].
  apply or_empty_mapping_wf in Eraw; [|by apply wf_val_get].
  set (parse := fun action spec => match parse_capability action (SpecValue spec) with
      | Ok c => Ok c | Raise (CapabilityError msg) => Raise (ContractError ((id +:+ "." +:+ a) +:+ ": " +:+ msg))
      | Raise e => Raise e end).
  rewrite (traverse_ext _ (fun '(action, spec) => let? c := parse action spec in Ok (action, c))).
  2: { intros [k spec]. unfold parse. by destruct (parse_capability k (SpecValue spec)) as [|[]]. }
  destruct (traverse _ raw) as [caps|] eqn:E; simpl; [|done]. intros [= <-]. split; [done|].
  apply traverse_dict in E as [Hk Hf]. unfold wf_grant. simpl. rewrite Hk.
  pose proof (wf_val_dict_keys _ Eraw) as Hnd. apply distinct_NoDup in Hnd as ->. simpl.
  apply forallb_forall. intros [k c] Hin%list_elem_of_In. apply Hf in Hin as (v & Hv & Hp).
  unfold parse in Hp. destruct (parse_capability k (SpecValue v)) as [c'|[]] eqn:Ec; try done.
  injection Hp as ->. apply parse_capability_ok in Ec as (Hwf & _ & _ & Ha).
  - by rewrite Hwf, (Ha v eq_refl), String.eqb_refl.
  - by apply wf_spec_value, (wf_val_in raw k).
Qed.

Lemma check_approver_ok id agents v p : check_approver id agents v = Ok p ->
  v = PStr p /\ valid_id p = true /\ p ∉ dkeys agents.
Proof.
  unfold check_approver. destruct v; try done. destruct (valid_id s) eqn:Ev; [|done]. simpl.
  destruct (dmem s agents) eqn:Em; [done|]. intros [= ->]. split_and!; [done..|].
  intros Hin. apply dmem_spec in Hin. congruence.
Qed.

Lemma traverse_in {A B} (f : A -> result B) l m y : traverse f l = Ok m -> y ∈ m -> exists x, x ∈ l /\ f x = Ok y.
Proof.
  revert m; induction l as [|x l IH]; intros m; simpl; [intros [= <-] Hy; by apply elem_of_nil in Hy|].
  destruct (f x) as [z|] eqn:E; simpl; [|done].
  destruct (traverse f l) as [m'|] eqn:E'; simpl; [|done]. intros [= <-] [->|Hy]%elem_of_cons.
  - exists x. split; [apply elem_of_cons|]; auto.
  - destruct (IH m' eq_refl Hy) as (x' & Hx' & Hf). exists x'. split; [apply elem_of_cons|]; auto.
Qed.

Lemma document_agents_wf data v : wf_val (PDict data) = true -> document_agents data = Ok v -> wf_val v = true.
Proof.
  intros Hw. unfold document_agents.
  destruct (dmem _ data || dmem _ data); [|intros [= <-]; by apply wf_val_get].
  destruct (negb _); [done|]. destruct (is_none _ || is_none _); [done|].
  destruct (pget "agent" data); try done.
  destruct (match pget "allowed_tools" data with PList l => all_strs l | _ => None end) as [ts|]; [|done].
  intros [= <-]. simpl. rewrite andb_true_r.
  set (d := dupdate [] _).
  assert (NoDup (dkeys d) /\ forall k w, (k, w) ∈ d -> wf_val w = true) as [Hnd Hall].
  { unfold d, dupdate. assert (forall acc : dict pyval, NoDup (dkeys acc) /\ (forall k w, (k, w) ∈ acc -> wf_val w = true) ->
      NoDup (dkeys (foldl (fun acc '(k, v) => dset k v acc) acc (map (fun t => (t, PStr "allow")) ts)))
      /\ (forall k w, (k, w) ∈ foldl (fun acc '(k, v) => dset k v acc) acc (map (fun t => (t, PStr "allow")) ts)
            -> wf_val w = true)) as Hfold.
    { induction ts as [|t ts IH]; intros acc [Hn Ha]; simpl; [done|]. apply IH. split; [by apply dset_NoDup|].
      intros k w Hin. apply dset_in in Hin as [Hin|[-> ->]]; [by eapply Ha|done]. }
    apply Hfold. split; [constructor|]. intros k w Hin. by apply elem_of_nil in Hin. }
  apply distinct_NoDup in Hnd as ->. simpl. apply andb_true_iff. split; [|done].
  apply forallb_forall. intros [k w] Hin%list_elem_of_In. eauto.
Qed.

(** A contract read from a document is well formed, and its hash is the hash of its content. *)
Lemma contract_from_dict_ok v c : wf_val v = true -> contract_from_dict v = Ok c ->
  wf_contract c /\ contract_hash c = Ok (tc_content_hash c).
Proof.
  intros Hw. unfold contract_from_dict. destruct (as_dict v) as [data|] eqn:Ed; [|done].
  destruct v; try done. injection Ed as ->.
  destruct (unknown_keys _ data); [|done]. destruct (List.filter _ _); [|done].
  destruct (document_agents data) as [agents|] eqn:Eag; simpl; [|done].
  apply document_agents_wf in Eag; [|done].
  destruct (parse_approvers _) as [approvers|] eqn:Eapp; simpl; [|done].
  destruct (or_empty_mapping agents) as [ad|] eqn:Ead.
  2: { simpl. unfold make_contract. intros Hm. inv_ok Hm; congruence. }
  apply or_empty_mapping_wf in Ead; [|done].
  cbn [fmap option_fmap option_map]. unfold make_contract. intros Hm.
  destruct (match pget "contract_id" data with PStr s => _ | _ => _ end) as [id|] eqn:Eid; [|done]. cbn [result_bind] in Hm.
  destruct (match pget "goal" data with PStr s => _ | _ => _ end) as [goal|] eqn:Egoal; [|done]. cbn [result_bind] in Hm.
  destruct (match pget "max_steps" data with PStr s => _ | _ => _ end) as [steps|] eqn:Esteps; [|done]. cbn [result_bind] in Hm.
  destruct (if is_none _ then _ else _) as [ex|] eqn:Eex; [|done]. cbn [result_bind] in Hm.
  destruct (match map _ ad with [] => _ | _ => _ end) as [ags|] eqn:Eags; [|done]. cbn [result_bind] in Hm.
  destruct (traverse (check_approver id ags) approvers) as [apps|] eqn:Eapps; [|done]. cbn [result_bind] in Hm.
  destruct (contract_hash _) as [h|] eqn:Eh; [|done]. cbn [result_bind] in Hm. injection Hm as <-.
  split; [|exact Eh].
  assert (NoDup (dkeys ad)) as Hnd by by apply wf_val_dict_keys.
  assert (dkeys ags = dkeys ad /\ ad <> [] /\ forall a g, (a, g) ∈ ags ->
    valid_id a = true /\ ag_agent_id g = a /\ wf_grant g = true) as (Hk & Hne & Hg).
  { destruct ad as [|kv ad']; [done|]. cbn [map] in Eags.
    match type of Eags with traverse ?f (?x :: map ?g ad') = _ => change (traverse f (map g (kv :: ad')) = Ok ags) in Eags end.
    set (l := kv :: ad') in *. rewrite traverse_map in Eags.
    assert (traverse (fun '(a, v) => let? g := (if valid_id a then parse_agent id a (AgentValue v)
      else Raise (ContractError (id +:+ ": invalid agent id " +:+ repr_str a))) in Ok (a, g)) l = Ok ags) as Htr.
    { rewrite <- Eags. apply traverse_ext. intros [a v]. by destruct (valid_id a). }
    apply traverse_dict in Htr as [Hk Hf]. split_and!; [done|done|]. intros a g Hin.
    apply Hf in Hin as (v & Hv & Hp). destruct (valid_id a) eqn:Eva; [|done]. split; [done|].
    apply (parse_agent_ok id a v g); [|done]. by apply (wf_val_in l a). }
  split; simpl.
  - destruct (pget "contract_id" data); try done. destruct (valid_id s) eqn:E; congruence.
  - destruct (pget "goal" data); try done. destruct (is_blank s) eqn:E; congruence.
  - destruct (pget "max_steps" data); try done. destruct (z <? 1) eqn:E; [done|]. injection Esteps as <-. lia.
  - destruct (is_none _); [by injection Eex as <-|].
    destruct (parse_timestamp _) as [t|[]] eqn:Et; try done. injection Eex as <-. simpl. by eapply parse_timestamp_range.
  - intros ->. by destruct ad.
  - by rewrite Hk.
  - intros a g Ha%dget_Some_in. auto.
  - intros p Hp. eapply traverse_in in Hp as (x & _ & Hx); [|exact Eapps]. by apply check_approver_ok in Hx as (_ & ? & ?).
Qed.
End contract_lemmas.

(** ** Bindings: one contract per agent *)

(** What a consistent set of contracts is, and the tables [build_bindings] must return for it. *)
Definition agents_of (c : TaskContract) : list string := dkeys (tc_agents c).
Definition consistent (cs : list TaskContract) : Prop :=
  NoDup (map tc_contract_id cs) /\ NoDup (List.concat (map agents_of cs))
  /\ forall c c' p, c ∈ cs -> c' ∈ cs -> p ∈ tc_approvers c -> p ∉ agents_of c'.
Definition id_table (cs : list TaskContract) : dict TaskContract := map (fun c => (tc_contract_id c, c)) cs.
Definition agent_table (cs : list TaskContract) : dict string :=
  List.concat (map (fun c => map (fun a => (a, tc_contract_id c)) (agents_of c)) cs).

Lemma dkeys_app {V} (d e : dict V) : dkeys (d ++ e) = dkeys d ++ dkeys e.
Proof. apply map_app. Qed.

Lemma dkeys_snoc {V} (d : dict V) k v : NoDup (dkeys d) -> k ∉ dkeys d -> NoDup (dkeys (d ++ [(k, v)])).
Proof.
  intros Hd Hk. rewrite dkeys_app. apply NoDup_app. split_and!; [done| |by apply NoDup_singleton].
  by intros x Hx ->%list_elem_of_singleton.
Qed.

Lemma dkeys_pair {V} (v : V) l : dkeys (map (fun a => (a, v)) l) = l.
Proof. induction l as [|a l IH]; [done|]. unfold dkeys in *. simpl. by f_equal. Qed.

Lemma dkeys_id_table cs : dkeys (id_table cs) = map tc_contract_id cs.
Proof. unfold dkeys, id_table. by rewrite map_map. Qed.

Lemma dkeys_agent_table cs : dkeys (agent_table cs) = List.concat (map agents_of cs).
Proof.
  induction cs as [|c cs IH]; [done|]. unfold agent_table in *. simpl. rewrite dkeys_app, dkeys_pair. by f_equal.
Qed.

Lemma bind_agents_iff id l b b' : NoDup (dkeys b) ->
  bind_agents id l b = Ok b' <-> b' = b ++ map (fun a => (a, id)) l /\ NoDup (dkeys b ++ l).
Proof.
  revert b; induction l as [|a l IH]; intros b Hnd; simpl.
  - rewrite !app_nil_r, Ok_inj. naive_solver.
  - destruct (dget a b) as [o|] eqn:E.
    + split; [done|]. intros [_ H%NoDup_app]. destruct H as (_ & H & _). exfalso. apply (H a).
      * apply dmem_spec. unfold dmem. by rewrite E.
      * apply elem_of_cons. by left.
    + apply dget_None in E. rewrite dset_notin, IH by (done || by apply dkeys_snoc).
      rewrite dkeys_app, <- !app_assoc. done.
Qed.

Lemma index_contracts_iff cs ix ix' : NoDup (dkeys (ix_by_id ix)) -> NoDup (dkeys (ix_bindings ix)) ->
  index_contracts cs ix = Ok ix' <->
  ix' = mk_index (ix_by_id ix ++ id_table cs) (ix_bindings ix ++ agent_table cs)
          (ix_approvers ix ++ List.concat (map tc_approvers cs))
  /\ NoDup (dkeys (ix_by_id ix) ++ map tc_contract_id cs)
  /\ NoDup (dkeys (ix_bindings ix) ++ List.concat (map agents_of cs)).
Proof.
  revert ix; induction cs as [|c cs IH]; intros [ids bs aps] Hi Hb; simpl in *.
  - rewrite !app_nil_r, Ok_inj. naive_solver.
  - destruct (dmem (tc_contract_id c) ids) eqn:E.
    + split; [done|]. intros (_ & H & _). apply NoDup_app in H as (_ & H & _). exfalso.
      apply dmem_spec in E. apply (H _ E). apply elem_of_cons. by left.
    + assert (tc_contract_id c ∉ dkeys ids) as Hid by (rewrite <- dmem_spec; congruence).
      destruct (bind_agents (tc_contract_id c) (dkeys (tc_agents c)) bs) as [b'|e] eqn:Eb; simpl.
      * apply bind_agents_iff in Eb as [-> Hnb]; [|done].
        rewrite dset_notin by done. rewrite IH; simpl.
        -- rewrite !dkeys_app, dkeys_pair. unfold agent_table, id_table. simpl. rewrite <- !app_assoc. simpl. done.
        -- by apply dkeys_snoc.
        -- by rewrite dkeys_app, dkeys_pair.
      * split; [done|]. intros (_ & _ & H). exfalso. rewrite app_assoc in H. apply NoDup_app in H as (H & _ & _).
        assert (bind_agents (tc_contract_id c) (dkeys (tc_agents c)) bs
                = Ok (bs ++ map (fun a => (a, tc_contract_id c)) (dkeys (tc_agents c)))) as Hok
          by (apply bind_agents_iff; done).
        congruence.
Qed.

Lemma elem_of_concat_map {A B} (f : A -> list B) l y : y ∈ List.concat (map f l) <-> exists x, x ∈ l /\ y ∈ f x.
Proof.
  induction l as [|x l IH]; simpl.
  - setoid_rewrite elem_of_nil. naive_solver.
  - rewrite elem_of_app, IH. setoid_rewrite elem_of_cons. naive_solver.
Qed.

(** [build_bindings] accepts exactly the consistent sets, and returns their tables. *)
Lemma build_bindings_iff cs by_id bindings :
  build_bindings cs = Ok (by_id, bindings) <->
  consistent cs /\ by_id = id_table cs /\ bindings = agent_table cs.
Proof.
  unfold build_bindings, consistent.
  assert (forall l, sorted_strs (remove_dups l) = [] <-> l = []) as Hsort
    by (intros l; rewrite sorted_strs_nil; apply remove_dups_nil).
  assert (forall d l, List.filter (fun a => dmem a d) l = [] <-> forall a, a ∈ l -> a ∉ dkeys (V:=string) d) as Hfilter.
  { intros d l. rewrite filter_nil_iff. split; intros Hall a Ha; specialize (Hall a Ha).
    - rewrite <- dmem_spec. congruence.
    - apply not_true_iff_false. by rewrite dmem_spec. }
  pose proof (index_contracts_iff cs (mk_index [] [] [])) as Hix. simpl in Hix.
  destruct (index_contracts cs _) as [ix|e] eqn:E; simpl.
  - destruct (proj1 (Hix ix (NoDup_nil_2) (NoDup_nil_2)) eq_refl) as (-> & Hn1 & Hn2). simpl.
    set (l := List.filter _ _).
    assert (l = [] <-> forall c c' p, c ∈ cs -> c' ∈ cs -> p ∈ tc_approvers c -> p ∉ agents_of c') as Hl.
    { unfold l. rewrite Hfilter. rewrite dkeys_agent_table. setoid_rewrite elem_of_concat_map. naive_solver. }
    specialize (Hsort l). destruct (sorted_strs (remove_dups l)); [rewrite Ok_inj; naive_solver|].
    split; [done|]. intros ((_ & _ & Hc) & _). apply Hl, Hsort in Hc. done.
  - split; [done|]. intros ((Hn1 & Hn2 & _) & _). exfalso.
    pose proof (proj2 (Hix _ (NoDup_nil_2) (NoDup_nil_2)) (conj eq_refl (conj Hn1 Hn2))). congruence.
Qed.

Lemma dget_id_table cs id c : NoDup (map tc_contract_id cs) ->
  dget id (id_table cs) = Some c <-> c ∈ cs /\ tc_contract_id c = id.
Proof.
  intros Hnd. split.
  - intros Hg%dget_Some_in. unfold id_table in Hg. apply list_elem_of_fmap in Hg as (c' & [= -> ->] & Hc). done.
  - intros [Hc <-]. apply dget_in_Some; [by rewrite dkeys_id_table|].
    unfold id_table. apply list_elem_of_fmap. by exists c.
Qed.

Lemma dget_agent_table cs a id : NoDup (List.concat (map agents_of cs)) ->
  dget a (agent_table cs) = Some id <-> exists c, c ∈ cs /\ tc_contract_id c = id /\ a ∈ agents_of c.
Proof.
  intros Hnd. transitivity ((a, id) ∈ agent_table cs).
  - split; [apply dget_Some_in|]. apply dget_in_Some. by rewrite dkeys_agent_table.
  - unfold agent_table. rewrite elem_of_concat_map. split.
    + intros (c & Hc & Hin). apply list_elem_of_fmap in Hin as (a' & [= -> ->] & Ha). by exists c.
    + intros (c & Hc & <- & Ha). exists c. split; [done|]. apply list_elem_of_fmap. by exists a.
Qed.

(** ** The content hash identifies the contract

    Two contracts with the same hash say the same, up to the order of the entries of their
    mappings, or exhibit a collision of SHA-256. *)

Record cap_agree (c c' : Capability) : Prop := {
  ca_effect : cap_effect c = cap_effect c';
  ca_expires : cap_expires_at c = cap_expires_at c';
  ca_constraints k : dget k (cap_constraints c) = dget k (cap_constraints c');
}.

Record contract_agree (c c' : TaskContract) : Prop := {
  ct_id : tc_contract_id c = tc_contract_id c';
  ct_goal : tc_goal c = tc_goal c';
  ct_version : tc_version c = tc_version c';
  ct_steps : tc_max_steps c = tc_max_steps c';
  ct_expires : tc_expires_at c = tc_expires_at c';
  ct_approvers : tc_approvers c = tc_approvers c';
  ct_agents a : dmem a (tc_agents c) = dmem a (tc_agents c');
  ct_caps a act :
    option_Forall2 cap_agree (dget act (capabilities_for c a)) (dget act (capabilities_for c' a));
}.

Section hash.
Context `{Externals}.

Lemma wf_val_distinct d : wf_val (PDict d) = true -> distinct (dkeys d) = true.
Proof. intros Hw. apply distinct_NoDup. by apply wf_val_dict_keys. Qed.

Lemma norm_dict_get d e k : distinct (dkeys d) = true -> distinct (dkeys e) = true ->
  norm (PDict d) = norm (PDict e) -> norm <$> dget k d = norm <$> dget k e.
Proof.
  rewrite !distinct_NoDup. intros Hd He Heq. simpl in Heq. injection Heq as Heq.
  apply (f_equal (dget k)) in Heq.
  rewrite !dget_sort_items, !dget_map in Heq by (by rewrite (dkeys_map norm)). done.
Qed.

Lemma norm_cvalue v : norm (cvalue_to_val v) = cvalue_to_val v.
Proof.
  destruct v as [l| | |]; simpl; try done. unfold pstrs. simpl. f_equal.
  induction l as [|s l IH]; simpl; [done|]. by f_equal.
Qed.

Lemma pstrs_inj l l' : pstrs l = pstrs l' -> l = l'.
Proof.
  unfold pstrs. intros [= Hl]. revert l' Hl. induction l as [|s l IH]; intros [|s' l'] Hl; try done.
  injection Hl as -> Hl. by rewrite (IH l' Hl).
Qed.

Lemma cvalue_to_val_inj v v' : cvalue_to_val v = cvalue_to_val v' -> v = v'.
Proof. destruct v, v'; simpl; try done; [by intros ->%pstrs_inj|congruence..]. Qed.

Lemma isoformat_inj t t' : in_datetime_range t = true -> in_datetime_range t' = true ->
  isoformat t = isoformat t' -> t = t'.
Proof.
  intros Ht Ht' Heq. apply (f_equal fromisoformat) in Heq. rewrite !fromisoformat_isoformat in Heq by done. congruence.
Qed.

Lemma effect_value_inj e e' : effect_value e = effect_value e' -> e = e'.
Proof. by destruct e, e'. Qed.

(** Well-formedness of the printed forms. *)
Lemma constraints_wf_val cs : NoDup (dkeys cs) -> wf_val (PDict (map (fun '(k, v) => (k, cvalue_to_val v)) cs)) = true.
Proof.
  intros Hnd. simpl. rewrite (dkeys_map cvalue_to_val). apply distinct_NoDup in Hnd as ->. simpl.
  apply forallb_forall. intros [k w] Hin. apply in_map_iff in Hin as ([k' v] & [= <- <-] & _).
  destruct v as [l| | |]; try done. simpl. apply forallb_forall. intros x Hx%in_map_iff. by destruct Hx as (s & <- & _).
Qed.

Lemma capability_wf_val c : wf_capability c = true -> wf_val (PDict (capability_to_dict c)) = true.
Proof.
  intros Hwf%wf_capability_inv. destruct Hwf as (_ & _ & _ & _ & Hnd & _). apply constraints_wf_val in Hnd.
  unfold capability_to_dict. destruct (cap_constraints c) as [|kv cs], (cap_expires_at c) as [t|]; try done.
  - simpl in *. by rewrite Hnd.
  - simpl in *. by rewrite Hnd.
Qed.

Lemma sort_items_wf_val d : wf_val (PDict d) = true -> wf_val (PDict (sort_items d)) = true.
Proof.
  simpl. rewrite !andb_true_iff, !distinct_NoDup. intros [Hnd Hall]. split.
  - by rewrite sort_items_keys.
  - rewrite <- Hall. apply forallb_perm. unfold sort_items. apply merge_sort_Permutation.
Qed.

Lemma grant_wf_val g : wf_grant g = true -> wf_val (grant_to_dict g) = true.
Proof.
  unfold wf_grant. rewrite andb_true_iff. intros [Hd Hall]. unfold grant_to_dict.
  assert (wf_val (PDict (map (fun '(a, c) => (a, PDict (capability_to_dict c))) (ag_capabilities g))) = true) as Hw.
  { simpl. rewrite (dkeys_map (fun c => PDict (capability_to_dict c))), Hd. simpl.
    apply forallb_forall. intros [k w] Hin. apply in_map_iff in Hin as ([k' c] & [= <- <-] & Hin).
    apply (proj1 (forallb_forall _ _) Hall) in Hin. simpl in Hin. bools. by apply capability_wf_val. }
  apply sort_items_wf_val in Hw. simpl in *. by rewrite Hw.
Qed.

Lemma contract_wf_val c : wf_contract c -> wf_val (PDict (contract_to_dict c)) = true.
Proof.
  intros Hwf. unfold contract_to_dict.
  assert (wf_val (PDict (map (fun '(a, g) => (a, grant_to_dict g)) (tc_agents c))) = true) as Hw.
  { simpl. rewrite (dkeys_map grant_to_dict). pose proof (wfc_agents c Hwf) as Hnd.
    pose proof Hnd as ->%distinct_NoDup. simpl.
    apply forallb_forall. intros [k w] Hin. apply in_map_iff in Hin as ([k' g] & [= <- <-] & Hin%list_elem_of_In).
    apply dget_in_Some in Hin; [|done]. apply (wfc_ids c Hwf) in Hin as (_ & _ & Hg). by apply grant_wf_val. }
  apply sort_items_wf_val in Hw.
  assert (wf_val (pstrs (tc_approvers c)) = true) as Hp.
  { simpl. apply forallb_forall. intros x Hx%in_map_iff. by destruct Hx as (s & <- & _). }
  simpl in Hw, Hp |- *. rewrite Hw, Hp. by destruct (tc_expires_at c).
Qed.

Lemma capability_agree c c' : wf_capability c = true -> wf_capability c' = true ->
  norm (PDict (capability_to_dict c)) = norm (PDict (capability_to_dict c')) -> cap_agree c c'.
Proof.
  intros Hwf Hwf' Heq.
  pose proof (wf_val_distinct _ (capability_wf_val c Hwf)) as Hd.
  pose proof (wf_val_distinct _ (capability_wf_val c' Hwf')) as Hd'.
  pose proof (fun k => norm_dict_get _ _ k Hd Hd' Heq) as Hget. clear Hd Hd' Heq.
  apply wf_capability_inv in Hwf as (_ & _ & _ & _ & Hnd & Hex), Hwf' as (_ & _ & _ & _ & Hnd' & Hex').
  assert (cap_effect c = cap_effect c') as He.
  { specialize (Hget "effect"). simpl in Hget. by injection Hget as Hget%effect_value_inj. }
  split; [done| |].
  - specialize (Hget "expires_at"). unfold capability_to_dict in Hget.
    destruct (cap_constraints c), (cap_constraints c'), (cap_expires_at c), (cap_expires_at c'); simpl in Hget;
      try done; injection Hget as Hget; f_equal; by apply isoformat_inj.
  - intros k. specialize (Hget "constraints"). unfold capability_to_dict in Hget.
    assert (forall cs : dict cvalue, dget k (map (fun '(j, v) => (j, cvalue_to_val v)) cs) = cvalue_to_val <$> dget k cs)
      as Hmap by (intros cs; apply (dget_map cvalue_to_val)).
    assert (forall cs cs' : dict cvalue, NoDup (dkeys cs) -> NoDup (dkeys cs') ->
      norm (PDict (map (fun '(k, v) => (k, cvalue_to_val v)) cs)) = norm (PDict (map (fun '(k, v) => (k, cvalue_to_val v)) cs'))
      -> dget k cs = dget k cs') as Hcs.
    { intros cs cs' Hn Hn' Heq. apply (norm_dict_get _ _ k) in Heq;
        [|by rewrite (dkeys_map cvalue_to_val); apply distinct_NoDup..].
      rewrite !Hmap, <- !option_fmap_compose in Heq.
      destruct (dget k cs), (dget k cs'); simpl in Heq; try done.
      injection Heq as Heq. rewrite !norm_cvalue in Heq. f_equal. by apply cvalue_to_val_inj. }
    destruct (cap_constraints c) as [|kv cs], (cap_constraints c') as [|kv' cs']; [done| | |].
    + by destruct (cap_expires_at c).
    + by destruct (cap_expires_at c').
    + apply Hcs; [done|done|]. injection Hget as Hget. simpl. by f_equal.
Qed.

(** Dictionaries of printed entries with equal normal forms agree entry by entry. *)
Lemma norm_sorted_entries {V} (f : V -> pyval) (d e : dict V) k :
  NoDup (dkeys d) -> NoDup (dkeys e) ->
  norm (PDict (sort_items (map (fun '(j, v) => (j, f v)) d))) = norm (PDict (sort_items (map (fun '(j, v) => (j, f v)) e))) ->
  (norm ∘ f) <$> dget k d = (norm ∘ f) <$> dget k e.
Proof.
  intros Hd He Heq. rewrite !option_fmap_compose, <- (dget_map f k d), <- (dget_map f k e).
  rewrite <- (dget_sort_items k (map (fun '(j, v) => (j, f v)) d)) by (by rewrite (dkeys_map f)).
  rewrite <- (dget_sort_items k (map (fun '(j, v) => (j, f v)) e)) by (by rewrite (dkeys_map f)).
  apply norm_dict_get; [apply distinct_NoDup; rewrite sort_items_keys; by rewrite (dkeys_map f)..|done].
Qed.

Lemma grant_agree g g' act : wf_grant g = true -> wf_grant g' = true ->
  norm (grant_to_dict g) = norm (grant_to_dict g') ->
  option_Forall2 cap_agree (dget act (ag_capabilities g)) (dget act (ag_capabilities g')).
Proof.
  unfold wf_grant, grant_to_dict. rewrite !andb_true_iff, !distinct_NoDup. intros [Hd Hw] [Hd' Hw'] Heq.
  apply (norm_dict_get _ _ "capabilities") in Heq; [|done..]. cbn [dget String.eqb Ascii.eqb Bool.eqb fmap option_fmap option_map] in Heq.
  injection Heq as Heq.
  apply (f_equal PDict), (norm_sorted_entries (fun c => PDict (capability_to_dict c)) _ _ act) in Heq; [|done..].
  destruct (dget act (ag_capabilities g)) as [c|] eqn:E, (dget act (ag_capabilities g')) as [c'|] eqn:E'; try done; constructor.
  apply dget_Some_in, list_elem_of_In in E, E'.
  apply (proj1 (forallb_forall _ _) Hw), andb_true_iff in E as [_ E].
  apply (proj1 (forallb_forall _ _) Hw'), andb_true_iff in E' as [_ E'].
  apply capability_agree; [done..|]. by injection Heq as Heq; simpl; f_equal.
Qed.

Lemma contract_hash_text c h : contract_hash c = Ok h ->
  h = "sha256:" +:+ sha256_hex (canonical (PDict (contract_to_dict c))) /\ jsonable (PDict (contract_to_dict c)) = true.
Proof.
  unfold contract_hash, canonical_json. destruct (jsonable _); simpl; [|done]. by intros [= <-].
Qed.

Lemma s_app_inj p s t : p +:+ s = p +:+ t -> s = t.
Proof. intros Heq. apply (f_equal (strip_prefix p)) in Heq. rewrite !strip_prefix_app in Heq. congruence. Qed.

Lemma contract_hash_agree c c' h : wf_contract c -> wf_contract c' ->
  contract_hash c = Ok h -> contract_hash c' = Ok h ->
  contract_agree c c' \/ exists x y, sha256_collision x y.
Proof.
  intros Hwf Hwf' Hh Hh'. apply contract_hash_text in Hh as [-> Hj], Hh' as [Heq Hj'].
  apply s_app_inj in Heq. apply sha256_hex_inj in Heq as [Heq|Hcol]; [|right; eauto].
  left. pose proof (contract_wf_val c Hwf) as Hv. pose proof (contract_wf_val c' Hwf') as Hv'.
  apply canonical_inj in Heq; [|done..].
  pose proof (fun k => norm_dict_get _ _ k (wf_val_distinct _ Hv) (wf_val_distinct _ Hv') Heq) as Hget.
  assert (forall a, (norm ∘ grant_to_dict) <$> dget a (tc_agents c) = (norm ∘ grant_to_dict) <$> dget a (tc_agents c')) as Hag.
  { intros a. apply (norm_sorted_entries grant_to_dict); [by apply wfc_agents..|].
    specialize (Hget "agents"). by injection Hget as Hget; simpl; f_equal. }
  split.
  - specialize (Hget "contract_id"). by injection Hget.
  - specialize (Hget "goal"). by injection Hget.
  - specialize (Hget "version"). by injection Hget.
  - specialize (Hget "max_steps"). by injection Hget.
  - specialize (Hget "expires_at"). pose proof (wfc_expiry c Hwf). pose proof (wfc_expiry c' Hwf').
    unfold contract_to_dict in Hget. destruct (tc_expires_at c), (tc_expires_at c'); simpl in Hget; try done.
    injection Hget as Hget. f_equal. by apply isoformat_inj.
  - specialize (Hget "approvers"). apply (f_equal (fun o => default PNone o)) in Hget.
    change (norm (cvalue_to_val (CStrs (tc_approvers c))) = norm (cvalue_to_val (CStrs (tc_approvers c')))) in Hget.
    rewrite !norm_cvalue in Hget. by apply pstrs_inj.
  - intros a. specialize (Hag a). unfold dmem. destruct (dget a (tc_agents c)), (dget a (tc_agents c')); done.
  - intros a act. specialize (Hag a). unfold capabilities_for.
    destruct (dget a (tc_agents c)) as [g|] eqn:E, (dget a (tc_agents c')) as [g'|] eqn:E'; try done; [|constructor].
    apply (wfc_ids c Hwf) in E as (_ & _ & E). apply (wfc_ids c' Hwf') in E' as (_ & _ & E').
    apply grant_agree; [done..|]. exact (f_equal (default PNone) Hag).
Qed.
End hash.

(** ** A sample document *)

Module SampleContract.
Import Sample.
#[export] Existing Instance externals.

(** Two agents: [b] searches one domain at most twice, [a] may ask [b] to; publishing escalates. *)
Definition document : pyval := PDict [
  ("contract_id", PStr "research"); ("goal", PStr "find sources"); ("max_steps", PInt 5);
  ("expires_at", PStr "2024-01-01T00:00:00Z"); ("approvers", PList [PStr "carol"]);
  ("agents", PDict [
    ("a", PDict [("capabilities", PDict [
       ("agent.message", PDict [("effect", PStr "allow"); ("constraints", PDict [("allowed_targets", PList [PStr "b"])])]);
       ("agent.delegate", PDict [("effect", PStr "allow"); ("constraints", PDict [
          ("allowed_targets", PList [PStr "b"]); ("allowed_actions", PList [PStr "web.fetch"])])]);
       ("doc.publish", PStr "escalate")])]);
    ("b", PDict [("capabilities", PDict [
       ("web.fetch", PDict [("effect", PStr "allow"); ("constraints", PDict [
          ("max_calls", PInt 2); ("allowed_domains", PList [PStr "Example.org."]); ("block_private_hosts", PBool true)])]);
       ("fs.delete", PStr "deny")])])])].

(** The same contract written in another order. *)
Definition document_reordered : pyval := PDict [
  ("agents", PDict [
    ("b", PDict [("capabilities", PDict [
       ("fs.delete", PDict [("effect", PStr "deny")]);
       ("web.fetch", PDict [("constraints", PDict [
          ("block_private_hosts", PBool true); ("allowed_domains", PList [PStr "example.org"]); ("max_calls", PInt 2)]);
          ("effect", PStr "allow")])])]);
    ("a", PDict [("capabilities", PDict [
       ("doc.publish", PStr "escalate");
       ("agent.delegate", PDict [("effect", PStr "allow"); ("constraints", PDict [
          ("allowed_actions", PList [PStr "web.fetch"]); ("allowed_targets", PList [PStr "b"])])]);
       ("agent.message", PDict [("effect", PStr "allow"); ("constraints", PDict [("allowed_targets", PList [PStr "b"])])])])])]);
  ("goal", PStr "find sources"); ("max_steps", PInt 5); ("approvers", PList [PStr "carol"]);
  ("expires_at", PStr "2024-01-01T01:00:00+01:00"); ("contract_id", PStr "research")].

Definition parsed : result TaskContract := contract_from_dict document.
Definition contract : TaskContract :=
  match parsed with Ok c => c | Raise _ => mk_contract EmptyString EmptyString [] 0 None [] EmptyString EmptyString end.
Definition reordered : TaskContract :=
  match contract_from_dict document_reordered with Ok c => c | Raise _ => contract end.
Definition tables : dict TaskContract * dict string :=
  match build_bindings [contract] with Ok t => t | Raise _ => ([], []) end.
End SampleContract.

(** ** Properties *)

Section properties.
Context `{Externals}.

(** C32. Reading a contract document either raises or yields a well-formed contract: valid id, a
    goal, a positive step budget, at least one agent, every agent's capabilities named by their own
    action outside the reserved name spaces with well-typed constraints and explicit targets for
    messages and delegations, no approver that is an agent; and the stored hash is the hash of the
    canonical text of what was read. *)
Theorem contract_from_dict_wf (v : pyval) (c : TaskContract) :
  wf_val v = true -> contract_from_dict v = Ok c ->
  wf_contract c /\ contract_hash c = Ok (tc_content_hash c).
Proof. apply contract_from_dict_ok. Qed.

(** [build_bindings] accepts exactly the sets of contracts with distinct ids in which every agent
    occurs once and no approver is an agent; it then binds an agent to a contract if and only if that
    contract of the set declares the agent, and indexes every contract by its id. *)
Theorem build_bindings_spec (cs : list TaskContract) :
  (is_ok (build_bindings cs) = true <-> consistent cs)
  /\ (consistent cs -> exists by_id bindings, build_bindings cs = Ok (by_id, bindings)
        /\ (forall id c, dget id by_id = Some c <-> c ∈ cs /\ tc_contract_id c = id)
        /\ (forall a id, dget a bindings = Some id <-> exists c, c ∈ cs /\ tc_contract_id c = id /\ a ∈ agents_of c)
        /\ (forall c p, c ∈ cs -> p ∈ tc_approvers c -> dget p bindings = None)).
Proof.
  split.
  - split.
    + destruct (build_bindings cs) as [[by_id bindings]|e] eqn:E; [|done]. intros _. apply build_bindings_iff in E as [Hc _]. exact Hc.
    + intros Hc. assert (build_bindings cs = Ok (id_table cs, agent_table cs)) as -> by (apply build_bindings_iff; by split_and!). done.
  - intros Hc. exists (id_table cs), (agent_table cs). pose proof Hc as (Hids & Hags & Happ). split_and!.
    + apply build_bindings_iff. by split_and!.
    + intros id c. by apply dget_id_table.
    + intros a id. by apply dget_agent_table.
    + intros c p Hin Hp. apply dget_None. rewrite dkeys_agent_table. intros (c' & Hc' & Hp')%elem_of_concat_map.
      by apply (Happ c c' p).
Qed.

(** Two well-formed contracts with the same content hash agree on everything they say - id, goal,
    version, budget, expiry, approvers, agents, and for every agent and action the effect, expiry and
    constraints - or a collision of SHA-256 is at hand. *)
Theorem content_hash_injective (c c' : TaskContract) (h : string) :
  wf_contract c -> wf_contract c' -> contract_hash c = Ok h -> contract_hash c' = Ok h ->
  contract_agree c c' \/ exists x y, sha256_collision x y.
Proof. apply contract_hash_agree. Qed.
End properties.

Module Witnesses.
Import SampleContract.

Lemma sample_wf : wf_contract contract /\ contract_hash contract = Ok (tc_content_hash contract).
Proof. apply (contract_from_dict_ok document); vm_compute; reflexivity. Qed.

Lemma reordered_wf : wf_contract reordered.
Proof. apply (contract_from_dict_ok document_reordered); vm_compute; reflexivity. Qed.

Lemma contract_from_dict_wf_witness :
  wf_contract contract /\ contract_hash contract = Ok (tc_content_hash contract).
Proof. apply (contract_from_dict_wf document); vm_compute; reflexivity. Defined.

Lemma sample_consistent : consistent [contract].
Proof. apply (build_bindings_iff [contract] tables.1 tables.2). vm_compute. reflexivity. Qed.

Lemma build_bindings_spec_witness :
  consistent [contract] /\ exists by_id bindings, build_bindings [contract] = Ok (by_id, bindings)
  /\ (forall a id, dget a bindings = Some id <-> exists c, c ∈ [contract] /\ tc_contract_id c = id /\ a ∈ agents_of c).
Proof.
  split; [exact sample_consistent|].
  destruct (proj2 (build_bindings_spec [contract]) sample_consistent) as (b & bs & Hb & _ & Ha & _).
  exists b, bs. split; [exact Hb|exact Ha].
Defined.

Lemma content_hash_injective_witness :
  contract_agree contract reordered \/ exists x y, sha256_collision x y.
Proof.
  apply (content_hash_injective contract reordered (tc_content_hash contract));
    [apply sample_wf|apply reordered_wf|vm_compute; reflexivity|vm_compute; reflexivity].
Defined.
End Witnesses.
