(* ===== verification/Policy.v ===== *)
(** * The deny-by-default policy engine: src/capgate/policy.py

    [evaluate] is pure and has no parameter for a requester or a delegator. The second half of the
    file states declaratively when a request is authorized, and that [evaluate] decides it. *)

From S2P Require Import Prelude Datetime Regex PyVal Externals Json Request Decision NetAddr Timeutil Capability Contract.

Section policy.
Context `{Externals}.

(** [target in bindings]: a list or a mapping is not hashable. *)
Definition target_registered (target : pyval) (bindings : dict string) : result bool :=
  match target with
  | PStr t => Ok (dmem t bindings)
  | PList _ | PDict _ => Raise (TypeError "unhashable type")
  | _ => Ok false
  end.

Definition target_is (target : pyval) (agent : string) : bool :=
  match target with PStr t => String.eqb t agent | _ => false end.

Definition deny (reason : ReasonCode) (detail : string) (capability : option string) (rule : string) :
    result PolicyEvaluation :=
  Ok (mk_evaluation DENY reason detail capability (Some rule)).

Definition expired (now : Z) (expires_at : option Z) : option Z :=
  t ← expires_at; if t <=? now then Some t else None.

(** The last tests, on a capability whose constraints hold. *)
Definition evaluate_effect (agent action bound_id : string) (target : pyval) (bindings : dict string)
    (cap : Capability) : result PolicyEvaluation :=
  let? refused :=
    (if talks_to_agents action then
       if target_is target agent
       then Ok (Some ("an agent cannot message or delegate to itself", "invariant:no_self_delegation"))
       else let? known := target_registered target bindings in
            Ok (if known then None
                else Some ("target " +:+ py_repr target +:+ " is not a registered agent", "identity:binding"))
     else Ok None) in
  match refused with
  | Some (detail, rule) => deny TARGET_NOT_ALLOWED detail (Some action) rule
  | None =>
      if bool_decide (cap_effect cap = EEscalate)
      then Ok (mk_evaluation ESCALATE REQUIRES_APPROVAL (repr_str action +:+ " requires human approval")
                 (Some action) (Some "capability:escalate"))
      else Ok (mk_evaluation ALLOW CAPABILITY_GRANTED (repr_str action +:+ " granted by " +:+ repr_str bound_id)
                 (Some action) (Some "capability:allow"))
  end.

Definition evaluate_capability (r : ActionRequest) (agent action bound_id : string) (bindings : dict string)
    (cap : Capability) (usage : Usage) (now : Z) : result PolicyEvaluation :=
  if bool_decide (cap_effect cap = EDeny)
  then deny EXPLICITLY_DENIED (repr_str action +:+ " is explicitly denied") (Some action) "capability:deny"
  else match expired now (cap_expires_at cap) with
  | Some t => deny CAPABILITY_EXPIRED ("capability expired at " +:+ isoformat t) (Some action) "capability:expires_at"
  | None =>
      let? violation := check_constraints cap r (action_calls usage) in
      match violation with
      | Some v => deny (cv_reason_code v) (cv_detail v) (Some action) (cv_rule v)
      | None => evaluate_effect agent action bound_id (argument r "to") bindings cap
      end
  end.

Definition evaluate_contract (r : ActionRequest) (agent action bound_id : string) (contract : TaskContract)
    (bindings : dict string) (usage : Usage) (now : Z) : result PolicyEvaluation :=
  if match rq_contract_id r with PStr c => negb (String.eqb c bound_id) | _ => false end
  then deny CONTRACT_MISMATCH ("agent is bound to " +:+ repr_str bound_id +:+ ", not " +:+ py_repr (rq_contract_id r))
         None "identity:binding"
  else match expired now (tc_expires_at contract) with
  | Some t => deny CONTRACT_EXPIRED ("contract expired at " +:+ isoformat t) None "contract:expires_at"
  | None =>
      if tc_max_steps contract <=? contract_steps usage
      then deny BUDGET_EXHAUSTED ("contract step budget of " +:+ show_Z (tc_max_steps contract) +:+ " exhausted")
             None "contract:max_steps"
      else if is_reserved action
      then deny RESERVED_ACTION "agents cannot act on the harness or on contracts" None "invariant:contract_immutable"
      else match dget action (capabilities_for contract agent) with
      | None => deny TOOL_NOT_ALLOWED ("no capability for " +:+ repr_str action +:+ " under " +:+ repr_str bound_id)
                  None "default:deny"
      | Some cap => evaluate_capability r agent action bound_id bindings cap usage now
      end
  end.

(** After [problems] the agent and the action are texts; the remaining case is not reachable. *)
Definition evaluate (r : ActionRequest) (contracts : dict TaskContract) (bindings : dict string)
    (usage : Usage) (now : Z) : result PolicyEvaluation :=
  match problems r with
  | (_ :: _) as ps => deny MALFORMED_REQUEST (s_concat "; " ps) None "request:schema"
  | [] =>
      match rq_agent_id r, rq_action r with
      | PStr agent, PStr action =>
          match dget agent bindings with
          | None => deny UNKNOWN_AGENT ("agent " +:+ repr_str agent +:+ " is not bound to any contract")
                      None "identity:binding"
          | Some bound_id =>
              match dget bound_id contracts with
              | None => Raise (KeyError bound_id)
              | Some contract => evaluate_contract r agent action bound_id contract bindings usage now
              end
          end
      | _, _ => Raise (TypeError "unreachable")
      end
  end.

(** ** The specification *)

(** A table of contracts and bindings, as [build_bindings] makes it of well-formed contracts. *)
Definition wf_tables (contracts : dict TaskContract) (bindings : dict string) : Prop :=
  forall a id, dget a bindings = Some id ->
    exists c, dget id contracts = Some c /\ wf_contract c /\ tc_contract_id c = id /\ a ∈ agents_of c.

(** The conditions under which [agent] may perform [action] with capability [cap] of [contract]. *)
Record permitted (contract : TaskContract) (bindings : dict string) (r : ActionRequest)
    (agent action : string) (cap : Capability) (usage : Usage) (now : Z) : Prop := {
  pm_contract : rq_contract_id r = PNone \/ rq_contract_id r = PStr (tc_contract_id contract);
  pm_live t : tc_expires_at contract = Some t -> now < t;
  pm_budget : contract_steps usage < tc_max_steps contract;
  pm_not_reserved : is_reserved action = false;
  pm_named : dget action (capabilities_for contract agent) = Some cap;
  pm_not_denied : cap_effect cap <> EDeny;
  pm_cap_live t : cap_expires_at cap = Some t -> now < t;
  pm_constraints : within_constraints (cap_constraints cap) (arguments_copy r) (action_calls usage);
  pm_target : talks_to_agents action = true ->
    exists t, argument r "to" = PStr t /\ t <> agent /\ t ∈ dkeys bindings;
}.

(** A request is authorized with effect [e] when it is well formed, its agent is bound to a
    contract, and that contract permits the action under a capability of effect [e]. *)
Definition authorized (contracts : dict TaskContract) (bindings : dict string) (r : ActionRequest)
    (usage : Usage) (now : Z) (e : Effect) : Prop :=
  problems r = [] /\ exists agent action id contract cap,
    rq_agent_id r = PStr agent /\ rq_action r = PStr action
    /\ dget agent bindings = Some id /\ dget id contracts = Some contract
    /\ permitted contract bindings r agent action cap usage now /\ cap_effect cap = e.

(** ** Lemmas *)

Lemma expired_none now e : expired now e = None <-> forall t, e = Some t -> now < t.
Proof.
  unfold expired. destruct e as [t|]; simpl; [|naive_solver].
  destruct (t <=? now) eqn:E; split; try done; [|intros _ ? [= <-]; lia].
  intros Hall. specialize (Hall t eq_refl). lia.
Qed.

Lemma wf_contract_capability c a act cap : wf_contract c ->
  dget act (capabilities_for c a) = Some cap -> wf_capability cap = true /\ cap_action cap = act.
Proof.
  unfold capabilities_for. intros Hc. destruct (dget a (tc_agents c)) as [g|] eqn:Eg; [|done].
  apply (wfc_ids _ Hc) in Eg as (_ & _ & Hg). unfold wf_grant in Hg. bools.
  intros Hin%dget_Some_in%list_elem_of_In. apply (proj1 (forallb_forall _ _) H1) in Hin. simpl in Hin. by bools.
Qed.

Lemma wf_capability_targets cap : wf_capability cap = true -> cap_effect cap <> EDeny ->
  talks_to_agents (cap_action cap) = true -> exists l, c_strs "allowed_targets" (cap_constraints cap) = Some l.
Proof.
  intros Hwf%wf_capability_inv He Ht. destruct Hwf as (_ & Hok & Htargets & _).
  specialize (Htargets He Ht). unfold c_strs, dmem in *.
  destruct (dget "allowed_targets" _) as [v|] eqn:E; [|done]. apply Hok in E. destruct v; try done. eauto.
Qed.

(** ** The engine decides the specification *)

Definition grants (d : DecisionType) (res : result PolicyEvaluation) : Prop :=
  exists ev, res = Ok ev /\ ev_decision ev = d.
Definition effect_decision (e : Effect) : DecisionType :=
  match e with EAllow => ALLOW | EDeny => DENY | EEscalate => ESCALATE end.

Lemma grants_deny d reason detail cap rule : grants d (deny reason detail cap rule) <-> d = DENY.
Proof. unfold grants, deny. split; [intros (ev & [= <-] & <-); done|intros ->; eauto]. Qed.

Definition target_ok (action agent : string) (target : pyval) (bindings : dict string) : Prop :=
  talks_to_agents action = true -> exists t, target = PStr t /\ t <> agent /\ t ∈ dkeys bindings.

Lemma evaluate_effect_grants d agent action id target bindings cap : d <> DENY -> cap_effect cap <> EDeny ->
  grants d (evaluate_effect agent action id target bindings cap) <->
  target_ok action agent target bindings /\ d = effect_decision (cap_effect cap).
Proof.
  intros Hd He. unfold evaluate_effect, target_ok.
  assert (forall k, (forall detail rule, k (Some (detail, rule)) = deny TARGET_NOT_ALLOWED detail (Some action) rule) ->
    (grants d (k None) <-> d = effect_decision (cap_effect cap)) ->
    grants d (let? refused := (if talks_to_agents action then
       if target_is target agent
       then Ok (Some ("an agent cannot message or delegate to itself", "invariant:no_self_delegation"))
       else let? known := target_registered target bindings in
            Ok (if known then None
                else Some ("target " +:+ py_repr target +:+ " is not a registered agent", "identity:binding"))
     else Ok None) in k refused) <->
    (talks_to_agents action = true -> exists t, target = PStr t /\ t <> agent /\ t ∈ dkeys bindings)
    /\ d = effect_decision (cap_effect cap)) as Hk.
  { intros k Hsome Hnone. destruct (talks_to_agents action); [|cbn [result_bind]; rewrite Hnone; naive_solver].
    assert (forall x, grants d (k (Some x)) <-> False) as Hno.
    { intros [detail rule]. rewrite Hsome, grants_deny. tauto. }
    destruct target as [| | | |t| | | | | |]; simpl;
      try (rewrite Hno; split; [done|]; intros [Ht _]; by destruct (Ht eq_refl) as (? & ? & _));
      try (split; [by intros (? & ? & _)|]; intros [Ht _]; by destruct (Ht eq_refl) as (? & ? & _)).
    destruct (String.eqb_spec t agent) as [->|Hne]; simpl.
    - rewrite Hno. naive_solver.
    - pose proof (dmem_spec t bindings) as Hm. destruct (dmem t bindings); [rewrite Hnone|rewrite Hno]; naive_solver. }
  apply (Hk (fun refused => match refused with
    | Some (detail, rule) => deny TARGET_NOT_ALLOWED detail (Some action) rule
    | None => if bool_decide (cap_effect cap = EEscalate) then _ else _ end)); [done|].
  unfold grants. destruct (cap_effect cap) eqn:E; [|done|]; simpl; split;
    [intros (ev & [= <-] & <-); done|intros ->; eauto|intros (ev & [= <-] & <-); done|intros ->; eauto].
Qed.

Lemma evaluate_capability_grants d r agent action id bindings cap usage now : d <> DENY ->
  wf_capability cap = true ->
  grants d (evaluate_capability r agent action id bindings cap usage now) <->
  cap_effect cap <> EDeny /\ (forall t, cap_expires_at cap = Some t -> now < t)
  /\ within_constraints (cap_constraints cap) (arguments_copy r) (action_calls usage)
  /\ target_ok action agent (argument r "to") bindings /\ d = effect_decision (cap_effect cap).
Proof.
  intros Hd Hwf. unfold evaluate_capability. rewrite <- expired_none.
  rewrite <- check_constraints_none by (intros n; by apply wf_length).
  case_bool_decide as He; [rewrite grants_deny; naive_solver|].
  destruct (expired now _) as [t|]; [rewrite grants_deny; naive_solver|].
  destruct (check_constraints_total cap r (action_calls usage)) as [v ->]. cbn [result_bind].
  destruct v as [v|].
  - rewrite grants_deny. naive_solver.
  - rewrite evaluate_effect_grants by done. tauto.
Qed.

Lemma evaluate_contract_grants d r agent action id c bindings usage now : d <> DENY ->
  wf_contract c -> tc_contract_id c = id -> (rq_contract_id r = PNone \/ exists s, rq_contract_id r = PStr s) ->
  grants d (evaluate_contract r agent action id c bindings usage now) <->
  exists cap, permitted c bindings r agent action cap usage now /\ d = effect_decision (cap_effect cap).
Proof.
  intros Hd Hwf Hid Hc. unfold evaluate_contract.
  assert ((match rq_contract_id r with PStr s => negb (String.eqb s id) | _ => false end) = false
    <-> rq_contract_id r = PNone \/ rq_contract_id r = PStr (tc_contract_id c)) as Hmatch.
  { subst id. destruct Hc as [-> |[s ->]]; [naive_solver|]. rewrite negb_false_iff, String.eqb_eq. naive_solver. }
  assert (forall P, (forall cap, permitted c bindings r agent action cap usage now -> P) -> ~ P ->
    (False <-> exists cap, permitted c bindings r agent action cap usage now /\ d = effect_decision (cap_effect cap))) as Hno.
  { intros P HP Hn. split; [done|]. intros (cap & Hp & _). eauto. }
  destruct (match rq_contract_id r with PStr s => _ | _ => _ end).
  { rewrite grants_deny. transitivity False; [tauto|]. eapply Hno; [intros cap Hp; apply (pm_contract _ _ _ _ _ _ _ _ Hp)|].
    rewrite <- Hmatch. done. }
  pose proof (expired_none now (tc_expires_at c)) as Hex.
  destruct (expired now _) as [t|].
  { rewrite grants_deny. transitivity False; [tauto|]. eapply Hno; [intros cap Hp; exact (pm_live _ _ _ _ _ _ _ _ Hp)|].
    rewrite <- Hex. done. }
  destruct (tc_max_steps c <=? contract_steps usage) eqn:Es.
  { rewrite grants_deny. transitivity False; [tauto|]. eapply Hno; [intros cap Hp; exact (pm_budget _ _ _ _ _ _ _ _ Hp)|]. lia. }
  destruct (is_reserved action) eqn:Er.
  { rewrite grants_deny. transitivity False; [tauto|]. eapply Hno; [intros cap Hp; exact (pm_not_reserved _ _ _ _ _ _ _ _ Hp)|].
    congruence. }
  destruct (dget action (capabilities_for c agent)) as [cap|] eqn:Ecap.
  - destruct (wf_contract_capability c agent action cap Hwf Ecap) as [Hcap _].
    rewrite evaluate_capability_grants by done. split.
    + intros (? & ? & ? & ? & ?). exists cap. split; [|done]. split; try done; [tauto|tauto|lia].
    + intros (cap' & [] & ->). replace cap' with cap in * by congruence. done.
  - rewrite grants_deny. transitivity False; [tauto|]. split; [done|]. intros (cap & [] & _). congruence.
Qed.

(** For an effect other than a denial, the engine answers it exactly when the request is authorized. *)
Lemma evaluate_grants contracts bindings r usage now e : e <> EDeny -> wf_tables contracts bindings ->
  grants (effect_decision e) (evaluate r contracts bindings usage now) <->
  authorized contracts bindings r usage now e.
Proof.
  intros He Hwf. assert (effect_decision e <> DENY) as Hd by (by destruct e).
  unfold evaluate, authorized. destruct (problems r) as [|p ps] eqn:Ep.
  2: { rewrite grants_deny. naive_solver. }
  apply problems_nil in Ep as (a & act & Ha & _ & Hact & _ & Hc). rewrite Ha, Hact.
  destruct (dget a bindings) as [id|] eqn:Eid.
  2: { rewrite grants_deny. split; [done|]. intros (_ & ? & ? & ? & ? & ? & [= <-] & _ & ? & _). congruence. }
  destruct (Hwf a id Eid) as (c & Hget & Hwfc & Hidc & _). rewrite Hget.
  rewrite evaluate_contract_grants by done. split.
  - intros (cap & Hp & Heq). split; [done|]. exists a, act, id, c, cap. split_and!; try done.
    by destruct e, (cap_effect cap).
  - intros (_ & a' & act' & id' & c' & cap & [= <-] & [= <-] & Hb & Hg & Hp & <-).
    replace c' with c in * by congruence. eauto.
Qed.

(** ** Totality, confinement and monotonicity *)

Lemma evaluate_effect_total agent action id target bindings cap :
  (talks_to_agents action = true -> exists t, target = PStr t) ->
  exists ev, evaluate_effect agent action id target bindings cap = Ok ev.
Proof.
  intros Ht. unfold evaluate_effect, deny. destruct (talks_to_agents action).
  - destruct (Ht eq_refl) as [t ->]. simpl. destruct (String.eqb t agent); simpl; [eauto|].
    destruct (dmem t bindings); simpl; [case_bool_decide|]; eauto.
  - cbn [result_bind]. case_bool_decide; eauto.
Qed.

(** The engine answers every request: no lookup fails and no check raises. *)
Lemma evaluate_answers contracts bindings r usage now : wf_tables contracts bindings ->
  exists ev, evaluate r contracts bindings usage now = Ok ev.
Proof.
  intros Hwf. unfold evaluate. destruct (problems r) as [|p ps] eqn:Ep; [|unfold deny; eauto].
  apply problems_nil in Ep as (a & act & -> & _ & -> & _).
  destruct (dget a bindings) as [id|] eqn:Eid; [|unfold deny; eauto].
  destruct (Hwf a id Eid) as (c & -> & Hwfc & _). unfold evaluate_contract, deny.
  destruct (match rq_contract_id r with PStr s => _ | _ => _ end); [eauto|].
  destruct (expired now _); [eauto|]. destruct (_ <=? _); [eauto|]. destruct (is_reserved act); [eauto|].
  destruct (dget act (capabilities_for c a)) as [cap|] eqn:Ecap; [|eauto].
  destruct (wf_contract_capability c a act cap Hwfc Ecap) as [Hcap <-].
  unfold evaluate_capability, deny. case_bool_decide as He; [eauto|].
  destruct (expired now _); [eauto|].
  destruct (check_constraints_total cap r (action_calls usage)) as [v Hv]. rewrite Hv. cbn [result_bind].
  destruct v; [eauto|]. apply evaluate_effect_total. intros Ht.
  apply check_constraints_none in Hv; [|intros n; by apply wf_length].
  destruct (wf_capability_targets cap Hcap He Ht) as [l Hl].
  destruct (wc_targets _ _ _ Hv l Hl) as (t & Hto & _). eauto.
Qed.

(** Two tables that agree on an agent's binding and contract, and on who is registered. *)
Definition agree_for (agent : string) (contracts contracts' : dict TaskContract) (bindings bindings' : dict string) : Prop :=
  dget agent bindings = dget agent bindings'
  /\ (forall id, dget agent bindings = Some id -> dget id contracts = dget id contracts')
  /\ forall t, dmem t bindings = dmem t bindings'.

Lemma evaluate_effect_agree agent action id target b b' cap : (forall t, dmem t b = dmem t b') ->
  evaluate_effect agent action id target b cap = evaluate_effect agent action id target b' cap.
Proof.
  intros Hb. unfold evaluate_effect.
  assert (target_registered target b = target_registered target b') as -> by (destruct target; simpl; rewrite ?Hb; done).
  done.
Qed.

Lemma evaluate_agree r a c c' b b' usage now : rq_agent_id r = PStr a -> agree_for a c c' b b' ->
  evaluate r c b usage now = evaluate r c' b' usage now.
Proof.
  intros Ha (Hb & Hc & Hm). unfold evaluate. rewrite Ha. destruct (problems r); [|done].
  destruct (rq_action r); try done. rewrite <- Hb. destruct (dget a b) as [id|]; [|done].
  rewrite <- (Hc id eq_refl). destruct (dget id c) as [ct|]; [|done].
  unfold evaluate_contract, evaluate_capability.
  destruct (match rq_contract_id r with PStr s => _ | _ => _ end), (expired now (tc_expires_at ct)),
    (tc_max_steps ct <=? contract_steps usage), (is_reserved s), (dget s (capabilities_for ct a)) as [cap|]; try done.
  case_bool_decide; [done|]. destruct (expired now _); [done|].
  destruct (check_constraints_total cap r (action_calls usage)) as [[v|] ->]; [done|]. by apply evaluate_effect_agree.
Qed.

(** With more budget left and an earlier clock, whatever was authorized still is. *)
Definition usage_le (u u' : Usage) : Prop :=
  contract_steps u <= contract_steps u' /\ action_calls u <= action_calls u'.

Lemma within_constraints_calls c args n m : n <= m -> within_constraints c args m -> within_constraints c args n.
Proof.
  intros Hle [Hcalls Hal Hreq Hlen Hurl Htg Hact]. split; try done.
  intros k Hk. specialize (Hcalls k Hk). lia.
Qed.

Lemma authorized_antitone contracts bindings r u u' now now' e : usage_le u u' -> now <= now' ->
  authorized contracts bindings r u' now' e -> authorized contracts bindings r u now e.
Proof.
  intros [Hs Hc] Hn (Hp & a & act & id & c & cap & Ha & Hact & Hb & Hg & Hpm & He).
  split; [done|]. exists a, act, id, c, cap. split_and!; try done.
  destruct Hpm as [Hcid Hlive Hbud Hres Hnamed Hnd Hclive Hcons Htg]. split; try done.
  - intros t Ht. specialize (Hlive t Ht). lia.
  - lia.
  - intros t Ht. specialize (Hclive t Ht). lia.
  - by eapply within_constraints_calls.
Qed.
End policy.

(** ** A contract is pinned by its hash *)

Section pinned.
Context `{Externals}.

Lemma check_constraints_same cap cap' r calls :
  (forall k, dget k (cap_constraints cap) = dget k (cap_constraints cap')) ->
  check_constraints cap r calls = check_constraints cap' r calls.
Proof.
  intros Hc. unfold check_constraints, check_max_calls, check_allowed_arguments, check_required_arguments,
    check_argument_length, check_targets, check_actions, checks_url, check_url, c_strs, c_int, c_str, c_bool, dmem.
  by rewrite !Hc.
Qed.

Lemma evaluate_contract_agree c c' r agent action id bindings usage now : contract_agree c c' ->
  evaluate_contract r agent action id c bindings usage now = evaluate_contract r agent action id c' bindings usage now.
Proof.
  intros Hag. unfold evaluate_contract. rewrite (ct_expires _ _ Hag), (ct_steps _ _ Hag).
  destruct (match rq_contract_id r with PStr s => _ | _ => _ end), (expired now (tc_expires_at c')),
    (tc_max_steps c' <=? contract_steps usage), (is_reserved action); try done.
  destruct (ct_caps _ _ Hag agent action) as [cap cap' [He Hx Hk]|]; [|done].
  unfold evaluate_capability, evaluate_effect. rewrite He, Hx, (check_constraints_same cap cap') by done. done.
Qed.

(** ** Properties *)

(** C6. The engine allows a request exactly when it is authorized: well formed, by an agent bound to a
    live contract with steps left, for an action that contract names with effect allow outside the
    reserved name spaces, under a live capability all of whose constraints hold, and (for messages
    and delegations) to another registered agent. *)
Theorem evaluate_allow_iff (contracts : dict TaskContract) (bindings : dict string) (r : ActionRequest)
    (usage : Usage) (now : Z) : wf_tables contracts bindings ->
  (exists ev, evaluate r contracts bindings usage now = Ok ev /\ ev_decision ev = ALLOW)
  <-> authorized contracts bindings r usage now EAllow.
Proof. intros Hwf. exact (evaluate_grants contracts bindings r usage now EAllow ltac:(discriminate) Hwf). Qed.

(** The engine escalates a request to a human exactly when it is authorized by a capability whose
    effect is escalate: every other condition has been checked before a human is asked. *)
Theorem evaluate_escalate_iff (contracts : dict TaskContract) (bindings : dict string) (r : ActionRequest)
    (usage : Usage) (now : Z) : wf_tables contracts bindings ->
  (exists ev, evaluate r contracts bindings usage now = Ok ev /\ ev_decision ev = ESCALATE)
  <-> authorized contracts bindings r usage now EEscalate.
Proof. intros Hwf. exact (evaluate_grants contracts bindings r usage now EEscalate ltac:(discriminate) Hwf). Qed.

(** C34. The engine is total on well-formed tables: whatever the request, it answers with a decision;
    no lookup fails, no constraint check raises and no unhashable target reaches the bindings. *)
Theorem evaluate_total (contracts : dict TaskContract) (bindings : dict string) (r : ActionRequest)
    (usage : Usage) (now : Z) : wf_tables contracts bindings ->
  exists ev, evaluate r contracts bindings usage now = Ok ev.
Proof. apply evaluate_answers. Qed.

(** An agent's authority is confined to its own contract: tables that agree on the agent's binding
    and contract, and on which agents are registered, give the same answer, whatever other agents'
    contracts say. *)
Theorem evaluate_confined (r : ActionRequest) (agent : string) (contracts contracts' : dict TaskContract)
    (bindings bindings' : dict string) (usage : Usage) (now : Z) :
  rq_agent_id r = PStr agent -> agree_for agent contracts contracts' bindings bindings' ->
  evaluate r contracts bindings usage now = evaluate r contracts' bindings' usage now.
Proof. apply evaluate_agree. Qed.

(** No contract can authorize an action on the harness or on contracts: whatever the tables hold,
    a request for a reserved action that is answered is denied. *)
Theorem reserved_always_denied (contracts : dict TaskContract) (bindings : dict string) (r : ActionRequest)
    (usage : Usage) (now : Z) (action : string) (ev : PolicyEvaluation) :
  rq_action r = PStr action -> is_reserved action = true ->
  evaluate r contracts bindings usage now = Ok ev -> ev_decision ev = DENY.
Proof.
  intros Ha Hr. unfold evaluate, evaluate_contract, deny. rewrite Ha.
  destruct (problems r); [|intros [= <-]; done]. destruct (rq_agent_id r); try done.
  destruct (dget s bindings) as [id|]; [|intros [= <-]; done].
  destruct (dget id contracts); [|done]. rewrite Hr.
  destruct (match rq_contract_id r with PStr s => _ | _ => _ end); [intros [= <-]; done|].
  destruct (expired _ _); [intros [= <-]; done|]. destruct (_ <=? _); intros [= <-]; done.
Qed.

(** Authority only shrinks: what is allowed after more steps and calls and at a later time was
    allowed before, so consuming budget or waiting never turns a denial into an authorization. *)
Theorem evaluate_monotone (contracts : dict TaskContract) (bindings : dict string) (r : ActionRequest)
    (u u' : Usage) (now now' : Z) : wf_tables contracts bindings -> usage_le u u' -> now <= now' ->
  (exists ev, evaluate r contracts bindings u' now' = Ok ev /\ ev_decision ev = ALLOW) ->
  exists ev, evaluate r contracts bindings u now = Ok ev /\ ev_decision ev = ALLOW.
Proof.
  intros Hwf Hu Hn Hall.
  apply (proj2 (evaluate_grants contracts bindings r u now EAllow ltac:(discriminate) Hwf)).
  apply (authorized_antitone contracts bindings r u u' now now' EAllow Hu Hn).
  exact (proj1 (evaluate_grants contracts bindings r u' now' EAllow ltac:(discriminate) Hwf) Hall).
Qed.

(** C33. The content hash written to the audit trail pins the policy: two well-formed contracts with the
    same hash give the same answer to every request, or a collision of SHA-256 is at hand. *)
Theorem hash_pins_policy (c c' : TaskContract) (h : string) :
  wf_contract c -> wf_contract c' -> contract_hash c = Ok h -> contract_hash c' = Ok h ->
  (forall r agent action id bindings usage now,
     evaluate_contract r agent action id c bindings usage now = evaluate_contract r agent action id c' bindings usage now)
  \/ exists x y, sha256_collision x y.
Proof.
  intros Hw Hw' Hh Hh'. destruct (contract_hash_agree c c' h Hw Hw' Hh Hh') as [Hag|Hcol]; [left|by right].
  intros. by apply evaluate_contract_agree.
Qed.

Lemma wf_tables_of cs : consistent cs -> Forall wf_contract cs -> wf_tables (id_table cs) (agent_table cs).
Proof.
  intros (Hids & Hags & _) Hwf a id Hb. apply dget_agent_table in Hb as (c & Hc & Hid & Ha); [|done].
  exists c. split_and!; [by apply dget_id_table| |done|done]. rewrite Forall_forall in Hwf. auto.
Qed.
End pinned.

Module Witnesses.
Import SampleContract.

Lemma sample_tables_wf : wf_tables tables.1 tables.2.
Proof.
  apply (wf_tables_of [contract]); [apply Contract.Witnesses.sample_consistent|].
  constructor; [apply Contract.Witnesses.sample_wf|constructor].
Qed.

Definition request (agent action : string) (args : dict pyval) : ActionRequest :=
  match make_request (PStr agent) (PStr action) (PDict args) PNone with
  | Ok r => r
  | Raise _ => mk_request PNone PNone EmptyString PNone
  end.
Definition fetch : ActionRequest := request "b" "web.fetch" [("url", PStr "https://docs.example.org/a")].
Definition publish : ActionRequest := request "a" "doc.publish" [].
Definition seize : ActionRequest := request "a" "harness.stop" [].
Definition now : Z := Sample.start.

Lemma evaluate_allow_iff_witness : authorized tables.1 tables.2 fetch (mk_usage 0 0) now EAllow.
Proof.
  apply (evaluate_allow_iff tables.1 tables.2 fetch (mk_usage 0 0) now sample_tables_wf).
  eexists. split; [vm_compute; reflexivity|reflexivity].
Defined.

Lemma evaluate_escalate_iff_witness : authorized tables.1 tables.2 publish (mk_usage 0 0) now EEscalate.
Proof.
  apply (evaluate_escalate_iff tables.1 tables.2 publish (mk_usage 0 0) now sample_tables_wf).
  eexists. split; [vm_compute; reflexivity|reflexivity].
Defined.

Lemma evaluate_total_witness : exists ev, evaluate seize tables.1 tables.2 (mk_usage 0 0) now = Ok ev.
Proof. apply (evaluate_total tables.1 tables.2 seize (mk_usage 0 0) now sample_tables_wf). Defined.

(** Another contract is added to the tables and nothing changes for [b]. *)
Lemma evaluate_confined_witness :
  evaluate fetch tables.1 tables.2 (mk_usage 0 0) now
  = evaluate fetch (tables.1 ++ [("other", mk_contract "other" "g" [] 1 None [] "1" EmptyString)]) tables.2 (mk_usage 0 0) now.
Proof.
  apply (evaluate_confined fetch "b"); [reflexivity|]. split; [reflexivity|]. split; [|reflexivity].
  intros id Hid. vm_compute in Hid. injection Hid as <-. vm_compute. reflexivity.
Defined.

Lemma reserved_always_denied_witness : exists ev,
  evaluate seize tables.1 tables.2 (mk_usage 0 0) now = Ok ev /\ ev_decision ev = DENY.
Proof.
  eexists. split; [vm_compute; reflexivity|].
  apply (reserved_always_denied tables.1 tables.2 seize (mk_usage 0 0) now "harness.stop");
    [reflexivity|reflexivity|vm_compute; reflexivity].
Defined.

Lemma evaluate_monotone_witness : exists ev,
  evaluate fetch tables.1 tables.2 (mk_usage 0 0) now = Ok ev /\ ev_decision ev = ALLOW.
Proof.
  apply (evaluate_monotone tables.1 tables.2 fetch (mk_usage 0 0) (mk_usage 4 1) now (now + 60000000) sample_tables_wf).
  - split; vm_compute; discriminate.
  - vm_compute. discriminate.
  - eexists. split; [vm_compute; reflexivity|reflexivity].
Defined.

Lemma hash_pins_policy_witness :
  (forall r agent action id bindings usage now,
     evaluate_contract r agent action id contract bindings usage now
     = evaluate_contract r agent action id reordered bindings usage now)
  \/ exists x y, sha256_collision x y.
Proof.
  apply (hash_pins_policy contract reordered (tc_content_hash contract));
    [apply Contract.Witnesses.sample_wf|apply Contract.Witnesses.reordered_wf|vm_compute; reflexivity|vm_compute; reflexivity].
Defined.
End Witnesses.
