(* ===== verification/State.v ===== *)
(** * Authority state: src/capgate/state.py

    Step and call counters, used grants, approvals, messages and revocations. [authority] is what a
    store promises to keep and [StateStore] the interface; [MemoryStateStore] and [SQLiteStateStore]
    implement it, and the laws of the class say that both refine [authority]. *)

From S2P Require Import Prelude PyVal.

(** ** The abstract state *)

Record authority := mk_authority {
  a_steps : gmap string Z;
  a_calls : gmap (string * string) Z;
  a_grants : gset string;
  a_approvals : dict (dict pyval);
  a_messages : gmap string (list (dict pyval));
  a_revoked : gset string;
}.

Definition empty_authority : authority := mk_authority ∅ ∅ ∅ [] ∅ ∅.

Definition counter {K} `{Countable K} (k : K) (m : gmap K Z) : Z := default 0 (m !! k).
Definition count {K} `{Countable K} (k : K) (m : gmap K Z) : gmap K Z := <[k := counter k m + 1]> m.

Definition auth_add_step (c : string) (a : authority) : authority :=
  mk_authority (count c (a_steps a)) (a_calls a) (a_grants a) (a_approvals a) (a_messages a) (a_revoked a).
Definition auth_add_call (ag act : string) (a : authority) : authority :=
  mk_authority (a_steps a) (count (ag, act) (a_calls a)) (a_grants a) (a_approvals a) (a_messages a) (a_revoked a).
Definition auth_claim (d : string) (a : authority) : authority :=
  mk_authority (a_steps a) (a_calls a) ({[d]} ∪ a_grants a) (a_approvals a) (a_messages a) (a_revoked a).
Definition auth_put_approval (i : string) (r : dict pyval) (a : authority) : authority :=
  mk_authority (a_steps a) (a_calls a) (a_grants a) (dset i r (a_approvals a)) (a_messages a) (a_revoked a).
Definition auth_push (to : string) (m : dict pyval) (a : authority) : authority :=
  mk_authority (a_steps a) (a_calls a) (a_grants a) (a_approvals a)
    (<[to := default [] (a_messages a !! to) ++ [m]]> (a_messages a)) (a_revoked a).
Definition auth_drain (to : string) (a : authority) : authority :=
  mk_authority (a_steps a) (a_calls a) (a_grants a) (a_approvals a) (delete to (a_messages a)) (a_revoked a).
Definition auth_revoke (t : string) (a : authority) : authority :=
  mk_authority (a_steps a) (a_calls a) (a_grants a) (a_approvals a) (a_messages a) ({[t]} ∪ a_revoked a).

(** [json.loads(json.dumps(v))]: tuples come back as lists, everything else in place. *)
Fixpoint json_copy (v : pyval) : pyval :=
  match v with
  | PList l | PTuple l => PList (map json_copy l)
  | PDict d => PDict (map (fun '(k, x) => (k, json_copy x)) d)
  | _ => v
  end.
Definition copy_dict (d : dict pyval) : dict pyval := map (fun '(k, x) => (k, json_copy x)) d.

Definition has_status (status : string) (r : dict pyval) : bool :=
  match dget "status" r with Some (PStr s) => String.eqb s status | _ => false end.

Lemma has_status_true status r : has_status status r = true <-> dget "status" r = Some (PStr status).
Proof.
  unfold has_status. split.
  - destruct (dget "status" r) as [[]|]; try done. by intros ->%String.eqb_eq.
  - intros ->. by apply String.eqb_eq.
Qed.

(** Text without the character NUL, which a database may refuse. *)
Definition no_nul (s : string) : bool :=
  forallb (fun c => negb (Ascii.eqb c Ascii.zero)) (String.list_ascii_of_string s).

(** ** The interface *)

Class StateStore (S : Type) := {
  store_wf : S -> Prop;
  view : S -> authority;
  rollback_point : S -> option authority;   (* what aborting the open transaction may return to *)
  tx_begin : S -> S;
  tx_commit : S -> S;
  tx_abort : S -> S;
  steps : string -> S -> Z;
  add_step : string -> S -> S;
  calls : string -> string -> S -> Z;
  add_call : string -> string -> S -> S;
  claim_grant : string -> Z -> S -> bool * S;
  put_approval : string -> dict pyval -> S -> S;
  get_approval : string -> S -> option (dict pyval);
  pending_records : S -> list (dict pyval);
  push_message : string -> dict pyval -> S -> S;
  drain_messages : string -> S -> list (dict pyval) * S;
  revoke : string -> Z -> S -> S;
  is_revoked : string -> S -> bool;
  stored : dict pyval -> dict pyval;        (* what reading a record or message back gives *)
  (* laws *)
  tx_begin_spec s : store_wf s -> store_wf (tx_begin s) /\ view (tx_begin s) = view s;
  tx_commit_spec s : store_wf s -> store_wf (tx_commit s) /\ view (tx_commit s) = view s;
  steps_spec s c : store_wf s -> steps c s = counter c (a_steps (view s));
  add_step_spec s c : store_wf s -> store_wf (add_step c s) /\ view (add_step c s) = auth_add_step c (view s);
  calls_spec s a x : store_wf s -> calls a x s = counter (a, x) (a_calls (view s));
  add_call_spec s a x : store_wf s -> store_wf (add_call a x s) /\ view (add_call a x s) = auth_add_call a x (view s);
  claim_grant_spec s d e : store_wf s ->
    (claim_grant d e s).1 = bool_decide (d ∉ a_grants (view s))
    /\ store_wf (claim_grant d e s).2 /\ view (claim_grant d e s).2 = auth_claim d (view s);
  put_approval_spec s i r : store_wf s -> dmem "status" r = true ->
    store_wf (put_approval i r s) /\ view (put_approval i r s) = auth_put_approval i (stored r) (view s);
  get_approval_spec s i : store_wf s -> get_approval i s = dget i (a_approvals (view s));
  pending_spec s : store_wf s ->
    pending_records s ≡ₚ List.filter (has_status "pending") (dvalues (a_approvals (view s)));
  push_message_spec s to m : store_wf s -> copy_dict m = m ->
    store_wf (push_message to m s) /\ view (push_message to m s) = auth_push to (stored m) (view s);
  drain_messages_spec s to : store_wf s ->
    (drain_messages to s).1 ≡ₚ default [] (a_messages (view s) !! to)
    /\ store_wf (drain_messages to s).2 /\ view (drain_messages to s).2 = auth_drain to (view s);
  revoke_spec s t e : store_wf s -> store_wf (revoke t e s) /\ view (revoke t e s) = auth_revoke t (view s);
  is_revoked_spec s t : store_wf s -> is_revoked t s = bool_decide (t ∈ a_revoked (view s));
  stored_mem r : dmem "status" (stored r) = dmem "status" r;
  stored_status status r : no_nul status = true -> has_status status (stored r) = has_status status r;
  tx_begin_rollback s : rollback_point (tx_begin s) = rollback_point s \/ rollback_point (tx_begin s) = Some (view s);
  tx_commit_rollback s : rollback_point (tx_commit s) = rollback_point s \/ rollback_point (tx_commit s) = None;
  tx_abort_spec s : store_wf s -> store_wf (tx_abort s)
    /\ (view (tx_abort s) = view s \/ rollback_point s = Some (view (tx_abort s)));
  tx_abort_rollback s : rollback_point (tx_abort s) = rollback_point s \/ rollback_point (tx_abort s) = None;
  add_step_rollback s c : rollback_point (add_step c s) = rollback_point s;
  add_call_rollback s a x : rollback_point (add_call a x s) = rollback_point s;
  claim_grant_rollback s d e : rollback_point (claim_grant d e s).2 = rollback_point s;
  put_approval_rollback s i r : rollback_point (put_approval i r s) = rollback_point s;
  push_message_rollback s to m : rollback_point (push_message to m s) = rollback_point s;
  drain_messages_rollback s to : rollback_point (drain_messages to s).2 = rollback_point s;
  revoke_rollback s t e : rollback_point (revoke t e s) = rollback_point s;
}.
#[global] Hint Mode StateStore ! : typeclass_instances.

(** What the in-memory and the SQLite store promise beyond that: records and messages come back as
    JSON copies, pending approvals in the order they were put, messages in the order they were pushed. *)
Class FaithfulStore (S : Type) `{StateStore S} : Prop := {
  stored_copy r : stored (S:=S) r = copy_dict r;
  pending_in_order (s : S) : store_wf s ->
    pending_records s = List.filter (has_status "pending") (dvalues (a_approvals (view s)));
  messages_in_order (s : S) to : store_wf s -> (drain_messages to s).1 = default [] (a_messages (view s) !! to);
}.

(** ** Lemmas on copies *)

Lemma json_copy_idem v : json_copy (json_copy v) = json_copy v.
Proof.
  induction v as [| | | | |l IH|l IH|d IH| | |] using pyval_rect_nested; simpl; try done; f_equal; rewrite map_map.
  - induction IH as [|x l Hx Hl IHl]; simpl; [done|]. by rewrite Hx, IHl.
  - induction IH as [|x l Hx Hl IHl]; simpl; [done|]. by rewrite Hx, IHl.
  - induction IH as [|[k x] d Hx Hd IHd]; simpl in *; [done|]. by rewrite Hx, IHd.
Qed.

Lemma copy_dict_idem d : copy_dict (copy_dict d) = copy_dict d.
Proof. pose proof (json_copy_idem (PDict d)) as Hd. simpl in Hd. by injection Hd. Qed.

Lemma dget_copy k d : dget k (copy_dict d) = json_copy <$> dget k d.
Proof. apply (dget_map json_copy). Qed.

Lemma dmem_copy k d : dmem k (copy_dict d) = dmem k d.
Proof. unfold dmem. rewrite dget_copy. by destruct (dget k d). Qed.

Lemma has_status_copy s d : has_status s (copy_dict d) = has_status s d.
Proof. unfold has_status. rewrite dget_copy. by destruct (dget "status" d) as [[]|]. Qed.

Lemma dset_map {V W} (f : V -> W) k v (d : dict V) :
  map (fun '(j, x) => (j, f x)) (dset k v d) = dset k (f v) (map (fun '(j, x) => (j, f x)) d).
Proof. induction d as [|[j x] d IH]; simpl; [done|]. destruct (String.eqb k j); simpl; by rewrite ?IH. Qed.

Lemma counter_count {K} `{Countable K} (k k' : K) m :
  counter k' (count k m) = counter k' m + (if decide (k' = k) then 1 else 0).
Proof.
  unfold count, counter at 1. case_decide as Hk; [subst; by rewrite lookup_insert_eq|].
  rewrite lookup_insert_ne by done. unfold counter. lia.
Qed.

(** ** MemoryStateStore: dictionaries, transactions without rollback *)

Record MemoryStateStore := mk_memory {
  ms_steps : gmap string Z;
  ms_calls : gmap (string * string) Z;
  ms_grants : gmap string Z;
  ms_approvals : dict (dict pyval);
  ms_messages : gmap string (list (dict pyval));
  ms_revoked : gmap string Z;
}.

Module Memory.

Definition init : MemoryStateStore := mk_memory ∅ ∅ ∅ [] ∅ ∅.

Definition steps (c : string) (s : MemoryStateStore) : Z := default 0 (ms_steps s !! c).
Definition add_step (c : string) (s : MemoryStateStore) : MemoryStateStore :=
  mk_memory (<[c := steps c s + 1]> (ms_steps s)) (ms_calls s) (ms_grants s) (ms_approvals s) (ms_messages s) (ms_revoked s).
Definition calls (a x : string) (s : MemoryStateStore) : Z := default 0 (ms_calls s !! (a, x)).
Definition add_call (a x : string) (s : MemoryStateStore) : MemoryStateStore :=
  mk_memory (ms_steps s) (<[(a, x) := calls a x s + 1]> (ms_calls s)) (ms_grants s) (ms_approvals s) (ms_messages s) (ms_revoked s).
Definition claim_grant (d : string) (e : Z) (s : MemoryStateStore) : bool * MemoryStateStore :=
  match ms_grants s !! d with
  | Some _ => (false, s)
  | None => (true, mk_memory (ms_steps s) (ms_calls s) (<[d := e]> (ms_grants s)) (ms_approvals s) (ms_messages s) (ms_revoked s))
  end.
Definition put_approval (i : string) (r : dict pyval) (s : MemoryStateStore) : MemoryStateStore :=
  mk_memory (ms_steps s) (ms_calls s) (ms_grants s) (dset i (copy_dict r) (ms_approvals s)) (ms_messages s) (ms_revoked s).
(** An empty record would read as absent. *)
Definition get_approval (i : string) (s : MemoryStateStore) : option (dict pyval) :=
  match dget i (ms_approvals s) with
  | Some [] | None => None
  | Some r => Some (copy_dict r)
  end.
Definition pending_records (s : MemoryStateStore) : list (dict pyval) :=
  map copy_dict (List.filter (has_status "pending") (dvalues (ms_approvals s))).
Definition push_message (to : string) (m : dict pyval) (s : MemoryStateStore) : MemoryStateStore :=
  mk_memory (ms_steps s) (ms_calls s) (ms_grants s) (ms_approvals s)
    (<[to := default [] (ms_messages s !! to) ++ [m]]> (ms_messages s)) (ms_revoked s).
Definition drain_messages (to : string) (s : MemoryStateStore) : list (dict pyval) * MemoryStateStore :=
  (default [] (ms_messages s !! to),
   mk_memory (ms_steps s) (ms_calls s) (ms_grants s) (ms_approvals s) (delete to (ms_messages s)) (ms_revoked s)).
Definition revoke (t : string) (e : Z) (s : MemoryStateStore) : MemoryStateStore :=
  mk_memory (ms_steps s) (ms_calls s) (ms_grants s) (ms_approvals s) (ms_messages s) (<[t := e]> (ms_revoked s)).
Definition is_revoked (t : string) (s : MemoryStateStore) : bool := bool_decide (is_Some (ms_revoked s !! t)).

Definition view (s : MemoryStateStore) : authority :=
  mk_authority (ms_steps s) (ms_calls s) (dom (ms_grants s)) (ms_approvals s) (ms_messages s) (dom (ms_revoked s)).

(** Approvals are stored as JSON copies and always have a status. *)
Definition wf (s : MemoryStateStore) : Prop :=
  forall i r, (i, r) ∈ ms_approvals s -> copy_dict r = r /\ dmem "status" r = true.

Lemma memory_wf_init : wf init.
Proof. intros i r Hin. by apply elem_of_nil in Hin. Qed.

Lemma memory_put_approval_refines s i r : wf s -> dmem "status" r = true ->
  wf (put_approval i r s) /\ view (put_approval i r s) = auth_put_approval i (copy_dict r) (view s).
Proof.
  intros Hwf Hst. split; [|done]. intros j q Hin. simpl in Hin.
  apply dset_in in Hin as [Hin|[-> ->]]; [by apply (Hwf j)|]. by rewrite copy_dict_idem, dmem_copy.
Qed.

Lemma memory_get_approval_refines s i : wf s -> get_approval i s = dget i (a_approvals (view s)).
Proof.
  intros Hwf. unfold get_approval. simpl. destruct (dget i (ms_approvals s)) as [r|] eqn:E; [|done].
  apply dget_Some_in, Hwf in E as [Hc Hs]. destruct r; [done|]. by rewrite Hc.
Qed.

Lemma memory_pending_refines s : wf s ->
  pending_records s = List.filter (has_status "pending") (dvalues (a_approvals (view s))).
Proof.
  intros Hwf. unfold pending_records. simpl. unfold wf in Hwf.
  induction (ms_approvals s) as [|[i r] d IH]; simpl; [done|].
  destruct (Hwf i r) as [Hc _]; [by apply elem_of_cons; left|].
  assert (forall i r, (i, r) ∈ d -> copy_dict r = r /\ dmem "status" r = true) as Hd
    by (intros j q Hin; apply (Hwf j); by apply elem_of_cons; right).
  unfold dvalues in *. destruct (has_status "pending" r); simpl; by rewrite ?Hc, IH.
Qed.

#[global] Instance store : StateStore MemoryStateStore.
Proof.
  refine {| State.store_wf := wf; State.view := view; State.rollback_point _ := None; State.tx_begin := id; State.tx_commit := id; State.tx_abort := id;
    State.steps := steps; State.add_step := add_step; State.calls := calls; State.add_call := add_call;
    State.claim_grant := claim_grant; State.put_approval := put_approval; State.get_approval := get_approval;
    State.pending_records := pending_records; State.push_message := push_message;
    State.drain_messages := drain_messages; State.revoke := revoke; State.is_revoked := is_revoked; State.stored := copy_dict |}.
  - done.
  - done.
  - done.
  - done.
  - done.
  - done.
  - intros s d e Hwf. unfold claim_grant. destruct (ms_grants s !! d) as [x|] eqn:E; simpl.
    + assert (d ∈ dom (ms_grants s)) as Hd by (by apply elem_of_dom_2 in E).
      rewrite bool_decide_eq_false_2 by tauto. split_and!; [done..|]. unfold auth_claim, view. simpl.
      f_equal. set_solver.
    + assert (d ∉ dom (ms_grants s)) as Hd by (by apply not_elem_of_dom).
      rewrite bool_decide_eq_true_2 by done. split_and!; [done..|]. unfold auth_claim, view. simpl.
      by rewrite dom_insert_L.
  - apply memory_put_approval_refines.
  - apply memory_get_approval_refines.
  - intros s Hwf. by rewrite memory_pending_refines.
  - intros s to m Hwf Hm. by rewrite Hm.
  - done.
  - intros s t e Hwf. split; [done|]. unfold auth_revoke, view. simpl. by rewrite dom_insert_L.
  - intros s t Hwf. unfold is_revoked. simpl. apply bool_decide_ext. by rewrite elem_of_dom.
  - intros r. apply dmem_copy.
  - intros st r _. apply has_status_copy.
  - by left.
  - by left.
  - intros s Hwf. split; [done|by left].
  - by left.
  - done.
  - done.
  - done.
  - done.
  - done.
  - done.
  - done.
Defined.

#[global] Instance faithful : FaithfulStore MemoryStateStore.
Proof. split; [done|apply memory_pending_refines|done]. Qed.
End Memory.

(** ** SQLiteStateStore: tables, nested transactions, rollback of the outermost one

    A JSON text column is modelled by the value that reading it back gives. *)

Record tables := mk_tables {
  t_steps : gmap string Z;
  t_calls : gmap (string * string) Z;
  t_grants : gmap string Z;
  t_approvals : dict (pyval * dict pyval);            (* status, record; in rowid order *)
  t_messages : list (Z * string * dict pyval);        (* seq, recipient, message *)
  t_next_seq : Z;                                     (* AUTOINCREMENT *)
  t_revoked : gmap string Z;
}.

Record SQLiteStateStore := mk_sqlite {
  sq_tables : tables;
  sq_saved : tables;          (* what ROLLBACK restores; meaningful while a transaction is open *)
  sq_depth : nat;
}.

Module SQLite.

Definition init : SQLiteStateStore :=
  let t := mk_tables ∅ ∅ ∅ [] [] 1 ∅ in mk_sqlite t t 0.

Definition on_tables (f : tables -> tables) (s : SQLiteStateStore) : SQLiteStateStore :=
  mk_sqlite (f (sq_tables s)) (sq_saved s) (sq_depth s).

Definition tx_begin (s : SQLiteStateStore) : SQLiteStateStore :=
  mk_sqlite (sq_tables s) (if (sq_depth s =? 0)%nat then sq_tables s else sq_saved s) (S (sq_depth s)).
Definition tx_commit (s : SQLiteStateStore) : SQLiteStateStore :=
  mk_sqlite (sq_tables s) (sq_saved s) (pred (sq_depth s)).
Definition tx_abort (s : SQLiteStateStore) : SQLiteStateStore :=
  mk_sqlite (if (sq_depth s =? 1)%nat then sq_saved s else sq_tables s) (sq_saved s) (pred (sq_depth s)).

(** [with self.transaction(): ...] around one statement that does not raise. *)
Definition in_tx (f : tables -> tables) (s : SQLiteStateStore) : SQLiteStateStore :=
  tx_commit (on_tables f (tx_begin s)).

Definition steps (c : string) (s : SQLiteStateStore) : Z := default 0 (t_steps (sq_tables s) !! c).
Definition add_step (c : string) : SQLiteStateStore -> SQLiteStateStore :=
  in_tx (fun t => mk_tables (match t_steps t !! c with
                             | None => <[c := 1]> (t_steps t)
                             | Some n => <[c := n + 1]> (t_steps t)
                             end)
                    (t_calls t) (t_grants t) (t_approvals t) (t_messages t) (t_next_seq t) (t_revoked t)).
Definition calls (a x : string) (s : SQLiteStateStore) : Z := default 0 (t_calls (sq_tables s) !! (a, x)).
Definition add_call (a x : string) : SQLiteStateStore -> SQLiteStateStore :=
  in_tx (fun t => mk_tables (t_steps t)
                    (match t_calls t !! (a, x) with
                     | None => <[(a, x) := 1]> (t_calls t)
                     | Some n => <[(a, x) := n + 1]> (t_calls t)
                     end)
                    (t_grants t) (t_approvals t) (t_messages t) (t_next_seq t) (t_revoked t)).
(** The IntegrityError of a present key is caught inside the transaction. *)
Definition claim_grant (d : string) (e : Z) (s : SQLiteStateStore) : bool * SQLiteStateStore :=
  match t_grants (sq_tables s) !! d with
  | Some _ => (false, in_tx id s)
  | None => (true, in_tx (fun t => mk_tables (t_steps t) (t_calls t) (<[d := e]> (t_grants t)) (t_approvals t)
                                     (t_messages t) (t_next_seq t) (t_revoked t)) s)
  end.
Definition put_approval (i : string) (r : dict pyval) : SQLiteStateStore -> SQLiteStateStore :=
  in_tx (fun t => mk_tables (t_steps t) (t_calls t) (t_grants t)
                    (dset i (pget "status" r, copy_dict r) (t_approvals t))
                    (t_messages t) (t_next_seq t) (t_revoked t)).
Definition get_approval (i : string) (s : SQLiteStateStore) : option (dict pyval) :=
  snd <$> dget i (t_approvals (sq_tables s)).
Definition row_pending (row : pyval * dict pyval) : bool :=
  match row.1 with PStr s => String.eqb s "pending" | _ => false end.
Definition pending_records (s : SQLiteStateStore) : list (dict pyval) :=
  map snd (List.filter row_pending (dvalues (t_approvals (sq_tables s)))).
Definition push_message (to : string) (m : dict pyval) : SQLiteStateStore -> SQLiteStateStore :=
  in_tx (fun t => mk_tables (t_steps t) (t_calls t) (t_grants t) (t_approvals t)
                    (t_messages t ++ [(t_next_seq t, to, copy_dict m)]) (t_next_seq t + 1) (t_revoked t)).
Definition for_recipient (to : string) (row : Z * string * dict pyval) : bool := String.eqb row.1.2 to.
Definition last_seq (rows : list (Z * string * dict pyval)) : Z := match last rows with Some r => r.1.1 | None => -1 end.
Definition drain_messages (to : string) (s : SQLiteStateStore) : list (dict pyval) * SQLiteStateStore :=
  let rows := List.filter (for_recipient to) (t_messages (sq_tables s)) in
  (map snd rows,
   in_tx (fun t => mk_tables (t_steps t) (t_calls t) (t_grants t) (t_approvals t)
                     (List.filter (fun row => negb (for_recipient to row && (row.1.1 <=? last_seq rows))) (t_messages t))
                     (t_next_seq t) (t_revoked t)) s).
(** ON CONFLICT DO NOTHING *)
Definition revoke (k : string) (e : Z) : SQLiteStateStore -> SQLiteStateStore :=
  in_tx (fun t => mk_tables (t_steps t) (t_calls t) (t_grants t) (t_approvals t) (t_messages t) (t_next_seq t)
                    (match t_revoked t !! k with Some _ => t_revoked t | None => <[k := e]> (t_revoked t) end)).
Definition is_revoked (k : string) (s : SQLiteStateStore) : bool := bool_decide (is_Some (t_revoked (sq_tables s) !! k)).

(** [prune]: rows that expired more than an hour ago are dropped. *)
Definition prune (now : Z) : SQLiteStateStore -> SQLiteStateStore :=
  in_tx (fun t => mk_tables (t_steps t) (t_calls t)
                    (filter (fun kv => ~ (kv.2 < now - seconds 3600)) (t_grants t))
                    (t_approvals t) (t_messages t) (t_next_seq t)
                    (filter (fun kv => ~ (kv.2 < now - seconds 3600)) (t_revoked t))).

(** A process that ends and one that opens the file after it: the schema is there already, an open
    transaction was rolled back, everything else is kept. *)
Definition reopen (s : SQLiteStateStore) : SQLiteStateStore :=
  let t := if (sq_depth s =? 0)%nat then sq_tables s else sq_saved s in mk_sqlite t t 0.

(** *** Refinement *)

Definition group (rows : list (Z * string * dict pyval)) : gmap string (list (dict pyval)) :=
  foldl (fun m row => <[row.1.2 := default [] (m !! row.1.2) ++ [row.2]]> m) ∅ rows.

Definition tables_view (t : tables) : authority :=
  mk_authority (t_steps t) (t_calls t) (dom (t_grants t)) (map (fun '(i, row) => (i, snd row)) (t_approvals t))
    (group (t_messages t)) (dom (t_revoked t)).

Record tables_wf (t : tables) : Prop := {
  tw_approvals i row : (i, row) ∈ t_approvals t -> row_pending row = has_status "pending" row.2;
  tw_sorted : StronglySorted (fun r q => r.1.1 <= q.1.1) (t_messages t);
  tw_seq r : r ∈ t_messages t -> 0 <= r.1.1 < t_next_seq t;
}.

(** While a transaction is open, the tables it started from are well formed too. *)
Definition wf (s : SQLiteStateStore) : Prop :=
  (tables_wf (sq_tables s) /\ 0 <= t_next_seq (sq_tables s))
  /\ (sq_depth s <> O -> tables_wf (sq_saved s) /\ 0 <= t_next_seq (sq_saved s)).
Definition view (s : SQLiteStateStore) : authority := tables_view (sq_tables s).
Definition rollback_point (s : SQLiteStateStore) : option authority :=
  if (sq_depth s =? 0)%nat then None else Some (tables_view (sq_saved s)).

Lemma group_snoc rows row :
  group (rows ++ [row]) = <[row.1.2 := default [] (group rows !! row.1.2) ++ [row.2]]> (group rows).
Proof. unfold group. by rewrite foldl_app. Qed.

Lemma filter_app_list {A} (p : A -> bool) l l' : List.filter p (l ++ l') = List.filter p l ++ List.filter p l'.
Proof. apply List.filter_app. Qed.

(** The messages of a recipient, in the order they were pushed. *)
Lemma group_lookup rows to :
  group rows !! to = match List.filter (for_recipient to) rows with [] => None | l => Some (map snd l) end.
Proof.
  induction rows as [|row rows IH] using rev_ind; [done|].
  rewrite group_snoc, filter_app_list. simpl. unfold for_recipient at 2.
  destruct (String.eqb_spec row.1.2 to) as [Hto|Hne].
  - subst to. rewrite lookup_insert_eq, IH.
    destruct (List.filter _ rows) as [|x l]; [done|]. simpl. by rewrite map_app.
  - rewrite lookup_insert_ne by done. rewrite IH. by rewrite app_nil_r.
Qed.

Lemma last_seq_bound to rows row : StronglySorted (fun r q => r.1.1 <= q.1.1) rows ->
  row ∈ rows -> for_recipient to row = true -> row.1.1 <= last_seq (List.filter (for_recipient to) rows).
Proof.
  intros Hs. induction Hs as [|x rows Hs IH Hx]; intros Hin Hto; [by apply elem_of_nil in Hin|].
  assert (forall q l, last_seq (q :: l) = match l with [] => q.1.1 | _ => last_seq l end) as Hlast
    by (intros q [|z l]; done).
  simpl. apply elem_of_cons in Hin as [->|Hin].
  - rewrite Hto, Hlast. destruct (List.filter (for_recipient to) rows) as [|y l] eqn:E; [lia|].
    unfold last_seq. destruct (last (y :: l)) as [z|] eqn:El.
    + assert (z ∈ rows) as Hz.
      { apply list_elem_of_In, (filter_In (for_recipient to)). rewrite E. apply list_elem_of_In.
        apply last_Some in El as [l' ->]. set_solver. }
      rewrite Forall_forall in Hx. by apply Hx.
    + by apply last_None in El.
  - specialize (IH Hin Hto). destruct (for_recipient to x); [|done]. rewrite Hlast.
    destruct (List.filter (for_recipient to) rows) eqn:E; [|done].
    assert (row ∈ List.filter (for_recipient to) rows) as Hf by (apply list_elem_of_In, filter_In; by rewrite <- list_elem_of_In).
    rewrite E in Hf. by apply elem_of_nil in Hf.
Qed.

Lemma drained rows to : StronglySorted (fun r q => r.1.1 <= q.1.1) rows ->
  List.filter (fun row => negb (for_recipient to row && (row.1.1 <=? last_seq (List.filter (for_recipient to) rows)))) rows
  = List.filter (fun row => negb (for_recipient to row)) rows.
Proof.
  intros Hs. apply filter_ext_in. intros row Hin%list_elem_of_In.
  destruct (for_recipient to row) eqn:E; [|done]. simpl.
  pose proof (last_seq_bound to rows row Hs Hin E). apply negb_false_iff. by apply Z.leb_le.
Qed.

Lemma group_delete rows to : group (List.filter (fun row => negb (for_recipient to row)) rows) = delete to (group rows).
Proof.
  apply map_eq. intros k. rewrite lookup_delete. rewrite !group_lookup.
  assert (List.filter (for_recipient k) (List.filter (fun row => negb (for_recipient to row)) rows)
    = if decide (to = k) then [] else List.filter (for_recipient k) rows) as ->; [|by case_decide].
  induction rows as [|row rows IH]; simpl; [by case_decide|].
  assert (for_recipient k row = true -> for_recipient to row = bool_decide (to = k)) as Hrow.
  { unfold for_recipient. intros <-%String.eqb_eq. rewrite String.eqb_sym. apply eq_true_iff_eq.
    by rewrite String.eqb_eq, bool_decide_eq_true. }
  destruct (for_recipient k row) eqn:Hk.
  - rewrite Hrow by done. case_bool_decide; simpl; rewrite ?Hk, IH; by case_decide.
  - destruct (for_recipient to row); simpl; rewrite ?Hk, IH; by case_decide.
Qed.

Lemma in_tx_tables f s : sq_tables (in_tx f s) = f (sq_tables s).
Proof. done. Qed.

Lemma in_tx_refines f g s :
  (tables_wf (sq_tables s) -> 0 <= t_next_seq (sq_tables s) ->
     tables_wf (f (sq_tables s)) /\ 0 <= t_next_seq (f (sq_tables s))
     /\ tables_view (f (sq_tables s)) = g (tables_view (sq_tables s))) ->
  wf s -> wf (in_tx f s) /\ view (in_tx f s) = g (view s).
Proof.
  intros Hf [[Hw Hn] Hs]. destruct (Hf Hw Hn) as (Hw' & Hn' & Hv). split; [|exact Hv]. split; [by split|].
  simpl. by destruct (sq_depth s).
Qed.

Lemma in_tx_rollback f s : rollback_point (in_tx f s) = rollback_point s.
Proof. unfold rollback_point. simpl. by destruct (sq_depth s). Qed.

Lemma begin_refines s : wf s -> wf (tx_begin s) /\ view (tx_begin s) = view s.
Proof. intros [Hw Hs]. split; [|done]. split; [done|]. intros _. simpl. by destruct (sq_depth s); [|apply Hs]. Qed.

Lemma commit_refines s : wf s -> wf (tx_commit s) /\ view (tx_commit s) = view s.
Proof. intros [Hw Hs]. split; [|done]. split; [done|]. simpl. destruct (sq_depth s); [done|]. intros _. by apply Hs. Qed.

Lemma abort_refines s : wf s -> wf (tx_abort s)
  /\ (view (tx_abort s) = view s \/ rollback_point s = Some (view (tx_abort s))).
Proof.
  intros [Hw Hs]. unfold view, rollback_point, wf. simpl. destruct (sq_depth s) as [|[|n]]; simpl.
  - split; [|by left]. by split.
  - split; [|by right]. split; [by apply Hs|done].
  - split; [|by left]. split; [done|]. intros _. by apply Hs.
Qed.

(** Statements that leave approvals and messages alone keep the tables well formed. *)
Lemma tables_wf_frame t t' : t_approvals t' = t_approvals t -> t_messages t' = t_messages t ->
  t_next_seq t' = t_next_seq t -> tables_wf t -> tables_wf t'.
Proof. intros Ha Hm Hn [Ht1 Ht2 Ht3]. split; rewrite ?Ha, ?Hm, ?Hn; done. Qed.

Lemma add_step_refines s c : wf s -> wf (add_step c s) /\ view (add_step c s) = auth_add_step c (view s).
Proof.
  apply in_tx_refines. intros Hw Hn. split_and!; [by apply (tables_wf_frame (sq_tables s))|done|].
  unfold tables_view, auth_add_step, count, counter. simpl. f_equal.
  destruct (t_steps (sq_tables s) !! c); done.
Qed.

Lemma add_call_refines s a x : wf s -> wf (add_call a x s) /\ view (add_call a x s) = auth_add_call a x (view s).
Proof.
  apply in_tx_refines. intros Hw Hn. split_and!; [by apply (tables_wf_frame (sq_tables s))|done|].
  unfold tables_view, auth_add_call, count, counter. simpl. f_equal.
  destruct (t_calls (sq_tables s) !! (a, x)); done.
Qed.

Lemma claim_grant_refines s d e : wf s ->
  (claim_grant d e s).1 = bool_decide (d ∉ a_grants (view s))
  /\ wf (claim_grant d e s).2 /\ view (claim_grant d e s).2 = auth_claim d (view s).
Proof.
  intros Hwf. unfold claim_grant. change (a_grants (view s)) with (dom (t_grants (sq_tables s))).
  destruct (t_grants (sq_tables s) !! d) as [y|] eqn:E; cbn [fst snd].
  - assert (d ∈ dom (t_grants (sq_tables s))) as Hd by (by apply elem_of_dom_2 in E).
    rewrite bool_decide_eq_false_2 by tauto. split; [done|]. apply in_tx_refines; [|done]. intros Hw Hn.
    split_and!; [done..|]. unfold auth_claim, tables_view. simpl. f_equal. set_solver.
  - assert (d ∉ dom (t_grants (sq_tables s))) as Hd by (by apply not_elem_of_dom).
    rewrite bool_decide_eq_true_2 by done. split; [done|]. apply in_tx_refines; [|done]. intros Hw Hn.
    split_and!; [by apply (tables_wf_frame (sq_tables s))|done|]. unfold auth_claim, tables_view. simpl. by rewrite dom_insert_L.
Qed.

Lemma put_approval_refines s i r : wf s -> dmem "status" r = true ->
  wf (put_approval i r s) /\ view (put_approval i r s) = auth_put_approval i (copy_dict r) (view s).
Proof.
  intros Hwf Hst. revert Hwf. apply in_tx_refines. intros [Ha Hs Hseq] Hn. split_and!; [|done|].
  - split; simpl; [|done..]. intros j row Hin. apply dset_in in Hin as [Hin|[-> ->]]; [by eapply Ha|].
    simpl. rewrite has_status_copy. unfold row_pending, has_status, pget. simpl. by destruct (dget "status" r).
  - unfold tables_view, auth_put_approval. simpl. f_equal. by rewrite (dset_map snd).
Qed.

Lemma get_approval_refines s i : get_approval i s = dget i (a_approvals (view s)).
Proof. unfold get_approval, view, tables_view. simpl. by rewrite (dget_map snd). Qed.

Lemma pending_refines s : wf s ->
  pending_records s = List.filter (has_status "pending") (dvalues (a_approvals (view s))).
Proof.
  intros [[[Ha _ _] _] _]. unfold pending_records, view, tables_view, dvalues. simpl. revert Ha.
  induction (t_approvals (sq_tables s)) as [|[i row] d IH]; intros Ha; simpl; [done|].
  rewrite (Ha i row) by (by apply elem_of_cons; left).
  assert (forall i row, (i, row) ∈ d -> row_pending row = has_status "pending" row.2) as Hd
    by (intros j q Hin; apply (Ha j); by apply elem_of_cons; right).
  destruct (has_status "pending" row.2); simpl; by rewrite IH.
Qed.

Lemma push_message_refines s to m : wf s -> copy_dict m = m ->
  wf (push_message to m s) /\ view (push_message to m s) = auth_push to m (view s).
Proof.
  intros Hwf Hm. revert Hwf. apply in_tx_refines. intros [Ha Hs Hseq] Hn. split_and!; [|simpl; lia|].
  - split; simpl; [done| |].
    + apply StronglySorted_app. split_and!; [|done|repeat constructor].
      intros r q Hr ->%list_elem_of_singleton. apply Hseq in Hr. simpl. lia.
    + intros r [Hr| ->%list_elem_of_singleton]%elem_of_app; [apply Hseq in Hr; lia|simpl; lia].
  - unfold tables_view, auth_push. simpl. f_equal. rewrite group_snoc. simpl. by rewrite Hm.
Qed.

Lemma drain_messages_refines s to : wf s ->
  (drain_messages to s).1 = default [] (a_messages (view s) !! to)
  /\ wf (drain_messages to s).2 /\ view (drain_messages to s).2 = auth_drain to (view s).
Proof.
  intros Hwf. split.
  - unfold drain_messages, view, tables_view. simpl. rewrite group_lookup. by destruct (List.filter _ _).
  - unfold drain_messages. cbn [snd]. revert Hwf. apply in_tx_refines. intros [Ha Hs Hseq] Hn.
    rewrite drained by done. split_and!; [|done|].
    + split; simpl; [done| |].
      * induction Hs as [|x l Hs IH Hx]; simpl; [constructor|].
        assert (forall r, r ∈ l -> 0 <= r.1.1 < t_next_seq (sq_tables s)) as Hl by (intros r Hr; apply Hseq; by apply elem_of_cons; right).
        destruct (negb _); [|by apply IH]. constructor; [by apply IH|].
        apply Forall_forall. intros q Hq%list_elem_of_In%filter_In. rewrite Forall_forall in Hx. apply Hx.
        apply list_elem_of_In. tauto.
      * intros r Hr%list_elem_of_In%filter_In. apply Hseq, list_elem_of_In. tauto.
    + unfold tables_view, auth_drain. simpl. f_equal. apply group_delete.
Qed.

Lemma revoke_refines s k e : wf s -> wf (revoke k e s) /\ view (revoke k e s) = auth_revoke k (view s).
Proof.
  apply in_tx_refines. intros Hw Hn. split_and!; [by apply (tables_wf_frame (sq_tables s))|done|].
  unfold tables_view, auth_revoke. simpl. f_equal.
  destruct (t_revoked (sq_tables s) !! k) as [y|] eqn:E; [|by rewrite dom_insert_L].
  apply elem_of_dom_2 in E. set_solver.
Qed.

#[global] Instance store : StateStore SQLiteStateStore.
Proof.
  refine {| State.store_wf := wf; State.view := view; State.tx_begin := tx_begin; State.tx_commit := tx_commit;
    State.tx_abort := tx_abort; State.rollback_point := rollback_point;
    State.steps := steps; State.add_step := add_step; State.calls := calls; State.add_call := add_call;
    State.claim_grant := claim_grant; State.put_approval := put_approval; State.get_approval := get_approval;
    State.pending_records := pending_records; State.push_message := push_message;
    State.drain_messages := drain_messages; State.revoke := revoke; State.is_revoked := is_revoked; State.stored := copy_dict |}.
  - apply begin_refines.
  - apply commit_refines.
  - done.
  - apply add_step_refines.
  - done.
  - apply add_call_refines.
  - intros s d e. apply claim_grant_refines.
  - apply put_approval_refines.
  - intros s i _. apply get_approval_refines.
  - intros s Hwf. by rewrite pending_refines.
  - intros s to m Hwf Hm. rewrite Hm. by apply push_message_refines.
  - intros s to Hwf. destruct (drain_messages_refines s to Hwf) as [-> Hd]. by split.
  - intros s k e. apply revoke_refines.
  - intros s k _. unfold is_revoked, view, tables_view. simpl. apply bool_decide_ext. by rewrite elem_of_dom.
  - intros r. apply dmem_copy.
  - intros st r _. apply has_status_copy.
  - intros s. unfold rollback_point. simpl. destruct (sq_depth s); [by right|by left].
  - intros s. unfold rollback_point. simpl. destruct (sq_depth s) as [|[|n]]; simpl; auto.
  - apply abort_refines.
  - intros s. unfold rollback_point. simpl. destruct (sq_depth s) as [|[|n]]; simpl; auto.
  - intros s c. apply in_tx_rollback.
  - intros s a x. apply in_tx_rollback.
  - intros s d e. unfold claim_grant. destruct (_ !! d); apply in_tx_rollback.
  - intros s i r. apply in_tx_rollback.
  - intros s to m. apply in_tx_rollback.
  - intros s to. apply in_tx_rollback.
  - intros s k e. apply in_tx_rollback.
Defined.

#[global] Instance faithful : FaithfulStore SQLiteStateStore.
Proof. split; [done|apply pending_refines|intros s to Hwf; by apply drain_messages_refines]. Qed.

Lemma wf_init : wf init.
Proof.
  split; [|done]. split; [|simpl; lia]. split; simpl; try (intros; set_solver). constructor.
Qed.
End SQLite.

(** ** Stores that roll back

    [saved s] is the state the open outermost transaction started from. *)

Class TransactionalStore (S : Type) `{StateStore S} := {
  depth : S -> nat;
  saved : S -> authority;
  begin_outer s : depth s = O -> saved (tx_begin s) = view s;
  begin_depth s : depth (tx_begin s) = Datatypes.S (depth s);
  begin_inner s : depth s <> O -> saved (tx_begin s) = saved s;
  commit_depth s : depth (tx_commit s) = pred (depth s) /\ saved (tx_commit s) = saved s;
  abort_depth s : depth (tx_abort s) = pred (depth s) /\ saved (tx_abort s) = saved s;
  abort_outer s : depth s = 1%nat -> view (tx_abort s) = saved s;
  add_step_saved s c : depth s <> O -> depth (add_step c s) = depth s /\ saved (add_step c s) = saved s;
  add_call_saved s a x : depth s <> O -> depth (add_call a x s) = depth s /\ saved (add_call a x s) = saved s;
  put_approval_saved s i r : depth s <> O ->
    depth (put_approval i r s) = depth s /\ saved (put_approval i r s) = saved s;
}.

#[export] Instance SQLite_transactional : TransactionalStore SQLiteStateStore.
Proof.
  assert (forall f s, sq_depth s <> O -> sq_depth (SQLite.in_tx f s) = sq_depth s
    /\ SQLite.tables_view (sq_saved (SQLite.in_tx f s)) = SQLite.tables_view (sq_saved s)) as Htx.
  { intros f s Hs. simpl. destruct (sq_depth s); done. }
  refine {| depth := sq_depth; saved s := SQLite.tables_view (sq_saved s) |}.
  - intros s Hs. simpl. by rewrite Hs.
  - done.
  - intros s Hs. simpl. by destruct (sq_depth s).
  - done.
  - done.
  - intros s Hs. unfold view. simpl. unfold SQLite.view. simpl. by rewrite Hs.
  - intros s c. apply Htx.
  - intros s a x. apply Htx.
  - intros s i r. apply Htx.
Defined.

(** ** Sequences of operations

    Whatever a client does with a store, it sees what [authority] determines. *)

Inductive op :=
| OpSteps (c : string)
| OpAddStep (c : string)
| OpCalls (a x : string)
| OpAddCall (a x : string)
| OpClaim (d : string) (e : Z)
| OpPut (i : string) (r : dict pyval)
| OpGet (i : string)
| OpPending
| OpPush (to : string) (m : dict pyval)
| OpDrain (to : string)
| OpRevoke (t : string) (e : Z)
| OpIsRevoked (t : string).

Inductive answer :=
| AUnit
| AInt (z : Z)
| ABool (b : bool)
| ARecord (r : option (dict pyval))
| ARecords (l : list (dict pyval)).

(** Answers are compared up to the order of listed records. *)
Variant answer_equiv : Equiv answer :=
| answer_same x : answer_equiv x x
| answer_records l l' : l ≡ₚ l' -> answer_equiv (ARecords l) (ARecords l').
#[export] Existing Instance answer_equiv.

#[export] Instance answer_equivalence : Equivalence (≡@{answer}).
Proof.
  split.
  - intros x. apply answer_same.
  - intros x y []; by constructor.
  - intros x y z [] Hz; [done|]. inversion Hz; subst; constructor; [done|]. by etrans.
Qed.

#[export] Instance ARecords_proper : Proper ((≡ₚ) ==> (≡)) ARecords.
Proof. intros l l' Hl. by apply answer_records. Qed.

(** Records have a status and messages are JSON data, as the program's are. *)
Definition op_ok (o : op) : Prop :=
  match o with
  | OpPut _ r => dmem "status" r = true
  | OpPush _ m => copy_dict m = m
  | _ => True
  end.

Section runs.
Context {S : Type} `{StateStore S}.

Definition run_op (o : op) (s : S) : answer * S :=
  match o with
  | OpSteps c => (AInt (steps c s), s)
  | OpAddStep c => (AUnit, add_step c s)
  | OpCalls a x => (AInt (calls a x s), s)
  | OpAddCall a x => (AUnit, add_call a x s)
  | OpClaim d e => let '(b, s') := claim_grant d e s in (ABool b, s')
  | OpPut i r => (AUnit, put_approval i r s)
  | OpGet i => (ARecord (get_approval i s), s)
  | OpPending => (ARecords (pending_records s), s)
  | OpPush to m => (AUnit, push_message to m s)
  | OpDrain to => let '(l, s') := drain_messages to s in (ARecords l, s')
  | OpRevoke t e => (AUnit, revoke t e s)
  | OpIsRevoked t => (ABool (is_revoked t s), s)
  end.

Fixpoint run (os : list op) (s : S) : list answer * S :=
  match os with
  | [] => ([], s)
  | o :: os' => let '(a, s1) := run_op o s in let '(l, s2) := run os' s1 in (a :: l, s2)
  end.

(** The answer and the next abstract state; [keep] is what the store gives back of a record. *)
Definition auth_op (keep : dict pyval -> dict pyval) (o : op) (a : authority) : answer * authority :=
  match o with
  | OpSteps c => (AInt (counter c (a_steps a)), a)
  | OpAddStep c => (AUnit, auth_add_step c a)
  | OpCalls x y => (AInt (counter (x, y) (a_calls a)), a)
  | OpAddCall x y => (AUnit, auth_add_call x y a)
  | OpClaim d _ => (ABool (bool_decide (d ∉ a_grants a)), auth_claim d a)
  | OpPut i r => (AUnit, auth_put_approval i (keep r) a)
  | OpGet i => (ARecord (dget i (a_approvals a)), a)
  | OpPending => (ARecords (List.filter (has_status "pending") (dvalues (a_approvals a))), a)
  | OpPush to m => (AUnit, auth_push to (keep m) a)
  | OpDrain to => (ARecords (default [] (a_messages a !! to)), auth_drain to a)
  | OpRevoke t _ => (AUnit, auth_revoke t a)
  | OpIsRevoked t => (ABool (bool_decide (t ∈ a_revoked a)), a)
  end.

(** Every store answers as the abstract state does, up to the order of the records it lists. *)
Lemma run_op_refines o s : store_wf s -> op_ok o ->
  (run_op o s).1 ≡ (auth_op (stored (S:=S)) o (view s)).1 /\ store_wf (run_op o s).2
  /\ view (run_op o s).2 = (auth_op (stored (S:=S)) o (view s)).2.
Proof.
  intros Hwf Hok. destruct o as [c|c|a x|a x|d e|i r|i| |to m|to|t e|t]; simpl in *.
  - by rewrite steps_spec.
  - by split; [|apply add_step_spec].
  - by rewrite calls_spec.
  - by split; [|apply add_call_spec].
  - pose proof (claim_grant_spec s d e Hwf) as (Hb & Hw & Hv). destruct (claim_grant d e s). simpl in *. by rewrite Hb.
  - by split; [|apply put_approval_spec].
  - by rewrite get_approval_spec.
  - by rewrite pending_spec.
  - by split; [|apply push_message_spec].
  - pose proof (drain_messages_spec s to Hwf) as (Hl & Hw & Hv). destruct (drain_messages to s). simpl in *. by rewrite Hl.
  - by split; [|apply revoke_spec].
  - by rewrite is_revoked_spec.
Qed.

(** A faithful store answers in the order of the abstract state as well. *)
Lemma run_op_faithful `{!FaithfulStore S} o s : store_wf s -> op_ok o ->
  run_op o s = ((auth_op copy_dict o (view s)).1, (run_op o s).2)
  /\ store_wf (run_op o s).2 /\ view (run_op o s).2 = (auth_op copy_dict o (view s)).2.
Proof.
  intros Hwf Hok. destruct (run_op_refines o s Hwf Hok) as (Ha & Hw & Hv). split_and!; [|done|].
  - destruct o as [c|c|a x|a x|d e|i r|i| |to m|to|t e|t]; simpl in *; try (by inversion Ha).
    + destruct (claim_grant d e s). simpl in *. by inversion Ha.
    + by rewrite pending_in_order.
    + pose proof (messages_in_order s to Hwf) as Hm. destruct (drain_messages to s). simpl in *. by rewrite Hm.
  - rewrite Hv. destruct o; simpl; by rewrite ?stored_copy.
Qed.

Lemma run_claimed os s d : store_wf s -> Forall op_ok os -> d ∈ a_grants (view s) ->
  forall i e, os !! i = Some (OpClaim d e) -> (run os s).1 !! i = Some (ABool false).
Proof.
  revert s; induction os as [|o os IH]; intros s Hwf Hok Hd i e; [done|].
  apply Forall_cons in Hok as [Ho Hos]. destruct (run_op_refines o s Hwf Ho) as (Ha & Hw & Hv).
  simpl. destruct (run_op o s) as [a s1]; simpl in *.
  assert (d ∈ a_grants (view s1)) as Hd1.
  { rewrite Hv. destruct o; simpl; try done. set_solver. }
  destruct (run os s1) as [l s2] eqn:E. simpl. destruct i as [|i]; simpl.
  - intros [= ->]. simpl in Ha. rewrite bool_decide_eq_false_2 in Ha by tauto. by inversion Ha; subst.
  - intros Hi. specialize (IH s1 Hw Hos Hd1 i e Hi). by rewrite E in IH.
Qed.
End runs.

(** ** Sessions

    What happens to a store between its operations: transactions begin, commit and abort, the process
    ends and another one starts, expired rows are pruned (the in-memory store has no pruning). *)

Inductive stmt :=
| Do (o : op)
| Begin
| Commit
| Abort
| Reopen
| Prune (now : Z).

Definition stmt_ok (c : stmt) : Prop := match c with Do o => op_ok o | _ => True end.

Definition sqlite_stmt (c : stmt) (s : SQLiteStateStore) : answer * SQLiteStateStore :=
  match c with
  | Do o => run_op o s
  | Begin => (AUnit, tx_begin s)
  | Commit => (AUnit, tx_commit s)
  | Abort => (AUnit, tx_abort s)
  | Reopen => (AUnit, SQLite.reopen s)
  | Prune now => (AUnit, SQLite.prune now s)
  end.
Definition memory_stmt (c : stmt) (m : MemoryStateStore) : answer * MemoryStateStore :=
  match c with
  | Do o => run_op o m
  | Begin => (AUnit, tx_begin m)
  | Commit => (AUnit, tx_commit m)
  | Abort => (AUnit, tx_abort m)
  | Reopen => (AUnit, Memory.init)
  | Prune _ => (AUnit, m)
  end.

Fixpoint session {X} (step : stmt -> X -> answer * X) (l : list stmt) (x : X) : list answer * X :=
  match l with
  | [] => ([], x)
  | c :: l' => let '(a, x1) := step c x in let '(as_, x2) := session step l' x1 in (a :: as_, x2)
  end.

(** *** The specification of a session

    The content of a store: the authority, and when claims and revocations expire. *)

Record content := mk_content {
  co_auth : authority;
  co_claims : gmap string Z;
  co_revoked : gmap string Z;
}.
Definition no_content : content := mk_content empty_authority ∅ ∅.

(** Whether a second revocation keeps the first expiry is where the stores differ ([keep_first]). *)
Definition content_op (keep_first : bool) (o : op) (c : content) : answer * content :=
  let '(x, a) := auth_op copy_dict o (co_auth c) in
  (x, mk_content a
        (match o with
         | OpClaim d e => match co_claims c !! d with Some _ => co_claims c | None => <[d := e]> (co_claims c) end
         | _ => co_claims c
         end)
        (match o with
         | OpRevoke t e =>
             match co_revoked c !! t with
             | Some _ => if keep_first then co_revoked c else <[t := e]> (co_revoked c)
             | None => <[t := e]> (co_revoked c)
             end
         | _ => co_revoked c
         end)).

(** Pruning forgets what expired more than an hour before [now], and nothing else. *)
Definition unexpired (now : Z) (m : gmap string Z) : gmap string Z := filter (fun kv => ~ (kv.2 < now - seconds 3600)) m.
Definition pruned (now : Z) (c : content) : content :=
  let a := co_auth c in
  mk_content (mk_authority (a_steps a) (a_calls a) (dom (unexpired now (co_claims c))) (a_approvals a) (a_messages a)
                (dom (unexpired now (co_revoked c))))
    (unexpired now (co_claims c)) (unexpired now (co_revoked c)).

(** A durable store: the outermost abort and the end of the process return to where the open
    transaction began. A volatile one: aborts undo nothing, the end of the process loses everything. *)
Record spec_state := mk_spec { sp_now : content; sp_saved : content; sp_depth : nat }.
Definition spec_stmt (durable : bool) (c : stmt) (p : spec_state) : answer * spec_state :=
  let '(mk_spec now saved n) := p in
  match c with
  | Do o => let '(x, now') := content_op durable o now in (x, mk_spec now' saved n)
  | Begin => (AUnit, mk_spec now (if (n =? 0)%nat then now else saved) (Datatypes.S n))
  | Commit => (AUnit, mk_spec now saved (pred n))
  | Abort => (AUnit, mk_spec (if durable && (n =? 1)%nat then saved else now) saved (pred n))
  | Reopen => (AUnit, mk_spec (if durable then (if (n =? 0)%nat then now else saved) else no_content) saved 0)
  | Prune t => (AUnit, mk_spec (if durable then pruned t now else now) saved n)
  end.

Definition tables_content (t : tables) : content := mk_content (SQLite.tables_view t) (t_grants t) (t_revoked t).
Definition sqlite_spec (s : SQLiteStateStore) : spec_state :=
  mk_spec (tables_content (sq_tables s)) (tables_content (sq_saved s)) (sq_depth s).
Definition memory_content (m : MemoryStateStore) : content := mk_content (Memory.view m) (ms_grants m) (ms_revoked m).

(** States of the specification that no statement tells apart: the saved content counts only inside a
    transaction. *)
Definition spec_same (p q : spec_state) : Prop :=
  sp_now p = sp_now q /\ sp_depth p = sp_depth q /\ (sp_depth p <> O -> sp_saved p = sp_saved q).

Lemma spec_same_trans p q r : spec_same p q -> spec_same q r -> spec_same p r.
Proof. intros (H1 & H2 & H3) (H4 & H5 & H6). unfold spec_same. split_and!; [congruence..|]. intros Hn. rewrite H3, H6; congruence. Qed.

Lemma spec_stmt_same durable c p q : spec_same p q ->
  (spec_stmt durable c p).1 = (spec_stmt durable c q).1 /\ spec_same (spec_stmt durable c p).2 (spec_stmt durable c q).2.
Proof.
  destruct p as [a x n], q as [a' x' n']. intros (Ha & Hn & Hx). simpl in *. subst a' n'.
  destruct c as [o| | | | |t]; simpl; try (by split; [|unfold spec_same; simpl; split_and!]).
  - destruct (content_op durable o a) as [y b]. by split; [|unfold spec_same; simpl; split_and!].
  - split; [done|]. unfold spec_same. simpl. split_and!; [done|done|]. intros _. destruct n; [done|by apply Hx].
  - split; [done|]. unfold spec_same. simpl. split_and!; [done|done|]. intros Hn. apply Hx. by destruct n.
  - split; [done|]. unfold spec_same. simpl. split_and!; [|done|intros Hn; apply Hx; by destruct n].
    destruct durable; simpl; [|done]. destruct n as [|[|n]]; simpl; [done|by apply Hx|done].
  - split; [done|]. unfold spec_same. simpl. split_and!; [|done|done]. destruct durable; [|done].
    destruct n; simpl; [done|by apply Hx].
Qed.

Lemma content_op_auth b o c : (content_op b o c).1 = (auth_op copy_dict o (co_auth c)).1
  /\ co_auth (content_op b o c).2 = (auth_op copy_dict o (co_auth c)).2.
Proof. unfold content_op. by destruct (auth_op copy_dict o (co_auth c)). Qed.

(** An operation of the SQLite store, inside a transaction or not. *)
Lemma sqlite_op_spec o s : store_wf s -> op_ok o ->
  (run_op o s).1 = (content_op true o (tables_content (sq_tables s))).1
  /\ store_wf (run_op o s).2
  /\ tables_content (sq_tables (run_op o s).2) = (content_op true o (tables_content (sq_tables s))).2
  /\ sq_depth (run_op o s).2 = sq_depth s /\ (sq_depth s <> O -> sq_saved (run_op o s).2 = sq_saved s).
Proof.
  intros Hwf Hok. destruct (run_op_faithful o s Hwf Hok) as (Ha & Hw & Hv). destruct (content_op_auth true o (tables_content (sq_tables s))) as [Hca Hcv].
  split_and!; [by rewrite Ha, Hca|done| | |].
  - destruct ((content_op true o (tables_content (sq_tables s))).2) as [a cl rv] eqn:E. simpl in Hcv. subst a.
    change (SQLite.view (run_op o s).2 = (auth_op copy_dict o (SQLite.view s)).2) in Hv. unfold tables_content. f_equal; [exact Hv| |].
    + apply (f_equal co_claims) in E. unfold content_op in E. destruct (auth_op _ _ _). simpl in E. rewrite <- E.
      destruct o; simpl; try done. unfold SQLite.claim_grant. by destruct (t_grants (sq_tables s) !! d).
    + apply (f_equal co_revoked) in E. unfold content_op in E. destruct (auth_op _ _ _). simpl in E. rewrite <- E.
      destruct o; simpl; try done. unfold SQLite.claim_grant. by destruct (t_grants (sq_tables s) !! d).
  - destruct o; simpl; try done. unfold SQLite.claim_grant. by destruct (t_grants (sq_tables s) !! d).
  - intros Hd. destruct (sq_depth s) as [|n] eqn:En; [done|].
    destruct o; simpl; rewrite ?En; try done. unfold SQLite.claim_grant. destruct (t_grants (sq_tables s) !! d); simpl; by rewrite En.
Qed.

Lemma memory_op_spec o m : store_wf m -> op_ok o ->
  (run_op o m).1 = (content_op false o (memory_content m)).1 /\ store_wf (run_op o m).2
  /\ memory_content (run_op o m).2 = (content_op false o (memory_content m)).2.
Proof.
  intros Hwf Hok. destruct (run_op_faithful o m Hwf Hok) as (Ha & Hw & Hv). destruct (content_op_auth false o (memory_content m)) as [Hca Hcv].
  split_and!; [by rewrite Ha, Hca|done|].
  destruct ((content_op false o (memory_content m)).2) as [a cl rv] eqn:E. simpl in Hcv. subst a.
  change (Memory.view (run_op o m).2 = (auth_op copy_dict o (Memory.view m)).2) in Hv. unfold memory_content. f_equal; [exact Hv| |].
  - apply (f_equal co_claims) in E. unfold content_op in E. destruct (auth_op _ _ _). simpl in E. rewrite <- E.
    destruct o; simpl; try done. unfold Memory.claim_grant. by destruct (ms_grants m !! d).
  - apply (f_equal co_revoked) in E. unfold content_op in E. destruct (auth_op _ _ _). simpl in E. rewrite <- E.
    destruct o; simpl; try done; [unfold Memory.claim_grant; by destruct (ms_grants m !! d)|]. by destruct (ms_revoked m !! t).
Qed.

Lemma sqlite_stmt_spec c s : store_wf s -> stmt_ok c ->
  (sqlite_stmt c s).1 = (spec_stmt true c (sqlite_spec s)).1
  /\ store_wf (sqlite_stmt c s).2 /\ spec_same (sqlite_spec (sqlite_stmt c s).2) (spec_stmt true c (sqlite_spec s)).2.
Proof.
  intros Hwf Hok. destruct c as [o| | | | |t]; cbn [sqlite_stmt] in *.
  - destruct (sqlite_op_spec o s Hwf Hok) as (Ha & Hw & Hc & Hd & Hs). unfold sqlite_spec. cbn [spec_stmt].
    destruct (content_op true o (tables_content (sq_tables s))) as [x c]. simpl in *. split_and!; [done|done|].
    unfold spec_same. simpl. rewrite Hd. split_and!; [done|done|]. intros Hn. by rewrite Hs.
  - split_and!; [done|by apply SQLite.begin_refines|]. unfold spec_same. simpl. by destruct (sq_depth s).
  - split_and!; [done|by apply SQLite.commit_refines|]. done.
  - split_and!; [done|by apply SQLite.abort_refines|]. unfold spec_same. simpl. split_and!; [|done|done]. by destruct (sq_depth s) as [|[]].
  - split_and!; [done| |].
    + destruct Hwf as [Hn Hs]. unfold SQLite.reopen. destruct (sq_depth s); (split; [|done]); [exact Hn|by apply Hs].
    + unfold spec_same. simpl. split_and!; [by destruct (sq_depth s)|done|done].
  - split_and!; [done| |].
    + apply (SQLite.in_tx_refines _ (fun a => co_auth (pruned t (mk_content a (t_grants (sq_tables s)) (t_revoked (sq_tables s)))))); [|done].
      intros Hw Hn. split_and!; [by apply (SQLite.tables_wf_frame (sq_tables s))|done|done].
    + unfold spec_same. simpl. split_and!; [done|done|]. intros Hn. by destruct (sq_depth s).
Qed.

Lemma sqlite_session_spec l s p : store_wf s -> Forall stmt_ok l -> spec_same (sqlite_spec s) p ->
  (session sqlite_stmt l s).1 = (session (spec_stmt true) l p).1
  /\ tables_content (sq_tables (session sqlite_stmt l s).2) = sp_now (session (spec_stmt true) l p).2.
Proof.
  revert s p; induction l as [|c l IH]; intros s p Hwf Hok Hp; [by split; [|apply Hp]|]. apply Forall_cons in Hok as [Hc Hl].
  destruct (sqlite_stmt_spec c s Hwf Hc) as (Ha & Hw & Hs1), (spec_stmt_same true c _ _ Hp) as [Hx Hs2].
  pose proof (spec_same_trans _ _ _ Hs1 Hs2) as Hs. rewrite Hx in Ha. clear Hs1 Hs2 Hx. simpl.
  destruct (sqlite_stmt c s) as [x s1], (spec_stmt true c p) as [y p1]. cbn [fst snd] in *.
  destruct (IH s1 p1 Hw Hl Hs) as [Hl1 Hl2].
  destruct (session sqlite_stmt l s1), (session (spec_stmt true) l p1). simpl in *. by subst.
Qed.

Lemma memory_session_spec l m p : store_wf m -> Forall stmt_ok l -> memory_content m = sp_now p ->
  (session memory_stmt l m).1 = (session (spec_stmt false) l p).1
  /\ memory_content (session memory_stmt l m).2 = sp_now (session (spec_stmt false) l p).2.
Proof.
  revert m p; induction l as [|c l IH]; intros m p Hwf Hok Hp; [done|]. apply Forall_cons in Hok as [Hc Hl].
  assert ((memory_stmt c m).1 = (spec_stmt false c p).1 /\ store_wf (memory_stmt c m).2
    /\ memory_content (memory_stmt c m).2 = sp_now (spec_stmt false c p).2) as (Ha & Hw & Hm).
  { destruct p as [a x n]. simpl in Hp. subst a. destruct c as [o| | | | |t]; cbn [memory_stmt spec_stmt].
    - destruct (memory_op_spec o m Hwf Hc) as (Ha & Hw & Hm). destruct (content_op false o (memory_content m)) as [y b]. done.
    - done. - done. - done. - by split_and!; [|apply Memory.memory_wf_init|]. - done. }
  simpl. destruct (memory_stmt c m) as [x m1], (spec_stmt false c p) as [y p1]. simpl in *. destruct (IH m1 p1 Hw Hl Hm) as [Hl1 Hl2].
  destruct (session memory_stmt l m1), (session (spec_stmt false) l p1). simpl in *. by subst.
Qed.

(** Without an abort, a restart or pruning, expiry and rollback play no part. *)
Definition undisturbed (c : stmt) : Prop := match c with Do _ | Begin | Commit => True | _ => False end.

Lemma undisturbed_agree l p q : Forall undisturbed l -> co_auth (sp_now p) = co_auth (sp_now q) ->
  (session (spec_stmt true) l p).1 = (session (spec_stmt false) l q).1
  /\ co_auth (sp_now (session (spec_stmt true) l p).2) = co_auth (sp_now (session (spec_stmt false) l q).2).
Proof.
  revert p q; induction l as [|c l IH]; intros p q Hl Ha; [done|]. apply Forall_cons in Hl as [Hc Hl].
  assert ((spec_stmt true c p).1 = (spec_stmt false c q).1
    /\ co_auth (sp_now (spec_stmt true c p).2) = co_auth (sp_now (spec_stmt false c q).2)) as [Hx Hn].
  { destruct p as [a x n], q as [b y k]. simpl in Ha. destruct c as [o| | | | |t]; cbn [spec_stmt]; try done.
    destruct (content_op_auth true o a) as [H1' H2'], (content_op_auth false o b) as [H3' H4'].
    destruct (content_op true o a), (content_op false o b). simpl in *. split; congruence. }
  simpl. destruct (spec_stmt true c p) as [x p1], (spec_stmt false c q) as [y q1]. simpl in *. destruct (IH p1 q1 Hl Hn) as [Hl1 Hl2].
  destruct (session (spec_stmt true) l p1), (session (spec_stmt false) l q1). simpl in *. by subst.
Qed.

(** C30. The stores and their contract, over any session: operations of budgets, grants, approvals,
    messages and revocations, with transactions beginning, committing and aborting at any nesting, the
    process ending and restarting, and pruning. The SQLite store answers as the durable specification
    does - an abort of the outermost transaction, or the end of the process inside one, returns to where
    it began, committed work survives a restart, pruning forgets exactly the claims and revocations that
    expired over an hour ago - and the in-memory store as the volatile one, in which aborts undo
    nothing and a restart loses everything. So in a session without abort, restart or pruning the two
    are interchangeable: same answers, same abstract content. *)
Theorem sqlite_refines_memory (l : list stmt) (s : SQLiteStateStore) (m : MemoryStateStore) (p : spec_state) :
  store_wf s -> store_wf m -> Forall stmt_ok l -> sp_now p = memory_content m ->
  ((session sqlite_stmt l s).1 = (session (spec_stmt true) l (sqlite_spec s)).1
   /\ tables_content (sq_tables (session sqlite_stmt l s).2) = sp_now (session (spec_stmt true) l (sqlite_spec s)).2)
  /\ ((session memory_stmt l m).1 = (session (spec_stmt false) l p).1
      /\ memory_content (session memory_stmt l m).2 = sp_now (session (spec_stmt false) l p).2)
  /\ (view s = view m -> Forall undisturbed l ->
      (session sqlite_stmt l s).1 = (session memory_stmt l m).1
      /\ view (session sqlite_stmt l s).2 = view (session memory_stmt l m).2).
Proof.
  intros Hs Hm Hok Hp.
  destruct (sqlite_session_spec l s (sqlite_spec s) Hs Hok) as [Hs1 Hs2]; [done|].
  destruct (memory_session_spec l m p Hm Hok (eq_sym Hp)) as [Hm1 Hm2].
  split_and!; [done..|]. intros Hv Hund.
  destruct (undisturbed_agree l (sqlite_spec s) p Hund) as [Ha Hc]; [by rewrite Hp|].
  split; [congruence|]. rewrite <- Hs2, <- Hm2 in Hc. exact Hc.
Qed.

(** A grant is claimed at most once: in any sequence of operations on a store, of two claims of the
    same decision the later one is refused, whatever happens in between. *)
Theorem grant_single_use {S : Type} `{StateStore S} (os : list op) (s : S) (d : string) (i j : nat) (e e' : Z) :
  store_wf s -> Forall op_ok os -> (i < j)%nat ->
  os !! i = Some (OpClaim d e) -> os !! j = Some (OpClaim d e') -> (run os s).1 !! j = Some (ABool false).
Proof.
  revert s i j; induction os as [|o os IH]; intros s i j Hwf Hok Hij Hi Hj; [done|].
  apply Forall_cons in Hok as [Ho Hos]. destruct j as [|j]; [lia|].
  destruct (run_op_refines o s Hwf Ho) as (_ & Hw & Hv). simpl in Hj |- *.
  destruct (run_op o s) as [a s1]; simpl in *. destruct (run os s1) as [l s2] eqn:E. simpl.
  replace l with ((run os s1).1) by (by rewrite E).
  destruct i as [|i]; [|by apply (IH s1 i j Hw Hos ltac:(lia))].
  injection Hi as ->. apply (run_claimed os s1 d Hw Hos) with e'; [|done]. rewrite Hv. simpl. set_solver.
Qed.

(** The writes of a decision. *)
Inductive write :=
| WStep (c : string)
| WCall (a x : string)
| WApproval (i : string) (r : dict pyval).
Definition do_write {S : Type} `{StateStore S} (s : S) (w : write) : S :=
  match w with WStep c => add_step c s | WCall a x => add_call a x s | WApproval i r => put_approval i r s end.

(** A transaction that raises leaves nothing behind: in a store that rolls back, when the outermost
    transaction is aborted after any steps, calls and approvals were written inside it, the abstract
    content is what it was when the transaction began. *)
Theorem abort_restores {S : Type} `{TransactionalStore S} (s : S) (ws : list write) :
  depth s = O -> view (tx_abort (foldl do_write (tx_begin s) ws)) = view s.
Proof.
  intros Hd. rewrite <- (begin_outer s Hd).
  assert (forall t, depth t = 1%nat -> depth (foldl do_write t ws) = 1%nat /\ saved (foldl do_write t ws) = saved t) as Hfold.
  { induction ws as [|w ws IH]; intros t Ht; [done|]. simpl.
    assert (depth (do_write t w) = 1%nat /\ saved (do_write t w) = saved t) as [Hdw Hsw].
    { destruct w; simpl; rewrite <- Ht at 1; [apply add_step_saved|apply add_call_saved|apply put_approval_saved]; lia. }
    destruct (IH _ Hdw) as [Hd' Hs']. split; [done|congruence]. }
  destruct (Hfold (tx_begin s)) as [Hd1 Hs1]; [by rewrite begin_depth, Hd|].
  by rewrite abort_outer.
Qed.

Lemma sqlite_init_wf : store_wf SQLite.init.
Proof. unfold store_wf, SQLite.store. exact SQLite.wf_init. Qed.

Lemma memory_init_wf : store_wf Memory.init.
Proof. unfold store_wf, Memory.store. exact Memory.memory_wf_init. Qed.

Module Witnesses.

Definition ops : list op :=
  [OpAddStep "c"; OpClaim "d" 5; OpPut "i" [("status", PStr "pending")]; OpPush "b" [("n", PInt 1)];
   OpPush "b" [("n", PInt 2)]; OpClaim "d" 5; OpPending; OpDrain "b"; OpSteps "c"].

Lemma ops_ok : Forall op_ok ops.
Proof. repeat constructor. Qed.

(** A claim is committed, another is aborted; the process ends inside a transaction; an hour passes. *)
Definition story : list stmt :=
  [Begin; Do (OpAddStep "c"); Do (OpClaim "d" 5); Commit; Begin; Do (OpClaim "e" 6); Abort;
   Do (OpClaim "e" 6); Begin; Do (OpAddStep "c"); Reopen; Do (OpSteps "c"); Do (OpClaim "d" 5);
   Prune (seconds 3601); Do (OpClaim "d" 5)].
Lemma story_stmts : Forall stmt_ok story.
Proof. repeat constructor. Qed.

Lemma sqlite_refines_memory_witness :
  (session sqlite_stmt story SQLite.init).1
    = [AUnit; AUnit; ABool true; AUnit; AUnit; ABool true; AUnit; ABool true; AUnit; AUnit; AUnit; AInt 1; ABool false; AUnit; ABool true]
  /\ (session memory_stmt story Memory.init).1
    = [AUnit; AUnit; ABool true; AUnit; AUnit; ABool true; AUnit; ABool false; AUnit; AUnit; AUnit; AInt 0; ABool true; AUnit; ABool false]
  /\ (session sqlite_stmt (map Do ops) SQLite.init).1 = (session memory_stmt (map Do ops) Memory.init).1.
Proof.
  pose (p := mk_spec (memory_content Memory.init) no_content 0).
  destruct (sqlite_refines_memory story SQLite.init Memory.init p sqlite_init_wf memory_init_wf story_stmts eq_refl)
    as ([Hs _] & [Hm _] & _).
  split; [rewrite Hs; vm_compute; reflexivity|]. split; [rewrite Hm; vm_compute; reflexivity|].
  apply (sqlite_refines_memory (map Do ops) SQLite.init Memory.init p sqlite_init_wf memory_init_wf); [|reflexivity|reflexivity|].
  - repeat constructor.
  - repeat constructor.
Defined.

Lemma grant_single_use_witness : (run ops SQLite.init).1 !! 5%nat = Some (ABool false).
Proof. apply (grant_single_use ops SQLite.init "d" 1 5 5 5 sqlite_init_wf ops_ok); [lia|reflexivity|reflexivity]. Defined.

Lemma abort_restores_witness :
  view (tx_abort (foldl do_write (tx_begin SQLite.init) [WStep "c"; WCall "a" "x"])) = view SQLite.init.
Proof. apply abort_restores. reflexivity. Defined.
End Witnesses.
