(* ===== verification/AuditTrail.v ===== *)
(** * The audit trail: src/capgate/audit.py

    Records are chained by hash. [AuditLog] streams them to a file or keeps them in memory;
    [verify_chain] recomputes the chain. *)

From S2P Require Import Prelude Datetime Regex PyVal Externals Json Request Decision NetAddr Timeutil Capability Contract.

Section audit.
Context `{Externals}.

Definition GENESIS : string := "sha256:0000000000000000000000000000000000000000000000000000000000000000".

Definition without (k : string) (d : dict pyval) : dict pyval := List.filter (fun kv => negb (String.eqb kv.1 k)) d.

Definition hash_record (record : dict pyval) : result string :=
  let? text := canonical_json (PDict (without "hash" record)) in
  Ok ("sha256:" +:+ sha256_hex text).

(** ** Verification *)

(** [v == n] for an index [n]: True is 1, False is 0, and an integral float equals its integer. *)
Definition equals_int (v : pyval) (n : Z) : bool :=
  match v with
  | PInt z => z =? n
  | PBool b => (if b then 1 else 0) =? n
  | PFloat (Finite r) => String.eqb r (show_Z n +:+ ".0") || (String.eqb r "-0.0" && (n =? 0))
  | _ => false
  end.
Definition equals_str (v : pyval) (s : string) : bool := match v with PStr t => String.eqb t s | _ => false end.

Definition integrity {A} (index : Z) (msg : string) : result A :=
  Raise (AuditIntegrityError ("record " +:+ show_Z index +:+ ": " +:+ msg)).

Definition verify_record (index : Z) (prev : string) (v : pyval) : result string :=
  match v with
  | PDict record =>
      if negb (equals_int (pget "sequence" record) index) then integrity index "sequence gap or reordering"
      else if negb (equals_str (pget "prev_hash" record) prev) then integrity index "chain broken (prev_hash mismatch)"
      else let? h := hash_record record in
           if equals_str (pget "hash" record) h then Ok h else integrity index "contents modified"
  | _ => Raise (AttributeError "get")
  end.

Fixpoint verify_from (index : Z) (prev : string) (records : list pyval) : result (Z * string) :=
  match records with
  | [] => Ok (index, prev)
  | r :: records' => let? h := verify_record index prev r in verify_from (index + 1) h records'
  end.

Definition verify_chain (records : list pyval) : result (Z * string) := verify_from 0 GENESIS records.

(** ** The log *)

Record AuditLog := mk_audit {
  al_path : bool;                          (* whether records are streamed to a file *)
  al_include_arguments : bool;
  al_file : string;                        (* the text of that file *)
  al_memory : list (dict pyval);
  al_count : Z;
  al_last_hash : string;
}.

(** The lines of a text file; universal newlines make a carriage return end a line too. *)
Definition is_newline (c : ascii) : bool := Ascii.eqb c newline || (byte_of c =? 13).
Fixpoint file_lines (s : string) : list string :=
  match s with
  | EmptyString => [EmptyString]
  | String c s' =>
      if is_newline c then EmptyString :: file_lines s'
      else match file_lines s' with
           | [] => [chr1 c]
           | w :: ws => String c w :: ws
           end
  end.

Fixpoint parse_lines (number : Z) (lines : list string) : result (list pyval) :=
  match lines with
  | [] => Ok []
  | line :: lines' =>
      if is_blank line then parse_lines (number + 1) lines'
      else match loads line with
           | None => Raise (AuditIntegrityError ("line " +:+ show_Z number +:+ ": not valid JSON"))
           | Some v => let? vs := parse_lines (number + 1) lines' in Ok (v :: vs)
           end
  end.
Definition iter_records (text : string) : result (list pyval) := parse_lines 1 (file_lines text).

(** [AuditLog(path)]: an existing file is verified first; [None] for a log in memory. *)
Definition open_log (file : option string) (include_arguments : bool) : result AuditLog :=
  match file with
  | None => Ok (mk_audit false include_arguments EmptyString [] 0 GENESIS)
  | Some text =>
      let? records := iter_records text in
      let? (count, last) := verify_chain records in
      Ok (mk_audit true include_arguments text [] count last)
  end.

Definition audit_body (log : AuditLog) (record_id : string) (now : Z) (event : string) (fields : dict pyval) : dict pyval :=
  dset "prev_hash" (PStr (al_last_hash log))
    (dupdate [("record_id", PStr record_id); ("sequence", PInt (al_count log));
              ("timestamp", PStr (isoformat now)); ("event", PStr event)] fields).

(** [record]; [written] is whether the write to the file succeeds. *)
Definition audit_record (log : AuditLog) (record_id : string) (now : Z) (event : string) (fields : dict pyval)
    (written : bool) : result (dict pyval * AuditLog) :=
  let body := audit_body log record_id now event fields in
  let? h := hash_record body in
  let body := dset "hash" (PStr h) body in
  let? line := canonical_json (PDict body) in
  if al_path log
  then if written
       then Ok (body, mk_audit true (al_include_arguments log) (al_file log +:+ line +:+ chr1 newline) (al_memory log)
                        (al_count log + 1) h)
       else Raise (OSError "audit write failed")
  else Ok (body, mk_audit false (al_include_arguments log) (al_file log) (al_memory log ++ [body]) (al_count log + 1) h).

(** [records()], and the exact-match filters of [query]; a missing key matches None. *)
Definition audit_records (log : AuditLog) : result (list pyval) :=
  if al_path log then iter_records (al_file log) else Ok (map PDict (al_memory log)).
Definition audit_verify (log : AuditLog) : result bool :=
  let? records := audit_records log in
  let? _ := verify_chain records in Ok true.
Definition load_audit (text : string) (verify : bool) : result (list pyval) :=
  let? records := iter_records text in
  if verify then let? _ := verify_chain records in Ok records else Ok records.

(** ** Lemmas: hashing *)

Lemma equals_str_spec v s : equals_str v s = true <-> v = PStr s.
Proof. destruct v; simpl; try (split; congruence). rewrite String.eqb_eq. split; congruence. Qed.

Lemma without_perm k d e : d ≡ₚ e -> without k d ≡ₚ without k e.
Proof.
  unfold without. induction 1; simpl; repeat case_match; try done; try (by constructor); by etransitivity.
Qed.

Lemma without_map k d : without k (map (fun '(j, x) => (j, norm x)) d) = map (fun '(j, x) => (j, norm x)) (without k d).
Proof. unfold without. induction d as [|[j x] d IH]; simpl; [done|]. destruct (String.eqb j k); simpl; by rewrite IH. Qed.

Lemma without_keys k d : NoDup (dkeys d) -> NoDup (dkeys (without k d)).
Proof.
  unfold without. induction d as [|[j x] d IH]; simpl; [done|]. intros [Hj Hd]%NoDup_cons.
  destruct (String.eqb j k); simpl; [by apply IH|]. apply NoDup_cons. split; [|by apply IH].
  intros Hin. apply Hj. unfold dkeys in *. apply list_elem_of_fmap in Hin as ([j' y] & -> & Hin).
  apply list_elem_of_In, filter_In in Hin as [Hin _]. apply list_elem_of_fmap. exists (j', y).
  by rewrite list_elem_of_In.
Qed.

Lemma forallb_without (p : string * pyval -> bool) k d : forallb p d = true -> forallb p (without k d) = true.
Proof.
  unfold without. induction d as [|kv d IH]; simpl; [done|]. intros [Hp Hd]%andb_true_iff.
  destruct (negb _); simpl; rewrite ?Hp, IH; done.
Qed.

Lemma wf_val_without k d : wf_val (PDict d) = true -> wf_val (PDict (without k d)) = true.
Proof.
  simpl. rewrite !andb_true_iff, !distinct_NoDup. intros [Hd Hv]. split; [by apply without_keys|by apply forallb_without].
Qed.

Lemma norm_without k d : wf_val (PDict d) = true -> forall e, norm (PDict d) = PDict e ->
  norm (PDict (without k e)) = norm (PDict (without k d)).
Proof.
  intros Hw e He. pose proof (norm_norm (PDict d) Hw) as Hnn. rewrite He in Hnn.
  simpl in He. injection He as <-. simpl. f_equal.
  set (m := map (fun '(j, x) => (j, norm x)) d) in *.
  assert (NoDup (dkeys m)) as Hnd by (unfold m; rewrite (dkeys_map norm); by apply wf_val_dict_keys).
  rewrite <- !without_map. fold m. unfold sort_items.
  symmetry. fold (sort_items (without k m)) (sort_items m).
  fold (sort_items (without k (map (fun '(j, x) => (j, norm x)) (sort_items m)))).
  apply sort_items_perm; [|by apply without_keys]. apply without_perm.
  transitivity (map (fun '(j, x) => (j, norm x)) m).
  2: { apply Permutation_map. symmetry. apply merge_sort_Permutation. }
  unfold m. rewrite map_map. simpl in Hw. apply andb_true_iff in Hw as [_ Hw].
  assert (map (fun '(j, x) => (j, norm x)) d = map (fun x => let '(j, x) := let '(j, x) := x in (j, norm x) in (j, norm x)) d) as <-; [|done].
  apply map_ext_in. intros [j x] Hin. apply (proj1 (forallb_forall _ _) Hw) in Hin. by rewrite norm_norm.
Qed.

Lemma hash_record_text r h : hash_record r = Ok h ->
  h = "sha256:" +:+ sha256_hex (canonical (PDict (without "hash" r))) /\ jsonable (PDict (without "hash" r)) = true.
Proof. unfold hash_record, canonical_json. destruct (jsonable _); simpl; [|done]. by intros [= <-]. Qed.

(** ** Lemmas: verification *)

Lemma pget_norm d e k : wf_val (PDict d) = true -> norm (PDict d) = PDict e -> pget k e = norm (pget k d).
Proof.
  intros Hw He. simpl in He. injection He as <-. unfold pget.
  rewrite dget_sort_items by (rewrite (dkeys_map norm); by apply wf_val_dict_keys).
  rewrite dget_map. by destruct (dget k d).
Qed.

Lemma jsonable_without k d : jsonable (PDict d) = true -> jsonable (PDict (without k d)) = true.
Proof. apply forallb_without. Qed.

Lemma hash_record_norm d e : wf_val (PDict d) = true -> jsonable (PDict d) = true -> norm (PDict d) = PDict e ->
  hash_record e = hash_record d.
Proof.
  intros Hw Hj He. pose proof (norm_without "hash" d Hw e He) as Hn.
  unfold hash_record, canonical_json, canonical. rewrite Hn.
  assert (jsonable (PDict (without "hash" e)) = jsonable (PDict (without "hash" d))) as -> by
    (by rewrite <- (jsonable_norm (PDict (without "hash" e))), Hn, jsonable_norm).
  by rewrite jsonable_without.
Qed.

(** A record is verified the same way before and after it is written and read back. *)
Lemma verify_record_norm i p d : wf_val (PDict d) = true -> jsonable (PDict d) = true ->
  verify_record i p (norm (PDict d)) = verify_record i p (PDict d).
Proof.
  intros Hw Hj. destruct (norm (PDict d)) as [| | | | | | |e| | |] eqn:He; try done.
  unfold verify_record. rewrite !(pget_norm d e _ Hw He), (hash_record_norm d e Hw Hj He).
  assert (forall v n, equals_int (norm v) n = equals_int v n) as -> by (by intros []).
  assert (forall v n, equals_str (norm v) n = equals_str v n) as Hs by (by intros []).
  rewrite Hs. destruct (negb _); [done|]. destruct (negb _); [done|].
  destruct (hash_record d); simpl; [|done]. by rewrite Hs.
Qed.

Lemma verify_from_app i p l1 l2 :
  verify_from i p (l1 ++ l2) = let? (j, q) := verify_from i p l1 in verify_from j q l2.
Proof.
  revert i p; induction l1 as [|r l1 IH]; intros i p; [done|]. cbn [app verify_from].
  destruct (verify_record i p r); cbn [result_bind]; [apply IH|done].
Qed.

Lemma verify_from_count i p l j q : verify_from i p l = Ok (j, q) -> j = i + Z.of_nat (length l).
Proof.
  revert i p; induction l as [|r l IH]; intros i p; simpl; [intros [= <- <-]; lia|].
  destruct (verify_record i p r); simpl; [|done]. intros Hv%IH. lia.
Qed.

(** What a verified record says. *)
Lemma verify_record_ok i p v h : verify_record i p v = Ok h -> exists r, v = PDict r
  /\ pget "prev_hash" r = PStr p /\ pget "hash" r = PStr h /\ hash_record r = Ok h
  /\ equals_int (pget "sequence" r) i = true.
Proof.
  unfold verify_record, integrity. destruct v as [| | | | | | |r| | |]; try done. intros Hv. exists r.
  destruct (equals_int _ _); simpl in Hv; [|done].
  destruct (equals_str (pget "prev_hash" r) p) eqn:Ep; simpl in Hv; [|done].
  destruct (hash_record r) as [h'|]; simpl in Hv; [|done].
  destruct (equals_str (pget "hash" r) h') eqn:Eh; simpl in Hv; [|done]. injection Hv as ->.
  assert (forall v s, equals_str v s = true -> v = PStr s) as Hs.
  { intros v s. destruct v; simpl; try done. by intros ->%String.eqb_eq. }
  split_and!; auto.
Qed.

(** ** Lemmas: text of a record *)

Definition line_char (c : ascii) : bool := negb (is_newline c).

Lemma esc_line_char c s : s_forall line_char s = true -> s_forall line_char (esc c s) = true.
Proof.
  intros Hs. destruct c as [[] [] [] [] [] [] [] []]; vm_compute in Hs |- *; exact Hs.
Qed.

Lemma quote_line_char s : s_forall line_char (quote s) = true.
Proof.
  unfold quote. simpl. rewrite s_forall_app. apply andb_true_iff. split; [|done].
  induction s as [|c s IH]; [done|]. simpl. by apply esc_line_char.
Qed.

Lemma concat_line_char sep l : s_forall line_char sep = true ->
  (forall w, w ∈ l -> s_forall line_char w = true) -> s_forall line_char (s_concat sep l) = true.
Proof.
  intros Hsep. induction l as [|w l IH]; intros Hl; [done|].
  assert (s_forall line_char w = true) as Hw by (apply Hl, elem_of_cons; by left).
  destruct l as [|w' l]; [done|]. change (s_concat sep (w :: w' :: l)) with (w +:+ sep +:+ s_concat sep (w' :: l)).
  rewrite !s_forall_app, Hw, Hsep. apply IH. intros x Hx. apply Hl, elem_of_cons. by right.
Qed.

Lemma numchar_line_char c : is_numchar c = true -> line_char c = true.
Proof. destruct c as [[] [] [] [] [] [] [] []]; vm_compute; done. Qed.

Lemma print_line_char v : plain v = true -> s_forall line_char (print v) = true.
Proof.
  induction v as [|b|z|f|s|l IH|l IH|d IH|t|t|r] using pyval_rect_nested; intros Hp; try done; simpl.
  - by destruct b.
  - destruct (show_Z_chars z) as (c & tl & -> & Hc & Hs). simpl. apply andb_true_iff. split.
    + by apply numchar_line_char, sign_digit_numchar.
    + revert Hs. apply s_forall_impl. intros c' Hc'. by apply numchar_line_char, sign_digit_numchar.
  - destruct f as [r|]; [|done]. simpl in Hp. unfold float_text_ok in Hp.
    rewrite !andb_true_iff in Hp. destruct Hp as [[_ Hp] _].
    apply fullmatch_spec, number_chars in Hp. revert Hp. apply s_forall_impl, numchar_line_char.
  - apply quote_line_char.
  - rewrite s_app_nil_l, s_forall_app, concat_line_char; [done|done|]. intros w Hw.
    apply list_elem_of_fmap in Hw as (x & -> & Hx). rewrite Forall_forall in IH. apply IH; [done|].
    simpl in Hp. apply (proj1 (forallb_forall _ _) Hp). by apply list_elem_of_In.
  - rewrite s_app_nil_l, s_forall_app, concat_line_char; [done|done|]. intros w Hw.
    apply list_elem_of_fmap in Hw as ([k x] & -> & Hx). rewrite !s_forall_app, quote_line_char. simpl.
    rewrite Forall_forall in IH. apply (IH (k, x)); [done|]. simpl in Hp. apply andb_true_iff in Hp as [_ Hp].
    by apply (proj1 (forallb_forall _ _) Hp (k, x)), list_elem_of_In.
Qed.

(** ** Lemmas: the file *)

Lemma file_lines_not_nil s : file_lines s <> [].
Proof. destruct s as [|c s]; simpl; [done|]. destruct (is_newline c); [done|]. by destruct (file_lines s). Qed.

Lemma file_lines_newline s t : file_lines (s +:+ String newline t) = file_lines s ++ file_lines t.
Proof.
  induction s as [|d s IH]; [done|]. rewrite s_app_cons. simpl. destruct (is_newline d); [by rewrite IH|].
  rewrite IH. pose proof (file_lines_not_nil s). by destruct (file_lines s).
Qed.

Lemma file_lines_line s : s_forall line_char s = true -> file_lines s = [s].
Proof.
  induction s as [|c s IH]; simpl; [done|]. intros [Hc Hs]%andb_true_iff.
  unfold line_char in Hc. apply negb_true_iff in Hc. by rewrite Hc, IH.
Qed.

Lemma parse_lines_app n l1 l2 : parse_lines n (l1 ++ l2) =
  let? a := parse_lines n l1 in let? b := parse_lines (n + Z.of_nat (length l1)) l2 in Ok (a ++ b).
Proof.
  revert n; induction l1 as [|w l1 IH]; intros n; cbn [app parse_lines length].
  - rewrite Z.add_0_r. cbn [result_bind]. by destruct (parse_lines n l2).
  - replace (n + Z.of_nat (S (length l1))) with (n + 1 + Z.of_nat (length l1)) by lia.
    destruct (is_blank w); [apply IH|]. destruct (loads w); [|done]. rewrite IH.
    destruct (parse_lines (n + 1) l1); cbn [result_bind]; [|done]. by destruct (parse_lines _ l2).
Qed.

(** The file is empty or its last line is complete. *)
Definition closed (text : string) : Prop := text = EmptyString \/ exists s, text = s +:+ chr1 newline.

Lemma brace_not_blank s : is_blank (String "{"%char s) = false.
Proof. by destruct s as [|b [|c s]]. Qed.

Lemma canonical_dict_line d : wf_val (PDict d) = true -> jsonable (PDict d) = true ->
  is_blank (canonical (PDict d)) = false /\ s_forall line_char (canonical (PDict d)) = true
  /\ loads (canonical (PDict d)) = Some (norm (PDict d)).
Proof.
  intros Hw Hj. split_and!; [apply brace_not_blank| |by apply loads_canonical].
  unfold canonical. by apply print_line_char, plain_norm.
Qed.

(** Appending a line to a closed file appends its value to the records. *)
Lemma iter_records_append text rs d : closed text -> iter_records text = Ok rs ->
  wf_val (PDict d) = true -> jsonable (PDict d) = true ->
  closed (text +:+ canonical (PDict d) +:+ chr1 newline)
  /\ iter_records (text +:+ canonical (PDict d) +:+ chr1 newline) = Ok (rs ++ [norm (PDict d)]).
Proof.
  intros Hc Hrs Hw Hj. destruct (canonical_dict_line d Hw Hj) as (Hb & Hl & Hld).
  set (line := canonical (PDict d)) in *.
  split; [right; exists (text +:+ line); by rewrite s_app_assoc|].
  assert (forall n, parse_lines n (file_lines (line +:+ chr1 newline)) = Ok [norm (PDict d)]) as Hline.
  { intros n. unfold chr1. rewrite file_lines_newline, file_lines_line by done.
    cbn [app parse_lines]. rewrite Hb, Hld. done. }
  unfold iter_records in *. destruct Hc as [-> |[s ->]].
  - simpl in Hrs. injection Hrs as <-. rewrite s_app_nil_l. apply Hline.
  - unfold chr1 in Hrs. rewrite file_lines_newline, parse_lines_app in Hrs.
    rewrite s_app_assoc. change (chr1 newline +:+ ?u) with (String newline u).
    rewrite file_lines_newline, parse_lines_app.
    destruct (parse_lines 1 (file_lines s)) as [a|]; cbn [result_bind] in *; [|done].
    simpl in Hrs. injection Hrs as <-. rewrite Hline. cbn [result_bind]. by rewrite app_nil_r.
Qed.

(** ** The log and its chain *)

Definition reserved_fields : list string := ["record_id"; "sequence"; "timestamp"; "event"; "prev_hash"; "hash"].

(** Fields a caller may pass: well formed, and none of the keys the log sets itself. *)
Definition fields_ok (fields : dict pyval) : bool :=
  wf_val (PDict fields) && forallb (fun k => negb (dmem k fields)) reserved_fields.

(** The log's own records verify, and end where the log says. *)
Definition log_ok (log : AuditLog) : Prop :=
  exists rs, audit_records log = Ok rs /\ verify_chain rs = Ok (al_count log, al_last_hash log)
    /\ (al_path log = true -> closed (al_file log)).

Lemma audit_body_app log id now event fields : fields_ok fields = true ->
  audit_body log id now event fields =
    [("record_id", PStr id); ("sequence", PInt (al_count log)); ("timestamp", PStr (isoformat now)); ("event", PStr event)]
    ++ fields ++ [("prev_hash", PStr (al_last_hash log))].
Proof.
  unfold fields_ok. rewrite andb_true_iff. intros [Hw%wf_val_dict_keys Hr].
  assert (forall k, k ∈ reserved_fields -> k ∉ dkeys fields) as Hni.
  { intros k Hk%list_elem_of_In. apply (proj1 (forallb_forall _ _) Hr), negb_true_iff in Hk.
    rewrite <- dmem_spec. congruence. }
  assert (forall k, k ∈ reserved_fields -> k ∉ dkeys fields) as Hni' by done. unfold reserved_fields in Hni'.
  unfold audit_body. rewrite dupdate_distinct.
  - rewrite dset_notin; [by rewrite app_assoc|]. rewrite dkeys_app, elem_of_app.
    intros [Hin|Hin]; [|revert Hin; apply Hni; unfold reserved_fields; set_solver].
    simpl in Hin. repeat (apply elem_of_cons in Hin as [Hin|Hin]; [done|]). by apply elem_of_nil in Hin.
  - apply NoDup_app. split_and!; [|intros k Hk; apply Hni; revert Hk; unfold reserved_fields; simpl; set_solver|done].
    by apply (distinct_NoDup (dkeys [("record_id", PStr id); ("sequence", PInt (al_count log));
      ("timestamp", PStr (isoformat now)); ("event", PStr event)])).
Qed.

(** The record that [audit_record] writes. *)
Definition full_record (log : AuditLog) (id : string) (now : Z) (event : string) (fields : dict pyval) (h : string) : dict pyval :=
  [("record_id", PStr id); ("sequence", PInt (al_count log)); ("timestamp", PStr (isoformat now)); ("event", PStr event)]
  ++ fields ++ [("prev_hash", PStr (al_last_hash log)); ("hash", PStr h)].

Lemma dget_app {V} k (d e : dict V) : dget k (d ++ e) = match dget k d with Some v => Some v | None => dget k e end.
Proof. induction d as [|[j x] d IH]; simpl; [done|]. by destruct (String.eqb k j). Qed.

Lemma dmem_None {V} k (d : dict V) : dmem k d = false -> dget k d = None.
Proof. unfold dmem. by destruct (dget k d). Qed.

Lemma reserved_absent fields k : fields_ok fields = true -> k ∈ reserved_fields -> dget k fields = None.
Proof.
  unfold fields_ok. rewrite andb_true_iff. intros [_ Hr] Hk%list_elem_of_In.
  by apply (proj1 (forallb_forall _ _) Hr), negb_true_iff, dmem_None in Hk.
Qed.

Lemma audit_body_hash log id now event fields h : fields_ok fields = true ->
  dset "hash" (PStr h) (audit_body log id now event fields) = full_record log id now event fields h.
Proof.
  intros Hf. rewrite audit_body_app by done. unfold full_record. rewrite dset_notin.
  - by rewrite <- !app_assoc.
  - apply dget_None. simpl. rewrite dget_app, (reserved_absent fields) by (done || unfold reserved_fields; set_solver). done.
Qed.

Lemma wf_val_dict_iff d : wf_val (PDict d) = true <-> NoDup (dkeys d) /\ forall k v, (k, v) ∈ d -> wf_val v = true.
Proof.
  cbn [wf_val]. rewrite andb_true_iff, distinct_NoDup, forallb_forall. split; intros [Hd Hv]; (split; [done|]).
  - intros k v Hin%list_elem_of_In. by apply (Hv (k, v)).
  - intros [k v] Hin%list_elem_of_In. by apply (Hv k).
Qed.

Lemma full_record_wf log id now event fields h : fields_ok fields = true ->
  wf_val (PDict (full_record log id now event fields h)) = true.
Proof.
  intros Hf. assert (wf_val (PDict fields) = true) as Hw by (unfold fields_ok in Hf; by bools).
  apply wf_val_dict_iff. unfold full_record. split.
  - rewrite !dkeys_app.
    pose proof (wf_val_dict_keys _ Hw) as Hnd.
    assert (forall k, k ∈ reserved_fields -> k ∉ dkeys fields) as Hni
      by (intros k Hk; apply dget_None; by apply reserved_absent).
    apply NoDup_app. split_and!.
    + by apply (distinct_NoDup ["record_id"; "sequence"; "timestamp"; "event"]).
    + intros k Hk Hin. simpl in Hk. apply elem_of_app in Hin as [Hin|Hin].
      * apply (Hni k); [|done]. unfold reserved_fields. set_solver.
      * simpl in Hin. set_solver.
    + apply NoDup_app. split_and!; [done| |by apply (distinct_NoDup ["prev_hash"; "hash"])].
      intros k Hk Hin. apply (Hni k); [|done]. unfold reserved_fields. simpl in Hin. set_solver.
  - intros k v Hin. apply wf_val_dict_iff in Hw as [_ Hw].
    repeat first [apply elem_of_app in Hin as [Hin|Hin] | apply elem_of_cons in Hin as [[= -> ->]|Hin]
      | by apply elem_of_nil in Hin | done | by eapply Hw].
Qed.

Lemma without_notin k d : dget k d = None -> without k d = d.
Proof.
  unfold without. induction d as [|[j x] d IH]; simpl; [done|]. rewrite (String.eqb_sym j).
  destruct (String.eqb k j); simpl; [done|]. intros Hd. by rewrite IH.
Qed.

Lemma without_app k d e : without k (d ++ e) = without k d ++ without k e.
Proof. apply List.filter_app. Qed.

Lemma full_record_verifies log id now event fields h : fields_ok fields = true ->
  hash_record (audit_body log id now event fields) = Ok h ->
  verify_record (al_count log) (al_last_hash log) (PDict (full_record log id now event fields h)) = Ok h.
Proof.
  intros Hf Hh. assert (forall k, k ∈ reserved_fields -> dget k fields = None) as Hr by (intros; by apply reserved_absent).
  assert (hash_record (full_record log id now event fields h) = Ok h) as Hfull.
  { rewrite <- Hh. unfold hash_record, full_record. rewrite audit_body_app by done.
    rewrite !without_app, (without_notin "hash" fields) by (apply Hr; unfold reserved_fields; set_solver). done. }
  unfold verify_record, integrity. rewrite Hfull. unfold full_record, pget. simpl. rewrite Z.eqb_refl. simpl.
  rewrite dget_app, Hr by (unfold reserved_fields; set_solver). simpl. rewrite String.eqb_refl. simpl.
  rewrite dget_app, Hr by (unfold reserved_fields; set_solver). simpl. by rewrite String.eqb_refl.
Qed.

(** Recording keeps the chain: whatever is read back afterwards verifies. *)
Lemma audit_record_ok log id now event fields w body log' : log_ok log -> fields_ok fields = true ->
  audit_record log id now event fields w = Ok (body, log') ->
  log_ok log' /\ al_count log' = al_count log + 1
  /\ exists h, body = full_record log id now event fields h /\ al_last_hash log' = h.
Proof.
  intros (rs & Hrs & Hv & Hc) Hf. unfold audit_record.
  destruct (hash_record _) as [h|] eqn:Hh; simpl; [|done]. rewrite audit_body_hash by done.
  pose proof (full_record_verifies log id now event fields h Hf Hh) as Hver.
  pose proof (full_record_wf log id now event fields h Hf) as Hw.
  set (r := full_record _ _ _ _ _ _) in *.
  unfold canonical_json. destruct (jsonable (PDict r)) eqn:Hj; cbn [result_bind]; [|done].
  unfold audit_records in Hrs. unfold log_ok, verify_chain in *.
  destruct (al_path log) eqn:Hp.
  - destruct w; [|done]. intros [= <- <-]. cbn [al_count al_last_hash al_path al_file]. split; [|eauto].
    destruct (iter_records_append _ _ r (Hc eq_refl) Hrs Hw Hj) as [Hcl Happ].
    exists (rs ++ [norm (PDict r)]). split_and!; [exact Happ| |done].
    rewrite verify_from_app, Hv. cbn [result_bind verify_from]. by rewrite verify_record_norm, Hver.
  - intros [= <- <-]. cbn [al_count al_last_hash al_path al_file]. split; [|eauto].
    exists (rs ++ [PDict r]). split_and!; [|rewrite verify_from_app, Hv; cbn [result_bind verify_from]; by rewrite Hver|done].
    unfold audit_records. simpl. injection Hrs as <-. by rewrite map_app.
Qed.

(** ** Tamper evidence *)

(** Records that agree on every field. *)
Definition same_record (a b : pyval) : Prop := exists d e, a = PDict d /\ b = PDict e
  /\ forall k, norm <$> dget k d = norm <$> dget k e.

Lemma dget_without_ne k j d : k <> j -> dget k (without j d) = dget k d.
Proof.
  intros Hne. unfold without. induction d as [|[i x] d IH]; simpl; [done|].
  destruct (String.eqb_spec i j) as [->|Hij]; simpl; [|by rewrite IH].
  apply String.eqb_neq in Hne. by rewrite Hne.
Qed.

Lemma verify_same i j p q a b h : wf_val a = true -> wf_val b = true ->
  verify_record i p a = Ok h -> verify_record j q b = Ok h ->
  (same_record a b /\ p = q) \/ exists x y, sha256_collision x y.
Proof.
  intros Hwa Hwb Ha Hb.
  apply verify_record_ok in Ha as (d & -> & Hpd & Hhd & Had & _), Hb as (e & -> & Hpe & Hhe & Hae & _).
  apply hash_record_text in Had as [-> Hjd], Hae as [Heq Hje].
  apply s_app_inj, sha256_hex_inj in Heq as [Heq|Hcol]; [|right; eauto]. left.
  apply canonical_inj in Heq; [|by apply wf_val_without|done|by apply wf_val_without|done].
  assert (forall k, norm <$> dget k d = norm <$> dget k e) as Hk.
  { intros k. destruct (decide (k = "hash")) as [->|Hne].
    - unfold pget in Hhd, Hhe. by destruct (dget "hash" d), (dget "hash" e); simpl in *; subst.
    - rewrite <- (dget_without_ne k "hash" d), <- (dget_without_ne k "hash" e) by done.
      apply norm_dict_get; [..|done]; by apply wf_val_distinct, wf_val_without. }
  split; [exists d, e; by split_and!|].
  specialize (Hk "prev_hash"). unfold pget in Hpd, Hpe.
  destruct (dget "prev_hash" d), (dget "prev_hash" e); simpl in *; subst; simpl in Hk; congruence.
Qed.

Lemma verify_chain_inj l1 l2 n h : Forall (fun v => wf_val v = true) l1 -> Forall (fun v => wf_val v = true) l2 ->
  verify_chain l1 = Ok (n, h) -> verify_chain l2 = Ok (n, h) ->
  Forall2 same_record l1 l2 \/ exists x y, sha256_collision x y.
Proof.
  unfold verify_chain. intros Hw1 Hw2 Hv1 Hv2.
  assert (length l1 = length l2) as Hlen.
  { apply verify_from_count in Hv1, Hv2. lia. }
  revert l2 n h Hw2 Hv1 Hv2 Hlen. induction l1 as [|a l1 IH] using rev_ind; intros l2 n h Hw2 Hv1 Hv2 Hlen.
  - destruct l2; [left; constructor|done].
  - destruct l2 as [|b l2 _] using rev_ind; [rewrite length_app in Hlen; simpl in Hlen; lia|].
    rewrite !length_app in Hlen. simpl in Hlen. apply Forall_app in Hw1 as [Hw1 Ha], Hw2 as [Hw2 Hb].
    rewrite Forall_singleton in Ha, Hb. rewrite verify_from_app in Hv1, Hv2.
    destruct (verify_from 0 GENESIS l1) as [[i p]|] eqn:E1; cbn [result_bind verify_from] in Hv1; [|done].
    destruct (verify_from 0 GENESIS l2) as [[j q]|] eqn:E2; cbn [result_bind verify_from] in Hv2; [|done].
    destruct (verify_record i p a) as [ha|] eqn:Ea; cbn [result_bind] in Hv1; [|done].
    destruct (verify_record j q b) as [hb|] eqn:Eb; cbn [result_bind] in Hv2; [|done].
    injection Hv1 as <- <-. injection Hv2 as Hij ->.
    assert (i = j) as <- by lia.
    destruct (verify_same i i p q a b _ Ha Hb Ea Eb) as [[Hsame <-]|Hcol]; [|by right].
    destruct (IH Hw1 l2 i p Hw2 eq_refl E2 ltac:(lia)) as [Hall|Hcol]; [|by right].
    left. apply Forall2_app; [done|]. by constructor.
Qed.

(** A chain cut after any record still verifies: only a known head reveals a missing tail. *)
Lemma verify_prefix l1 l2 n h : verify_chain (l1 ++ l2) = Ok (n, h) -> exists m g, verify_chain l1 = Ok (m, g).
Proof.
  unfold verify_chain. rewrite verify_from_app. destruct (verify_from 0 GENESIS l1) as [[m g]|]; [eauto|done].
Qed.
End audit.

(** ** Properties *)

Section properties.
Context `{Externals}.

(** Every record the log writes extends a chain that verifies: from a log whose records verify, a
    successful [record] with fields of its caller's own yields a log that again verifies when read
    back (from the file, through JSON, when there is one), with one more record and its hash as head. *)
Theorem audit_record_verifies (log log' : AuditLog) (id : string) (now : Z) (event : string)
    (fields body : dict pyval) (written : bool) :
  log_ok log -> fields_ok fields = true -> audit_record log id now event fields written = Ok (body, log') ->
  log_ok log' /\ audit_verify log' = Ok true /\ al_count log' = al_count log + 1
  /\ hash_record body = Ok (al_last_hash log').
Proof.
  intros Hlog Hf Hr. pose proof Hr as Hr'. apply audit_record_ok in Hr as (Hok & Hn & h & -> & Hh); [|done..].
  split_and!; [done| |done|].
  - destruct Hok as (rs & Hrs & Hv & _). unfold audit_verify. rewrite Hrs. cbn [result_bind]. by rewrite Hv.
  - unfold audit_record in Hr'. destruct (hash_record _) as [h'|] eqn:Eh; cbn [result_bind] in Hr'; [|done].
    rewrite audit_body_hash in Hr' by done.
    apply (full_record_verifies log) in Eh as Hv; [|done]. apply verify_record_ok in Hv as (r & [= <-] & _ & _ & Hhash & _).
    destruct (canonical_json _); cbn [result_bind] in Hr'; [|done].
    destruct (al_path log), written; simplify_eq; simpl in *; congruence.
Qed.

(** A write that fails leaves the log as it was and raises: nothing is recorded, and the caller
    never sees a record that is not in the file. *)
Theorem audit_fails_closed (log : AuditLog) (id : string) (now : Z) (event : string) (fields : dict pyval) :
  al_path log = true -> is_ok (audit_record log id now event fields false) = false.
Proof.
  intros Hp. unfold audit_record. destruct (hash_record _); [|done]. cbn [result_bind].
  destruct (canonical_json _); [|done]. cbn [result_bind]. by rewrite Hp.
Qed.

(** C29. The head of a chain pins its whole history: two lists of records that verify with the same
    count and last hash agree, record by record and field by field, or a collision of SHA-256 is at
    hand. An edit, a reordering or a removal before the head is therefore detected. *)
Theorem tamper_evident (l1 l2 : list pyval) (n : Z) (h : string) :
  Forall (fun v => wf_val v = true) l1 -> Forall (fun v => wf_val v = true) l2 ->
  verify_chain l1 = Ok (n, h) -> verify_chain l2 = Ok (n, h) ->
  Forall2 same_record l1 l2 \/ exists x y, sha256_collision x y.
Proof. apply verify_chain_inj. Qed.

(** Without a known head the tail is not protected: any prefix of a verified chain verifies, so
    deleting the last records of a file goes unnoticed by [verify]. *)
Theorem truncation_undetected (l1 l2 : list pyval) (n : Z) (h : string) :
  verify_chain (l1 ++ l2) = Ok (n, h) -> exists m g, verify_chain l1 = Ok (m, g).
Proof. apply verify_prefix. Qed.
End properties.

Module Witnesses.
Import Sample.
Local Existing Instance externals.

Definition empty_log (path : bool) : AuditLog := mk_audit path true EmptyString [] 0 GENESIS.
Definition log_of (r : result (dict pyval * AuditLog)) : AuditLog :=
  match r with Ok (_, l) => l | Raise _ => empty_log false end.
Definition body_of (r : result (dict pyval * AuditLog)) : dict pyval := match r with Ok (b, _) => b | Raise _ => [] end.
Definition fields : dict pyval := [("agent_id", PStr "b"); ("arguments", PDict [("z", PTuple [PInt 1]); ("a", PStr "x
y")])].
Definition one : result (dict pyval * AuditLog) := audit_record (empty_log true) "r-0" start "decision" fields true.
Definition two : result (dict pyval * AuditLog) := audit_record (log_of one) "r-1" start "execution" [] true.
Definition records : list pyval := match audit_records (log_of two) with Ok rs => rs | Raise _ => [] end.

Lemma Forall_wf l : forallb wf_val l = true -> Forall (fun v => wf_val v = true) l.
Proof. rewrite forallb_forall, Forall_forall. intros Hall v Hv. by apply Hall, list_elem_of_In. Qed.

Lemma empty_log_ok path : log_ok (empty_log path).
Proof. exists []. split_and!; [by destruct path|done|]. intros _. by left. Qed.

Lemma audit_record_verifies_witness : audit_verify (log_of one) = Ok true /\ length records = 2%nat.
Proof.
  split; [|vm_compute; reflexivity].
  destruct (audit_record_verifies (empty_log true) (log_of one) "r-0" start "decision" fields (body_of one) true)
    as (_ & Hv & _ & _); [apply empty_log_ok|vm_compute; reflexivity|vm_compute; reflexivity|exact Hv].
Defined.

Lemma audit_fails_closed_witness : is_ok (audit_record (empty_log true) "r-0" start "decision" fields false) = false.
Proof. apply audit_fails_closed. reflexivity. Defined.

(** The same records with the items of the first one reversed. *)
Definition shuffled : list pyval :=
  match records with PDict d :: rest => PDict (rev d) :: rest | rs => rs end.

Lemma tamper_evident_witness : Forall2 same_record records shuffled \/ exists x y, sha256_collision x y.
Proof.
  apply (tamper_evident records shuffled 2 (al_last_hash (log_of two))).
  - apply Forall_wf. vm_compute. reflexivity.
  - apply Forall_wf. vm_compute. reflexivity.
  - vm_compute. reflexivity.
  - vm_compute. reflexivity.
Defined.

Lemma truncation_undetected_witness : exists m g, verify_chain (firstn 1 records) = Ok (m, g).
Proof.
  apply (truncation_undetected (firstn 1 records) (skipn 1 records) 2 (al_last_hash (log_of two))).
  vm_compute. reflexivity.
Defined.

(** A file whose last line lost its newline verifies on opening; the next record is glued to it. *)
Definition torn : string := s_rev (match s_rev (al_file (log_of one)) with String _ s => s | EmptyString => EmptyString end).
Example torn_newline_breaks_log :
  let reopened := match open_log (Some torn) true with Ok l => l | Raise _ => empty_log false end in
  al_count reopened = 1
  /\ is_ok (audit_verify reopened) = true
  /\ is_ok (audit_verify (log_of (audit_record reopened "r-1" start "execution" [] true))) = false.
Proof. vm_compute. split; [reflexivity|split; reflexivity]. Qed.
End Witnesses.
