(* ===== verification/AuditFleet.v ===== *)
(** * The shared audit trail: src/capgate/audit.py, queries and [PostgresAuditSink]

    Many replicas append to one table, each to a chain of its own. The table is modelled by its primary
    key: the rows of each stream in the order of their sequence numbers. *)

From S2P Require Import Prelude Datetime Regex PyVal Externals Json Request Decision NetAddr Timeutil Capability Contract AuditTrail.

(** ** Queries *)

(** [r.get(k) == v] for every filter, on the values callers filter by, which are texts. *)
Definition record_matches (filters : dict pyval) (r : dict pyval) : bool :=
  forallb (fun '(k, v) => val_eqb (norm (pget k r)) (norm v)) filters.
Definition dicts_of (l : list pyval) : list (dict pyval) := omap (fun v => match v with PDict d => Some d | _ => None end) l.

(** ** The table *)

Record audit_row := mk_row {
  ro_sequence : Z;
  ro_event : string;
  ro_hash : string;
  ro_record : dict pyval;
}.

#[global] Abbreviation audit_table := (gmap string (list audit_row)).

Section fleet.
Context `{Externals}.

(** [AuditLog.query] and [for_decision]; a record that is not an object has no [get]. *)
Definition audit_query (log : AuditLog) (filters : dict pyval) : result (list (dict pyval)) :=
  let? rs := audit_records log in
  let? ds := traverse (fun v => match v with PDict d => Ok d | _ => Raise (AttributeError "get") end) rs in
  Ok (List.filter (record_matches filters) ds).
Definition audit_for_decision (log : AuditLog) (decision_id : string) : result (list (dict pyval)) :=
  audit_query log [("decision_id", PStr decision_id)].

Definition stream_rows (stream : string) (t : audit_table) : list audit_row := default [] (t !! stream).
(** [SELECT record ... WHERE stream_id = %s ORDER BY sequence] *)
Definition _iter_stream (stream : string) (t : audit_table) : list pyval := map (fun r => PDict (ro_record r)) (stream_rows stream t).
(** [SELECT DISTINCT stream_id ... ORDER BY stream_id] *)
Definition _stream_ids (t : audit_table) : list string := sorted_strs (elements (dom t)).
(** [SELECT record ... ORDER BY stream_id, sequence] *)
Definition fleet_iter (t : audit_table) : list (dict pyval) := concat (map (fun s => map ro_record (stream_rows s t)) (_stream_ids t)).
Definition fleet_query (t : audit_table) (filters : dict pyval) : list (dict pyval) := List.filter (record_matches filters) (fleet_iter t).
(** [record->>'decision_id' = %s]; decision ids are texts. *)
Definition fleet_for_decision (t : audit_table) (decision_id : string) : list (dict pyval) :=
  List.filter (fun r => equals_str (pget "decision_id" r) decision_id) (fleet_iter t).
Definition fleet_len (t : audit_table) : Z := Z.of_nat (length (fleet_iter t)).

Fixpoint insert_seq (r : audit_row) (l : list audit_row) : list audit_row :=
  match l with
  | [] => [r]
  | q :: l' => if ro_sequence r <? ro_sequence q then r :: l else q :: insert_seq r l'
  end.

(** INSERT INTO audit; a second row with the key of another is refused. *)
Definition insert_row (stream : string) (r : audit_row) (t : audit_table) : result audit_table :=
  if existsb (fun q => ro_sequence q =? ro_sequence r) (stream_rows stream t)
  then Raise (OSError "duplicate key value violates unique constraint")
  else Ok (<[stream := insert_seq r (stream_rows stream t)]> t).

(** ** A sink *)

Record PostgresAuditSink := mk_sink {
  ps_stream : string;
  ps_include_arguments : bool;
  ps_count : Z;
  ps_last_hash : string;
}.

(** What the database gives back of a JSON value it was given, or [None] when it refuses the value. *)
Variable jsonb : dict pyval -> option (dict pyval).

Definition sink_open (stream : string) (include_arguments : bool) (t : audit_table) : result PostgresAuditSink :=
  let? (count, last) := verify_chain (_iter_stream stream t) in
  Ok (mk_sink stream include_arguments count last).

Definition sink_body (s : PostgresAuditSink) (record_id : string) (now : Z) (event : string) (fields : dict pyval) : dict pyval :=
  dset "prev_hash" (PStr (ps_last_hash s))
    (dupdate [("record_id", PStr record_id); ("stream_id", PStr (ps_stream s)); ("sequence", PInt (ps_count s));
              ("timestamp", PStr (isoformat now)); ("event", PStr event)] fields).

Definition sink_record (s : PostgresAuditSink) (t : audit_table) (record_id : string) (now : Z) (event : string) (fields : dict pyval) :
    result (dict pyval * PostgresAuditSink * audit_table) :=
  let body := sink_body s record_id now event fields in
  let? h := hash_record body in
  let body := dset "hash" (PStr h) body in
  match jsonb body with
  | None => Raise (OSError "the value is not JSON")
  | Some stored =>
      let? t' := insert_row (ps_stream s) (mk_row (ps_count s) event h stored) t in
      Ok (body, mk_sink (ps_stream s) (ps_include_arguments s) (ps_count s + 1) h, t')
  end.

Fixpoint verify_streams (t : audit_table) (streams : list string) : result bool :=
  match streams with
  | [] => Ok true
  | s :: streams' => let? _ := verify_chain (_iter_stream s t) in verify_streams t streams'
  end.
Definition fleet_verify (t : audit_table) : result bool := verify_streams t (_stream_ids t).

(** [open_audit]: which sink a target names; the host and process number make the default stream. *)
Inductive audit_target :=
| FileTarget (path : option string)
| PostgresTarget (dsn stream : string).
Definition open_audit (target stream_id : option string) (hostname : string) (pid : Z) : audit_target :=
  match target with
  | Some dsn =>
      if any_prefix ["postgresql://"; "postgres://"] dsn
      then PostgresTarget dsn (match stream_id with
                               | Some s => if s_is_empty s then hostname +:+ "-" +:+ show_Z pid else s
                               | None => hostname +:+ "-" +:+ show_Z pid
                               end)
      else FileTarget (if s_is_empty dsn then None else Some dsn)
  | None => FileTarget None
  end.
End fleet.

(** ** Appending keeps every chain *)

Section chains.
Context `{Externals}.
Variable jsonb : dict pyval -> option (dict pyval).

(** A sink at the end of its stream: what the table holds of it verifies, ends where the sink says, and
    has the sequence numbers before the sink's. *)
Record at_end (s : PostgresAuditSink) (t : audit_table) : Prop := {
  ae_chain : verify_chain (_iter_stream (ps_stream s) t) = Ok (ps_count s, ps_last_hash s);
  ae_rows : Forall (fun r => ro_sequence r < ps_count s) (stream_rows (ps_stream s) t);
}.

(** Fields of a caller: none of the keys the sink sets. *)
Definition sink_fields_ok (fields : dict pyval) : bool := fields_ok fields && negb (dmem "stream_id" fields).

Lemma norm_perm d e : d ≡ₚ e -> NoDup (dkeys d) -> norm (PDict d) = norm (PDict e).
Proof.
  intros Hp Hd. cbn [norm]. f_equal. apply sort_items_perm; [by rewrite Hp|]. by rewrite (dkeys_map norm).
Qed.

(** The log whose next record is the sink's. *)
Definition as_log (s : PostgresAuditSink) : AuditLog := mk_audit false true EmptyString [] (ps_count s) (ps_last_hash s).
Definition with_stream (s : PostgresAuditSink) (fields : dict pyval) : dict pyval := ("stream_id", PStr (ps_stream s)) :: fields.

Lemma with_stream_ok s fields : sink_fields_ok fields = true -> fields_ok (with_stream s fields) = true.
Proof.
  unfold sink_fields_ok, fields_ok, with_stream. rewrite !andb_true_iff. intros [[Hw Hr] Hs]. split.
  - apply wf_val_dict_iff in Hw as [Hd Hw]. apply wf_val_dict_iff. split.
    + cbn [dkeys map fst]. apply NoDup_cons. split; [|done]. apply negb_true_iff in Hs.
      unfold dkeys. intros Hin%dmem_spec. congruence.
    + intros k v [[= -> ->]|Hin]%elem_of_cons; [done|by eapply Hw].
  - apply forallb_forall. intros k Hk. apply (proj1 (forallb_forall _ _) Hr) in Hk as Hk'.
    unfold dmem in *. cbn [dget]. destruct (String.eqb_spec k "stream_id") as [->|]; [|done].
    cbn in Hk. repeat (destruct Hk as [Hk|Hk]; [discriminate Hk|]). done.
Qed.

Lemma sink_body_perm s id now event fields : sink_fields_ok fields = true ->
  sink_body s id now event fields ≡ₚ audit_body (as_log s) id now event (with_stream s fields).
Proof.
  intros Hf. rewrite audit_body_app by (by apply with_stream_ok). unfold sink_body.
  unfold sink_fields_ok in Hf. apply andb_true_iff in Hf as [Hf Hs]. apply negb_true_iff in Hs.
  assert (forall k, k ∈ reserved_fields -> k ∉ dkeys fields) as Hr by (intros k Hk; apply dget_None; by apply reserved_absent).
  assert ("stream_id" ∉ dkeys fields) as Hst by (intros Hin%dmem_spec; congruence).
  assert (NoDup (dkeys fields)) as Hnd by (unfold fields_ok in Hf; apply wf_val_dict_keys; by bools).
  rewrite dupdate_distinct.
  - rewrite dset_notin.
    + cbn [app as_log al_count al_last_hash with_stream]. apply perm_skip. by rewrite perm_swap, (perm_swap _ ("stream_id", _)), (perm_swap _ ("stream_id", _)).
    + rewrite dkeys_app, elem_of_app. intros [Hin|Hin]; [|revert Hin; apply Hr; unfold reserved_fields; set_solver].
      cbn in Hin. repeat (apply elem_of_cons in Hin as [Hin|Hin]; [done|]). by apply elem_of_nil in Hin.
  - apply NoDup_app. split_and!; [| |done].
    + by apply (distinct_NoDup ["record_id"; "stream_id"; "sequence"; "timestamp"; "event"]).
    + intros k Hk. cbn in Hk. repeat (apply elem_of_cons in Hk as [->|Hk]; [done || (apply Hr; unfold reserved_fields; set_solver)|]).
      by apply elem_of_nil in Hk.
Qed.

(** A value without floats, whose text is the same after a visit to the database. *)
Fixpoint float_free (v : pyval) : bool :=
  match v with
  | PFloat _ => false
  | PList l | PTuple l => forallb float_free l
  | PDict d => forallb (fun '(_, x) => float_free x) d
  | _ => true
  end.
Hypothesis Hjsonb : forall d e, float_free (PDict d) = true -> jsonb d = Some e -> PDict e = norm (PDict d).

Lemma insert_seq_last r l : Forall (fun q => ro_sequence q < ro_sequence r) l -> insert_seq r l = l ++ [r].
Proof.
  induction 1 as [|q l Hq Hl IH]; [done|]. cbn [insert_seq app]. rewrite (proj2 (Z.ltb_ge _ _)) by lia. by rewrite IH.
Qed.

Lemma float_free_body s id now event fields h : sink_fields_ok fields = true -> float_free (PDict fields) = true ->
  float_free (PDict (full_record (as_log s) id now event (with_stream s fields) h)) = true.
Proof.
  intros Hf Hfree. unfold full_record, with_stream. cbn [float_free] in *. rewrite !forallb_app. cbn [forallb float_free].
  by rewrite Hfree.
Qed.

(** What the database keeps of a record verifies at the end of the chain. *)
Lemma stored_verifies s id now event fields h stored :
  sink_fields_ok fields = true -> float_free (PDict fields) = true ->
  hash_record (sink_body s id now event fields) = Ok h ->
  jsonb (dset "hash" (PStr h) (sink_body s id now event fields)) = Some stored ->
  verify_record (ps_count s) (ps_last_hash s) (PDict stored) = Ok h.
Proof.
  intros Hf Hfree Hh Hst. pose proof (with_stream_ok s fields Hf) as Hok.
  pose proof (sink_body_perm s id now event fields Hf) as Hperm. set (log := as_log s) in *.
  set (body := sink_body s id now event fields) in *. set (abody := audit_body log id now event (with_stream s fields)) in *.
  pose proof (full_record_wf log id now event _ h Hok) as Hw. pose proof (wf_val_dict_keys _ Hw) as Hnd.
  pose proof (audit_body_hash log id now event _ h Hok) as Hfull. fold abody in Hfull.
  assert (dget "hash" abody = None) as Hno.
  { unfold abody. rewrite audit_body_app, !dget_app, (reserved_absent (with_stream s fields)) by (done || unfold reserved_fields; set_solver). done. }
  assert (dget "hash" body = None) as Hno' by (apply dget_None; apply dget_None in Hno; unfold dkeys in *; by rewrite Hperm).
  assert (dset "hash" (PStr h) body ≡ₚ full_record log id now event (with_stream s fields) h) as Hp.
  { rewrite <- Hfull, !dset_notin by (by apply dget_None). by rewrite Hperm. }
  assert (NoDup (dkeys abody)) as Hnda.
  { rewrite <- Hfull, dset_notin in Hnd by (by apply dget_None). rewrite dkeys_app in Hnd. by apply NoDup_app in Hnd as [? _]. }
  assert (norm (PDict body) = norm (PDict abody)) as Hn by (apply norm_perm; [done|]; unfold dkeys in *; by rewrite Hperm).
  assert (jsonable (PDict abody) = true /\ hash_record abody = Ok h) as [Hj Hah].
  { revert Hh. unfold hash_record, canonical_json, canonical. rewrite !(without_notin "hash") by done.
    rewrite <- (jsonable_norm (PDict body)), <- (jsonable_norm (PDict abody)), Hn. by destruct (jsonable _). }
  pose proof (full_record_verifies log id now event _ h Hok Hah) as Hver.
  assert (float_free (PDict (dset "hash" (PStr h) body)) = true) as Hff.
  { pose proof (float_free_body s id now event fields h Hf Hfree) as Hff. cbn [float_free] in *. fold log in Hff.
    apply forallb_forall. intros x Hx. apply (proj1 (forallb_forall _ _) Hff). apply list_elem_of_In. apply list_elem_of_In in Hx.
    by rewrite <- Hp. }
  rewrite (Hjsonb _ _ Hff Hst), (norm_perm _ _ Hp) by (unfold dkeys in *; by rewrite Hp).
  rewrite verify_record_norm; [exact Hver|done|].
  rewrite <- Hfull, dset_notin by (by apply dget_None). cbn [jsonable] in *. rewrite forallb_app, Hj. done.
Qed.

Lemma stream_rows_insert k l (t : audit_table) : stream_rows k (<[k := l]> t) = l.
Proof. unfold stream_rows. by rewrite lookup_insert_eq. Qed.

Lemma sink_record_ok s t id now event fields body s' t' :
  at_end s t -> sink_fields_ok fields = true -> float_free (PDict fields) = true ->
  sink_record jsonb s t id now event fields = Ok (body, s', t') ->
  at_end s' t' /\ ps_stream s' = ps_stream s
  /\ (forall q, ps_stream q <> ps_stream s -> stream_rows (ps_stream q) t' = stream_rows (ps_stream q) t)
  /\ dom t' = {[ps_stream s]} ∪ dom t.
Proof.
  intros [Hchain Hrows] Hf Hfree. unfold sink_record. destruct (hash_record _) as [h|] eqn:Hh; cbn [result_bind]; [|done].
  destruct (jsonb _) as [stored|] eqn:Hst; [|done]. unfold insert_row. destruct (existsb _ _); cbn [result_bind]; [done|].
  intros [= _ <- <-]. cbn [ps_stream ps_count ps_last_hash].
  rewrite insert_seq_last by done. split_and!; [|done| |apply dom_insert_L].
  - split; cbn [ps_stream ps_count ps_last_hash]; unfold _iter_stream; rewrite stream_rows_insert.
    + rewrite map_app. unfold verify_chain. rewrite verify_from_app. unfold verify_chain, _iter_stream in Hchain.
      rewrite Hchain. cbn [result_bind map verify_from ro_record].
      by rewrite (stored_verifies s id now event fields h stored Hf Hfree Hh Hst).
    + apply Forall_app. split; [|constructor; [cbn; lia|constructor]]. eapply Forall_impl; [exact Hrows|]. cbn. lia.
  - intros q Hq. unfold stream_rows. by rewrite lookup_insert_ne.
Qed.

(** *** A fleet *)

(** One replica records; the others and the table are as they were. *)
Inductive fleet_step : gmap string PostgresAuditSink * audit_table -> gmap string PostgresAuditSink * audit_table -> Prop :=
| replica_records stream s sinks t id now event fields body s' t' :
    sinks !! stream = Some s -> sink_fields_ok fields = true -> float_free (PDict fields) = true ->
    sink_record jsonb s t id now event fields = Ok (body, s', t') ->
    fleet_step (sinks, t) (<[stream := s']> sinks, t').

Record fleet_ok (f : gmap string PostgresAuditSink * audit_table) : Prop := {
  fl_sinks stream s : f.1 !! stream = Some s -> ps_stream s = stream /\ at_end s f.2;
  fl_streams : (dom f.2 : gset string) ⊆ dom f.1;
}.

Lemma fleet_step_ok f g : fleet_ok f -> fleet_step f g -> fleet_ok g.
Proof.
  intros [Hs Hd] Hstep. destruct Hstep as [stream s sinks t id now event fields body s' t' Hk Hf Hfree Hrec]. cbn [fst snd] in *.
  destruct (Hs _ _ Hk) as [<- He]. destruct (sink_record_ok _ _ _ _ _ _ _ _ _ He Hf Hfree Hrec) as (He' & Hst & Hother & Hdom).
  split; cbn [fst snd].
  - intros k q Hq. apply lookup_insert_Some in Hq as [[<- <-]|[Hne Hq]]; [by split|].
    destruct (Hs _ _ Hq) as [<- [Hc Hr]]. split; [done|].
    assert (stream_rows (ps_stream q) t' = stream_rows (ps_stream q) t) as Heq by (apply Hother; congruence).
    split; [|by rewrite Heq]. unfold _iter_stream in *. by rewrite Heq.
  - rewrite Hdom, dom_insert_L. set_solver.
Qed.

Lemma fleet_verifies f : fleet_ok f -> fleet_verify f.2 = Ok true.
Proof.
  intros [Hs Hd]. unfold fleet_verify.
  assert (forall k, k ∈ _stream_ids f.2 -> is_Some (f.1 !! k)) as Hall.
  { intros k Hk. unfold _stream_ids, sorted_strs in Hk. rewrite merge_sort_Permutation in Hk.
    apply elem_of_elements in Hk. by apply elem_of_dom, Hd. }
  induction (_stream_ids f.2) as [|k l IH]; [done|]. cbn [verify_streams].
  destruct (Hall k) as [s Hk]; [by apply elem_of_cons; left|]. destruct (Hs _ _ Hk) as [<- [Hc _]]. rewrite Hc. cbn [result_bind].
  apply IH. intros j Hj. apply Hall, elem_of_cons. by right.
Qed.

(** Replicas do not disturb each other: from a fleet in which every sink is at the end of its stream,
    whatever records the replicas append, in whatever interleaving, the whole table verifies. *)
Theorem fleet_appends_verify f g : fleet_ok f -> rtc fleet_step f g -> fleet_verify g.2 = Ok true.
Proof.
  intros Hf Hrun. apply fleet_verifies. induction Hrun as [f|f h g Hstep Hrun IH]; [done|].
  apply IH. by apply (fleet_step_ok f).
Qed.
End chains.

Module Witnesses.
#[local] Existing Instance Sample.externals.

(** A database that keeps the value and sorts its keys. *)
Definition keeping (d : dict pyval) : option (dict pyval) := match norm (PDict d) with PDict e => Some e | _ => None end.
Lemma keeping_exact d e : float_free (PDict d) = true -> keeping d = Some e -> PDict e = norm (PDict d).
Proof. intros _. unfold keeping. cbn [norm]. by intros [= <-]. Qed.

Definition sink (stream : string) : PostgresAuditSink := mk_sink stream true 0 GENESIS.
Definition start : gmap string PostgresAuditSink * audit_table := ({["h1" := sink "h1"; "h2" := sink "h2"]}, ∅).

Lemma start_ok : fleet_ok start.
Proof.
  split; cbn [fst snd start]; [|set_solver].
  intros k s Hk. apply lookup_insert_Some in Hk as [[<- <-]|[_ Hk]]; [by repeat split|].
  apply lookup_singleton_Some in Hk as [<- <-]. by repeat split.
Qed.

Definition fields (agent : string) : dict pyval := [("agent_id", PStr agent); ("decision_id", PStr "d1")].
Definition no_sink : dict pyval * PostgresAuditSink * audit_table := ([], sink EmptyString, ∅).
Definition recorded (s : PostgresAuditSink) (t : audit_table) (agent : string) : dict pyval * PostgresAuditSink * audit_table :=
  match sink_record keeping s t "r" Sample.start "decision" (fields agent) with Ok x => x | Raise _ => no_sink end.

Definition one := recorded (sink "h1") ∅ "a".
Definition two := recorded (sink "h2") one.2 "b".

Lemma one_ok : sink_record keeping (sink "h1") ∅ "r" Sample.start "decision" (fields "a") = Ok (one.1.1, one.1.2, one.2).
Proof. vm_compute. reflexivity. Qed.
Lemma two_ok : sink_record keeping (sink "h2") one.2 "r" Sample.start "decision" (fields "b") = Ok (two.1.1, two.1.2, two.2).
Proof. vm_compute. reflexivity. Qed.

Example table : (_stream_ids two.2, fleet_len two.2, length (fleet_for_decision two.2 "d1"),
  length (fleet_query two.2 [("agent_id", PStr "b")]), fleet_verify two.2) = (["h1"; "h2"], 2, 2%nat, 1%nat, Ok true).
Proof. vm_compute. reflexivity. Qed.

(** A record changed in the table breaks its stream. *)
Definition edit (r : audit_row) : audit_row :=
  mk_row (ro_sequence r) (ro_event r) (ro_hash r) (dset "agent_id" (PStr "x") (ro_record r)).
Example edited : fleet_verify (fmap (map edit) two.2) = integrity 0 "contents modified".
Proof. vm_compute. reflexivity. Qed.

Lemma fleet_appends_verify_witness : fleet_verify two.2 = Ok true.
Proof.
  apply (fleet_appends_verify keeping keeping_exact start
    (<["h2" := two.1.2]> (<["h1" := one.1.2]> start.1), two.2) start_ok).
  eapply rtc_l; [refine (replica_records keeping "h1" (sink "h1") start.1 ∅ _ _ _ _ _ _ _ _ _ _ one_ok); reflexivity|].
  eapply rtc_l; [refine (replica_records keeping "h2" (sink "h2") _ one.2 _ _ _ _ _ _ _ _ _ _ two_ok); reflexivity|].
  apply rtc_refl.
Defined.
End Witnesses.
