(* ===== verification/Effects.v ===== *)
(** * Effects

    The state the running harness reads and writes, and the monad its operations live in: a state
    monad with exceptions in which a raised exception keeps the effects made before it. *)

From S2P Require Import Prelude Datetime Regex PyVal Externals Json Request Decision NetAddr Timeutil Capability Contract Policy State AuditTrail.

(** The tools an executor is configured with, by name; they live outside the program. The outcome of
    the [n]-th invocation of the process is an output, or the text of the exception it raised. *)
Class Tools := {
  tool_names : list string;
  tool_outcome : string -> dict pyval -> nat -> pyval + string;
}.

Record world (S : Type) := mk_world {
  w_store : S;
  w_audit : AuditLog;
  w_uuids : nat;                             (* uuid4 values drawn so far *)
  w_clock : nat;                             (* readings of the injected clock *)
  w_system : nat;                            (* readings of the system clock *)
  w_writes : nat;                            (* writes to the audit file *)
  w_ledger : list (string * dict pyval);     (* tool invocations, in order *)
}.
Arguments mk_world {S}.
Arguments w_store {S}. Arguments w_audit {S}. Arguments w_uuids {S}. Arguments w_clock {S}.
Arguments w_system {S}. Arguments w_writes {S}. Arguments w_ledger {S}.

Section monad.
Context {S : Type}.

Definition M (A : Type) : Type := world S -> result A * world S.
Definition ret {A} (a : A) : M A := fun w => (Ok a, w).
Definition raise {A} (e : exn) : M A := fun w => (Raise e, w).
Definition bind {A B} (m : M A) (f : A -> M B) : M B := fun w =>
  match m w with
  | (Ok a, w') => f a w'
  | (Raise e, w') => (Raise e, w')
  end.
Definition lift {A} (r : result A) : M A := fun w => (r, w).
(** [try: m except ...: handler] *)
Definition try_except {A} (m : M A) (handler : exn -> M A) : M A := fun w =>
  match m w with
  | (Ok a, w') => (Ok a, w')
  | (Raise e, w') => handler e w'
  end.
Definition with_store (f : S -> S) (w : world S) : world S :=
  mk_world (f (w_store w)) (w_audit w) (w_uuids w) (w_clock w) (w_system w) (w_writes w) (w_ledger w).
Definition read_store {A} (f : S -> A) : M A := fun w => (Ok (f (w_store w)), w).
Definition write_store (f : S -> S) : M unit := fun w => (Ok tt, with_store f w).
Definition update_store {A} (f : S -> A * S) : M A := fun w =>
  (Ok (f (w_store w)).1, with_store (fun s => (f s).2) w).

Definition call_tool `{Tools} (name : string) (args : dict pyval) : M (pyval + string) := fun w =>
  (Ok (tool_outcome name args (length (w_ledger w))),
   mk_world (w_store w) (w_audit w) (w_uuids w) (w_clock w) (w_system w) (w_writes w) (w_ledger w ++ [(name, args)])).

Context `{Externals}.

Definition fresh_uuid : M string := fun w =>
  (Ok (uuid4 (w_uuids w)),
   mk_world (w_store w) (w_audit w) (Datatypes.S (w_uuids w)) (w_clock w) (w_system w) (w_writes w) (w_ledger w)).
Definition read_clock : M Z := fun w =>
  (Ok (clock_at (w_clock w)),
   mk_world (w_store w) (w_audit w) (w_uuids w) (Datatypes.S (w_clock w)) (w_system w) (w_writes w) (w_ledger w)).

(** [self.audit.record(event, **fields)]: a failed write raises and leaves the log as it was. *)
Definition audit (event : string) (fields : dict pyval) : M unit := fun w =>
  match audit_record (w_audit w) (uuid4 (w_uuids w)) (system_clock_at (w_system w)) event fields (write_ok (w_writes w)) with
  | Ok (_, log) =>
      (Ok tt, mk_world (w_store w) log (Datatypes.S (w_uuids w)) (w_clock w) (Datatypes.S (w_system w))
                (Datatypes.S (w_writes w)) (w_ledger w))
  | Raise e =>
      (Raise e, mk_world (w_store w) (w_audit w) (Datatypes.S (w_uuids w)) (w_clock w) (Datatypes.S (w_system w))
                  (Datatypes.S (w_writes w)) (w_ledger w))
  end.

Context `{StateStore S}.

(** [with self.state.transaction(): m] *)
Definition transaction {A} (m : M A) : M A := fun w =>
  match m (with_store tx_begin w) with
  | (Ok a, w') => (Ok a, with_store tx_commit w')
  | (Raise e, w') => (Raise e, with_store tx_abort w')
  end.
End monad.
Arguments M : clear implicits.

Declare Scope eff_scope.
Delimit Scope eff_scope with eff.
Notation "'let!' x ':=' m 'in' k" := (bind m (fun x => k))
  (at level 10, x pattern, m at level 100, k at level 200) : eff_scope.
Notation "m ;! k" := (bind m (fun _ => k))
  (at level 199, right associativity) : eff_scope.
#[global] Open Scope eff_scope.

(** ** Reasoning about runs *)

Section lemmas.
Context {S : Type}.

Lemma bind_ok {A B} (m : M S A) (f : A -> M S B) w b w' : bind m f w = (Ok b, w') ->
  exists a w1, m w = (Ok a, w1) /\ f a w1 = (Ok b, w').
Proof. unfold bind. destruct (m w) as [[a|e] w1] eqn:E; [eauto|done]. Qed.

Lemma bind_raise {A B} (m : M S A) (f : A -> M S B) w e w' : bind m f w = (Raise e, w') ->
  m w = (Raise e, w') \/ exists a w1, m w = (Ok a, w1) /\ f a w1 = (Raise e, w').
Proof. unfold bind. destruct (m w) as [[a|e'] w1] eqn:E; [eauto|]. intros [= -> ->]. by left. Qed.

Lemma bind_step {A B} (m : M S A) (f : A -> M S B) w a w1 : m w = (Ok a, w1) -> bind m f w = f a w1.
Proof. unfold bind. by intros ->. Qed.

Lemma try_except_ok {A} (m : M S A) h w a w' : try_except m h w = (Ok a, w') ->
  m w = (Ok a, w') \/ exists e w1, m w = (Raise e, w1) /\ h e w1 = (Ok a, w').
Proof. unfold try_except. destruct (m w) as [[x|e] w1]; [|eauto]. intros [= -> ->]. by left. Qed.

Context `{Externals} `{StateStore S}.

(** The audit log after a record of [event] with [fields]. *)
Definition logged (w : world S) (event : string) (fields : dict pyval) (log : AuditLog) : Prop :=
  exists body, audit_record (w_audit w) (uuid4 (w_uuids w)) (system_clock_at (w_system w)) event fields
    (write_ok (w_writes w)) = Ok (body, log).

Lemma audit_ok event fields (w : world S) u w' : audit event fields w = (Ok u, w') ->
  logged w event fields (w_audit w') /\ w_store w' = w_store w /\ w_ledger w' = w_ledger w.
Proof.
  unfold audit, logged. destruct (audit_record _ _ _ _ _ _) as [[body log]|e] eqn:E; [|done].
  intros [= _ <-]. simpl. eauto.
Qed.

Lemma audit_raise event fields (w : world S) e w' : audit event fields w = (Raise e, w') ->
  w_audit w' = w_audit w /\ w_store w' = w_store w /\ w_ledger w' = w_ledger w.
Proof.
  unfold audit. destruct (audit_record _ _ _ _ _ _) as [[body log]|e'] eqn:E; [done|].
  by intros [= _ <-].
Qed.

Lemma audit_clock event fields (w : world S) : w_clock (audit event fields w).2 = w_clock w.
Proof. unfold audit. by destruct (audit_record _ _ _ _ _ _) as [[body log]|e]. Qed.

(** Two worlds with the same store, audit log and ledger. *)
Definition same (w w' : world S) : Prop :=
  w_store w' = w_store w /\ w_audit w' = w_audit w /\ w_ledger w' = w_ledger w.

Lemma read_clock_ok (w : world S) t w' : read_clock w = (Ok t, w') -> t = clock_at (w_clock w) /\ same w w'.
Proof. by intros [= <- <-]. Qed.

Lemma fresh_uuid_ok (w : world S) i w' : fresh_uuid w = (Ok i, w') -> i = uuid4 (w_uuids w) /\ same w w'.
Proof. by intros [= <- <-]. Qed.

Lemma lift_ok {A} (r : result A) (w : world S) a w' : lift r w = (Ok a, w') -> r = Ok a /\ w' = w.
Proof. unfold lift. by intros [= -> <-]. Qed.

Lemma transaction_ok {A} (m : M S A) w (a : A) w' : transaction m w = (Ok a, w') ->
  exists w1, m (with_store tx_begin w) = (Ok a, w1) /\ w' = with_store tx_commit w1.
Proof. unfold transaction. destruct (m _) as [[x|e] w1]; [|done]. intros [= <- <-]. eauto. Qed.

Lemma transaction_raise {A} (m : M S A) w e w' : transaction m w = (Raise e, w') ->
  exists w1, m (with_store tx_begin w) = (Raise e, w1) /\ w' = with_store tx_abort w1.
Proof. unfold transaction. destruct (m _) as [[x|e'] w1]; [done|]. intros [= <- <-]. eauto. Qed.

Lemma begin_view (w : world S) : store_wf (w_store w) ->
  store_wf (w_store (with_store tx_begin w)) /\ view (w_store (with_store tx_begin w)) = view (w_store w).
Proof. apply tx_begin_spec. Qed.

Lemma commit_view (w : world S) : store_wf (w_store w) ->
  store_wf (w_store (with_store tx_commit w)) /\ view (w_store (with_store tx_commit w)) = view (w_store w).
Proof. apply tx_commit_spec. Qed.
End lemmas.


(** Take the first bind of a run apart. *)
Tactic Notation "mbind" hyp(Hrun) "as" simple_intropattern(a) ident(w1) ident(Hm) :=
  apply bind_ok in Hrun as (a & w1 & Hm & Hrun); cbn beta iota in Hrun.
