(* ===== verification/Interceptor.v ===== *)
(** * The interception point: src/capgate/interceptor.py

    Every request is decided, counted and audited here, inside one transaction of the state store. *)

From S2P Require Import Prelude Datetime Regex PyVal Externals Json Request Decision NetAddr Timeutil Capability Contract Policy State AuditTrail Effects.

(** What a harness is configured with; the first two come from [build_bindings]. *)
Record config := mk_config {
  cf_contracts : dict TaskContract;
  cf_bindings : dict string;
  cf_simulate : bool;
  cf_signing_key : string;
  cf_grant_ttl : Z;
}.

Definition outcome (d : DecisionType) : string :=
  match d with ALLOW => "authorized" | DENY => "blocked" | ESCALATE => "awaiting_approval" end.

(** The text of a field that is a string once the request is known to be well formed. *)
Definition text_of (v : pyval) : string := py_str v.

Section interceptor.
Context {S : Type} `{StateStore S} `{Externals}.
Variable cf : config.

Definition usage_for (r : ActionRequest) : M S Usage :=
  match problems r with
  | _ :: _ => ret (mk_usage 0 0)
  | [] =>
      match dget (text_of (rq_agent_id r)) (cf_bindings cf) with
      | None => ret (mk_usage 0 0)
      | Some id => read_store (fun s => mk_usage (steps id s) (calls (text_of (rq_agent_id r)) (text_of (rq_action r)) s))
      end
  end.

(** [self.bindings.get(request.agent_id) if isinstance(request.agent_id, str) else None] *)
Definition contract_id_of (r : ActionRequest) : option string :=
  match rq_agent_id r with PStr a => dget a (cf_bindings cf) | _ => None end.

Definition contract_of (id : option string) : option TaskContract :=
  i ← id; if s_is_empty i then None else dget i (cf_contracts cf).

(** The fields of the audit record of a decision. *)
Definition decision_fields (include_arguments : bool) (d : Decision) : dict pyval :=
  without "timestamp" (decision_to_dict d)
  ++ [("requested_contract_id", rq_contract_id (d_request d))]
  ++ (if include_arguments then [("arguments", PDict (arguments_copy (d_request d)))] else [])
  ++ [("mode", PStr (if cf_simulate cf then "simulate" else "enforce")); ("outcome", PStr (outcome (d_decision d)))].

Definition include_arguments : M S bool := fun w => (Ok (al_include_arguments (w_audit w)), w).

(** The decision an evaluation becomes. *)
Definition decision_of (id : string) (now : Z) (r : ActionRequest) (ev : PolicyEvaluation)
    (delegated_by parent approved_by : option string) : Decision :=
  let cid := contract_id_of r in
  mk_decision id r (ev_decision ev) (ev_reason_code ev) (ev_detail ev) cid
    (tc_content_hash <$> contract_of cid) (ev_capability ev) (ev_rule ev) now delegated_by parent approved_by.

Definition record (r : ActionRequest) (ev : PolicyEvaluation) (delegated_by parent approved_by : option string) :
    M S Decision :=
  transaction (
    let! id := fresh_uuid in
    let! now := read_clock in
    let d := decision_of id now r ev delegated_by parent approved_by in
    (if allowed d then write_store (add_call (text_of (rq_agent_id r)) (text_of (rq_action r))) else ret tt) ;!
    let! inc := include_arguments in
    audit "decision" (decision_fields inc d) ;!
    ret d).

Definition decide (r : ActionRequest) (delegated_by parent : option string) : M S (Decision * Usage) :=
  transaction (
    let! usage := usage_for r in
    let! now := read_clock in
    let! ev := lift (evaluate r (cf_contracts cf) (cf_bindings cf) usage now) in
    (match contract_id_of r with Some id => write_store (add_step id) | None => ret tt end) ;!
    let! d := record r ev delegated_by parent None in
    ret (d, usage)).

(** [agent_id or "<unauthenticated>"]; the arguments and contract are left out. *)
Definition reject_before_policy (agent_id action : pyval) (reason : ReasonCode) (detail : string) : M S Decision :=
  let! r := lift (make_request (if truthy agent_id then agent_id else PStr "<unauthenticated>")
                    (match action with PStr a => PStr a | _ => PStr "invalid" end) (PDict []) PNone) in
  record r (mk_evaluation DENY reason detail None (Some "identity:authentication")) None None None.
End interceptor.

(** ** What a decision does to the state *)

Section effects.
Context {S : Type} `{StateStore S} `{Externals}.
Variable cf : config.

(** The counters that [usage_for] reads. *)
Definition usage_of (r : ActionRequest) (a : authority) : Usage :=
  match problems r with
  | _ :: _ => mk_usage 0 0
  | [] =>
      match dget (text_of (rq_agent_id r)) (cf_bindings cf) with
      | None => mk_usage 0 0
      | Some id => mk_usage (counter id (a_steps a)) (counter (text_of (rq_agent_id r), text_of (rq_action r)) (a_calls a))
      end
  end.

(** An allowed decision counts a call; a fresh proposal of a bound agent counts a step. *)
Definition count_call (d : Decision) (a : authority) : authority :=
  if allowed d then auth_add_call (text_of (rq_agent_id (d_request d))) (text_of (rq_action (d_request d))) a else a.
Definition count_step (r : ActionRequest) (a : authority) : authority :=
  match contract_id_of cf r with Some id => auth_add_step id a | None => a end.

Lemma usage_for_ok r (w : world S) u w' : store_wf (w_store w) -> usage_for cf r w = (Ok u, w') ->
  u = usage_of r (view (w_store w)) /\ w' = w.
Proof.
  unfold usage_for, usage_of. intros Hwf Hrun. destruct (problems r).
  - destruct (dget _ (cf_bindings cf)) as [id|].
    + unfold read_store in Hrun. injection Hrun as <- <-. by rewrite steps_spec, calls_spec.
    + by injection Hrun as <- <-.
  - by injection Hrun as <- <-.
Qed.

(** The parts of the world a recorded decision leaves alone, and what it adds to the audit log. *)
Record recorded (d : Decision) (w w' : world S) : Prop := {
  rec_wf : store_wf (w_store w');
  rec_ledger : w_ledger w' = w_ledger w;
  rec_log : exists v : world S, w_audit v = w_audit w
    /\ logged v "decision" (decision_fields cf (al_include_arguments (w_audit w)) d) (w_audit w');
}.

(** The decision is stamped by the one reading of the clock that recording it takes. *)
Lemma record_at r ev db parent ap (w : world S) d w' : record cf r ev db parent ap w = (Ok d, w') ->
  d = decision_of cf (uuid4 (w_uuids w)) (clock_at (w_clock w)) r ev db parent ap /\ w_clock w' = Datatypes.S (w_clock w).
Proof.
  intros Hrun. unfold record in Hrun. apply transaction_ok in Hrun as (wc & Hrun & ->). unfold bind in Hrun. cbn in Hrun.
  set (dd := decision_of cf _ _ _ _ _ _ _) in *.
  destruct (allowed dd); cbn in Hrun;
    (destruct (audit _ _ _) as [[u|e] w1] eqn:E; [|done]); injection Hrun as <- <-; (split; [done|]);
    cbn [with_store w_clock]; apply (f_equal (fun y => w_clock y.2)) in E; rewrite audit_clock in E; exact (eq_sym E).
Qed.

Lemma record_ok r ev db parent ap (w : world S) d w' : store_wf (w_store w) -> record cf r ev db parent ap w = (Ok d, w') ->
  (exists id, d = decision_of cf id (clock_at (w_clock w)) r ev db parent ap) /\ recorded d w w'
  /\ view (w_store w') = count_call d (view (w_store w)) /\ w_clock w' = Datatypes.S (w_clock w).
Proof.
  intros Hwf Hrun. destruct (record_at _ _ _ _ _ _ _ _ Hrun) as [Hat Hclock]. unfold record in Hrun. apply transaction_ok in Hrun as (wc & Hrun & ->).
  destruct (begin_view w Hwf) as [Hwf0 Hv0]. set (w0 := with_store tx_begin w) in *.
  assert (w_audit w0 = w_audit w /\ w_ledger w0 = w_ledger w) as [Ha0 Hl0] by done. clearbody w0.
  mbind Hrun as id w1 Hid. apply fresh_uuid_ok in Hid as [_ (Hs1 & Ha1 & Hl1)].
  mbind Hrun as now w2 Hnow. apply read_clock_ok in Hnow as [Hnow (Hs2 & Ha2 & Hl2)].
  set (dd := decision_of cf id now r ev db parent ap) in *.
  mbind Hrun as u w3 Hcall. mbind Hrun as inc w4 Hinc. unfold include_arguments in Hinc. injection Hinc as <- <-.
  mbind Hrun as u' w5 Haudit. injection Hrun as <- <-.
  apply audit_ok in Haudit as (Hlog & Hst & Hled).
  rewrite <- Hs1, <- Hs2 in Hwf0, Hv0.
  assert (store_wf (w_store w3) /\ view (w_store w3) = count_call dd (view (w_store w))
    /\ w_audit w3 = w_audit w2 /\ w_ledger w3 = w_ledger w2) as (Hwf3 & Hv3 & Ha3 & Hl3).
  { unfold count_call. change (d_request dd) with r. destruct (allowed dd).
    - injection Hcall as _ <-. simpl.
      destruct (add_call_spec (w_store w2) (text_of (rq_agent_id r)) (text_of (rq_action r)) Hwf0) as [Hw Hv].
      rewrite Hv, Hv0. by split_and!.
    - injection Hcall as _ <-. by split_and!. }
  rewrite <- Hst in Hwf3, Hv3. destruct (commit_view _ Hwf3) as [Hwf4 Hv4].
  assert (w_audit w3 = w_audit w) as Ha by congruence.
  split_and!; [eauto| |by rewrite Hv4|done]. split; [done|simpl; congruence|].
  exists w3. rewrite Ha in Hlog. by split.
Qed.

(** A fresh proposal: evaluated at the current counters and the current reading of the clock, stamped by the
    next one, counted, and recorded. *)
Lemma decide_ok r db parent (w : world S) d u w' : store_wf (w_store w) -> decide cf r db parent w = (Ok (d, u), w') ->
  u = usage_of r (view (w_store w))
  /\ (exists ev id, evaluate r (cf_contracts cf) (cf_bindings cf) u (clock_at (w_clock w)) = Ok ev
        /\ d = decision_of cf id (clock_at (Datatypes.S (w_clock w))) r ev db parent None)
  /\ recorded d w w' /\ view (w_store w') = count_call d (count_step r (view (w_store w)))
  /\ w_clock w' = Datatypes.S (Datatypes.S (w_clock w)).
Proof.
  intros Hwf Hrun. unfold decide in Hrun. apply transaction_ok in Hrun as (wc & Hrun & ->).
  destruct (begin_view w Hwf) as [Hwf0 Hv0]. set (w0 := with_store tx_begin w) in *.
  assert (w_audit w0 = w_audit w /\ w_ledger w0 = w_ledger w) as [Ha0 Hl0] by done.
  assert (w_clock w0 = w_clock w) as Hk0 by done. clearbody w0.
  mbind Hrun as usage w1 Husage. apply usage_for_ok in Husage as [-> ->]; [|done]. rewrite Hv0 in Hrun.
  mbind Hrun as now w2 Hnow. assert (w_clock w2 = Datatypes.S (w_clock w)) as Hk2 by (injection Hnow as _ <-; simpl; by rewrite Hk0).
  apply read_clock_ok in Hnow as [-> (Hs2 & Ha2 & Hl2)]. rewrite Hk0 in Hrun.
  mbind Hrun as ev w3 Hev. apply lift_ok in Hev as [Hev ->].
  mbind Hrun as x w4 Hstep. rewrite <- Hs2 in Hwf0, Hv0.
  assert (store_wf (w_store w4) /\ view (w_store w4) = count_step r (view (w_store w))
    /\ w_audit w4 = w_audit w /\ w_ledger w4 = w_ledger w /\ w_clock w4 = w_clock w2) as (Hwf4 & Hv4 & Ha4 & Hl4 & Hk4).
  { unfold count_step. destruct (contract_id_of cf r) as [id|].
    - injection Hstep as _ <-. simpl. destruct (add_step_spec (w_store w2) id Hwf0) as [Hw Hv].
      rewrite Hv, Hv0. split_and!; [done..|congruence|congruence|done].
    - injection Hstep as _ <-. split_and!; [done..|congruence|congruence|done]. }
  mbind Hrun as d' w5 Hrec. injection Hrun as <- <- <-.
  apply record_ok in Hrec as ((id & Hd) & [Hwf5 Hl5 (v & Hav & Hlog)] & Hv5 & Hk5); [|done]. rewrite Hk4, Hk2 in Hd, Hk5.
  destruct (commit_view _ Hwf5) as [Hwf6 Hv6].
  split_and!; [done|by exists ev, id| |by rewrite Hv6, Hv5, Hv4|done].
  split; [done|simpl; congruence|]. exists v. rewrite Ha4 in Hav, Hlog. by split.
Qed.
End effects.

(** ** A decision that cannot be recorded is not made *)

Section rollback.
Context {S : Type} `{TransactionalStore S} `{Externals}.
Variable cf : config.

(** Inside a transaction: the same depth and the same state to return to. *)
Definition inside (s s' : S) : Prop := depth s <> O /\ depth s' = depth s /\ saved s' = saved s.

Lemma inside_nested s s1 : depth s <> O -> depth s1 = depth (tx_begin s) -> saved s1 = saved (tx_begin s) ->
  inside s (tx_abort s1) /\ inside s (tx_commit s1).
Proof.
  intros Hd Hd1 Hs1. destruct (abort_depth s1) as [Ha Hsa], (commit_depth s1) as [Hc Hsc].
  rewrite begin_depth in Hd1. rewrite begin_inner in Hs1 by done.
  split; (split_and!; [done|lia|congruence]).
Qed.

Lemma record_raise r ev db parent ap (w : world S) e w' : depth (w_store w) <> O ->
  record cf r ev db parent ap w = (Raise e, w') ->
  inside (w_store w) (w_store w') /\ w_audit w' = w_audit w /\ w_ledger w' = w_ledger w.
Proof.
  intros Hd Hrun. unfold record in Hrun. apply transaction_raise in Hrun as (wc & Hrun & ->).
  unfold bind in Hrun. cbn in Hrun.
  set (dd := decision_of cf _ _ r ev db parent ap) in *.
  set (w1 := mk_world _ _ _ _ _ _ _) in Hrun.
  assert (exists s, (if allowed dd then write_store (add_call (text_of (rq_agent_id r)) (text_of (rq_action r))) else ret tt) w1
     = (Ok tt, with_store (fun _ => s) w1) /\ depth s = depth (tx_begin (w_store w)) /\ saved s = saved (tx_begin (w_store w)))
    as (s & Hcall & Hds & Hss).
  { destruct (allowed dd).
    - exists (add_call (text_of (rq_agent_id r)) (text_of (rq_action r)) (tx_begin (w_store w))). split; [done|].
      apply add_call_saved. rewrite begin_depth. lia.
    - by exists (tx_begin (w_store w)). }
  rewrite Hcall in Hrun. cbn in Hrun.
  destruct (audit _ _ _) as [[u|e'] w2] eqn:Haudit; [done|]. injection Hrun as -> ->.
  apply audit_raise in Haudit as (Ha & Hst & Hl). cbn in *. rewrite Ha, Hl, Hst.
  split; [|done]. by apply inside_nested.
Qed.

Lemma decide_raise r db parent (w : world S) e w' : depth (w_store w) = O ->
  decide cf r db parent w = (Raise e, w') ->
  view (w_store w') = view (w_store w) /\ w_audit w' = w_audit w /\ w_ledger w' = w_ledger w.
Proof.
  intros Hd Hrun. unfold decide in Hrun. apply transaction_raise in Hrun as (wc & Hrun & ->).
  assert (depth (tx_begin (w_store w)) = 1%nat) as Hd1 by (by rewrite begin_depth, Hd).
  assert (depth (w_store wc) = 1%nat /\ saved (w_store wc) = saved (tx_begin (w_store w))
    /\ w_audit wc = w_audit w /\ w_ledger wc = w_ledger w) as (Hdc & Hsc & Hac & Hlc).
  2: { simpl. by rewrite abort_outer, Hsc, begin_outer. }
  unfold bind in Hrun. set (w0 := with_store tx_begin w) in *.
  assert (exists u, usage_for cf r w0 = (Ok u, w0)) as [u Hu].
  { unfold usage_for. destruct (problems r); [|by eexists]. by destruct (dget _ (cf_bindings cf)); eexists. }
  rewrite Hu in Hrun. cbn in Hrun.
  destruct (evaluate _ _ _ _ _) as [ev|e1]; cbn in Hrun; [|injection Hrun as <- <-; by split_and!].
  set (w1 := mk_world _ _ _ _ _ _ _) in Hrun.
  assert (exists s, (match contract_id_of cf r with Some id => write_store (add_step id) | None => ret tt end) w1
     = (Ok tt, with_store (fun _ => s) w1) /\ depth s = 1%nat /\ saved s = saved (tx_begin (w_store w)))
    as (s & Hstep & Hds & Hss).
  { destruct (contract_id_of cf r) as [id|]; [|by exists (tx_begin (w_store w))].
    exists (add_step id (tx_begin (w_store w))). split; [done|]. rewrite <- Hd1. apply add_step_saved. lia. }
  rewrite Hstep in Hrun. cbn in Hrun.
  destruct (record _ _ _ _ _ _ _) as [[d|e2] w2] eqn:Hrec; [done|]. injection Hrun as -> ->.
  apply record_raise in Hrec as ((_ & Hdd & Hsv) & Ha & Hl); cbn in *; [|lia].
  split_and!; [lia|congruence|done|done].
Qed.
End rollback.

(** ** Budgets over a run *)

Section budget.
Context {S : Type} `{StateStore S} `{Externals}.
Variable cf : config.

(** A run in which the decisions [ds] are made, interleaved with activity that may consume more of
    contract [c]'s steps but never gives any back. *)
Inductive deciding (c : string) : world S -> list Decision -> world S -> Prop :=
| deciding_nil w : deciding c w [] w
| deciding_decide r db parent w d u w1 ds w2 :
    decide cf r db parent w = (Ok (d, u), w1) -> deciding c w1 ds w2 -> deciding c w (d :: ds) w2
| deciding_other w w1 ds w2 :
    store_wf (w_store w1) ->
    counter c (a_steps (view (w_store w))) <= counter c (a_steps (view (w_store w1))) ->
    deciding c w1 ds w2 -> deciding c w ds w2.

(** The decisions under [c] that are not denials. *)
Definition granted_under (c : string) (d : Decision) : bool :=
  bool_decide (d_contract_id d = Some c) && negb (denied d).

Lemma count_call_steps d a : a_steps (count_call d a) = a_steps a.
Proof. unfold count_call. by destruct (allowed d). Qed.

(** An evaluation that is not a denial had a step left. *)
Lemma evaluate_within_budget r u now ev id c : evaluate r (cf_contracts cf) (cf_bindings cf) u now = Ok ev ->
  ev_decision ev <> DENY -> contract_id_of cf r = Some id -> dget id (cf_contracts cf) = Some c ->
  problems r = [] /\ contract_steps u < tc_max_steps c.
Proof.
  unfold evaluate, contract_id_of, deny. destruct (problems r); [|intros [= <-]; done].
  destruct (rq_agent_id r) as [| | | |a| | | | | |]; try done. destruct (rq_action r); try done.
  intros Hev Hd Hb Hc. rewrite Hb, Hc in Hev. split; [done|]. unfold evaluate_contract, deny in Hev.
  destruct (match rq_contract_id r with PStr s => _ | _ => _ end); [injection Hev as <-; done|].
  destruct (expired now (tc_expires_at c)); [injection Hev as <-; done|].
  destruct (tc_max_steps c <=? contract_steps u) eqn:E; [injection Hev as <-; done|]. lia.
Qed.

Lemma step_budget c ct w ds w' : dget c (cf_contracts cf) = Some ct -> store_wf (w_store w) -> deciding c w ds w' ->
  Z.of_nat (length (List.filter (granted_under c) ds))
  <= Z.max 0 (tc_max_steps ct - counter c (a_steps (view (w_store w)))).
Proof.
  intros Hct Hwf Hrun. induction Hrun as [w|r db parent w d u w1 ds w2 Hdec Hrun IH|w w1 ds w2 Hwf1 Hle Hrun IH];
    [simpl; lia| |specialize (IH Hwf1); lia].
  apply decide_ok in Hdec as (-> & (ev & id & Hev & Hd) & [Hwf1 _ _] & Hv & _); [|done].
  specialize (IH Hwf1). rewrite Hv, count_call_steps in IH. unfold count_step in IH.
  cbn [List.filter]. unfold granted_under at 1.
  assert (d_contract_id d = contract_id_of cf r /\ d_decision d = ev_decision ev) as [Hcid Hdd] by (by rewrite Hd).
  rewrite Hcid. case_bool_decide as Hc; cbn [andb].
  - rewrite Hc in IH. simpl in IH. rewrite counter_count in IH. rewrite decide_True in IH by done.
    destruct (negb (denied d)) eqn:En; cbn [length]; [|lia].
    unfold denied in En. apply negb_true_iff, bool_decide_eq_false in En. rewrite Hdd in En.
    destruct (evaluate_within_budget _ _ _ _ _ _ Hev En Hc Hct) as [Hp Hlt].
    assert (contract_steps (usage_of cf r (view (w_store w))) = counter c (a_steps (view (w_store w)))) as Hu.
    { unfold usage_of, contract_id_of in *. rewrite Hp. destruct (rq_agent_id r); try done. simpl. by rewrite Hc. }
    lia.
  - destruct (contract_id_of cf r) as [id'|]; [|done]. simpl in IH.
    rewrite counter_count, decide_False in IH by congruence. lia.
Qed.
End budget.

(** ** Properties *)

Section properties.
Context {S : Type} `{StateStore S} `{Externals}.
Variable cf : config.

(** A fresh proposal that is decided was evaluated against the current counters of the store and the current reading of the clock; it
    consumes exactly one step of the agent's contract whatever the outcome, exactly one call of the
    (agent, action) counter if and only if it is allowed, and nothing else; it touches no tool; and
    before the decision is returned one audit record of it has been written. *)
Theorem decide_counts (r : ActionRequest) (db parent : option string) (w : world S) (d : Decision) (u : Usage) (w' : world S) :
  store_wf (w_store w) -> decide cf r db parent w = (Ok (d, u), w') ->
  (exists ev, evaluate r (cf_contracts cf) (cf_bindings cf) (usage_of cf r (view (w_store w))) (clock_at (w_clock w)) = Ok ev
     /\ d_decision d = ev_decision ev /\ d_reason_code d = ev_reason_code ev)
  /\ view (w_store w') = count_call d (count_step cf r (view (w_store w)))
  /\ w_ledger w' = w_ledger w
  /\ exists v : world S, w_audit v = w_audit w
       /\ logged v "decision" (decision_fields cf (al_include_arguments (w_audit w)) d) (w_audit w').
Proof.
  intros Hwf Hdec. apply decide_ok in Hdec as (-> & (ev & id & Hev & ->) & [_ Hl Hlog] & Hv & _); [|done].
  split_and!; try done. by exists ev.
Qed.

(** C28. A contract's step budget bounds its proposals over any run: however decisions interleave with
    other activity that only consumes steps, at most [max_steps] proposals under a contract are
    allowed or escalated, less the steps already consumed. *)
Theorem step_budget_bound (c : string) (ct : TaskContract) (w w' : world S) (ds : list Decision) :
  dget c (cf_contracts cf) = Some ct -> store_wf (w_store w) -> deciding cf c w ds w' ->
  Z.of_nat (length (List.filter (granted_under c) ds))
  <= Z.max 0 (tc_max_steps ct - counter c (a_steps (view (w_store w)))).
Proof. apply step_budget. Qed.
End properties.

(** C27. Decisions fail closed: on a store that rolls back, a decision that raises - because its audit
    record could not be written or for any other reason - leaves counters, approvals and grants, the
    audit log and the tools exactly as they were. *)
Theorem decide_fails_closed {S : Type} `{TransactionalStore S} `{Externals} (cf : config) (r : ActionRequest)
    (db parent : option string) (w : world S) (e : exn) (w' : world S) :
  depth (w_store w) = O -> decide cf r db parent w = (Raise e, w') ->
  view (w_store w') = view (w_store w) /\ w_audit w' = w_audit w /\ w_ledger w' = w_ledger w.
Proof. apply decide_raise. Qed.

Module Witnesses.
Import SampleContract.

(** The sample harness: the sample contract, a fetching tool. *)
Definition cf : config := mk_config tables.1 tables.2 false "key" 60000000.
Definition world0 {S} (s : S) (path : bool) : world S :=
  mk_world s (mk_audit path true EmptyString [] 0 GENESIS) 0 0 0 0 [].
Definition fetch : ActionRequest := Policy.Witnesses.fetch.

Definition decision_in {S} (res : result (Decision * Usage) * world S) : Decision :=
  match res.1 with
  | Ok (d, _) => d
  | Raise _ => mk_decision EmptyString fetch DENY MALFORMED_REQUEST EmptyString None None None None 0 None None None
  end.
Definition usage_in {S} (res : result (Decision * Usage) * world S) : Usage :=
  match res.1 with Ok (_, u) => u | Raise _ => mk_usage 0 0 end.

Definition w1 := decide cf fetch None None (world0 SQLite.init true).

Lemma w1_run : decide cf fetch None None (world0 SQLite.init true) = (Ok (decision_in w1, usage_in w1), w1.2).
Proof. vm_compute. reflexivity. Qed.

Lemma decide_counts_witness :
  view (w_store w1.2) = auth_add_call "b" "web.fetch" (auth_add_step "research" (view SQLite.init)).
Proof.
  pose proof (decide_counts cf fetch None None (world0 SQLite.init true) (decision_in w1) (usage_in w1) w1.2
    sqlite_init_wf w1_run) as (_ & Hv & _).
  rewrite Hv. vm_compute. reflexivity.
Defined.

Lemma step_budget_bound_witness :
  Z.of_nat (length (List.filter (granted_under "research") [decision_in w1])) <= 5.
Proof.
  pose proof (step_budget_bound cf "research" contract (world0 SQLite.init true) w1.2 [decision_in w1]) as Hb.
  etransitivity; [apply Hb|vm_compute; discriminate].
  - vm_compute. reflexivity.
  - exact sqlite_init_wf.
  - apply deciding_decide with fetch None None (usage_in w1) w1.2; [exact w1_run|constructor].
Defined.

(** The disk is full: the write of the audit record fails. *)
Definition disk_full : Externals :=
  Sample.with_io Sample.externals (@clock_at Sample.externals) (fun _ => false).
Definition failed := @decide SQLiteStateStore _ disk_full cf fetch None None (world0 SQLite.init true).

Lemma decide_fails_closed_witness :
  failed.1 = Raise (OSError "audit write failed") /\ view (w_store failed.2) = view SQLite.init.
Proof.
  split; [vm_compute; reflexivity|].
  apply (@decide_fails_closed SQLiteStateStore _ _ disk_full cf fetch None None (world0 SQLite.init true)
    (OSError "audit write failed") failed.2); [reflexivity|vm_compute; reflexivity].
Defined.
End Witnesses.
