(* ===== verification/Executor.v ===== *)
(** * The executor: src/capgate/executor.py

    A grant is signed over the decision, agent, contract, action, argument hash and expiry; the
    executor verifies it, claims it once, and only then calls a tool. *)

From S2P Require Import Prelude Datetime Regex PyVal Externals Json Request Decision NetAddr Timeutil Capability Contract Policy State AuditTrail Effects Interceptor.

(** [expires_at] is in microseconds; its JSON text is the repr of the float of its seconds. *)
Record ExecutionGrant := mk_execution_grant {
  gr_decision_id : string;
  gr_agent_id : string;
  gr_contract_id : option string;
  gr_action : string;
  gr_arguments_hash : string;
  gr_expires_at : Z;
  gr_signature : string;
}.

Record ExecutionResult := mk_result {
  er_decision_id : string;
  er_action : string;
  er_status : string;
  er_output : pyval;
  er_error : option string;
}.
Definition er_ok (r : ExecutionResult) : bool := String.eqb (er_status r) "succeeded".
Definition result_to_dict (r : ExecutionResult) : dict pyval :=
  [("decision_id", PStr (er_decision_id r)); ("action", PStr (er_action r)); ("status", PStr (er_status r));
   ("output", er_output r); ("error", ostr (er_error r))].

(** [hmac.compare_digest] of two strings: only ASCII ones can be compared. *)
Definition compare_digest (a b : string) : result bool :=
  if is_ascii a && is_ascii b then Ok (String.eqb a b)
  else Raise (TypeError "comparing strings with non-ASCII characters is not supported").

Section executor.
Context {S : Type} `{StateStore S} `{Externals} `{Tools}.
Variable cf : config.

Definition grant_payload (decision_id agent_id : string) (contract_id : option string) (action arguments_hash : string)
    (expires_at : Z) : dict pyval :=
  [("decision_id", PStr decision_id); ("agent_id", PStr agent_id); ("contract_id", ostr contract_id);
   ("action", PStr action); ("arguments_hash", PStr arguments_hash);
   ("expires_at", PFloat (Finite (seconds_repr expires_at)))].
Definition payload (g : ExecutionGrant) : dict pyval :=
  grant_payload (gr_decision_id g) (gr_agent_id g) (gr_contract_id g) (gr_action g) (gr_arguments_hash g) (gr_expires_at g).
Definition grant_to_dict (g : ExecutionGrant) : dict pyval := payload g ++ [("signature", PStr (gr_signature g))].

(** [GrantSigner]: the key is the configured one. *)
Definition sign (key : string) (p : dict pyval) : result string :=
  let? text := canonical_json (PDict p) in Ok (hexdigest (hmac_sha256 key text)).
Definition verify_grant (g : ExecutionGrant) : result bool :=
  let? s := sign (cf_signing_key cf) (payload g) in compare_digest s (gr_signature g).

Definition has_tool (action : string) : bool := String.eqb action MESSAGE_ACTION || str_in action tool_names.

Definition refuse {A} (reason detail : string) : M S A := raise (ExecutionRefused reason detail).
Definition ensure (b : bool) (reason detail : string) : M S unit := if b then ret tt else refuse reason detail.

Definition check (g : ExecutionGrant) (r : ActionRequest) : M S unit :=
  let! ok := lift (verify_grant g) in
  ensure ok "INVALID_GRANT_SIGNATURE" "grant was not issued by this harness" ;!
  ensure (equals_str (rq_agent_id r) (gr_agent_id g) && equals_str (rq_action r) (gr_action g))
    "GRANT_REQUEST_MISMATCH" "grant does not cover this agent/action" ;!
  ensure (String.eqb (gr_arguments_hash g) (arguments_hash r))
    "GRANT_ARGUMENTS_MISMATCH" "arguments differ from those authorized" ;!
  let! now := read_clock in
  ensure (now <? gr_expires_at g) "GRANT_EXPIRED" EmptyString ;!
  ensure (has_tool (text_of (rq_action r))) "NO_TOOL_REGISTERED" ("no executor tool for " +:+ py_repr (rq_action r)) ;!
  let! fresh := update_store (claim_grant (gr_decision_id g) (gr_expires_at g)) in
  ensure fresh "GRANT_ALREADY_USED" "grants are single-use".

(** The harness's own tool, [Harness._deliver]. *)
Definition message_dict (message_id : string) (sender recipient body : pyval) (decision_id : string) : dict pyval :=
  [("message_id", PStr message_id); ("sender", sender); ("recipient", recipient); ("body", body);
   ("decision_id", PStr decision_id)].
Definition deliver (args : dict pyval) (r : ActionRequest) (decision_id : string) : M S (pyval + string) :=
  let! message_id := fresh_uuid in
  match dget "to" args with
  | None => ret (inr "KeyError: 'to'")
  | Some to =>
      write_store (push_message (text_of to) (message_dict message_id (rq_agent_id r) to (pget "body" args) decision_id)) ;!
      ret (inl (PDict [("message_id", PStr message_id); ("delivered_to", to)]))
  end.

Definition run_tool (g : ExecutionGrant) (r : ActionRequest) : M S ExecutionResult :=
  let action := text_of (rq_action r) in
  let! out := (if String.eqb action MESSAGE_ACTION then deliver (arguments_copy r) r (gr_decision_id g)
               else call_tool action (arguments_copy r)) in
  ret (match out with
       | inl v => mk_result (gr_decision_id g) action "succeeded" v None
       | inr e => mk_result (gr_decision_id g) action "failed" PNone (Some e)
       end).

Definition refused_fields (decision_id : string) (r : ActionRequest) (reason detail : string) : dict pyval :=
  [("decision_id", PStr decision_id); ("agent_id", rq_agent_id r); ("action", rq_action r);
   ("arguments_hash", PStr (arguments_hash r)); ("reason_code", PStr reason); ("detail", PStr detail);
   ("outcome", PStr "refused")].

Definition execution_fields (g : ExecutionGrant) (r : ActionRequest) (res : ExecutionResult) : dict pyval :=
  [("decision_id", PStr (gr_decision_id g)); ("agent_id", rq_agent_id r); ("contract_id", ostr (gr_contract_id g));
   ("action", rq_action r); ("arguments_hash", PStr (arguments_hash r)); ("outcome", PStr (er_status res));
   ("error", ostr (er_error res))].

(** A refusal is audited and raised again; any other exception of the checks goes through. *)
Definition checked (g : ExecutionGrant) (r : ActionRequest) : M S unit :=
  try_except (check g r) (fun e =>
    match e with
    | ExecutionRefused reason detail =>
        audit "execution_refused" (refused_fields (gr_decision_id g) r reason detail) ;! raise e
    | _ => raise e
    end).

Definition executor_execute (g : ExecutionGrant) (r : ActionRequest) : M S ExecutionResult :=
  checked g r ;!
  let! res := run_tool g r in
  audit "execution" (execution_fields g r res) ;!
  ret res.
End executor.

(** ** What the checks establish *)

Section lemmas.
Context {S : Type} `{StateStore S} `{Externals} `{Tools}.
Variable cf : config.

(** A grant that covers a request at time [now]. *)
Record valid_grant (g : ExecutionGrant) (r : ActionRequest) (now : Z) : Prop := {
  vg_signed : verify_grant cf g = Ok true;
  vg_agent : rq_agent_id r = PStr (gr_agent_id g);
  vg_action : rq_action r = PStr (gr_action g);
  vg_arguments : gr_arguments_hash g = arguments_hash r;
  vg_live : now < gr_expires_at g;
  vg_tool : has_tool (gr_action g) = true;
}.

Lemma ensure_step b reason detail (w : world S) (x : result unit) w' : ensure b reason detail w = (x, w') ->
  w' = w /\ (x = Ok tt /\ b = true \/ x = Raise (ExecutionRefused reason detail) /\ b = false).
Proof. unfold ensure. destruct b; intros Heq; injection Heq as <- <-; auto. Qed.

(** Worlds that differ at most in clocks, ids and a claim that was already there. *)
Definition idle (w w' : world S) : Prop :=
  store_wf (w_store w') /\ view (w_store w') = view (w_store w) /\ w_audit w' = w_audit w /\ w_ledger w' = w_ledger w.

Lemma auth_claim_again d a : d ∈ a_grants a -> auth_claim d a = a.
Proof. intros Hd. unfold auth_claim. destruct a; simpl in *. f_equal. set_solver. Qed.

(** One [ensure]: either the run is refused there, with nothing changed, or it goes on. *)
Lemma ensure_bind b reason detail (k : M S unit) (w : world S) x w' :
  bind (ensure b reason detail) (fun _ => k) w = (x, w') ->
  (b = true /\ k w = (x, w')) \/ (x = Raise (ExecutionRefused reason detail) /\ w' = w).
Proof. unfold ensure. destruct b; [by left|]. intros [= <- <-]. by right. Qed.

Lemma check_cases g r (w : world S) x w' : store_wf (w_store w) -> check cf g r w = (x, w') ->
  (x = Ok tt /\ valid_grant g r (clock_at (w_clock w)) /\ gr_decision_id g ∉ a_grants (view (w_store w))
   /\ store_wf (w_store w') /\ view (w_store w') = auth_claim (gr_decision_id g) (view (w_store w))
   /\ w_audit w' = w_audit w /\ w_ledger w' = w_ledger w /\ w_uuids w' = w_uuids w)
  \/ ((exists e, x = Raise e) /\ idle w w').
Proof.
  intros Hwf Hrun. unfold check in Hrun.
  assert (idle w w) as Hidle by (split_and!; done).
  unfold bind at 1 in Hrun. destruct (lift (verify_grant cf g) w) as [[ok|e] w0] eqn:Ev; unfold lift in Ev;
    injection Ev as Hv <-; [|injection Hrun as <- <-; right; eauto].
  apply ensure_bind in Hrun as [[-> Hrun]|[-> ->]]; [|right; eauto].
  apply ensure_bind in Hrun as [[Ha Hrun]|[-> ->]]; [|right; eauto].
  apply ensure_bind in Hrun as [[Hh Hrun]|[-> ->]]; [|right; eauto].
  unfold bind at 1 in Hrun. destruct (read_clock w) as [[now|e] w1] eqn:Ec; [|done].
  assert (w_uuids w1 = w_uuids w) as Hu1 by (by injection Ec as _ <-).
  apply read_clock_ok in Ec as [-> (Hs1 & Ha1 & Hl1)].
  assert (idle w w1) as Hidle1 by (split_and!; congruence).
  apply ensure_bind in Hrun as [[Hlive Hrun]|[-> ->]]; [|right; eauto].
  apply ensure_bind in Hrun as [[Htool Hrun]|[-> ->]]; [|right; eauto].
  unfold bind, update_store in Hrun.
  assert (store_wf (w_store w1)) as Hwf1 by (by rewrite Hs1).
  destruct (claim_grant_spec (w_store w1) (gr_decision_id g) (gr_expires_at g) Hwf1) as (Hfresh & Hwf2 & Hv2).
  rewrite Hs1 in Hfresh, Hv2. rewrite Hs1 in Hwf2.
  apply ensure_step in Hrun as [-> Hx]. simpl. rewrite Hs1 in *. rewrite Hfresh in Hx.
  destruct Hx as [[-> Hd]|[-> Hd]].
  - left. apply bool_decide_eq_true in Hd. apply andb_true_iff in Ha as [Hag Hac].
    apply equals_str_spec in Hag, Hac. split_and!; try done.
    split; try done; [by apply String.eqb_eq in Hh|lia|by rewrite Hac in Htool].
  - right. split; [eauto|]. apply bool_decide_eq_false, dec_stable in Hd.
    split_and!; simpl; rewrite ?Hs1; try done. rewrite Hv2. by apply auth_claim_again.
Qed.

Lemma json_copy_norm v : json_copy (norm v) = norm v.
Proof.
  induction v as [| | | | |l IH|l IH|d IH| | |] using pyval_rect_nested; simpl; try done; f_equal.
  - induction IH as [|x l Hx Hl IHl]; simpl; [done|]. by rewrite Hx, IHl.
  - induction IH as [|x l Hx Hl IHl]; simpl; [done|]. by rewrite Hx, IHl.
  - assert (forall e, Forall (fun kv : string * pyval => json_copy kv.2 = kv.2) e -> copy_dict e = e) as Hid.
    { unfold copy_dict. intros e He. induction He as [|[k x] e Hx He IHe]; simpl in *; [done|]. by rewrite Hx, IHe. }
    apply (Hid (sort_items _)). unfold sort_items. rewrite merge_sort_Permutation.
    apply Forall_forall. intros [k x] Hin. apply list_elem_of_fmap in Hin as ([k' y] & [= -> ->] & Hin).
    rewrite Forall_forall in IH. by apply (IH (k', y)).
Qed.

(** Arguments read back from their frozen text are JSON data. *)
Lemma arguments_plain r : wf_request r -> copy_dict (arguments_copy r) = arguments_copy r.
Proof.
  intros (d & Hw & Hj & Hjson). unfold arguments_copy. rewrite Hjson, loads_canonical by done.
  pose proof (json_copy_norm (PDict d)) as Hc. destruct (norm (PDict d)); try done. simpl in Hc. by injection Hc.
Qed.

Lemma copy_dict_get d k v : copy_dict d = d -> dget k d = Some v -> json_copy v = v.
Proof. intros Hc Hg. apply (f_equal (dget k)) in Hc. rewrite dget_copy, Hg in Hc. simpl in Hc. congruence. Qed.

(** A delivered message is JSON data. *)
Lemma message_plain id r to decision_id : wf_request r -> (exists a : string, rq_agent_id r = PStr a) ->
  dget "to" (arguments_copy r) = Some to ->
  copy_dict (message_dict id (rq_agent_id r) to (pget "body" (arguments_copy r)) decision_id)
  = message_dict id (rq_agent_id r) to (pget "body" (arguments_copy r)) decision_id.
Proof.
  intros Hreq [a Ha] Eto. pose proof (arguments_plain r Hreq) as Hp. unfold message_dict, copy_dict. cbn. rewrite Ha.
  rewrite (copy_dict_get _ _ _ Hp Eto). unfold pget.
  destruct (dget "body" (arguments_copy r)) as [b|] eqn:Eb; simpl; [|done]. by rewrite (copy_dict_get _ _ _ Hp Eb).
Qed.

(** What a message does to the store: it joins the inbox of the recipient it names; without one, nothing. *)
Definition delivered (g : ExecutionGrant) (r : ActionRequest) (id : string) (a : authority) : authority :=
  match dget "to" (arguments_copy r) with
  | Some to => auth_push (text_of to) (stored (S:=S)
      (message_dict id (rq_agent_id r) to (pget "body" (arguments_copy r)) (gr_decision_id g))) a
  | None => a
  end.

(** What the tool answers: the receipt of a message, or the outcome of the call, as it is the [n]-th. *)
Definition tool_answer (r : ActionRequest) (id : string) (n : nat) : pyval + string :=
  let action := text_of (rq_action r) in
  if String.eqb action MESSAGE_ACTION then
    match dget "to" (arguments_copy r) with
    | Some to => inl (PDict [("message_id", PStr id); ("delivered_to", to)])
    | None => inr "KeyError: 'to'"
    end
  else tool_outcome action (arguments_copy r) n.
Definition answered (g : ExecutionGrant) (r : ActionRequest) (answer : pyval + string) (res : ExecutionResult) : Prop :=
  er_decision_id res = gr_decision_id g /\ er_action res = text_of (rq_action r) /\
  match answer with
  | inl v => er_status res = "succeeded" /\ er_output res = v /\ er_error res = None
  | inr e => er_status res = "failed" /\ er_output res = PNone /\ er_error res = Some e
  end.

(** What running the tool does: one message to its recipient, or one entry of the ledger. *)
Lemma run_tool_cases g r (w : world S) : store_wf (w_store w) -> wf_request r -> (exists a : string, rq_agent_id r = PStr a) ->
  exists res w', run_tool g r w = (Ok res, w') /\ store_wf (w_store w') /\ w_audit w' = w_audit w
    /\ answered g r (tool_answer r (uuid4 (w_uuids w)) (length (w_ledger w))) res
    /\ a_grants (view (w_store w')) = a_grants (view (w_store w))
    /\ ((text_of (rq_action r) = MESSAGE_ACTION /\ view (w_store w') = delivered g r (uuid4 (w_uuids w)) (view (w_store w))
            /\ w_ledger w' = w_ledger w)
        \/ (text_of (rq_action r) <> MESSAGE_ACTION /\ view (w_store w') = view (w_store w)
            /\ w_ledger w' = w_ledger w ++ [(text_of (rq_action r), arguments_copy r)])).
Proof.
  intros Hwf Hreq Hag. unfold run_tool, bind, answered, tool_answer, delivered.
  destruct (String.eqb_spec (text_of (rq_action r)) MESSAGE_ACTION) as [Hact|Hact].
  - unfold deliver, bind. cbn. destruct (dget "to" (arguments_copy r)) as [to|] eqn:Eto; cbn.
    + eexists _, _. split; [done|]. cbn.
      pose proof (message_plain (uuid4 (w_uuids w)) r to (gr_decision_id g) Hreq Hag Eto) as Hc.
      destruct (push_message_spec (w_store w) (text_of to) _ Hwf Hc) as [Hw Hv].
      rewrite Hv. split_and!; try done. by left.
    + eexists _, _. split; [done|]. cbn. split_and!; try done. by left.
  - eexists _, _. split; [unfold call_tool; done|]. cbn. split_and!; try done.
    all: try by destruct (tool_outcome _ _ _). by right.
Qed.

Lemma checked_cases g r (w : world S) x w' : store_wf (w_store w) -> checked cf g r w = (x, w') ->
  (x = Ok tt /\ valid_grant g r (clock_at (w_clock w)) /\ gr_decision_id g ∉ a_grants (view (w_store w))
   /\ store_wf (w_store w') /\ view (w_store w') = auth_claim (gr_decision_id g) (view (w_store w))
   /\ w_ledger w' = w_ledger w /\ w_audit w' = w_audit w /\ w_uuids w' = w_uuids w)
  \/ ((exists e, x = Raise e) /\ store_wf (w_store w') /\ view (w_store w') = view (w_store w) /\ w_ledger w' = w_ledger w).
Proof.
  intros Hwf Hrun. unfold checked, try_except in Hrun.
  destruct (check cf g r w) as [y w1] eqn:Ec. pose proof (check_cases _ _ _ _ _ Hwf Ec) as [Hc|Hc].
  - destruct Hc as (-> & Hv & Hd & Hw & Hvw & Ha & Hl & Hu). injection Hrun as <- <-. left. by split_and!.
  - destruct Hc as [[e ->] (Hw & Hvw & Ha & Hl)]. right.
    destruct e; try (injection Hrun as <- <-; split_and!; eauto; fail).
    unfold bind in Hrun. destruct (audit _ _ w1) as [[u|e'] w2] eqn:Eau.
    + apply audit_ok in Eau as (_ & Hs & Hl2). injection Hrun as <- <-. rewrite Hs, Hl2. split_and!; eauto.
    + apply audit_raise in Eau as (_ & Hs & Hl2). injection Hrun as <- <-. rewrite Hs, Hl2. split_and!; eauto.
Qed.

(** What executing a grant can do: nothing at all, or exactly what the grant says, once. *)
Record performed (g : ExecutionGrant) (r : ActionRequest) (w w' : world S) : Prop := {
  pf_valid : valid_grant g r (clock_at (w_clock w));
  pf_fresh : gr_decision_id g ∉ a_grants (view (w_store w));
  pf_claimed : a_grants (view (w_store w')) = {[gr_decision_id g]} ∪ a_grants (view (w_store w));
  pf_effect : (gr_action g = MESSAGE_ACTION
        /\ view (w_store w') = delivered g r (uuid4 (w_uuids w)) (auth_claim (gr_decision_id g) (view (w_store w)))
        /\ w_ledger w' = w_ledger w)
    \/ (gr_action g <> MESSAGE_ACTION /\ view (w_store w') = auth_claim (gr_decision_id g) (view (w_store w))
        /\ w_ledger w' = w_ledger w ++ [(gr_action g, arguments_copy r)]);
}.
Definition untouched (w w' : world S) : Prop :=
  view (w_store w') = view (w_store w) /\ w_ledger w' = w_ledger w.

(** What an execution returns: the answer of the tool, which is in the audit log by then. It raises after the
    tool has run only when the record could not be written. *)
Definition reported (g : ExecutionGrant) (r : ActionRequest) (w : world S) (x : result ExecutionResult) (w' : world S) : Prop :=
  match x with
  | Ok res => answered g r (tool_answer r (uuid4 (w_uuids w)) (length (w_ledger w))) res
      /\ exists v : world S, w_audit v = w_audit w /\ logged v "execution" (execution_fields g r res) (w_audit w')
  | Raise _ => w_audit w' = w_audit w
  end.

(** Once the checks pass, the grant is performed. *)
Lemma execute_checked g r (w w1 : world S) x w' : store_wf (w_store w) -> wf_request r ->
  checked cf g r w = (Ok tt, w1) -> executor_execute cf g r w = (x, w') ->
  store_wf (w_store w') /\ performed g r w w' /\ reported g r w x w'.
Proof.
  intros Hwf Hreq Ec Hrun. unfold executor_execute, bind in Hrun. rewrite Ec in Hrun.
  destruct (checked_cases _ _ _ _ _ Hwf Ec) as [(_ & Hv & Hd & Hw1 & Hv1 & Hl1 & Ha1 & Hu1)|([e He] & _)]; [|done].
  assert (exists a : string, rq_agent_id r = PStr a) as Hag by (destruct Hv; eauto).
  destruct (run_tool_cases g r w1 Hw1 Hreq Hag) as (res & w2 & Ert & Hw2 & Ha2 & Hans & Hg2 & Heff). rewrite Hu1 in *.
  rewrite Ert in Hrun.
  assert (store_wf (w_store w') /\ view (w_store w') = view (w_store w2) /\ w_ledger w' = w_ledger w2
    /\ reported g r w x w') as (Hw & Hvw & Hl & Hrep).
  { destruct (audit "execution" _ w2) as [[u|e] w3] eqn:Eau; injection Hrun as <- <-;
      [apply audit_ok in Eau as (Hlog & -> & ->)|apply audit_raise in Eau as (Haud & -> & ->)]; (split_and!; [done..|]);
      simpl; [|congruence]. rewrite Hl1 in Hans. split; [done|]. exists w2. split; [congruence|done]. }
  split; [done|]. split; [|done]. assert (text_of (rq_action r) = gr_action g) as Hact by (destruct Hv as [_ _ -> _ _ _]; done).
  rewrite Hact in Heff. split; [done..|by rewrite Hvw, Hg2, Hv1|].
  rewrite Hvw, Hl. destruct Heff as [(? & -> & ->)|(? & -> & ->)]; [left|right]; rewrite ?Hv1, ?Hl1; done.
Qed.

Lemma execute_cases g r (w : world S) x w' : store_wf (w_store w) -> wf_request r ->
  executor_execute cf g r w = (x, w') ->
  store_wf (w_store w') /\ (((exists e, x = Raise e) /\ untouched w w') \/ (performed g r w w' /\ reported g r w x w')).
Proof.
  intros Hwf Hreq Hrun. destruct (checked cf g r w) as [[[]|e] w1] eqn:Ec.
  - destruct (execute_checked g r w w1 x w' Hwf Hreq Ec Hrun) as (? & ? & ?). auto.
  - unfold executor_execute, bind in Hrun. rewrite Ec in Hrun. injection Hrun as <- <-.
    destruct (checked_cases _ _ _ _ _ Hwf Ec) as [(He & _)|(_ & Hw1 & Hv1 & Hl1)]; [done|].
    split; [done|]. left. split; [eauto|]. by split.
Qed.

(** An audit that fails does not look like a refusal. *)
Lemma audit_refuses_nothing event fields (w : world S) e w' : audit event fields w = (Raise e, w') ->
  forall reason detail, e <> ExecutionRefused reason detail.
Proof.
  unfold audit. destruct (audit_record _ _ _ _ _ _) as [[body log]|e'] eqn:Ea; [done|]. intros [= <- _] reason detail ->.
  unfold audit_record, hash_record, canonical_json in Ea. cbv zeta in Ea.
  destruct (jsonable _) eqn:E1 in Ea; cbn [result_bind] in Ea; [|done].
  destruct (jsonable _) eqn:E2 in Ea; cbn [result_bind] in Ea; [|done].
  destruct (al_path (w_audit w)), (write_ok (w_writes w)); done.
Qed.

(** A refusal means that nothing was done. *)
Lemma execute_refused g r (w : world S) reason detail w' : store_wf (w_store w) -> wf_request r ->
  executor_execute cf g r w = (Raise (ExecutionRefused reason detail), w') -> untouched w w'.
Proof.
  intros Hwf Hreq Hrun. unfold executor_execute, bind in Hrun. destruct (checked cf g r w) as [[[]|e] w1] eqn:Ec.
  - destruct (checked_cases _ _ _ _ _ Hwf Ec) as [(_ & Hv & _ & Hw1 & _)|([e He] & _)]; [|done].
    assert (exists a : string, rq_agent_id r = PStr a) as Hag by (destruct Hv; eauto).
    destruct (run_tool_cases g r w1 Hw1 Hreq Hag) as (res & w2 & Ert & _). rewrite Ert in Hrun.
    destruct (audit "execution" _ w2) as [[u|e] w3] eqn:Eau; [done|]. injection Hrun as -> <-.
    by apply audit_refuses_nothing with (reason := reason) (detail := detail) in Eau.
  - injection Hrun as -> <-. destruct (checked_cases _ _ _ _ _ Hwf Ec) as [(? & _)|(_ & _ & ? & ?)]; [done|by split].
Qed.

(** The checks pass for a valid grant that is not claimed. *)
Lemma checked_passes g r (w : world S) : store_wf (w_store w) -> valid_grant g r (clock_at (w_clock w)) ->
  gr_decision_id g ∉ a_grants (view (w_store w)) -> exists w', checked cf g r w = (Ok tt, w').
Proof.
  intros Hwf [Hs Ha Hact Hargs Hlive Htool] Hfresh. unfold checked, try_except, check, bind, lift. rewrite Hs, Ha, Hact, Hargs.
  cbn [equals_str]. rewrite !String.eqb_refl. cbn.
  assert (clock_at (w_clock w) <? gr_expires_at g = true) as -> by lia. unfold text_of, py_str. rewrite Htool. cbn.
  destruct (claim_grant_spec (w_store w) (gr_decision_id g) (gr_expires_at g) Hwf) as (-> & _ & _).
  rewrite bool_decide_eq_true_2 by done. cbn. eauto.
Qed.

(** Two texts signed alike, or two payloads that are the same. *)
Definition hmac_collision (key x y : string) : Prop := x <> y /\ hmac_sha256 key x = hmac_sha256 key y.

Lemma verify_grant_sign g : verify_grant cf g = Ok true ->
  sign (cf_signing_key cf) (payload g) = Ok (gr_signature g).
Proof.
  unfold verify_grant. destruct (sign _ _) as [s|e]; simpl; [|done]. unfold compare_digest.
  destruct (is_ascii _ && is_ascii _); [|done]. intros [= Heq]. by apply String.eqb_eq in Heq as ->.
Qed.

Lemma sign_inj k p q s : sign k p = Ok s -> sign k q = Ok s ->
  canonical (PDict p) = canonical (PDict q) \/ hmac_collision k (canonical (PDict p)) (canonical (PDict q)).
Proof.
  unfold sign, canonical_json. destruct (jsonable (PDict p)); [|done]. destruct (jsonable (PDict q)); [|done].
  cbn [result_bind]. intros [= Hp] [= Hq]. destruct (String.eqb_spec (canonical (PDict p)) (canonical (PDict q))); [by left|].
  right. split; [done|]. apply hexdigest_inj. congruence.
Qed.

Lemma ostr_inj o o' : ostr o = ostr o' -> o = o'.
Proof. destruct o, o'; simpl; congruence. Qed.

(** The fields of a payload are recovered from its signed text. *)
Lemma payload_inj g g' :
  float_text_ok (seconds_repr (gr_expires_at g)) = true -> float_text_ok (seconds_repr (gr_expires_at g')) = true ->
  canonical (PDict (payload g)) = canonical (PDict (payload g')) ->
  gr_decision_id g = gr_decision_id g' /\ gr_agent_id g = gr_agent_id g' /\ gr_contract_id g = gr_contract_id g'
  /\ gr_action g = gr_action g' /\ gr_arguments_hash g = gr_arguments_hash g'
  /\ seconds_repr (gr_expires_at g) = seconds_repr (gr_expires_at g').
Proof.
  intros Hf Hf' Heq.
  assert (forall g1, float_text_ok (seconds_repr (gr_expires_at g1)) = true ->
    wf_val (PDict (payload g1)) = true /\ jsonable (PDict (payload g1)) = true) as Hp.
  { intros g1 Hf1. unfold payload, grant_payload. cbn. rewrite Hf1. by destruct (gr_contract_id g1). }
  apply canonical_inj in Heq; [|by apply Hp..]. cbn [norm] in Heq.
  assert (forall g k, dget k (sort_items (map (fun '(k, x) => (k, norm x)) (payload g))) = norm <$> dget k (payload g)) as Hget.
  { intros g1 k. rewrite dget_sort_items; [apply (dget_map norm)|]. rewrite (dkeys_map norm).
    apply distinct_NoDup. by destruct g1. }
  assert (forall k, norm <$> dget k (payload g) = norm <$> dget k (payload g')) as Hk.
  { intros k. rewrite <- !Hget. exact (f_equal (fun v => dget k (default [] (as_dict v))) Heq). }
  pose proof (Hk "decision_id") as H1'. pose proof (Hk "agent_id") as H2'. pose proof (Hk "contract_id") as H3'.
  pose proof (Hk "action") as H4'. pose proof (Hk "arguments_hash") as H5'. pose proof (Hk "expires_at") as H6'.
  cbn in *. split_and!; try congruence. apply ostr_inj. destruct (gr_contract_id g), (gr_contract_id g'); cbn in *; congruence.
Qed.
End lemmas.

(** ** Properties *)

Section properties.
Context {S : Type} `{StateStore S} `{Externals} `{Tools}.
Variable cf : config.

(** One call of the executor: the grant, the request, and the world before and after. *)
Record attempt := mk_attempt {
  at_grant : ExecutionGrant;
  at_request : ActionRequest;
  at_before : world S;
  at_after : world S;
}.

(** A run of the executor: calls of it with any grant for any request, accepted or not, between other
    activity that calls no tool and forgets no claim. *)
Inductive executing : world S -> list attempt -> world S -> Prop :=
| executing_nil w : executing w [] w
| executing_execute g r w x w1 l w2 :
    wf_request r -> executor_execute cf g r w = (x, w1) -> executing w1 l w2 -> executing w (mk_attempt g r w w1 :: l) w2
| executing_other w w1 l w2 :
    store_wf (w_store w1) -> a_grants (view (w_store w)) ⊆ a_grants (view (w_store w1)) -> w_ledger w1 = w_ledger w ->
    executing w1 l w2 -> executing w l w2.

(** The tool invocation an attempt makes when it is accepted. *)
Definition invocation (e : attempt) : string * dict pyval := (gr_action (at_grant e), arguments_copy (at_request e)).

(** An accepted attempt: its grant covered its request when it was made, and had not been used. *)
Record accepted (e : attempt) : Prop := {
  ac_valid : valid_grant cf (at_grant e) (at_request e) (clock_at (w_clock (at_before e)));
  ac_fresh : gr_decision_id (at_grant e) ∉ a_grants (view (w_store (at_before e)));
  ac_claimed : gr_decision_id (at_grant e) ∈ a_grants (view (w_store (at_after e)));
}.

Lemma executing_uses (w w' : world S) l : executing w l w' -> store_wf (w_store w) ->
  a_grants (view (w_store w)) ⊆ a_grants (view (w_store w'))
  /\ exists uses, uses `sublist_of` l /\ w_ledger w' = w_ledger w ++ map invocation uses
    /\ NoDup (map (fun e => gr_decision_id (at_grant e)) uses)
    /\ forall e, e ∈ uses -> accepted e /\ gr_decision_id (at_grant e) ∉ a_grants (view (w_store w)).
Proof.
  induction 1 as [w|g r w x w1 l w2 Hreq Hexec Hrun IH|w w1 l w2 Hwf1 Hsub Hled Hrun IH]; intros Hwf.
  - split; [done|]. exists []. rewrite app_nil_r. split_and!; [done|done|constructor|]. intros e Hin. by apply elem_of_nil in Hin.
  - destruct (execute_cases cf g r w x w1 Hwf Hreq Hexec) as [Hwf1 Hc].
    destruct (IH Hwf1) as (Hsub & uses & Hsl & Hl & Hnd & Huses). clear IH.
    destruct Hc as [[_ [Hv Hl1]]|[[Hvalid Hfresh Hclaim Heff] _]].
    + rewrite Hv in Hsub, Huses. split; [done|]. exists uses. rewrite Hl, Hl1. split_and!; try done. by apply sublist_cons.
    + split; [set_solver|]. destruct Heff as [(_ & _ & Hl1)|(_ & _ & Hl1)].
      * exists uses. rewrite Hl, Hl1. split_and!; [by apply sublist_cons|done..|].
        intros e Hin. destruct (Huses e Hin). set_solver.
      * exists (mk_attempt g r w w1 :: uses). rewrite Hl, Hl1, <- app_assoc. split_and!; [by apply sublist_skip|done| |].
        -- simpl. constructor; [|done]. rewrite list_elem_of_fmap. intros (e & Hd & Hin).
           destruct (Huses e Hin) as (_ & Hn). simpl in Hd. set_solver.
        -- intros e [->|Hin]%elem_of_cons; [split; [split; simpl; [done|done|set_solver]|done]|].
           destruct (Huses e Hin). set_solver.
  - destruct (IH Hwf1) as (Hsub2 & uses & Hsl & Hl & Hnd & Huses). split; [set_solver|]. exists uses.
    rewrite Hl, Hled. split_and!; [done..|]. intros e Hin. destruct (Huses e Hin). set_solver.
Qed.

(** C1. Complete mediation: over any run of the executor the tool calls are exactly those of some of
    its attempts, one call per attempt, in their order. The grants of these attempts carry pairwise
    different decision ids that were unclaimed when the run began; each was, at the reading of the
    clock the attempt itself was made at, validly signed, not expired and for the agent, action and
    arguments of the request, its decision id was unclaimed before the attempt and is claimed after. *)
Theorem complete_mediation (w w' : world S) (l : list attempt) : store_wf (w_store w) -> executing w l w' ->
  exists uses, uses `sublist_of` l /\ w_ledger w' = w_ledger w ++ map invocation uses
    /\ NoDup (map (fun e => gr_decision_id (at_grant e)) uses)
    /\ forall e, e ∈ uses -> accepted e /\ gr_decision_id (at_grant e) ∉ a_grants (view (w_store w)).
Proof. intros Hwf Hrun. by apply executing_uses. Qed.

(** C3. One execution: it either raises with the state of the store and the tools untouched, or the
    grant was valid for the request at the executor's clock and unclaimed, is now claimed, and the
    effect is exactly the one granted: for the message action the message of the request, with its
    sender, recipient, body and a new id, joins the inbox of the recipient the request names and nothing
    else changes; for any other action there is one call of the granted tool with the request's
    arguments and the store only has the claim. What is returned is the answer of the tool, and the
    audit log has got its record; it raises after that only if the record could not be written, and then
    the log is as it was. *)
Theorem execute_guarded (g : ExecutionGrant) (r : ActionRequest) (w : world S) (x : result ExecutionResult) (w' : world S) :
  store_wf (w_store w) -> wf_request r -> executor_execute cf g r w = (x, w') ->
  ((exists e, x = Raise e) /\ untouched w w') \/ (performed cf g r w w' /\ reported g r w x w').
Proof. intros Hwf Hreq Hrun. by apply execute_cases in Hrun as [_ Hc]. Qed.

(** Replay: once an execution has returned, no later execution of a grant with the same decision
    id, by whomever and for whatever request, returns or touches anything, whatever happened between
    that kept the claims. *)
Theorem replay_refused (g g' : ExecutionGrant) (r r' : ActionRequest) (w w1 w2 w3 : world S) (res : ExecutionResult)
    (x : result ExecutionResult) :
  store_wf (w_store w) -> wf_request r -> executor_execute cf g r w = (Ok res, w1) ->
  store_wf (w_store w2) -> a_grants (view (w_store w1)) ⊆ a_grants (view (w_store w2)) ->
  wf_request r' -> gr_decision_id g' = gr_decision_id g -> executor_execute cf g' r' w2 = (x, w3) ->
  (exists e, x = Raise e) /\ untouched w2 w3.
Proof.
  intros Hwf Hreq Hrun Hwf2 Hsub Hreq' Hid Hrun'.
  apply execute_cases in Hrun as [_ [[[e He] _]|[[_ _ Hclaim _] _]]]; [done| |done..].
  apply execute_cases in Hrun' as [_ [Hc|[[_ Hfresh _ _] _]]]; [done| |done..]. rewrite Hid in Hfresh. set_solver.
Qed.

(** C7. A signature is good for one grant and a grant for one request: two valid grants with the same
    signature agree on decision, agent, contract, action, arguments and expiry, and the requests they
    are valid for have the same agent, action and frozen arguments - or an HMAC or SHA-256 collision
    is at hand. *)
Theorem signature_binds (g g' : ExecutionGrant) (r r' : ActionRequest) (now now' : Z) :
  float_text_ok (seconds_repr (gr_expires_at g)) = true -> float_text_ok (seconds_repr (gr_expires_at g')) = true ->
  valid_grant cf g r now -> valid_grant cf g' r' now' -> gr_signature g = gr_signature g' ->
  (gr_decision_id g = gr_decision_id g' /\ gr_contract_id g = gr_contract_id g'
   /\ seconds_repr (gr_expires_at g) = seconds_repr (gr_expires_at g')
   /\ rq_agent_id r = rq_agent_id r' /\ rq_action r = rq_action r' /\ rq_arguments_json r = rq_arguments_json r')
  \/ (exists t t', hmac_collision (cf_signing_key cf) t t')
  \/ sha256_collision (rq_arguments_json r) (rq_arguments_json r').
Proof.
  intros Hf Hf' [Hs Ha Hact Hargs _ _] [Hs' Ha' Hact' Hargs' _ _] Hsig.
  apply verify_grant_sign in Hs, Hs'. rewrite <- Hsig in Hs'.
  destruct (sign_inj _ _ _ _ Hs Hs') as [Heq|]; [|right; left; eauto].
  apply payload_inj in Heq as (H1' & H2' & H3' & H4' & H5' & H6'); [|done..].
  assert (arguments_hash r = arguments_hash r') as Hh by congruence.
  apply sha256_hex_inj in Hh as [Hh|]; [|by right; right]. left. split_and!; congruence.
Qed.
End properties.

Module Witnesses.
Import SampleContract.
Definition cf : config := Interceptor.Witnesses.cf.
Definition world0 := Interceptor.Witnesses.world0 SQLite.init true.
Definition fetch : ActionRequest := Policy.Witnesses.fetch.

#[local] Instance tools : Tools := {|
  tool_names := ["web.fetch"];
  tool_outcome := fun _ _ _ => inl (PStr "page");
|}.

(** A grant for [fetch], with a chosen signature or the right one. *)
Definition grant_with (signature : string) : ExecutionGrant :=
  mk_execution_grant "d1" "b" (Some "research") "web.fetch" (arguments_hash fetch) (Sample.start + 3600000000) signature.
Definition grant : ExecutionGrant :=
  grant_with (match sign "key" (payload (grant_with EmptyString)) with Ok s => s | Raise _ => EmptyString end).

Lemma fetch_wf : wf_request fetch.
Proof.
  apply (make_request_wf (PStr "b") (PStr "web.fetch") [("url", PStr "https://docs.example.org/a")] PNone); [reflexivity|].
  vm_compute. reflexivity.
Qed.

Definition first := executor_execute cf grant fetch world0.
Definition result_of {A} (d : A) (r : result A) : A := match r with Ok a => a | Raise _ => d end.
Definition first_result : ExecutionResult := result_of (mk_result EmptyString EmptyString EmptyString PNone None) first.1.
Definition again := executor_execute cf grant fetch first.2.

Lemma first_run : executor_execute cf grant fetch world0 = (Ok first_result, first.2).
Proof. vm_compute. reflexivity. Qed.
Lemma again_run : executor_execute cf grant fetch first.2 = (again.1, again.2).
Proof. apply surjective_pairing. Qed.

Lemma first_wf : store_wf (w_store first.2).
Proof. by destruct (execute_cases cf grant fetch world0 _ _ sqlite_init_wf fetch_wf first_run). Qed.

Lemma first_claims : gr_decision_id grant ∈ a_grants (view (w_store first.2)).
Proof.
  destruct (execute_cases cf grant fetch world0 _ _ sqlite_init_wf fetch_wf first_run) as [_ [[[e He] _]|[[_ _ -> _] _]]];
    [done|set_solver].
Qed.

Lemma grant_valid : valid_grant cf grant fetch Sample.start.
Proof. split; vm_compute; reflexivity. Qed.

(** The tool is called once, by the first of two executions, made while the grant is live. *)
Lemma complete_mediation_witness : w_ledger again.2 = [("web.fetch", arguments_copy fetch)]
  /\ exists e, w_ledger again.2 = [invocation e] /\ accepted cf e /\ at_grant e = grant /\ at_before e = world0.
Proof.
  split; [vm_compute; reflexivity|].
  destruct (complete_mediation cf world0 again.2 [mk_attempt grant fetch world0 first.2; mk_attempt grant fetch first.2 again.2]
    sqlite_init_wf) as (uses & Hsub & Hl & Hnd & Huses).
  - apply (executing_execute cf grant fetch _ _ first.2 _ _ fetch_wf first_run).
    apply (executing_execute cf grant fetch _ _ again.2 _ _ fetch_wf again_run). apply executing_nil.
  - assert (length uses = 1%nat) as Hlen.
    { apply (f_equal length) in Hl. change (w_ledger world0) with (@nil (string * dict pyval)) in Hl. cbn [app] in Hl.
      rewrite length_map in Hl. rewrite <- Hl. vm_compute. reflexivity. }
    destruct uses as [|e []]; try discriminate Hlen. exists e. destruct (Huses e (list_elem_of_here e [])) as [Ha _].
    assert (at_before e = world0 /\ at_grant e = grant) as [Hb Hg].
    { apply (elem_of_sublist _ _ e) in Hsub; [|left]. apply elem_of_cons in Hsub as [Hin|Hin].
      - rewrite Hin. split; reflexivity.
      - apply list_elem_of_singleton in Hin. exfalso. apply (ac_fresh _ _ Ha). rewrite Hin. exact first_claims. }
    split; [exact Hl|split; [exact Ha|split; [exact Hg|exact Hb]]].
Defined.

Lemma execute_guarded_witness : performed cf grant fetch world0 first.2 /\ er_output first_result = PStr "page".
Proof.
  destruct (execute_guarded cf grant fetch world0 (Ok first_result) first.2 sqlite_init_wf fetch_wf first_run)
    as [[[e He] _]|[Hp Hrep]]; [discriminate He|split; [exact Hp|]].
  destruct Hrep as [(_ & _ & _ & Ho & _) _]. exact Ho.
Defined.

Lemma replay_refused_witness : untouched first.2 again.2.
Proof.
  apply (replay_refused cf grant grant fetch fetch world0 first.2 first.2 again.2 first_result again.1
    sqlite_init_wf fetch_wf first_run first_wf); [set_solver|exact fetch_wf|reflexivity|exact again_run].
Defined.

Lemma signature_binds_witness : rq_arguments_json fetch = rq_arguments_json fetch
  \/ (exists t t', hmac_collision (cf_signing_key cf) t t')
  \/ sha256_collision (rq_arguments_json fetch) (rq_arguments_json fetch).
Proof.
  destruct (signature_binds cf grant grant fetch fetch Sample.start Sample.start) as [(_ & _ & _ & _ & _ & He)|He];
    [vm_compute; reflexivity..|exact grant_valid|exact grant_valid|reflexivity|left; exact He|right; exact He].
Defined.
End Witnesses.
