(* ===== verification/Harness.v ===== *)
(** * The harness: src/capgate/core.py

    The facade: authorize, execute, messages, delegation in two stages, and human approval. *)

From S2P Require Import Prelude Datetime Regex PyVal Externals Json Request Decision NetAddr Timeutil Capability Contract Policy State AuditTrail Effects Interceptor Executor.

Record AuthorizationResult := mk_authorization {
  ar_decision : Decision;
  ar_grant : option ExecutionGrant;
  ar_approval_id : option string;
}.
Definition ar_allowed (r : AuthorizationResult) : bool := allowed (ar_decision r).

(** Two independent decisions: may the sender ask, and may the recipient act. *)
Record DelegationResult := mk_delegation {
  dl_delegation : AuthorizationResult;
  dl_action : option AuthorizationResult;
}.
Definition dl_final (r : DelegationResult) : AuthorizationResult := default (dl_delegation r) (dl_action r).
Definition dl_allowed (r : DelegationResult) : bool :=
  ar_allowed (dl_delegation r) && match dl_action r with Some a => ar_allowed a | None => false end.
Definition dl_blocked_at (r : DelegationResult) : option string :=
  if dl_allowed r then None else Some (match dl_action r with Some _ => "recipient" | None => "sender" end).

Record Message := mk_message {
  m_message_id : pyval;
  m_sender : pyval;
  m_recipient : pyval;
  m_body : pyval;
  m_decision_id : pyval;
}.

Record PendingApproval := mk_pending {
  pa_approval_id : string;
  pa_decision : Decision;
  pa_usage : Usage;
  pa_created_at : Z;
}.

Section pending.
Context `{Externals}.

Definition pending_to_record (p : PendingApproval) : dict pyval :=
  [("approval_id", PStr (pa_approval_id p)); ("status", PStr "pending");
   ("decision", PDict (decision_to_record (pa_decision p)));
   ("usage", PDict [("contract_steps", PInt (contract_steps (pa_usage p))); ("action_calls", PInt (action_calls (pa_usage p)))]);
   ("created_at", PStr (isoformat (pa_created_at p)))].

Definition usage_from_record (v : pyval) : result Usage :=
  let? d := want_dict v in
  let? steps := (let? v := key "contract_steps" d in want_int v) in
  let? calls := (let? v := key "action_calls" d in want_int v) in
  Ok (mk_usage steps calls).

Definition pending_from_record (record : dict pyval) : result PendingApproval :=
  let? id := (let? v := key "approval_id" record in want_str v) in
  let? decision := (let? v := key "decision" record in let? d := want_dict v in decision_from_record d) in
  let? usage := (let? v := key "usage" record in usage_from_record v) in
  let? created := (let? v := key "created_at" record in want_instant v) in
  Ok (mk_pending id decision usage created).
End pending.

Section harness.
Context {S : Type} `{StateStore S} `{Externals} `{Tools}.
Variable cf : config.

(** [Harness.__init__]: contracts are bound, and the harness's own actions cannot be tools. *)
Definition make_harness (contracts : list TaskContract) (simulate : bool) (signing_key : option string) (ttl : Z) :
    M S config :=
  let! (by_id, bindings) := lift (build_bindings contracts) in
  let! signing_key := (match signing_key with
                       | Some k => if s_is_empty k then ret (token_bytes 0) else ret k
                       | None => ret (token_bytes 0)
                       end) in
  match List.filter (fun a => str_in a tool_names) [DELEGATE_ACTION; MESSAGE_ACTION] with
  | [] => ret (mk_config by_id bindings simulate signing_key ttl)
  | reserved => raise (ValueError (repr_strs reserved +:+ " are handled by the harness and cannot be registered as tools"))
  end.

Definition is_agent (agent_id : string) : bool := dmem agent_id (cf_bindings cf).
Definition contract_for (agent_id : string) : option TaskContract := contract_of cf (dget agent_id (cf_bindings cf)).

Definition mint_grant (d : Decision) : M S ExecutionGrant :=
  let r := d_request d in
  let! now := read_clock in
  let expires := now + cf_grant_ttl cf in
  let p := grant_payload (d_decision_id d) (text_of (rq_agent_id r)) (d_contract_id d) (text_of (rq_action r))
             (arguments_hash r) expires in
  let! signature := lift (sign (cf_signing_key cf) p) in
  ret (mk_execution_grant (d_decision_id d) (text_of (rq_agent_id r)) (d_contract_id d) (text_of (rq_action r))
         (arguments_hash r) expires signature).

Definition result_for (d : Decision) (usage : Usage) : M S AuthorizationResult :=
  if escalated d then
    let! approval_id := fresh_uuid in
    let! now := read_clock in
    write_store (put_approval approval_id (pending_to_record (mk_pending approval_id d usage now))) ;!
    ret (mk_authorization d None (Some approval_id))
  else if allowed d && negb (cf_simulate cf) then
    let! g := mint_grant d in ret (mk_authorization d (Some g) None)
  else ret (mk_authorization d None None).

Definition authorize_request (r : ActionRequest) (delegated_by parent : option string) : M S AuthorizationResult :=
  let! (d, usage) := decide cf r delegated_by parent in
  result_for d usage.

(** A request that cannot be built is refused before the policy, and recorded. *)
Definition or_malformed (r : result ActionRequest) (agent action : pyval) (k : ActionRequest -> M S AuthorizationResult) :
    M S AuthorizationResult :=
  match r with
  | Ok r => k r
  | Raise (MalformedRequest msg) =>
      let! d := reject_before_policy cf agent action MALFORMED_REQUEST msg in ret (mk_authorization d None None)
  | Raise e => raise e
  end.

Definition authorize (agent action arguments contract_id : pyval) : M S AuthorizationResult :=
  or_malformed (make_request agent action (if truthy arguments then arguments else PDict []) contract_id) agent action
    (fun r => authorize_request r None None).

Definition harness_execute (res : AuthorizationResult) : M S ExecutionResult :=
  let r := d_request (ar_decision res) in
  let refuse reason detail :=
    audit "execution_refused" (refused_fields (d_decision_id (ar_decision res)) r reason detail) ;!
    raise (ExecutionRefused reason detail) in
  if cf_simulate cf then refuse "SIMULATION_MODE" "no external actions are executed in simulation"
  else match ar_grant res with
       | None => refuse "NO_GRANT" ("decision was " +:+ decision_value (d_decision (ar_decision res)))
       | Some g => executor_execute cf g r
       end.

Definition execute_grant (g : ExecutionGrant) (r : ActionRequest) : M S ExecutionResult := executor_execute cf g r.

Definition run_action (agent action arguments : pyval) : M S (AuthorizationResult * option ExecutionResult) :=
  let! res := authorize agent action arguments PNone in
  if ar_allowed res && negb (cf_simulate cf)
  then let! out := harness_execute res in ret (res, Some out)
  else ret (res, None).

(** ** Messages *)

Definition send_message (sender recipient body contract_id : pyval) : M S AuthorizationResult :=
  or_malformed (to_action_request (mk_message_request sender recipient body contract_id)) sender (PStr MESSAGE_ACTION)
    (fun r =>
       let! res := authorize_request r None None in
       if ar_allowed res && negb (cf_simulate cf)
       then harness_execute res ;! ret res
       else ret res).

(** [Message( **m)] *)
Definition message_of (m : dict pyval) : result Message :=
  let? id := key "message_id" m in
  let? sender := key "sender" m in
  let? recipient := key "recipient" m in
  let? body := key "body" m in
  let? decision_id := key "decision_id" m in
  Ok (mk_message id sender recipient body decision_id).

Definition receive (agent : string) : M S (list Message) :=
  let! l := update_store (drain_messages agent) in
  lift (traverse message_of l).

(** ** Delegation: the sender's right to ask, then the recipient's right to act *)

Definition delegated_stage (d : DelegationRequest) (parent : Decision) : M S AuthorizationResult :=
  let! r := lift (delegated_action d) in
  authorize_request r (Some (text_of (dr_sender d))) (Some (d_decision_id parent)).

Definition delegate (sender recipient action arguments contract_id : pyval) : M S DelegationResult :=
  let req := mk_delegation_request sender recipient action
               (if truthy arguments then arguments else PDict []) contract_id in
  let stage1 := match arguments with
                | PNone | PDict _ => delegation_request req
                | _ => Raise (MalformedRequest "arguments must be a mapping")
                end in
  let malformed e :=
    match e with
    | MalformedRequest msg =>
        let! d := reject_before_policy cf sender (PStr DELEGATE_ACTION) MALFORMED_REQUEST msg in
        ret (mk_delegation (mk_authorization d None None) None)
    | e => raise e
    end in
  match stage1 with
  | Raise e => malformed e
  | Ok r =>
      let! first := authorize_request r None None in
      if negb (ar_allowed first) then ret (mk_delegation first None)
      else let! second := delegated_stage req (ar_decision first) in
           ret (mk_delegation first (Some second))
  end.

(** ** Escalation *)

Definition pending_approvals : M S (list PendingApproval) :=
  let! l := read_store pending_records in lift (traverse pending_from_record l).

Definition approval_record (approval_id : string) : M S (option (dict pyval)) := read_store (get_approval approval_id).

Definition annotate_approval (approval_id : string) (fields : dict pyval) : M S unit :=
  transaction (
    let! record := read_store (get_approval approval_id) in
    match record with
    | None => ret tt
    | Some rec => write_store (put_approval approval_id (dupdate rec fields))
    end).

(** The pending approval of a record, if it is one. *)
Definition pending_of (record : option (dict pyval)) : result (option PendingApproval) :=
  match record with
  | Some ((_ :: _) as rec) =>
      let? status := key "status" rec in
      if equals_str status "pending" then let? p := pending_from_record rec in Ok (Some p) else Ok None
  | _ => Ok None
  end.

Definition may_decide (approver : string) (contract_id : option string) : bool :=
  negb (is_agent approver)
  && match dget (default EmptyString contract_id) (cf_contracts cf) with
     | Some c => str_in approver (tc_approvers c)
     | None => false
     end.

Definition take_approval (approval_id approver verb : string) : M S PendingApproval :=
  transaction (
    let! record := read_store (get_approval approval_id) in
    let! pending := lift (pending_of record) in
    match pending with
    | None =>
        audit "approval_refused"
          [("approval_id", PStr approval_id); ("approver", PStr approver); ("reason_code", PStr "UNKNOWN_APPROVAL");
           ("detail", PStr (verb +:+ ": no pending approval"))] ;!
        raise (ApprovalError ("no pending approval " +:+ repr_str approval_id))
    | Some p =>
        if negb (may_decide approver (d_contract_id (pa_decision p))) then
          audit "approval_refused"
            [("approval_id", PStr approval_id); ("decision_id", PStr (d_decision_id (pa_decision p)));
             ("approver", PStr approver); ("reason_code", PStr "UNAUTHORIZED_APPROVER");
             ("detail", PStr (repr_str approver +:+ " is not an approver for " +:+ py_repr (ostr (d_contract_id (pa_decision p)))))] ;!
          raise (ApprovalError (repr_str approver +:+ " may not " +:+ verb +:+ " requests under "
                                  +:+ py_repr (ostr (d_contract_id (pa_decision p)))))
        else
          write_store (put_approval approval_id
            (dupdate (default [] record) [("status", PStr "decided"); ("verb", PStr verb); ("approver", PStr approver)])) ;!
          ret p
    end).

Definition with_note (text approver note : string) : string :=
  text +:+ approver +:+ (if s_is_empty note then EmptyString else ": " +:+ note).

Definition approval_fields (approval_id : string) (p : PendingApproval) (d : Decision) (approver verdict note : string) : dict pyval :=
  [("approval_id", PStr approval_id); ("decision_id", PStr (d_decision_id (pa_decision p)));
   ("resulting_decision_id", PStr (d_decision_id d)); ("agent_id", rq_agent_id (d_request d));
   ("action", rq_action (d_request d)); ("approver", PStr approver); ("verdict", PStr verdict); ("note", PStr note)].

Definition verdict_fields (verdict : string) (d : Decision) : dict pyval :=
  [("verdict", PStr verdict); ("resulting_decision_id", PStr (d_decision_id d))].

(** The re-evaluation of an approved request: an escalation becomes a grant, anything else stands. *)
Definition approved_evaluation (approver note : string) (ev : PolicyEvaluation) : PolicyEvaluation :=
  if bool_decide (ev_decision ev = ESCALATE)
  then mk_evaluation ALLOW APPROVED_BY_HUMAN (with_note "approved by " approver note) (ev_capability ev) (Some "approval:granted")
  else ev.

(** The first part of [approve], one transaction: take, evaluate against the current counters, record. *)
Definition approve_decision (approval_id approver note : string) : M S (PendingApproval * Decision * Usage) :=
  transaction (
    let! p := take_approval approval_id approver "approve" in
    let r := d_request (pa_decision p) in
    let! usage := usage_for cf r in
    let! now := read_clock in
    let! ev := lift (evaluate r (cf_contracts cf) (cf_bindings cf) usage now) in
    let ev := approved_evaluation approver note ev in
    let! d := record cf r ev (d_delegated_by (pa_decision p)) (Some (d_decision_id (pa_decision p)))
                (if bool_decide (ev_decision ev = ALLOW) then Some approver else None) in
    ret (p, d, usage)).

Inductive approve_result :=
| Approved (r : AuthorizationResult)
| ApprovedDelegation (r : DelegationResult).

Definition approve (approval_id approver note : string) : M S approve_result :=
  let! (p, d, usage) := approve_decision approval_id approver note in
  let verdict := if allowed d then "granted" else "superseded" in
  audit "approval" (approval_fields approval_id p d approver verdict note) ;!
  annotate_approval approval_id (verdict_fields verdict d) ;!
  let! res := result_for d usage in
  let r := d_request d in
  if equals_str (rq_action r) DELEGATE_ACTION && ar_allowed res then
    let args := arguments_copy r in
    let! to := lift (key "to" args) in
    let! action := lift (key "action" args) in
    let arguments := if truthy (pget "arguments" args) then pget "arguments" args else PDict [] in
    let! second := delegated_stage (mk_delegation_request (rq_agent_id r) to action arguments PNone) d in
    ret (ApprovedDelegation (mk_delegation res (Some second)))
  else ret (Approved res).

Definition reject (approval_id approver note : string) : M S AuthorizationResult :=
  let! p := take_approval approval_id approver "reject" in
  let r := d_request (pa_decision p) in
  let ev := mk_evaluation DENY APPROVAL_REJECTED (with_note "rejected by " approver note)
              (Some (text_of (rq_action r))) (Some "approval:rejected") in
  let! d := record cf r ev (d_delegated_by (pa_decision p)) (Some (d_decision_id (pa_decision p))) None in
  annotate_approval approval_id (verdict_fields "rejected" d) ;!
  audit "approval" (approval_fields approval_id p d approver "rejected" note) ;!
  ret (mk_authorization d None None).
End harness.

(** ** What authorization gives out *)

Section lemmas.
Context {S : Type} `{StateStore S} `{Externals} `{Tools}.
Variable cf : config.

Lemma is_ascii_hexdigest s : is_ascii (hexdigest s) = true.
Proof.
  eapply s_forall_impl; [|apply hexdigest_hex]. intros c. unfold is_hex_lower, is_digit, in_range. lia.
Qed.

(** What the harness signs, it recognizes. *)
Lemma sign_verifies g : sign (cf_signing_key cf) (payload g) = Ok (gr_signature g) -> verify_grant cf g = Ok true.
Proof.
  intros Hs. unfold verify_grant. rewrite Hs. cbn [result_bind]. unfold compare_digest.
  assert (is_ascii (gr_signature g) = true) as ->; [|cbn; by rewrite String.eqb_refl].
  unfold sign in Hs. destruct (canonical_json _); [|done]. injection Hs as <-. apply is_ascii_hexdigest.
Qed.

(** A grant for a decision, valid for [cf_grant_ttl] from its minting. *)
Record minted (d : Decision) (g : ExecutionGrant) (now : Z) : Prop := {
  mt_signed : verify_grant cf g = Ok true;
  mt_decision : gr_decision_id g = d_decision_id d;
  mt_contract : gr_contract_id g = d_contract_id d;
  mt_agent : gr_agent_id g = text_of (rq_agent_id (d_request d));
  mt_action : gr_action g = text_of (rq_action (d_request d));
  mt_arguments : gr_arguments_hash g = arguments_hash (d_request d);
  mt_expires : gr_expires_at g = now + cf_grant_ttl cf;
}.

Lemma mint_grant_ok d (w : world S) g w' : mint_grant cf d w = (Ok g, w') ->
  minted d g (clock_at (w_clock w)) /\ same w w' /\ w_clock w' = Datatypes.S (w_clock w).
Proof.
  intros Hrun. unfold mint_grant in Hrun. mbind Hrun as now w1 Hc.
  assert (w_clock w1 = Datatypes.S (w_clock w)) as Hk by (by injection Hc as _ <-). apply read_clock_ok in Hc as [-> Hsame].
  mbind Hrun as s w2 Hs. apply lift_ok in Hs as [Hs ->]. injection Hrun as <- <-. split; [|done].
  split; [by apply sign_verifies|done..].
Qed.

(** What a decision is turned into, with the [k]-th reading of the clock. *)
Definition outcome_of (d : Decision) (u : Usage) (k : nat) (res : AuthorizationResult) (a a' : authority) : Prop :=
  ar_decision res = d /\
  match d_decision d with
  | DENY => ar_grant res = None /\ ar_approval_id res = None /\ a' = a
  | ALLOW => ar_approval_id res = None /\ a' = a
      /\ if cf_simulate cf then ar_grant res = None else exists g, ar_grant res = Some g /\ minted d g (clock_at k)
  | ESCALATE => ar_grant res = None /\ exists i, ar_approval_id res = Some i
      /\ a' = auth_put_approval i (stored (S:=S) (pending_to_record (mk_pending i d u (clock_at k)))) a
  end.

(** The readings of the clock a decision is evaluated, stamped and turned into its result with. *)
Definition readings (d : Decision) : nat :=
  match d_decision d with DENY => 2 | ALLOW => if cf_simulate cf then 2 else 3 | ESCALATE => 3 end.

Lemma result_for_ok d u (w : world S) res w' : store_wf (w_store w) -> result_for cf d u w = (Ok res, w') ->
  outcome_of d u (w_clock w) res (view (w_store w)) (view (w_store w'))
  /\ store_wf (w_store w') /\ w_audit w' = w_audit w /\ w_ledger w' = w_ledger w
  /\ Datatypes.S (Datatypes.S (w_clock w')) = (readings d + w_clock w)%nat.
Proof.
  intros Hwf Hrun. unfold result_for in Hrun. unfold outcome_of, readings, escalated, allowed in *.
  destruct (d_decision d) eqn:Ed; cbn in Hrun.
  - destruct (cf_simulate cf); cbn in Hrun; [by injection Hrun as <- <-|].
    mbind Hrun as g w1 Hg. apply mint_grant_ok in Hg as (Hm & (Hs & Ha & Hl) & Hk). injection Hrun as <- <-.
    rewrite Hs, Hk. split_and!; eauto.
  - by injection Hrun as <- <-.
  - injection Hrun as <- <-. cbn.
    destruct (put_approval_spec (w_store w) (uuid4 (w_uuids w)) (pending_to_record (mk_pending (uuid4 (w_uuids w)) d u
      (clock_at (w_clock w)))) Hwf eq_refl) as [Hw Hv].
    rewrite Hv. split_and!; eauto.
Qed.

Lemma authorize_request_ok r db parent (w : world S) res w' : store_wf (w_store w) ->
  authorize_request cf r db parent w = (Ok res, w') ->
  exists ev id, evaluate r (cf_contracts cf) (cf_bindings cf) (usage_of cf r (view (w_store w))) (clock_at (w_clock w)) = Ok ev
    /\ let d := decision_of cf id (clock_at (1 + w_clock w)) r ev db parent None in
       outcome_of d (usage_of cf r (view (w_store w))) (2 + w_clock w) res
         (count_call d (count_step cf r (view (w_store w)))) (view (w_store w'))
       /\ store_wf (w_store w') /\ w_ledger w' = w_ledger w
       /\ w_clock w' = (readings d + w_clock w)%nat
       /\ exists v : world S, w_audit v = w_audit w
            /\ logged v "decision" (decision_fields cf (al_include_arguments (w_audit w)) d) (w_audit w').
Proof.
  intros Hwf Hrun. unfold authorize_request in Hrun. mbind Hrun as [d u] w1 Hdec.
  apply decide_ok in Hdec as (-> & (ev & id & Hev & ->) & [Hwf1 Hl1 Hlog] & Hv & Hk1); [|done].
  apply result_for_ok in Hrun as (Hout & Hwf2 & Ha2 & Hl2 & Hk2); [|done]. rewrite Hv, Hk1 in Hout. rewrite Hk1 in Hk2.
  exists ev, id. split; [done|]. split_and!; [done|done|congruence|simpl in *; lia|]. by rewrite Ha2.
Qed.

(** ** What an approval does *)

Lemma audit_bind_raise {A} event fields (e : exn) (w : world S) (x : result A) w' :
  (audit event fields ;! raise e) w = (x, w') ->
  (exists e', x = Raise e') /\ w_store w' = w_store w /\ w_ledger w' = w_ledger w.
Proof.
  unfold bind. destruct (audit event fields w) as [[u|e'] w1] eqn:E.
  - apply audit_ok in E as (_ & Hs & Hl). intros [= <- <-]. eauto.
  - apply audit_raise in E as (_ & Hs & Hl). intros [= <- <-]. eauto.
Qed.

(** The record of a taken approval. *)
Definition decided (rec : dict pyval) (approver verb : string) : dict pyval :=
  dupdate rec [("status", PStr "decided"); ("verb", PStr verb); ("approver", PStr approver)].

Lemma decided_status rec approver verb : dget "status" (decided rec approver verb) = Some (PStr "decided").
Proof. unfold decided, dupdate. cbn [foldl]. by rewrite !dget_dset. Qed.

Lemma stored_decided rec approver verb :
  dget "status" (stored (S:=S) (decided rec approver verb)) = Some (PStr "decided").
Proof. apply has_status_true. rewrite stored_status by done. apply has_status_true, decided_status. Qed.

Lemma pending_of_some rec p : pending_of (Some rec) = Ok (Some p) ->
  dget "status" rec = Some (PStr "pending") /\ pending_from_record rec = Ok p.
Proof.
  unfold pending_of, key. destruct rec as [|kv rec]; [done|].
  destruct (dget "status" (kv :: rec)) as [v|] eqn:Ev; cbn [result_bind];
    [|intros Heq; discriminate Heq].
  destruct (equals_str v "pending") eqn:E; [|intros Heq; discriminate Heq]. apply equals_str_spec in E as ->.
  destruct (pending_from_record (kv :: rec)) as [q|e]; cbn [result_bind]; intros Heq; [|discriminate Heq].
  injection Heq as ->. by split.
Qed.

Lemma take_approval_ok i approver verb (w : world S) p w' : store_wf (w_store w) ->
  take_approval cf i approver verb w = (Ok p, w') ->
  exists rec, dget i (a_approvals (view (w_store w))) = Some rec
    /\ dget "status" rec = Some (PStr "pending") /\ pending_from_record rec = Ok p
    /\ may_decide cf approver (d_contract_id (pa_decision p)) = true
    /\ store_wf (w_store w')
    /\ view (w_store w') = auth_put_approval i (stored (S:=S) (decided rec approver verb)) (view (w_store w))
    /\ w_audit w' = w_audit w /\ w_ledger w' = w_ledger w /\ w_clock w' = w_clock w.
Proof.
  intros Hwf Hrun. unfold take_approval in Hrun. apply transaction_ok in Hrun as (wc & Hrun & ->).
  destruct (begin_view w Hwf) as [Hwf0 Hv0]. set (w0 := with_store tx_begin w) in *.
  assert (w_audit w0 = w_audit w /\ w_ledger w0 = w_ledger w /\ w_clock w0 = w_clock w) as (Ha0 & Hl0 & Hk0) by done. clearbody w0.
  mbind Hrun as record w1 Hrec. injection Hrec as <- <-.
  mbind Hrun as pending w2 Hp. apply lift_ok in Hp as [Hp ->].
  rewrite get_approval_spec, Hv0 in Hp by done.
  destruct pending as [q|].
  2: { apply audit_bind_raise in Hrun as [[e He] _]. done. }
  destruct (dget i (a_approvals (view (w_store w)))) as [rec|] eqn:Erec; [|done].
  apply pending_of_some in Hp as [Hst Hpf].
  destruct (may_decide cf approver _) eqn:Hmay; cbn [negb] in Hrun.
  2: { apply audit_bind_raise in Hrun as [[e He] _]. done. }
  injection Hrun as <- <-. exists rec.
  rewrite get_approval_spec, Hv0, Erec by done. change (default [] (Some rec)) with rec. fold (decided rec approver verb).
  assert (dmem "status" (decided rec approver verb) = true) as Hm by (unfold dmem; by rewrite decided_status).
  destruct (put_approval_spec (w_store w0) i _ Hwf0 Hm) as [Hwf1 Hv1].
  unfold decided, dupdate in *. cbn [foldl] in *.
  set (w1 := with_store (put_approval i _) w0).
  destruct (commit_view w1 Hwf1) as [Hwf2 Hv2]. rewrite Hv2. split_and!; try done. by rewrite <- Hv0, <- Hv1.
Qed.

(** A record that is not pending cannot be taken. *)
Lemma take_not_pending i approver verb (w : world S) x w' rec : store_wf (w_store w) ->
  dget i (a_approvals (view (w_store w))) = Some rec -> dget "status" rec <> Some (PStr "pending") ->
  take_approval cf i approver verb w = (x, w') -> exists e, x = Raise e.
Proof.
  intros Hwf Hrec Hst Hrun. destruct x as [p|e]; [|eauto].
  apply take_approval_ok in Hrun as (rec' & Hrec' & Hst' & _); [|done]. congruence.
Qed.

Lemma usage_of_put r i rec a : usage_of cf r (auth_put_approval i rec a) = usage_of cf r a.
Proof. done. Qed.

Lemma approve_decision_ok i approver note (w : world S) p d u w' : store_wf (w_store w) ->
  approve_decision cf i approver note w = (Ok (p, d, u), w') ->
  exists rec ev id, dget i (a_approvals (view (w_store w))) = Some rec
    /\ dget "status" rec = Some (PStr "pending") /\ pending_from_record rec = Ok p
    /\ may_decide cf approver (d_contract_id (pa_decision p)) = true
    /\ u = usage_of cf (d_request (pa_decision p)) (view (w_store w))
    /\ evaluate (d_request (pa_decision p)) (cf_contracts cf) (cf_bindings cf) u (clock_at (w_clock w)) = Ok ev
    /\ d = decision_of cf id (clock_at (1 + w_clock w)) (d_request (pa_decision p)) (approved_evaluation approver note ev)
             (d_delegated_by (pa_decision p)) (Some (d_decision_id (pa_decision p)))
             (if bool_decide (ev_decision (approved_evaluation approver note ev) = ALLOW) then Some approver else None)
    /\ store_wf (w_store w') /\ w_ledger w' = w_ledger w
    /\ view (w_store w')
       = count_call d (auth_put_approval i (stored (S:=S) (decided rec approver "approve")) (view (w_store w))).
Proof.
  intros Hwf Hrun. unfold approve_decision in Hrun. apply transaction_ok in Hrun as (wc & Hrun & ->).
  destruct (begin_view w Hwf) as [Hwf0 Hv0]. set (w0 := with_store tx_begin w) in *.
  assert (w_ledger w0 = w_ledger w /\ w_clock w0 = w_clock w) as [Hl0 Hk0] by done. clearbody w0.
  mbind Hrun as q w1 Htake. apply take_approval_ok in Htake as (rec & Hrec & Hst & Hpf & Hmay & Hwf1 & Hv1 & _ & Hl1 & Hk1); [|done].
  mbind Hrun as usage w2 Hu. apply usage_for_ok in Hu as [-> ->]; [|done].
  rewrite Hv1, usage_of_put, Hv0 in Hrun.
  mbind Hrun as now w3 Hc. assert (w_clock w3 = (1 + w_clock w)%nat) as Hk3 by (injection Hc as _ <-; simpl; congruence).
  apply read_clock_ok in Hc as [-> (Hs3 & _ & Hl3)]. rewrite Hk1, Hk0 in Hrun.
  mbind Hrun as ev w4 Hev. apply lift_ok in Hev as [Hev ->].
  mbind Hrun as d' w5 Hr. injection Hrun as <- <- <- <-. rewrite <- Hs3 in Hwf1, Hv1.
  apply record_ok in Hr as ((id & Hd) & [Hwf5 Hl5 _] & Hv5 & _); [|done]. rewrite Hk3 in Hd.
  destruct (commit_view w5 Hwf5) as [Hwf6 Hv6]. rewrite Hv6, Hv5, Hv1, Hv0. rewrite Hv0 in Hrec.
  exists rec, ev, id. split_and!; try done. simpl. congruence.
Qed.

(** ** The persisted escalation *)

Lemma json_copy_ostr o : json_copy (ostr o) = ostr o.
Proof. by destruct o. Qed.

Lemma evaluate_wellformed r u now ev : evaluate r (cf_contracts cf) (cf_bindings cf) u now = Ok ev ->
  ev_decision ev <> DENY -> problems r = [].
Proof. unfold evaluate, deny. destruct (problems r); [done|]. intros Heq. injection Heq as <-. done. Qed.

(** The record of a decision on a well-formed request is JSON data. *)
Lemma decision_record_plain d : wf_request (d_request d) -> problems (d_request d) = [] ->
  json_copy (PDict (decision_to_record d)) = PDict (decision_to_record d).
Proof.
  intros Hreq Hp. apply problems_nil in Hp as (a & act & Ha & _ & Hact & _ & Hc).
  pose proof (arguments_plain _ Hreq) as Hargs. unfold copy_dict in Hargs.
  unfold decision_to_record, decision_to_dict, request_to_dict. cbn [json_copy map app].
  rewrite !json_copy_ostr, Hargs, Ha, Hact. by destruct Hc as [-> |[c ->]].
Qed.

Lemma pending_record_plain p : wf_request (d_request (pa_decision p)) -> problems (d_request (pa_decision p)) = [] ->
  copy_dict (pending_to_record p) = pending_to_record p.
Proof.
  intros Hreq Hp. pose proof (decision_record_plain _ Hreq Hp) as Hd.
  unfold copy_dict, pending_to_record. cbn [map]. rewrite Hd. done.
Qed.

Lemma pending_roundtrip p : wf_request (d_request (pa_decision p)) ->
  in_datetime_range (d_timestamp (pa_decision p)) = true -> in_datetime_range (pa_created_at p) = true ->
  pending_of (Some (pending_to_record p)) = Ok (Some p).
Proof.
  intros Hreq Ht Hc. unfold pending_of, pending_to_record, key.
  cbn [dget String.eqb Ascii.eqb Bool.eqb result_bind equals_str].
  unfold pending_from_record, key. cbn [dget String.eqb Ascii.eqb Bool.eqb result_bind want_str want_dict].
  rewrite decision_record_roundtrip by done. unfold usage_from_record, key.
  cbn [dget String.eqb Ascii.eqb Bool.eqb result_bind want_dict want_int].
  rewrite want_instant_isoformat by done. cbn [result_bind]. by destruct p as [? ? []].
Qed.

(** ** Delegation takes two decisions *)

Lemma delegate_ok sender recipient action arguments cid (w : world S) res w' :
  delegate cf sender recipient action arguments cid w = (Ok res, w') -> dl_allowed res = true ->
  exists r1 r2 first second w1,
    let req := mk_delegation_request sender recipient action (if truthy arguments then arguments else PDict []) cid in
    delegation_request req = Ok r1 /\ delegated_action req = Ok r2
    /\ authorize_request cf r1 None None w = (Ok first, w1)
    /\ authorize_request cf r2 (Some (text_of sender)) (Some (d_decision_id (ar_decision first))) w1 = (Ok second, w')
    /\ res = mk_delegation first (Some second) /\ ar_allowed first = true /\ ar_allowed second = true.
Proof.
  intros Hrun Hall. unfold delegate in Hrun. unfold dl_allowed in Hall. apply andb_true_iff in Hall as [H1' H2'].
  set (req := mk_delegation_request _ _ _ _ _) in *.
  destruct (match arguments with PNone | PDict _ => _ | _ => _ end) as [r1|e] eqn:E1.
  2: { destruct e; try done. mbind Hrun as d w1 Hrej. injection Hrun as <- <-. done. }
  assert (delegation_request req = Ok r1) as Hreq by (destruct arguments; done).
  mbind Hrun as first w1 Hfirst. destruct (ar_allowed first) eqn:Ea; cbn [negb] in Hrun.
  2: { injection Hrun as <- <-. done. }
  mbind Hrun as second w2 Hsec. injection Hrun as <- <-. unfold delegated_stage in Hsec.
  mbind Hsec as r2 w3 Hr2. apply lift_ok in Hr2 as [Hr2 ->].
  exists r1, r2, first, second, w1. split_and!; done.
Qed.
End lemmas.

(** ** Properties *)

Section properties.
Context {S : Type} `{StateStore S} `{Externals} `{Tools}.
Variable cf : config.
Hypothesis tables_wf : wf_tables (cf_contracts cf) (cf_bindings cf).

Definition granted_with (r : ActionRequest) (d : Decision) (g : ExecutionGrant) : Prop :=
  verify_grant cf g = Ok true /\ gr_decision_id g = d_decision_id d /\ gr_contract_id g = d_contract_id d
  /\ rq_agent_id r = PStr (gr_agent_id g) /\ rq_action r = PStr (gr_action g)
  /\ gr_arguments_hash g = arguments_hash r.

Lemma outcome_grant d u k res a a' r u' now e g : outcome_of (S:=S) cf d u k res a a' -> ar_grant res = Some g ->
  d_request d = r -> authorized (cf_contracts cf) (cf_bindings cf) r u' now e ->
  cf_simulate cf = false /\ d_decision d = ALLOW /\ granted_with r d g /\ gr_expires_at g = clock_at k + cf_grant_ttl cf.
Proof.
  intros [_ Hout] Hg <- (_ & agent & action & _ & _ & _ & Ha & Hact & _).
  destruct (d_decision d) eqn:Ed; [|destruct Hout as (Hn & _); congruence|destruct Hout as (Hn & _); congruence].
  destruct Hout as (_ & _ & Hout). destruct (cf_simulate cf); [congruence|].
  destruct Hout as (g' & Hg' & [Hs Hd Hc Hag Hac Har Hexp]). replace g' with g in * by congruence.
  unfold granted_with. rewrite Ha in Hag. rewrite Hact in Hac. cbn in Hag, Hac. split_and!; congruence.
Qed.

Lemma authorize_granted r db parent (w : world S) res w' g : store_wf (w_store w) ->
  authorize_request cf r db parent w = (Ok res, w') -> ar_grant res = Some g ->
  cf_simulate cf = false /\ granted_with r (ar_decision res) g
  /\ gr_expires_at g = clock_at (2 + w_clock w) + cf_grant_ttl cf
  /\ authorized (cf_contracts cf) (cf_bindings cf) r (usage_of cf r (view (w_store w))) (clock_at (w_clock w)) EAllow.
Proof.
  intros Hwf Hrun Hg. apply authorize_request_ok in Hrun as (ev & id & Hev & Hout & _); [|done].
  set (d := decision_of _ _ _ _ _ _ _ _) in *. pose proof Hout as [Hd Hcase].
  assert (d_decision d = ev_decision ev) as Hde by done.
  assert (ev_decision ev = ALLOW) as Hallow.
  { rewrite <- Hde. destruct (d_decision d); [done|destruct Hcase as (Hn & _); congruence|destruct Hcase as (Hn & _); congruence]. }
  assert (authorized (cf_contracts cf) (cf_bindings cf) r (usage_of cf r (view (w_store w))) (clock_at (w_clock w)) EAllow) as Hauth.
  { apply evaluate_grants; [done|done|]. exists ev. done. }
  rewrite Hd. destruct (outcome_grant _ _ _ _ _ _ _ _ _ _ _ Hout Hg eq_refl Hauth) as (Hs & _ & Hgw & Hexp). by split_and!.
Qed.

Lemma authorize_allowed r db parent (w : world S) res w' : store_wf (w_store w) ->
  authorize_request cf r db parent w = (Ok res, w') -> ar_allowed res = true ->
  authorized (cf_contracts cf) (cf_bindings cf) r (usage_of cf r (view (w_store w))) (clock_at (w_clock w)) EAllow
  /\ d_request (ar_decision res) = r /\ d_delegated_by (ar_decision res) = db
  /\ d_parent_decision_id (ar_decision res) = parent /\ d_contract_id (ar_decision res) = contract_id_of cf r
  /\ store_wf (w_store w') /\ w_ledger w' = w_ledger w
  /\ view (w_store w') = auth_add_call (text_of (rq_agent_id r)) (text_of (rq_action r)) (count_step cf r (view (w_store w)))
  /\ w_clock w' = ((if cf_simulate cf then 2 else 3) + w_clock w)%nat.
Proof.
  intros Hwf Hrun Hall. apply authorize_request_ok in Hrun as (ev & id & Hev & [Hd Hout] & Hwf' & Hl & Hk & _); [|done].
  set (d := decision_of _ _ _ _ _ _ _ _) in *. unfold ar_allowed in Hall. rewrite Hd in *.
  assert (d_decision d = ALLOW) as Hallow by (by apply bool_decide_eq_true in Hall).
  unfold readings, count_call in *. rewrite Hall, Hallow in Hout. rewrite Hallow in Hk. destruct Hout as (_ & Hv & _).
  split_and!; try done. apply evaluate_grants; [done|done|]. by exists ev.
Qed.

(** C2. No grant without authority: whenever authorizing a request hands out a grant, the harness is
    enforcing, the request satisfies the declarative specification of an allowed request under its
    agent's contract at the counters of the store and the time the harness's clock shows when the
    request comes in, and the grant is validly signed for exactly that decision, agent, contract, action
    and arguments, and expires the configured lifetime after it is minted, at the second next reading. *)
Theorem grant_only_if_authorized (r : ActionRequest) (db parent : option string) (w : world S)
    (res : AuthorizationResult) (w' : world S) (g : ExecutionGrant) :
  store_wf (w_store w) -> authorize_request cf r db parent w = (Ok res, w') -> ar_grant res = Some g ->
  cf_simulate cf = false /\ granted_with r (ar_decision res) g
  /\ gr_expires_at g = clock_at (2 + w_clock w) + cf_grant_ttl cf
  /\ authorized (cf_contracts cf) (cf_bindings cf) r (usage_of cf r (view (w_store w))) (clock_at (w_clock w)) EAllow.
Proof. apply authorize_granted. Qed.

(** C10. A grant works once: presented with its own request before it expires and before its decision
    id is claimed, on any later state of the store, a grant handed out by the harness is performed by
    the executor, provided the tool exists. *)
Theorem minted_grant_executes (r : ActionRequest) (db parent : option string) (w w1 w2 : world S)
    (res : AuthorizationResult) (g : ExecutionGrant) :
  store_wf (w_store w) -> wf_request r -> authorize_request cf r db parent w = (Ok res, w1) -> ar_grant res = Some g ->
  store_wf (w_store w2) -> gr_decision_id g ∉ a_grants (view (w_store w2)) -> clock_at (w_clock w2) < gr_expires_at g ->
  has_tool (gr_action g) = true ->
  exists x w', harness_execute cf res w2 = (x, w') /\ performed cf g r w2 w'.
Proof.
  intros Hwf Hreq Hrun Hg Hwf2 Hfresh Hlive Htool.
  destruct (authorize_granted _ _ _ _ _ _ _ Hwf Hrun Hg) as (Hsim & (Hs & _ & _ & Ha & Hact & Hargs) & _).
  apply authorize_request_ok in Hrun as (ev & id & _ & [Hd _] & _); [|done].
  unfold harness_execute. rewrite Hsim, Hg, Hd.
  change (d_request (decision_of cf id _ r ev db parent None)) with r.
  assert (valid_grant cf g r (clock_at (w_clock w2))) as Hvalid by (by split).
  destruct (checked_passes cf g r w2 Hwf2 Hvalid Hfresh) as [w3 Hc].
  destruct (executor_execute cf g r w2) as [x w'] eqn:Ex. exists x, w'. split; [done|].
  by destruct (execute_checked cf g r w2 w3 x w' Hwf2 Hreq Hc Ex) as (_ & ? & _).
Qed.

(** C4. Delegation needs both: when a delegation is allowed, the sender was authorized to ask for that
    action of that recipient, at the counters and the clock the delegation came in at; and separately
    the action was authorized as the recipient's own request under the recipient's binding, at the
    counters the first decision left behind - a step and a call of the sender more - and the next
    reading of the clock; the second decision names the sender and the first decision as its origin, the
    two decisions are all that is counted, and no tool has run. *)
Theorem delegation_needs_both (sender recipient action arguments cid : pyval) (w : world S) (res : DelegationResult) (w' : world S) :
  store_wf (w_store w) -> delegate cf sender recipient action arguments cid w = (Ok res, w') -> dl_allowed res = true ->
  exists r1 r2 second,
    let req := mk_delegation_request sender recipient action (if truthy arguments then arguments else PDict []) cid in
    let counted r a := auth_add_call (text_of (rq_agent_id r)) (text_of (rq_action r)) (count_step cf r a) in
    let a1 := counted r1 (view (w_store w)) in
    delegation_request req = Ok r1 /\ delegated_action req = Ok r2
    /\ authorized (cf_contracts cf) (cf_bindings cf) r1 (usage_of cf r1 (view (w_store w))) (clock_at (w_clock w)) EAllow
    /\ authorized (cf_contracts cf) (cf_bindings cf) r2 (usage_of cf r2 a1)
         (clock_at ((if cf_simulate cf then 2 else 3) + w_clock w)) EAllow
    /\ view (w_store w') = counted r2 a1
    /\ dl_action res = Some second /\ d_request (ar_decision second) = r2
    /\ d_contract_id (ar_decision second) = contract_id_of cf r2
    /\ d_delegated_by (ar_decision second) = Some (text_of sender)
    /\ d_parent_decision_id (ar_decision second) = Some (d_decision_id (ar_decision (dl_delegation res)))
    /\ w_ledger w' = w_ledger w.
Proof.
  intros Hwf Hrun Hall. apply delegate_ok in Hrun as (r1 & r2 & first & second & w1 & Hr1 & Hr2 & H1' & H2' & -> & Ha1 & Ha2); [|done].
  destruct (authorize_allowed _ _ _ _ _ _ Hwf H1' Ha1) as (Hau1 & _ & _ & _ & _ & Hwf1 & Hl1 & Hv1 & Hk1).
  destruct (authorize_allowed _ _ _ _ _ _ Hwf1 H2' Ha2) as (Hau2 & Hreq2 & Hdb & Hpar & Hcid & _ & Hl2 & Hv2 & _).
  rewrite Hv1, Hk1 in Hau2. rewrite Hv1 in Hv2. exists r1, r2, second. split_and!; try done. congruence.
Qed.

(** C5. An approval grants only what the contract lets a human approve: when deciding an approval
    yields an allowed decision, the approval was pending, the approver is listed by the contract of
    the pending decision and is no agent, and the request is - at the time the harness's clock shows when
    the approval is decided, at the counters of the store then - allowed or awaiting approval under the
    contract; the decision names approver and pending decision, it
    consumes one call and no step, and the approval is pending no more. *)
Theorem approval_sound (i approver note : string) (w : world S) (p : PendingApproval) (d : Decision) (u : Usage) (w' : world S) :
  store_wf (w_store w) -> approve_decision cf i approver note w = (Ok (p, d, u), w') -> allowed d = true ->
  (exists rec, dget i (a_approvals (view (w_store w))) = Some rec
     /\ dget "status" rec = Some (PStr "pending") /\ pending_from_record rec = Ok p)
  /\ (exists c, dget (default EmptyString (d_contract_id (pa_decision p))) (cf_contracts cf) = Some c
        /\ approver ∈ tc_approvers c) /\ is_agent cf approver = false
  /\ (exists e, e <> EDeny /\ authorized (cf_contracts cf) (cf_bindings cf) (d_request (pa_decision p))
        (usage_of cf (d_request (pa_decision p)) (view (w_store w))) (clock_at (w_clock w)) e)
  /\ d_request d = d_request (pa_decision p) /\ d_approved_by d = Some approver
  /\ d_parent_decision_id d = Some (d_decision_id (pa_decision p))
  /\ a_steps (view (w_store w')) = a_steps (view (w_store w))
  /\ a_calls (view (w_store w')) = count (text_of (rq_agent_id (d_request d)), text_of (rq_action (d_request d)))
       (a_calls (view (w_store w)))
  /\ (exists rec', dget i (a_approvals (view (w_store w'))) = Some rec' /\ dget "status" rec' = Some (PStr "decided"))
  /\ w_ledger w' = w_ledger w.
Proof.
  intros Hwf Hrun Hall.
  apply approve_decision_ok in Hrun as (rec & ev & id & Hrec & Hst & Hpf & Hmay & -> & Hev & Hd & Hwf' & Hl & Hv); [|done].
  unfold may_decide in Hmay. apply andb_true_iff in Hmay as [Hag Happ]. apply negb_true_iff in Hag.
  destruct (dget (default _ _) (cf_contracts cf)) as [c|] eqn:Ec; [|done]. apply str_in_spec in Happ.
  assert (count_call d (auth_put_approval i (stored (S:=S) (decided rec approver "approve")) (view (w_store w)))
    = auth_add_call (text_of (rq_agent_id (d_request d))) (text_of (rq_action (d_request d)))
        (auth_put_approval i (stored (S:=S) (decided rec approver "approve")) (view (w_store w)))) as Hcc
    by (unfold count_call; by rewrite Hall).
  rewrite Hcc in Hv. rewrite Hv. clear Hcc.
  unfold allowed in Hall. apply bool_decide_eq_true in Hall.
  assert (ev_decision (approved_evaluation approver note ev) = ALLOW) as Hap by (by rewrite Hd in Hall).
  assert (exists e, e <> EDeny /\ ev_decision ev = effect_decision e) as (e & He & Hee).
  { unfold approved_evaluation in Hap. case_bool_decide; [by exists EEscalate|by exists EAllow]. }
  split_and!; try done.
  - eauto.
  - eauto.
  - exists e. split; [done|]. apply evaluate_grants; [done|done|]. by exists ev.
  - by rewrite Hd.
  - rewrite Hd. simpl. by rewrite bool_decide_eq_true_2.
  - by rewrite Hd.
  - eexists. simpl. rewrite dget_dset_eq. split; [done|]. apply stored_decided.
Qed.
End properties.

Section properties_of_approvals.
Context {S : Type} `{StateStore S} `{Externals} `{Tools}.
Variable cf : config.

(** An approval is decided once: after it has been taken, by approval or rejection, it can never be
    taken again while its record stays in the store, whoever tries and whatever else changes. *)
Theorem approval_single_use (i a a' v v' : string) (w w1 w2 w3 : world S) (p : PendingApproval) (x : result PendingApproval) :
  store_wf (w_store w) -> take_approval cf i a v w = (Ok p, w1) ->
  store_wf (w_store w2) -> dget i (a_approvals (view (w_store w2))) = dget i (a_approvals (view (w_store w1))) ->
  take_approval cf i a' v' w2 = (x, w3) -> exists e, x = Raise e.
Proof.
  intros Hwf Htake Hwf2 Hsame Hagain.
  apply take_approval_ok in Htake as (rec & _ & _ & _ & _ & _ & Hv & _); [|done].
  rewrite Hv in Hsame. simpl in Hsame. rewrite dget_dset_eq in Hsame.
  apply (take_not_pending cf i a' v' w2 x w3 _ Hwf2 Hsame); [|done]. by rewrite stored_decided.
Qed.

(** An escalation is what the approver sees: when a request is escalated, the store holds under the
    returned approval id a pending record that is read back as exactly the decision made and the
    counters it was made at. *)
Theorem escalation_persisted `{!FaithfulStore S} (r : ActionRequest) (db parent : option string) (w : world S) (res : AuthorizationResult) (w' : world S) :
  (forall n, in_datetime_range (clock_at n) = true) -> store_wf (w_store w) -> wf_request r ->
  authorize_request cf r db parent w = (Ok res, w') -> d_decision (ar_decision res) = ESCALATE ->
  ar_grant res = None /\ exists i rec u now, ar_approval_id res = Some i
    /\ dget i (a_approvals (view (w_store w'))) = Some rec
    /\ pending_of (Some rec) = Ok (Some (mk_pending i (ar_decision res) u now))
    /\ u = usage_of cf r (view (w_store w)).
Proof.
  intros Hclock Hwf Hreq Hrun Hesc.
  apply authorize_request_ok in Hrun as (ev & id & Hev & [Hd Hcase] & _); [|done].
  set (d := decision_of _ _ _ _ _ _ _ _) in *. rewrite Hd in *. rewrite Hesc in Hcase.
  destruct Hcase as (Hg & i & Hi & Hv). split; [done|].
  set (q := mk_pending i d (usage_of cf r (view (w_store w))) (clock_at (2 + w_clock w))) in *.
  exists i, (stored (S:=S) (pending_to_record q)), (usage_of cf r (view (w_store w))), (clock_at (2 + w_clock w)).
  split_and!; [done|rewrite Hv; apply dget_dset_eq| |done].
  assert (problems (d_request d) = []) as Hp.
  { apply (evaluate_wellformed cf r (usage_of cf r (view (w_store w))) (clock_at (w_clock w)) ev Hev). intros Hdeny.
    change (d_decision d) with (ev_decision ev) in Hesc. congruence. }
  rewrite stored_copy, pending_record_plain by done. fold q. by apply pending_roundtrip; [|apply Hclock..].
Qed.
End properties_of_approvals.

Module Witnesses.
Import SampleContract.
#[local] Existing Instance Executor.Witnesses.tools.
Definition cf : config := Interceptor.Witnesses.cf.
Definition world0 := Interceptor.Witnesses.world0 SQLite.init true.
Definition fetch : ActionRequest := Policy.Witnesses.fetch.
Definition publish : ActionRequest := Policy.Witnesses.publish.

Lemma cf_tables : wf_tables (cf_contracts cf) (cf_bindings cf).
Proof. exact Policy.Witnesses.sample_tables_wf. Qed.

Definition no_authorization : AuthorizationResult :=
  mk_authorization (decision_of cf EmptyString 0 fetch (mk_evaluation DENY MALFORMED_REQUEST EmptyString None None) None None None) None None.
Definition of_run {A W} (d : A) (x : result A * W) : A := match x.1 with Ok a => a | Raise _ => d end.
Lemma of_run_ok {A W} (d : A) (x : result A * W) : is_ok x.1 = true -> x = (Ok (of_run d x), x.2).
Proof. unfold of_run. by destruct x as [[a|e] w]. Qed.

(** [fetch] is allowed and gets a grant. *)
Definition fetched := authorize_request cf fetch None None world0.
Definition fetch_result : AuthorizationResult := of_run no_authorization fetched.
Definition fetch_grant : ExecutionGrant := default Executor.Witnesses.grant (ar_grant fetch_result).

Lemma fetch_run : authorize_request cf fetch None None world0 = (Ok fetch_result, fetched.2).
Proof. apply of_run_ok. vm_compute. reflexivity. Qed.
Lemma fetch_has_grant : ar_grant fetch_result = Some fetch_grant.
Proof. vm_compute. reflexivity. Qed.
Lemma fetched_wf : store_wf (w_store fetched.2).
Proof.
  destruct (authorize_request_ok cf fetch None None world0 _ _ sqlite_init_wf fetch_run) as (? & ? & _ & _ & Hwf & _).
  exact Hwf.
Qed.

Lemma grant_only_if_authorized_witness : granted_with cf fetch (ar_decision fetch_result) fetch_grant.
Proof.
  apply (grant_only_if_authorized cf cf_tables fetch None None world0 fetch_result fetched.2 fetch_grant
    sqlite_init_wf fetch_run fetch_has_grant).
Defined.

Lemma minted_grant_executes_witness : exists x w', harness_execute cf fetch_result fetched.2 = (x, w')
  /\ performed cf fetch_grant fetch fetched.2 w'.
Proof.
  apply (minted_grant_executes cf cf_tables fetch None None world0 fetched.2 fetched.2 fetch_result fetch_grant
    sqlite_init_wf Executor.Witnesses.fetch_wf fetch_run fetch_has_grant fetched_wf);
    [exact (bool_decide_eq_true_1 (gr_decision_id fetch_grant ∉ a_grants (view (w_store fetched.2))) eq_refl)|vm_compute; reflexivity..].
Defined.

(** [a] asks [b] to fetch. *)
Definition asked := delegate cf (PStr "a") (PStr "b") (PStr "web.fetch") (PDict [("url", PStr "https://example.org/x")]) PNone world0.
Definition asked_result : DelegationResult := of_run (mk_delegation no_authorization None) asked.

Lemma asked_run : delegate cf (PStr "a") (PStr "b") (PStr "web.fetch") (PDict [("url", PStr "https://example.org/x")]) PNone world0
  = (Ok asked_result, asked.2).
Proof. apply of_run_ok. vm_compute. reflexivity. Qed.
Lemma asked_allowed : dl_allowed asked_result = true.
Proof. vm_compute. reflexivity. Qed.

Lemma delegation_needs_both_witness : exists second, dl_action asked_result = Some second
  /\ d_delegated_by (ar_decision second) = Some "a".
Proof.
  destruct (delegation_needs_both cf cf_tables _ _ _ _ _ world0 asked_result asked.2 sqlite_init_wf asked_run asked_allowed)
    as (r1 & r2 & second & _ & _ & _ & _ & _ & Hs & _ & _ & Hd & _).
  exists second. split; [exact Hs|exact Hd].
Defined.

(** Publishing is escalated; carol approves it. *)
Definition escalated_run := authorize_request cf publish None None world0.
Definition escalation : AuthorizationResult := of_run no_authorization escalated_run.
Definition approval_id : string := default EmptyString (ar_approval_id escalation).
Definition no_pending : PendingApproval := mk_pending EmptyString (ar_decision no_authorization) (mk_usage 0 0) 0.
Definition approved := approve_decision cf approval_id "carol" "fine" escalated_run.2.
Definition approved_result := of_run (no_pending, ar_decision no_authorization, mk_usage 0 0) approved.

Lemma escalation_eq : authorize_request cf publish None None world0 = (Ok escalation, escalated_run.2).
Proof. apply of_run_ok. vm_compute. reflexivity. Qed.
Lemma escalation_wf : store_wf (w_store escalated_run.2).
Proof.
  destruct (authorize_request_ok cf publish None None world0 _ _ sqlite_init_wf escalation_eq) as (? & ? & _ & _ & Hwf & _).
  exact Hwf.
Qed.
Lemma approved_run : approve_decision cf approval_id "carol" "fine" escalated_run.2
  = (Ok (approved_result.1.1, approved_result.1.2, approved_result.2), approved.2).
Proof. rewrite <- !surjective_pairing. apply of_run_ok. vm_compute. reflexivity. Qed.
Lemma approved_allowed : allowed approved_result.1.2 = true.
Proof. vm_compute. reflexivity. Qed.

Lemma approval_sound_witness : d_approved_by approved_result.1.2 = Some "carol".
Proof.
  destruct (approval_sound cf cf_tables approval_id "carol" "fine" escalated_run.2 _ _ _ approved.2 escalation_wf approved_run
    approved_allowed) as (_ & _ & _ & _ & _ & Hd & _). exact Hd.
Defined.

Definition taken := take_approval cf approval_id "carol" "reject" escalated_run.2.
Definition taken_pending : PendingApproval := of_run no_pending taken.
Lemma taken_run : take_approval cf approval_id "carol" "reject" escalated_run.2 = (Ok taken_pending, taken.2).
Proof. apply of_run_ok. vm_compute. reflexivity. Qed.
Lemma taken_wf : store_wf (w_store taken.2).
Proof.
  destruct (take_approval_ok cf approval_id "carol" "reject" escalated_run.2 _ _ escalation_wf taken_run)
    as (? & _ & _ & _ & _ & Hwf & _). exact Hwf.
Qed.

Lemma approval_single_use_witness : exists e, (take_approval cf approval_id "carol" "approve" taken.2).1 = Raise e.
Proof.
  apply (approval_single_use cf approval_id "carol" "carol" "reject" "approve" escalated_run.2 taken.2 taken.2
    (take_approval cf approval_id "carol" "approve" taken.2).2 taken_pending _ escalation_wf taken_run taken_wf eq_refl).
  apply surjective_pairing.
Defined.

(** The same environment with a clock that stands still. *)
Definition still : Externals :=
  Sample.with_io Sample.externals (fun _ => Sample.start) (@write_ok Sample.externals).
Definition still_run := @authorize_request SQLiteStateStore _ still cf publish None None world0.
Definition still_result : AuthorizationResult := of_run no_authorization still_run.
Lemma still_eq : @authorize_request SQLiteStateStore _ still cf publish None None world0 = (Ok still_result, still_run.2).
Proof. apply of_run_ok. vm_compute. reflexivity. Qed.
Lemma publish_wf : @wf_request still publish.
Proof.
  apply (@make_request_wf still (PStr "a") (PStr "doc.publish") [] PNone); [reflexivity|]. vm_compute. reflexivity.
Qed.

Lemma escalation_persisted_witness : exists i, ar_approval_id still_result = Some i.
Proof.
  destruct (@escalation_persisted SQLiteStateStore _ still cf _ publish None None world0 still_result still_run.2)
    as (_ & i & rec & u & now & Hi & _); [|exact sqlite_init_wf|exact publish_wf|exact still_eq| |by exists i].
  - intros n. vm_compute. reflexivity.
  - vm_compute. reflexivity.
Defined.
End Witnesses.
