(* ===== verification/System.v ===== *)
(** * Runs of the whole harness

    Every public operation of [Harness] as a value, and an invariant principle for any sequence of
    them, failures included. The call limits of contracts and the silence of simulation are instances. *)

From S2P Require Import Prelude Datetime Regex PyVal Externals Json Request Decision NetAddr Timeutil Capability Contract Policy State AuditTrail Effects Interceptor Executor Harness.

(** ** Operations *)

Inductive harness_op :=
| HAuthorize (agent action arguments contract_id : pyval)
| HRun (agent action arguments : pyval)
| HExecute (res : AuthorizationResult)
| HExecuteGrant (g : ExecutionGrant) (r : ActionRequest)
| HSend (sender recipient body contract_id : pyval)
| HReceive (agent : string)
| HDelegate (sender recipient action arguments contract_id : pyval)
| HPending
| HApprove (approval_id approver note : string)
| HReject (approval_id approver note : string).

Section perform.
Context {S : Type} `{StateStore S} `{Externals} `{Tools}.
Variable cf : config.

Definition perform (o : harness_op) : M S unit :=
  match o with
  | HAuthorize agent action arguments cid => authorize cf agent action arguments cid ;! ret tt
  | HRun agent action arguments => run_action cf agent action arguments ;! ret tt
  | HExecute res => harness_execute cf res ;! ret tt
  | HExecuteGrant g r => execute_grant cf g r ;! ret tt
  | HSend sender recipient body cid => send_message cf sender recipient body cid ;! ret tt
  | HReceive agent => receive agent ;! ret tt
  | HDelegate sender recipient action arguments cid => delegate cf sender recipient action arguments cid ;! ret tt
  | HPending => pending_approvals ;! ret tt
  | HApprove i approver note => approve cf i approver note ;! ret tt
  | HReject i approver note => reject cf i approver note ;! ret tt
  end.

(** A process: operations one after the other, each returning or raising. *)
Fixpoint perform_all (os : list harness_op) (w : world S) : world S :=
  match os with
  | [] => w
  | o :: os' => perform_all os' (perform o w).2
  end.

(** What a caller hands over: values with distinct keys, and requests built from such values. *)
Definition op_wf (o : harness_op) : Prop :=
  match o with
  | HRun _ _ arguments => wf_val arguments = true
  | HExecute res => wf_request (d_request (ar_decision res))
  | HExecuteGrant _ r => wf_request r
  | HSend _ recipient body _ => wf_val recipient = true /\ wf_val body = true
  | _ => True
  end.

(** ** Invariants

    [P] is a predicate of the abstract store and the tool ledger. [may_execute] and [may_receive] are
    the conditions under which a run may execute grants and take messages. *)

Variable P : authority -> list (string * dict pyval) -> Prop.
Variables may_decide may_execute may_receive : Prop.

(** The limit a bound agent's contract puts on its calls of an action. *)
Definition call_limit (agent action : string) : option Z :=
  id ← dget agent (cf_bindings cf);
  c ← dget id (cf_contracts cf);
  cap ← dget action (capabilities_for c agent);
  c_int "max_calls" (cap_constraints cap).

Definition below_limit (agent action : string) (a : authority) : Prop :=
  forall m, call_limit agent action = Some m -> counter (agent, action) (a_calls a) < m.

Record stable : Prop := {
  st_step a l c : may_decide -> P a l -> P (auth_add_step c a) l;
  st_call a l agent action : may_decide -> P a l -> below_limit agent action a -> P (auth_add_call agent action a) l;
  st_put a l i r : may_decide -> P a l -> P (auth_put_approval i r a) l;
  st_claim a l d : may_execute -> P a l -> P (auth_claim d a) l;
  st_push a l to m : may_execute -> P a l -> P (auth_push to m a) l;
  st_tool a l x : may_execute -> P a l -> P a (l ++ [x]);
  st_drain a l to : may_receive -> P a l -> P (auth_drain to a) l;
}.

(** Every stored approval has a status, which the operations rely on. *)
Definition approvals_ok (a : authority) : Prop :=
  forall i r, dget i (a_approvals a) = Some r -> dmem "status" r = true.

Record sound (w : world S) : Prop := {
  so_wf : store_wf (w_store w);
  so_approvals : approvals_ok (view (w_store w));
  so_inv : P (view (w_store w)) (w_ledger w);
  so_back a : rollback_point (w_store w) = Some a -> approvals_ok a /\ P a (w_ledger w);
}.

(** [m] keeps the invariant when run where [pre] holds; when it returns, [post] holds. *)
Definition triple {A} (pre : authority -> Prop) (m : M S A) (post : A -> authority -> Prop) : Prop :=
  forall w, sound w -> pre (view (w_store w)) ->
    sound (m w).2 /\ forall x, (m w).1 = Ok x -> post x (view (w_store (m w).2)).
Definition keeps {A} (m : M S A) : Prop := triple (fun _ => True) m (fun _ _ => True).

Lemma triple_weaken {A} (pre pre' : authority -> Prop) (m : M S A) (post post' : A -> authority -> Prop) :
  triple pre m post -> (forall a, pre' a -> pre a) -> (forall x a, post x a -> post' x a) -> triple pre' m post'.
Proof. intros Ht Hpre Hpost w Hs Hp. destruct (Ht w Hs (Hpre _ Hp)) as [Hs' Hx]. eauto. Qed.

Lemma triple_keeps {A} (pre : authority -> Prop) (m : M S A) : keeps m -> triple pre m (fun _ _ => True).
Proof. intros Hk. by apply (triple_weaken _ _ _ _ _ Hk). Qed.

Lemma triple_ret {A} (x : A) (post : A -> authority -> Prop) : triple (post x) (ret x) post.
Proof. intros w Hs Hp. split; [done|]. by intros y [= <-]. Qed.

Lemma keeps_ret {A} (x : A) : keeps (ret x).
Proof. intros w Hs _. by split. Qed.

Lemma keeps_raise {A} (e : exn) : keeps (@raise S A e).
Proof. intros w Hs _. by split. Qed.

Lemma triple_raise {A} (e : exn) pre (post : A -> authority -> Prop) : triple pre (raise e) post.
Proof. intros w Hs _. by split. Qed.

Lemma keeps_lift {A} (r : result A) : keeps (lift r).
Proof. intros w Hs _. by split. Qed.

Lemma triple_bind {A B} pre mid post (m : M S A) (f : A -> M S B) :
  triple pre m mid -> (forall x, triple (mid x) (f x) post) -> triple pre (bind m f) post.
Proof.
  intros Hm Hf w Hs Hp. destruct (Hm w Hs Hp) as [Hs1 Hx]. unfold bind. destruct (m w) as [[x|e] w1]; [|by split].
  by apply (Hf x w1 Hs1), Hx.
Qed.

Lemma keeps_bind {A B} (m : M S A) (f : A -> M S B) : keeps m -> (forall x, keeps (f x)) -> keeps (bind m f).
Proof. intros Hm Hf. by apply (triple_bind _ (fun _ _ => True)). Qed.

Lemma keeps_try {A} (m : M S A) h : keeps m -> (forall e, keeps (h e)) -> keeps (try_except m h).
Proof.
  intros Hm Hh w Hs _. destruct (Hm w Hs I) as [Hs1 _]. unfold try_except.
  destruct (m w) as [[x|e] w1]; [by split|]. by apply Hh.
Qed.

Lemma triple_transaction {A} pre (m : M S A) post : triple pre m post -> triple pre (transaction m) post.
Proof.
  intros Hm w Hs Hp. destruct Hs as [Hwf Happ Hinv Hback].
  assert (sound (with_store tx_begin w)) as Hs0.
  { destruct (begin_view w Hwf) as [Hwf0 Hv0]. split; [done|by rewrite Hv0|by rewrite Hv0|].
    intros a Ha. simpl in *. destruct (tx_begin_rollback (w_store w)) as [Hr|Hr]; rewrite Hr in Ha; [by apply Hback|].
    by injection Ha as <-. }
  destruct (begin_view w Hwf) as [_ Hv0]. rewrite <- Hv0 in Hp.
  destruct (Hm _ Hs0 Hp) as [[Hwf1 Happ1 Hinv1 Hback1] Hx]. unfold transaction.
  destruct (m (with_store tx_begin w)) as [[x|e] w1]; simpl in *.
  - destruct (commit_view w1 Hwf1) as [Hwf2 Hv2]. simpl in Hv2. split; [|intros y Hy; rewrite Hv2; by apply Hx].
    split; simpl; rewrite ?Hv2; try done.
    intros a Ha. destruct (tx_commit_rollback (w_store w1)) as [Hr|Hr]; rewrite Hr in Ha; [by apply Hback1|done].
  - destruct (tx_abort_spec (w_store w1) Hwf1) as [Hwf2 Hv2]. split; [|done].
    assert (approvals_ok (view (tx_abort (w_store w1))) /\ P (view (tx_abort (w_store w1))) (w_ledger w1)) as [Ha2 Hp2].
    { destruct Hv2 as [->|Hr]; [done|]. by apply Hback1. }
    split; simpl; try done.
    intros a Ha. destruct (tx_abort_rollback (w_store w1)) as [Hr|Hr]; rewrite Hr in Ha; [by apply Hback1|done].
Qed.

(** A write of the store that the invariant survives. *)
Lemma triple_update {A} (pre : authority -> Prop) (f : S -> A * S) (g : authority -> authority) :
  (forall s, store_wf s -> approvals_ok (view s) -> pre (view s) -> store_wf (f s).2 /\ view (f s).2 = g (view s)) ->
  (forall s, rollback_point (f s).2 = rollback_point s) ->
  (forall a l, pre a -> approvals_ok a -> P a l -> approvals_ok (g a) /\ P (g a) l) ->
  triple pre (update_store f) (fun _ _ => True).
Proof.
  intros Hf Hr Hg w [Hwf Happ Hinv Hback] Hp. destruct (Hf _ Hwf Happ Hp) as [Hwf1 Hv1]. split; [|done].
  unfold update_store. split; simpl; rewrite ?Hv1; [done|by apply (Hg _ (w_ledger w))|by apply Hg|].
  rewrite Hr. apply Hback.
Qed.

Lemma write_update (f : S -> S) : write_store f = update_store (fun s => (tt, f s)).
Proof. done. Qed.

Hypothesis Hstable : stable.

(** ** Writes *)

Lemma keeps_step c : may_decide -> keeps (write_store (add_step c)).
Proof.
  intros Hd. rewrite write_update. apply (triple_update _ _ (auth_add_step c)).
  - intros s Hs _ _. by apply add_step_spec.
  - intros s. apply add_step_rollback.
  - intros a l _ Ha Hp. split; [done|by apply (st_step Hstable)].
Qed.

Lemma triple_call agent action : may_decide -> triple (below_limit agent action) (write_store (add_call agent action)) (fun _ _ => True).
Proof.
  intros Hd. rewrite write_update. apply (triple_update _ _ (auth_add_call agent action)).
  - intros s Hs _ _. by apply add_call_spec.
  - intros s. apply add_call_rollback.
  - intros a l Hb Ha Hp. split; [done|by apply (st_call Hstable)].
Qed.

Lemma approvals_ok_put i r a : dmem "status" r = true -> approvals_ok a -> approvals_ok (auth_put_approval i r a).
Proof.
  intros Hr Ha j q Hq. simpl in Hq. rewrite dget_dset in Hq. destruct (String.eqb j i); [congruence|by apply (Ha j)].
Qed.

Lemma keeps_put i r : may_decide -> dmem "status" r = true -> keeps (write_store (put_approval i r)).
Proof.
  intros Hd Hr. rewrite write_update. apply (triple_update _ _ (auth_put_approval i (stored (S:=S) r))).
  - intros s Hs _ _. by apply put_approval_spec.
  - intros s. apply put_approval_rollback.
  - intros a l _ Ha Hp. split; [apply approvals_ok_put; [by rewrite stored_mem|done]|by apply (st_put Hstable)].
Qed.

Lemma keeps_claim d e : may_execute -> keeps (update_store (claim_grant d e)).
Proof.
  intros He. apply (triple_update _ _ (auth_claim d)).
  - intros s Hs _ _. by apply claim_grant_spec.
  - intros s. apply claim_grant_rollback.
  - intros a l _ Ha Hp. split; [done|by apply (st_claim Hstable)].
Qed.

Lemma keeps_push to m : may_execute -> copy_dict m = m -> keeps (write_store (push_message to m)).
Proof.
  intros He Hm. rewrite write_update. apply (triple_update _ _ (auth_push to (stored (S:=S) m))).
  - intros s Hs _ _. by apply push_message_spec.
  - intros s. apply push_message_rollback.
  - intros a l _ Ha Hp. split; [done|by apply (st_push Hstable)].
Qed.

Lemma keeps_drain to : may_receive -> keeps (update_store (drain_messages to)).
Proof.
  intros He. apply (triple_update _ _ (auth_drain to)).
  - intros s Hs _ _. by apply drain_messages_spec.
  - intros s. apply drain_messages_rollback.
  - intros a l _ Ha Hp. split; [done|by apply (st_drain Hstable)].
Qed.

Lemma keeps_tool name args : may_execute -> keeps (call_tool name args).
Proof.
  intros He w [Hwf Happ Hinv Hback] _. split; [|done]. split; simpl; [done|done|by apply (st_tool Hstable)|].
  intros a Ha. destruct (Hback a Ha). split; [done|by apply (st_tool Hstable)].
Qed.

(** ** Steps that leave store and ledger alone *)

Definition silent {A} (m : M S A) : Prop := forall w, w_store (m w).2 = w_store w /\ w_ledger (m w).2 = w_ledger w.

Lemma silent_triple {A} (Q : authority -> Prop) (m : M S A) : silent m -> triple Q m (fun _ => Q).
Proof.
  intros Hm w [Hwf Happ Hinv Hback] Hq. destruct (Hm w) as [Hs Hl].
  split; [split; rewrite ?Hs, ?Hl; done|]. intros x _. by rewrite Hs.
Qed.

Lemma silent_keeps {A} (m : M S A) : silent m -> keeps m.
Proof. apply silent_triple. Qed.

Lemma silent_audit event fields : silent (audit event fields).
Proof.
  intros w. destruct (audit event fields w) as [[u|e] w1] eqn:E;
    [apply audit_ok in E as (_ & Hs & Hl)|apply audit_raise in E as (_ & Hs & Hl)]; by split.
Qed.

Lemma silent_uuid : silent fresh_uuid.
Proof. done. Qed.
Lemma silent_clock : silent read_clock.
Proof. done. Qed.
Lemma silent_lift {A} (r : result A) : silent (lift r).
Proof. done. Qed.
Lemma silent_read {A} (f : S -> A) : silent (read_store f).
Proof. done. Qed.
Lemma silent_include : silent include_arguments.
Proof. done. Qed.

(** A run that keeps the invariant, with what is known of its returned values. *)
Lemma keeps_knowing {A} (m : M S A) (post : A -> authority -> Prop) : keeps m ->
  (forall w x w', store_wf (w_store w) -> m w = (Ok x, w') -> post x (view (w_store w'))) ->
  triple (fun _ => True) m post.
Proof.
  intros Hm Hpost w Hs _. destruct (Hm w Hs I) as [Hs1 _]. split; [done|]. intros x Hx.
  destruct (m w) as [y w1] eqn:E. simpl in *. subst y. apply (Hpost w x w1); [by destruct Hs|done].
Qed.
End perform.

Create HintDb keeps.
#[export] Hint Resolve keeps_ret keeps_raise keeps_lift silent_audit silent_uuid silent_clock silent_lift silent_read
  silent_include : keeps.
#[export] Hint Resolve silent_keeps | 5 : keeps.

(** ** The operations of the harness *)

Section operations.
Context {S : Type} `{StateStore S} `{Externals} `{Tools}.
Variable cf : config.
Variable P : authority -> list (string * dict pyval) -> Prop.
Variables may_decide may_execute may_receive : Prop.
Hypothesis Hstable : stable cf P may_decide may_execute may_receive.
Hypothesis Hdecide : may_decide.
#[local] Abbreviation keeps := (keeps (S := S) P).
#[local] Abbreviation triple := (triple (S := S) P).

(** A decision other than a denial finds the calls of its agent below the limit. *)
Definition may_count (ev : PolicyEvaluation) (r : ActionRequest) (a : authority) : Prop :=
  ev_decision ev <> DENY -> below_limit cf (text_of (rq_agent_id r)) (text_of (rq_action r)) a.

Lemma evaluate_capability_limit r agent action id bindings cap u now ev :
  evaluate_capability r agent action id bindings cap u now = Ok ev -> ev_decision ev <> DENY ->
  forall m, c_int "max_calls" (cap_constraints cap) = Some m -> action_calls u < m.
Proof.
  unfold evaluate_capability, deny. intros Hev Hd.
  case_bool_decide; [injection Hev as <-; done|].
  destruct (expired now (cap_expires_at cap)); [injection Hev as <-; done|].
  destruct (check_constraints cap r (action_calls u)) as [[v|]|e] eqn:Ec; cbn [result_bind] in Hev; try done.
  { injection Hev as <-. done. }
  unfold check_constraints in Ec. apply first_none in Ec as [Hmax _]. exact (proj1 (check_max_calls_none _ _ _) Hmax).
Qed.

Lemma evaluate_below_limit r u now ev a : evaluate r (cf_contracts cf) (cf_bindings cf) u now = Ok ev ->
  u = usage_of cf r a -> may_count ev r a.
Proof.
  intros Hev -> Hd. pose proof (evaluate_wellformed cf r _ now ev Hev Hd) as Hp.
  unfold evaluate in Hev. rewrite Hp in Hev. unfold usage_of in Hev. rewrite Hp in Hev.
  apply problems_nil in Hp as (agent & action & Ha & _ & Hact & _). rewrite Ha, Hact in *. unfold text_of, py_str in *.
  intros m Hm. unfold call_limit in Hm.
  destruct (dget agent (cf_bindings cf)) as [id|]; [|done]. cbn in Hm, Hev.
  destruct (dget id (cf_contracts cf)) as [c|]; [|done]. cbn in Hm.
  unfold evaluate_contract, deny in Hev.
  destruct (match rq_contract_id r with PStr s => _ | _ => _ end); [injection Hev as <-; done|].
  destruct (expired now (tc_expires_at c)); [injection Hev as <-; done|].
  destruct (tc_max_steps c <=? _); [injection Hev as <-; done|].
  destruct (is_reserved action); [injection Hev as <-; done|].
  destruct (dget action (capabilities_for c agent)) as [cap|]; [|injection Hev as <-; done]. cbn in Hm.
  by apply (evaluate_capability_limit _ _ _ _ _ _ _ _ _ Hev Hd) in Hm.
Qed.

Lemma triple_record r ev db parent ap : triple (may_count ev r) (record cf r ev db parent ap) (fun d _ => d_request d = r /\ d_decision d = ev_decision ev).
Proof.
  unfold record. apply triple_transaction.
  eapply triple_bind; [apply silent_triple, silent_uuid|intros id]. cbn beta.
  eapply triple_bind; [apply silent_triple, silent_clock|intros now]. cbn beta.
  set (d := decision_of cf id now r ev db parent ap).
  apply (triple_bind P _ (fun _ _ => True)).
  - destruct (allowed d) eqn:Ea; [|by apply triple_keeps, keeps_ret].
    apply (triple_weaken _ _ _ _ _ _ (triple_call cf P _ _ _ Hstable _ _ Hdecide)); [|done].
    intros a Hc. apply Hc. unfold allowed in Ea. apply bool_decide_eq_true in Ea. simpl in Ea. congruence.
  - intros _. apply (triple_bind P _ (fun _ _ => True)); [apply triple_keeps; auto with keeps|intros inc].
    apply (triple_bind P _ (fun _ _ => True)); [apply triple_keeps; auto with keeps|intros _].
    apply (triple_weaken _ _ _ _ _ _ (triple_ret P d (fun x _ => x = d))); [done|]. by intros x a ->.
Qed.

Lemma keeps_record_denied r ev db parent ap : ev_decision ev = DENY -> keeps (record cf r ev db parent ap).
Proof. intros Hd. apply (triple_weaken _ _ _ _ _ _ (triple_record r ev db parent ap)); [by intros a _ Hn|done]. Qed.

Lemma silent_usage_for r : silent (S := S) (usage_for cf r).
Proof. intros w. unfold usage_for. destruct (problems r); [|done]. by destruct (dget _ (cf_bindings cf)). Qed.

Lemma triple_usage_for r : triple (fun _ => True) (usage_for cf r) (fun u a => u = usage_of cf r a).
Proof.
  apply keeps_knowing; [auto using silent_usage_for with keeps|].
  intros w u w' Hwf Hrun. by apply usage_for_ok in Hrun as [-> ->].
Qed.

(** The current counters, and an evaluation at them. *)
Lemma triple_evaluation r {B} (f : Usage -> PolicyEvaluation -> M S B) post :
  (forall u ev, triple (fun a => may_count ev r a) (f u ev) post) ->
  triple (fun _ => True) (let! usage := usage_for cf r in
    let! now := read_clock in
    let! ev := lift (evaluate r (cf_contracts cf) (cf_bindings cf) usage now) in f usage ev) post.
Proof.
  intros Hf. eapply triple_bind; [apply triple_usage_for|intros u].
  eapply triple_bind; [apply silent_triple, silent_clock|intros now]. cbn beta.
  apply (triple_bind P _ (fun ev a => may_count ev r a)); [|apply Hf].
  intros w Hs Hu. split; [done|]. intros ev Hev. simpl in *. by apply (evaluate_below_limit r u now).
Qed.

Lemma keeps_decide r db parent : keeps (decide cf r db parent).
Proof.
  unfold decide. apply triple_transaction. apply triple_evaluation. intros u ev.
  apply (triple_bind P _ (fun _ a => may_count ev r a)).
  - destruct (contract_id_of cf r) as [id|]; [|apply (triple_ret P tt (fun _ a => may_count ev r a))].
    intros w Hs Hc. destruct (keeps_step cf P _ _ _ Hstable id Hdecide w Hs I) as [Hs1 _]. split; [done|]. intros x _ Hd m Hm. simpl.
    destruct (add_step_spec (w_store w) id) as [_ ->]; [by destruct Hs|]. by apply Hc.
  - intros _. eapply triple_bind; [apply triple_record|intros d]. apply triple_keeps, keeps_ret.
Qed.

Lemma keeps_reject agent action reason detail : keeps (reject_before_policy cf agent action reason detail).
Proof. unfold reject_before_policy. apply keeps_bind; [auto with keeps|intros r]. by apply keeps_record_denied. Qed.

Lemma keeps_mint d : keeps (mint_grant cf d).
Proof. unfold mint_grant. repeat (apply keeps_bind; [auto with keeps|intros ?]). auto with keeps. Qed.

Lemma keeps_result_for d u : keeps (result_for cf d u).
Proof.
  unfold result_for. destruct (escalated d).
  - apply keeps_bind; [auto with keeps|intros i]. apply keeps_bind; [auto with keeps|intros now].
    apply keeps_bind; [by apply (keeps_put cf P _ _ _ Hstable)|intros _; auto with keeps].
  - destruct (allowed d && negb (cf_simulate cf)); [|auto with keeps].
    apply keeps_bind; [apply keeps_mint|auto with keeps].
Qed.

Lemma keeps_authorize_request r db parent : keeps (authorize_request cf r db parent).
Proof. unfold authorize_request. apply keeps_bind; [apply keeps_decide|intros [d u]; apply keeps_result_for]. Qed.

Lemma triple_authorize_request r db parent :
  triple (fun _ => True) (authorize_request cf r db parent) (fun res _ => d_request (ar_decision res) = r).
Proof.
  apply keeps_knowing; [apply keeps_authorize_request|].
  intros w res w' Hwf Hrun. by apply authorize_request_ok in Hrun as (? & ? & _ & [-> _] & _).
Qed.

(** *** Execution *)

Lemma keeps_ensure b reason detail : keeps (ensure b reason detail).
Proof. unfold ensure, refuse. destruct b; auto with keeps. Qed.
Hint Resolve keeps_ensure : keeps.

Lemma keeps_check g r : may_execute -> keeps (check cf g r).
Proof.
  intros He. unfold check.
  apply keeps_bind; [auto with keeps|intros ok]. do 3 (apply keeps_bind; [auto with keeps|intros _]).
  apply keeps_bind; [auto with keeps|intros now]. do 2 (apply keeps_bind; [auto with keeps|intros _]).
  apply keeps_bind; [by apply (keeps_claim cf P _ _ _ Hstable)|auto with keeps].
Qed.

Lemma triple_checked g r : may_execute ->
  triple (fun _ => True) (checked cf g r) (fun _ _ => exists a : string, rq_agent_id r = PStr a).
Proof.
  intros He. apply keeps_knowing.
  - unfold checked. apply keeps_try; [by apply keeps_check|].
    intros []; auto with keeps. apply keeps_bind; auto with keeps.
  - intros w [] w' Hwf Hrun. apply checked_cases in Hrun as [(_ & Hv & _)|([e He'] & _)]; [|done|done]. destruct Hv. eauto.
Qed.

Lemma keeps_run_tool g r : may_execute -> wf_request r -> (exists a : string, rq_agent_id r = PStr a) -> keeps (run_tool g r).
Proof.
  intros He Hreq Hag. unfold run_tool. apply keeps_bind; [|intros []; auto with keeps].
  destruct (String.eqb _ MESSAGE_ACTION); [|by apply (keeps_tool cf P _ _ _ Hstable)].
  unfold deliver. apply keeps_bind; [auto with keeps|intros id].
  destruct (dget "to" (arguments_copy r)) as [to|] eqn:Eto; [|auto with keeps].
  apply keeps_bind; [apply (keeps_push cf P _ _ _ Hstable); [done|by apply message_plain]|auto with keeps].
Qed.

Lemma keeps_executor g r : may_execute -> wf_request r -> keeps (executor_execute cf g r).
Proof.
  intros He Hreq. unfold executor_execute.
  apply (triple_bind P _ (fun _ _ => exists a : string, rq_agent_id r = PStr a)); [by apply triple_checked|intros _ w Hs Hag].
  assert (keeps (let! res := run_tool g r in audit "execution" (execution_fields g r res) ;! ret res)) as Hk; [|by apply Hk].
  apply keeps_bind; [by apply keeps_run_tool|intros res]. apply keeps_bind; auto with keeps.
Qed.

(** A grant that does not verify is refused before anything is claimed or called. *)
Lemma unverified_check g r (w : world S) : verify_grant cf g <> Ok true -> exists e, check cf g r w = (Raise e, w).
Proof.
  intros Hv. unfold check, bind, lift. destruct (verify_grant cf g) as [[]|e]; [done|by eexists|by eexists].
Qed.

Lemma keeps_unverified g r : verify_grant cf g <> Ok true -> keeps (executor_execute cf g r).
Proof.
  intros Hv. unfold executor_execute, checked.
  assert (forall f : unit -> M S ExecutionResult, keeps (bind (try_except (check cf g r) (fun e =>
    match e with
    | ExecutionRefused reason detail => audit "execution_refused" (refused_fields (gr_decision_id g) r reason detail) ;! raise e
    | _ => raise e
    end)) f)) as Hk; [|apply Hk].
  intros f w Hs _. unfold bind at 1, try_except. destruct (unverified_check g r w Hv) as [e ->].
  destruct e; try (by split).
  assert (keeps (audit "execution_refused" (refused_fields (gr_decision_id g) r reason detail) ;!
    raise (A := unit) (ExecutionRefused reason detail))) as Ha by (apply keeps_bind; auto with keeps).
  destruct (Ha w Hs I) as [Hs1 _]. destruct (bind _ _ w) as [[x|e] w1] eqn:E; [|by split].
  exfalso. unfold bind in E. by destruct (audit _ _ w) as [[]].
Qed.

Hypothesis Hexecute : cf_simulate cf = false -> may_execute.

Lemma keeps_harness_execute res : wf_request (d_request (ar_decision res)) -> keeps (harness_execute cf res).
Proof.
  intros Hreq. unfold harness_execute. destruct (cf_simulate cf) eqn:Es; [apply keeps_bind; auto with keeps|].
  destruct (ar_grant res) as [g|]; [apply keeps_executor; [by apply Hexecute|done]|apply keeps_bind; auto with keeps].
Qed.

(** *** Authorization, messages and delegation *)

Lemma make_request_dict a act v c r : wf_val v = true -> make_request a act v c = Ok r -> wf_request r.
Proof.
  intros Hw Hr. destruct v; try done; [|by apply (make_request_wf a act d c)].
  apply (make_request_wf a act [] c r); [done|]. exact Hr.
Qed.

Lemma triple_or_malformed rq agent action k : (forall r, rq = Ok r -> wf_request r) ->
  (forall r, rq = Ok r -> triple (fun _ => True) (k r) (fun res _ => d_request (ar_decision res) = r)) ->
  triple (fun _ => True) (or_malformed cf rq agent action k) (fun res _ => ar_allowed res = true -> wf_request (d_request (ar_decision res))).
Proof.
  intros Hwf Hk. unfold or_malformed. destruct rq as [r|e].
  - apply (triple_weaken _ _ _ _ _ _ (Hk r eq_refl)); [done|]. intros res a -> _. by apply Hwf.
  - destruct e; try apply triple_raise. apply (triple_bind P _ (fun d _ => allowed d = false)).
    + apply keeps_knowing; [apply keeps_reject|]. intros w d w' Hw Hrun. unfold reject_before_policy in Hrun.
      mbind Hrun as r w1 Hr. apply lift_ok in Hr as [_ ->]. apply record_ok in Hrun as ((? & ->) & _); done.
    + intros d. apply (triple_weaken _ _ _ _ _ _ (triple_ret P (mk_authorization d None None) (fun res _ => ar_allowed res = false)));
        [done|]. intros res a ->. done.
Qed.

Lemma keeps_or_malformed rq agent action k : (forall r, keeps (k r)) -> keeps (or_malformed cf rq agent action k).
Proof.
  intros Hk. unfold or_malformed. destruct rq as [r|[]]; auto with keeps.
  apply keeps_bind; [apply keeps_reject|auto with keeps].
Qed.

Lemma keeps_authorize agent action arguments cid : keeps (authorize cf agent action arguments cid).
Proof. apply keeps_or_malformed. intros r. apply keeps_authorize_request. Qed.

Lemma keeps_run_action agent action arguments : wf_val arguments = true -> keeps (run_action cf agent action arguments).
Proof.
  intros Hw. unfold run_action. eapply triple_bind.
  - unfold authorize. apply triple_or_malformed; [|intros r _; apply triple_authorize_request].
    intros r. apply make_request_dict. by destruct (truthy arguments).
  - intros res w Hs Hreq. destruct (ar_allowed res && negb (cf_simulate cf)) eqn:E; [|by split].
    apply andb_true_iff in E as [E _].
    assert (keeps (let! out := harness_execute cf res in ret (res, Some out))) as Hk; [|by apply Hk].
    apply keeps_bind; [by apply keeps_harness_execute, Hreq|auto with keeps].
Qed.

Lemma keeps_send sender recipient body cid : wf_val recipient = true -> wf_val body = true ->
  keeps (send_message cf sender recipient body cid).
Proof.
  intros Hr Hb. unfold send_message.
  assert (forall r, to_action_request (mk_message_request sender recipient body cid) = Ok r -> wf_request r) as Hwf.
  { intros r. unfold to_action_request. apply make_request_dict. cbn. by rewrite Hr, Hb. }
  destruct (to_action_request _) as [r|e]; [|by destruct e; cbn; auto with keeps; apply keeps_bind; [apply keeps_reject|auto with keeps]].
  cbn [or_malformed]. eapply triple_bind; [apply triple_authorize_request|]. intros res w Hs Hreq.
  destruct (ar_allowed res && negb (cf_simulate cf)); [|by split].
  assert (keeps (harness_execute cf res ;! ret res)) as Hk; [|by apply Hk].
  apply keeps_bind; [apply keeps_harness_execute; rewrite Hreq; by apply Hwf|auto with keeps].
Qed.

Lemma keeps_delegated_stage req parent : keeps (delegated_stage cf req parent).
Proof. unfold delegated_stage. apply keeps_bind; [auto with keeps|intros r; apply keeps_authorize_request]. Qed.

Lemma keeps_delegate sender recipient action arguments cid : keeps (delegate cf sender recipient action arguments cid).
Proof.
  unfold delegate. destruct (match arguments with PNone | PDict _ => _ | _ => _ end) as [r|e].
  - apply keeps_bind; [apply keeps_authorize_request|intros first].
    destruct (negb (ar_allowed first)); [auto with keeps|]. apply keeps_bind; [apply keeps_delegated_stage|auto with keeps].
  - destruct e; auto with keeps. apply keeps_bind; [apply keeps_reject|auto with keeps].
Qed.

(** *** Approvals *)

Lemma dmem_dset k k' (v : pyval) d : dmem k d = true -> dmem k (dset k' v d) = true.
Proof. unfold dmem. rewrite dget_dset. by destruct (String.eqb k k'). Qed.

Lemma dmem_dupdate k (d e : dict pyval) : dmem k d = true -> dmem k (dupdate d e) = true.
Proof. unfold dupdate. revert d; induction e as [|[j v] e IH]; intros d Hd; [done|]. apply IH. by apply dmem_dset. Qed.

Lemma triple_get_approval i : triple (fun _ => True) (read_store (get_approval i))
  (fun record _ => forall rec, record = Some rec -> dmem "status" rec = true).
Proof.
  intros w Hs _. split; [done|]. intros record [= <-] rec Hrec. destruct Hs as [Hwf Happ _ _].
  rewrite get_approval_spec in Hrec by done. by apply (Happ i).
Qed.

Lemma keeps_annotate i fields : keeps (annotate_approval i fields).
Proof.
  unfold annotate_approval. apply triple_transaction. eapply triple_bind; [apply triple_get_approval|].
  intros [rec|] w Hs Hrec; [|by split]. apply (keeps_put cf P _ _ _ Hstable); [done| |done|done]. by apply dmem_dupdate, Hrec.
Qed.

Lemma keeps_take i approver verb : keeps (take_approval cf i approver verb).
Proof.
  unfold take_approval. apply triple_transaction. apply keeps_bind; [auto with keeps|intros record].
  apply keeps_bind; [auto with keeps|intros [p|]]; [|apply keeps_bind; auto with keeps].
  destruct (negb _); [apply keeps_bind; auto with keeps|].
  apply keeps_bind; [|auto with keeps]. apply (keeps_put cf P _ _ _ Hstable); [done|].
  unfold dupdate. cbn [foldl]. do 2 apply dmem_dset. unfold dmem. by rewrite dget_dset_eq.
Qed.

Lemma keeps_approve_decision i approver note : keeps (approve_decision cf i approver note).
Proof.
  unfold approve_decision. apply triple_transaction. eapply triple_bind; [apply keeps_take|intros p]. cbn beta zeta.
  apply triple_evaluation. intros u ev. apply (triple_bind P _ (fun _ _ => True)); [|intros d; apply keeps_ret].
  apply (triple_weaken _ _ _ _ _ _ (triple_record _ _ _ _ _)); [|done].
  intros a Hc Hd. apply Hc. unfold approved_evaluation in Hd. by destruct (ev_decision ev) eqn:E; simpl in Hd; rewrite ?E in Hd.
Qed.

Lemma keeps_approve i approver note : keeps (approve cf i approver note).
Proof.
  unfold approve. apply keeps_bind; [apply keeps_approve_decision|intros [[p d] u]].
  apply keeps_bind; [auto with keeps|intros _]. apply keeps_bind; [apply keeps_annotate|intros _].
  apply keeps_bind; [apply keeps_result_for|intros res].
  destruct (equals_str _ DELEGATE_ACTION && ar_allowed res); [|auto with keeps].
  apply keeps_bind; [auto with keeps|intros to]. apply keeps_bind; [auto with keeps|intros action].
  apply keeps_bind; [apply keeps_delegated_stage|auto with keeps].
Qed.

Lemma keeps_reject_approval i approver note : keeps (reject cf i approver note).
Proof.
  unfold reject. apply keeps_bind; [apply keeps_take|intros p]. apply keeps_bind; [by apply keeps_record_denied|intros d].
  apply keeps_bind; [apply keeps_annotate|intros _]. apply keeps_bind; auto with keeps.
Qed.

(** *** Every operation *)

Definition op_allowed (o : harness_op) : Prop :=
  match o with
  | HExecuteGrant g _ => may_execute \/ verify_grant cf g <> Ok true
  | HReceive _ => may_receive
  | _ => True
  end.

Lemma keeps_perform o : op_wf o -> op_allowed o -> keeps (perform cf o).
Proof.
  intros Hw Ha. destruct o; cbn [perform]; (apply keeps_bind; [|intros ?; auto with keeps]); cbn in Hw, Ha.
  - apply keeps_authorize.
  - by apply keeps_run_action.
  - by apply keeps_harness_execute.
  - destruct Ha; [by apply keeps_executor|by apply keeps_unverified].
  - by apply keeps_send; destruct Hw.
  - unfold receive. apply keeps_bind; [by apply (keeps_drain cf P _ _ _ Hstable)|auto with keeps].
  - apply keeps_delegate.
  - unfold pending_approvals. apply keeps_bind; auto with keeps.
  - apply keeps_approve.
  - apply keeps_reject_approval.
Qed.

Lemma perform_all_sound os (w : world S) : Forall op_wf os -> Forall op_allowed os -> sound P w -> sound P (perform_all cf os w).
Proof.
  revert w; induction os as [|o os IH]; intros w Hw Ha Hs; [done|].
  apply Forall_cons in Hw as [Hw Hws]. apply Forall_cons in Ha as [Ha Has].
  simpl. apply IH; [done|done|]. by apply (keeps_perform o Hw Ha).
Qed.
End operations.

(** ** Properties *)

(** A state between operations: well formed, no transaction open, every approval with a status. *)
Record quiescent {S : Type} `{StateStore S} (w : world S) : Prop := {
  qu_wf : store_wf (w_store w);
  qu_approvals : approvals_ok (view (w_store w));
  qu_closed : rollback_point (w_store w) = None;
}.

Section properties.
Context {S : Type} `{StateStore S} `{Externals} `{Tools}.
Variable cf : config.

Lemma quiescent_sound P (w : world S) : quiescent w -> P (view (w_store w)) (w_ledger w) -> sound P w.
Proof. intros [Hw Ha Hc] Hp. split; try done. intros a Hr. congruence. Qed.

(** No counter of a limited action is above its limit, unless it already was. *)
Definition within_limits (a0 a : authority) (_ : list (string * dict pyval)) : Prop :=
  forall agent action m, call_limit cf agent action = Some m ->
    counter (agent, action) (a_calls a) <= Z.max m (counter (agent, action) (a_calls a0)).

Lemma within_limits_stable a0 : stable cf (within_limits a0) True True True.
Proof.
  split; try done. intros a l agent action _ Hp Hb ag ac m Hm. simpl. rewrite counter_count.
  specialize (Hp ag ac m Hm). destruct (base.decide ((ag, ac) = (agent, action))) as [Heq|]; [|lia].
  injection Heq as -> ->. specialize (Hb m Hm). lia.
Qed.

Definition claimed (d : string) (a : authority) (_ : list (string * dict pyval)) : Prop := d ∈ a_grants a.

Lemma claimed_stable d : stable cf (claimed d) True True True.
Proof. split; try done. unfold claimed. intros a l d' _ Hd. simpl. set_solver. Qed.

(** Nothing executed: no message, no claim, no tool call since [w]. *)
Definition inert_since (w : world S) (a : authority) (l : list (string * dict pyval)) : Prop :=
  a_messages a = a_messages (view (w_store w)) /\ a_grants a = a_grants (view (w_store w)) /\ l = w_ledger w.

Lemma inert_stable w : stable cf (inert_since w) True False False.
Proof. by split. Qed.

(** Nothing executed, but messages may have been taken: every inbox is what it was, or was emptied. *)
Definition none_executed_since (w : world S) (a : authority) (l : list (string * dict pyval)) : Prop :=
  (forall to, a_messages a !! to = a_messages (view (w_store w)) !! to \/ a_messages a !! to = None)
  /\ a_grants a = a_grants (view (w_store w)) /\ l = w_ledger w.

Lemma none_executed_stable w : stable cf (none_executed_since w) True False True.
Proof.
  split; try done. intros a l to _ (Hm & Hg & Hl). split_and!; [|done|done]. intros x. simpl.
  destruct (base.decide (to = x)) as [->|Hne]; [right; apply lookup_delete_eq|]. rewrite lookup_delete_ne by done. apply Hm.
Qed.

(** No grant presented to [execute_grant] was signed with the key of this harness. *)
Definition unsigned (o : harness_op) : Prop :=
  match o with HExecuteGrant g _ => verify_grant cf g <> Ok true | _ => True end.

(** C8. Call limits hold over any run of the harness: whatever sequence of operations is performed -
    authorizations, executions, messages, delegations, approvals and rejections, each returning or
    raising at any point - the calls counted for an agent and an action never exceed the max_calls of
    its contract's capability (or what they were to begin with). *)
Theorem call_limits_hold (os : list harness_op) (w : world S) (agent action : string) (m : Z) :
  quiescent w -> Forall op_wf os -> call_limit cf agent action = Some m ->
  counter (agent, action) (a_calls (view (w_store (perform_all cf os w))))
  <= Z.max m (counter (agent, action) (a_calls (view (w_store w)))).
Proof.
  intros Hq Hos. revert agent action m.
  assert (sound (within_limits (view (w_store w))) (perform_all cf os w)) as [_ _ Hp _]; [|exact Hp].
  apply (perform_all_sound cf _ _ _ _ (within_limits_stable _) I); [done|done| |].
  - apply Forall_forall. intros [] _; simpl; auto.
  - apply quiescent_sound; [done|]. intros agent action m _. lia.
Qed.

(** C9. Simulation is inert: in simulate mode no sequence of operations of the harness - authorizations,
    runs, executions, executions of a presented grant that the key of this harness did not sign,
    messages, delegations, approvals, rejections, and taking messages out of inboxes - calls a tool,
    claims a grant or delivers a message: every inbox holds what it held, or was emptied. (A simulating
    harness signs no grant. One that another harness signed with the same key, execute_grant does
    execute: it does not look at the mode.) *)
Theorem simulation_inert (os : list harness_op) (w : world S) :
  cf_simulate cf = true -> quiescent w -> Forall op_wf os -> Forall unsigned os ->
  none_executed_since w (view (w_store (perform_all cf os w))) (w_ledger (perform_all cf os w)).
Proof.
  intros Hsim Hq Hos Hall.
  assert (sound (none_executed_since w) (perform_all cf os w)) as [_ _ Hp _]; [|exact Hp].
  apply (perform_all_sound cf _ _ _ _ (none_executed_stable w) I); [congruence|done| |].
  - eapply Forall_impl; [exact Hall|]. intros []; simpl; auto.
  - apply quiescent_sound; [done|]. split_and!; [by left|done|done].
Qed.

(** A claim outlives any run: once a decision id is claimed, after any sequence of operations no
    grant with that id executes; the attempt raises and touches nothing. *)
Theorem claim_outlives_runs (os : list harness_op) (w : world S) (g : ExecutionGrant) (r : ActionRequest)
    (x : result ExecutionResult) (w' : world S) :
  quiescent w -> gr_decision_id g ∈ a_grants (view (w_store w)) -> Forall op_wf os -> wf_request r ->
  executor_execute cf g r (perform_all cf os w) = (x, w') ->
  (exists e, x = Raise e) /\ untouched (perform_all cf os w) w'.
Proof.
  intros Hq Hd Hos Hr Hrun.
  assert (sound (claimed (gr_decision_id g)) (perform_all cf os w)) as [Hwf _ Hp _].
  { apply (perform_all_sound cf _ _ _ _ (claimed_stable _) I); [done|done| |by apply quiescent_sound].
    apply Forall_forall. intros [] _; simpl; auto. }
  apply execute_cases in Hrun as [_ [Hc|[[_ Hfresh _ _] _]]]; [done|by destruct Hfresh|done|done].
Qed.
End properties.

Module Witnesses.
Import SampleContract.
#[local] Existing Instance Executor.Witnesses.tools.
Definition cf : config := Interceptor.Witnesses.cf.
Definition world0 := Interceptor.Witnesses.world0 SQLite.init true.
Definition url : pyval := PDict [("url", PStr "https://example.org/x")].

Lemma world0_quiescent : quiescent world0.
Proof. split; [exact sqlite_init_wf|intros i r Hi; discriminate Hi|reflexivity]. Qed.

(** [b] fetches three times; the third is over the limit. [a] publishes, sends and delegates. *)
Definition ops : list harness_op :=
  [HRun (PStr "b") (PStr "web.fetch") url; HRun (PStr "b") (PStr "web.fetch") url;
   HDelegate (PStr "a") (PStr "b") (PStr "web.fetch") url PNone;
   HAuthorize (PStr "a") (PStr "doc.publish") PNone PNone; HApprove "uuid-14" "carol" "";
   HSend (PStr "a") (PStr "b") (PStr "hello") PNone].

Lemma ops_wf : Forall op_wf ops.
Proof. repeat (apply Forall_cons; split); try apply Forall_nil; try exact I; try reflexivity; split; reflexivity. Qed.

Lemma call_limits_hold_witness :
  call_limit cf "b" "web.fetch" = Some 2
  /\ counter ("b", "web.fetch") (a_calls (view (w_store (perform_all cf ops world0)))) <= 2.
Proof.
  split; [reflexivity|].
  exact (call_limits_hold cf ops world0 "b" "web.fetch" 2 world0_quiescent ops_wf eq_refl).
Defined.

Definition simulating : config := mk_config tables.1 tables.2 true "key" 60000000.

(** The same, with the inbox read and a grant presented whose signature is not the harness's. *)
Definition bold_ops : list harness_op :=
  ops ++ [HReceive "b"; HExecuteGrant (Executor.Witnesses.grant_with "forged") Executor.Witnesses.fetch].
Lemma simulation_inert_witness : w_ledger (perform_all simulating bold_ops world0) = [].
Proof.
  apply (simulation_inert simulating bold_ops world0 eq_refl world0_quiescent).
  - apply Forall_app. split; [exact ops_wf|].
    repeat (apply Forall_cons; split); try apply Forall_nil; try exact I. exact Executor.Witnesses.fetch_wf.
  - repeat (apply Forall_cons; split); try apply Forall_nil; try exact I. vm_compute. intros Heq. discriminate Heq.
Defined.

(** A grant that was signed with the key of the simulating harness is executed all the same. *)
Example simulation_executes_signed_grant :
  map fst (w_ledger (perform simulating (HExecuteGrant Executor.Witnesses.grant Executor.Witnesses.fetch) world0).2) = ["web.fetch"].
Proof. vm_compute. reflexivity. Qed.

(** A store in which the sample grant is claimed. *)
Definition spent := Interceptor.Witnesses.world0 (claim_grant "d1" 0 Memory.init).2 true.
Lemma spent_quiescent : quiescent spent.
Proof.
  split; [exact (proj1 (proj2 (claim_grant_spec Memory.init "d1" 0 memory_init_wf)))|intros i r Hi; discriminate Hi|reflexivity].
Qed.

Lemma claim_outlives_runs_witness : exists e,
  (executor_execute cf Executor.Witnesses.grant Executor.Witnesses.fetch (perform_all cf ops spent)).1 = Raise e.
Proof.
  apply (claim_outlives_runs cf ops spent Executor.Witnesses.grant Executor.Witnesses.fetch _
    (executor_execute cf Executor.Witnesses.grant Executor.Witnesses.fetch (perform_all cf ops spent)).2 spent_quiescent);
    [|exact ops_wf|exact Executor.Witnesses.fetch_wf|apply surjective_pairing].
  apply elem_of_dom. exists 0. reflexivity.
Defined.


End Witnesses.
