(* ===== verification/RateLimit.v ===== *)
(** * Rate limiting: src/capgate/ratelimit.py and the rate tables of src/capgate/state.py

    Token buckets in memory with eviction of idle keys, the sampler of audit records of failed
    authentication, and the shared buckets of a state store. The source computes with floats, so
    every definition is parametric in the arithmetic; [binary64] is the one the program runs on and
    [exact] the rational one in which the limits are stated. *)

From Stdlib Require Import QArith Qcanon Lqa SpecFloat.
From S2P Require Import Prelude PyVal.
#[local] Open Scope Z_scope.

Class Arith := {
  num : Type;
  of_Z : Z -> num;
  nadd : num -> num -> num;
  nsub : num -> num -> num;
  nmul : num -> num -> num;
  ndiv : num -> num -> num;
  nlt : num -> num -> bool;
  nle : num -> num -> bool;
  neq : num -> num -> bool;
}.

(** Rationals in lowest terms, so that equal numbers are the same. *)
Definition exact : Arith := {|
  num := Q; of_Z := inject_Z;
  nadd a b := Qred (a + b); nsub a b := Qred (a - b); nmul a b := Qred (a * b); ndiv a b := Qred (a / b);
  nlt a b := negb (Qle_bool b a); nle := Qle_bool; neq := Qeq_bool;
|}.

Definition binary64 : Arith := {|
  num := spec_float; of_Z z := binary_normalize 53 1024 z 0 false;
  nadd := SFadd 53 1024; nsub := SFsub 53 1024; nmul := SFmul 53 1024; ndiv := SFdiv 53 1024;
  nlt := SFltb; nle := SFleb; neq := SFeqb;
|}.

Section ratelimit.
Context `{Arith}.

(** [min(a, b)] and [max(a, b)] *)
Definition nmin (a b : num) : num := if nlt b a then b else a.
Definition nmax (a b : num) : num := if nlt a b then b else a.
Definition is_zero (x : num) : bool := neq x (of_Z 0).

(** ** The shared buckets of a store *)

Definition bucket_step (tokens last : option num) (rate : num) (burst : Z) (now : num) : result (bool * num * num) :=
  let tokens := match tokens with
                | None => of_Z burst
                | Some t =>
                    let last := match last with Some l => if is_zero l then now else l | None => now end in
                    nmin (of_Z burst) (nadd t (nmul (nmax (of_Z 0) (nsub now last)) rate))
                end in
  if nle (of_Z 1) tokens then Ok (true, nsub tokens (of_Z 1), of_Z 0)
  else if is_zero rate then Raise ZeroDivisionError
  else Ok (false, tokens, ndiv (nsub (of_Z 1) tokens) rate).

Record RateTables := mk_rate_tables {
  rt_rate : gmap (string * string) (num * num);          (* (bucket, key) -> (tokens, last) *)
  rt_suppressed : gmap (string * string) Z;
}.
Definition no_rates : RateTables := mk_rate_tables ∅ ∅.

Definition rate_take (bucket key : string) (rate : num) (burst : Z) (now : num) (t : RateTables) :
    result (bool * num * RateTables) :=
  let row := rt_rate t !! (bucket, key) in
  let? (allowed, tokens, retry) := bucket_step (fst <$> row) (snd <$> row) rate burst now in
  Ok (allowed, retry, mk_rate_tables (<[(bucket, key) := (tokens, now)]> (rt_rate t)) (rt_suppressed t)).

Definition per_second (per_minute : Z) : num := ndiv (of_Z per_minute) (of_Z 60).

Definition rate_admit (bucket key : string) (per_minute : Z) (now : num) (t : RateTables) : result (bool * Z * RateTables) :=
  let? (allowed, _, t) := rate_take ("audit:" +:+ bucket) key (per_second per_minute) (Z.max per_minute 1) now t in
  let n := default 0 (rt_suppressed t !! (bucket, key)) in
  Ok (if allowed
      then (true, n, mk_rate_tables (rt_rate t) (delete (bucket, key) (rt_suppressed t)))
      else (false, 0, mk_rate_tables (rt_rate t) (<[(bucket, key) := n + 1]> (rt_suppressed t)))).

(** The same in SQL: a row is selected, then inserted or updated. *)
Definition sqlite_rate_take (bucket key : string) (rate : num) (burst : Z) (now : num) (t : RateTables) :
    result (bool * num * RateTables) :=
  let? (allowed, tokens, retry) := (match rt_rate t !! (bucket, key) with
                                    | Some (tokens, last) => bucket_step (Some tokens) (Some last) rate burst now
                                    | None => bucket_step None None rate burst now
                                    end) in
  Ok (allowed, retry, mk_rate_tables (<[(bucket, key) := (tokens, now)]> (rt_rate t)) (rt_suppressed t)).
Definition sqlite_rate_admit (bucket key : string) (per_minute : Z) (now : num) (t : RateTables) :
    result (bool * Z * RateTables) :=
  let? (allowed, _, t) := sqlite_rate_take ("audit:" +:+ bucket) key (per_second per_minute) (Z.max per_minute 1) now t in
  let row := rt_suppressed t !! (bucket, key) in
  if negb allowed
  then Ok (false, 0, mk_rate_tables (rt_rate t)
             (match row with
              | None => <[(bucket, key) := 1]> (rt_suppressed t)
              | Some n => <[(bucket, key) := n + 1]> (rt_suppressed t)
              end))
  else Ok (true, match row with Some n => n | None => 0 end,
             mk_rate_tables (rt_rate t) (delete (bucket, key) (rt_suppressed t))).

Lemma sqlite_rate_take_same bucket key rate burst now t :
  sqlite_rate_take bucket key rate burst now t = rate_take bucket key rate burst now t.
Proof. unfold sqlite_rate_take, rate_take. by destruct (rt_rate t !! (bucket, key)) as [[? ?]|]. Qed.
Lemma sqlite_rate_admit_same bucket key per_minute now t :
  sqlite_rate_admit bucket key per_minute now t = rate_admit bucket key per_minute now t.
Proof.
  unfold sqlite_rate_admit, rate_admit. rewrite sqlite_rate_take_same. destruct (rate_take _ _ _ _ _ _) as [[[ok r] t1]|e]; [|done].
  cbn [result_bind]. destruct ok; simpl; by destruct (rt_suppressed t1 !! (bucket, key)).
Qed.

(** ** Buckets in memory: most recently used last, the oldest evicted *)

Record TokenBucket := mk_bucket {
  tb_rate : num;
  tb_burst : Z;
  tb_max_keys : Z;
  tb_buckets : dict (num * num);
}.

Definition make_bucket (rate : num) (burst max_keys : Z) : result TokenBucket :=
  if nle rate (of_Z 0) || (burst <? 1) then Raise (ValueError "rate must be > 0 and burst >= 1")
  else Ok (mk_bucket rate burst max_keys []).

(** [while len(d) > max_keys: d.popitem(last=False)] *)
Fixpoint evict {V} (max_keys : Z) (d : dict V) : result (dict V) :=
  if max_keys <? Z.of_nat (length d)
  then match d with [] => Raise (KeyError "dictionary is empty") | _ :: d' => evict max_keys d' end
  else Ok d.

Definition take (key : string) (now : num) (b : TokenBucket) : result (bool * num * TokenBucket) :=
  let '(tokens, last) := default (of_Z (tb_burst b), now) (dget key (tb_buckets b)) in
  let tokens := nmin (of_Z (tb_burst b)) (nadd tokens (nmul (nsub now last) (tb_rate b))) in
  let? (allowed, tokens, retry) :=
    (if nle (of_Z 1) tokens then Ok (true, nsub tokens (of_Z 1), of_Z 0)
     else if is_zero (tb_rate b) then Raise ZeroDivisionError
     else Ok (false, tokens, ndiv (nsub (of_Z 1) tokens) (tb_rate b))) in
  let? buckets := evict (tb_max_keys b) (ddel key (tb_buckets b) ++ [(key, (tokens, now))]) in
  Ok (allowed, retry, mk_bucket (tb_rate b) (tb_burst b) (tb_max_keys b) buckets).

(** ** The sampler: a few records per key and minute, the rest counted *)

Record AuditSampler := mk_sampler {
  as_bucket : option TokenBucket;
  as_suppressed : dict Z;
  as_max_keys : Z;
}.

Definition make_sampler (per_minute max_keys : Z) : result AuditSampler :=
  let? bucket := (if 0 <? per_minute
                  then let? b := make_bucket (per_second per_minute) (Z.max per_minute 1) max_keys in Ok (Some b)
                  else Ok None) in
  Ok (mk_sampler bucket [] max_keys).

Definition admit_record (key : string) (now : num) (s : AuditSampler) : result (bool * Z * AuditSampler) :=
  let? (allowed, bucket) := (match as_bucket s with
                             | Some b => let? (allowed, _, b) := take key now b in Ok (allowed, Some b)
                             | None => Ok (false, None)
                             end) in
  let n := default 0 (dget key (as_suppressed s)) in
  let rest := ddel key (as_suppressed s) in
  if allowed then Ok (true, n, mk_sampler bucket rest (as_max_keys s))
  else let? suppressed := evict (as_max_keys s) (rest ++ [(key, n + 1)]) in
       Ok (false, 0, mk_sampler bucket suppressed (as_max_keys s)).

(** ** The limiter *)

Record RateLimitConfig := mk_rate_config {
  rc_client_rate : num;
  rc_client_burst : Z;
  rc_principal_rate : num;
  rc_principal_burst : Z;
  rc_auth_failure_audit_per_minute : Z;
  rc_max_tracked_keys : Z;
  rc_enabled : bool;
  rc_shared : bool;
}.
Definition default_config : RateLimitConfig := mk_rate_config (of_Z 20) 100 (of_Z 10) 60 20 10000 true false.

Record RateLimiter := mk_limiter {
  rl_config : RateLimitConfig;
  rl_local : option (TokenBucket * TokenBucket * AuditSampler);    (* absent when the store is used *)
}.

Definition make_limiter (c : RateLimitConfig) (store : bool) : result RateLimiter :=
  if rc_shared c && store then Ok (mk_limiter c None)
  else
    let? clients := make_bucket (rc_client_rate c) (rc_client_burst c) (rc_max_tracked_keys c) in
    let? principals := make_bucket (rc_principal_rate c) (rc_principal_burst c) (rc_max_tracked_keys c) in
    let? sampler := make_sampler (rc_auth_failure_audit_per_minute c) (rc_max_tracked_keys c) in
    Ok (mk_limiter c (Some (clients, principals, sampler))).

(** The limiter with the rate tables of its store. *)
Definition limits : Type := RateLimiter * RateTables.

Definition limit_client (address : string) (now : num) (s : limits) : result (bool * num * limits) :=
  let '(l, t) := s in
  let c := rl_config l in
  if negb (rc_enabled c) then Ok (true, of_Z 0, s)
  else match rl_local l with
  | None => let? (ok, retry, t) := rate_take "client" address (rc_client_rate c) (rc_client_burst c) now t in Ok (ok, retry, (l, t))
  | Some (clients, principals, sampler) =>
      let? (ok, retry, clients) := take address now clients in
      Ok (ok, retry, (mk_limiter c (Some (clients, principals, sampler)), t))
  end.

Definition limit_principal (principal : string) (now : num) (s : limits) : result (bool * num * limits) :=
  let '(l, t) := s in
  let c := rl_config l in
  if negb (rc_enabled c) then Ok (true, of_Z 0, s)
  else match rl_local l with
  | None => let? (ok, retry, t) := rate_take "principal" principal (rc_principal_rate c) (rc_principal_burst c) now t in Ok (ok, retry, (l, t))
  | Some (clients, principals, sampler) =>
      let? (ok, retry, principals) := take principal now principals in
      Ok (ok, retry, (mk_limiter c (Some (clients, principals, sampler)), t))
  end.

Definition audit_auth_failure (address : string) (now : num) (s : limits) : result (bool * Z * limits) :=
  let '(l, t) := s in
  let c := rl_config l in
  if negb (rc_enabled c) then Ok (true, 0, s)
  else match rl_local l with
  | None => let? (ok, n, t) := rate_admit "authfail" address (rc_auth_failure_audit_per_minute c) now t in Ok (ok, n, (l, t))
  | Some (clients, principals, sampler) =>
      let? (ok, n, sampler) := admit_record address now sampler in
      Ok (ok, n, (mk_limiter c (Some (clients, principals, sampler)), t))
  end.
End ratelimit.

(** ** Runs *)

Section runs.
Context `{Arith}.

(** Takes of one kind of bucket, from the store and in memory. *)
Fixpoint take_all_shared (bucket : string) (rate : num) (burst : Z) (l : list (string * num)) (t : RateTables) :
    result (list bool * RateTables) :=
  match l with
  | [] => Ok ([], t)
  | (key, now) :: l' =>
      let? (ok, _, t) := rate_take bucket key rate burst now t in
      let? (oks, t) := take_all_shared bucket rate burst l' t in
      Ok (ok :: oks, t)
  end.

Fixpoint take_all_local (l : list (string * num)) (b : TokenBucket) : result (list bool * TokenBucket) :=
  match l with
  | [] => Ok ([], b)
  | (key, now) :: l' =>
      let? (ok, _, b) := take key now b in
      let? (oks, b) := take_all_local l' b in
      Ok (ok :: oks, b)
  end.

Fixpoint admit_all (bucket : string) (per_minute : Z) (l : list (string * num)) (t : RateTables) :
    result (list (bool * Z) * RateTables) :=
  match l with
  | [] => Ok ([], t)
  | (key, now) :: l' =>
      let? (ok, n, t) := rate_admit bucket key per_minute now t in
      let? (oks, t) := admit_all bucket per_minute l' t in
      Ok ((ok, n) :: oks, t)
  end.

(** How often [key] occurs in [l], and how many of its answers are [true]. *)
Definition attempts (key : string) (l : list (string * num)) : Z :=
  Z.of_nat (length (List.filter (fun x => String.eqb x.1 key) l)).
Definition admitted {B} (p : B -> Z) (key : string) (l : list (string * num)) (answers : list B) : Z :=
  foldr Z.add 0 (map (fun x : string * num * B => if String.eqb x.1.1 key then p x.2 else 0) (zip l answers)).
Definition one_if (b : bool) : Z := if b then 1 else 0.

Lemma rate_admit_other bucket key k per_minute now t ok n t' : rate_admit bucket key per_minute now t = Ok (ok, n, t') ->
  default 0 (rt_suppressed t' !! (bucket, k)) + (if String.eqb key k then if ok then 1 + n else 0 else 0)
  = default 0 (rt_suppressed t !! (bucket, k)) + (if String.eqb key k then 1 else 0).
Proof.
  unfold rate_admit, rate_take. intros Hr.
  destruct (bucket_step _ _ _ _ _) as [[[allowed tokens] retry]|e]; [|done]. cbn in Hr.
  destruct (String.eqb_spec key k) as [->|Hk].
  - destruct allowed; injection Hr as <- <- <-; simpl; [rewrite lookup_delete_eq|rewrite lookup_insert_eq]; simpl; lia.
  - destruct allowed; injection Hr as <- <- <-; simpl;
      [rewrite lookup_delete_ne by congruence|rewrite lookup_insert_ne by congruence]; lia.
Qed.

Lemma admit_all_counts bucket per_minute key l t rs t' : admit_all bucket per_minute l t = Ok (rs, t') ->
  default 0 (rt_suppressed t' !! (bucket, key)) + admitted (fun r : bool * Z => if r.1 then 1 + r.2 else 0) key l rs
  = default 0 (rt_suppressed t !! (bucket, key)) + attempts key l.
Proof.
  revert t rs; induction l as [|[k now] l IH]; intros t rs Hr; simpl in Hr.
  - injection Hr as <- <-. unfold admitted, attempts. simpl. lia.
  - destruct (rate_admit bucket k per_minute now t) as [[[ok n] t1]|e] eqn:E; [|done]. cbn in Hr.
    destruct (admit_all bucket per_minute l t1) as [[oks t2]|e] eqn:E2; [|done]. injection Hr as <- <-.
    specialize (IH _ _ E2). apply (rate_admit_other _ _ key) in E. unfold admitted, attempts in *. simpl.
    destruct (String.eqb k key); simpl in *; destruct ok; lia.
Qed.
End runs.

(** ** The rate in exact arithmetic *)

Section exact_rates.
#[local] Existing Instance exact.
#[local] Open Scope Q_scope.
#[local] Abbreviation qmin := (@nmin exact).
#[local] Abbreviation qmax := (@nmax exact).
#[local] Abbreviation qlt := (@nlt exact).
#[local] Abbreviation qle := (@nle exact).
#[local] Abbreviation qadd := (@nadd exact).
#[local] Abbreviation qsub := (@nsub exact).
#[local] Abbreviation qmul := (@nmul exact).
#[local] Abbreviation qzero := (@is_zero exact).

(** Reduced numbers that are equal are the same. *)
Definition reduced (q : Q) : Prop := Qred q = q.
Lemma Qred_reduced q : reduced (Qred q).
Proof. apply Qred_complete, Qred_correct. Qed.
Lemma reduced_eq p q : reduced p -> reduced q -> p == q -> p = q.
Proof. intros Hp Hq Heq. rewrite <- Hp, <- Hq. by apply Qred_complete. Qed.
Lemma of_Z_reduced z : reduced (of_Z z).
Proof. apply Qred_identity. apply Z.gcd_1_r. Qed.

Lemma nle_spec (a b : Q) : qle a b = true <-> a <= b.
Proof. apply Qle_bool_iff. Qed.
Lemma nle_false (a b : Q) : qle a b = false <-> b < a.
Proof. rewrite <- not_true_iff_false, nle_spec. split; [apply Qnot_le_lt|intros Hl Hle; exact (Qlt_not_le _ _ Hl Hle)]. Qed.
Lemma nlt_spec (a b : Q) : qlt a b = true <-> a < b.
Proof. cbn. rewrite negb_true_iff. apply nle_false. Qed.

Lemma nmin_spec (a b : Q) : qmin a b <= a /\ qmin a b <= b /\ (qmin a b = a \/ qmin a b = b).
Proof.
  unfold nmin. destruct (qlt b a) eqn:E; [apply nlt_spec in E|apply not_true_iff_false in E; rewrite nlt_spec in E; apply Qnot_lt_le in E];
    split_and!; auto; lra.
Qed.
Lemma nmax_spec (a b : Q) : a <= qmax a b /\ b <= qmax a b /\ (qmax a b = a \/ qmax a b = b).
Proof.
  unfold nmax. destruct (qlt a b) eqn:E; [apply nlt_spec in E|apply not_true_iff_false in E; rewrite nlt_spec in E; apply Qnot_lt_le in E];
    split_and!; auto; lra.
Qed.

Definition Qone (b : bool) : Q := if b then 1 else 0.

(** The tokens in a bucket of [tk] at [last] when it is looked at again. *)
Definition refilled (tk last rate : Q) (burst : Z) (now : Q) : Q :=
  qmin (inject_Z burst) (qadd tk (qmul (qmax (inject_Z 0) (qsub now (if qzero last then now else last))) rate)).
Definition spend (have rate : Q) : result (bool * Q * Q) :=
  if qle 1 have then Ok (true, qsub have 1, 0)
  else if qzero rate then Raise ZeroDivisionError else Ok (false, have, @ndiv exact (qsub 1 have) rate).

Lemma bucket_step_some tk last rate burst now :
  @bucket_step exact (Some tk) (Some last) rate burst now = spend (refilled tk last rate burst now) rate.
Proof. done. Qed.
Lemma bucket_step_none rate burst now : @bucket_step exact None None rate burst now = spend (inject_Z burst) rate.
Proof. done. Qed.

Lemma burst_ge_1 burst : (1 <= burst)%Z -> 1 <= inject_Z burst.
Proof. intros Hb. change 1 with (inject_Z 1). by rewrite <- Zle_Qle. Qed.

Lemma refilled_range tk last rate burst now : 0 <= tk -> last <= now -> 0 <= rate -> (1 <= burst)%Z ->
  0 <= refilled tk last rate burst now <= inject_Z burst /\ refilled tk last rate burst now <= tk + rate * (now - last).
Proof.
  intros Htk Hlast Hrate Hburst. apply burst_ge_1 in Hburst. unfold refilled.
  assert (forall l : Q, l == last \/ l == now ->
    0 <= qadd tk (qmul (qmax (inject_Z 0) (qsub now l)) rate) <= tk + rate * (now - last)) as Hin.
  { intros l Hl. destruct (nmax_spec (inject_Z 0) (qsub now l)) as (Hm0 & Hm1 & Hm).
    set (m := qmax (inject_Z 0) (qsub now l)) in *.
    assert (0 <= m <= now - last) as [Hlo Hhi].
    { split; [exact Hm0|]. destruct Hm as [->| ->]; [change (inject_Z 0) with 0; lra|].
      cbn -[Qred]. rewrite Qred_correct. destruct Hl; lra. }
    clearbody m. cbn -[Qred]. rewrite !Qred_correct. split; nra. }
  specialize (Hin (if qzero last then now else last)).
  destruct Hin as [Hlo Hhi]; [destruct (qzero last); [right|left]; reflexivity|].
  set (avail := qadd tk _) in *. clearbody avail.
  destruct (nmin_spec (inject_Z burst) avail) as (Hm0 & Hm1 & [Hm|Hm]); rewrite Hm in *; repeat split; lra.
Qed.

(** What is taken out of a bucket was in it. *)
Lemma spend_pays have rate ok tk' retry : 0 <= have -> spend have rate = Ok (ok, tk', retry) ->
  0 <= tk' /\ Qone ok + tk' == have.
Proof.
  intros Hpos. unfold spend. destruct (qle 1 have) eqn:E.
  - apply nle_spec in E. intros Heq. injection Heq as <- <- _. cbn -[Qred]. rewrite Qred_correct. split; lra.
  - destruct (qzero rate); [done|]. intros Heq. injection Heq as <- <- _. simpl. split; lra.
Qed.

(** Times that never go back, the first at [t0] or later. *)
Fixpoint clocked (t0 : Q) (l : list (string * Q)) : Prop :=
  match l with [] => True | (_, now) :: l' => t0 <= now /\ clocked now l' end.
Fixpoint end_time (t0 : Q) (l : list (string * Q)) : Q :=
  match l with [] => t0 | (_, now) :: l' => end_time now l' end.

Lemma end_time_ge t0 l : clocked t0 l -> t0 <= end_time t0 l.
Proof. revert t0; induction l as [|[k now] l IH]; intros t0; simpl; [lra|]. intros [? Hc]. apply IH in Hc. lra. Qed.

Definition allowed_for (key : string) (l : list (string * Q)) (oks : list bool) : Z := admitted one_if key l oks.

Lemma allowed_cons key k now l ok oks :
  inject_Z (allowed_for key ((k, now) :: l) (ok :: oks))
  == (if String.eqb k key then Qone ok else 0) + inject_Z (allowed_for key l oks).
Proof.
  unfold allowed_for, admitted. simpl. rewrite inject_Z_plus. destruct (String.eqb k key); [|reflexivity].
  by destruct ok.
Qed.

(** What a key may take at [t0]: never more than the burst, however long ago it was used. And that its
    row is in range then. *)
Definition credit (rate : Q) (burst : Z) (t0 : Q) (row : option (Q * Q)) : Q :=
  match row with None => inject_Z burst | Some (tk, last) => qmin (inject_Z burst) (tk + rate * (t0 - last)) end.
Definition row_ok (t0 : Q) (row : option (Q * Q)) : Prop :=
  match row with None => True | Some (tk, last) => 0 <= tk /\ last <= t0 end.

Lemma row_ok_later t0 t1 row : row_ok t0 row -> t0 <= t1 -> row_ok t1 row.
Proof. destruct row as [[tk last]|]; simpl; [|done]. intros [? ?] ?. split; lra. Qed.

Lemma credit_later rate burst t0 t1 row : 0 <= rate -> t0 <= t1 ->
  credit rate burst t1 row <= credit rate burst t0 row + rate * (t1 - t0).
Proof.
  intros Hr Ht. assert (0 <= rate * (t1 - t0)) by (apply Qmult_le_0_compat; lra).
  destruct row as [[tk last]|]; simpl; [|lra].
  destruct (nmin_spec (inject_Z burst) (tk + rate * (t1 - last))) as (H1 & H2 & _),
    (nmin_spec (inject_Z burst) (tk + rate * (t0 - last))) as (_ & _ & [-> | ->]); nra.
Qed.

Lemma credit_burst rate burst t0 row : credit rate burst t0 row <= inject_Z burst.
Proof. destruct row as [[tk last]|]; simpl; [apply nmin_spec|lra]. Qed.

Lemma credit_nonneg rate burst t0 row : (1 <= burst)%Z -> 0 <= rate -> row_ok t0 row -> 0 <= credit rate burst t0 row.
Proof.
  intros Hb Hr. pose proof (burst_ge_1 burst Hb). destruct row as [[tk last]|]; simpl; [intros [? ?]|lra].
  destruct (nmin_spec (inject_Z burst) (tk + rate * (t0 - last))) as (_ & _ & [-> | ->]); nra.
Qed.

Definition row (bucket key : string) (t : @RateTables exact) : option (@num exact * @num exact) := rt_rate t !! (bucket, key).

Lemma rate_take_row bucket key k (rate : Q) burst (now : Q) (t : @RateTables exact) ok retry t' :
  rate_take bucket k rate burst now t = Ok (ok, retry, t') ->
  if String.eqb k key
  then exists tk' : Q, row bucket key t' = Some (tk', now) /\
    match row bucket key t with
    | Some (tk, last) => spend (refilled tk last rate burst now) rate
    | None => spend (inject_Z burst) rate
    end = Ok (ok, tk', retry)
  else row bucket key t' = row bucket key t.
Proof.
  unfold rate_take. intros Hrun.
  destruct (bucket_step _ _ _ _ _) as [[[ok1 tk1] r1]|e] eqn:Es; [|done]. injection Hrun as <- <- <-. unfold row. simpl rt_rate.
  destruct (String.eqb_spec k key) as [->|Hk]; [|exact (lookup_insert_ne (rt_rate t) (bucket, k) (bucket, key) (tk1, now) ltac:(congruence))].
  exists tk1. split; [exact (lookup_insert_eq (rt_rate t) (bucket, key) (tk1, now))|]. 
  change (@rt_rate exact t !! (bucket, key)) with (row bucket key t) in Es.
  fold (row bucket key t). by destruct (row bucket key t) as [[tk last]|].
Qed.

Lemma rate_take_pays bucket key k (rate : Q) burst (now t0 : Q) (t : @RateTables exact) ok retry t' :
  (1 <= burst)%Z -> 0 <= rate -> t0 <= now ->
  row_ok t0 (row bucket key t) -> rate_take bucket k rate burst now t = Ok (ok, retry, t') ->
  row_ok now (row bucket key t')
  /\ (if String.eqb k key then Qone ok else 0) + credit rate burst now (row bucket key t')
     <= credit rate burst t0 (row bucket key t) + rate * (now - t0).
Proof.
  intros Hb Hr Hnow Hok Hrun. apply (rate_take_row bucket key) in Hrun. destruct (String.eqb k key).
  - destruct Hrun as (tk' & -> & Hs). destruct (row bucket key t) as [[tk last]|]; simpl in *.
    + destruct Hok as [Htk Hlast].
      destruct (refilled_range tk last rate burst now) as [[Hlo Hcap] Hhi]; [lra..|done|].
      apply spend_pays in Hs as [Hpos Hpay]; [|done]. split; [split; lra|].
      destruct (nmin_spec (inject_Z burst) (tk' + rate * (now - now))) as (_ & Hc1 & _).
      assert (0 <= rate * (now - t0)) by (apply Qmult_le_0_compat; lra).
      destruct (nmin_spec (inject_Z burst) (tk + rate * (t0 - last))) as (_ & _ & [-> | ->]); nra.
    + pose proof (burst_ge_1 burst Hb). apply spend_pays in Hs as [Hpos Hpay]; [|lra].
      pose proof (Qmult_le_0_compat rate (now - t0) Hr ltac:(lra)). split; [split; lra|].
      destruct (nmin_spec (inject_Z burst) (tk' + rate * (now - now))) as (_ & Hc1 & _). nra.
  - rewrite Hrun. split; [by apply (row_ok_later t0)|].
    pose proof (credit_later rate burst t0 now (row bucket key t) Hr Hnow). lra.
Qed.

Lemma take_all_pays bucket (rate : Q) burst key l (t : @RateTables exact) oks t' t0 :
  (1 <= burst)%Z -> 0 <= rate -> clocked t0 l ->
  row_ok t0 (row bucket key t) -> take_all_shared bucket rate burst l t = Ok (oks, t') ->
  row_ok (end_time t0 l) (row bucket key t')
  /\ inject_Z (allowed_for key l oks) <= credit rate burst t0 (row bucket key t) + rate * (end_time t0 l - t0).
Proof.
  intros Hb Hr. revert t oks t0. induction l as [|[k now] l IH]; intros t oks t0 Hc Hok Hrun.
  - injection Hrun as <- <-. split; [done|]. pose proof (credit_nonneg rate burst t0 _ Hb Hr Hok). change (inject_Z _) with 0. simpl. nra.
  - destruct Hc as [Hnow Hc]. simpl in Hrun.
    destruct (@rate_take exact bucket k rate burst now t) as [[[ok retry] t1]|e] eqn:Er; [|done]. cbn [result_bind] in Hrun.
    destruct (@take_all_shared exact bucket rate burst l t1) as [[oks1 t2]|e] eqn:Erest; [|done]. injection Hrun as <- <-.
    destruct (rate_take_pays _ key _ _ _ _ _ _ _ _ _ Hb Hr Hnow Hok Er) as [Hok1 Hpay].
    destruct (IH _ _ _ Hc Hok1 Erest) as [Hend Hle]. split; [exact Hend|]. rewrite allowed_cons. simpl end_time. lra.
Qed.
End exact_rates.

(** ** The buckets in memory and those of the store give the same answers *)

Section agreement.
#[local] Existing Instance exact.

Lemma ddel_get {V} k k' (d : dict V) : NoDup (dkeys d) -> dget k' (ddel k d) = if String.eqb k' k then None else dget k' d.
Proof.
  induction d as [|[j v] d IH]; simpl; [by destruct (String.eqb k' k)|]. intros [Hj Hd]%NoDup_cons.
  destruct (String.eqb_spec k j) as [->|Hkj].
  - destruct (String.eqb_spec k' j) as [->|]; [|done]. by apply dget_None.
  - simpl. destruct (String.eqb_spec k' j) as [->|]; [|by apply IH].
    destruct (String.eqb_spec j k); [congruence|done].
Qed.

Lemma ddel_keys {V} k (d : dict V) j : NoDup (dkeys d) -> j ∈ dkeys (ddel k d) <-> j ∈ dkeys d /\ j <> k.
Proof.
  induction d as [|[i v] d IH]; simpl; [set_solver|]. intros [Hi Hd]%NoDup_cons.
  destruct (String.eqb_spec k i) as [->|Hki]; simpl; [set_solver|]. rewrite !elem_of_cons, IH by done.
  split; [|set_solver]. intros [->|[? ?]]; split; auto.
Qed.

Lemma ddel_NoDup {V} k (d : dict V) : NoDup (dkeys d) -> NoDup (dkeys (ddel k d)).
Proof.
  induction d as [|[i v] d IH]; simpl; [done|]. intros [Hi Hd]%NoDup_cons.
  destruct (String.eqb k i); simpl; [done|]. constructor; [|by apply IH].
  intros Hin. apply ddel_keys in Hin as [? _]; done.
Qed.

Lemma evict_none {V} max_keys (d : dict V) : Z.of_nat (length d) <= max_keys -> evict max_keys d = Ok d.
Proof. intros Hl. apply Z.ltb_ge in Hl. by destruct d; cbn [evict]; rewrite Hl. Qed.

(** A bucket moved to the end of the dictionary. *)
Definition touch {V} (k : string) (v : V) (d : dict V) : dict V := ddel k d ++ [(k, v)].

Lemma touch_get {V} k (v : V) d k' : NoDup (dkeys d) -> dget k' (touch k v d) = if String.eqb k' k then Some v else dget k' d.
Proof.
  intros Hd. unfold touch. assert (forall e : dict V, dget k' (e ++ [(k, v)]) = match dget k' e with
    Some x => Some x | None => if String.eqb k' k then Some v else None end) as ->.
  { induction e as [|[j x] e IH]; simpl; [done|]. by destruct (String.eqb k' j). }
  rewrite ddel_get by done. destruct (String.eqb k' k); [done|]. by destruct (dget k' d).
Qed.

Lemma touch_NoDup {V} k (v : V) d : NoDup (dkeys d) -> NoDup (dkeys (touch k v d)).
Proof.
  intros Hd. unfold touch, dkeys. rewrite map_app. apply NoDup_app. split_and!; [by apply ddel_NoDup| |repeat constructor; set_solver].
  intros x Hx Hin. apply ddel_keys in Hx as [_ Hx]; [|done]. set_solver.
Qed.

Lemma touch_keys {V} k (v : V) d (ks : list string) : NoDup (dkeys d) -> k ∈ ks -> (forall j, j ∈ dkeys d -> j ∈ ks) ->
  forall j, j ∈ dkeys (touch k v d) -> j ∈ ks.
Proof.
  intros Hd Hk Hks j. unfold touch, dkeys. rewrite map_app, elem_of_app. intros [Hj|Hj]; [|set_solver].
  apply ddel_keys in Hj as [Hj _]; [by apply Hks|done].
Qed.

Lemma keys_length {V} (d : dict V) (ks : list string) : NoDup (dkeys d) -> (forall j, j ∈ dkeys d -> j ∈ ks) -> (length d <= length ks)%nat.
Proof.
  intros Hd Hks. replace (length d) with (length (dkeys d)) by apply length_map.
  apply submseteq_length. by apply NoDup_submseteq.
Qed.

(** The same rows at [t0], over the keys [ks]. *)
Record agree (ks : list string) (bucket : string) (t0 : Q) (b : @TokenBucket exact) (t : @RateTables exact) : Prop := {
  ag_nodup : NoDup (dkeys (tb_buckets b));
  ag_keys j : j ∈ dkeys (tb_buckets b) -> j ∈ ks;
  ag_rows j : dget j (tb_buckets b) = row bucket j t;
  ag_past j tk last : row bucket j t = Some (tk, last) -> (0 < last /\ last <= t0)%Q;
}.

Lemma local_have (tk last now rate : Q) burst : (0 < last)%Q -> (last <= now)%Q ->
  @nmin exact (inject_Z burst) (@nadd exact tk (@nmul exact (@nsub exact now last) rate)) = refilled tk last rate burst now.
Proof.
  intros Hpos Hle. unfold refilled.
  assert (@is_zero exact last = false) as ->.
  { unfold is_zero. apply not_true_iff_false. intros Hz%Qeq_bool_iff. change (of_Z 0) with (0 # 1)%Q in Hz. lra. }
  do 3 f_equal. destruct (nmax_spec (inject_Z 0) (@nsub exact now last)) as (Hm0 & Hm1 & [Hm| ->]); [|done].
  rewrite Hm in *. apply reduced_eq; [apply Qred_reduced|apply of_Z_reduced|].
  cbn -[Qred] in *. rewrite Qred_correct in *. change (inject_Z 0) with 0%Q in *. lra.
Qed.

Lemma local_first (now rate : Q) burst :
  @nmin exact (inject_Z burst) (@nadd exact (inject_Z burst) (@nmul exact (@nsub exact now now) rate)) = inject_Z burst.
Proof.
  assert (@nadd exact (inject_Z burst) (@nmul exact (@nsub exact now now) rate) = inject_Z burst) as ->.
  { apply reduced_eq; [apply Qred_reduced|apply (of_Z_reduced burst)|]. cbn -[Qred]. rewrite !Qred_correct. ring. }
  unfold nmin. by destruct (@nlt exact _ _).
Qed.

(** What [take] computes, from the row of its key. *)
Lemma take_row key (now : Q) (b : @TokenBucket exact) : (forall tk last, dget key (tb_buckets b) = Some (tk, last) -> 0 < last /\ last <= now)%Q ->
  take key now b =
    (let? (ok, tk, retry) := match dget key (tb_buckets b) with
                             | Some (tk, last) => spend (refilled tk last (tb_rate b) (tb_burst b) now) (tb_rate b)
                             | None => spend (inject_Z (tb_burst b)) (tb_rate b)
                             end in
     let? buckets := evict (tb_max_keys b) (touch key (tk, now) (tb_buckets b)) in
     Ok (ok, retry, mk_bucket (tb_rate b) (tb_burst b) (tb_max_keys b) buckets)).
Proof.
  intros Hpast. unfold take, touch. destruct (dget key (tb_buckets b)) as [[tk last]|] eqn:E; cbn [default from_option id].
  - destruct (Hpast _ _ eq_refl) as [Hpos Hle].
    change (@of_Z exact (tb_burst b)) with (inject_Z (tb_burst b)). by rewrite local_have.
  - change (@of_Z exact (tb_burst b)) with (inject_Z (tb_burst b)). by rewrite local_first.
Qed.

Lemma take_agrees ks bucket key (now t0 : Q) b t : agree ks bucket t0 b t -> (0 < now)%Q -> (t0 <= now)%Q -> key ∈ ks ->
  Z.of_nat (length ks) <= tb_max_keys b -> @is_zero exact (tb_rate b) = false ->
  exists ok retry tk b' t', take key now b = Ok (ok, retry, b')
    /\ rate_take bucket key (tb_rate b) (tb_burst b) now t = Ok (ok, retry, t')
    /\ agree ks bucket now b' t' /\ b' = mk_bucket (tb_rate b) (tb_burst b) (tb_max_keys b) (touch key (tk, now) (tb_buckets b)).
Proof.
  intros [Hnd Hks Hrows Hpast] Hpos Hle Hkey Hmax Hrate.
  unfold rate_take. change (@rt_rate exact t !! (bucket, key)) with (row bucket key t).
  set (have := match row bucket key t with Some (tk, last) => refilled tk last (tb_rate b) (tb_burst b) now
    | None => inject_Z (tb_burst b) end).
  assert (take key now b = let? (ok, tk, retry) := spend have (tb_rate b) in
     let? buckets := evict (tb_max_keys b) (touch key (tk, now) (tb_buckets b)) in
     Ok (ok, retry, mk_bucket (tb_rate b) (tb_burst b) (tb_max_keys b) buckets)) as ->.
  { rewrite take_row; [|intros tk last Hr; rewrite Hrows in Hr; apply Hpast in Hr as [? ?]; split; lra].
    unfold have. rewrite Hrows. by destruct (row bucket key t) as [[? ?]|]. }
  assert (@bucket_step exact (fst <$> row bucket key t) (snd <$> row bucket key t) (tb_rate b) (tb_burst b) now
    = spend have (tb_rate b)) as -> by (unfold have; by destruct (row bucket key t) as [[? ?]|]).
  assert (exists ok tk retry, spend have (tb_rate b) = Ok (ok, tk, retry)) as (ok & tk & retry & Hs).
  { unfold spend. rewrite Hrate. destruct (@nle exact 1%Q have); eauto. }
  rewrite Hs. cbn [result_bind].
  assert (Z.of_nat (length (touch key (tk, now) (tb_buckets b))) <= tb_max_keys b) as Hlen.
  { pose proof (keys_length (touch key (tk, now) (tb_buckets b)) ks (touch_NoDup _ _ _ Hnd) (touch_keys _ _ _ _ Hnd Hkey Hks)). lia. }
  rewrite evict_none by done. cbn [result_bind]. eexists ok, retry, tk, _, _. split_and!; [done|done| |done].
  split; simpl.
  - by apply touch_NoDup.
  - by apply touch_keys.
  - intros j. rewrite touch_get by done. unfold row. simpl. destruct (String.eqb_spec j key) as [->|Hj].
    + symmetry. exact (lookup_insert_eq (rt_rate t) (bucket, key) (tk, now)).
    + rewrite Hrows. symmetry. exact (lookup_insert_ne (rt_rate t) (bucket, key) (bucket, j) (tk, now) ltac:(congruence)).
  - intros j tk' last Hr. unfold row in Hr. simpl in Hr. destruct (String.eqb_spec key j) as [->|Hj].
    + pose proof (lookup_insert_eq (rt_rate t) (bucket, j) (tk, now)) as He.
      assert (Some (tk, now) = Some (tk', last)) as Heq by (etransitivity; [symmetry; exact He|exact Hr]).
      injection Heq as _ <-. split; lra.
    + pose proof (lookup_insert_ne (rt_rate t) (bucket, key) (bucket, j) (tk, now) ltac:(congruence)) as He.
      assert (row bucket j t = Some (tk', last)) as Heq by (etransitivity; [symmetry; exact He|exact Hr]).
      apply Hpast in Heq as [? ?]. split; lra.
Qed.

Lemma take_all_agree ks bucket (l : list (string * Q)) (t0 : Q) b t : agree ks bucket t0 b t -> (0 < t0)%Q -> clocked t0 l ->
  (forall x, x ∈ l -> x.1 ∈ ks) -> Z.of_nat (length ks) <= tb_max_keys b -> @is_zero exact (tb_rate b) = false ->
  exists oks b' t', take_all_local l b = Ok (oks, b') /\ take_all_shared bucket (tb_rate b) (tb_burst b) l t = Ok (oks, t').
Proof.
  revert b t t0. induction l as [|[key now] l IH]; intros b t t0 Hag Hpos Hc Hl Hmax Hrate; [simpl; eauto|].
  destruct Hc as [Hle Hc].
  destruct (take_agrees ks bucket key now t0 b t Hag) as (ok & retry & tk & b1 & t1 & Hlocal & Hshared & Hag1 & Hb1); [lra|done| |done|done|].
  { apply (Hl (key, now)). set_solver. }
  destruct (IH b1 t1 now Hag1) as (oks & b2 & t2 & H1' & H2'); [lra|done| |by subst b1|by subst b1|].
  { intros x Hx. apply Hl. set_solver. }
  exists (ok :: oks), b2, t2. cbn [take_all_local take_all_shared]. rewrite Hlocal, Hshared. cbn [result_bind].
  rewrite H1'. subst b1. cbn [tb_rate tb_burst] in H2'. by rewrite H2'.
Qed.
End agreement.

(** ** Properties *)

(** C35. The shared limit is a rate limit with a burst: in exact arithmetic, for a key not seen before,
    whatever requests [before] came first and however requests of other keys are interleaved, at
    whatever non-decreasing times, the requests of the key that are allowed in any later window of time
    that starts at [t1] number at most the burst plus the rate times the length of the window. Time
    spent idle before the window saves up no more than one burst. *)
Theorem shared_rate_bound (bucket key : string) (rate : Q) (burst : Z) (before window : list (string * Q)) (t0 t1 : Q)
    (t tm t' : @RateTables exact) (oks0 oks : list bool) :
  1 <= burst -> (0 <= rate)%Q -> row bucket key t = None ->
  clocked t0 before -> @take_all_shared exact bucket rate burst before t = Ok (oks0, tm) ->
  (end_time t0 before <= t1)%Q -> clocked t1 window -> @take_all_shared exact bucket rate burst window tm = Ok (oks, t') ->
  (inject_Z (allowed_for key window oks) <= inject_Z burst + rate * (end_time t1 window - t1))%Q.
Proof.
  intros Hb Hr Hrow Hc0 Hrun0 Ht Hc Hrun.
  destruct (take_all_pays bucket rate burst key before t oks0 tm t0 Hb Hr Hc0) as [Hok _]; [by rewrite Hrow|done|].
  destruct (take_all_pays bucket rate burst key window tm oks t' t1 Hb Hr Hc (row_ok_later _ _ _ Hok Ht) Hrun) as [_ Hp].
  pose proof (credit_burst rate burst t1 (row bucket key tm)). lra.
Qed.

(** One limiter, two implementations: in exact arithmetic, as long as no more keys are used than
    the process tracks, the buckets in memory and the buckets of the store answer any sequence of
    requests alike, whichever keys and non-decreasing positive times they have, and neither raises. *)
Theorem local_shared_agree (bucket : string) (rate : Q) (burst max_keys : Z) (b : @TokenBucket exact)
    (l : list (string * Q)) (t0 : Q) (ks : list string) :
  @make_bucket exact rate burst max_keys = Ok b -> (0 < t0)%Q -> clocked t0 l ->
  (forall x, x ∈ l -> x.1 ∈ ks) -> Z.of_nat (length ks) <= max_keys ->
  exists oks b' t', @take_all_local exact l b = Ok (oks, b')
    /\ @take_all_shared exact bucket rate burst l (@no_rates exact) = Ok (oks, t').
Proof.
  intros Hb Hpos Hc Hl Hmax. unfold make_bucket in Hb.
  destruct (@nle exact rate (@of_Z exact 0)) eqn:Er; [done|]. destruct (burst <? 1); [done|]. injection Hb as <-.
  apply (take_all_agree ks bucket l t0 (@mk_bucket exact rate burst max_keys [])); try done.
  - split; simpl; [constructor|set_solver|done|done].
  - unfold is_zero. apply not_true_iff_false. intros Hz%Qeq_bool_iff. apply nle_false in Er.
    change (of_Z 0) with (0 # 1)%Q in *. simpl in Hz. lra.
Qed.

(** Evidence is counted, not lost: over any sequence of failed authentications sampled through the
    store, the failures of an address are exactly those recorded, those summarised in a record, and
    those still counted as suppressed - in whatever arithmetic. *)
Theorem evidence_kept `{Arith} (bucket key : string) (per_minute : Z) (l : list (string * num)) (t t' : RateTables)
    (rs : list (bool * Z)) :
  admit_all bucket per_minute l t = Ok (rs, t') ->
  default 0 (rt_suppressed t' !! (bucket, key)) + admitted (fun r : bool * Z => if r.1 then 1 + r.2 else 0) key l rs
  = default 0 (rt_suppressed t !! (bucket, key)) + attempts key l.
Proof. apply admit_all_counts. Qed.

Module Witnesses.
#[local] Open Scope Q_scope.

(** Three requests of [a] and one of [b], two per second with a burst of two. *)
Definition reqs : list (string * Q) := [("a", 1); ("a", 1); ("b", 1); ("a", 1); ("a", 2)].
Definition shared := @take_all_shared exact "client" (2 # 1) 2 reqs (@no_rates exact).
Definition answers {A} (r : result (list A * @RateTables exact)) : list A := match r with Ok (l, _) => l | Raise _ => [] end.
Definition tables_of {A} (r : result (list A * @RateTables exact)) : @RateTables exact := match r with Ok (_, t) => t | Raise _ => no_rates end.

Lemma reqs_clocked : clocked 1 reqs.
Proof. repeat split; discriminate. Qed.

Lemma shared_run : shared = Ok (answers shared, tables_of shared).
Proof. assert (is_ok shared = true) as Hok by (vm_compute; reflexivity). unfold answers, tables_of. by destruct shared as [[]|]. Qed.

(** A hundred seconds later four requests arrive at once: two are allowed, not two hundred. *)
Definition later_reqs : list (string * Q) := [("a", 102); ("a", 102); ("a", 102); ("a", 102)].
Definition later := @take_all_shared exact "client" (2 # 1) 2 later_reqs (tables_of shared).
Lemma later_run : later = Ok (answers later, tables_of later).
Proof. assert (is_ok later = true) as Hok by (vm_compute; reflexivity). unfold answers, tables_of. by destruct later as [[]|]. Qed.
Lemma later_clocked : clocked 102 later_reqs.
Proof. repeat split; discriminate. Qed.

Lemma shared_rate_bound_witness : inject_Z (allowed_for "a" later_reqs (answers later)) <= 2
  /\ answers shared = [true; true; true; false; true] /\ answers later = [true; true; false; false].
Proof.
  split; [|split; vm_compute; reflexivity].
  eapply Qle_trans; [apply (shared_rate_bound "client" "a" (2 # 1) 2 reqs later_reqs 1 102 (@no_rates exact) (tables_of shared)
      (tables_of later) (answers shared) (answers later));
    [lia|discriminate|reflexivity|exact reqs_clocked|exact shared_run|discriminate|exact later_clocked|exact later_run]|discriminate].
Defined.

Definition local : @TokenBucket exact := @mk_bucket exact (2 # 1) 2 2 [].
Lemma local_shared_agree_witness : exists oks b' t', @take_all_local exact reqs local = Ok (oks, b')
  /\ @take_all_shared exact "client" (2 # 1) 2 reqs (@no_rates exact) = Ok (oks, t').
Proof.
  apply (local_shared_agree "client" (2 # 1) 2 2 local reqs 1 ["a"; "b"]);
    [reflexivity|reflexivity|exact reqs_clocked| |discriminate].
  intros x Hx. unfold reqs in Hx. repeat (apply elem_of_cons in Hx as [->|Hx]; [set_solver|]). by apply elem_of_nil in Hx.
Defined.

Definition floats (l : list (string * Z)) : list (string * @num binary64) := map (fun x => (x.1, @of_Z binary64 x.2)) l.
Definition failures : list (string * @num binary64) := floats [("a", 5%Z); ("a", 5%Z); ("b", 6%Z); ("a", 7%Z); ("a", 70%Z)].
Definition sampled := @admit_all binary64 "authfail" 1 failures (@no_rates binary64).
Definition samples : list (bool * Z) := match sampled with Ok (l, _) => l | Raise _ => [] end.

Definition sampled_tables : @RateTables binary64 := match sampled with Ok (_, t) => t | Raise _ => no_rates end.
Lemma sampled_run : @admit_all binary64 "authfail" 1 failures no_rates = Ok (samples, sampled_tables).
Proof. assert (is_ok sampled = true) as Hok by (vm_compute; reflexivity). unfold samples, sampled_tables, sampled in *. by destruct (admit_all _ _ _ _) as [[]|]. Qed.
Lemma nothing_suppressed : default 0%Z (rt_suppressed sampled_tables !! ("authfail", "a")) = 0%Z.
Proof. vm_compute. reflexivity. Qed.

(** In floats: the first is recorded, two are suppressed, the next record reports them. *)
Lemma evidence_kept_witness : admitted (fun r : bool * Z => if r.1 then (1 + r.2)%Z else 0%Z) "a" failures samples = 4%Z
  /\ samples = [(true, 0%Z); (false, 0%Z); (true, 0%Z); (false, 0%Z); (true, 2%Z)].
Proof.
  split; [|vm_compute; reflexivity].
  pose proof (@evidence_kept binary64 "authfail" "a" 1 failures no_rates sampled_tables samples sampled_run) as He.
  rewrite nothing_suppressed in He. exact He.
Defined.

(** With no audit records per minute the shared sampler divides by zero on the second failure, where
    the one in memory suppresses every record. *)
Example shared_sampler_divides_by_zero :
  match @admit_all binary64 "authfail" 0 (floats [("a", 5%Z); ("a", 6%Z)]) no_rates with
  | Raise ZeroDivisionError => true
  | _ => false
  end = true.
Proof. vm_compute. reflexivity. Qed.
Example local_sampler_suppresses :
  match @make_sampler binary64 0 10 with
  | Ok s => match @admit_record binary64 "a" (of_Z 5) s with Ok (ok, n, _) => (ok, n) = (false, 0%Z) | Raise _ => False end
  | Raise _ => False
  end.
Proof. vm_compute. reflexivity. Qed.
End Witnesses.
