(* ===== verification/Postgres.v ===== *)
(** * The Postgres store: [PostgresStateStore] and [open_state_store] of src/capgate/state.py

    The tables of the SQLite store behind a server that keeps records as JSONB, sorts by its own
    collation and returns deleted rows in any order; and the cluster of replicas that share the server,
    whose transactions are serialized by one advisory lock. Statements the server refuses (a NUL in a
    text, a lost connection) are not modelled. *)

From S2P Require Import Prelude PyVal State RateLimit.

(** What the documentation of the server promises: a JSONB value keeps its keys and texts (not the order
    of keys nor the spelling of numbers), and RETURNING gives every deleted row once. *)
Class PostgresServer := {
  jsonb : dict pyval -> dict pyval;
  collation : string -> string -> bool;
  returned : list (dict pyval) -> list (dict pyval);
  jsonb_mem k r : no_nul k = true -> dmem k (jsonb r) = dmem k r;
  jsonb_text k s r : no_nul k = true -> no_nul s = true ->
    dget k (jsonb r) = Some (PStr s) <-> dget k r = Some (PStr s);
  returned_all l : returned l ≡ₚ l;
}.

Record PostgresStateStore := mk_postgres {
  pg_tables : tables;
  pg_saved : tables;          (* what ROLLBACK restores; meaningful while a transaction is open *)
  pg_depth : nat;             (* self._local.depth *)
}.

Module Postgres.
Section store.
Context `{PostgresServer}.

(** A connection to a database with these tables, outside a transaction. *)
Definition session (t : tables) : PostgresStateStore := mk_postgres t t 0.
Definition init : PostgresStateStore := session (mk_tables ∅ ∅ ∅ [] [] 1 ∅).

Definition tx_begin (s : PostgresStateStore) : PostgresStateStore :=
  mk_postgres (pg_tables s) (if (pg_depth s =? 0)%nat then pg_tables s else pg_saved s) (S (pg_depth s)).
Definition tx_commit (s : PostgresStateStore) : PostgresStateStore :=
  mk_postgres (pg_tables s) (pg_saved s) (pred (pg_depth s)).
(** A sequence is not rolled back. *)
Definition rolled_back (s : PostgresStateStore) : tables :=
  let t := pg_saved s in
  mk_tables (t_steps t) (t_calls t) (t_grants t) (t_approvals t) (t_messages t) (t_next_seq (pg_tables s)) (t_revoked t).
Definition tx_abort (s : PostgresStateStore) : PostgresStateStore :=
  mk_postgres (if (pg_depth s =? 1)%nat then rolled_back s else pg_tables s) (pg_saved s) (pred (pg_depth s)).
Definition in_tx (f : tables -> tables) (s : PostgresStateStore) : PostgresStateStore :=
  let s := tx_begin s in tx_commit (mk_postgres (f (pg_tables s)) (pg_saved s) (pg_depth s)).

Definition steps (c : string) (s : PostgresStateStore) : Z := default 0 (t_steps (pg_tables s) !! c).
Definition add_step (c : string) : PostgresStateStore -> PostgresStateStore :=
  in_tx (fun t => mk_tables (match t_steps t !! c with
                             | None => <[c := 1]> (t_steps t)
                             | Some n => <[c := n + 1]> (t_steps t)
                             end)
                    (t_calls t) (t_grants t) (t_approvals t) (t_messages t) (t_next_seq t) (t_revoked t)).
Definition calls (a x : string) (s : PostgresStateStore) : Z := default 0 (t_calls (pg_tables s) !! (a, x)).
Definition add_call (a x : string) : PostgresStateStore -> PostgresStateStore :=
  in_tx (fun t => mk_tables (t_steps t)
                    (match t_calls t !! (a, x) with
                     | None => <[(a, x) := 1]> (t_calls t)
                     | Some n => <[(a, x) := n + 1]> (t_calls t)
                     end)
                    (t_grants t) (t_approvals t) (t_messages t) (t_next_seq t) (t_revoked t)).
(** ON CONFLICT DO NOTHING: the row count says whether the row was new. *)
Definition claim_grant (d : string) (e : Z) (s : PostgresStateStore) : bool * PostgresStateStore :=
  match t_grants (pg_tables s) !! d with
  | Some _ => (false, in_tx id s)
  | None => (true, in_tx (fun t => mk_tables (t_steps t) (t_calls t) (<[d := e]> (t_grants t)) (t_approvals t)
                                     (t_messages t) (t_next_seq t) (t_revoked t)) s)
  end.
Definition put_approval (i : string) (r : dict pyval) : PostgresStateStore -> PostgresStateStore :=
  in_tx (fun t => mk_tables (t_steps t) (t_calls t) (t_grants t)
                    (dset i (pget "status" r, jsonb r) (t_approvals t))
                    (t_messages t) (t_next_seq t) (t_revoked t)).
Definition get_approval (i : string) (s : PostgresStateStore) : option (dict pyval) :=
  snd <$> dget i (t_approvals (pg_tables s)).
(** ORDER BY approval_id *)
Definition by_id {V} (rows : list (string * V)) : list (string * V) :=
  merge_sort (fun r q => Is_true (collation r.1 q.1)) rows.
Definition pending_records (s : PostgresStateStore) : list (dict pyval) :=
  map (fun row => row.2.2) (by_id (List.filter (fun row => SQLite.row_pending row.2) (t_approvals (pg_tables s)))).
Definition push_message (to : string) (m : dict pyval) : PostgresStateStore -> PostgresStateStore :=
  in_tx (fun t => mk_tables (t_steps t) (t_calls t) (t_grants t) (t_approvals t)
                    (t_messages t ++ [(t_next_seq t, to, jsonb m)]) (t_next_seq t + 1) (t_revoked t)).
(** DELETE ... RETURNING message *)
Definition drain_messages (to : string) (s : PostgresStateStore) : list (dict pyval) * PostgresStateStore :=
  (returned (map snd (List.filter (SQLite.for_recipient to) (t_messages (pg_tables s)))),
   in_tx (fun t => mk_tables (t_steps t) (t_calls t) (t_grants t) (t_approvals t)
                     (List.filter (fun row => negb (SQLite.for_recipient to row)) (t_messages t))
                     (t_next_seq t) (t_revoked t)) s).
Definition revoke (k : string) (e : Z) : PostgresStateStore -> PostgresStateStore :=
  in_tx (fun t => mk_tables (t_steps t) (t_calls t) (t_grants t) (t_approvals t) (t_messages t) (t_next_seq t)
                    (match t_revoked t !! k with Some _ => t_revoked t | None => <[k := e]> (t_revoked t) end)).
Definition is_revoked (k : string) (s : PostgresStateStore) : bool := bool_decide (is_Some (t_revoked (pg_tables s) !! k)).
Definition prune (now : Z) : PostgresStateStore -> PostgresStateStore :=
  in_tx (fun t => mk_tables (t_steps t) (t_calls t)
                    (filter (fun kv => ~ (kv.2 < now - seconds 3600)) (t_grants t))
                    (t_approvals t) (t_messages t) (t_next_seq t)
                    (filter (fun kv => ~ (kv.2 < now - seconds 3600)) (t_revoked t))).

(** ** Refinement of the abstract state

    The statements on counters, grants and revocations are those of the SQLite store. *)

Definition as_sqlite (s : PostgresStateStore) : SQLiteStateStore := mk_sqlite (pg_tables s) (pg_saved s) (pg_depth s).
Definition wf (s : PostgresStateStore) : Prop := SQLite.wf (as_sqlite s)
  /\ (pg_depth s <> O -> t_next_seq (pg_saved s) <= t_next_seq (pg_tables s)).
Definition view (s : PostgresStateStore) : authority := SQLite.tables_view (pg_tables s).
Definition rollback_point (s : PostgresStateStore) : option authority := SQLite.rollback_point (as_sqlite s).

Lemma pg_in_tx_refines f g s :
  (SQLite.tables_wf (pg_tables s) -> 0 <= t_next_seq (pg_tables s) ->
     SQLite.tables_wf (f (pg_tables s)) /\ t_next_seq (pg_tables s) <= t_next_seq (f (pg_tables s))
     /\ SQLite.tables_view (f (pg_tables s)) = g (SQLite.tables_view (pg_tables s))) ->
  wf s -> wf (in_tx f s) /\ view (in_tx f s) = g (view s).
Proof.
  intros Hf [Hw Hseq]. pose proof Hw as [[Ht Hn] _]. destruct (Hf Ht Hn) as (Ht' & Hn' & Hv).
  destruct (SQLite.in_tx_refines f g (as_sqlite s)) as [Hw' Hv']; [|done|].
  - simpl in *. intros _ _. split_and!; [done|lia|done].
  - split; [|exact Hv']. split; [exact Hw'|]. simpl in *. destruct (pg_depth s); simpl; [lia|]. intros _. specialize (Hseq ltac:(done)). simpl in *. lia.
Qed.

Lemma pg_in_tx_rollback f s : rollback_point (in_tx f s) = rollback_point s.
Proof. apply (SQLite.in_tx_rollback f (as_sqlite s)). Qed.

(** A statement that SQLite runs on the same tables refines what it refines there. *)
Lemma in_tx_like_sqlite f g s : t_next_seq (f (pg_tables s)) = t_next_seq (pg_tables s) ->
  SQLite.wf (SQLite.in_tx f (as_sqlite s)) /\ SQLite.view (SQLite.in_tx f (as_sqlite s)) = g (SQLite.view (as_sqlite s)) ->
  wf s -> wf (in_tx f s) /\ view (in_tx f s) = g (view s).
Proof.
  intros Hn [Hw Hv] Hwf. apply pg_in_tx_refines; [|done]. intros _ _. destruct Hw as [[Ht _] _]. split_and!; [done|lia|done].
Qed.

Lemma jsonb_status status r : no_nul status = true -> has_status status (jsonb r) = has_status status r.
Proof. intros Hs. apply eq_true_iff_eq. rewrite !has_status_true. by apply jsonb_text. Qed.

Lemma pg_put_approval_refines s i r : wf s -> wf (put_approval i r s)
  /\ view (put_approval i r s) = auth_put_approval i (jsonb r) (view s).
Proof.
  apply pg_in_tx_refines. intros [Ha Hs Hseq] Hn. split_and!; [|simpl; lia|].
  - split; simpl; [|done..]. intros j row Hin. apply dset_in in Hin as [Hin|[-> ->]]; [by eapply Ha|].
    simpl. rewrite jsonb_status by done. unfold SQLite.row_pending, has_status, pget. simpl. by destruct (dget "status" r).
  - unfold SQLite.tables_view, auth_put_approval. simpl. f_equal. by rewrite (dset_map snd).
Qed.

Lemma pg_push_message_refines s to m : wf s -> wf (push_message to m s)
  /\ view (push_message to m s) = auth_push to (jsonb m) (view s).
Proof.
  apply pg_in_tx_refines. intros [Ha Hs Hseq] Hn. split_and!; [|simpl; lia|].
  - split; simpl; [done| |].
    + apply StronglySorted_app. split_and!; [|done|repeat constructor].
      intros r q Hr ->%list_elem_of_singleton. apply Hseq in Hr. simpl. lia.
    + intros r [Hr| ->%list_elem_of_singleton]%elem_of_app; [apply Hseq in Hr; lia|simpl; lia].
  - unfold SQLite.tables_view, auth_push. simpl. f_equal. by rewrite SQLite.group_snoc.
Qed.

Lemma sorted_filter {A} (R : A -> A -> Prop) (p : A -> bool) l : StronglySorted R l -> StronglySorted R (List.filter p l).
Proof.
  induction 1 as [|x l Hs IH Hx]; simpl; [constructor|]. destruct (p x); [|done]. constructor; [done|].
  rewrite Forall_forall in Hx |- *. intros y Hy%list_elem_of_In%filter_In. apply Hx, list_elem_of_In. tauto.
Qed.

Lemma pg_drain_messages_refines s to : wf s ->
  (drain_messages to s).1 ≡ₚ default [] (a_messages (view s) !! to)
  /\ wf (drain_messages to s).2 /\ view (drain_messages to s).2 = auth_drain to (view s).
Proof.
  intros Hwf. split.
  - unfold drain_messages, view, SQLite.tables_view. simpl. rewrite returned_all, SQLite.group_lookup. by destruct (List.filter _ _).
  - unfold drain_messages. cbn [snd]. revert Hwf. apply pg_in_tx_refines. intros [Ha Hs Hseq] Hn. split_and!; [|done|].
    + split; simpl; [done|by apply sorted_filter|].
      intros r Hr%list_elem_of_In%filter_In. apply Hseq, list_elem_of_In. tauto.
    + unfold SQLite.tables_view, auth_drain. simpl. f_equal. apply SQLite.group_delete.
Qed.

Lemma pg_pending_refines s : wf s ->
  pending_records s ≡ₚ List.filter (has_status "pending") (dvalues (a_approvals (view s))).
Proof.
  intros [Hw _]. change (view s) with (SQLite.view (as_sqlite s)). rewrite <- SQLite.pending_refines by done.
  unfold pending_records, by_id, SQLite.pending_records, dvalues. simpl. rewrite merge_sort_Permutation.
  induction (t_approvals (pg_tables s)) as [|[i row] d IH]; simpl; [done|]. destruct (SQLite.row_pending row); simpl; by rewrite IH.
Qed.

Lemma pg_abort_refines s : wf s -> wf (tx_abort s)
  /\ (view (tx_abort s) = view s \/ rollback_point s = Some (view (tx_abort s))).
Proof.
  intros [[Hw Hs] Hseq]. unfold wf, view, rollback_point, SQLite.rollback_point, SQLite.wf in *. simpl in *.
  destruct (pg_depth s) as [|[|n]]; simpl.
  - split; [|by left]. done.
  - destruct (Hs ltac:(done)) as [[Ha Hm Hq] Hn]. specialize (Hseq ltac:(done)).
    split; [|by right]. split; [|done]. split; [|done]. split; [|simpl; lia].
    split; simpl; [done|done|]. intros r Hr. specialize (Hq r Hr). lia.
  - split; [|by left]. split; [|intros _; by apply Hseq]. split; [done|]. intros _. by apply Hs.
Qed.

#[global] Instance store : StateStore PostgresStateStore.
Proof.
  refine {| State.store_wf := wf; State.view := view; State.tx_begin := tx_begin; State.tx_commit := tx_commit;
    State.tx_abort := tx_abort; State.rollback_point := rollback_point;
    State.steps := steps; State.add_step := add_step; State.calls := calls; State.add_call := add_call;
    State.claim_grant := claim_grant; State.put_approval := put_approval; State.get_approval := get_approval;
    State.pending_records := pending_records; State.push_message := push_message;
    State.drain_messages := drain_messages; State.revoke := revoke; State.is_revoked := is_revoked;
    State.stored := jsonb |}.
  - intros s [Hw Hs]. destruct (SQLite.begin_refines (as_sqlite s) Hw) as [Hw' Hv]. split; [|done].
    split; [done|]. simpl. destruct (pg_depth s); simpl; [done|by intros; apply Hs].
  - intros s [Hw Hs]. destruct (SQLite.commit_refines (as_sqlite s) Hw) as [Hw' Hv]. split; [|done].
    split; [done|]. simpl. destruct (pg_depth s); simpl; [done|]. by intros; apply Hs.
  - done.
  - intros s c Hwf. apply in_tx_like_sqlite; [done|apply SQLite.add_step_refines, Hwf|done].
  - done.
  - intros s a x Hwf. apply in_tx_like_sqlite; [done|apply SQLite.add_call_refines, Hwf|done].
  - intros s d e Hwf. destruct (SQLite.claim_grant_refines (as_sqlite s) d e (proj1 Hwf)) as [Hb Hc].
    unfold claim_grant, SQLite.claim_grant in *. simpl in Hb, Hc. change (view s) with (SQLite.view (as_sqlite s)).
    destruct (t_grants (pg_tables s) !! d); (split; [exact Hb|apply in_tx_like_sqlite; [done|exact Hc|done]]).
  - intros s i r Hwf _. by apply pg_put_approval_refines.
  - intros s i _. apply (SQLite.get_approval_refines (as_sqlite s)).
  - apply pg_pending_refines.
  - intros s to m Hwf _. by apply pg_push_message_refines.
  - intros s to. apply pg_drain_messages_refines.
  - intros s k e Hwf. apply in_tx_like_sqlite; [done|apply SQLite.revoke_refines, Hwf|done].
  - intros s k _. unfold is_revoked, view, SQLite.tables_view. simpl. apply bool_decide_ext. by rewrite elem_of_dom.
  - intros r. by apply jsonb_mem.
  - intros st r. apply jsonb_status.
  - intros s. unfold rollback_point, SQLite.rollback_point. simpl. destruct (pg_depth s); [by right|by left].
  - intros s. unfold rollback_point, SQLite.rollback_point. simpl. destruct (pg_depth s) as [|[|n]]; simpl; auto.
  - apply pg_abort_refines.
  - intros s. unfold rollback_point, SQLite.rollback_point. simpl. destruct (pg_depth s) as [|[|n]]; simpl; auto.
  - intros s c. apply pg_in_tx_rollback.
  - intros s a x. apply pg_in_tx_rollback.
  - intros s d e. unfold claim_grant. destruct (_ !! d); apply pg_in_tx_rollback.
  - intros s i r. apply pg_in_tx_rollback.
  - intros s to m. apply pg_in_tx_rollback.
  - intros s to. apply pg_in_tx_rollback.
  - intros s k e. apply pg_in_tx_rollback.
Defined.
#[global] Instance transactional : TransactionalStore PostgresStateStore.
Proof.
  assert (forall f s, pg_depth s <> O -> pg_depth (in_tx f s) = pg_depth s
    /\ SQLite.tables_view (pg_saved (in_tx f s)) = SQLite.tables_view (pg_saved s)) as Htx.
  { intros f s Hs. simpl. destruct (pg_depth s); done. }
  refine {| depth := pg_depth; saved s := SQLite.tables_view (pg_saved s) |}.
  - intros s Hs. simpl. by rewrite Hs.
  - done.
  - intros s Hs. simpl. by destruct (pg_depth s).
  - done.
  - done.
  - intros s Hs. unfold State.view. simpl. unfold view. simpl. by rewrite Hs.
  - intros s c. apply Htx.
  - intros s a x. apply Htx.
  - intros s i r. apply Htx.
Defined.

Lemma pg_wf_init : wf init.
Proof. split; [|done]. apply SQLite.wf_init. Qed.

Lemma wf_session s : wf s -> pg_depth s = O -> wf (session (pg_tables s)).
Proof. intros [[Hw _] _] _. by split; [split|]. Qed.
End store.

(** ** The shared buckets: the clock is the server's, whatever the caller says the time is *)
Section rates.
Context `{Arith}.

Definition rate_take (bucket key : string) (rate : num) (burst : Z) (now server_now : num) (t : RateTables) :
    result (bool * num * RateTables) :=
  let? (allowed, tokens, retry) := (match rt_rate t !! (bucket, key) with
                                    | Some (tokens, last) => bucket_step (Some tokens) (Some last) rate burst server_now
                                    | None => bucket_step None None rate burst server_now
                                    end) in
  Ok (allowed, retry, mk_rate_tables (<[(bucket, key) := (tokens, server_now)]> (rt_rate t)) (rt_suppressed t)).

Definition rate_admit (bucket key : string) (per_minute : Z) (now server_now : num) (t : RateTables) :
    result (bool * Z * RateTables) :=
  let? (allowed, _, t) := rate_take ("audit:" +:+ bucket) key (per_second per_minute) (Z.max per_minute 1) now server_now t in
  let row := rt_suppressed t !! (bucket, key) in
  if negb allowed
  then Ok (false, 0, mk_rate_tables (rt_rate t)
             (match row with
              | None => <[(bucket, key) := 1]> (rt_suppressed t)
              | Some n => <[(bucket, key) := n + 1]> (rt_suppressed t)
              end))
  else Ok (true, match row with Some n => n | None => 0 end,
             mk_rate_tables (rt_rate t) (delete (bucket, key) (rt_suppressed t))).

Lemma rate_take_server bucket key rate burst now server_now t :
  rate_take bucket key rate burst now server_now t = sqlite_rate_take bucket key rate burst server_now t.
Proof. done. Qed.
Lemma rate_admit_server bucket key per_minute now server_now t :
  rate_admit bucket key per_minute now server_now t = sqlite_rate_admit bucket key per_minute server_now t.
Proof. unfold rate_admit, sqlite_rate_admit. by rewrite rate_take_server. Qed.
End rates.
End Postgres.

(** ** Which store a URL opens *)

Inductive opened :=
| OpenMemory
| OpenSQLite (path : string)
| OpenPostgres (dsn : string).

Definition open_state_store (url : option string) : opened :=
  match url with
  | None => OpenMemory
  | Some url =>
      if String.eqb url "memory://" || String.eqb url "memory:" then OpenMemory
      else if any_prefix ["postgresql://"; "postgres://"] url then OpenPostgres url
      else match strip_prefix "sqlite://" url with
           | Some rest =>
               let path := match rest with
                           | String "/" (String "/" _ as path) => path
                           | _ => lstrip_by (fun c => Ascii.eqb c "/") rest
                           end in
               OpenSQLite (if String.eqb path EmptyString then ":memory:" else path)
           | None => OpenSQLite url
           end
  end.

(** An absolute path needs a fourth slash: with three, the path is taken relative to the working
    directory of the process. *)
Lemma sqlite_url_four p : open_state_store (Some ("sqlite:////" +:+ p)) = OpenSQLite ("/" +:+ p).
Proof.
  unfold open_state_store. change ("sqlite:////" +:+ p) with ("sqlite://" +:+ ("//" +:+ p)). by rewrite strip_prefix_app.
Qed.
Lemma sqlite_url_three p c : c <> "/"%char ->
  open_state_store (Some ("sqlite:///" +:+ String c p)) = OpenSQLite (String c p).
Proof.
  intros Hc. unfold open_state_store. change ("sqlite:///" +:+ String c p) with ("sqlite://" +:+ ("/" +:+ String c p)).
  rewrite strip_prefix_app. cbn -[lstrip_by]. assert (Ascii.eqb c "/" = false) as Hf by (by apply Ascii.eqb_neq).
  destruct c as [[] [] [] [] [] [] [] []]; try done; simpl in *; done.
Qed.
