(* ===== verification/Cluster.v ===== *)
(** * Replicas on one Postgres server: src/capgate/state.py

    Many harness processes share one database. A transaction of [PostgresStateStore] begins by taking a
    cluster-wide advisory lock, which the server releases when the outermost one ends; a statement that
    is not in a transaction but writes opens one of its own; reads outside a transaction see the last
    committed state. *)

From S2P Require Import Prelude PyVal State RateLimit Postgres.

(** A transaction as the client saw it: its operations and their answers. *)
#[global] Abbreviation block := (list (op * answer)).

Inductive event :=
| Begin (c : nat)
| Op (c : nat) (o : op) (a : answer)
| Commit (c : nat)
| Abort (c : nat)
| Lost (c : nat)                               (* the connection breaks: the server rolls back *)
| Auto (c : nat) (o : op) (a : answer)         (* an operation outside a transaction *)
| Read (c : nat) (o : op) (a : answer).        (* the same, of one that only reads *)

Definition event_op (e : event) : option op :=
  match e with Op _ o _ | Auto _ o _ | Read _ o _ => Some o | _ => None end.

Definition reads_only (o : op) : bool :=
  match o with OpSteps _ | OpCalls _ _ | OpGet _ | OpPending | OpIsRevoked _ => true | _ => false end.

Section cluster.
Context `{PostgresServer}.

(** The committed tables, and who holds the lock with what they have done so far. *)
Record cluster := mk_cluster {
  cl_db : tables;
  cl_holder : option (nat * PostgresStateStore);
}.

Inductive step : cluster -> event -> cluster -> Prop :=
| step_begin db c : step (mk_cluster db None) (Begin c) (mk_cluster db (Some (c, tx_begin (Postgres.session db))))
| step_nested db c s : step (mk_cluster db (Some (c, s))) (Begin c) (mk_cluster db (Some (c, tx_begin s)))
| step_op db c s o : step (mk_cluster db (Some (c, s))) (Op c o (run_op o s).1) (mk_cluster db (Some (c, (run_op o s).2)))
| step_commit db c s : pg_depth s = 1%nat ->
    step (mk_cluster db (Some (c, s))) (Commit c) (mk_cluster (pg_tables (tx_commit s)) None)
| step_commit_nested db c s : (1 < pg_depth s)%nat ->
    step (mk_cluster db (Some (c, s))) (Commit c) (mk_cluster db (Some (c, tx_commit s)))
| step_abort db c s : pg_depth s = 1%nat ->
    step (mk_cluster db (Some (c, s))) (Abort c) (mk_cluster (pg_tables (tx_abort s)) None)
| step_abort_nested db c s : (1 < pg_depth s)%nat ->
    step (mk_cluster db (Some (c, s))) (Abort c) (mk_cluster db (Some (c, tx_abort s)))
| step_lost db c s : step (mk_cluster db (Some (c, s))) (Lost c) (mk_cluster (Postgres.rolled_back s) None)
| step_auto db c o : step (mk_cluster db None) (Auto c o (run_op o (Postgres.session db)).1)
    (mk_cluster (pg_tables (run_op o (Postgres.session db)).2) None)
| step_read db h c o : reads_only o = true -> fst <$> h <> Some c ->
    step (mk_cluster db h) (Read c o (run_op o (Postgres.session db)).1) (mk_cluster db h).

Inductive execution (cl : cluster) : list event -> cluster -> Prop :=
| execution_nil : execution cl [] cl
| execution_snoc tr cl1 e cl2 : execution cl tr cl1 -> step cl1 e cl2 -> execution cl (tr ++ [e]) cl2.

End cluster.

(** ** The history of a trace: its committed transactions, in the order they committed *)

Record progress := mk_progress {
  pr_done : list block;
  pr_depth : nat;
  pr_open : block;
}.

Definition note (p : progress) (e : event) : progress :=
  match e with
  | Begin _ => mk_progress (pr_done p) (S (pr_depth p)) (pr_open p)
  | Op _ o a => mk_progress (pr_done p) (pr_depth p) (pr_open p ++ [(o, a)])
  | Commit _ => if (pr_depth p =? 1)%nat then mk_progress (pr_done p ++ [pr_open p]) 0 []
                else mk_progress (pr_done p) (pred (pr_depth p)) (pr_open p)
  | Abort _ => if (pr_depth p =? 1)%nat then mk_progress (pr_done p) 0 []
               else mk_progress (pr_done p) (pred (pr_depth p)) (pr_open p)
  | Lost _ => mk_progress (pr_done p) 0 []
  | Auto _ o a => mk_progress (pr_done p ++ [[(o, a)]]) (pr_depth p) (pr_open p)
  | Read _ _ _ => p
  end.
Definition progress_of (tr : list event) : progress := foldl note (mk_progress [] 0 []) tr.
Definition committed (tr : list event) : list block := pr_done (progress_of tr).

(** ** Runs of the abstract state *)

Section abstract.
Variable keep : dict pyval -> dict pyval.

(** The answers are possible for these operations, one after another, and this is where they lead. *)
Inductive auth_run : authority -> block -> authority -> Prop :=
| auth_run_nil a : auth_run a [] a
| auth_run_cons a o x b a' : x ≡ (auth_op keep o a).1 -> auth_run (auth_op keep o a).2 b a' -> auth_run a ((o, x) :: b) a'.

Lemma auth_run_app a b b' a1 a2 : auth_run a b a1 -> auth_run a1 b' a2 -> auth_run a (b ++ b') a2.
Proof. intros Hb Hb'. induction Hb as [|a o x b a1 Hx Hb IH]; simpl; [done|]. constructor; auto. Qed.

Lemma auth_run_snoc a b o x a1 : auth_run a b a1 -> x ≡ (auth_op keep o a1).1 -> auth_run a (b ++ [(o, x)]) (auth_op keep o a1).2.
Proof. intros Hb Hx. eapply auth_run_app; [done|]. constructor; [done|constructor]. Qed.

Lemma auth_run_claimed a b a' d : auth_run a b a' -> d ∈ a_grants a ->
  d ∈ a_grants a' /\ forall i e x, b !! i = Some (OpClaim d e, x) -> x = ABool false.
Proof.
  induction 1 as [a|a o x b a' Hx Hb IH]; intros Hd; [done|].
  destruct IH as [Hd' IH]; [by destruct o; simpl; try done; set_solver|]. split; [done|].
  intros [|i] e y Hi; simpl in Hi; [|by eapply IH]. simplify_eq. simpl in Hx.
  rewrite bool_decide_eq_false_2 in Hx by tauto. by inversion Hx.
Qed.

(** Of two claims of one decision in a run, the later one is refused. *)
Lemma auth_run_single_use a b a' d i j e e' x y : auth_run a b a' -> (i < j)%nat ->
  b !! i = Some (OpClaim d e, x) -> b !! j = Some (OpClaim d e', y) -> y = ABool false.
Proof.
  intros Hrun. revert i j. induction Hrun as [a|a o z b a' Hz Hb IH]; intros i j Hij Hi Hj; [done|].
  destruct j as [|j]; [lia|]. destruct i as [|i]; simpl in *; [|by apply (IH i j ltac:(lia))].
  simplify_eq. destruct (auth_run_claimed _ _ _ d Hb) as [_ Hall]; [simpl; set_solver|]. by eapply Hall.
Qed.

(** A transaction that counts a call only after reading that calls are left. *)
Fixpoint guarded (agent action : string) (limit : Z) (seen : option Z) (b : block) : bool :=
  match b with
  | [] => true
  | (OpCalls a x, AInt n) :: b' => guarded agent action limit (if bool_decide ((a, x) = (agent, action)) then Some n else seen) b'
  | (OpAddCall a x, _) :: b' =>
      if bool_decide ((a, x) = (agent, action))
      then match seen with Some n => (n <? limit) && guarded agent action limit None b' | None => false end
      else guarded agent action limit seen b'
  | _ :: b' => guarded agent action limit seen b'
  end.

Lemma guarded_run agent action limit a b a' : auth_run a b a' -> forall seen,
  guarded agent action limit seen b = true ->
  (forall n, seen = Some n -> counter (agent, action) (a_calls a) = n) ->
  counter (agent, action) (a_calls a) <= limit -> counter (agent, action) (a_calls a') <= limit.
Proof.
  induction 1 as [a|a o x b a' Hx Hb IH]; intros seen Hg Hseen Hle; [done|].
  destruct o as [c|c|ag ac|ag ac|d e|i r|i| |to m|to|t e|t]; try by (apply (IH seen)).
  - simpl in Hx, Hg. assert (x = AInt (counter (ag, ac) (a_calls a))) as -> by (by inversion Hx).
    apply (IH (if bool_decide ((ag, ac) = (agent, action)) then Some (counter (ag, ac) (a_calls a)) else seen)); [done| |done].
    case_bool_decide as Heq; [by intros n [= <-]; rewrite <- Heq|done].
  - simpl in Hg. cbn [auth_op snd auth_add_call a_calls] in *. case_bool_decide as Heq.
    + destruct seen as [n|]; [|done]. apply andb_true_iff in Hg as [Hn%Z.ltb_lt Hg].
      apply (IH None); [done|done|]. rewrite counter_count, Heq, decide_True by done. rewrite (Hseen n) by done. lia.
    + apply (IH seen); [done| |]; rewrite counter_count, decide_False by (intros Heq'; by apply Heq); intros; rewrite Z.add_0_r; auto.
Qed.

Lemma guarded_blocks agent action limit bs a a' : auth_run a (concat bs) a' ->
  Forall (fun b => guarded agent action limit None b = true) bs ->
  counter (agent, action) (a_calls a) <= limit -> counter (agent, action) (a_calls a') <= limit.
Proof.
  revert a; induction bs as [|b bs IH]; intros a Hrun Hall Hle; [by inversion Hrun; subst|].
  apply Forall_cons in Hall as [Hb Hbs]. simpl in Hrun.
  assert (forall b b' a, auth_run a (b ++ b') a' -> exists a1, auth_run a b a1 /\ auth_run a1 b' a') as Hsplit.
  { clear. induction b as [|[o x] b IH]; intros b' a Hrun; [by exists a; split; [constructor|]|].
    inversion Hrun; subst. destruct (IH b' _ ltac:(done)) as (a1 & H1 & H2). exists a1. split; [by constructor|done]. }
  destruct (Hsplit b (concat bs) a Hrun) as (a1 & H1 & H2). apply (IH a1); [done|done|].
  by apply (guarded_run agent action limit a b a1 H1 None).
Qed.
End abstract.

Section serialization.
Context `{PostgresServer}.

Record invariant (a0 : authority) (cl : cluster) (p : progress) : Prop := {
  inv_db : store_wf (Postgres.session (cl_db cl));
  inv_history : auth_run jsonb a0 (concat (pr_done p)) (SQLite.tables_view (cl_db cl));
  inv_open : match cl_holder cl with
    | None => pr_depth p = O /\ pr_open p = []
    | Some (_, s) => pr_depth p = pg_depth s /\ pg_depth s <> O /\ store_wf s
        /\ SQLite.tables_view (pg_saved s) = SQLite.tables_view (cl_db cl)
        /\ auth_run jsonb (SQLite.tables_view (cl_db cl)) (pr_open p) (view s)
    end;
}.

(** Operations inside a transaction stay inside it. *)
Lemma run_op_inside o s : pg_depth s <> O ->
  pg_depth (run_op o s).2 = pg_depth s /\ pg_saved (run_op o s).2 = pg_saved s.
Proof.
  intros Hd. assert (forall f, pg_depth (Postgres.in_tx f s) = pg_depth s /\ pg_saved (Postgres.in_tx f s) = pg_saved s) as Htx
    by (intros f; simpl; by destruct (pg_depth s)).
  destruct o as [c|c|a x|a x|d e|i r|i| |to m|to|t e|t]; try apply Htx; try done.
  simpl. unfold Postgres.claim_grant. destruct (_ !! d); apply Htx.
Qed.

Lemma run_op_outside o t : pg_depth (run_op o (Postgres.session t)).2 = O.
Proof. destruct o; try done. simpl. unfold Postgres.claim_grant. by destruct (_ !! d). Qed.

Lemma session_wf s : store_wf s -> store_wf (Postgres.session (pg_tables s)).
Proof. intros [[Hw _] _]. by split; [split|]. Qed.

Lemma rolled_back_wf s : store_wf s -> pg_depth s <> O -> store_wf (Postgres.session (Postgres.rolled_back s)).
Proof.
  intros [[Hw Hs] Hseq] Hd. destruct (Hs Hd) as [[Ha Hm Hq] Hn]. specialize (Hseq Hd). simpl in *.
  split; [|done]. split; [|done]. split; [|simpl; lia]. split; simpl; [done|done|].
  intros r Hr. specialize (Hq r Hr). lia.
Qed.

Definition ops_ok (tr : list event) : Prop := Forall (fun e => forall o, event_op e = Some o -> op_ok o) tr.

Lemma aborted s : pg_depth s = 1%nat -> pg_tables (tx_abort s) = Postgres.rolled_back s.
Proof. intros Hd. simpl. by rewrite Hd. Qed.

#[local] Ltac fields := cbn [cl_db cl_holder pr_done pr_depth pr_open note event_op] in *.

Lemma step_invariant a0 cl e cl' p : invariant a0 cl p -> step cl e cl' ->
  (forall o, event_op e = Some o -> op_ok o) -> invariant a0 cl' (note p e).
Proof.
  intros [Hdb Hh Ho] Hstep Hok. destruct p as [bs d b]. fields.
  assert (forall t b', auth_run jsonb (SQLite.tables_view (cl_db cl)) b' (SQLite.tables_view t) ->
    auth_run jsonb a0 (concat (bs ++ [b'])) (SQLite.tables_view t)) as Hextend.
  { intros t b' Hb. rewrite concat_app. simpl. rewrite app_nil_r. by eapply auth_run_app. }
  destruct Hstep as [db c|db c s|db c s o|db c s Hd|db c s Hd|db c s Hd|db c s Hd|db c s|db c o|db h c o Hro Hc];
    fields;
    try (destruct Ho as (-> & Hd0 & Hws & Hsv & Hrun)).
  - destruct Ho as [-> ->]. split; fields; [done|done|]. split_and!; [done|done|exact (proj1 (tx_begin_spec (Postgres.session db) Hdb))|done|constructor].
  - split; fields; [done|done|]. split_and!; [done|done|exact (proj1 (tx_begin_spec s Hws))| |done]. simpl. by destruct (pg_depth s).
  - destruct (run_op_refines o s Hws (Hok o eq_refl)) as (Ha & Hw & Hv). destruct (run_op_inside o s Hd0) as [Hdo Hso].
    split; fields; [done|done|]. rewrite Hdo, Hso. split_and!; [done|done|done|done|].
    rewrite Hv. by apply auth_run_snoc.
  - rewrite Hd. simpl. split; fields; [by apply session_wf|by apply Hextend|done].
  - rewrite (proj2 (Nat.eqb_neq _ _)) by lia. split; fields; [done|done|].
    split_and!; [done|simpl; lia|exact (proj1 (tx_commit_spec s Hws))|done|done].
  - rewrite Hd, aborted by done. split; fields; [by apply rolled_back_wf| |done]. by rewrite <- Hsv in Hh.
  - rewrite (proj2 (Nat.eqb_neq _ _)) by lia. destruct (tx_abort_spec s Hws) as [Hw _]. split; fields; [done|done|].
    assert ((pg_depth s =? 1)%nat = false) as Hn by (apply Nat.eqb_neq; lia).
    split_and!; [done|simpl; lia|done|done|]. unfold view. simpl. unfold Postgres.view. simpl. by rewrite Hn.
  - split; fields; [by apply rolled_back_wf| |done]. by rewrite <- Hsv in Hh.
  - destruct (run_op_refines o (Postgres.session db) Hdb (Hok o eq_refl)) as (Ha & Hw & Hv).
    split; fields; [by apply session_wf| |done]. apply Hextend. simpl in Hv. unfold Postgres.view in Hv. simpl in Hv. rewrite Hv.
    constructor; [done|constructor].
  - by split.
Qed.

Lemma execution_invariant db tr cl : store_wf (Postgres.session db) -> execution (mk_cluster db None) tr cl -> ops_ok tr ->
  invariant (SQLite.tables_view db) cl (progress_of tr).
Proof.
  intros Hwf Hexec. induction Hexec as [|tr cl1 e cl2 Hexec IH Hstep]; intros Hok; [by split; [|constructor|]|].
  apply Forall_app in Hok as [Hok He]. apply Forall_cons in He as [He _]. unfold progress_of. rewrite foldl_app. simpl.
  eapply step_invariant; eauto.
Qed.

(** C11. Transactions of replicas are serial. Whatever replicas share a database and however their
    transactions, the ones that abort, the connections that break and the operations outside any
    transaction are interleaved, the answers in the transactions that committed are the ones the abstract
    state gives when these are run one after another in the order of their commits, and that run leads to
    what the database holds; what did not commit left no trace. *)
Theorem replicas_serialize (db : tables) (tr : list event) (cl : cluster) :
  store_wf (Postgres.session db) -> execution (mk_cluster db None) tr cl -> ops_ok tr ->
  auth_run jsonb (view (Postgres.session db)) (concat (committed tr)) (view (Postgres.session (cl_db cl)))
  /\ store_wf (Postgres.session (cl_db cl)).
Proof. intros Hwf Hexec Hok. by destruct (execution_invariant db tr cl Hwf Hexec Hok). Qed.

(** A permit is used once, whichever host serves the request: of two claims of one decision in
    transactions that committed, the later one is refused. *)
Theorem cluster_single_use (db : tables) (tr : list event) (cl : cluster) (d : string) (i j : nat) (e e' : Z) (x y : answer) :
  store_wf (Postgres.session db) -> execution (mk_cluster db None) tr cl -> ops_ok tr -> (i < j)%nat ->
  concat (committed tr) !! i = Some (OpClaim d e, x) -> concat (committed tr) !! j = Some (OpClaim d e', y) ->
  y = ABool false.
Proof.
  intros Hwf Hexec Hok. eapply auth_run_single_use. by destruct (execution_invariant db tr cl Hwf Hexec Hok).
Qed.

(** C12. A call limit holds across hosts: when every transaction that counts a call of an agent's action
    first reads, in that transaction, that fewer calls than the limit were made, then no interleaving of
    the replicas counts more calls than the limit. *)
Theorem cluster_call_limit (db : tables) (tr : list event) (cl : cluster) (agent action : string) (limit : Z) :
  store_wf (Postgres.session db) -> execution (mk_cluster db None) tr cl -> ops_ok tr ->
  Forall (fun b => guarded agent action limit None b = true) (committed tr) ->
  calls agent action (Postgres.session db) <= limit -> calls agent action (Postgres.session (cl_db cl)) <= limit.
Proof.
  intros Hwf Hexec Hok Hg Hle. destruct (execution_invariant db tr cl Hwf Hexec Hok) as [Hdb Hrun _].
  rewrite calls_spec in * by done. by eapply guarded_blocks.
Qed.
End serialization.

Lemma execution_cons `{PostgresServer} cl e cl1 tr cl2 : step cl e cl1 -> execution cl1 tr cl2 -> execution cl (e :: tr) cl2.
Proof.
  intros Hs He. induction He as [|tr cl2 e' cl3 He IH Hs'].
  - change [e] with ([] ++ [e]). by eapply execution_snoc; [constructor|].
  - rewrite app_comm_cons. by eapply execution_snoc.
Qed.

Module Witnesses.

#[local] Instance server : PostgresServer.
Proof.
  refine {| jsonb := copy_dict; collation := fun a b => match String.compare a b with Gt => false | _ => true end;
            returned := @rev _ |}.
  - intros k r _. apply dmem_copy.
  - intros k s r _ _. rewrite dget_copy. destruct (dget k r) as [[]|]; simpl; split; congruence.
  - intros l. symmetry. apply Permutation_rev.
Defined.

(** Replica 1 calls within a limit of one; replica 2 claims a grant and is cut off, claims it again, and
    replica 1 replays it. *)
Definition story : list event :=
  [Begin 1; Op 1 (OpCalls "a" "x") (AInt 0); Read 2 (OpCalls "a" "x") (AInt 0); Begin 1; Op 1 (OpAddCall "a" "x") AUnit;
   Commit 1; Commit 1; Begin 2; Op 2 (OpClaim "d" 5) (ABool true); Lost 2; Auto 2 (OpClaim "d" 5) (ABool true);
   Begin 1; Op 1 (OpClaim "d" 5) (ABool false); Op 1 (OpAddStep "c") AUnit; Abort 1; Auto 1 (OpClaim "d" 5) (ABool false)].

Definition start : tables := pg_tables Postgres.init.
Definition finish : tables :=
  mk_tables ∅ {[("a", "x") := 1]} {["d" := 5]} [] [] 1 ∅.

Lemma start_wf : store_wf (Postgres.session start).
Proof. exact Postgres.pg_wf_init. Qed.

Lemma story_ok : ops_ok story.
Proof. unfold ops_ok, story. repeat (apply Forall_cons_2; [intros o [= <-]; exact I || intros o Ho; discriminate Ho|]). apply Forall_nil_2. Qed.

Lemma story_runs : execution (mk_cluster start None) story (mk_cluster finish None).
Proof.
  unfold story.
  repeat (eapply execution_cons; [first
    [ apply step_begin | apply step_nested | apply (step_op _ 1) | apply (step_op _ 2) | apply step_commit; reflexivity
    | apply step_commit_nested; simpl; lia | apply step_abort; reflexivity | apply step_lost | apply step_auto
    | apply step_read; [reflexivity|discriminate] ]|]).
  apply execution_nil.
Qed.

Lemma committed_story : committed story =
  [[(OpCalls "a" "x", AInt 0); (OpAddCall "a" "x", AUnit)]; [(OpClaim "d" 5, ABool true)]; [(OpClaim "d" 5, ABool false)]].
Proof. reflexivity. Qed.

Lemma replicas_serialize_witness :
  auth_run jsonb (view (Postgres.session start)) (concat (committed story)) (view (Postgres.session finish)).
Proof. exact (proj1 (replicas_serialize start story (mk_cluster finish None) start_wf story_runs story_ok)). Defined.

Lemma cluster_single_use_witness : concat (committed story) !! 3%nat = Some (OpClaim "d" 5, ABool false) /\ ABool false = ABool false.
Proof.
  split; [reflexivity|].
  apply (cluster_single_use start story (mk_cluster finish None) "d" 2 3 5 5 (ABool true) (ABool false) start_wf story_runs story_ok);
    [lia|reflexivity|reflexivity].
Defined.

Lemma cluster_call_limit_witness : calls "a" "x" (Postgres.session finish) <= 1.
Proof.
  apply (cluster_call_limit start story (mk_cluster finish None) "a" "x" 1 start_wf story_runs story_ok).
  - rewrite committed_story. repeat constructor.
  - vm_compute. discriminate.
Defined.
End Witnesses.
