(* ===== verification/Base64.v ===== *)
(** * Base64url without padding

    The encoding of tokens and certificate thumbprints: [_b64e] and [_b64d] of src/capgate/identity.py,
    with the parts of the base64 module they use, on groups of three bytes and four digits. The decoder
    is as lenient as Python's: the bits a last, incomplete group has left over are ignored. *)

From S2P Require Import Prelude.

Definition in_alphabet (c : ascii) : bool := is_alnum c || is_char "-" c || is_char "_" c.

(** The digit of a 6-bit value, and the value of a digit. *)
Definition b64_digit (n : Z) : ascii :=
  if n <? 26 then char_of (65 + n)
  else if n <? 52 then char_of (71 + n)
  else if n <? 62 then char_of (n - 4)
  else if n =? 62 then "-"%char
  else "_"%char.
Definition b64_value (c : ascii) : Z :=
  if is_upper c then byte_of c - 65
  else if is_lower c then byte_of c - 71
  else if is_digit c then byte_of c + 4
  else if is_char "-" c then 62
  else 63.

(** [base64.urlsafe_b64encode(data).rstrip(b"=").decode()] *)
Fixpoint _b64e (data : string) : string :=
  match data with
  | EmptyString => EmptyString
  | String a EmptyString =>
      let n := byte_of a * 16 in
      String (b64_digit (n / 64)) (chr1 (b64_digit (n mod 64)))
  | String a (String b EmptyString) =>
      let n := (byte_of a * 256 + byte_of b) * 4 in
      String (b64_digit (n / 4096)) (String (b64_digit (n / 64 mod 64)) (chr1 (b64_digit (n mod 64))))
  | String a (String b (String c data')) =>
      let n := byte_of a * 65536 + byte_of b * 256 + byte_of c in
      String (b64_digit (n / 262144)) (String (b64_digit (n / 4096 mod 64))
        (String (b64_digit (n / 64 mod 64)) (String (b64_digit (n mod 64)) (_b64e data'))))
  end.

(** [base64.urlsafe_b64decode] of digits, padded to a multiple of four; one digit in a last group is an
    error. *)
Fixpoint b64_groups (text : string) : option string :=
  match text with
  | EmptyString => Some EmptyString
  | String _ EmptyString => None
  | String a (String b EmptyString) => Some (chr1 (char_of ((b64_value a * 64 + b64_value b) / 16)))
  | String a (String b (String c EmptyString)) =>
      let n := (b64_value a * 4096 + b64_value b * 64 + b64_value c) / 4 in
      Some (String (char_of (n / 256)) (chr1 (char_of (n mod 256))))
  | String a (String b (String c (String d text'))) =>
      let n := b64_value a * 262144 + b64_value b * 4096 + b64_value c * 64 + b64_value d in
      rest ← b64_groups text';
      Some (String (char_of (n / 65536)) (String (char_of (n / 256 mod 256)) (String (char_of (n mod 256)) rest)))
  end.
Definition _b64d (text : string) : result string :=
  if s_is_empty text || negb (s_forall in_alphabet text) then Raise (ValueError "not base64url")
  else match b64_groups text with
       | Some data => Ok data
       | None => Raise (ValueError "Invalid base64-encoded string: number of data characters cannot be 1 more than a multiple of 4")
       end.

(** ** Digits *)

Lemma b64_digit_value n : 0 <= n < 64 -> b64_value (b64_digit n) = n /\ in_alphabet (b64_digit n) = true.
Proof.
  intros Hn. assert (n ∈ seqZ 0 64) as Hin by (apply elem_of_seqZ; lia).
  assert (forallb (fun m => (b64_value (b64_digit m) =? m) && in_alphabet (b64_digit m)) (seqZ 0 64) = true) as Hall
    by by vm_compute.
  rewrite forallb_forall in Hall. apply list_elem_of_In, Hall in Hin. bools. split; [lia|done].
Qed.

Lemma b64_value_digit n : 0 <= n < 64 -> b64_value (b64_digit n) = n.
Proof. apply b64_digit_value. Qed.

Lemma b64_digit_alphabet n : 0 <= n < 64 -> in_alphabet (b64_digit n) = true.
Proof. apply b64_digit_value. Qed.

Lemma char_of_byte_of c z : z = byte_of c -> char_of z = c.
Proof. intros ->. unfold char_of, byte_of. by rewrite N2Z.id, ascii_N_embedding. Qed.

(** Induction three bytes at a time. *)
Lemma bytes3_ind (P : string -> Prop) :
  P EmptyString -> (forall a, P (chr1 a)) -> (forall a b, P (String a (chr1 b))) ->
  (forall a b c s, P s -> P (String a (String b (String c s)))) -> forall s, P s.
Proof.
  intros H0 H1 H2 H3. fix IH 1. intros [|a [|b [|c s]]]; [apply H0|apply H1|apply H2|apply H3, IH].
Qed.

Ltac byte_bounds :=
  repeat match goal with
  | c : ascii |- _ =>
      lazymatch goal with
      | _ : 0 <= byte_of c < 256 |- _ => fail
      | _ => pose proof (byte_of_bound c)
      end
  end.

(** ** Round trip *)

Lemma b64_groups_b64e data : b64_groups (_b64e data) = Some data.
Proof.
  induction data as [|a|a b|a b c data IH] using bytes3_ind; [done|..]; byte_bounds;
    cbn [_b64e b64_groups chr1]; rewrite ?b64_value_digit, ?IH by (Z.div_mod_to_equations; lia);
    cbn; unfold chr1; repeat f_equal; apply char_of_byte_of; Z.div_mod_to_equations; lia.
Qed.

Lemma b64e_alphabet data : s_forall in_alphabet (_b64e data) = true.
Proof.
  induction data as [|a|a b|a b c data IH] using bytes3_ind; [done|..]; byte_bounds;
    cbn [_b64e s_forall chr1]; rewrite !b64_digit_alphabet by (Z.div_mod_to_equations; lia); done.
Qed.

Lemma b64e_is_empty data : s_is_empty (_b64e data) = s_is_empty data.
Proof. by destruct data as [|a [|b [|c data]]]. Qed.

(** What is encoded decodes to itself, unless it is empty, which the decoder refuses. *)
Lemma b64d_b64e data : data <> EmptyString -> _b64d (_b64e data) = Ok data.
Proof.
  intros Hne. unfold _b64d. rewrite b64e_is_empty, b64e_alphabet, b64_groups_b64e. by destruct data.
Qed.

Lemma b64e_inj data data' : _b64e data = _b64e data' -> data = data'.
Proof. intros Heq. apply (f_equal b64_groups) in Heq. rewrite !b64_groups_b64e in Heq. congruence. Qed.

(** No digit is a dot, so that an encoding survives the splitting of a token into its parts. *)
Lemma b64e_no_dot data : s_forall (fun c => negb (is_char "." c)) (_b64e data) = true.
Proof.
  eapply s_forall_impl; [|apply b64e_alphabet]. intros c Hc. apply negb_true_iff. unfold is_char.
  destruct (Ascii.eqb_spec "." c) as [<-|]; [done|done].
Qed.
