(* ===== verification/Workload.v ===== *)
(** * Workload identity

    src/capgate/workload.py: SPIFFE ids, the thumbprint of a certificate, the identity a transport
    presents, and the binding a token carries. Certificates are parsed by the ssl module and by the
    cryptography package: what they yield is a parameter. *)

From S2P Require Import Prelude Regex PyVal Externals Base64.

Definition is_domain_char (c : ascii) : bool :=
  is_lower c || is_digit c || is_char "." c || is_char "_" c || is_char "-" c.
Definition is_segment_char (c : ascii) : bool := is_alnum c || is_char "." c || is_char "_" c || is_char "-" c.
Definition _TRUST_DOMAIN : re := Cat (Chr is_domain_char) (up_to 254 (Chr is_domain_char)).
Definition _PATH_SEGMENT : re := plus (Chr is_segment_char).
Definition CONFIRMATION_KEY : string := "x5t#S256".

(** ** SPIFFE ids *)

Record SpiffeId := mk_spiffe {
  trust_domain : string;
  path : string;               (* begins with a slash, or empty for a bare trust-domain id *)
}.

Definition spiffe_str (i : SpiffeId) : string := "spiffe://" +:+ trust_domain i +:+ path i.
Definition in_trust_domain (domain : string) (i : SpiffeId) : bool := String.eqb (trust_domain i) domain.

Definition valid_segment (seg : string) : bool :=
  match_dollar _PATH_SEGMENT seg && negb (str_in seg ["."; ".."]).

Definition parse_spiffe_id (value : pyval) : result SpiffeId :=
  match value with
  | PStr text =>
      match strip_prefix "spiffe://" text with
      | None => Raise (WorkloadError ("not a SPIFFE ID: " +:+ py_repr value))
      | Some rest =>
          if (2048 <? py_len text) || s_exists (is_char "#") text || s_exists (is_char "?") text
          then Raise (WorkloadError ("invalid SPIFFE ID: " +:+ py_repr value))
          else
            match partition_on "/" rest with
            | (domain, slash, segments) =>
                if negb (match_dollar _TRUST_DOMAIN domain)
                then Raise (WorkloadError ("invalid SPIFFE trust domain: " +:+ repr_str domain))
                else if slash then
                  if forallb valid_segment (split_on "/" segments)
                  then Ok (mk_spiffe domain ("/" +:+ segments))
                  else Raise (WorkloadError ("invalid SPIFFE path in " +:+ py_repr value))
                else Ok (mk_spiffe domain EmptyString)
            end
      end
  | _ => Raise (WorkloadError ("not a SPIFFE ID: " +:+ py_repr value))
  end.

(** ** Certificates and presented identities *)

(** The form of [ssl.getpeercert()]: the alternative names are pairs of a kind and a value. *)
Definition peercert : Type := dict (list (string * string)).

Definition thumbprint_from_der `{Externals} (der : string) : string := _b64e (sha256 der).

Definition spiffe_id_from_san_uris (uris : list string) : result (option string) :=
  match List.filter (starts_with "spiffe://") uris with
  | [] => Ok None
  | [uri] => let? _ := parse_spiffe_id (PStr uri) in Ok (Some uri)
  | several => Raise (WorkloadError ("certificate presents multiple SPIFFE IDs: " +:+ repr_strs several))
  end.

Definition san_uris_from_peercert (cert : option peercert) : list string :=
  match cert with
  | None => []
  | Some d => map snd (List.filter (fun kv => String.eqb kv.1 "URI") (default [] (dget "subjectAltName" d)))
  end.

Record WorkloadIdentity := mk_identity {
  wi_spiffe_id : option string;
  wi_thumbprint : option string;
  wi_verified : bool;
}.

Definition some {A} (o : option A) : bool := match o with Some _ => true | None => false end.

Definition present (i : WorkloadIdentity) : bool := wi_verified i && (some (wi_spiffe_id i) || some (wi_thumbprint i)).

Definition from_peercert `{Externals} (cert : option peercert) (der : option string) : result WorkloadIdentity :=
  match der with
  | None | Some EmptyString => Ok (mk_identity None None false)
  | Some bytes =>
      let? spiffe := spiffe_id_from_san_uris (san_uris_from_peercert cert) in
      Ok (mk_identity spiffe (Some (thumbprint_from_der bytes)) true)
  end.

(** ** Bindings *)

Record WorkloadBinding := mk_binding {
  wb_spiffe_id : option string;
  wb_thumbprint : option string;
}.

Definition THUMBPRINT : re := times 43 (Chr in_alphabet).

(** The constructor with its [__post_init__]. *)
Definition make_binding (spiffe thumbprint : option string) : result WorkloadBinding :=
  require (some spiffe || some thumbprint)
    (WorkloadError "a workload binding needs a SPIFFE ID, a certificate thumbprint, or both") ;?
  match spiffe with Some uri => let? _ := parse_spiffe_id (PStr uri) in Ok tt | None => Ok tt end ;?
  require (match thumbprint with Some t => fullmatch THUMBPRINT t | None => true end)
    (WorkloadError "thumbprint must be a base64url SHA-256 (43 chars, no padding)") ;?
  Ok (mk_binding spiffe thumbprint).

(** [peercert_from_der] is [_peercert_from_der], the cryptography package's reading of a certificate. *)
Definition from_cert_der `{Externals} (peercert_from_der : string -> peercert) (der : string) (include_spiffe : bool) :
    result WorkloadBinding :=
  let? spiffe :=
    if include_spiffe then spiffe_id_from_san_uris (san_uris_from_peercert (Some (peercert_from_der der)))
    else Ok None in
  make_binding spiffe (Some (thumbprint_from_der der)).

Definition claims (b : WorkloadBinding) : dict pyval :=
  match wb_thumbprint b with Some t => [("cnf", PDict [(CONFIRMATION_KEY, PStr t)])] | None => [] end
  ++ match wb_spiffe_id b with Some uri => [("wl", PStr uri)] | None => [] end.

Definition binding_from_claims (payload : dict pyval) : result (option WorkloadBinding) :=
  let thumbprint := match pget "cnf" payload with PDict cnf => pget CONFIRMATION_KEY cnf | _ => PNone end in
  let spiffe := pget "wl" payload in
  if is_none thumbprint && is_none spiffe then Ok None
  else let? b := make_binding (as_str spiffe) (as_str thumbprint) in Ok (Some b).

Definition differs (wanted presented : option string) : bool :=
  match wanted with
  | None => false
  | Some _ => negb (bool_decide (wanted = presented))
  end.

(** A reason to refuse, or [None]. *)
Definition check_binding (b : WorkloadBinding) (presented : option WorkloadIdentity) : option string :=
  match presented with
  | None => Some "TOKEN_BINDING_REQUIRED"
  | Some i =>
      if negb (present i) then Some "TOKEN_BINDING_REQUIRED"
      else if differs (wb_thumbprint b) (wi_thumbprint i) then Some "TOKEN_BINDING_MISMATCH"
      else if differs (wb_spiffe_id b) (wi_spiffe_id i) then Some "TOKEN_BINDING_MISMATCH"
      else None
  end.

(** ** SPIFFE ids *)

Lemma up_to_over p n r : re_over p r -> re_over p (up_to n r).
Proof. intros Hr. induction n as [|n IH]; simpl; auto. Qed.

Definition domain_or_newline (c : ascii) : bool := is_domain_char c || is_char newline c.
Definition segment_or_newline (c : ascii) : bool := is_segment_char c || is_char newline c.

Lemma trust_domain_chars s : match_dollar _TRUST_DOMAIN s = true -> s_forall domain_or_newline s = true.
Proof.
  apply match_dollar_over; [|done]. unfold domain_or_newline. split; [|apply up_to_over]; simpl; by intros c ->.
Qed.

Lemma valid_segment_chars s : valid_segment s = true -> s_forall segment_or_newline s = true.
Proof.
  intros [Hs _]%andb_true_iff. revert Hs. apply match_dollar_over; [|done].
  unfold segment_or_newline. split; simpl; by intros c ->.
Qed.

(** None of the characters that delimit an id occurs in its parts. *)
Lemma delimiter_free (p : ascii -> bool) (d : ascii) s : p d = false -> s_forall p s = true -> lacks d s = true.
Proof.
  intros Hd. apply s_forall_impl. intros c Hc. apply negb_true_iff. unfold is_char.
  destruct (Ascii.eqb_spec d c) as [<-|]; congruence.
Qed.

Lemma forallb_Forall {A} (p : A -> bool) l : forallb p l = true <-> Forall (fun x => p x = true) l.
Proof.
  rewrite forallb_forall, Forall_forall. split; intros H x Hx; by apply H, list_elem_of_In.
Qed.

Lemma s_exists_lacks c s : s_exists (is_char c) s = negb (lacks c s).
Proof. done. Qed.

Definition valid_path (p : string) : Prop :=
  p = EmptyString \/ exists segs, segs <> [] /\ p = "/" +:+ s_concat "/" segs /\ Forall (fun seg => valid_segment seg = true) segs.

Lemma path_lacks c p : valid_path p -> segment_or_newline c = false -> Ascii.eqb c "/" = false -> lacks c p = true.
Proof.
  intros [->|(segs & _ & -> & Hsegs)] Hc Hslash; [done|]. unfold lacks. rewrite s_forall_app. simpl.
  unfold is_char at 1. rewrite Hslash. simpl. induction Hsegs as [|seg segs Hseg Hsegs IH]; [done|].
  apply valid_segment_chars, (delimiter_free _ _ _ Hc) in Hseg. destruct segs as [|seg' segs]; [done|].
  rewrite s_concat_cons, !s_forall_app, IH. unfold lacks in Hseg. rewrite Hseg. simpl. unfold is_char. by rewrite Hslash.
Qed.

Lemma spiffe_str_lacks c i : match_dollar _TRUST_DOMAIN (trust_domain i) = true -> valid_path (path i) ->
  lacks c "spiffe://" = true -> domain_or_newline c = false -> segment_or_newline c = false -> Ascii.eqb c "/" = false ->
  lacks c (spiffe_str i) = true.
Proof.
  intros Hd Hp Hscheme Hdc Hsc Hslash. unfold spiffe_str, lacks. rewrite !s_forall_app. fold (lacks c "spiffe://").
  rewrite Hscheme. apply trust_domain_chars, (delimiter_free _ _ _ Hdc) in Hd. unfold lacks in Hd. rewrite Hd.
  by apply (path_lacks c _ Hp Hsc Hslash).
Qed.

(** The two ends of an id after its scheme. *)
Lemma partition_spiffe i : match_dollar _TRUST_DOMAIN (trust_domain i) = true -> valid_path (path i) ->
  partition_on "/" (trust_domain i +:+ path i)
  = (trust_domain i, negb (s_is_empty (path i)), default EmptyString (strip_prefix "/" (path i))).
Proof.
  intros Hd Hp. apply trust_domain_chars, (delimiter_free _ "/") in Hd; [|done]. destruct Hp as [->|(segs & _ & -> & _)].
  - rewrite s_app_nil_r. by apply partition_on_lacks.
  - rewrite s_app_cons, s_app_nil_l. by apply partition_on_app.
Qed.

Lemma valid_segments_lack segs : Forall (fun seg => valid_segment seg = true) segs -> Forall (fun w => lacks "/" w = true) segs.
Proof.
  intros Hsegs. eapply Forall_impl; [exact Hsegs|]. intros seg Hseg.
  by apply (delimiter_free segment_or_newline), valid_segment_chars.
Qed.

(** Parsing a SPIFFE id is exact: a text parses to an id if and only if it is the id written out,
    within 2048 characters, its trust domain matching the pattern and its path empty or made of valid
    segments - neither empty nor dot segments; so the text is read back from what it parses to. *)
Theorem spiffe_id_exact (v : string) (i : SpiffeId) : parse_spiffe_id (PStr v) = Ok i <->
  spiffe_str i = v /\ py_len v <= 2048 /\ match_dollar _TRUST_DOMAIN (trust_domain i) = true /\ valid_path (path i).
Proof.
  split.
  - unfold parse_spiffe_id. destruct (strip_prefix "spiffe://" v) as [rest|] eqn:Ev; [|done].
    apply strip_prefix_spec in Ev. destruct (2048 <? py_len v) eqn:El; [done|].
    destruct (_ || _); [done|]. destruct (partition_on "/" rest) as [[d b] z] eqn:Ep.
    apply partition_on_spec in Ep as [_ Hrest]. destruct (match_dollar _TRUST_DOMAIN d) eqn:Ed; [|done]. simpl.
    destruct b; [destruct (forallb valid_segment (split_on "/" z)) eqn:Es; [|done]|]; intros [= <-];
      subst rest v; (split_and!; [|lia|exact Ed|]); unfold spiffe_str; simpl trust_domain; simpl path; rewrite ?s_app_nil_r; try done.
    + right. exists (split_on "/" z). split_and!; [apply split_on_not_nil|f_equal; symmetry; apply (s_concat_split "/")|].
      by apply forallb_Forall.
    + by left.
  - intros (<- & Hlen & Hd & Hp). unfold parse_spiffe_id.
    rewrite !s_exists_lacks, !spiffe_str_lacks by done.
    replace (2048 <? py_len (spiffe_str i)) with false by lia.
    unfold spiffe_str at 1. rewrite strip_prefix_app, partition_spiffe by done. rewrite Hd. simpl.
    destruct i as [d p]. simpl in *. destruct Hp as [->|(segs & Hne & -> & Hsegs)]; [done|]. simpl.
    pose proof (split_on_concat "/" segs Hne (valid_segments_lack _ Hsegs)) as Hsplit. unfold chr1 in Hsplit.
    rewrite s_app_nil_l, Hsplit.
    by apply forallb_Forall in Hsegs as ->.
Qed.

(** ** Bindings *)

Lemma make_binding_ok spiffe thumbprint b : make_binding spiffe thumbprint = Ok b ->
  b = mk_binding spiffe thumbprint /\ (is_Some spiffe \/ is_Some thumbprint).
Proof.
  unfold make_binding. intros Hb. inv_ok Hb. injection Hb as <-. split; [done|].
  destruct spiffe, thumbprint; eauto; done.
Qed.

(** Stamped into a payload that says nothing of workloads, a binding is read back. *)
Lemma binding_round_trip b payload : make_binding (wb_spiffe_id b) (wb_thumbprint b) = Ok b ->
  dget "cnf" payload = None -> dget "wl" payload = None ->
  binding_from_claims (payload ++ claims b) = Ok (Some b).
Proof.
  assert (forall k (d e : dict pyval), dget k d = None -> dget k (d ++ e) = dget k e) as Happ.
  { intros k d e. induction d as [|[k' v] d IH]; [done|]. simpl. by destruct (String.eqb k k'). }
  intros Hb Hcnf Hwl. unfold binding_from_claims, pget. rewrite !Happ by done.
  destruct b as [[uri|] [t|]]; simpl in Hb |- *; try (by rewrite Hb); by apply make_binding_ok in Hb as [_ [[? ?]|[? ?]]].
Qed.

(** A payload with either claim yields a binding or is refused: a malformed claim never unbinds it. *)
Lemma binding_not_dropped payload : pget "wl" payload <> PNone -> binding_from_claims payload <> Ok None.
Proof.
  intros Hwl. unfold binding_from_claims. destruct (pget "wl" payload); [done|..];
    simpl; rewrite ?andb_false_r; by destruct (make_binding _ _).
Qed.

Definition agrees (wanted presented : option string) : Prop := forall x, wanted = Some x -> presented = Some x.

Lemma differs_false wanted presented : differs wanted presented = false <-> agrees wanted presented.
Proof.
  unfold differs, agrees. destruct wanted as [x|]; [|by split]. rewrite negb_false_iff, bool_decide_eq_true.
  split; [intros <- y; done|intros Hx; by rewrite (Hx x)].
Qed.

(** A binding is satisfied by exactly the verified identities that agree with everything it names. *)
Lemma check_binding_spec b p : check_binding b p = None <->
  exists i, p = Some i /\ present i = true
    /\ agrees (wb_thumbprint b) (wi_thumbprint i) /\ agrees (wb_spiffe_id b) (wi_spiffe_id i).
Proof.
  unfold check_binding. destruct p as [i|]; [|by split; [|intros (i & [=] & _)]].
  split.
  - destruct (present i) eqn:Ep; [|done]. simpl.
    destruct (differs (wb_thumbprint b) _) eqn:Et; [done|]. destruct (differs (wb_spiffe_id b) _) eqn:Es; [done|].
    apply differs_false in Et, Es. eauto.
  - intros (j & [= <-] & -> & Ht%differs_false & Hs%differs_false). simpl. by rewrite Ht, Hs.
Qed.

Module Witnesses.
Definition agent_id : SpiffeId := mk_spiffe "example.org" "/agents/a".
Lemma spiffe_id_exact_witness : parse_spiffe_id (PStr "spiffe://example.org/agents/a") = Ok agent_id.
Proof.
  apply spiffe_id_exact. split_and!; [reflexivity|vm_compute; discriminate|vm_compute; reflexivity|].
  right. exists ["agents"; "a"]. split_and!; [discriminate|reflexivity|]. repeat constructor.
Defined.

(** The dollar sign of the pattern admits a newline, after the trust domain or a segment. *)
Example newline_admitted :
  parse_spiffe_id (PStr ("spiffe://example.org" +:+ chr1 newline)) = Ok (mk_spiffe ("example.org" +:+ chr1 newline) EmptyString).
Proof. vm_compute. reflexivity. Qed.
Example dot_segment_refused : is_ok (parse_spiffe_id (PStr "spiffe://example.org/agents/../b")) = false.
Proof. vm_compute. reflexivity. Qed.
End Witnesses.
