(* ===== verification/Identity.v ===== *)
(** * Tokens

    src/capgate/identity.py: the credentials of the HTTP boundary. A token is [ah1.kid.body.signature],
    its body the base64url of a JSON payload and its signature the HMAC of everything before it under
    the key [kid] of a keyring that a running process reloads when its file changes.

    Times are microseconds; the clock, the keyring file and the random bytes are arguments. *)

From S2P Require Import Prelude Datetime Regex PyVal Externals Json Request Contract State Base64 Workload.

Definition PREFIX : string := "ah1".
Definition ROLES : list string := ["agent"; "approver"].

Record Claims := mk_claims {
  sub : string;
  role : string;
  iat : Z;
  exp : Z;
  jti : string;
  kid : string;
  binding : option WorkloadBinding;
}.
Definition bound (c : Claims) : bool := some (binding c).

(** ** JSON in ASCII

    [json.dumps] without [ensure_ascii=False]: the text of [print] with every character that is not
    printable ASCII written as the UTF-16 escapes of its code point. *)

Definition unit_escape (n : Z) : string := String backslash (String "u" (hex2 (n / 256) +:+ hex2 (n mod 256))).
Definition escape_point (n : Z) : string :=
  if n <? 65536 then unit_escape n
  else unit_escape (55296 + (n - 65536) / 1024) +:+ unit_escape (56320 + (n - 65536) mod 1024).
Definition low6 (c : ascii) : Z := byte_of c mod 64.
Fixpoint ascii_escape (s : string) : string :=
  match s with
  | EmptyString => EmptyString
  | String a s1 =>
      let n := byte_of a in
      if n <? 127 then String a (ascii_escape s1)
      else if n <? 192 then unit_escape n +:+ ascii_escape s1
      else match s1 with
           | String b s2 =>
               if n <? 224 then escape_point (n mod 32 * 64 + low6 b) +:+ ascii_escape s2
               else match s2 with
                    | String c s3 =>
                        if n <? 240 then escape_point (n mod 16 * 4096 + low6 b * 64 + low6 c) +:+ ascii_escape s3
                        else match s3 with
                             | String d s4 =>
                                 escape_point (n mod 8 * 262144 + low6 b * 4096 + low6 c * 64 + low6 d) +:+ ascii_escape s4
                             | EmptyString => EmptyString
                             end
                    | EmptyString => EmptyString
                    end
           | EmptyString => EmptyString
           end
  end.
(** [json.dumps(v, separators=(",", ":"), sort_keys=True)] *)
Definition dumps_sorted (v : pyval) : string := ascii_escape (canonical v).

Section tokens.
Context `{Externals}.

(** [json.loads] of bytes, and with a [parse_constant] that raises. *)
Definition json_bytes_with (constants : bool) (data : string) : result pyval :=
  let text := if is_ascii data && s_forall (fun c => 0 <? byte_of c) data then Some data else decode_bytes data in
  match text ≫= loads_with constants with
  | Some v => Ok v
  | None => Raise (ValueError "Expecting value")
  end.

Definition json_bytes (data : string) : result pyval := json_bytes_with true data.
Definition json_bytes_strict (data : string) : result pyval := json_bytes_with false data.

(** [int(v)] *)
Definition py_int (v : pyval) : result Z :=
  match v with
  | PInt z => Ok z
  | PBool b => Ok (if b then 1 else 0)
  | PFloat (Finite r) => Ok (trunc_float r)
  | PFloat (NonFinite r) =>
      if String.eqb r "nan" then Raise (ValueError "cannot convert float NaN to integer")
      else Raise (OverflowError "cannot convert float infinity to integer")
  | PStr s =>
      match read_int s with
      | Some z => Ok z
      | None => Raise (ValueError ("invalid literal for int() with base 10: " +:+ repr_str s))
      end
  | _ => Raise (TypeError "int() argument must be a string, a bytes-like object or a real number")
  end.

(** [d[k]] *)
Definition get_item (k : string) (d : dict pyval) : result pyval :=
  match dget k d with Some v => Ok v | None => Raise (KeyError k) end.

(** ** Keyrings *)

Record Keyring := mk_keyring { keys : dict string; active : string }.

Definition make_keyring (ks : dict string) (a : string) : result Keyring :=
  require (dmem a ks) (ValueError "active key is not in the keyring") ;?
  require (negb (existsb (fun k => (String.length k <? 32)%nat) (dvalues ks)))
    (ValueError "token keys must be at least 32 bytes") ;?
  Ok (mk_keyring ks a).

(** A key that is not a text is refused: the falsy ones as not base64url, the others where they are
    searched or padded. *)
Definition decode_key (v : pyval) : result string :=
  match v with
  | PStr text => _b64d text
  | _ => if truthy v then Raise (TypeError "not base64url text") else Raise (ValueError "not base64url")
  end.

Definition load (text : string) : result Keyring :=
  match loads text with
  | Some (PDict data) =>
      let? entries := get_item "keys" data in
      match entries with
      | PDict d =>
          let? ks := traverse (fun '(k, v) => let? key := decode_key v in Ok (k, key)) d in
          let? a := get_item "active" data in
          match a with
          | PStr a => make_keyring ks a
          | PList _ | PDict _ => Raise (TypeError "unhashable type")
          | _ => Raise (ValueError "active key is not in the keyring")
          end
      | _ => Raise (AttributeError "object has no attribute 'items'")
      end
  | Some _ => Raise (TypeError "object is not subscriptable by a string")
  | None => Raise (ValueError "Expecting value")
  end.

(** [json.dumps(..., indent=2)] of the two members. *)
Definition json_line (indent : nat) (text : string) : string :=
  String newline (Nat.iter indent (String " ") text).
Definition key_line (kv : string * string) : string :=
  json_line 4 (ascii_escape (quote kv.1) +:+ ": " +:+ quote (_b64e kv.2)).
Definition to_json (k : Keyring) : string :=
  "{" +:+ json_line 2 (quote "active" +:+ ": " +:+ ascii_escape (quote (active k)) +:+ ",")
  +:+ json_line 2 (quote "keys" +:+ ": {" +:+ s_concat "," (map key_line (keys k)) +:+ json_line 2 "}")
  +:+ json_line 0 "}".

(** [time.strftime("k%Y%m%d")] is an argument, as are the random bytes. *)
Definition _new_kid (day entropy : string) : string := day +:+ "-" +:+ hexdigest entropy.

Definition generate (day entropy key : string) : result Keyring :=
  let i := _new_kid day entropy in make_keyring [(i, key)] i.
Definition rotate (day entropy key : string) (k : Keyring) : string * Keyring :=
  let i := _new_kid day entropy in (i, mk_keyring (dset i key (keys k)) i).
Definition retire (i : string) (k : Keyring) : result Keyring :=
  if String.eqb i (active k) then Raise (ValueError "cannot retire the active key; rotate first")
  else if dmem i (keys k) then Ok (mk_keyring (ddel i (keys k)) (active k))
  else Raise (ValueError ("unknown key " +:+ repr_str i)).
End tokens.

(** ** The authority *)

(** The keyring file as it is read: its stamp (modification time and size), then its text. *)
Record key_file := { file_stamp : result (Z * Z); file_text : result string }.

(** An authority with a fixed keyring has no stamp; [max_ttl] and [leeway] are seconds. *)
Record TokenAuthority := mk_authority_ {
  ring : Keyring;
  stamp : option (Z * Z);
  max_ttl : Z;
  leeway : Z;
}.

Section authority.
Context `{Externals}.

Definition make_authority (k : Keyring) (max_ttl leeway : Z) : TokenAuthority := mk_authority_ k None max_ttl leeway.
Definition open_authority (file : key_file) (max_ttl leeway : Z) : result TokenAuthority :=
  let? text := file_text file in
  let? k := load text in
  let? st := file_stamp file in
  Ok (mk_authority_ k (Some st) max_ttl leeway).

(** A changed file is loaded; one that cannot be read or is broken raises and changes nothing. *)
Definition _current_keyring (file : key_file) (a : TokenAuthority) : result Keyring * TokenAuthority :=
  match stamp a with
  | None => (Ok (ring a), a)
  | Some old =>
      match file_stamp file with
      | Raise e => (Raise e, a)
      | Ok new =>
          if bool_decide (new = old) then (Ok (ring a), a)
          else match (let? text := file_text file in load text) with
               | Ok k => (Ok k, mk_authority_ k (Some new) (max_ttl a) (leeway a))
               | Raise e => (Raise e, a)
               end
      end
  end.

Definition token_payload (who wanted : string) (issued expires : Z) (id : string) (workload : option WorkloadBinding) : dict pyval :=
  dupdate [("sub", PStr who); ("role", PStr wanted); ("iat", PInt issued); ("exp", PInt expires); ("jti", PStr id)]
    match workload with Some b => Workload.claims b | None => [] end.

(** The signed text and its signature. *)
Definition signing_input (i body : string) : string := PREFIX +:+ "." +:+ i +:+ "." +:+ body.
Definition signed (key i body : string) : string :=
  signing_input i body +:+ "." +:+ _b64e (hmac_sha256 key (signing_input i body)).

Definition issue (file : key_file) (now : Z) (entropy who wanted : string) (ttl_seconds : Z) (issued_at : option Z)
    (workload : option WorkloadBinding) (a : TokenAuthority) : result string * TokenAuthority :=
  if negb (str_in wanted ROLES) then (Raise (ValueError "role must be one of ('agent', 'approver')"), a)
  else if negb ((0 <? ttl_seconds) && (ttl_seconds <=? max_ttl a))
  then (Raise (ValueError ("ttl must be between 1 and " +:+ show_Z (max_ttl a) +:+ " seconds")), a)
  else
    match _current_keyring file a with
    | (Raise e, a') => (Raise e, a')
    | (Ok k, a') =>
        let issued := Z.quot (default now issued_at) 1000000 in
        let body := _b64e (dumps_sorted (PDict
                      (token_payload who wanted issued (issued + ttl_seconds) (hexdigest entropy) workload))) in
        match dget (active k) (keys k) with
        | Some key => (Ok (signed key (active k) body), a')
        | None => (Raise (KeyError (active k)), a')
        end
    end.

(** [except (ValueError, KeyError, TypeError): raise TokenError("TOKEN_MALFORMED")] *)
Definition malformed {A} (r : result A) : result A :=
  match r with
  | Raise (ValueError _ | WorkloadError _ | KeyError _ | TypeError _) => Raise (TokenError "TOKEN_MALFORMED")
  | _ => r
  end.

(** A payload that is not an object has no [get]. *)
Definition read_claims (i : string) (payload : pyval) : result Claims :=
  match payload with
  | PDict d =>
      let? b := binding_from_claims d in
      let? s := get_item "sub" d in
      let? r := get_item "role" d in
      let? v := get_item "iat" d in
      let? issued := py_int v in
      let? v := get_item "exp" d in
      let? expires := py_int v in
      let? j := get_item "jti" d in
      Ok (mk_claims (py_str s) (py_str r) issued expires (py_str j) i b)
  | _ => Raise (AttributeError "object has no attribute 'get'")
  end.

(** The claims a signature vouches for. *)
Definition authentic (k : Keyring) (i body signature : string) : result Claims :=
  match dget i (keys k) with
  | None => Raise (TokenError "TOKEN_UNKNOWN_KEY")
  | Some key =>
      match _b64d signature with
      | Raise _ => Raise (TokenError "TOKEN_BAD_SIGNATURE")
      | Ok given =>
          if negb (String.eqb given (hmac_sha256 key (signing_input i body))) then Raise (TokenError "TOKEN_BAD_SIGNATURE")
          else malformed (let? data := _b64d body in let? payload := json_bytes data in read_claims i payload)
      end
  end.

(** The checks on claims at a time; [revoked] is absent when the authority has no state store. *)
Definition admissible (now max_ttl leeway : Z) (revoked : option (string -> bool)) (workload : option WorkloadIdentity)
    (c : Claims) : result Claims :=
  if negb (str_in (role c) ROLES) then Raise (TokenError "TOKEN_MALFORMED")
  else if now + seconds leeway <? seconds (iat c) then Raise (TokenError "TOKEN_NOT_YET_VALID")
  else if seconds (exp c) <=? now then Raise (TokenError "TOKEN_EXPIRED")
  else if max_ttl <? exp c - iat c then Raise (TokenError "TOKEN_TTL_TOO_LONG")
  else if match revoked with Some is_revoked => is_revoked (jti c) | None => false end
  then Raise (TokenError "TOKEN_REVOKED")
  else match binding c with
       | None => Ok c
       | Some b =>
           match check_binding b workload with
           | Some reason => Raise (TokenError reason)
           | None => Ok c
           end
       end.

Definition verify (file : key_file) (now : Z) (revoked : option (string -> bool)) (token : pyval)
    (workload : option WorkloadIdentity) (a : TokenAuthority) : result Claims * TokenAuthority :=
  match match token with PStr text => split_on "." text | _ => [] end with
  | [prefix; i; body; signature] =>
      if negb (String.eqb prefix PREFIX) then (Raise (TokenError "TOKEN_MALFORMED"), a)
      else
        match _current_keyring file a with
        | (Raise e, a') => (Raise e, a')
        | (Ok k, a') =>
            (let? c := authentic k i body signature in admissible now (max_ttl a) (leeway a) revoked workload c, a')
        end
  | _ => (Raise (TokenError "TOKEN_MALFORMED"), a)
  end.

(** Revocation verifies the token for no workload. *)
Definition revoke_token {S : Type} `{StateStore S} (file : key_file) (now : Z) (token : pyval) (store : option S)
    (a : TokenAuthority) : result Claims * TokenAuthority * option S :=
  match store with
  | None => (Raise (ValueError "revocation requires a state store"), a, None)
  | Some s =>
      match verify file now (Some (fun t => is_revoked t s)) token None a with
      | (Ok c, a') => (Ok c, a', Some (revoke (jti c) (seconds (exp c)) s))
      | (Raise e, a') => (Raise e, a', Some s)
      end
  end.
End authority.

(** ** ASCII texts *)

(** A printed value is printable when the characters of its strings are ASCII and not DEL. *)
Definition printable (s : string) : bool := s_forall (in_range 32 126) s.
Definition clean (s : string) : bool := s_forall (fun c => byte_of c <? 127) s.
Fixpoint clean_val (v : pyval) : bool :=
  match v with
  | PFloat (Finite r) => printable r
  | PStr s => clean s
  | PList l | PTuple l => forallb clean_val l
  | PDict d => forallb (fun '(k, x) => clean k && clean_val x) d
  | _ => true
  end.

Lemma printable_app s t : printable (s +:+ t) = printable s && printable t.
Proof. apply s_forall_app. Qed.
Lemma printable_cons c s : printable (String c s) = in_range 32 126 c && printable s.
Proof. done. Qed.

Lemma printable_clean s : printable s = true -> clean s = true.
Proof. apply s_forall_impl. intros c. unfold in_range. lia. Qed.

Lemma ascii_escape_clean s : clean s = true -> ascii_escape s = s.
Proof.
  induction s as [|c s IH]; [done|]. unfold clean. cbn [s_forall ascii_escape]. intros [Hc Hs]%andb_true_iff.
  by rewrite Hc, (IH Hs).
Qed.

Lemma clean_hexdigest s : clean (hexdigest s) = true.
Proof. eapply s_forall_impl; [|apply hexdigest_hex]. intros c. unfold is_hex_lower, is_digit, in_range. lia. Qed.

Lemma hex_digit_printable z : 0 <= z < 16 -> in_range 32 126 (hex_digit z) = true.
Proof. intros Hz%hex_digit_hex. revert Hz. unfold is_hex_lower, is_digit, in_range. lia. Qed.

Lemma printable_show_Z z : printable (show_Z z) = true.
Proof.
  destruct (show_Z_chars z) as (c & s & -> & Hc & Hs).
  assert (forall d, is_sign_digit d = true -> in_range 32 126 d = true) as Hd.
  { intros d. unfold is_sign_digit, is_char, is_digit, in_range. destruct (Ascii.eqb_spec "-" d) as [<-|]; [done|]. lia. }
  rewrite printable_cons, (Hd c Hc). simpl. by eapply s_forall_impl; [apply Hd|].
Qed.

Lemma printable_escape s : clean s = true -> printable (escape s) = true.
Proof.
  induction s as [|c s IH]; [done|]. unfold clean. cbn [s_forall escape]. intros [Hc Hs]%andb_true_iff.
  specialize (IH Hs). pose proof (byte_of_bound c). unfold esc.
  repeat case_match; rewrite ?printable_cons, ?IH; try done.
  - unfold hex2, chr1. rewrite !s_app_cons, s_app_nil_l, !printable_cons, IH, !hex_digit_printable; [done|apply Z.mod_pos_bound; lia|].
    split; [apply Z.div_pos|apply Z.div_lt_upper_bound]; lia.
  - unfold in_range. lia.
Qed.

Lemma printable_quote s : clean s = true -> printable (quote s) = true.
Proof. intros Hs. unfold quote. by rewrite printable_cons, printable_app, printable_escape. Qed.

Lemma printable_concat sep l : printable sep = true -> Forall (fun s => printable s = true) l -> printable (s_concat sep l) = true.
Proof.
  intros Hsep. induction 1 as [|s l Hs Hl IH]; [done|]. destruct l as [|t l]; [done|].
  by rewrite s_concat_cons, !printable_app, Hs, Hsep, IH.
Qed.

Lemma printable_print_with item_sep key_sep v : printable item_sep = true -> printable key_sep = true -> clean_val v = true ->
  printable (print_with item_sep key_sep v) = true.
Proof.
  intros Hi Hk.
  assert (forall l, Forall (fun v => clean_val v = true -> printable (print_with item_sep key_sep v) = true) l -> forallb clean_val l = true ->
    printable ("[" +:+ s_concat item_sep (map (print_with item_sep key_sep) l) +:+ "]") = true) as Hlist.
  { intros l Hl Hc. rewrite !printable_app. rewrite printable_concat; [done..|]. induction Hl as [|x l Hx Hl IH]; [constructor|].
    simpl in *. apply andb_true_iff in Hc as [Hcx Hc]. constructor; auto. }
  induction v as [|[]| |[]| |l IH|l IH|d IH| | |] using pyval_rect_nested; cbn [clean_val print_with]; try done.
  - intros _. apply printable_show_Z.
  - intros _. unfold nonfinite_text. repeat case_match; done.
  - apply printable_quote.
  - by apply Hlist.
  - by apply Hlist.
  - intros Hc. rewrite !printable_app, printable_concat; [done..|]. induction IH as [|[k x] d Hx Hd IHd]; [constructor|].
    simpl in *. apply andb_true_iff in Hc as [[Hck Hcx]%andb_true_iff Hc]. constructor; [|auto].
    by rewrite !printable_app, printable_quote, Hk, Hx.
Qed.
Lemma printable_print v : clean_val v = true -> printable (print v) = true.
Proof. rewrite <- print_print_with. by apply printable_print_with. Qed.

Lemma clean_norm v : clean_val v = true -> clean_val (norm v) = true.
Proof.
  assert (forall l, Forall (fun v => clean_val v = true -> clean_val (norm v) = true) l -> forallb clean_val l = true ->
    forallb clean_val (map norm l) = true) as Hlist.
  { induction 1 as [|x l Hx Hl IH]; [done|]. simpl. intros [? ?]%andb_true_iff. by rewrite Hx, IH. }
  induction v as [| | | | |l IH|l IH|d IH| | |] using pyval_rect_nested; simpl; try done.
  - by apply Hlist.
  - by apply Hlist.
  - intros Hc. unfold sort_items. rewrite (forallb_perm _ _ _ (merge_sort_Permutation item_le _)).
    induction IH as [|[k x] d Hx Hd IHd]; [done|]. simpl in *.
    apply andb_true_iff in Hc as [[Hk Hcx]%andb_true_iff Hc]. by rewrite Hk, Hx, IHd.
Qed.

(** ASCII values survive [json.dumps] and [json.loads] of bytes. *)
Lemma json_bytes_dumps `{Externals} v : wf_val v = true -> jsonable v = true -> clean_val v = true ->
  json_bytes (dumps_sorted v) = Ok (norm v) /\ dumps_sorted v <> EmptyString.
Proof.
  intros Hw Hj Hc. unfold dumps_sorted. assert (printable (canonical v) = true) as Hp by by apply printable_print, clean_norm.
  rewrite ascii_escape_clean by by apply printable_clean. unfold json_bytes, json_bytes_with.
  assert (is_ascii (canonical v) = true) as -> by (eapply s_forall_impl; [|exact Hp]; intros c; unfold in_range; lia).
  assert (s_forall (fun c => 0 <? byte_of c) (canonical v) = true) as ->
    by (eapply s_forall_impl; [|exact Hp]; intros c; unfold in_range; lia).
  cbn [andb]. change (Some (canonical v) ≫= loads_with true) with (loads (canonical v)).
  rewrite loads_canonical by done. split; [done|]. unfold canonical.
  destruct (print_head (norm v)) as (c & s & -> & _); [by apply plain_norm|done].
Qed.

(** ** Keyring files *)

Section keyring_files.
Context `{Externals}.

(** The rings the program makes: distinct ASCII ids, keys long enough, the active one among them. *)
Definition wf_ring (k : Keyring) : Prop :=
  NoDup (dkeys (keys k)) /\ Forall (fun kv => clean kv.1 = true /\ (32 <= String.length kv.2)%nat) (keys k)
  /\ dmem (active k) (keys k) = true.

Lemma skip_ws_line n t : skip_ws (json_line n t) = skip_ws t.
Proof. unfold json_line. cbn. induction n as [|n IH]; [done|]. by cbn. Qed.
Lemma line_app n t u : json_line n t +:+ u = json_line n (t +:+ u).
Proof. unfold json_line. rewrite s_app_cons. f_equal. induction n as [|n IH]; [done|]. exact (f_equal (String " ") IH). Qed.
Lemma length_line n t : String.length (json_line n t) = S (n + String.length t).
Proof. unfold json_line. cbn. f_equal. induction n as [|n IH]; [done|]. exact (f_equal S IH). Qed.
Lemma quote_clean s : clean s = true -> ascii_escape (quote s) = quote s.
Proof. intros Hs. by apply ascii_escape_clean, printable_clean, printable_quote. Qed.
Lemma quote_quote s rest : quote s +:+ rest = String dquote (escape s +:+ String dquote rest).
Proof. apply quote_app. Qed.

(** One member of an object, of a text that is a string or an object. *)
Lemma parse_keyring_member f k rest : parse_members true (S f) (quote k +:+ ": " +:+ rest) =
  ('(v, r2) ← parse_value true f (skip_ws rest);
   match skip_ws r2 with
   | String c r3 =>
       if byte_of c =? 125 then Some ([(k, v)], r3)
       else if byte_of c =? 44 then '(ms, r4) ← parse_members true f (skip_ws r3); Some ((k, v) :: ms, r4)
       else None
   | EmptyString => None
   end).
Proof.
  rewrite quote_quote. cbn [parse_members]. rewrite take_char_cons. cbn [mbind option_bind].
  by rewrite read_string_quote.
Qed.
Lemma parse_text f s rest : parse_value true (S f) (quote s +:+ rest) = Some (PStr s, rest).
Proof. rewrite quote_quote. cbn [parse_value]. change (byte_of dquote =? 34) with true. cbv iota. by rewrite read_string_quote. Qed.
Lemma skip_ws_quote s rest : skip_ws (quote s +:+ rest) = quote s +:+ rest.
Proof. rewrite quote_quote. by apply skip_ws_head. Qed.

Lemma parse_object f text s : skip_ws text = String dquote s ->
  parse_value true (S f) ("{" +:+ text) = '(ms, r) ← parse_members true f (skip_ws text); Some (PDict (dupdate [] ms), r).
Proof.
  intros E. rewrite s_app_cons, s_app_nil_l. cbn [parse_value]. change (byte_of "{" =? 34) with false. change (byte_of "{" =? 91) with false.
  change (byte_of "{" =? 123) with true. cbv iota. by rewrite E.
Qed.

Definition stored_keys (ks : dict string) : dict pyval := map (fun kv => (kv.1, PStr (_b64e kv.2))) ks.

Lemma parse_key_lines ks rest : ks <> [] -> Forall (fun kv => clean kv.1 = true) ks -> forall f, (length ks < f)%nat ->
  parse_members true f (skip_ws (s_concat "," (map key_line ks) +:+ json_line 2 ("}" +:+ rest))) = Some (stored_keys ks, rest).
Proof.
  intros Hne Hc. induction Hc as [|[k v] ks Hk Hks IH]; [done|]. intros f Hf. cbn [length fst] in *. destruct f as [|[|f]]; [lia..|].
  assert (forall t, skip_ws (key_line (k, v) +:+ t) = quote k +:+ ": " +:+ quote (_b64e v) +:+ t) as Hline.
  { intros t. unfold key_line. cbn [fst snd]. rewrite quote_clean by done. rewrite line_app, skip_ws_line, !s_app_assoc. apply skip_ws_quote. }
  destruct ks as [|kv ks].
  - cbn [map s_concat]. rewrite Hline, parse_keyring_member, skip_ws_quote, parse_text. cbn [mbind option_bind]. by rewrite skip_ws_line.
  - cbn [map]. rewrite s_concat_cons, !s_app_assoc, Hline, parse_keyring_member, skip_ws_quote, parse_text. cbn [mbind option_bind].
    change (skip_ws ("," +:+ ?x)) with (String "," x).
    change (byte_of "," =? 125) with false. change (byte_of "," =? 44) with true. cbv iota.
    change (key_line kv :: map key_line ks) with (map key_line (kv :: ks)). rewrite IH; [done|done|lia].
Qed.

Lemma key_lines_head ks t : ks <> [] -> Forall (fun kv => clean kv.1 = true) ks ->
  exists s, skip_ws (s_concat "," (map key_line ks) +:+ t) = String dquote s.
Proof.
  intros Hne Hc. destruct Hc as [|[k v] ks Hk Hks]; [done|]. cbn [fst] in Hk.
  destruct ks as [|kv ks]; cbn [map s_concat]; unfold key_line at 1; cbn [fst snd];
    rewrite quote_clean, ?s_app_assoc, line_app, skip_ws_line, !s_app_assoc, skip_ws_quote, quote_quote by done; eauto.
Qed.

Lemma length_key_lines ks : (length ks <= S (String.length (s_concat "," (map key_line ks))))%nat.
Proof.
  induction ks as [|x [|y ks] IH]; [simpl; lia|simpl; lia|].
  cbn [map]. rewrite s_concat_cons, !s_length_app. cbn [length String.length map] in *. lia.
Qed.
Lemma length_to_json k : (8 + length (keys k) <= String.length (to_json k))%nat.
Proof.
  pose proof (length_key_lines (keys k)). unfold to_json. rewrite !s_length_app, !length_line, !s_length_app, !length_line. cbn [String.length]. lia.
Qed.

Lemma loads_to_json k : wf_ring k -> loads (to_json k) = Some (PDict [("active", PStr (active k)); ("keys", PDict (stored_keys (keys k)))]).
Proof.
  intros (Hnd & Hall & Hact). assert (keys k <> []) as Hne by by intros E; rewrite E in Hact.
  assert (clean (active k) = true) as Hca.
  { unfold dmem in Hact. destruct (dget _ _) as [x|] eqn:E in Hact; [|done]. apply dget_Some_in in E.
    rewrite Forall_forall in Hall. by apply (Hall _ E). }
  assert (Forall (fun kv => clean kv.1 = true) (keys k)) as Hck by (eapply Forall_impl; [exact Hall|]; by intros ? [? _]).
  pose proof (length_to_json k) as Hlen. remember (String.length (to_json k)) as size eqn:Hsize.
  destruct size as [|[|[|[|size]]]]; [lia..|].
  unfold loads, loads_with. rewrite <- Hsize. unfold to_json. rewrite quote_clean by done.
  assert (skip_ws ("{" +:+ ?[t]) = "{" +:+ ?t) as -> by done.
  rewrite (parse_object _ _ (escape "active" +:+ String dquote (": " +:+ quote (active k) +:+ "," +:+ json_line 2
    (quote "keys" +:+ ": {" +:+ s_concat "," (map key_line (keys k)) +:+ json_line 2 "}") +:+ json_line 0 "}")))
    by by rewrite line_app, skip_ws_line, !s_app_assoc, skip_ws_quote, quote_quote.
  rewrite line_app, skip_ws_line, !s_app_assoc, skip_ws_quote, parse_keyring_member, skip_ws_quote, parse_text. cbn [mbind option_bind].
  rewrite line_app, !s_app_assoc, s_app_cons, s_app_nil_l, skip_ws_head by done.
  change (byte_of "," =? 125) with false. change (byte_of "," =? 44) with true. cbv iota.
  rewrite skip_ws_line, skip_ws_quote. change (": {" +:+ ?x) with (": " +:+ "{" +:+ x). rewrite parse_keyring_member.
  change (skip_ws ("{" +:+ ?x)) with ("{" +:+ x).
  destruct (key_lines_head (keys k) (json_line 2 "}" +:+ json_line 0 "}") Hne Hck) as [s Hhead].
  rewrite (parse_object _ _ s Hhead), line_app, parse_key_lines by (done || lia). cbn [mbind option_bind].
  rewrite dupdate_distinct; [done|]. unfold stored_keys, dkeys. rewrite map_map. exact Hnd.
Qed.

Lemma decode_stored ks : Forall (fun kv => (32 <= String.length kv.2)%nat) ks ->
  traverse (fun '(i, v) => let? key := decode_key v in Ok (i, key)) (stored_keys ks) = Ok ks.
Proof.
  induction 1 as [|[i v] ks Hv Hks IH]; [done|]. unfold stored_keys in *. cbn [map traverse fst snd decode_key] in *.
  rewrite b64d_b64e by (by intros ->; simpl in Hv; lia). cbn [result_bind]. by rewrite IH.
Qed.

(** A ring is read back from the file it is saved to. *)
Lemma keyring_round_trip k : wf_ring k -> load (to_json k) = Ok k.
Proof.
  intros Hwf. pose proof (loads_to_json k Hwf) as Hl. destruct Hwf as (Hnd & Hall & Hact). unfold load. rewrite Hl.
  unfold get_item. cbn [dget String.eqb Ascii.eqb Bool.eqb result_bind].
  rewrite decode_stored by (eapply Forall_impl; [exact Hall|]; by intros ? [_ ?]). cbn [result_bind].
  unfold make_keyring, require. rewrite Hact. cbn [result_bind].
  assert (existsb (fun key => (String.length key <? 32)%nat) (dvalues (keys k)) = false) as ->; [|by destruct k].
  apply not_true_iff_false. intros (key & Hin & Hlt)%existsb_exists. apply Nat.ltb_lt in Hlt.
  apply in_map_iff in Hin as ([i v] & <- & Hin%list_elem_of_In). rewrite Forall_forall in Hall. destruct (Hall _ Hin). simpl in *. lia.
Qed.

Lemma new_kid_clean day entropy : clean day = true -> clean (_new_kid day entropy) = true.
Proof.
  intros Hd. unfold _new_kid, clean. rewrite !s_forall_app. unfold clean in Hd. rewrite Hd.
  exact (clean_hexdigest entropy).
Qed.

Lemma generate_wf day entropy key : clean day = true -> (32 <= String.length key)%nat ->
  exists k, generate day entropy key = Ok k /\ wf_ring k /\ active k = _new_kid day entropy.
Proof.
  intros Hd Hk. unfold generate, make_keyring, require, dmem. cbn [dget dvalues map existsb snd]. rewrite String.eqb_refl.
  replace (String.length key <? 32)%nat with false by (symmetry; apply Nat.ltb_ge; lia). cbn.
  eexists. split; [done|]. split; [|done]. split_and!; cbn [keys active].
  - apply NoDup_singleton.
  - constructor; [|done]. split; [by apply new_kid_clean|done].
  - unfold dmem. cbn [dget]. by rewrite String.eqb_refl.
Qed.

Lemma rotate_wf day entropy key k : wf_ring k -> clean day = true -> (32 <= String.length key)%nat -> wf_ring (rotate day entropy key k).2.
Proof.
  intros (Hnd & Hall & Hact) Hd Hk. split_and!; cbn [rotate snd keys active].
  - by apply dset_NoDup.
  - rewrite Forall_forall in *. intros [i v] [?|[-> ->]]%dset_in; [by apply Hall|]. split; [by apply new_kid_clean|done].
  - unfold dmem. by rewrite dget_dset_eq.
Qed.

Lemma dget_ddel {V} i j (d : dict V) : NoDup (dkeys d) -> dget j (ddel i d) = if String.eqb j i then None else dget j d.
Proof.
  induction d as [|[i' v] d IH]; intros Hnd; cbn [ddel dget]; [by case_match|]. cbn [dkeys map fst] in Hnd. apply NoDup_cons in Hnd as [Hi Hnd].
  destruct (String.eqb_spec i i') as [<-|Hne].
  - destruct (String.eqb_spec j i) as [->|]; [|done]. by apply dget_None.
  - cbn [dget]. rewrite IH by done. destruct (String.eqb_spec j i') as [->|]; [|done]. by destruct (String.eqb_spec i' i).
Qed.
Lemma ddel_sublist {V} i (d : dict V) : ddel i d `sublist_of` d.
Proof. induction d as [|[j v] d IH]; [done|]. cbn [ddel]. case_match; by constructor. Qed.

Lemma retire_wf i k k' : wf_ring k -> retire i k = Ok k' -> wf_ring k' /\ i <> active k
  /\ forall j, dget j (keys k') = if String.eqb j i then None else dget j (keys k).
Proof.
  intros (Hnd & Hall & Hact). unfold retire. destruct (String.eqb_spec i (active k)) as [|Hne]; [done|].
  destruct (dmem i (keys k)); [|done]. intros [= <-]. split; [|split; [done|intros j; by apply dget_ddel]].
  split_and!; cbn [keys active].
  - eapply sublist_NoDup; [exact Hnd|]. unfold dkeys. apply (fmap_sublist fst), ddel_sublist.
  - rewrite Forall_forall in *. intros kv Hkv. apply Hall. eapply elem_of_sublist; [exact Hkv|apply ddel_sublist].
  - unfold dmem in *. rewrite dget_ddel by done. by destruct (String.eqb_spec (active k) i) as [<-|].
Qed.
End keyring_files.

(** ** Issuing and verifying *)

Section correct.
Context `{Externals}.

(** The token was signed under a key of the ring over these claims. *)
Definition vouched (k : Keyring) (token : pyval) (c : Claims) : Prop :=
  exists key body signature data payload,
    token = PStr (signing_input (kid c) body +:+ "." +:+ signature)
    /\ dget (kid c) (keys k) = Some key
    /\ _b64d signature = Ok (hmac_sha256 key (signing_input (kid c) body))
    /\ _b64d body = Ok data /\ json_bytes data = Ok payload /\ read_claims (kid c) payload = Ok c.

(** The claims can be used at [now] by the workload that presents them. *)
Definition usable (now max_ttl leeway : Z) (revoked : option (string -> bool)) (workload : option WorkloadIdentity) (c : Claims) : Prop :=
  role c ∈ ROLES /\ seconds (iat c) <= now + seconds leeway /\ now < seconds (exp c) /\ exp c - iat c <= max_ttl
  /\ (forall is_revoked, revoked = Some is_revoked -> is_revoked (jti c) = false)
  /\ (forall b, binding c = Some b -> exists i, workload = Some i /\ present i = true
        /\ agrees (wb_thumbprint b) (wi_thumbprint i) /\ agrees (wb_spiffe_id b) (wi_spiffe_id i)).

Lemma admissible_spec now ttl leeway revoked workload c c' : admissible now ttl leeway revoked workload c = Ok c' <->
  c' = c /\ usable now ttl leeway revoked workload c.
Proof.
  unfold admissible, usable. rewrite <- str_in_spec. destruct (str_in (role c) ROLES); simpl;
    [|split; [done|by intros (_ & ? & _)]].
  destruct (now + _ <? _) eqn:E1; [split; [done|intros (_ & _ & ? & _); lia]|].
  destruct (_ <=? now) eqn:E2; [split; [done|intros (_ & _ & _ & ? & _); lia]|].
  destruct (ttl <? _) eqn:E3; [split; [done|intros (_ & _ & _ & _ & ? & _); lia]|].
  apply Z.ltb_ge in E1, E3. apply Z.leb_gt in E2.
  destruct revoked as [f|]; [destruct (f (jti c)) eqn:Ef; [split; [done|]|]|];
    [intros (_ & _ & _ & _ & _ & Hr & _); by rewrite (Hr f) in Ef|..];
    (destruct (binding c) as [b|]; [destruct (check_binding b workload) as [reason|] eqn:Ec|]; (split; [|intros [-> Hu]; try done]));
    try (by intros [=]); try (destruct Hu as (_ & _ & _ & _ & _ & Hb); specialize (Hb b eq_refl);
      apply check_binding_spec in Hb; congruence);
    intros [= <-]; (split_and!; [done..| |]); try congruence; intros b' [= <-]; by apply check_binding_spec.
Qed.

Lemma malformed_ok {A} (r : result A) a : malformed r = Ok a <-> r = Ok a.
Proof. by destruct r as [|[]]. Qed.

Lemma read_claims_kid i payload c : read_claims i payload = Ok c -> kid c = i.
Proof. unfold read_claims. destruct payload; try done. intros Hc. inv_ok Hc. by injection Hc as <-. Qed.

Lemma authentic_ok k i body signature c : authentic k i body signature = Ok c <->
  exists key data payload, dget i (keys k) = Some key /\ _b64d signature = Ok (hmac_sha256 key (signing_input i body))
    /\ _b64d body = Ok data /\ json_bytes data = Ok payload /\ read_claims i payload = Ok c.
Proof.
  unfold authentic. split.
  - destruct (dget i (keys k)) as [key|] eqn:Ek; [|done]. destruct (_b64d signature) as [given|] eqn:Es; [|done].
    destruct (String.eqb_spec given (hmac_sha256 key (signing_input i body))) as [->|]; [|done]. simpl.
    intros (data & Hd & (payload & Hp & Hc)%result_bind_ok)%malformed_ok%result_bind_ok. eauto 10.
  - intros (key & data & payload & -> & -> & -> & Hp & Hc). rewrite String.eqb_refl. cbn [negb result_bind].
    rewrite Hp. cbn [result_bind]. by rewrite Hc.
Qed.

Lemma b64d_lacks_dot text data : _b64d text = Ok data -> lacks "." text = true.
Proof.
  unfold _b64d. destruct (s_is_empty text || _) eqn:E; [done|]. intros _. bools.
  eapply s_forall_impl; [|eassumption]. intros c Hc. apply negb_true_iff. unfold is_char.
  by destruct (Ascii.eqb_spec "." c) as [<-|].
Qed.

Lemma token_parts i body signature text : split_on "." text = [PREFIX; i; body; signature] ->
  text = signing_input i body +:+ "." +:+ signature.
Proof.
  intros Hs. rewrite <- (s_concat_split "." text), Hs. unfold signing_input. rewrite !s_concat_cons. cbn [s_concat].
  by autorewrite with strings.
Qed.

Lemma split_token i body signature : lacks "." i = true -> lacks "." body = true -> lacks "." signature = true ->
  split_on "." (signing_input i body +:+ "." +:+ signature) = [PREFIX; i; body; signature].
Proof.
  intros Hi Hb Hs. unfold signing_input. rewrite !s_app_assoc.
  assert (forall s t, lacks "." s = true -> split_on "." (s +:+ "." +:+ t) = s :: split_on "." t) as Hdot
    by (intros s t Hl; change ("." +:+ t) with (String "." t); by rewrite split_on_app, split_on_lacks).
  rewrite !Hdot by done. by rewrite split_on_lacks.
Qed.

Lemma verify_ok (file : key_file) (now : Z) (revoked : option (string -> bool)) (token : pyval)
    (workload : option WorkloadIdentity) (a a' : TokenAuthority) (c : Claims) :
  verify file now revoked token workload a = (Ok c, a') ->
  exists k, _current_keyring file a = (Ok k, a') /\ vouched k token c
    /\ usable now (max_ttl a) (leeway a) revoked workload c.
Proof.
  unfold verify. destruct token as [| | | |text| | | | | |]; try done.
  destruct (split_on "." text) as [|prefix [|i [|body [|signature [|]]]]] eqn:Esplit; try done.
  destruct (String.eqb_spec prefix PREFIX) as [->|]; [|done]. simpl.
  destruct (_current_keyring file a) as [[k|e] a1]; [|done]. intros [= Hc <-].
  apply result_bind_ok in Hc as (c' & (key & data & payload & Hk & Hs & Hd & Hp & Hr)%authentic_ok & [<- Hu]%admissible_spec).
  exists k. split; [done|split; [|done]]. pose proof (read_claims_kid _ _ _ Hr) as <-.
  exists key, body, signature, data, payload. split_and!; try done. f_equal. by apply token_parts.
Qed.

(** C15. A verified token is authentic and usable: its signature is the HMAC of its text under a key of
    the current keyring, the claims returned are the ones its body encodes, the role is known, the
    token is neither early beyond the leeway, nor expired, nor longer-lived than the authority allows,
    nor revoked, and a bound one is presented by a verified workload that matches its binding. *)
Theorem verify_sound (file : key_file) (now : Z) (revoked : option (string -> bool)) (token : pyval)
    (workload : option WorkloadIdentity) (a a' : TokenAuthority) (c : Claims) :
  verify file now revoked token workload a = (Ok c, a') ->
  exists k, _current_keyring file a = (Ok k, a') /\ vouched k token c
    /\ usable now (max_ttl a) (leeway a) revoked workload c.
Proof. apply verify_ok. Qed.

Lemma verify_complete file now revoked token workload a a' k c : _current_keyring file a = (Ok k, a') ->
  lacks "." (kid c) = true -> vouched k token c -> usable now (max_ttl a) (leeway a) revoked workload c ->
  verify file now revoked token workload a = (Ok c, a').
Proof.
  intros Hring Hkid (key & body & signature & data & payload & -> & Hk & Hs & Hd & Hp & Hr) Hu. unfold verify.
  rewrite split_token by (done || by eapply b64d_lacks_dot). rewrite String.eqb_refl. simpl. rewrite Hring. f_equal.
  apply result_bind_ok. exists c. split; [apply authentic_ok; eauto 10|by apply admissible_spec].
Qed.

(** ** What is issued is verified *)

(** Compare a character of a class with the ones the class lists, then its code with the ranges. *)
Ltac char_cases d :=
  repeat match goal with
  | |- context [Ascii.eqb ?x d] => destruct (Ascii.eqb_spec x d) as [?|?]; [subst d; done|]
  end; lia.

(** A binding made by the constructor. *)
Definition wf_binding (workload : option WorkloadBinding) : Prop :=
  forall b, workload = Some b -> make_binding (wb_spiffe_id b) (wb_thumbprint b) = Ok b.

Lemma spiffe_clean uri i : parse_spiffe_id (PStr uri) = Ok i -> clean uri = true.
Proof.
  intros (<- & _ & Hd & Hp)%spiffe_id_exact. unfold spiffe_str.
  assert (forall d, domain_or_newline d = true -> byte_of d <? 127 = true) as Hdc.
  { intros d. unfold domain_or_newline, is_domain_char, is_lower, is_digit, in_range, is_char. char_cases d. }
  assert (forall d, segment_or_newline d = true -> byte_of d <? 127 = true) as Hsc.
  { intros d. unfold segment_or_newline, is_segment_char, is_alnum, is_alpha, is_upper, is_lower, is_digit, in_range, is_char. char_cases d. }
  assert (forall s t, clean (s +:+ t) = clean s && clean t) as Happ by (intros; apply s_forall_app).
  apply trust_domain_chars in Hd. rewrite !Happ, (s_forall_impl _ _ _ Hdc Hd : clean _ = true).
  destruct Hp as [->|(segs & _ & -> & Hsegs)]; [done|]. rewrite Happ. cbn [andb].
  change (clean "/") with true. cbn [andb]. change (clean "spiffe://") with true. cbn [andb].
  induction Hsegs as [|seg segs Hseg Hsegs IH]; [done|].
  apply valid_segment_chars, (s_forall_impl _ _ _ Hsc) in Hseg. destruct segs as [|seg' segs]; [done|].
  rewrite s_concat_cons, !Happ, IH. by rewrite (Hseg : clean _ = true).
Qed.

Lemma thumbprint_clean t : fullmatch THUMBPRINT t = true -> clean t = true.
Proof.
  intros Ht%fullmatch_spec. eapply (s_forall_impl in_alphabet).
  - intros d. unfold in_alphabet, is_alnum, is_alpha, is_upper, is_lower, is_digit, in_range, is_char. char_cases d.
  - eapply re_over_forall; [|exact Ht]. unfold THUMBPRINT. generalize 43%nat. intros n. induction n; simpl; auto.
Qed.

Lemma claims_clean workload : wf_binding workload ->
  clean_val (PDict (match workload with Some b => Workload.claims b | None => [] end)) = true.
Proof.
  intros Hwf. destruct workload as [b|]; [|done]. specialize (Hwf b eq_refl). unfold Workload.claims, make_binding in *.
  destruct b as [uri t]. cbn [wb_spiffe_id wb_thumbprint] in *.
  apply result_bind_ok in Hwf as (u1 & _ & (u2 & Hu & (u3 & Ht & _)%result_bind_ok)%result_bind_ok).
  destruct uri as [uri|], t as [t|]; cbn [app clean_val forallb]; rewrite ?andb_true_r; try done.
  all: try (apply result_bind_ok in Hu as (? & ->%spiffe_clean & _)).
  all: try (unfold require in Ht; destruct (fullmatch THUMBPRINT t) eqn:Et; [|done]; rewrite (thumbprint_clean _ Et)).
  all: done.
Qed.

(** The payload before it is sorted. *)
Lemma payload_items who wanted issued expires id workload : token_payload who wanted issued expires id workload
  = [("sub", PStr who); ("role", PStr wanted); ("iat", PInt issued); ("exp", PInt expires); ("jti", PStr id)]
    ++ match workload with Some b => Workload.claims b | None => [] end.
Proof.
  unfold token_payload. apply dupdate_distinct. apply distinct_NoDup.
  by destruct workload as [[[uri|] [t|]]|].
Qed.

Lemma payload_distinct who wanted issued expires id workload :
  NoDup (dkeys (token_payload who wanted issued expires id workload)).
Proof. rewrite payload_items. apply distinct_NoDup. by destruct workload as [[[uri|] [t|]]|]. Qed.

Lemma payload_good who wanted issued expires id workload : clean who = true -> str_in wanted ROLES = true ->
  clean id = true -> wf_binding workload ->
  let v := PDict (token_payload who wanted issued expires id workload) in
  wf_val v = true /\ jsonable v = true /\ clean_val v = true.
Proof.
  intros Hwho Hrole Hid Hwf v. unfold v. rewrite payload_items.
  assert (clean wanted = true) as Hw.
  { apply str_in_spec in Hrole. unfold ROLES in Hrole. set_unfold in Hrole. by destruct Hrole as [->|[->|[]]]. }
  split_and!; [by destruct workload as [[[uri|] [t|]]|]..|].
  pose proof (claims_clean _ Hwf) as Hclaims. cbn [clean_val] in *. rewrite forallb_app, Hclaims.
  cbn [forallb clean_val]. by rewrite Hwho, Hw, Hid.
Qed.

Lemma read_payload i who wanted issued expires id workload : wf_binding workload ->
  read_claims i (norm (PDict (token_payload who wanted issued expires id workload)))
  = Ok (mk_claims who wanted issued expires id i workload).
Proof.
  intros Hwf. set (d := token_payload who wanted issued expires id workload). cbn [norm].
  assert (forall k, dget k (sort_items (map (fun '(k, x) => (k, norm x)) d)) = norm <$> dget k d) as Hget.
  { intros k. rewrite dget_sort_items, (dget_map norm) by (rewrite ?(dkeys_map norm); apply payload_distinct). done. }
  unfold read_claims, get_item, binding_from_claims, pget. rewrite !Hget. unfold d. rewrite payload_items. clear Hget.
  destruct workload as [[uri t]|]; [|done]. specialize (Hwf _ eq_refl). cbn [wb_spiffe_id wb_thumbprint] in Hwf.
  destruct uri as [uri|], t as [t|]; cbn -[make_binding]; rewrite ?Hwf; try done.
Qed.

Lemma current_keyring_ring file a k a' : _current_keyring file a = (Ok k, a') -> ring a' = k.
Proof.
  unfold _current_keyring. destruct (stamp a); [|by intros [= <- <-]]. destruct (file_stamp file); [|done].
  case_bool_decide; [by intros [= <- <-]|]. destruct (let? text := _ in _); [|done]. by intros [= <- <-].
Qed.

(** A text with a dot in it has two parts at least. *)
Lemma split_dotted s : lacks "." s = false -> (2 <= length (split_on "." s))%nat.
Proof.
  intros Hs. pose proof (split_on_each "." s) as Hl. pose proof (s_concat_split "." s) as Hc.
  destruct (split_on "." s) as [|w [|w' ws]] eqn:E; [by apply split_on_not_nil in E| |simpl; lia].
  apply Forall_inv in Hl. cbn [s_concat] in Hc. congruence.
Qed.

(** A key id with a dot makes five parts at least of a token, and no such text is read. *)
Lemma verify_dotted file now revoked presented a i body signature : lacks "." i = false ->
  (verify file now revoked (PStr (signing_input i body +:+ "." +:+ signature)) presented a).1 = Raise (TokenError "TOKEN_MALFORMED").
Proof.
  intros Hi. assert (5 <= length (split_on "." (signing_input i body +:+ "." +:+ signature)))%nat as Hlen.
  { unfold signing_input. rewrite !s_app_assoc.
    assert (forall s t, length (split_on "." (s +:+ "." +:+ t)) = length (split_on "." s) + length (split_on "." t))%nat as Hdot
      by (intros s t; change ("." +:+ t) with (String "." t); by rewrite split_on_app, length_app).
    rewrite !Hdot. apply split_dotted in Hi.
    assert (forall s, 1 <= length (split_on "." s))%nat as Hone
      by (intros s; pose proof (split_on_not_nil "." s); destruct (split_on "." s); [done|simpl; lia]).
    pose proof (Hone PREFIX). pose proof (Hone body). pose proof (Hone signature). lia. }
  unfold verify. destruct (split_on _ _) as [|? [|? [|? [|? [|? ?]]]]]; simpl in *; try lia; done.
Qed.

(** C17. Tokens round trip, for subjects that are plain ASCII (below 127) and well-formed bindings. When
    the active key's id has no dot - the ids the keyring makes itself have none - an issued token is
    verified, later, by any authority that still holds the key it was signed with, as exactly the claims
    it was issued for, whenever these are usable there and then. When the active key's id has a dot,
    which the keyring loader accepts, the token that is issued is refused as malformed by every authority
    at every time. *)
Theorem token_round_trip (file : key_file) (now : Z) (entropy who wanted t : string) (ttl : Z) (issued_at : option Z)
    (workload : option WorkloadBinding) (a a1 : TokenAuthority) :
  issue file now entropy who wanted ttl issued_at workload a = (Ok t, a1) ->
  clean who = true -> wf_binding workload -> (forall key text, hmac_sha256 key text <> EmptyString) ->
  let issued := Z.quot (default now issued_at) 1000000 in
  let c := mk_claims who wanted issued (issued + ttl) (hexdigest entropy) (active (ring a1)) workload in
  if lacks "." (active (ring a1)) then
    forall file' now' revoked presented a2 a3,
      _current_keyring file' a2 = (Ok (ring a3), a3) ->
      dget (active (ring a1)) (keys (ring a3)) = dget (active (ring a1)) (keys (ring a1)) ->
      usable now' (max_ttl a2) (leeway a2) revoked presented c ->
      verify file' now' revoked (PStr t) presented a2 = (Ok c, a3)
  else forall file' now' revoked presented a2,
      (verify file' now' revoked (PStr t) presented a2).1 = Raise (TokenError "TOKEN_MALFORMED").
Proof.
  intros Hissue Hwho Hwf Hmac issued c. unfold issue in Hissue.
  destruct (str_in wanted ROLES) eqn:Hrole; [|done]. destruct (negb (_ && _)); [done|]. cbn [negb] in Hissue.
  destruct (_current_keyring file a) as [[k|e] a1'] eqn:Hk; [|done]. apply current_keyring_ring in Hk as <-.
  destruct (dget (active (ring a1')) (keys (ring a1'))) as [key|] eqn:Ekey; [|done].
  injection Hissue as <- <-. fold issued. destruct (lacks "." (active (ring a1'))) eqn:Hdot; [|intros; by apply verify_dotted].
  intros file' now' revoked presented a2 a3 Hring Hkey Hu.
  destruct (payload_good who wanted issued (issued + ttl) (hexdigest entropy) workload) as (Hv & Hj & Hc);
    [done..|apply clean_hexdigest|done|].
  destruct (json_bytes_dumps _ Hv Hj Hc) as [Hjson Hne].
  eapply verify_complete; [exact Hring|exact Hdot| |exact Hu].
  set (v := PDict _) in Hjson, Hne.
  set (body := _b64e (dumps_sorted v)).
  exists key, body, (_b64e (hmac_sha256 key (signing_input (active (ring a1')) body))), (dumps_sorted v), (norm v).
  split_and!; [done|by simpl; rewrite Hkey|apply b64d_b64e, Hmac|by apply b64d_b64e|exact Hjson|by apply read_payload].
Qed.

(** The ids the keyring makes itself have no dot. *)
Lemma new_kid_undotted day entropy : lacks "." day = true -> lacks "." (_new_kid day entropy) = true.
Proof.
  intros Hd. unfold _new_kid, lacks in *. rewrite !s_forall_app, Hd. cbn [andb].
  eapply s_forall_impl; [|apply hexdigest_hex]. intros c Hc. apply negb_true_iff. unfold is_char.
  by destruct (Ascii.eqb_spec "." c) as [<-|].
Qed.
End correct.

Module Witnesses.
#[local] Existing Instance Sample.externals.

Definition key0 : string := "0123456789abcdef0123456789abcdef".
Definition ring0 : Keyring := mk_keyring [("k20231114-62", key0)] "k20231114-62".
Definition authority0 : TokenAuthority := make_authority ring0 3600 30.
Definition no_file : key_file := {| file_stamp := Raise (OSError "no keyring file"); file_text := Raise (OSError "no keyring file") |}.
Definition workload_a : WorkloadBinding := mk_binding (Some "spiffe://example.org/agents/a") None.
Definition identity_a : WorkloadIdentity := mk_identity (Some "spiffe://example.org/agents/a") None true.
Definition later : Z := Sample.start + seconds 60.

Definition issued_a : result string * TokenAuthority :=
  issue no_file Sample.start "entropy" "a" "agent" 900 None (Some workload_a) authority0.
Definition token_a : string := match issued_a.1 with Ok t => t | Raise _ => EmptyString end.
Definition claims_a : Claims := mk_claims "a" "agent" 1700000000 1700000900 (hexdigest "entropy") "k20231114-62" (Some workload_a).
Definition verified (p : option WorkloadIdentity) (at_ : Z) : result Claims :=
  (verify no_file at_ (Some (fun _ => false)) (PStr token_a) p authority0).1.

Lemma issued_run : issued_a = (Ok token_a, authority0).
Proof. vm_compute. reflexivity. Qed.

(** A keyring file whose key id has a dot in it: it is loaded, and what it issues is malformed. *)
Definition dotted_ring : Keyring := mk_keyring [("prod.1", key0)] "prod.1".
Definition dotted_authority : TokenAuthority := make_authority dotted_ring 3600 30.
Definition dotted_run : result string * TokenAuthority :=
  issue no_file Sample.start "entropy" "a" "agent" 900 None (Some workload_a) dotted_authority.
Definition dotted_token : string := match dotted_run.1 with Ok t => t | Raise _ => EmptyString end.
Lemma dotted_issued : dotted_run = (Ok dotted_token, dotted_authority).
Proof. vm_compute. reflexivity. Qed.
Example dotted_ring_loads : load (to_json dotted_ring) = Ok dotted_ring.
Proof. vm_compute. reflexivity. Qed.

Lemma workload_a_wf : wf_binding (Some workload_a).
Proof. intros b [= <-]. vm_compute. reflexivity. Qed.

Lemma token_round_trip_witness :
  verify no_file later (Some (fun _ => false)) (PStr token_a) (Some identity_a) authority0 = (Ok claims_a, authority0)
  /\ (verify no_file later None (PStr dotted_token) (Some identity_a) dotted_authority).1 = Raise (TokenError "TOKEN_MALFORMED").
Proof.
  split.
  - apply (token_round_trip no_file Sample.start "entropy" "a" "agent" token_a 900 None (Some workload_a) authority0 authority0
             issued_run eq_refl workload_a_wf); [discriminate|reflexivity..|].
    apply (admissible_spec later 3600 30 (Some (fun _ => false)) (Some identity_a) claims_a claims_a). vm_compute. reflexivity.
  - apply (token_round_trip no_file Sample.start "entropy" "a" "agent" dotted_token 900 None (Some workload_a) dotted_authority
             dotted_authority dotted_issued eq_refl workload_a_wf). discriminate.
Defined.

Lemma verify_sound_witness : exists k, _current_keyring no_file authority0 = (Ok k, authority0) /\ vouched k (PStr token_a) claims_a.
Proof.
  destruct (verify_sound no_file later (Some (fun _ => false)) (PStr token_a) (Some identity_a) authority0 authority0 claims_a)
    as (k & Hk & Hv & _); [vm_compute; reflexivity|by exists k].
Defined.

(** The token is refused to another workload, to a workload the transport did not verify, when it has
    expired, and a bound token cannot be revoked. *)
Example other_workload : verified (Some (mk_identity (Some "spiffe://example.org/agents/b") None true)) later = Raise (TokenError "TOKEN_BINDING_MISMATCH").
Proof. vm_compute. reflexivity. Qed.
Example unverified_workload : verified (Some (mk_identity (Some "spiffe://example.org/agents/a") None false)) later = Raise (TokenError "TOKEN_BINDING_REQUIRED").
Proof. vm_compute. reflexivity. Qed.
Example expired : verified (Some identity_a) (Sample.start + seconds 900) = Raise (TokenError "TOKEN_EXPIRED").
Proof. vm_compute. reflexivity. Qed.
Example bound_not_revocable :
  (revoke_token no_file later (PStr token_a) (Some SQLite.init) authority0).1.1 = Raise (TokenError "TOKEN_BINDING_REQUIRED").
Proof. vm_compute. reflexivity. Qed.

(** The keyring file is read back, and a payload that is not an object escapes the handler. *)
Example keyring_file : load (to_json ring0) = Ok ring0.
Proof. vm_compute. reflexivity. Qed.
Definition list_body : string := _b64e "[]".
Example list_payload :
  (verify no_file later None (PStr (signed key0 "k20231114-62" list_body)) None authority0).1
  = Raise (AttributeError "object has no attribute 'get'").
Proof. vm_compute. reflexivity. Qed.
End Witnesses.
