(* ===== verification/PyObj.v ===== *)
(** * Dynamic operations of scripts

    What a script does with a value it has just read, whatever that value is: subscripts, [get], [in],
    iteration and [==], each with the exception it raises on a value it does not apply to. *)

From S2P Require Import Prelude Datetime Regex PyVal Externals AuditTrail Identity.

(** ** How a script ends *)

(** It goes on with a value, exits with a message and status 1, or dies of an exception. *)
Inductive script (A : Type) :=
| Done (a : A)
| Exit (msg : string)
| Crash (e : exn).
Arguments Done {A} a.
Arguments Exit {A} msg.
Arguments Crash {A} e.

Definition script_bind {A B} (s : script A) (f : A -> script B) : script B :=
  match s with
  | Done a => f a
  | Exit msg => Exit msg
  | Crash e => Crash e
  end.
(** A value that may raise, in a script that does not catch it. *)
Definition run {A} (r : result A) : script A := match r with Ok a => Done a | Raise e => Crash e end.
(** [if bad: fail(msg)] *)
Definition fail_if (bad : bool) (msg : string) : script unit := if bad then Exit msg else Done tt.

Notation "'let*' x ':=' r 'in' k" := (script_bind r (fun x => k))
  (at level 10, x pattern, r at level 100, k at level 200) : result_scope.
Notation "r '*?' k" := (script_bind r (fun _ => k)) (at level 199, right associativity) : result_scope.

(** [for x in l: f(x)] *)
Fixpoint for_each {A} (f : A -> script unit) (l : list A) : script unit :=
  match l with [] => Done tt | x :: l' => f x *? for_each f l' end.

Lemma script_bind_done {A B} (s : script A) (f : A -> script B) b : script_bind s f = Done b <-> exists a, s = Done a /\ f a = Done b.
Proof. destruct s; simpl; naive_solver. Qed.
Lemma run_done {A} (r : result A) a : run r = Done a <-> r = Ok a.
Proof. destruct r; simpl; naive_solver. Qed.
Lemma fail_if_done bad msg : fail_if bad msg = Done tt <-> bad = false.
Proof. by destruct bad. Qed.
Lemma for_each_done {A} (f : A -> script unit) l : for_each f l = Done tt <-> Forall (fun x => f x = Done tt) l.
Proof.
  induction l as [|x l IH]; cbn [for_each]; [split; constructor|]. rewrite script_bind_done, Forall_cons, <- IH.
  split; [by intros ([] & ? & ?)|intros [? ?]; by exists tt].
Qed.

(** ** Operations *)

(** [v[k]] and [v.get(k, fallback)] for a text [k]. *)
Definition item_of (v : pyval) (k : string) : result pyval :=
  match v with PDict d => get_item k d | _ => Raise (TypeError "object is not subscriptable by a string") end.
Definition get_of (v : pyval) (k : string) (fallback : pyval) : result pyval :=
  match v with PDict d => Ok (default fallback (dget k d)) | _ => Raise (AttributeError "object has no attribute 'get'") end.

(** [for x in v] *)
Definition elements (v : pyval) : result (list pyval) :=
  match v with
  | PList l | PTuple l => Ok l
  | PDict d => Ok (map (fun kv => PStr kv.1) d)
  | PStr s => Ok (map (fun c => PStr (chr1 c)) (String.list_ascii_of_string s))
  | _ => Raise (TypeError "object is not iterable")
  end.

(** [k in v] for a text [k]. *)
Definition has_text (k s : string) : bool := match String.index 0 k s with Some _ => true | None => false end.
Definition contains_key (k : string) (v : pyval) : result bool :=
  match v with
  | PDict d => Ok (dmem k d)
  | PList l | PTuple l => Ok (existsb (fun x => equals_str x k) l)
  | PStr s => Ok (has_text k s)
  | _ => Raise (TypeError "argument is not iterable")
  end.

(** [d.items()] *)
Definition items_of (v : pyval) : result (dict pyval) :=
  match v with PDict d => Ok d | _ => Raise (AttributeError "object has no attribute 'items'") end.

(** [v in (m, n)], of integers or of texts. *)
Definition in_ints (l : list Z) (v : pyval) : bool := existsb (equals_int v) l.
Definition in_strs (l : list string) (v : pyval) : bool := existsb (equals_str v) l.

(** A text filled up with spaces, [f"{s:<34}"]. *)
Definition ljust (width : Z) (s : string) : string := s +:+ Nat.iter (Z.to_nat (width - py_len s)) (String " ") EmptyString.

(** [hash(v)] *)
Fixpoint hashable (v : pyval) : bool :=
  match v with PList _ | PDict _ => false | PTuple l => forallb hashable l | _ => true end.

(** ** Equality *)

(** A number with an integer value is that integer, whatever its type. *)
Definition float_eq (f g : pyfloat) : bool :=
  match f, g with
  | Finite r, Finite s => String.eqb r s || (str_in r ["0.0"; "-0.0"] && str_in s ["0.0"; "-0.0"])
  | NonFinite r, NonFinite s => String.eqb r s && negb (String.eqb r "nan")
  | _, _ => false
  end.
(** Aware moments are equal when they are the same instant; a naive one is equal to no aware one. *)
Definition datetime_eq (t u : datetime) : bool :=
  match dt_offset t, dt_offset u with
  | None, None => dt_local t =? dt_local u
  | Some o, Some p => dt_local t - o =? dt_local u - p
  | _, _ => false
  end.

Fixpoint py_eq (v w : pyval) {struct v} : bool :=
  let fix all (l m : list pyval) : bool :=
    match l, m with
    | [], [] => true
    | x :: l', y :: m' => py_eq x y && all l' m'
    | _, _ => false
    end in
  match v, w with
  | PNone, PNone => true
  | PInt n, _ => equals_int w n
  | PBool b, _ => equals_int w (if b then 1 else 0)
  | PFloat f, PInt n => equals_int v n
  | PFloat f, PBool b => equals_int v (if b then 1 else 0)
  | PFloat f, PFloat g => float_eq f g
  | PStr s, PStr t => String.eqb s t
  | PList l, PList m | PTuple l, PTuple m => all l m
  | PDict d, PDict e =>
      (length d =? length e)%nat
      && (fix entries (d : list (string * pyval)) : bool :=
            match d with
            | [] => true
            | (k, x) :: d' => match dget k e with Some y => py_eq x y | None => false end && entries d'
            end) d
  | PDatetime t, PDatetime u => datetime_eq t u
  | PDate t, PDate u => dt_local t =? dt_local u
  | POther r, POther s => String.eqb r s
  | _, _ => false
  end.

(** Texts are equal to themselves alone, and a list of texts to the same list. *)
Lemma py_eq_str v s : py_eq v (PStr s) = true <-> v = PStr s.
Proof. rewrite <- equals_str_spec. by destruct v as [| | |[]| | | | | | |]. Qed.
Lemma py_eq_strs v ss : py_eq v (PList (map PStr ss)) = true <-> v = PList (map PStr ss).
Proof.
  destruct v as [| | |[]| |l|l| | | |]; simpl; try done. revert l. induction ss as [|s ss IH]; intros [|x l]; try done.
  cbn [map]. rewrite andb_true_iff, py_eq_str, IH. naive_solver.
Qed.
Lemma py_eq_dict_nil v : py_eq v (PDict []) = true <-> v = PDict [].
Proof. by destruct v as [| | |[]| | | |[|[]]| | |]. Qed.
Lemma equals_int_spec v n : equals_int v n = true ->
  v = PInt n \/ (exists b : bool, v = PBool b /\ (if b then 1 else 0) = n) \/ exists r, v = PFloat (Finite r).
Proof. destruct v as [|b|z|[]| | | | | | |]; simpl; try done; [intros Hn; right; left; exists b; split; [done|lia]|intros Hn; left; f_equal; lia|eauto]. Qed.
