(* ===== verification/Api.v ===== *)
(** * The HTTP boundary: src/capgate/api.py

    [dispatch] takes a framed request - method, target, headers, body, client address, workload - and
    gives a response: the client's rate limit, authentication, the principal's rate limit, then one of
    the handlers, each of which calls the harness. An exception becomes a 500, recorded.

    The state is the harness's world, the limiter with the rate tables of its store, and the token
    authority. Every reading of a clock and of the keyring file a request makes is an argument. *)

From S2P Require Import Prelude Datetime Regex PyVal Externals Json Request Decision NetAddr Timeutil Capability Contract Policy State AuditTrail Effects Interceptor Executor Harness System RateLimit Base64 Workload Identity.

Definition MAX_BODY : Z := 1000000.
Definition _APPROVAL_ID : re := let c := Chr (fun c => is_alnum c || is_char "-" c) in Cat c (up_to 63 c).

Record Response := mk_response {
  r_status : Z;
  r_body : pyval;
  r_headers : dict string;
  r_close : bool;
  r_empty : bool;
}.
Definition response (status : Z) (body : dict pyval) : Response := mk_response status (PDict body) [] false false.
Definition error_response (status : Z) (text : string) : Response := response status [("error", PStr text)].

(** ** Texts *)

(** [method.upper()], as far as it can meet GET, POST or HEAD: besides the small letters, U+017F has
    the upper case S, and U+FB05 and U+FB06 have ST. *)
Definition upper_ascii (c : ascii) : ascii := if is_lower c then char_of (byte_of c - 32) else c.
Fixpoint py_upper (s : string) : string :=
  match s with
  | EmptyString => EmptyString
  | String a s1 =>
      match s1 with
      | String b s2 =>
          if (byte_of a =? 197) && (byte_of b =? 191) then String "S" (py_upper s2)
          else match s2 with
               | String c s3 =>
                   if (byte_of a =? 239) && (byte_of b =? 172) && ((byte_of c =? 133) || (byte_of c =? 134))
                   then String "S" (String "T" (py_upper s3))
                   else String (upper_ascii a) (py_upper s1)
               | EmptyString => String (upper_ascii a) (py_upper s1)
               end
      | EmptyString => String (upper_ascii a) (py_upper s1)
      end
  end.

(** [s[:n]], by code points. *)
Fixpoint py_take (n : nat) (s : string) : string :=
  match s with
  | EmptyString => EmptyString
  | String c s' =>
      if is_continuation c then String c (py_take n s')
      else match n with O => EmptyString | Datatypes.S n' => String c (py_take n' s') end
  end.

Definition path_of (target : string) : string := (partition_on "?" target).1.1.
Definition lower_keys (headers : dict string) : dict string :=
  foldl (fun d '(k, v) => dset (py_lower k) v d) [] headers.
Definition nonempty (o : option string) : option string :=
  match o with Some EmptyString | None => None | Some s => Some s end.

(** ** Bodies *)

Definition _json_object `{Externals} (body : option string) : option (dict pyval) :=
  match body with
  | None => None
  | Some b =>
      if MAX_BODY <? Z.of_nat (String.length b) then None
      else match json_bytes_strict (if s_is_empty b then "{}" else b) with
           | Ok (PDict d) => Some d
           | _ => None
           end
  end.

Definition _arguments (body : dict pyval) : pyval :=
  match pget "arguments" body with PNone => PDict [] | args => args end.

(** Whether [json.dumps] can write a value; unlike in canonical JSON the non-finite floats are allowed. *)
Fixpoint serializable (v : pyval) : bool :=
  match v with
  | PNone | PBool _ | PInt _ | PFloat _ | PStr _ => true
  | PDatetime _ | PDate _ | POther _ => false
  | PList l | PTuple l => forallb serializable l
  | PDict d => forallb (fun '(_, x) => serializable x) d
  end.

Definition authorization_to_dict `{Externals} (r : AuthorizationResult) : dict pyval :=
  decision_to_dict (ar_decision r) ++ [("approval_id", ostr (ar_approval_id r))].

(** [json.dumps(v, default=str)] with its separators; non-finite floats are written, what has no JSON form
    by its [str]. *)
Fixpoint dumps (item_sep key_sep : string) (v : pyval) : string :=
  let quoted s := ascii_escape (quote s) in
  match v with
  | PNone => "null"
  | PBool b => if b then "true" else "false"
  | PInt z => show_Z z
  | PFloat (Finite r) => r
  | PFloat (NonFinite r) => nonfinite_text r
  | PStr s => quoted s
  | PList l | PTuple l => "[" +:+ s_concat item_sep (map (dumps item_sep key_sep) l) +:+ "]"
  | PDict d => "{" +:+ s_concat item_sep (map (fun '(k, x) => quoted k +:+ key_sep +:+ dumps item_sep key_sep x) d) +:+ "}"
  | PDatetime _ | PDate _ | POther _ => quoted (py_str v)
  end.
(** What is written of an ASCII value that a reader could return, is printable and read back. *)
Lemma dumps_print `{Externals} constants item_sep key_sep v : clean_val v = true -> readable constants v = true ->
  dumps item_sep key_sep v = print_with item_sep key_sep v.
Proof.
  induction v as [| | |[]| |l IH|l IH|d IH| | |] using pyval_rect_nested; intros Hc Hp; try done; cbn [dumps print_with clean_val readable] in *.
  - by apply quote_clean.
  - do 2 f_equal. f_equal. apply List.map_ext_Forall. rewrite forallb_forall in Hc, Hp. rewrite Forall_forall in *. intros x Hx.
    pose proof (proj1 (list_elem_of_In _ _) Hx). apply IH; auto.
  - apply andb_true_iff in Hp as [_ Hp]. do 3 f_equal. apply List.map_ext_Forall. rewrite forallb_forall in Hc, Hp. rewrite Forall_forall in *.
    intros [k x] Hx. pose proof (proj1 (list_elem_of_In _ _) Hx) as Hin. specialize (Hc _ Hin). specialize (Hp _ Hin). cbn beta iota in *.
    apply andb_true_iff in Hc as [Hk Hc]. pose proof (IH (k, x) Hx Hc Hp) as E. cbn [snd] in E. by rewrite quote_clean, E by done.
Qed.
Lemma loads_dumps `{Externals} constants item_sep key_sep v : separator "," item_sep -> separator ":" key_sep ->
  clean_val v = true -> readable constants v = true -> loads_with constants (dumps item_sep key_sep v) = Some v.
Proof. intros Hi Hk Hc Hp. rewrite (dumps_print constants) by done. by apply loads_print_with. Qed.
Lemma printable_dumps `{Externals} constants item_sep key_sep v : printable item_sep = true -> printable key_sep = true ->
  clean_val v = true -> readable constants v = true -> printable (dumps item_sep key_sep v) = true.
Proof. intros Hi Hk Hc Hp. rewrite (dumps_print constants) by done. by apply printable_print_with. Qed.
Lemma printable_bytes `{Externals} constants s : printable s = true ->
  json_bytes_with constants s = match loads_with constants s with Some v => Ok v | None => Raise (ValueError "Expecting value") end.
Proof.
  intros Hp. unfold json_bytes_with. assert (is_ascii s = true) as -> by (eapply s_forall_impl; [|exact Hp]; intros c; unfold in_range; lia).
  assert (s_forall (fun c => 0 <? byte_of c) s = true) as -> by (eapply s_forall_impl; [|exact Hp]; intros c; unfold in_range; lia).
  done.
Qed.
(** The value survives the encoding and the decoding of bytes. *)
Lemma bytes_round_trip `{Externals} constants item_sep key_sep v :
  separator "," item_sep -> separator ":" key_sep -> printable item_sep = true -> printable key_sep = true ->
  clean_val v = true -> readable constants v = true -> json_bytes_with constants (dumps item_sep key_sep v) = Ok v.
Proof.
  intros Hi Hk Hpi Hpk Hc Hp. rewrite printable_bytes by by apply (printable_dumps constants). by rewrite loads_dumps.
Qed.
Lemma dumps_nonempty `{Externals} constants item_sep key_sep v : separator "," item_sep -> separator ":" key_sep ->
  clean_val v = true -> readable constants v = true -> s_is_empty (dumps item_sep key_sep v) = false.
Proof.
  intros Hi Hk Hc Hp. pose proof (loads_dumps constants item_sep key_sep v Hi Hk Hc Hp) as Hl.
  destruct (dumps item_sep key_sep v); [|done]. discriminate Hl.
Qed.

Lemma plain_serializable `{Externals} v : plain v = true -> serializable v = true.
Proof.
  induction v as [| | |[]| |l IH|l IH|d IH| | |] using pyval_rect_nested; intros Hp; try done; cbn [plain serializable] in *.
  - apply forallb_forall. intros x Hx. rewrite forallb_forall in Hp. rewrite Forall_forall in IH. apply IH; [by apply list_elem_of_In|auto].
  - apply andb_true_iff in Hp as [_ Hp]. apply forallb_forall. intros [k x] Hx. rewrite forallb_forall in Hp. rewrite Forall_forall in IH.
    by apply (IH (k, x)); [apply list_elem_of_In|apply (Hp _ Hx)].
Qed.

Definition encode (r : Response) : string := if r_empty r then EmptyString else dumps "," ":" (r_body r).

Definition exn_name (e : exn) : string :=
  match e with
  | MalformedRequest _ => "MalformedRequest" | CapabilityError _ => "CapabilityError" | ContractError _ => "ContractError"
  | ExecutionRefused _ _ => "ExecutionRefused" | ApprovalError _ => "ApprovalError" | TokenError _ => "TokenError"
  | AuditIntegrityError _ => "AuditIntegrityError" | InvalidHost _ => "InvalidHost" | WorkloadError _ => "WorkloadError"
  | TaskError _ => "TaskError" | InputError _ => "InputError" | DestinationRefused _ => "DestinationRefused"
  | UpstreamError _ => "UpstreamError" | RuntimeError _ => "RuntimeError"
  | FileNotFoundError _ => "FileNotFoundError"
  | ValueError _ => "ValueError" | KeyError _ => "KeyError" | TypeError _ => "TypeError" | AttributeError _ => "AttributeError"
  | OverflowError _ => "OverflowError" | ZeroDivisionError => "ZeroDivisionError" | StopIteration => "StopIteration" | IndexError _ => "IndexError" | OSError _ => "OSError"
  end.

(** ** The state and the monad of a request *)

(** [round(x, 2)] as a JSON value, and [math.ceil(x)]. *)
Class Rounding `{Arith} := { round2 : num -> pyval; ceil : num -> Z }.

Record api (S : Type) `{Arith} := mk_api {
  ap_world : world S;
  ap_limits : limits;
  ap_authority : TokenAuthority;
}.
Arguments mk_api {S _}. Arguments ap_world {S _}. Arguments ap_limits {S _}. Arguments ap_authority {S _}.

(** What a request finds outside: the monotonic clock when the limiter reads it for the client, for a
    failure and for the principal, the wall clock and the keyring file when its token is verified. *)
Record arrival `{Arith} := mk_arrival {
  at_client : num;
  at_failure : num;
  at_principal : num;
  at_verify : Z;
  at_keyring : key_file;
}.

Record http_request := mk_http {
  h_method : string;
  h_target : string;
  h_headers : dict string;
  h_body : option string;
  h_client : string;
  h_workload : option WorkloadIdentity;
}.

Section monad.
Context {S : Type} `{Arith}.

Definition A (X : Type) : Type := api S -> result X * api S.
Definition a_ret {X} (x : X) : A X := fun s => (Ok x, s).
Definition a_bind {X Y} (m : A X) (f : X -> A Y) : A Y := fun s =>
  match m s with (Ok x, s') => f x s' | (Raise e, s') => (Raise e, s') end.
Definition a_try {X} (m : A X) (handler : exn -> A X) : A X := fun s =>
  match m s with (Ok x, s') => (Ok x, s') | (Raise e, s') => handler e s' end.
Definition a_raise {X} (e : exn) : A X := fun s => (Raise e, s).
Definition a_lift {X} (r : result X) : A X := fun s => (r, s).
(** Calls into the harness, the limiter and the authority. *)
Definition in_harness {X} (m : M S X) : A X := fun s =>
  let '(r, w) := m (ap_world s) in (r, mk_api w (ap_limits s) (ap_authority s)).
Definition in_limiter {X} (f : limits -> result (X * limits)) : A X := fun s =>
  match f (ap_limits s) with
  | Ok (x, l) => (Ok x, mk_api (ap_world s) l (ap_authority s))
  | Raise e => (Raise e, s)
  end.
Definition in_authority {X} (f : S -> TokenAuthority -> result X * TokenAuthority) : A X := fun s =>
  let '(r, t) := f (w_store (ap_world s)) (ap_authority s) in (r, mk_api (ap_world s) (ap_limits s) t).
End monad.
Arguments A : clear implicits. Arguments A S {_}.

Declare Scope api_scope.
Delimit Scope api_scope with api.
Notation "'let@' x ':=' m 'in' k" := (a_bind m (fun x => k))
  (at level 10, x pattern, m at level 100, k at level 200) : api_scope.
#[global] Open Scope api_scope.

Section api.
Context {S : Type} `{StateStore S} `{Externals} `{Tools} `{Arith} `{!Rounding}.
Variable cf : config.

(** [_extra_routes]: handlers mounted by method and path. *)
Variable extra : string -> string -> option (string -> string -> dict string -> A S Response).

Definition approvers : list string := concat (map tc_approvers (dvalues (cf_contracts cf))).

Definition _identity_mismatch (agent : string) (body : dict pyval) (action : pyval) : A S (option (Z * dict pyval)) :=
  let claimed := pget "agent_id" body in
  if is_none claimed || equals_str claimed agent then a_ret None
  else
    let@ d := in_harness (reject_before_policy cf (PStr agent)
                (match action with PStr a => PStr a | _ => PStr "invalid" end) IDENTITY_MISMATCH
                ("authenticated as " +:+ repr_str agent +:+ " but request claimed " +:+ repr_str (py_take 100 (py_str claimed)))) in
    a_ret (Some (403, decision_to_dict d)).

(** ** Response shaping *)

Definition respond (res : AuthorizationResult) : A S (Z * dict pyval) :=
  let payload := authorization_to_dict res in
  if escalated (ar_decision res) then a_ret (202, payload)
  else if negb (ar_allowed res) then a_ret (403, payload)
  else a_try
         (let@ out := in_harness (harness_execute cf res) in
          a_ret (200, payload ++ [("execution", PDict (result_to_dict out))]))
         (fun e => match e with
                   | ExecutionRefused reason _ =>
                       a_ret (502, payload ++ [("execution", PDict [("status", PStr "refused"); ("reason", PStr reason)])])
                   | e => a_raise e
                   end).

Definition respond_delegation (d : DelegationResult) : A S (Z * dict pyval) :=
  let first := PDict (authorization_to_dict (dl_delegation d)) in
  match dl_action d with
  | None =>
      if escalated (ar_decision (dl_delegation d)) then a_ret (202, [("delegation", first); ("action", PNone)])
      else a_ret (403, [("delegation", first); ("action", PNone); ("blocked_at", PStr "sender")])
  | Some res =>
      let@ (status, payload) := respond res in
      a_ret (status, [("delegation", first); ("action", PDict payload)]
                       ++ if status =? 403 then [("blocked_at", PStr "recipient")] else [])
  end.

(** ** Handlers *)

Definition handle_action (agent : string) (body : dict pyval) : A S (Z * dict pyval) :=
  let@ mismatch := _identity_mismatch agent body (default (PStr "invalid") (dget "action" body)) in
  match mismatch with
  | Some refused => a_ret refused
  | None =>
      let@ res := in_harness (authorize cf (PStr agent) (pget "action" body) (_arguments body) (pget "contract_id" body)) in
      respond res
  end.

Definition handle_message (agent : string) (body : dict pyval) : A S (Z * dict pyval) :=
  let@ mismatch := _identity_mismatch agent body (PStr "agent.message") in
  match mismatch with
  | Some refused => a_ret refused
  | None =>
      let@ res := in_harness (send_message cf (PStr agent) (pget "to" body) (pget "body" body) (pget "contract_id" body)) in
      a_ret (if escalated (ar_decision res) then 202 else if ar_allowed res then 200 else 403, authorization_to_dict res)
  end.

Definition handle_delegation (agent : string) (body : dict pyval) : A S (Z * dict pyval) :=
  let@ mismatch := _identity_mismatch agent body (PStr "agent.delegate") in
  match mismatch with
  | Some refused => a_ret refused
  | None =>
      let@ d := in_harness (delegate cf (PStr agent) (pget "to" body) (pget "action" body) (_arguments body) (pget "contract_id" body)) in
      respond_delegation d
  end.

(** [annotate_approval(approval_id, result=payload)]: the record is written as JSON. *)
Definition annotate_result (approval_id : string) (payload : dict pyval) : A S unit :=
  let@ record := in_harness (approval_record approval_id) in
  match record with
  | Some _ =>
      if serializable (PDict payload) then in_harness (annotate_approval approval_id [("result", PDict payload)])
      else a_raise (TypeError "Object is not JSON serializable")
  | None => a_ret tt
  end.

Definition handle_approval (approver approval_id : string) (body : dict pyval) : A S (Z * dict pyval) :=
  let verdict := pget "verdict" body in
  let note := py_take 2000 (match pget "note" body with PStr n => n | _ => EmptyString end) in
  if negb (equals_str verdict "approve" || equals_str verdict "reject")
  then a_ret (400, [("error", PStr "verdict must be 'approve' or 'reject'")])
  else
    let@ outcome :=
      a_try (if equals_str verdict "approve"
             then let@ r := in_harness (approve cf approval_id approver note) in a_ret (inl r)
             else let@ r := in_harness (reject cf approval_id approver note) in a_ret (inl (Approved r)))
            (fun e => match e with
                      | ApprovalError text => a_ret (inr (403, [("error", PStr text)]))
                      | e => a_raise e
                      end) in
    match outcome with
    | inr refused => a_ret refused
    | inl r =>
        let@ (status, payload) := match r with
                                  | Approved res => respond res
                                  | ApprovedDelegation d => respond_delegation d
                                  end in
        let@ _ := annotate_result approval_id payload in
        a_ret (status, payload)
    end.

Definition approval_entry (p : PendingApproval) : pyval :=
  PDict (dupdate (dupdate [("approval_id", PStr (pa_approval_id p))] (decision_to_dict (pa_decision p)))
           [("arguments", PDict (arguments_copy (d_request (pa_decision p))))]).
Definition may_list (approver : string) (p : PendingApproval) : bool :=
  match dget (default EmptyString (d_contract_id (pa_decision p))) (cf_contracts cf) with
  | Some c => str_in approver (tc_approvers c)
  | None => false
  end.
Definition list_approvals (approver : string) : A S (list pyval) :=
  let@ l := in_harness pending_approvals in
  a_ret (map approval_entry (List.filter (may_list approver) l)).

(** [record["decision"]["request"]["agent_id"]] *)
Definition owner_of (record : dict pyval) : result pyval :=
  let? decision := (let? v := key "decision" record in want_dict v) in
  let? r := (let? v := key "request" decision in want_dict v) in
  key "agent_id" r.
Definition approval_status (agent approval_id : string) : A S (Z * dict pyval) :=
  let@ record := in_harness (approval_record approval_id) in
  match record with
  | Some ((_ :: _) as rec) =>
      let@ owner := a_lift (owner_of rec) in
      if negb (equals_str owner agent) then a_ret (404, [("error", PStr "unknown approval")])
      else
        let@ status := a_lift (key "status" rec) in
        a_ret (200, [("approval_id", PStr approval_id); ("status", status); ("verdict", pget "verdict" rec);
                     ("resulting_decision_id", pget "resulting_decision_id" rec); ("result", pget "result" rec)])
  | _ => a_ret (404, [("error", PStr "unknown approval")])
  end.
End api.

(** ** Identity, limits, routing *)

Section dispatch.
Context {S : Type} `{StateStore S} `{Externals} `{Tools} `{Arith} `{!Rounding}.
Variable cf : config.
Variable extra : string -> string -> option (string -> string -> dict string -> A S Response).

(** The agent, the approver, or the reason for there being neither. *)
Definition principal_of (c : Claims) : option string * option string * option string :=
  if String.eqb (role c) "agent" && is_agent cf (sub c) then (Some (sub c), None, None)
  else if String.eqb (role c) "approver" && str_in (sub c) (approvers cf) && negb (is_agent cf (sub c))
  then (None, Some (sub c), None)
  else (None, None, Some "TOKEN_UNKNOWN_PRINCIPAL").

Definition identify (a : arrival) (header : option string) (workload : option WorkloadIdentity) :
    A S (option string * option string * option string) :=
  match header ≫= strip_prefix "Bearer " with
  | None => a_ret (None, None, Some "TOKEN_MISSING")
  | Some rest =>
      a_try
        (let@ c := in_authority (fun s => verify (at_keyring a) (at_verify a) (Some (fun t => is_revoked t s))
                                            (PStr (py_strip rest)) workload) in
         a_ret (principal_of c))
        (fun e => match e with
                  | TokenError reason => a_ret (None, None, Some reason)
                  | e => a_raise e
                  end)
  end.

Definition _limited (a : arrival) (retry : num) (scope k client path : string) : A S Response :=
  let@ (record, suppressed) := in_limiter (audit_auth_failure (scope +:+ ":" +:+ k) (at_failure a)) in
  let@ _ := (if record : bool
             then in_harness (audit "rate_limited"
                    [("scope", PStr scope); ("principal", if String.eqb scope "principal" then PStr k else PNone);
                     ("client", PStr client); ("path", PStr (py_take 200 path)); ("suppressed_since_last", PInt suppressed)])
             else a_ret tt) in
  a_ret (mk_response 429 (PDict [("error", PStr "rate limited"); ("retry_after_seconds", round2 retry)])
           [("Retry-After", show_Z (Z.max 1 (ceil retry)))] true false).

(** Client limit, authentication, principal limit: a refusal, or the agent and the approver. *)
Definition _gate (a : arrival) (path method : string) (authorization : option string) (client : string)
    (workload : option WorkloadIdentity) : A S (Response + option string * option string) :=
  let@ (allowed, retry) := in_limiter (limit_client client (at_client a)) in
  if negb allowed then let@ r := _limited a retry "client" client client path in a_ret (inl r)
  else
    let@ (agent, approver, failure) := identify a authorization workload in
    match failure with
    | Some reason =>
        let@ (record, suppressed) := in_limiter (audit_auth_failure client (at_failure a)) in
        let@ _ := (if record : bool
                   then in_harness (audit "authentication_failed"
                          [("path", PStr (py_take 200 path)); ("method", PStr method);
                           ("reason_code", PStr (reason_value UNAUTHENTICATED)); ("credential_error", PStr reason);
                           ("client", PStr client); ("suppressed_since_last", PInt suppressed)])
                   else a_ret tt) in
        a_ret (inl (mk_response 401 (PDict [("error", PStr "unauthenticated")]) [("WWW-Authenticate", "Bearer")] true false))
    | None =>
        let principal := default EmptyString (match nonempty agent with Some x => Some x | None => approver end) in
        let@ (allowed, retry) := in_limiter (limit_principal principal (at_principal a)) in
        if negb allowed then let@ r := _limited a retry "principal" principal client path in a_ret (inl r)
        else a_ret (inr (nonempty agent, nonempty approver))
    end.

Definition not_found : Response := error_response 404 "not found".
Definition reply (m : A S (Z * dict pyval)) : A S Response :=
  let@ (status, body) := m in a_ret (response status body).

Definition get_routes (path : string) (agent approver : option string) : A S Response :=
  match agent, approver with
  | Some agent, _ =>
      if String.eqb path "/v1/messages" then
        let@ l := in_harness (receive agent) in
        a_ret (response 200 [("messages", PList (map (fun m => PDict [("message_id", m_message_id m); ("sender", m_sender m);
                 ("recipient", m_recipient m); ("body", m_body m); ("decision_id", m_decision_id m)]) l))])
      else
        match strip_prefix "/v1/approvals/" path with
        | Some approval_id =>
            if match_dollar _APPROVAL_ID approval_id then reply (approval_status agent approval_id)
            else a_ret (error_response 404 "unknown approval")
        | None => a_ret not_found
        end
  | None, Some approver =>
      if String.eqb path "/v1/approvals" then
        let@ l := list_approvals cf approver in a_ret (response 200 [("approvals", PList l)])
      else a_ret not_found
  | None, None => a_ret not_found
  end.

Definition post_routes (path : string) (agent approver : option string) (data : dict pyval) : A S Response :=
  match agent, approver with
  | Some agent, _ =>
      if String.eqb path "/v1/actions" then reply (handle_action cf agent data)
      else if String.eqb path "/v1/messages" then reply (handle_message cf agent data)
      else if String.eqb path "/v1/delegations" then reply (handle_delegation cf agent data)
      else a_ret not_found
  | None, Some approver =>
      match strip_prefix "/v1/approvals/" path with
      | Some approval_id =>
          if match_dollar _APPROVAL_ID approval_id then reply (handle_approval cf approver approval_id data)
          else a_ret (error_response 404 "unknown approval")
      | None => a_ret not_found
      end
  | None, None => a_ret not_found
  end.

(** What follows the gate. *)
Definition route (method path : string) (headers : dict string) (body : option string) (agent approver : option string) : A S Response :=
  match extra method path with
  | Some handler =>
      match agent with
      | Some agent => handler agent (default EmptyString body) headers
      | None => a_ret not_found
      end
  | None =>
      if String.eqb method "GET" then get_routes path agent approver
      else match _json_object body with
           | None => a_ret (mk_response 400 (PDict [("error", PStr "request body must be a JSON object under 1MB")]) [] true false)
           | Some data => post_routes path agent approver data
           end
  end.

Definition _dispatch (a : arrival) (method path : string) (headers : dict string) (body : option string) (client : string)
    (workload : option WorkloadIdentity) : A S Response :=
  if String.eqb path "/v1/health" then
    a_ret (if str_in method ["GET"; "HEAD"] then response 200 [("ok", PBool true)] else error_response 405 "method not allowed")
  else if negb (str_in method ["GET"; "POST"]) then
    a_ret (mk_response 405 (PDict [("error", PStr "method not allowed")]) [("Allow", "GET, POST")] false false)
  else
    let@ gate := _gate a path method (dget "authorization" headers) client workload in
    match gate with
    | inl refused => a_ret refused
    | inr (agent, approver) => route method path headers body agent approver
    end.

(** [except Exception]: recorded by its class, answered by a 500. *)
Definition server_error (path : string) (e : exn) : A S Response :=
  let@ _ := in_harness (audit "server_error" [("path", PStr (py_take 200 path)); ("error", PStr (exn_name e))]) in
  a_ret (mk_response 500 (PDict [("error", PStr "internal error; nothing was executed unless an execution record exists")]) [] true false).
Definition dispatch (a : arrival) (r : http_request) : A S Response :=
  let path := path_of (h_target r) in
  a_try (_dispatch a (py_upper (h_method r)) path (lower_keys (h_headers r)) (h_body r) (h_client r) (h_workload r))
    (server_error path).

(** [HarnessAPI.__init__]: the limiter over the harness's store. *)
Definition make_api_limiter (c : option RateLimitConfig) : result RateLimiter :=
  if cf_simulate cf then Raise (ValueError "the HTTP API runs in enforce mode; use `capgate simulate` for dry runs")
  else make_limiter (default default_config c) true.
End dispatch.

(** ** Requests without a valid token *)

Section correct.
Context {S : Type} `{StateStore S} `{Externals} `{Tools} `{Arith} `{!Rounding}.
Variable cf : config.
Variable extra : string -> string -> option (string -> string -> dict string -> A S Response).

(** Counters, grants, approvals, messages and the tools are as they were. *)
Definition inert (s s' : api S) : Prop :=
  w_store (ap_world s') = w_store (ap_world s) /\ w_ledger (ap_world s') = w_ledger (ap_world s).

Lemma inert_refl s : inert s s.
Proof. done. Qed.
Lemma inert_trans s1 s2 s3 : inert s1 s2 -> inert s2 s3 -> inert s1 s3.
Proof. intros [? ?] [? ?]. split; congruence. Qed.

(** A step that leaves the store, the tools and the authority alone. *)
Definition quiet {X} (m : A S X) : Prop := forall s, inert s (m s).2 /\ ap_authority (m s).2 = ap_authority s.

Lemma quiet_ret {X} (x : X) : quiet (a_ret x).
Proof. by intros s. Qed.
Lemma quiet_limiter {X} (f : limits -> result (X * limits)) : quiet (in_limiter f).
Proof. intros s. unfold in_limiter. by destruct (f (ap_limits s)) as [[x l]|e]. Qed.
Lemma quiet_audit event fields : quiet (in_harness (audit event fields)).
Proof.
  intros s. unfold in_harness. destruct (audit event fields (ap_world s)) as [[u|e] w] eqn:Ea.
  - by apply audit_ok in Ea as (_ & ? & ?).
  - by apply audit_raise in Ea as (_ & ? & ?).
Qed.
Lemma quiet_bind {X Y} (m : A S X) (f : X -> A S Y) : quiet m -> (forall x, quiet (f x)) -> quiet (a_bind m f).
Proof.
  intros Hm Hf s. unfold a_bind. specialize (Hm s). destruct (m s) as [[x|e] s1]; [|done]. destruct Hm as [Hi Ha].
  destruct (Hf x s1) as [Hi' Ha']. split; [by eapply inert_trans|by rewrite Ha'].
Qed.
Lemma quiet_if {X} (b : bool) (m m' : A S X) : quiet m -> quiet m' -> quiet (if b then m else m').
Proof. by destruct b. Qed.

Lemma quiet_limited a retry scope k client path : quiet (_limited a retry scope k client path).
Proof.
  apply quiet_bind; [apply quiet_limiter|]. intros [record n]. apply quiet_bind; [|intros; apply quiet_ret].
  apply quiet_if; [apply quiet_audit|apply quiet_ret].
Qed.

Lemma quiet_server_error path e : quiet (server_error path e).
Proof. apply quiet_bind; [apply quiet_audit|intros; apply quiet_ret]. Qed.

(** Whom a verified token speaks for: its subject as an agent, if the token is an agent's and the subject is
    bound to a contract; or as an approver, if the token is an approver's and the subject is listed by some
    contract and is no agent. *)
Definition speaks_for (c : Claims) (agent approver : option string) : Prop :=
  (role c = "agent" /\ sub c ∈ dkeys (cf_bindings cf) /\ agent = Some (sub c) /\ approver = None)
  \/ (role c = "approver" /\ (exists id contract, (id, contract) ∈ cf_contracts cf /\ sub c ∈ tc_approvers contract)
      /\ sub c ∉ dkeys (cf_bindings cf) /\ agent = None /\ approver = Some (sub c)).

Lemma approvers_spec x : x ∈ approvers cf <-> exists id contract, (id, contract) ∈ cf_contracts cf /\ x ∈ tc_approvers contract.
Proof.
  unfold approvers, dvalues. rewrite list_elem_of_In, in_concat. setoid_rewrite in_map_iff. setoid_rewrite <- list_elem_of_In. split.
  - intros (l & (contract & <- & Hc) & Hx). apply list_elem_of_fmap in Hc as ([id c] & -> & Hc). eauto.
  - intros (id & contract & Hc & Hx). eexists. split; [|exact Hx]. exists contract. split; [done|].
    apply list_elem_of_fmap. by exists (id, contract).
Qed.

Lemma principal_of_spec c agent approver : principal_of cf c = (agent, approver, None) <-> speaks_for c agent approver.
Proof.
  unfold principal_of, speaks_for, is_agent. rewrite <- approvers_spec. setoid_rewrite <- dmem_spec.
  destruct (String.eqb_spec (role c) "agent") as [Hr|Hr], (dmem (sub c) (cf_bindings cf)) eqn:Ea; cbn [andb negb];
    rewrite ?andb_false_r, ?andb_true_r.
  - split; [intros [= <- <-]; left; by split_and!|]. intros [(_ & _ & -> & ->)|(_ & _ & Hn & _)]; [done|by destruct Hn].
  - rewrite Hr. cbn. split; [done|]. intros [(_ & ? & _)|(? & _)]; congruence.
  - split; [done|]. intros [(? & _)|(_ & _ & Hn & _)]; [congruence|by destruct Hn].
  - destruct (String.eqb_spec (role c) "approver") as [Hp|Hp]; cbn [andb]; [|split; [done|intros [(? & _)|(? & _)]; congruence]].
    pose proof (str_in_spec (sub c) (approvers cf)) as Hin. destruct (str_in (sub c) (approvers cf)).
    + split; [intros [= <- <-]; right; split_and!; [done|by apply Hin|done|done|done]|].
      intros [(? & _)|(_ & _ & _ & -> & ->)]; [congruence|done].
    + split; [done|]. intros [(? & _)|(_ & Hx & _)]; [congruence|]. by apply Hin in Hx.
Qed.

(** The bearer token of the request was verified, when it arrived, as [c]. *)
Definition authenticated (a : arrival) (r : http_request) (s : api S) (c : Claims) : Prop :=
  exists rest k t, dget "authorization" (lower_keys (h_headers r)) = Some ("Bearer " +:+ rest)
    /\ _current_keyring (at_keyring a) (ap_authority s) = (Ok k, t) /\ vouched k (PStr (py_strip rest)) c
    /\ usable (at_verify a) (max_ttl (ap_authority s)) (leeway (ap_authority s))
         (Some (fun i => is_revoked i (w_store (ap_world s)))) (h_workload r) c.

Lemma authenticated_quiet a r s s1 c : inert s s1 -> ap_authority s1 = ap_authority s ->
  authenticated a r s1 c -> authenticated a r s c.
Proof.
  intros [Hs _] Ha (rest & k & t & Hh & Hk & Hv & Hu). rewrite Ha in *. rewrite Hs in Hu. exists rest, k, t. by split_and!.
Qed.

Lemma identify_cases a r s x s' : identify cf a (dget "authorization" (lower_keys (h_headers r))) (h_workload r) s = (x, s') ->
  inert s s' /\ ((exists agent approver reason, x = Ok (agent, approver, Some reason)) \/ (exists e, x = Raise e)
    \/ exists c, authenticated a r s c /\ x = Ok (principal_of cf c)).
Proof.
  unfold identify, a_ret. destruct (dget "authorization" _) as [header|] eqn:Eh; cbn [mbind option_bind]; [|intros [= <- <-]; eauto 10 using inert_refl].
  destruct (strip_prefix "Bearer " header) as [rest|] eqn:Er; [|intros [= <- <-]; eauto 10 using inert_refl].
  apply strip_prefix_spec in Er as ->. unfold a_try, a_bind, in_authority.
  destruct (verify _ _ _ _ _ _) as [[c|e] t] eqn:Ev; intros Hrun.
  - injection Hrun as <- <-. split; [done|]. right; right. exists c. split; [|done].
    apply verify_ok in Ev as (k & Hk & Hv & Hu). exists rest, k, t. by split_and!.
  - assert (inert s s') as Hi by (destruct e; injection Hrun as _ <-; done). split; [done|].
    destruct e; injection Hrun as <- _; eauto 10.
Qed.

(** Whatever [m] returns satisfies [P]. *)
Definition answers {X} (P : X -> Prop) (m : A S X) : Prop := forall s x, (m s).1 = Ok x -> P x.
Lemma answers_ret {X} (P : X -> Prop) x : P x -> answers P (a_ret x).
Proof. by intros Hx s y [= <-]. Qed.
Lemma answers_bind {X Y} (P : Y -> Prop) (m : A S X) (f : X -> A S Y) : (forall x, answers P (f x)) -> answers P (a_bind m f).
Proof. intros Hf s y. unfold a_bind. destruct (m s) as [[x|e] s1]; [apply Hf|done]. Qed.

Lemma a_bind_cases {X Y} (m : A S X) (f : X -> A S Y) s x s' : a_bind m f s = (x, s') ->
  (exists e, m s = (Raise e, s') /\ x = Raise e) \/ exists y s1, m s = (Ok y, s1) /\ f y s1 = (x, s').
Proof. unfold a_bind. destruct (m s) as [[y|e] s1]; [eauto|]. intros [= <- <-]. eauto. Qed.

Lemma quiet_run {X} (m : A S X) s x s' : quiet m -> m s = (x, s') -> inert s s' /\ ap_authority s' = ap_authority s.
Proof. intros Hm Hrun. specialize (Hm s). by rewrite Hrun in Hm. Qed.

(** A quiet refusal: it raises, or answers with one of the statuses. *)
Definition refuses (statuses : list Z) (m : A S (Response + option string * option string)) : Prop :=
  quiet m /\ answers (fun x => exists resp, x = inl resp /\ r_status resp ∈ statuses) m.

Lemma refuses_cases statuses m s x s' : refuses statuses m -> m s = (x, s') ->
  inert s s' /\ ((exists resp, x = Ok (inl resp) /\ r_status resp ∈ statuses) \/ exists e, x = Raise e).
Proof.
  intros [Hq Ha] Hrun. apply (quiet_run m s x s' Hq) in Hrun as Hi. split; [apply Hi|]. destruct x as [y|e]; [|eauto].
  destruct (Ha s y) as (resp & -> & Hr); [by rewrite Hrun|eauto].
Qed.

Lemma refuses_after statuses m s s1 x s' : inert s s1 -> refuses statuses m -> m s1 = (x, s') ->
  inert s s' /\ ((exists resp, x = Ok (inl resp) /\ r_status resp ∈ statuses) \/ exists e, x = Raise e).
Proof. intros Hi Hm Hr. destruct (refuses_cases _ _ _ _ _ Hm Hr). split; [by eapply inert_trans|done]. Qed.

Lemma limited_refuses a retry scope k client path :
  refuses [401; 429] (let@ r := _limited a retry scope k client path in a_ret (inl r)).
Proof.
  split; [apply quiet_bind; [apply quiet_limited|intros; apply quiet_ret]|].
  intros s x. unfold a_bind at 1. destruct (_limited a retry scope k client path s) as [[r|e] s1] eqn:Er; [|done].
  intros [= <-]. exists r. split; [done|]. apply (f_equal fst) in Er. revert Er.
  apply (answers_bind (fun r => r_status r ∈ [401; 429])). intros [record n]. apply answers_bind. intros _. apply answers_ret. set_solver.
Qed.

Lemma unauthenticated_refuses a path method client reason : refuses [401; 429] (
  let@ (record, suppressed) := in_limiter (audit_auth_failure client (at_failure a)) in
  let@ _ := (if record : bool
             then in_harness (audit "authentication_failed"
                    [("path", PStr (py_take 200 path)); ("method", PStr method);
                     ("reason_code", PStr (reason_value UNAUTHENTICATED)); ("credential_error", PStr reason);
                     ("client", PStr client); ("suppressed_since_last", PInt suppressed)])
             else a_ret tt) in
  a_ret (inl (mk_response 401 (PDict [("error", PStr "unauthenticated")]) [("WWW-Authenticate", "Bearer")] true false))).
Proof.
  split.
  - apply quiet_bind; [apply quiet_limiter|]. intros [record n]. apply quiet_bind; [|intros; apply quiet_ret].
    apply quiet_if; [apply quiet_audit|apply quiet_ret].
  - apply answers_bind. intros [record n]. apply answers_bind. intros _. apply answers_ret. eexists. split; [done|set_solver].
Qed.

Lemma gate_cases a r path method client s x s' :
  _gate cf a path method (dget "authorization" (lower_keys (h_headers r))) client (h_workload r) s = (x, s') ->
  inert s s' /\ ((exists resp, x = Ok (inl resp) /\ r_status resp ∈ [401; 429]) \/ (exists e, x = Raise e)
    \/ exists c agent approver, authenticated a r s c /\ speaks_for c agent approver
         /\ x = Ok (inr (nonempty agent, nonempty approver))).
Proof.
  intros [(e & Hrun & ->)|([ok retry] & s1 & Hl & Hrun)]%a_bind_cases;
    [apply (quiet_run _ _ _ _ (quiet_limiter _)) in Hrun as [Hi _]; eauto|].
  apply (quiet_run _ _ _ _ (quiet_limiter _)) in Hl as [Hi Ha].
  destruct ok; simpl in Hrun; [|apply (refuses_after _ _ _ _ _ _ Hi (limited_refuses _ _ _ _ _ _)) in Hrun as [? [?|?]]; auto].
  apply a_bind_cases in Hrun as [(e & Hrun & ->)|([[agent approver] failure] & s2 & Hid & Hrun)];
    [apply identify_cases in Hrun as [Hi2 _]; split; [by eapply inert_trans|eauto]|].
  apply identify_cases in Hid as [Hi2 Hid]. pose proof (inert_trans _ _ _ Hi Hi2) as Hi12.
  destruct failure as [reason|];
    [apply (refuses_after _ _ _ _ _ _ Hi12 (unauthenticated_refuses _ _ _ _ _)) in Hrun as [? [?|?]]; auto|].
  destruct Hid as [(? & ? & ? & ?)|[[? ?]|(c & Hc & [= Hp])]]; [done..|].
  apply (authenticated_quiet _ _ _ _ _ Hi Ha) in Hc.
  apply a_bind_cases in Hrun as [(e & Hrun & ->)|([ok r2] & s3 & Hl & Hrun)];
    [apply (quiet_run _ _ _ _ (quiet_limiter _)) in Hrun as [Hi3 _]; split; [by eapply inert_trans|eauto]|].
  apply (quiet_run _ _ _ _ (quiet_limiter _)) in Hl as [Hi3 _]. pose proof (inert_trans _ _ _ Hi12 Hi3) as Hi13.
  destruct ok; simpl in Hrun; [|apply (refuses_after _ _ _ _ _ _ Hi13 (limited_refuses _ _ _ _ _ _)) in Hrun as [? [?|?]]; auto].
  injection Hrun as <- <-. split; [done|]. right; right. exists c, agent, approver. split_and!; [done|by apply principal_of_spec|done].
Qed.

Lemma dispatch_cases (a : arrival) (r : http_request) (s : api S) (resp : result Response) (s' : api S) :
  dispatch cf extra a r s = (resp, s') ->
  (inert s s' /\ forall x, resp = Ok x -> path_of (h_target r) = "/v1/health" \/ r_status x ∈ [401; 405; 429; 500])
  \/ exists c agent approver s1, authenticated a r s c /\ speaks_for c agent approver /\ inert s s1
       /\ a_try (route cf extra (py_upper (h_method r)) (path_of (h_target r)) (lower_keys (h_headers r)) (h_body r)
                   (nonempty agent) (nonempty approver))
                (server_error (path_of (h_target r))) s1 = (resp, s').
Proof.
  unfold dispatch, _dispatch. destruct (String.eqb_spec (path_of (h_target r)) "/v1/health") as [Hp|Hp].
  { unfold a_try, a_ret. intros [= <- <-]. left. split; [done|auto]. }
  destruct (str_in _ _); simpl; [|unfold a_try, a_ret; intros [= <- <-]; left; split; [done|]; intros x [= <-]; right; set_solver].
  unfold a_try at 1, a_bind at 1.
  destruct (_gate _ _ _ _ _ _ _ s) as [x s1] eqn:Eg.
  apply gate_cases in Eg as [Hi Hx]. destruct x as [[refused|[agent approver]]|e].
  - unfold a_ret. intros [= <- <-]. left. split; [done|]. intros x [= <-]. right.
    destruct Hx as [(y & [= <-] & Hy)|[[? ?]|(? & ? & ? & _ & _ & ?)]]; [|done..]. set_solver.
  - intros Hrun. right. destruct Hx as [(? & ? & _)|[[? ?]|(c & ag & ap & Hc & Hpr & [= -> ->])]]; [done..|].
    exists c, ag, ap, s1. by split_and!.
  - intros Hrun. left. apply (quiet_run _ _ _ _ (quiet_server_error _ _)) in Hrun as Hq.
    split; [eapply inert_trans; [done|apply Hq]|]. intros x ->. right. apply (f_equal fst) in Hrun. revert Hrun.
    unfold server_error, a_bind, a_ret. destruct (in_harness _ s1) as [[u|e'] s2]; [|done]. intros [= <-]. set_solver.
Qed.

(** C13. Nothing happens without a token. Whatever a request says, either the counters, grants, approvals,
    messages and tools are left as they were - and it is answered by 401, 405, 429 or 500 unless it asks
    for the health of the service - or its bearer token was verified when it arrived, and it is an agent's token whose
    subject is bound to a contract, or an approver's whose subject is an approver of some contract and no
    agent; and the rest is what the routes do for that subject in that role. *)
Theorem effects_need_token (a : arrival) (r : http_request) (s : api S) (resp : result Response) (s' : api S) :
  dispatch cf extra a r s = (resp, s') ->
  (inert s s' /\ forall x, resp = Ok x -> path_of (h_target r) = "/v1/health" \/ r_status x ∈ [401; 405; 429; 500])
  \/ exists c agent approver s1, authenticated a r s c /\ speaks_for c agent approver /\ inert s s1
       /\ a_try (route cf extra (py_upper (h_method r)) (path_of (h_target r)) (lower_keys (h_headers r)) (h_body r)
                   (nonempty agent) (nonempty approver))
                (server_error (path_of (h_target r))) s1 = (resp, s').
Proof. apply dispatch_cases. Qed.
End correct.

(** ** Actions *)

Section actions.
Context {S : Type} `{StateStore S} `{Externals} `{Tools} `{Arith} `{!Rounding}.
Variable cf : config.

Lemma harness_execute_cases res (w : world S) x w' : store_wf (w_store w) -> wf_request (d_request (ar_decision res)) ->
  harness_execute cf res w = (x, w') ->
  (forall reason detail, x = Raise (ExecutionRefused reason detail) -> untouched w w')
  /\ (((exists e, x = Raise e) /\ untouched w w')
      \/ exists g, ar_grant res = Some g /\ performed cf g (d_request (ar_decision res)) w w'
           /\ reported g (d_request (ar_decision res)) w x w').
Proof.
  intros Hwf Hreq. unfold harness_execute.
  assert (forall fields reason detail, (audit "execution_refused" fields ;! raise (ExecutionRefused reason detail)) w = (x, w') ->
    (exists e, x = Raise e) /\ untouched w w') as Hrefuse.
  { intros fields reason detail. unfold bind, raise, untouched.
    destruct (audit _ _ w) as [[u|e] w1] eqn:Ea; intros [= <- <-];
      [apply audit_ok in Ea as (_ & -> & ->)|apply audit_raise in Ea as (_ & -> & ->)]; eauto. }
  destruct (cf_simulate cf); [intros [[e ->] ?]%Hrefuse; split; eauto|].
  destruct (ar_grant res) as [g|]; [|intros [[e ->] ?]%Hrefuse; split; eauto].
  intros Hr. split; [intros reason detail ->; by eapply execute_refused|].
  apply execute_cases in Hr as [_ [?|[? ?]]]; [by left|right; eauto|done|done].
Qed.

(** An allowed result comes from a request that was built. *)
Lemma authorize_built agent action arguments cid (w : world S) res w' : store_wf (w_store w) ->
  authorize cf agent action arguments cid w = (Ok res, w') -> ar_allowed res = true ->
  exists r, make_request agent action (if truthy arguments then arguments else PDict []) cid = Ok r
    /\ authorize_request cf r None None w = (Ok res, w').
Proof.
  intros Hwf. unfold authorize, or_malformed. destruct (make_request _ _ _ _) as [r|e]; [eauto|].
  destruct e; try done. intros Hrun Hall. mbind Hrun as d w1 Hd. injection Hrun as <- <-.
  unfold reject_before_policy in Hd. mbind Hd as r w2 Hr. apply lift_ok in Hr as [_ ->].
  apply record_ok in Hd as ((id & ->) & _); [|done]. done.
Qed.

Lemma make_request_agent agent action arguments cid r : make_request agent action arguments cid = Ok r -> rq_agent_id r = agent.
Proof. unfold make_request. destruct (as_dict _); [|done]. intros Hr. inv_ok Hr. by injection Hr as <-. Qed.

(** Recording a refusal, or authorizing, executes nothing. *)
Lemma keeps_inert {X} (m : M S X) (w : world S) x w' : quiescent w -> keeps (inert_since w) m -> m w = (x, w') ->
  inert_since w (view (w_store w')) (w_ledger w') /\ store_wf (w_store w').
Proof.
  intros Hq Hk Hrun. destruct (Hk w) as [[Hwf _ Hi _] _]; [by apply quiescent_sound|done|]. by rewrite Hrun in *.
Qed.

Lemma keeps_inert_authorize (w : world S) agent action arguments cid :
  keeps (inert_since w) (authorize cf agent action arguments cid : M S _).
Proof. eapply keeps_authorize; [apply (inert_stable cf w)|done]. Qed.
Lemma keeps_inert_reject (w : world S) agent action reason detail :
  keeps (inert_since w) (reject_before_policy cf agent action reason detail : M S _).
Proof. eapply keeps_reject; [apply (inert_stable cf w)|done]. Qed.

Lemma inert_untouched (w w1 w2 : world S) : inert_since w (view (w_store w1)) (w_ledger w1) -> untouched w1 w2 ->
  inert_since w (view (w_store w2)) (w_ledger w2).
Proof. intros Hi [-> ->]. done. Qed.

(** The status of a response to a decision, and what was done. *)
Lemma respond_cases res (s : api S) x s' : store_wf (w_store (ap_world s)) ->
  (ar_allowed res = true -> wf_request (d_request (ar_decision res))) -> respond cf res s = (x, s') ->
  ((forall p, x = Ok p -> p.1 ∈ [202; 403; 502]) /\ untouched (ap_world s) (ap_world s'))
  \/ (ar_allowed res = true /\ (exists g, ar_grant res = Some g /\ performed cf g (d_request (ar_decision res)) (ap_world s) (ap_world s'))
      /\ match x with Ok p => p.1 = 200 | Raise _ => w_audit (ap_world s') = w_audit (ap_world s) end).
Proof.
  intros Hwf Hreq. unfold respond.
  destruct (escalated (ar_decision res)); [intros [= <- <-]; left; split; [intros p [= <-]; set_solver|done]|].
  destruct (ar_allowed res); simpl; [|intros [= <- <-]; left; split; [intros p [= <-]; set_solver|done]]. specialize (Hreq eq_refl).
  unfold a_try, a_bind, in_harness. destruct (harness_execute cf res (ap_world s)) as [[out|e] w'] eqn:Ex;
    apply harness_execute_cases in Ex as [Hrefused Hdone]; try done.
  - intros [= <- <-]. right. destruct Hdone as [[[e ?] _]|(g & ? & ? & _)]; [done|]. split_and!; [done|eauto|done].
  - assert ((forall reason detail, e <> ExecutionRefused reason detail) \/ exists reason detail, e = ExecutionRefused reason detail) as [He|(reason & detail & ->)]
      by (destruct e; eauto; by left).
    + intros Hrun. assert (x = Raise e /\ ap_world s' = w') as [-> Hw].
      { destruct e; try (by injection Hrun as <- <-). by destruct (He reason detail). }
      rewrite Hw. destruct Hdone as [[_ Hu]|(g & Hg & Hp & Hr)]; [left; by split|right; split_and!; [done|eauto|exact Hr]].
    + intros [= <- <-]. left. split; [intros p [= <-]; set_solver|by eapply Hrefused].
Qed.

Lemma identity_mismatch_cases agent body action (s : api S) x s' : quiescent (ap_world s) ->
  _identity_mismatch cf agent body action s = (Ok x, s') ->
  inert_since (ap_world s) (view (w_store (ap_world s'))) (w_ledger (ap_world s'))
  /\ match x with
     | Some (status, _) => status = 403 /\ pget "agent_id" body <> PNone /\ pget "agent_id" body <> PStr agent
     | None => s' = s /\ (pget "agent_id" body = PNone \/ pget "agent_id" body = PStr agent)
     end.
Proof.
  intros Hq. unfold _identity_mismatch, a_bind, in_harness, a_ret.
  destruct (is_none _ || equals_str _ agent) eqn:E.
  - intros [= <- <-]. split; [done|]. split; [done|]. destruct (pget "agent_id" body); try done; [by left|].
    right. f_equal. by apply String.eqb_eq in E.
  - destruct (reject_before_policy _ _ _ _ _ _) as [[d|e] w'] eqn:Er; [|done]. intros [= <- <-].
    apply keeps_inert in Er as [Hi _]; [|done|apply keeps_inert_reject]. split; [done|]. split; [done|].
    bools. split; intros Heq; rewrite Heq in *; [done|]. simpl in *. by rewrite String.eqb_refl in *.
Qed.

(** C14. What POST /v1/actions does is what its status says. 200 means that the caller's request was
    allowed and that the grant minted for this caller was performed, once. With any other status - 202 for
    an escalation, 403 for a denial or for claiming to be another agent, 502 for a refused execution - no
    tool was called, no message delivered and no grant claimed. When it raises, which is answered by 500,
    nothing of that happened either, or, in one case: the request was allowed and its grant performed,
    and the record of the execution could not be written, so that the audit log does not have it. *)
Theorem action_status (agent : string) (body : dict pyval) (s : api S) (x : result (Z * dict pyval)) (s' : api S) :
  quiescent (ap_world s) -> wf_val (PDict body) = true -> handle_action cf agent body s = (x, s') ->
  ((forall status payload, x = Ok (status, payload) -> status ∈ [202; 403; 502])
   /\ inert_since (ap_world s) (view (w_store (ap_world s'))) (w_ledger (ap_world s')))
  \/ ((pget "agent_id" body = PNone \/ pget "agent_id" body = PStr agent)
      /\ exists res w1 g, authorize cf (PStr agent) (pget "action" body) (_arguments body) (pget "contract_id" body) (ap_world s) = (Ok res, w1)
           /\ ar_allowed res = true /\ ar_grant res = Some g /\ gr_agent_id g = agent
           /\ performed cf g (d_request (ar_decision res)) w1 (ap_world s')
           /\ match x with
              | Ok (status, _) => status = 200
              | Raise _ => w_audit (ap_world s') = w_audit w1
              end).
Proof.
  intros Hq Hbody. unfold handle_action. intros [(e & Hm & ->)|(mismatch & s1 & Hm & Hrun)]%a_bind_cases.
  { left. split; [done|]. unfold _identity_mismatch, a_bind, in_harness, a_ret in Hm.
    destruct (is_none _ || equals_str _ agent); [done|].
    destruct (reject_before_policy _ _ _ _ _ _) as [[d|e'] w'] eqn:Er; [done|]. injection Hm as _ <-.
    by apply keeps_inert in Er as [Hi _]; [|done|apply keeps_inert_reject]. }
  apply identity_mismatch_cases in Hm as [Hi Hm]; [|done]. destruct mismatch as [[st p]|].
  { injection Hrun as <- <-. destruct Hm as [-> _]. left. split; [intros ? ? [= <- _]; set_solver|done]. }
  destruct Hm as [-> Hclaim]. clear Hi. unfold a_bind, in_harness in Hrun.
  destruct (authorize _ _ _ _ _ (ap_world s)) as [[res|e] w1] eqn:Ea;
    pose proof (keeps_inert _ _ _ _ Hq (keeps_inert_authorize _ _ _ _ _) Ea) as [Hi Hwf1];
    [|injection Hrun as <- <-; by left].
  assert (ar_allowed res = true -> exists r, d_request (ar_decision res) = r /\ wf_request r /\ rq_agent_id r = PStr agent) as Hbuilt.
  { intros Hall. destruct (authorize_built _ _ _ _ _ _ _ (qu_wf _ Hq) Ea Hall) as (r & Hr & Hrr).
    apply authorize_request_ok in Hrr as (? & ? & _ & [Hd _] & _); [|apply Hq]. exists r.
    split_and!; [by rewrite Hd| |by apply make_request_agent in Hr].
    eapply make_request_dict; [|exact Hr]. destruct (truthy _); [|done]. unfold _arguments, pget.
    destruct (dget "arguments" body) as [v|] eqn:Ev; [|done]. simpl. apply dget_Some_in in Ev.
    simpl in Hbody. apply andb_true_iff in Hbody as [_ Hall']. rewrite forallb_forall in Hall'.
    apply list_elem_of_In in Ev. specialize (Hall' _ Ev). by destruct v. }
  apply respond_cases in Hrun as [[Hst Hu]|(Hall & (g & Hg & Hp) & Hx)]; simpl in *;
    [left; split; [intros st p Heq; apply (Hst _ Heq)|by eapply inert_untouched]| |done
    |by intros Hall; destruct (Hbuilt Hall) as (? & -> & ? & _)].
  right. split; [done|]. exists res, w1, g. split_and!; try done; [|by destruct x as [[]|]].
  destruct (Hbuilt Hall) as (r & Hr & _ & Hag). rewrite Hr in Hp. destruct Hp as [[_ Hpa _ _ _ _] _ _ _]. congruence.
Qed.

(** The status of an escalation is told to the agent that made the request, and to nobody else. *)
Lemma approval_status_owner agent approval_id (s : api S) payload s' : approval_status agent approval_id s = (Ok (200, payload), s') ->
  s' = s /\ exists record, get_approval approval_id (w_store (ap_world s)) = Some record /\ owner_of record = Ok (PStr agent).
Proof.
  unfold approval_status, approval_record, read_store, in_harness, a_bind, a_lift, a_ret. destruct s as [w l t]. simpl.
  destruct (get_approval approval_id (w_store w)) as [[|kv rec]|] eqn:Er; try done.
  destruct (owner_of (kv :: rec)) as [owner|e] eqn:Eo; [|done]. destruct (equals_str owner agent) eqn:Ee; simpl; [|done].
  destruct (key "status" (kv :: rec)); [|done]. intros [= _ <-]. split; [done|]. exists (kv :: rec). split; [done|].
  apply equals_str_spec in Ee as ->. done.
Qed.
End actions.

Module Witnesses.
Import SampleContract.
#[local] Existing Instance Sample.externals.
#[local] Existing Instance Executor.Witnesses.tools.
#[local] Existing Instance exact.
#[local] Instance rounding : Rounding := {| round2 := fun _ => PFloat (Finite "0.0"); ceil := fun q => 1 |}.

Definition cf : config := Interceptor.Witnesses.cf.
Definition no_routes (method path : string) : option (string -> string -> dict string -> A SQLiteStateStore Response) := None.
Definition shared : @RateLimitConfig exact := mk_rate_config (of_Z 20) 100 (of_Z 10) 60 20 10000 true true.
Definition api0 : api SQLiteStateStore :=
  mk_api System.Witnesses.world0 (mk_limiter shared None, no_rates) Identity.Witnesses.authority0.
Definition now0 : arrival := mk_arrival exact (of_Z 1) (of_Z 1) (of_Z 1) Identity.Witnesses.later Identity.Witnesses.no_file.

Definition bearer_b : string :=
  match (issue Identity.Witnesses.no_file Sample.start "entropy" "b" "agent" 900 None None Identity.Witnesses.authority0).1 with
  | Ok t => t | Raise _ => EmptyString
  end.
Definition fetch_text : string :=
  ascii_escape (print (PDict [("action", PStr "web.fetch"); ("arguments", PDict [("url", PStr "https://example.org/x")])])).
Definition post (headers : dict string) : http_request := mk_http "post" "/v1/actions?x=1" headers (Some fetch_text) "10.0.0.1" None.
Definition run (headers : dict string) := dispatch cf no_routes now0 (post headers) api0.
Definition status_of {X} (x : result Response * X) : Z := match x.1 with Ok r => r_status r | Raise _ => 0 end.

(** Without a token nothing happens; with one, the same request is executed. *)
Lemma effects_need_token_witness : inert api0 (run []).2 /\ status_of (run []) = 401.
Proof.
  split; [|vm_compute; reflexivity].
  destruct (effects_need_token cf no_routes now0 (post []) api0 (run []).1 (run []).2 (surjective_pairing _))
    as [[Hi _]|(c & ag & ap & s1 & (rest & k & t & Hh & _) & _)]; [exact Hi|discriminate Hh].
Defined.
Example executed : status_of (run [("Authorization", "Bearer " +:+ bearer_b)]) = 200.
Proof. vm_compute. reflexivity. Qed.
Example ledger_of_executed : length (w_ledger (ap_world (run [("Authorization", "Bearer " +:+ bearer_b)]).2)) = 1%nat.
Proof. vm_compute. reflexivity. Qed.

Definition fetch_body : dict pyval := [("action", PStr "web.fetch"); ("arguments", PDict [("url", PStr "https://example.org/x")])].
Definition acted := handle_action cf "b" fetch_body api0.
Definition acted_response : Z * dict pyval := Harness.Witnesses.of_run (0, []) acted.
Lemma acted_run : acted = (Ok (200, acted_response.2), acted.2).
Proof.
  rewrite (Harness.Witnesses.of_run_ok (0, []) acted) at 1 by (vm_compute; reflexivity). fold acted_response.
  assert (acted_response.1 = 200) as Hst by (vm_compute; reflexivity). rewrite <- Hst. by rewrite <- surjective_pairing.
Qed.

Lemma action_status_witness : exists g, gr_agent_id g = "b".
Proof.
  destruct (action_status cf "b" fetch_body api0 (Ok (200, acted_response.2)) acted.2 System.Witnesses.world0_quiescent eq_refl acted_run)
    as [[Hst _]|(_ & res & w1 & g & _ & _ & _ & Hg & _)]; [|by exists g].
  exfalso. specialize (Hst 200 acted_response.2 eq_refl). revert Hst.
  apply (bool_decide_eq_false_1 (200 ∈ [202; 403; 502])). reflexivity.
Defined.

(** The write of the execution record fails, and no other: the tool is called, and the answer is the 500 that
    says nothing was executed unless there is a record; the trail has the decision and the server's error. *)
Definition filling : Externals := Sample.with_io Sample.externals (@clock_at Sample.externals) (fun n => negb (n =? 1)%nat).
Definition unrecorded := @dispatch SQLiteStateStore _ filling _ exact rounding cf no_routes now0
  (post [("Authorization", "Bearer " +:+ bearer_b)]) api0.
Example executed_without_record :
  status_of unrecorded = 500 /\ map fst (w_ledger (ap_world unrecorded.2)) = ["web.fetch"]
  /\ match audit_records (w_audit (ap_world unrecorded.2)) with Ok rs => Some (map (fun r => option_map (pget "event") (as_dict r)) rs) | Raise _ => None end
     = Some [Some (PStr "decision"); Some (PStr "server_error")].
Proof. split_and!; vm_compute; reflexivity. Qed.
End Witnesses.
