(* ===== verification/Gateway.v ===== *)
(** * The MCP gateway: src/capgate/mcp/gateway.py

    JSON-RPC over the HTTP API: the tools an agent's contract grants are listed under names MCP clients
    accept, and a tool call becomes an action, a message or a delegation of the authenticated agent. The
    metadata tools give about themselves and the server's name are parameters. *)

From S2P Require Import Prelude Datetime Regex PyVal Externals Json Request Decision NetAddr Timeutil Capability Contract Policy State AuditTrail Effects Interceptor Executor Harness RateLimit Base64 Workload Identity Api.

Definition SUPPORTED_VERSIONS : list string := ["2025-03-26"; "2025-06-18"; "2025-11-25"].
Definition LATEST_VERSION : string := "2025-11-25".
Definition APPROVAL_STATUS_TOOL : string := "capgate-approval_status".
Definition _TOOL_NAME : re := Cat ident (Star (Cat (lit "-") ident)).
Definition PARSE_ERROR : Z := -32700.
Definition INVALID_REQUEST : Z := -32600.
Definition METHOD_NOT_FOUND : Z := -32601.
Definition INVALID_PARAMS : Z := -32602.

(** ** Names *)

Definition dot_to_dash (c : ascii) : ascii := if Ascii.eqb c "." then "-"%char else c.
Definition dash_to_dot (c : ascii) : ascii := if Ascii.eqb c "-" then "."%char else c.
Definition action_to_tool_name (action : string) : string := s_map dot_to_dash action.
Definition tool_name_to_action (name : pyval) : option string :=
  match name with
  | PStr n => if match_dollar _TOOL_NAME n then Some (s_map dash_to_dot n) else None
  | _ => None
  end.

(** ** Results *)

Definition obj (d : dict pyval) : pyval := PDict d.
Definition rpc_error (request_id : pyval) (code : Z) (message : string) : dict pyval :=
  [("jsonrpc", PStr "2.0"); ("id", request_id); ("error", obj [("code", PInt code); ("message", PStr message)])].
(** A bool is an int here. *)
Definition _id (message : pyval) : pyval :=
  match message with
  | PDict d => match pget "id" d with (PStr _ | PInt _ | PBool _) as i => i | _ => PNone end
  | _ => PNone
  end.

(** [d.get(k)] of a value that must be a dictionary, and [a or b]. *)
Definition or_else (a b : pyval) : pyval := if truthy a then a else b.
Definition get_in (k : string) (v : pyval) : pyval := match v with PDict d => pget k d | _ => PNone end.

Definition text_content (text : string) : pyval := PList [obj [("type", PStr "text"); ("text", PStr text)]].

Definition _text_result (value : pyval) (is_error : bool) (meta : option (dict pyval)) : dict pyval :=
  let text := match value with PStr s => s | v => dumps ", " ": " v end in
  [("content", text_content text); ("isError", PBool is_error)]
  ++ (match value with PDict _ => if is_error then [] else [("structuredContent", value)] | _ => [] end)
  ++ (match meta with Some ((_ :: _) as m) => [("_meta", obj [("capgate", obj m)])] | _ => [] end).

Definition failed_result (text : string) (meta : dict pyval) : dict pyval :=
  [("content", text_content text); ("isError", PBool true); ("_meta", obj [("capgate", obj meta)])].

(** The decision an API payload ends in: for a delegation, the recipient's when there is one. *)
Definition final_payload (payload : dict pyval) : dict pyval :=
  if dmem "delegation" payload
  then match pget "action" payload with PDict ((_ :: _) as d) => d | _ => payload end
  else payload.
Definition capgate_meta (payload : dict pyval) : dict pyval :=
  let final := final_payload payload in
  [("decision", pget "decision" final); ("reason_code", pget "reason_code" final); ("decision_id", pget "decision_id" final);
   ("contract_id", pget "contract_id" final);
   ("approval_id", or_else (pget "approval_id" payload) (get_in "approval_id" (pget "delegation" payload)))]
  ++ (if dmem "delegation" payload && truthy (pget "blocked_at" payload) then [("blocked_at", pget "blocked_at" payload)] else []).

(** [dict(v)] of an upstream result: anything but a dictionary or an empty sequence is refused. *)
Definition as_result (v : pyval) : result (dict pyval) :=
  match v with
  | PDict d => Ok d
  | PList [] | PTuple [] | PStr EmptyString => Ok []
  | _ => Raise (TypeError "cannot convert dictionary update sequence")
  end.
Definition passed_through (upstream : pyval) (meta : dict pyval) : result (dict pyval) :=
  let? r := as_result upstream in
  let r := if dmem "isError" r then r else dset "isError" (PBool false) r in
  let? m := match pget "_meta" r with
            | PDict m => Ok m
            | v => if truthy v then Raise (TypeError "object is not a mapping") else Ok []
            end in
  Ok (dset "_meta" (obj (dset "capgate" (obj meta) m)) r).

Definition _decision_result (status : Z) (payload : dict pyval) : result (dict pyval) :=
  let final := final_payload payload in
  let meta := capgate_meta payload in
  if status =? 200 then
    let execution := or_else (pget "execution" final) (obj []) in
    let output := get_in "output" execution in
    if equals_str (get_in "status" execution) "failed"
    then Ok (failed_result ("Tool failed after authorization: " +:+ py_str (get_in "error" execution)) meta)
    else
      match (match output with PDict o => dget "_mcp" o | _ => None end) with
      | Some upstream => passed_through upstream meta
      | None =>
          if negb (truthy execution) && equals_str (pget "decision" final) "allow"
          then Ok (_text_result (obj [("delivered", PBool true); ("decision_id", pget "decision_id" final)]) false (Some meta))
          else Ok (_text_result output false (Some meta))
      end
  else if status =? 202 then
    Ok (failed_result ("Not executed: this call requires human approval. approval_id=" +:+ py_str (pget "approval_id" meta)
                         +:+ ". Check it with " +:+ APPROVAL_STATUS_TOOL +:+ "; do not retry the call.") meta)
  else
    let reason := or_else (pget "reason_code" meta) (or_else (pget "error" payload) (PStr "DENIED")) in
    let detail := or_else (pget "detail" final) (or_else (get_in "reason" (pget "execution" payload)) (PStr EmptyString)) in
    let where_ := if truthy (pget "blocked_at" meta) then " (blocked at " +:+ py_str (pget "blocked_at" meta) +:+ ")" else EmptyString in
    Ok (failed_result (py_strip ("Denied by the agent harness: " +:+ py_str reason +:+ where_ +:+ ". " +:+ py_str detail)) meta).

(** ** Methods *)

Section gateway.
Context {S : Type} `{StateStore S} `{Externals} `{Tools} `{Arith} `{!Rounding}.
Variable cf : config.
(** [Harness.tool_metadata], and [serverInfo]. *)
Variable tool_metadata : string -> option (dict pyval).
Variable server_info : dict pyval.

Definition _initialize (agent : string) (params : dict pyval) : dict pyval :=
  let requested := pget "protocolVersion" params in
  let contract := match contract_for cf agent with Some c => tc_contract_id c | None => "?" end in
  [("protocolVersion", match requested with
                       | PStr v => if str_in v SUPPORTED_VERSIONS then requested else PStr LATEST_VERSION
                       | _ => PStr LATEST_VERSION
                       end);
   ("capabilities", obj [("tools", obj [("listChanged", PBool false)])]);
   ("serverInfo", obj server_info);
   ("instructions", PStr ("You are '" +:+ agent +:+ "' acting under contract '" +:+ contract +:+ "'. "
      +:+ "Every tool call is authorized by the agent harness before anything executes. Denied calls return "
      +:+ "isError with a reason code; calls that need human approval return an approval_id you can check "
      +:+ "with " +:+ APPROVAL_STATUS_TOOL +:+ ". Arguments are checked exactly as given."))].

Definition typed (t : string) : pyval := obj [("type", PStr t)].
Definition one_of (l : list string) : pyval := obj [("type", PStr "string"); ("enum", pstrs l)].

(** The schema and description of a tool. *)
Definition tool_schema (action : string) (cap : Capability) : pyval * string :=
  let cs := cap_constraints cap in
  let strs k := default [] (c_strs k cs) in
  let plain_schema :=
    (obj ([("type", PStr "object"); ("properties", obj (foldl (fun d name => dset name (obj []) d) [] (strs "allowed_arguments")))]
     ++ (if dmem "allowed_arguments" cs then [("additionalProperties", PBool false)] else [])
     ++ (match strs "required_arguments" with [] => [] | l => [("required", pstrs l)] end)), action) in
  if String.eqb action MESSAGE_ACTION then
    (obj [("type", PStr "object"); ("properties", obj [("to", one_of (strs "allowed_targets")); ("body", obj [])]);
          ("required", pstrs ["to"; "body"])],
     "Send a message to another agent. Messages carry data, never authority.")
  else if String.eqb action DELEGATE_ACTION then
    (obj [("type", PStr "object");
      ("properties", obj [("to", one_of (strs "allowed_targets")); ("action", one_of (strs "allowed_actions")); ("arguments", typed "object")]);
      ("required", pstrs ["to"; "action"])],
     "Ask another agent to perform an action. It is authorized under that agent's own contract, not yours.")
  else
    match tool_metadata action with
    | Some m =>
        if truthy (pget "inputSchema" m)
        then (pget "inputSchema" m, if truthy (pget "description" m) then py_str (pget "description" m) else action)
        else plain_schema
    | None => plain_schema
    end.

Definition visible_constraints (cap : Capability) : dict pyval :=
  map (fun '(k, v) => (k, cvalue_to_val v))
    (List.filter (fun '(k, _) => negb (str_in k ["allowed_targets"; "allowed_actions"])) (cap_constraints cap)).

Definition blank_line : string := String newline (chr1 newline).
Definition _describe (contract_id action : string) (cap : Capability) : dict pyval :=
  let '(schema, description) := tool_schema action cap in
  let notes := ["Authorized by harness contract '" +:+ contract_id +:+ "'."]
    ++ (if bool_decide (cap_effect cap = EEscalate) then ["Requires human approval before it runs."] else [])
    ++ (match visible_constraints cap with
        | [] => []
        | visible => ["Constraints: " +:+ dumps ", " ": " (PDict (sort_items visible)) +:+ "."]
        end) in
  [("name", PStr (action_to_tool_name action)); ("description", PStr (description +:+ blank_line +:+ s_concat " " notes));
   ("inputSchema", schema)].

Definition status_tool : dict pyval :=
  [("name", PStr APPROVAL_STATUS_TOOL);
   ("description", PStr "Check a pending human approval you received from an escalated tool call.");
   ("inputSchema", obj [("type", PStr "object"); ("properties", obj [("approval_id", typed "string")]);
      ("required", pstrs ["approval_id"]); ("additionalProperties", PBool false)]);
   ("annotations", obj [("readOnlyHint", PBool true); ("openWorldHint", PBool false)])].

Definition action_le (x y : string * Capability) : Prop := String.le x.1 y.1.
#[local] Instance action_le_dec : RelDecision action_le.
Proof. intros x y. unfold action_le. apply _. Defined.

(** The capabilities an agent can use, by action. *)
Definition usable_capabilities (c : TaskContract) (agent : string) : list (string * Capability) :=
  List.filter (fun '(_, cap) => negb (bool_decide (cap_effect cap = EDeny))) (merge_sort action_le (capabilities_for c agent)).
Definition listed_tools (agent : string) : list (dict pyval) :=
  match contract_for cf agent with
  | Some c => map (fun '(action, cap) => _describe (tc_contract_id c) action cap) (usable_capabilities c agent)
  | None => []
  end ++ [status_tool].
Definition _tools_list (agent : string) : dict pyval := [("tools", PList (map PDict (listed_tools agent)))].

(** The parameters, or the text of a [_ParamsError]. *)
Definition call_params (params : dict pyval) : string + string * dict pyval :=
  match pget "name" params with
  | PStr name =>
      match pget "arguments" params with
      | PNone => inr (name, [])
      | PDict d => inr (name, d)
      | _ => inl "tools/call 'arguments' must be an object"
      end
  | _ => inl "tools/call requires a string 'name'"
  end.

(** What a call by a name and arguments is proposed as. *)
Definition propose (agent name : string) (arguments : dict pyval) : A S (Z * dict pyval) :=
  match tool_name_to_action (PStr name) with
  | None => handle_action cf agent [("action", PStr name); ("arguments", PDict arguments)]
  | Some action =>
      if String.eqb action MESSAGE_ACTION
      then handle_message cf agent [("to", pget "to" arguments); ("body", pget "body" arguments)]
      else if String.eqb action DELEGATE_ACTION
      then handle_delegation cf agent [("to", pget "to" arguments); ("action", pget "action" arguments);
                                       ("arguments", pget "arguments" arguments)]
      else handle_action cf agent [("action", PStr action); ("arguments", PDict arguments)]
  end.

Definition call_tool_by_name (agent name : string) (arguments : dict pyval) : A S (dict pyval) :=
  if String.eqb name APPROVAL_STATUS_TOOL then
    let@ (status, body) := approval_status agent (py_str (default (PStr EmptyString) (dget "approval_id" arguments))) in
    a_ret (_text_result (PDict body) (negb (status =? 200)) None)
  else
    let@ (status, payload) := propose agent name arguments in
    a_lift (_decision_result status payload).

Definition _tools_call (agent : string) (params : dict pyval) : A S (string + dict pyval) :=
  match call_params params with
  | inl text => a_ret (inl text)
  | inr (name, arguments) => let@ r := call_tool_by_name agent name arguments in a_ret (inr r)
  end.

(** The handler of a method: an error in the parameters, or a result. *)
Definition method_handler (name : string) : option (string -> dict pyval -> A S (string + dict pyval)) :=
  if String.eqb name "initialize" then Some (fun agent params => a_ret (inr (_initialize agent params)))
  else if String.eqb name "ping" then Some (fun _ _ => a_ret (inr []))
  else if String.eqb name "tools/list" then Some (fun agent _ => a_ret (inr (_tools_list agent)))
  else if String.eqb name "tools/call" then Some _tools_call
  else None.

(** ** The transport *)

Definition accepted : Response := mk_response 202 PNone [] false true.

Definition is_response (message : dict pyval) : bool :=
  equals_str (pget "jsonrpc" message) "2.0" && (dmem "result" message || dmem "error" message).

Definition call_method (agent method : string) (request_id : pyval) (params : pyval) : A S Response :=
  match params with
  | PDict params =>
      match method_handler method with
      | None => a_ret (response 200 (rpc_error request_id METHOD_NOT_FOUND ("method not found: " +:+ method)))
      | Some handler =>
          let@ r := handler agent params in
          a_ret (response 200 match r with
                              | inl text => rpc_error request_id INVALID_PARAMS text
                              | inr r => [("jsonrpc", PStr "2.0"); ("id", request_id); ("result", obj r)]
                              end)
      end
  | _ => a_ret (response 200 (rpc_error request_id INVALID_PARAMS "params must be an object"))
  end.

Definition handle_message_object (agent : string) (message : dict pyval) : A S Response :=
  match (if equals_str (pget "jsonrpc" message) "2.0" then as_str (pget "method" message) else None) with
  | None =>
      if is_response message then a_ret accepted
      else a_ret (response 400 (rpc_error (_id (PDict message)) INVALID_REQUEST "expected a JSON-RPC 2.0 request or notification"))
  | Some method =>
      match dget "id" message with
      | None => a_ret accepted
      | Some ((PStr _ | PInt _) as request_id) => call_method agent method request_id (or_else (pget "params" message) (obj []))
      | Some _ => a_ret (response 400 (rpc_error PNone INVALID_REQUEST "id must be a string or integer"))
      end
  end.

Definition handle_post (agent body : string) (headers : dict string) : A S Response :=
  let unsupported := match dget "mcp-protocol-version" headers with
                     | Some version => if str_in version SUPPORTED_VERSIONS then None else Some version
                     | None => None
                     end in
  match unsupported with
  | Some version => a_ret (response 400 (rpc_error PNone INVALID_REQUEST ("unsupported MCP-Protocol-Version " +:+ repr_str version)))
  | None =>
      match json_bytes_strict body with
      | Raise _ => a_ret (response 400 (rpc_error PNone PARSE_ERROR "invalid JSON"))
      | Ok (PList _) => a_ret (response 400 (rpc_error PNone INVALID_REQUEST "JSON-RPC batches are not supported"))
      | Ok (PDict message) => handle_message_object agent message
      | Ok v => a_ret (response 400 (rpc_error (_id v) INVALID_REQUEST "expected a JSON-RPC 2.0 request or notification"))
      end
  end.

(** The routes the gateway mounts. *)
Definition mcp_routes (method path : string) : option (string -> string -> dict string -> A S Response) :=
  if String.eqb path "/mcp" then
    if String.eqb method "POST" then Some handle_post
    else if String.eqb method "GET" then
      Some (fun _ _ _ => a_ret (mk_response 405 (obj [("error", PStr "this MCP server does not offer a server-to-client stream")])
                                 [("Allow", "POST")] false false))
    else None
  else None.
End gateway.

(** ** Names *)

Definition action_char (c : ascii) : bool := is_lower c || is_digit c || is_char "_" c || is_char "." c || is_char newline c.

Lemma action_chars a : valid_action_name a = true -> s_forall action_char a = true.
Proof.
  apply match_dollar_over; [|done]. unfold action_char, is_char. simpl.
  repeat split; intros c Hc; by rewrite ?Hc, ?orb_true_r.
Qed.

Lemma dash_dot_inverse a : valid_action_name a = true -> s_map dash_to_dot (s_map dot_to_dash a) = a.
Proof.
  intros Ha%action_chars. apply s_map_map. revert Ha. apply s_forall_impl. intros c. unfold action_char, dot_to_dash, dash_to_dot.
  destruct (Ascii.eqb_spec c ".") as [->|]; [done|]. destruct (Ascii.eqb_spec c "-") as [->|]; [done|].
  intros _. apply Ascii.eqb_refl.
Qed.

Lemma tool_name_legal a : valid_action_name a = true -> match_dollar _TOOL_NAME (action_to_tool_name a) = true.
Proof.
  assert (forall s, re_in ACTION_NAME s -> re_in _TOOL_NAME (s_map dot_to_dash s)) as Hin.
  { assert (forall p c, p "."%char = false -> p c = true -> p (dot_to_dash c) = true) as Hkeep.
    { intros p c Hp Hc. unfold dot_to_dash. destruct (Ascii.eqb_spec c ".") as [->|]; [congruence|done]. }
    assert (re_sim dot_to_dash ident ident) as Hident by (split; intros c; [by apply Hkeep|by apply (Hkeep (fun c => is_lower c || is_digit c || is_char "_" c))]).
    intros s. apply re_sim_map. split; [exact Hident|split; [|exact Hident]].
    intros c Hc. apply Ascii.eqb_eq in Hc as <-. done. }
  unfold valid_action_name, action_to_tool_name. rewrite !match_dollar_spec.
  intros [Hs|(t & -> & Ht)]; [left; by apply Hin|right]. exists (s_map dot_to_dash t). split; [|by apply Hin].
  by rewrite s_map_app.
Qed.

(** The action a tool was named after is the one its name is read as. *)
Lemma tool_name_round_trip a : valid_action_name a = true -> tool_name_to_action (PStr (action_to_tool_name a)) = Some a.
Proof.
  intros Ha. unfold tool_name_to_action. rewrite tool_name_legal by done. f_equal. by apply dash_dot_inverse.
Qed.

Lemma tool_name_inj a b : valid_action_name a = true -> valid_action_name b = true ->
  action_to_tool_name a = action_to_tool_name b -> a = b.
Proof. intros Ha%tool_name_round_trip Hb%tool_name_round_trip Heq. rewrite Heq in Ha. congruence. Qed.

(** ** Listed tools *)

Section correct.
Context {S : Type} `{StateStore S} `{Externals} `{Tools} `{Arith} `{!Rounding}.
Variable cf : config.
Variable tool_metadata : string -> option (dict pyval).

Lemma describe_name id action cap : dget "name" (_describe tool_metadata id action cap) = Some (PStr (action_to_tool_name action)).
Proof. unfold _describe. by destruct (tool_schema _ _ _). Qed.

Lemma usable_in c agent action cap : NoDup (dkeys (capabilities_for c agent)) ->
  (action, cap) ∈ usable_capabilities c agent <-> dget action (capabilities_for c agent) = Some cap /\ cap_effect cap <> EDeny.
Proof.
  intros Hd. unfold usable_capabilities. rewrite list_elem_of_In, filter_In, <- list_elem_of_In.
  rewrite (merge_sort_Permutation action_le), negb_true_iff, bool_decide_eq_false.
  split; intros [Hin He]; (split; [|done]); [by apply dget_in_Some|by apply dget_Some_in].
Qed.

(** What an action is proposed as: messages and delegations have routes of their own. *)
Definition proposal (agent action : string) (arguments : dict pyval) : A S (Z * dict pyval) :=
  if String.eqb action "agent.message"
  then handle_message cf agent [("to", pget "to" arguments); ("body", pget "body" arguments)]
  else if String.eqb action "agent.delegate"
  then handle_delegation cf agent [("to", pget "to" arguments); ("action", pget "action" arguments);
                                   ("arguments", pget "arguments" arguments)]
  else handle_action cf agent [("action", PStr action); ("arguments", PDict arguments)].

(** What a tool call does that was listed for an action. *)
Definition call_for (agent action : string) (arguments : dict pyval) : A S (string + dict pyval) :=
  if String.eqb action "capgate.approval_status" then
    let@ r := (let@ (status, body) := approval_status agent (py_str (default (PStr EmptyString) (dget "approval_id" arguments))) in
               a_ret (_text_result (PDict body) (negb (status =? 200)) None)) in a_ret (inr r)
  else
    let@ r := (let@ (status, payload) := proposal agent action arguments in a_lift (_decision_result status payload)) in a_ret (inr r).

Lemma granted_valid agent c action cap : wf_contract c -> dget action (capabilities_for c agent) = Some cap -> valid_action_name action = true.
Proof.
  intros Hwf. unfold capabilities_for. destruct (dget agent (tc_agents c)) as [g|] eqn:Eg; [|done].
  destruct (wfc_ids c Hwf agent g Eg) as (_ & _ & Hg). unfold wf_grant in Hg. apply andb_true_iff in Hg as [_ Hall].
  intros Hin%dget_Some_in%list_elem_of_In. apply (proj1 (forallb_forall _ _) Hall) in Hin.
  apply andb_true_iff in Hin as [->%String.eqb_eq Hcap]. unfold wf_capability in Hcap. by bools.
Qed.

Lemma granted_distinct agent c : wf_contract c -> NoDup (dkeys (capabilities_for c agent)).
Proof.
  intros Hwf. unfold capabilities_for. destruct (dget agent (tc_agents c)) as [g|] eqn:Eg; [|constructor].
  destruct (wfc_ids c Hwf agent g Eg) as (_ & _ & Hg). unfold wf_grant in Hg. apply andb_true_iff in Hg as [Hd _].
  by apply distinct_NoDup.
Qed.

Lemma call_by_tool_name agent action arguments (s : api S) : valid_action_name action = true ->
  _tools_call cf agent [("name", PStr (action_to_tool_name action)); ("arguments", PDict arguments)] s = call_for agent action arguments s.
Proof.
  intros Hv. unfold _tools_call. cbn [call_params pget dget from_option id String.eqb Ascii.eqb Bool.eqb]. unfold call_tool_by_name, call_for.
  assert (String.eqb (action_to_tool_name action) APPROVAL_STATUS_TOOL = String.eqb action "capgate.approval_status") as ->.
  { destruct (String.eqb_spec action "capgate.approval_status") as [->|Hne]; [done|]. apply String.eqb_neq. intros Heq.
    by apply Hne, tool_name_inj. }
  destruct (String.eqb action _); [done|]. unfold propose. by rewrite (tool_name_round_trip action Hv).
Qed.

(** C23. An agent sees exactly the tools its contract lets it use, and calls what it sees. The names listed are
    the status tool's and those of the actions granted to it with an effect other than deny; and a tools/call by
    the name of such an action, with any arguments, proposes that very action with these arguments - as a message
    or a delegation when it is one of these - except for an action called capgate.approval_status, which can be
    granted: its name is the status tool's, and a call by it asks for the status of an approval. *)
Theorem listed_tools_exact (agent : string) (c : TaskContract) :
  contract_for cf agent = Some c -> wf_contract c ->
  (forall name, (exists t, t ∈ listed_tools cf tool_metadata agent /\ dget "name" t = Some (PStr name)) <->
     name = APPROVAL_STATUS_TOOL \/
     exists action cap, dget action (capabilities_for c agent) = Some cap /\ cap_effect cap <> EDeny
       /\ name = action_to_tool_name action)
  /\ forall action cap arguments (s : api S), dget action (capabilities_for c agent) = Some cap -> cap_effect cap <> EDeny ->
       _tools_call cf agent [("name", PStr (action_to_tool_name action)); ("arguments", PDict arguments)] s
       = call_for agent action arguments s.
Proof.
  intros Hc Hwf. pose proof (granted_distinct agent c Hwf) as Hd. split.
  2:{ intros action cap arguments s Hget _. eapply call_by_tool_name, granted_valid; eauto. }
  intros name. unfold listed_tools. rewrite Hc. split.
  - intros (t & [Hin|Hin]%elem_of_app & Hname).
    + right. apply list_elem_of_fmap in Hin as ([action cap] & -> & Hin).
      apply usable_in in Hin as [Hget He]; [|done]. rewrite describe_name in Hname. injection Hname as <-. by exists action, cap.
    + left. apply list_elem_of_singleton in Hin as ->. by injection Hname as <-.
  - intros [->|(action & cap & Hget & He & ->)].
    + exists status_tool. split; [|done]. apply elem_of_app. right. by apply list_elem_of_singleton.
    + exists (_describe tool_metadata (tc_contract_id c) action cap). rewrite describe_name. split; [|done].
      apply elem_of_app. left. apply list_elem_of_fmap. exists (action, cap). split; [done|]. by apply usable_in.
Qed.

(** ** Calls *)

Lemma approval_status_reads agent i (s : api S) : (approval_status agent i s).2 = s.
Proof.
  unfold approval_status, approval_record, read_store, in_harness, a_bind, a_lift, a_ret. destruct s as [w l t]. simpl.
  destruct (get_approval i (w_store w)) as [[|kv rec]|]; try done. destruct (owner_of _); [|done].
  destruct (negb _); [done|]. by destruct (key "status" _).
Qed.

Lemma after_bind {X Y} (m : A S X) (f : X -> A S Y) (s : api S) : (forall x s, (f x s).2 = s) -> (a_bind m f s).2 = (m s).2.
Proof. intros Hf. unfold a_bind. destruct (m s) as [[x|e] s1]; [apply Hf|done]. Qed.

Variable server_info : dict pyval.

(** Whatever an MCP request says, it changes nothing by itself: what it leaves behind is what the proposal
    of some tool call by the authenticated agent leaves behind, if anything. *)
Lemma mcp_only_proposes agent body headers (s : api S) :
  let s' := (handle_post cf tool_metadata server_info agent body headers s).2 in
  s' = s \/ exists name arguments, name <> APPROVAL_STATUS_TOOL /\ s' = (propose cf agent name arguments s).2.
Proof.
  unfold handle_post. cbv zeta. destruct (match dget _ headers with Some _ => _ | None => _ end); [by left|].
  destruct (json_bytes_strict body) as [[| | | | | | |message| | |]|e]; try (by left).
  unfold handle_message_object. destruct (if equals_str _ "2.0" then _ else None) as [method|]; [|destruct (is_response message); by left].
  destruct (dget "id" message) as [[]|]; try (by left).
  all: unfold call_method; destruct (or_else _ _) as [| | | | | | |params| | |]; try (by left).
  all: unfold method_handler; destruct (String.eqb method "initialize"); [by left|].
  all: destruct (String.eqb method "ping"); [by left|]; destruct (String.eqb method "tools/list"); [by left|].
  all: destruct (String.eqb method "tools/call"); [|by left].
  all: rewrite after_bind by done; unfold _tools_call; destruct (call_params params) as [text|[name arguments]]; [by left|].
  all: rewrite after_bind by done; unfold call_tool_by_name; destruct (String.eqb_spec name APPROVAL_STATUS_TOOL) as [Hn|Hn].
  all: try (left; rewrite after_bind by (by intros [status b]); apply approval_status_reads).
  all: right; exists name, arguments; split; [done|]; by rewrite after_bind by (by intros [status payload]).
Qed.
End correct.

Module Witnesses.
Import SampleContract.
#[local] Existing Instance Sample.externals.
#[local] Existing Instance Executor.Witnesses.tools.
#[local] Existing Instance exact.
#[local] Existing Instance Api.Witnesses.rounding.
Definition cf : config := Interceptor.Witnesses.cf.
Definition no_metadata (action : string) : option (dict pyval) := None.
Definition server : dict pyval := [("name", PStr "capgate"); ("version", PStr "0.1.0")].

(** The publishing tool is listed for agent [a], and called by that name is the proposal to publish. *)
Lemma listed_tools_exact_witness :
  (exists t, t ∈ listed_tools cf no_metadata "a" /\ dget "name" t = Some (PStr "doc-publish"))
  /\ _tools_call cf "a" [("name", PStr "doc-publish"); ("arguments", PDict [])] Api.Witnesses.api0
     = call_for cf "a" "doc.publish" [] Api.Witnesses.api0.
Proof.
  destruct (contract_for cf "a") as [c|] eqn:Hc; [|vm_compute in Hc; discriminate Hc].
  assert (wf_contract c) as Hwf.
  { destruct (Harness.Witnesses.cf_tables "a" (tc_contract_id c)) as (c' & Hget & Hwf & _);
      injection Hc as <-; [vm_compute; reflexivity|]. injection Hget as <-. exact Hwf. }
  assert (exists cap, dget "doc.publish" (capabilities_for c "a") = Some cap /\ cap_effect cap <> EDeny) as (cap & Hget & He).
  { injection Hc as <-. eexists. split; [vm_compute; reflexivity|discriminate]. }
  split.
  - apply (proj1 (listed_tools_exact (S := SQLiteStateStore) cf no_metadata "a" c Hc Hwf)). right. by exists "doc.publish", cap.
  - exact (proj2 (listed_tools_exact cf no_metadata "a" c Hc Hwf) "doc.publish" cap [] Api.Witnesses.api0 Hget He).
Defined.

(** A call over MCP with [b]'s token is executed, and the status of no tool is. *)
Definition mcp_call (name : string) : http_request :=
  mk_http "POST" "/mcp" [("Authorization", "Bearer " +:+ Api.Witnesses.bearer_b)]
    (Some (dumps "," ":" (PDict [("jsonrpc", PStr "2.0"); ("id", PInt 1); ("method", PStr "tools/call");
       ("params", PDict [("name", PStr name); ("arguments", PDict [("url", PStr "https://example.org/x")])])])))
    "10.0.0.1" None.
Definition mcp_run (name : string) := dispatch cf (mcp_routes cf no_metadata server) Api.Witnesses.now0 (mcp_call name) Api.Witnesses.api0.
Definition is_error (x : result Response) : pyval :=
  match x with Ok r => get_in "isError" (get_in "result" (r_body r)) | Raise _ => PNone end.
Example mcp_executes : is_error (mcp_run "web-fetch").1 = PBool false /\ length (w_ledger (ap_world (mcp_run "web-fetch").2)) = 1%nat.
Proof. vm_compute. by split. Qed.
Example mcp_denies : is_error (mcp_run "doc-publish").1 = PBool true /\ length (w_ledger (ap_world (mcp_run "doc-publish").2)) = 0%nat.
Proof. vm_compute. by split. Qed.
(** An action that has the name of the status tool could be granted, and never called by name. *)
Example status_tool_shadows : valid_action_name "capgate.approval_status" = true /\ is_reserved "capgate.approval_status" = false
  /\ action_to_tool_name "capgate.approval_status" = APPROVAL_STATUS_TOOL.
Proof. vm_compute. by split_and!. Qed.
End Witnesses.
