(* ===== verification/Bridge.v ===== *)
(** * The stdio bridge: src/capgate/mcp/bridge.py

    A transport adapter on the agent's side: every line of standard input is posted to the harness with
    the agent's token, and the reply written to standard output. The token file and the exchange over
    HTTP are parameters, numbered by the line they serve; bodies are UTF-8 text. *)

From S2P Require Import Prelude Regex PyVal Externals Json Contract AuditTrail RateLimit Api.

(** What [urlopen] ends with: a body, an HTTPError with its body, or an OSError. *)
Inductive http_outcome :=
| Success (raw : string)
| HTTPError (code : Z) (raw : string)
| Unreachable (error : string).

Record bridge_request := mk_bridge_request {
  br_headers : dict pyval;
  br_data : string;
}.

(** [bytes.strip()] *)
Definition bytes_strip (s : string) : string := strip_by (fun c => is_char " " c || in_range 9 13 c) s.

Definition rpc_error (id : pyval) (code : Z) (message : string) : dict pyval :=
  [("jsonrpc", PStr "2.0"); ("id", id); ("error", PDict [("code", PInt code); ("message", PStr message)])].

Definition _id (message : pyval) : pyval := match message with PDict d => pget "id" d | _ => PNone end.
Definition is_initialize (message : pyval) : bool :=
  match message with PDict d => equals_str (pget "method" d) "initialize" | _ => false end.
Definition has_id (message : pyval) : bool := match message with PDict d => dmem "id" d | _ => false end.

Section bridge.
Context `{Externals}.
Variable token : nat -> result string.
Variable post : nat -> bridge_request -> http_outcome.

Definition bridge_headers (token : string) (version message : pyval) : dict pyval :=
  [("Content-Type", PStr "application/json"); ("Accept", PStr "application/json, text/event-stream");
   ("Authorization", PStr ("Bearer " +:+ token))]
  ++ (if truthy version && negb (is_initialize message) then [("MCP-Protocol-Version", version)] else []).

(** The body to make a reply of: the harness's, or an error in its place. *)
Definition raw_reply (message : pyval) (outcome : http_outcome) : string :=
  match outcome with
  | Success raw => raw
  | HTTPError code raw =>
      if starts_with "{" (bytes_strip raw) then raw
      else dumps ", " ": " (PDict (rpc_error (_id message) (-32000) ("harness returned HTTP " +:+ show_Z code)))
  | Unreachable error => dumps ", " ": " (PDict (rpc_error (_id message) (-32000) ("cannot reach harness: " +:+ error)))
  end.

(** The reply to write, if there is one. *)
Definition reply_of (message : pyval) (raw : string) : option pyval :=
  if s_is_empty (bytes_strip raw) then None else
  let reply := default (PDict (rpc_error (_id message) (-32000) "harness returned a non-JSON reply")) (loads raw) in
  match reply with
  | PDict d =>
      if dmem "jsonrpc" d then Some reply
      else if has_id message
      then Some (PDict (rpc_error (_id message) (-32000) (py_str (default reply (dget "error" d)))))
      else None
  | _ => Some reply
  end.

(** The version negotiated by an [initialize], once its reply is known. *)
Definition version_of (reply : pyval) : result pyval :=
  match reply with
  | PDict d =>
      match pget "result" d with
      | PDict result => Ok (pget "protocolVersion" result)
      | v => if truthy v then Raise (AttributeError "get") else Ok PNone
      end
  | _ => Ok PNone
  end.

(** One line: what is written, and the protocol version after it. *)
Definition bridge_line (n : nat) (version : pyval) (line : string) : result (option pyval * pyval) :=
  let line := py_strip line in
  if s_is_empty line then Ok (None, version) else
  match loads line with
  | None => Ok (Some (PDict (rpc_error PNone (-32700) "invalid JSON")), version)
  | Some message =>
      let? t := token n in
      let outcome := post n (mk_bridge_request (bridge_headers t version message) line) in
      match reply_of message (raw_reply message outcome) with
      | None => Ok (None, version)
      | Some reply =>
          if is_initialize message then
            let? version := version_of reply in
            Ok (Some reply, version)
          else Ok (Some reply, version)
      end
  end.

(** The loop: what was written, and the exit code or the exception that ended it. *)
Fixpoint bridge_lines (n : nat) (version : pyval) (lines : list string) : list pyval * result Z :=
  match lines with
  | [] => ([], Ok 0)
  | line :: lines' =>
      match bridge_line n version line with
      | Raise e => ([], Raise e)
      | Ok (written, version) =>
          let '(out, code) := bridge_lines (S n) version lines' in
          (match written with Some reply => reply :: out | None => out end, code)
      end
  end.
Definition run_bridge (lines : list string) : list pyval * result Z := bridge_lines 0 PNone lines.

(** ** What the bridge writes *)

(** The errors the bridge itself makes of a message. *)
Definition own_error (message reply : pyval) : Prop :=
  exists code text, reply = PDict (rpc_error (_id message) code text).

Inductive faithful_reply (message : pyval) (raw : string) : pyval -> Prop :=
| reply_harness reply : loads raw = Some reply -> faithful_reply message raw reply    (* as the harness gave it *)
| reply_own reply : own_error message reply -> faithful_reply message raw reply.

Lemma reply_of_faithful message raw reply : reply_of message raw = Some reply -> faithful_reply message raw reply.
Proof.
  unfold reply_of. destruct (s_is_empty _); [done|]. destruct (loads raw) as [r|] eqn:El; unfold default, id.
  - assert (faithful_reply message raw r) as Hr by (by apply reply_harness). destruct r; try by intros [= <-].
    destruct (dmem "jsonrpc" d); [by intros [= <-]|]. destruct (has_id message); [|done]. intros [= <-].
    apply reply_own. by eexists _, _.
  - cbn. intros [= <-]. apply reply_own. by eexists _, _.
Qed.

Lemma reply_of_request message raw : has_id message = true -> s_is_empty (bytes_strip raw) = false ->
  exists reply, reply_of message raw = Some reply.
Proof.
  intros Hid Hraw. unfold reply_of. rewrite Hraw, Hid. destruct (default _ (loads raw)); eauto. destruct (dmem "jsonrpc" d); eauto.
Qed.

Lemma lstrip_keeps p s c : p c = false -> lstrip_by p (s +:+ chr1 c) <> EmptyString.
Proof.
  intros Hc. induction s as [|d s IH]; [rewrite s_app_nil_l; unfold chr1; cbn [lstrip_by]; by rewrite Hc|]. rewrite s_app_cons. cbn [lstrip_by]. by destruct (p d).
Qed.

Lemma bytes_strip_keeps c s : (is_char " " c || in_range 9 13 c) = false -> s_is_empty (bytes_strip (String c s)) = false.
Proof.
  intros Hc. unfold bytes_strip, strip_by, rstrip_by. cbn [lstrip_by]. rewrite Hc, s_rev_cons.
  pose proof (lstrip_keeps (fun c => is_char " " c || in_range 9 13 c) (s_rev s) c Hc) as Hne.
  destruct (lstrip_by _ _) as [|d t]; [done|]. rewrite s_rev_cons. by destruct (s_rev t).
Qed.

(** Only a success with an empty body is blank: an error always has a text. *)
Lemma raw_reply_blank message outcome : s_is_empty (bytes_strip (raw_reply message outcome)) = true ->
  exists raw, outcome = Success raw /\ s_is_empty (bytes_strip raw) = true.
Proof.
  assert (forall d, s_is_empty (bytes_strip (dumps ", " ": " (PDict d))) = false) as Hd by (intros d; by apply bytes_strip_keeps).
  destruct outcome as [raw|code raw|error]; cbn [raw_reply]; [eauto| |by rewrite Hd].
  destruct (starts_with "{" (bytes_strip raw)) eqn:E; [|by rewrite Hd]. by destruct (bytes_strip raw).
Qed.

(** What one line leads to. *)
Definition line_spec (n : nat) (version : pyval) (line : string) (written : option pyval) : Prop :=
  let line := py_strip line in
  if s_is_empty line then written = None else
  match loads line with
  | None => written = Some (PDict (rpc_error PNone (-32700) "invalid JSON"))
  | Some message =>
      exists t, token n = Ok t /\
      let outcome := post n (mk_bridge_request (bridge_headers t version message) line) in
      match written with
      | Some reply => faithful_reply message (raw_reply message outcome) reply
      | None => has_id message = false \/ exists raw, outcome = Success raw /\ s_is_empty (bytes_strip raw) = true
      end
  end.

Lemma bridge_line_spec n version line written version' : bridge_line n version line = Ok (written, version') ->
  line_spec n version line written.
Proof.
  unfold bridge_line, line_spec. cbv zeta. destruct (s_is_empty (py_strip line)); [by intros [= <- <-]|].
  destruct (loads (py_strip line)) as [message|]; [|by intros [= <- <-]].
  destruct (token n) as [t|e]; cbn [result_bind]; [|done]. set (outcome := post _ _).
  intros Hline. exists t. split; [done|].
  destruct (reply_of message (raw_reply message outcome)) as [reply|] eqn:Er.
  - assert (written = Some reply) as ->; [|by apply reply_of_faithful].
    destruct (is_initialize message); [|by injection Hline]. destruct (version_of reply); cbn [result_bind] in Hline; [|done]. by injection Hline.
  - injection Hline as <- <-. destruct (has_id message) eqn:Hid; [|by left]. right.
    destruct (s_is_empty (bytes_strip (raw_reply message outcome))) eqn:Eb; [by apply (raw_reply_blank message outcome)|].
    destruct (reply_of_request _ _ Hid Eb) as [r Hr]. congruence.
Qed.

Lemma bridge_lines_spec n version lines out : bridge_lines n version lines = (out, Ok 0) ->
  exists written, out = omap id written /\ length written = length lines
    /\ forall i line, lines !! i = Some line -> exists v w, written !! i = Some w /\ line_spec (n + i) v line w.
Proof.
  revert n version out; induction lines as [|line lines IH]; intros n version out Hrun; cbn [bridge_lines] in Hrun.
  - injection Hrun as <-. exists []. split_and!; [done|done|]. by intros [|i] line.
  - destruct (bridge_line n version line) as [[w version1]|e] eqn:El; [|done].
    destruct (bridge_lines (S n) version1 lines) as [out1 code] eqn:E. injection Hrun as <- ->.
    destruct (IH _ _ _ E) as (written & -> & Hlen & Hspec). exists (w :: written). split_and!.
    + by destruct w.
    + simpl. by rewrite Hlen.
    + intros [|i] l Hl; simpl in Hl.
      * injection Hl as <-. exists version, w. split; [done|]. rewrite Nat.add_0_r. by eapply bridge_line_spec.
      * destruct (Hspec i l Hl) as (v & w' & Hw & Hs). exists v, w'. split; [done|]. by rewrite Nat.add_succ_r.
Qed.

(** One reply per line, in order. When the bridge ends, what it wrote are the replies to the lines it
    read, in their order, at most one each: nothing for a blank line; a parse error for a line that is no
    JSON; otherwise the line was posted with the agent's current token, and what is written is the JSON
    the harness answered with or an error of the bridge under the id of the message. A message that has
    an id goes without a reply only when the harness accepted it with an empty body. *)
Theorem bridge_replies (lines : list string) (out : list pyval) :
  run_bridge lines = (out, Ok 0) ->
  exists written, out = omap id written /\ length written = length lines
    /\ forall i line, lines !! i = Some line -> exists version w, written !! i = Some w /\ line_spec i version line w.
Proof. apply bridge_lines_spec. Qed.
End bridge.

Module Witnesses.
#[local] Existing Instance Sample.externals.
Definition q (s : string) : string := s_map (fun c => if Ascii.eqb c "'" then dquote else c) s.
Definition harness (n : nat) (r : bridge_request) : http_outcome :=
  match n with
  | 0%nat => Success (q "{'jsonrpc': '2.0', 'id': 1, 'result': {'protocolVersion': '2025-06-18'}}")
  | 2%nat => Success EmptyString
  | 4%nat => HTTPError 401 (q "{'error': 'TOKEN_EXPIRED'}")
  | 5%nat => HTTPError 502 "bad gateway"
  | _ => Unreachable "refused"
  end.
Definition lines : list string :=
  [q "{'id': 1, 'method': 'initialize'}"; "  "; q "{'method': 'notifications/initialized'}"; "nonsense";
   q "{'id': 2, 'method': 'tools/list'}"; q "{'id': 3, 'method': 'ping'}"; q "{'method': 'x'}"].
Definition out : list pyval := (run_bridge (fun _ => Ok "t") harness lines).1.
Lemma run_ok : run_bridge (fun _ => Ok "t") harness lines = (out, Ok 0).
Proof. vm_compute. reflexivity. Qed.

Lemma bridge_replies_witness :
  out = [PDict [("jsonrpc", PStr "2.0"); ("id", PInt 1); ("result", PDict [("protocolVersion", PStr "2025-06-18")])];
         PDict (rpc_error PNone (-32700) "invalid JSON"); PDict (rpc_error (PInt 2) (-32000) "TOKEN_EXPIRED");
         PDict (rpc_error (PInt 3) (-32000) "harness returned HTTP 502");
         PDict (rpc_error PNone (-32000) "cannot reach harness: refused")]
  /\ exists written, out = omap id written /\ length written = 7%nat.
Proof.
  split; [vm_compute; reflexivity|].
  destruct (bridge_replies (fun _ => Ok "t") harness lines out run_ok) as (written & Ho & Hl & _). by exists written.
Defined.

(** A notification is answered when the harness cannot be reached, though JSON-RPC allows no reply to one. *)
Lemma notification_answered : run_bridge (fun _ => Ok "t") (fun _ _ => Unreachable "refused") [q "{'jsonrpc':'2.0','method':'notifications/cancelled'}"]
  = ([PDict (rpc_error PNone (-32000) "cannot reach harness: refused")], Ok 0).
Proof. vm_compute. reflexivity. Qed.
End Witnesses.
