(* ===== verification/Client.v ===== *)
(** * The Python client: sdk/python/capgate_client

    [HarnessClient] and [Outcome]: the requests the client sends and what it makes of the replies. The
    connection is a parameter: what an HTTP exchange gives for a request. *)

From S2P Require Import Prelude Regex PyVal Externals Json Request Decision Contract Policy State AuditTrail Effects Interceptor Executor Harness RateLimit Base64 Workload Identity Api.

(** ** Outcomes *)

Record Outcome := mk_outcome { oc_status : Z; oc_body : pyval }.

(** [v.get(k)] and [v.get(k) or {}]. *)
Definition get_in (v : pyval) (k : string) : result pyval :=
  match v with PDict d => Ok (pget k d) | _ => Raise (AttributeError "object has no attribute 'get'") end.
Definition part (o : Outcome) (k : string) : result pyval :=
  let? v := get_in (oc_body o) k in Ok (if truthy v then v else PDict []).
(** [a or b], of values that may raise. *)
Definition or_else (a b : result pyval) : result pyval := let? v := a in if truthy v then Ok v else b.

Definition oc_decision (o : Outcome) : result pyval :=
  or_else (get_in (oc_body o) "decision")
    (or_else (let? a := part o "action" in get_in a "decision") (let? d := part o "delegation" in get_in d "decision")).
Definition oc_allowed (o : Outcome) : bool := oc_status o =? 200.
Definition oc_escalated (o : Outcome) : bool := oc_status o =? 202.

Fixpoint first_reason (parts : list pyval) : result (option pyval) :=
  match parts with
  | [] => Ok None
  | p :: parts' =>
      let? reason := get_in p "reason_code" in
      if truthy reason
      then let? d := get_in p "decision" in
           if equals_str d "allow" then first_reason parts' else Ok (Some reason)
      else first_reason parts'
  end.
Definition oc_reason_code (o : Outcome) : result pyval :=
  let? a := part o "action" in
  let? d := part o "delegation" in
  let? found := first_reason [oc_body o; a; d] in
  match found with Some reason => Ok reason | None => get_in (oc_body o) "reason_code" end.
Definition oc_approval_id (o : Outcome) : result pyval :=
  or_else (get_in (oc_body o) "approval_id")
    (or_else (let? d := part o "delegation" in get_in d "approval_id") (let? a := part o "action" in get_in a "approval_id")).
Definition oc_execution (o : Outcome) : result pyval :=
  or_else (get_in (oc_body o) "execution") (let? a := part o "action" in get_in a "execution").

(** ** Requests *)

Record call := mk_call {
  ca_method : string;
  ca_url : string;
  ca_data : option string;
  ca_headers : dict string;
}.
(** What [urlopen] gives: an answer with its status, an [HTTPError] for a status outside 2xx among them. *)
Inductive answered :=
| Answered (status : Z) (raw : string)
| Unreachable (error : string).

Record HarnessClient := mk_client { hc_base_url : string; hc_token : result string }.
Definition make_client (base_url : string) (token : result string) : HarnessClient := mk_client (rstrip_by (is_char "/") base_url) token.
Definition repr_client (c : HarnessClient) : string := "HarnessClient(" +:+ repr_str (hc_base_url c) +:+ ", token=<redacted>)".

Section client.
Context `{Externals}.
Variable urlopen : call -> answered.
(** [raw.decode(errors="replace")] *)
Variable decode_replace : string -> string.
Variable c : HarnessClient.

Definition read_answer (a : answered) : result Outcome :=
  match a with
  | Unreachable e => Raise (OSError e)
  | Answered status raw =>
      let decoded := json_bytes (if s_is_empty raw then "{}" else raw) in
      if (200 <=? status) && (status <? 300) then let? v := decoded in Ok (mk_outcome status v)
      else match decoded with
           | Ok v => Ok (mk_outcome status v)
           | Raise e =>
               (* JSONDecodeError is caught, UnicodeDecodeError is not *)
               if is_ascii raw || some (decode_bytes raw) then Ok (mk_outcome status (PDict [("error", PStr (decode_replace raw))])) else Raise e
           end
  end.

Definition _call (method path : string) (body : option (dict pyval)) : result Outcome :=
  let? data := (match body with
                | None => Ok None
                | Some b => if serializable (PDict b) then Ok (Some (dumps ", " ": " (PDict b))) else Raise (TypeError "Object is not JSON serializable")
                end) in
  let? token := hc_token c in
  read_answer (urlopen (mk_call method (hc_base_url c +:+ path) data
    [("Authorization", "Bearer " +:+ token); ("Content-Type", "application/json")])).

Definition or_empty (v : pyval) : pyval := if truthy v then v else PDict [].
Definition act (action : string) (arguments : pyval) : result Outcome :=
  _call "POST" "/v1/actions" (Some [("action", PStr action); ("arguments", or_empty arguments)]).
Definition client_send_message (to : string) (body : pyval) : result Outcome :=
  _call "POST" "/v1/messages" (Some [("to", PStr to); ("body", body)]).
(** [.body.get(k, [])] *)
Definition listed (k : string) (r : result Outcome) : result pyval :=
  let? o := r in match oc_body o with PDict d => Ok (default (PList []) (dget k d)) | _ => Raise (AttributeError "object has no attribute 'get'") end.
Definition client_receive : result pyval := listed "messages" (_call "GET" "/v1/messages" None).
Definition client_delegate (to action : string) (arguments : pyval) : result Outcome :=
  _call "POST" "/v1/delegations" (Some [("to", PStr to); ("action", PStr action); ("arguments", or_empty arguments)]).
Definition client_approval_status (approval_id : string) : result Outcome := _call "GET" ("/v1/approvals/" +:+ approval_id) None.
Definition client_pending_approvals : result pyval := listed "approvals" (_call "GET" "/v1/approvals" None).
Definition decide_approval (approval_id : string) (approve : bool) (note : string) : result Outcome :=
  _call "POST" ("/v1/approvals/" +:+ approval_id) (Some [("verdict", PStr (if approve then "approve" else "reject")); ("note", PStr note)]).
End client.

(** ** Theorems *)

(** What the API writes, as it arrives. *)
Definition wire (r : Response) : answered := Answered (r_status r) (encode r).
(** ASCII values that JSON can hold. *)
Definition portable `{Externals} (v : pyval) : Prop := clean_val v = true /\ plain v = true.

Lemma portable_bytes `{Externals} constants v : portable v ->
  json_bytes_with constants (dumps ", " ": " v) = Ok v /\ json_bytes_with constants (dumps "," ":" v) = Ok v
  /\ s_is_empty (dumps ", " ": " v) = false /\ s_is_empty (dumps "," ":" v) = false.
Proof.
  intros [Hc Hp]. assert (readable constants v = true) as Hr by (destruct (plain_readable v Hp); by destruct constants).
  destruct item_separators, key_separators. split_and!; by (apply bytes_round_trip || apply (dumps_nonempty constants)).
Qed.

Lemma read_wire `{Externals} decode_replace r : r_empty r = false -> portable (r_body r) ->
  read_answer decode_replace (wire r) = Ok (mk_outcome (r_status r) (r_body r)).
Proof.
  intros He Hp. destruct (portable_bytes true (r_body r) Hp) as (_ & Hb & _ & Hne).
  unfold wire, read_answer, encode. rewrite He, Hne. unfold json_bytes. rewrite Hb. by case_match.
Qed.

Lemma wf_plain_parts `{Externals} d k v : portable (PDict d) -> (k, v) ∈ d -> portable v.
Proof.
  intros [Hc Hp] Hin. cbn [clean_val plain] in *. apply andb_true_iff in Hp as [_ Hp]. rewrite forallb_forall in Hc, Hp.
  apply list_elem_of_In in Hin. specialize (Hc _ Hin). specialize (Hp _ Hin). cbn beta iota in *. apply andb_true_iff in Hc as [_ Hc]. done.
Qed.

Section correct.
Context {S : Type} `{StateStore S} `{Externals} `{Tools} `{Arith} `{!Rounding}.

(** The statuses of an answer to an action. *)
Lemma respond_status cf res (s : api S) st payload s' : respond cf res s = (Ok (st, payload), s') ->
  (st = 202 <-> escalated (ar_decision res) = true) /\ (st = 200 -> ar_allowed res = true)
  /\ exists more, payload = authorization_to_dict res ++ more.
Proof.
  unfold respond. destruct (escalated (ar_decision res)) eqn:Ee.
  { intros [= <- <- <-]. split_and!; [done|done|]. exists []. by rewrite app_nil_r. }
  destruct (ar_allowed res) eqn:Ea; cbn [negb].
  - unfold a_try, a_bind, a_ret. destruct (in_harness _ s) as [[out|e] s1]; [|destruct e]; intros Hr; try discriminate Hr; injection Hr as <- <- <-;
      (split_and!; [done|done|eauto]).
  - intros [= <- <- <-]. split_and!; [done|done|]. exists []. by rewrite app_nil_r.
Qed.

Lemma decision_get res more : get_in (PDict (authorization_to_dict res ++ more)) "decision" = Ok (PStr (decision_value (d_decision (ar_decision res)))).
Proof. done. Qed.

(** C22. The client is faithful to the API on both ways: the API decodes the body of a request into the action
    and the arguments the caller gave; the outcome is the status and the body that the API answered with; and of
    an answer to an action, [decision] is the decision's, [escalated] is whether it was escalated, [approval_id]
    is the one to wait for, and [allowed] is never said of an action the harness refused. *)
Theorem client_round_trip (c : HarnessClient) (token : string) (decode_replace : string -> string) (server : call -> Response)
    (action : string) (arguments : dict pyval) :
  hc_token c = Ok token -> portable (PDict [("action", PStr action); ("arguments", PDict arguments)]) ->
  let data := dumps ", " ": " (PDict [("action", PStr action); ("arguments", PDict arguments)]) in
  let request := mk_call "POST" (hc_base_url c +:+ "/v1/actions") (Some data)
                   [("Authorization", "Bearer " +:+ token); ("Content-Type", "application/json")] in
  r_empty (server request) = false -> portable (r_body (server request)) ->
  act (fun q => wire (server q)) decode_replace c action (PDict arguments)
    = Ok (mk_outcome (r_status (server request)) (r_body (server request)))
  /\ (Z.of_nat (String.length data) <= MAX_BODY -> _json_object (Some data) = Some [("action", PStr action); ("arguments", PDict arguments)])
  /\ forall cf res s st payload (s' : api S), respond cf res s = (Ok (st, payload), s') ->
       let o := mk_outcome st (PDict payload) in
       oc_decision o = Ok (PStr (decision_value (d_decision (ar_decision res))))
       /\ (oc_escalated o = true <-> escalated (ar_decision res) = true)
       /\ (oc_allowed o = true -> ar_allowed res = true)
       /\ (forall id, ar_approval_id res = Some id -> id <> EmptyString -> oc_approval_id o = Ok (PStr id)).
Proof.
  intros Ht Hp data request He Hbody. destruct (portable_bytes false _ Hp) as (Hb & _ & Hne & _). split_and!.
  - unfold act, _call. assert (or_empty (PDict arguments) = PDict arguments) as -> by (unfold or_empty; by destruct arguments).
    assert (serializable (PDict [("action", PStr action); ("arguments", PDict arguments)]) = true) as ->.
    { destruct Hp as [_ Hp]. revert Hp. generalize (PDict [("action", PStr action); ("arguments", PDict arguments)]) as v. apply plain_serializable. }
    cbn [result_bind]. rewrite Ht. cbn [result_bind]. fold data request. by apply read_wire.
  - intros Hlen. unfold _json_object. fold data in Hne, Hb. rewrite Hne. unfold json_bytes_strict. rewrite Hb.
    by replace (MAX_BODY <? Z.of_nat (String.length data)) with false by lia.
  - intros cf res s st payload s' Hr o. destruct (respond_status _ _ _ _ _ _ Hr) as (Hesc & Hall & more & ->). split_and!.
    + unfold oc_decision, o. cbn [oc_body]. rewrite decision_get. unfold or_else. cbn [result_bind].
      by destruct (d_decision (ar_decision res)).
    + unfold oc_escalated, o. cbn [oc_status]. rewrite Z.eqb_eq. exact Hesc.
    + unfold oc_allowed, o. cbn [oc_status]. rewrite Z.eqb_eq. exact Hall.
    + intros id Hid Hne'. unfold oc_approval_id, o. cbn [oc_body].
      assert (get_in (PDict (authorization_to_dict res ++ more)) "approval_id" = Ok (PStr id)) as ->
        by (unfold authorization_to_dict; rewrite Hid; done).
      unfold or_else. cbn [result_bind]. by destruct id.
Qed.

(** Of an action that was allowed [reason_code] raises, and of one that was not [execution] and [approval_id]:
    the name of the action is taken for a part of the body. *)
Lemma absent_fields_raise (res : AuthorizationResult) a st : rq_action (d_request (ar_decision res)) = PStr a -> a <> EmptyString ->
  let o := mk_outcome st (PDict (authorization_to_dict res)) in
  (d_decision (ar_decision res) = ALLOW -> oc_reason_code o = Raise (AttributeError "object has no attribute 'get'"))
  /\ oc_execution o = Raise (AttributeError "object has no attribute 'get'")
  /\ (ar_approval_id res = None -> oc_approval_id o = Raise (AttributeError "object has no attribute 'get'")).
Proof.
  intros Ha Hne o. assert (forall k, (let? p := part o "action" in get_in p k) = Raise (AttributeError "object has no attribute 'get'")) as Hpart.
  { intros k. unfold part, o, get_in, authorization_to_dict, decision_to_dict, pget. cbn. rewrite Ha. cbn. by destruct a. }
  split_and!.
  - intros Hd. unfold oc_reason_code.
    assert (part o "action" = Ok (PStr a)) as -> by (unfold part, o, get_in, authorization_to_dict, decision_to_dict, pget; cbn; rewrite Ha; by destruct a).
    unfold part, o. cbn. rewrite Hd. cbn. by case_match.
  - unfold oc_execution. by rewrite Hpart.
  - intros Hid. unfold oc_approval_id. rewrite Hpart.
    assert (get_in (oc_body o) "approval_id" = Ok PNone) as -> by (unfold o, get_in, authorization_to_dict; by rewrite Hid).
    done.
Qed.
End correct.

Module Witnesses.
#[local] Existing Instances Sample.externals Executor.Witnesses.tools exact Api.Witnesses.rounding.

Definition client : HarnessClient := make_client "http://127.0.0.1:8700/" (Ok "token").
Definition arguments : dict pyval := [("query", PStr "the weather"); ("limit", PInt 3)].
Definition answer : Response := response 403 [("decision", PStr "deny"); ("reason_code", PStr "CAPABILITY_NOT_GRANTED"); ("action", PStr "web.search")].

Lemma client_round_trip_witness :
  act (fun q => wire ((fun _ => answer) q)) id client "web.search" (PDict arguments) = Ok (mk_outcome 403 (r_body answer))
  /\ _json_object (Some (dumps ", " ": " (PDict [("action", PStr "web.search"); ("arguments", PDict arguments)])))
     = Some [("action", PStr "web.search"); ("arguments", PDict arguments)].
Proof.
  destruct (client_round_trip (S := MemoryStateStore) client "token" id (fun _ => answer) "web.search" arguments) as (H1 & H2 & _);
    [reflexivity|by vm_compute|reflexivity|by vm_compute|].
  split; [exact H1|]. apply H2. vm_compute. discriminate.
Defined.

(** The outcome of a denial. *)
Example denied_outcome : let o := mk_outcome 403 (r_body answer) in
  (oc_allowed o, oc_escalated o, oc_decision o, oc_reason_code o) = (false, false, Ok (PStr "deny"), Ok (PStr "CAPABILITY_NOT_GRANTED")).
Proof. reflexivity. Qed.
Example token_hidden : repr_client client = "HarnessClient('http://127.0.0.1:8700', token=<redacted>)".
Proof. reflexivity. Qed.
End Witnesses.
