(* ===== verification/Edge.v ===== *)
(** * The edge: src/capgate/mtlsedge.py and src/capgate/asgi.py

    How a request reaches the API: through the mTLS terminator, which adds the identity of the client's
    certificate, and the ASGI adapter, which believes that identity only from a trusted proxy. The TLS
    handshake, the sockets and the parsing of HTTP are parameters; header bytes are read as latin-1. *)

From S2P Require Import Prelude Datetime Regex PyVal Externals Json Request Decision NetAddr Timeutil Capability Contract Policy State AuditTrail Effects Interceptor Executor Harness System RateLimit Base64 Workload Identity Api.

(** ** Text of headers *)

(** [bytes.decode("latin-1")] *)
Fixpoint latin1 (bytes : string) : string :=
  match bytes with
  | EmptyString => EmptyString
  | String c s =>
      if byte_of c <? 128 then String c (latin1 s)
      else String (char_of (192 + byte_of c / 64)) (String (char_of (128 + byte_of c mod 64)) (latin1 s))
  end.

(** [s.isdigit()] of such a text: the superscripts one, two and three are digits too. *)
Fixpoint all_digits (s : string) : bool :=
  match s with
  | EmptyString => true
  | String a s1 =>
      if is_digit a then all_digits s1
      else match s1 with
           | String b s2 =>
               (byte_of a =? 194) && ((byte_of b =? 178) || (byte_of b =? 179) || (byte_of b =? 185)) && all_digits s2
           | EmptyString => false
           end
  end.
Definition isdigit (s : string) : bool := negb (s_is_empty s) && all_digits s.
(** [int(s)] of a text of digits. *)
Definition int_of (s : string) : result Z :=
  if s_forall is_digit s then Ok (read_digits s) else Raise (ValueError "invalid literal for int() with base 10").

Definition headers : Type := list (string * string).

(** ** The mTLS edge *)

Definition EDGE_MAX_BODY : Z := 1000000.
Definition STRIP : list string :=
  ["x-client-spiffe-id"; "x-client-cert-thumbprint"; "x-real-ip"; "x-forwarded-for"; "forwarded"].
Definition HOP_BY_HOP : list string :=
  ["connection"; "keep-alive"; "proxy-authenticate"; "proxy-authorization"; "te"; "trailer"; "transfer-encoding"; "upgrade"].

Record forwarded := mk_forwarded {
  fw_method : string;
  fw_path : string;
  fw_headers : dict string;
  fw_body : option string;
}.

Record edge_reply := mk_reply {
  ep_status : Z;
  ep_headers : headers;
  ep_body : string;
}.

(** The first header of a name, whatever its case. *)
Definition get_header (name : string) (hs : headers) : option string :=
  snd <$> find (fun h => String.eqb (py_lower h.1) (py_lower name)) hs.

Definition _fail (code : Z) (message : string) : edge_reply :=
  let q := chr1 dquote in
  let body := "{" +:+ q +:+ "error" +:+ q +:+ ":" +:+ q +:+ message +:+ q +:+ "}" in
  mk_reply code [("Content-Type", "application/json"); ("Content-Length", show_Z (s_len body)); ("Connection", "close")] body.

Definition passes_edge (h : string * string) : bool :=
  negb (str_in (py_lower h.1) STRIP) && negb (str_in (py_lower h.1) HOP_BY_HOP).

(** What is sent on: the client's headers less its own claims of identity, then the verified identity. *)
Definition edge_headers (client : string) (i : WorkloadIdentity) (hs : headers) : dict string :=
  let h := dupdate [] (List.filter passes_edge hs) in
  let h := dset "X-Real-IP" client h in
  let h := dset "X-Client-Cert-Thumbprint" (default EmptyString (wi_thumbprint i)) h in
  let h := match nonempty (wi_spiffe_id i) with Some id => dset "X-Client-Spiffe-Id" id h | None => h end in
  dset "Connection" "close" h.

Section edge.
Context `{Externals}.
(** [rfile.read(n)], and one exchange with the upstream; [None] is an OSError. *)
Variable read : Z -> option string.
Variable upstream : forwarded -> option (Z * headers * string).

(** The body of a request, or the failure that answers it. *)
Definition edge_body (method : string) (hs : headers) : result (edge_reply + string) :=
  if negb (str_in method ["POST"; "PUT"; "PATCH"]) then Ok (inr EmptyString)
  else match get_header "Content-Length" hs with
       | None => Ok (inl (_fail 413 "missing or oversized body"))
       | Some raw =>
           if negb (isdigit (py_strip raw)) then Ok (inl (_fail 413 "missing or oversized body")) else
           let? n := int_of (py_strip raw) in
           if EDGE_MAX_BODY <? n then Ok (inl (_fail 413 "missing or oversized body")) else
           match read n with
           | None => Ok (inl (_fail 408 "request timed out"))
           | Some body => if s_len body =? n then Ok (inr body) else Ok (inl (_fail 400 "short body"))
           end
       end.

Definition passes_back (h : string * string) : bool :=
  negb (str_in (py_lower h.1) HOP_BY_HOP) && negb (String.eqb (py_lower h.1) "content-length").

Definition edge_answer (method : string) (r : option (Z * headers * string)) : edge_reply :=
  match r with
  | None => _fail 502 "upstream unavailable"
  | Some (status, hs, payload) =>
      mk_reply status (List.filter passes_back hs ++ [("Content-Length", show_Z (s_len payload)); ("Connection", "close")])
        (if String.eqb method "HEAD" then EmptyString else payload)
  end.

(** [cert] and [der] are the peer's certificate as [getpeercert] gives it, parsed and as bytes. *)
Definition edge_identity (cert : option peercert) (der : option string) : result (option WorkloadIdentity) :=
  match der with
  | None | Some EmptyString => Ok None
  | Some _ => let? i := from_peercert cert der in Ok (Some i)
  end.

(** What is answered at once, or sent on. *)
Definition edge_request (cert : option peercert) (der : option string) (method path client : string) (hs : headers) :
    result (edge_reply + forwarded) :=
  let? identity := edge_identity cert der in
  match identity with
  | None => Ok (inl (_fail 400 "client certificate required"))
  | Some i =>
      if negb (present i) then Ok (inl (_fail 400 "client certificate required")) else
      let? body := edge_body method hs in
      match body with
      | inl failure => Ok (inl failure)
      | inr body =>
          Ok (inr (mk_forwarded method path (edge_headers client i hs) (if s_is_empty body then None else Some body)))
      end
  end.
Definition edge_handle (cert : option peercert) (der : option string) (method path client : string) (hs : headers) :
    result edge_reply :=
  let? r := edge_request cert der method path client hs in
  match r with inl failure => Ok failure | inr sent => Ok (edge_answer method (upstream sent)) end.
End edge.

(** [MTLSEdge.__init__]: the host and port of the upstream. *)
Definition edge_upstream `{Externals} (upstream : string) : result (string * Z) :=
  match urlsplit upstream with
  | None => Raise (ValueError "Invalid URL")
  | Some u =>
      if negb (String.eqb (u_scheme u) "http") || s_is_empty (u_hostname u)
      then Raise (ValueError "upstream must be http://host:port (the internal harness address)")
      else match u_port u with
           | None => Raise (ValueError "Port could not be cast to integer value")
           | Some port => Ok (u_hostname u, match port with Some 0 | None => 80 | Some p => p end)
           end
  end.
(** [host or "0.0.0.0"] and [int(port)] of the address to listen on. *)
Definition edge_listen `{Externals} (listen : string) : result (string * Z) :=
  let '(host, _, port) := rpartition_on ":"%char listen in
  match read_int port with
  | Some n => Ok (if s_is_empty host then "0.0.0.0" else host, n)
  | None => Raise (ValueError "invalid literal for int() with base 10")
  end.

(** ** The ASGI adapter *)

(** The messages of the server's life: each is answered, the last ends it. *)
Inductive lifespan_message := Startup | Shutdown | OtherMessage.
Fixpoint lifespan (messages : list lifespan_message) : list string :=
  match messages with
  | [] => []
  | Startup :: rest => "lifespan.startup.complete" :: lifespan rest
  | Shutdown :: _ => ["lifespan.shutdown.complete"]
  | OtherMessage :: rest => lifespan rest
  end.

Definition MAX_HEADER_BYTES : Z := 16000.

(** A network of CIDR notation: the bits of [net_base] after the first [net_prefix] do not matter. *)
Record network := mk_network {
  net_base : ip;
  net_prefix : Z;
}.
Definition in_network (a : ip) (n : network) : bool :=
  match a, net_base n with
  | IPv4 x, IPv4 y => x / 2 ^ (32 - net_prefix n) =? y / 2 ^ (32 - net_prefix n)
  | IPv6 x, IPv6 y => x / 2 ^ (128 - net_prefix n) =? y / 2 ^ (128 - net_prefix n)
  | _, _ => false
  end.

(** The [scope] of a connection: headers as bytes, and the host of the peer. *)
Record asgi_scope := mk_scope {
  sc_type : string;
  sc_method : string;
  sc_headers : headers;
  sc_client : option string;
  sc_target : string;                 (* raw_path, or the encoded path *)
  sc_query : string;
}.

(** What [receive] gives: a piece of the body and whether more follows, the end of the connection, or
    nothing within the timeout. *)
Inductive asgi_event :=
| Chunk (bytes : string) (more : bool)
| Disconnect
| TimedOut.

(** A response of the adapter itself, no response, or a request for the API. *)
Inductive asgi_outcome :=
| Answered (r : Response)
| Dropped
| Dispatched (r : http_request).

Section asgi.
(** The configured networks, and the text [ipaddress] gives of an address. *)
Variable networks : list network.
Variable canonical : string -> string.

Definition from_trusted_proxy (client : option string) : bool :=
  match ip_address (default EmptyString client) with
  | Some a => existsb (in_network a) networks
  | None => false
  end.

Definition client_address (client : option string) (hs : dict string) (trusted : bool) : string :=
  let peer := default "unknown" client in
  match nonempty (dget "x-real-ip" hs) with
  | Some real =>
      if trusted then match ip_address (py_strip real) with Some _ => canonical (py_strip real) | None => peer end else peer
  | None => peer
  end.

Definition forwarded_workload (hs : dict string) (trusted : bool) : option WorkloadIdentity :=
  if negb trusted then None else
  let spiffe := nonempty (dget "x-client-spiffe-id" hs) in
  let thumbprint := nonempty (dget "x-client-cert-thumbprint" hs) in
  match spiffe, thumbprint with
  | None, None => None
  | Some id, _ =>
      if is_ok (parse_spiffe_id (PStr id)) then Some (mk_identity spiffe thumbprint true) else Some (mk_identity None None true)
  | None, _ => Some (mk_identity None thumbprint true)
  end.

Definition closing (status : Z) (text : string) : Response := mk_response status (PDict [("error", PStr text)]) [] true false.

(** The headers by lower-cased name, or the name that comes twice. *)
Fixpoint collect_headers (raw : headers) (seen : dict string) : string + dict string :=
  match raw with
  | [] => inr seen
  | (k, v) :: raw' =>
      let key := py_lower (latin1 k) in
      if dmem key seen then inl key else collect_headers raw' (dset key (latin1 v) seen)
  end.

Definition header_bytes (raw : headers) : Z := foldr (fun h n => s_len h.1 + s_len h.2 + n) 0 raw.

Fixpoint read_body (body : string) (events : list asgi_event) : asgi_outcome + string :=
  match events with
  | Chunk bytes more :: events' =>
      let body := body +:+ bytes in
      if MAX_BODY <? s_len body then inl (Answered (closing 413 "request body must be under 1MB"))
      else if more then read_body body events' else inr body
  | Disconnect :: _ => inl Dropped
  | TimedOut :: _ | [] => inl (Answered (closing 408 "request body timed out"))
  end.

Definition declared_length (hs : dict string) : result (option Response) :=
  let bad status := closing status "request body must be under 1MB with a valid Content-Length" in
  match dget "content-length" hs with
  | None => Ok None
  | Some declared =>
      if negb (isdigit declared) then Ok (Some (bad 400)) else
      let? n := int_of declared in
      Ok (if MAX_BODY <? n then Some (bad 413) else None)
  end.

(** The request the API is given. *)
Definition request_of (scope : asgi_scope) (hs : dict string) (body : option string) : http_request :=
  let target := latin1 (sc_target scope) in
  let trusted := from_trusted_proxy (sc_client scope) in
  mk_http (sc_method scope) (if s_is_empty (sc_query scope) then target else target +:+ "?" +:+ latin1 (sc_query scope)) hs body
    (client_address (sc_client scope) hs trusted) (forwarded_workload hs trusted).

Definition app (scope : asgi_scope) (events : list asgi_event) : result asgi_outcome :=
  if negb (String.eqb (sc_type scope) "http") then Ok Dropped else
  if MAX_HEADER_BYTES <? header_bytes (sc_headers scope) then Ok (Answered (closing 431 "request headers too large")) else
  match collect_headers (sc_headers scope) [] with
  | inl key => Ok (Answered (closing 400 ("duplicate header: " +:+ key)))
  | inr hs =>
      let? refused := declared_length hs in
      match refused with
      | Some r => Ok (Answered r)
      | None =>
          if String.eqb (sc_method scope) "POST" then
            match read_body EmptyString events with
            | inl outcome => Ok outcome
            | inr body => Ok (Dispatched (request_of scope hs (Some body)))
            end
          else Ok (Dispatched (request_of scope hs None))
      end
  end.
End asgi.

(** [send_response]: the start message and the body. *)
Definition send_response (r : Response) (head : bool) : Z * headers * string :=
  let body := encode r in
  (r_status r,
   [("content-type", "application/json"); ("content-length", show_Z (s_len body)); ("cache-control", "no-store")]
   ++ map (fun '(k, v) => (py_lower k, v)) (r_headers r) ++ (if r_close r then [("connection", "close")] else []),
   if head then EmptyString else body).

(** ** Lemmas *)

Definition decoded (raw : headers) : headers := map (fun h => (latin1 h.1, latin1 h.2)) raw.
Definition lower_name (h : string * string) : string := py_lower h.1.

(** A name already seen is not seen again. *)
Lemma collect_distinct raw seen d key : dmem key seen = true -> collect_headers raw seen = inr d ->
  key ∉ map lower_name (decoded raw).
Proof.
  revert seen; induction raw as [|[k v] raw IH]; intros seen Hseen; cbn [collect_headers decoded map]; [by intros _ ?%elem_of_nil|].
  destruct (dmem (py_lower (latin1 k)) seen) eqn:E; [done|]. intros Hc [->|Hin]%elem_of_cons.
  - unfold lower_name in *. cbn [fst] in Hseen. congruence.
  - revert Hin. apply (IH (dset (py_lower (latin1 k)) (latin1 v) seen)); [|done].
    unfold dmem in *. rewrite dget_dset. by destruct (String.eqb key (py_lower (latin1 k))).
Qed.

Lemma collect_other raw seen d key : key ∉ map lower_name (decoded raw) -> collect_headers raw seen = inr d ->
  dget key d = dget key seen.
Proof.
  revert seen; induction raw as [|[k v] raw IH]; intros seen; cbn [collect_headers decoded map]; [by intros _ [= <-]|].
  intros [Hne Hni]%not_elem_of_cons. destruct (dmem _ seen); [done|]. intros Hc. rewrite (IH _ Hni Hc), dget_dset.
  destruct (String.eqb_spec key (py_lower (latin1 k))) as [->|]; [|done]. by destruct Hne.
Qed.

Lemma collect_found raw seen d k v : (k, v) ∈ decoded raw -> collect_headers raw seen = inr d -> dget (py_lower k) d = Some v.
Proof.
  revert seen; induction raw as [|[j x] raw IH]; intros seen; cbn [collect_headers decoded map]; [by intros ?%elem_of_nil|].
  destruct (dmem _ seen) eqn:E; [done|]. intros [[= -> ->]|Hin]%elem_of_cons Hc; [|by apply (IH _ Hin Hc)].
  assert (dmem (py_lower (latin1 j)) (dset (py_lower (latin1 j)) (latin1 x) seen) = true) as Hm
    by (unfold dmem; by rewrite dget_dset_eq).
  by rewrite (collect_other _ _ _ _ (collect_distinct _ _ _ _ Hm Hc) Hc), dget_dset_eq.
Qed.

Lemma dupdate_in (d e : dict string) h : h ∈ dupdate d e -> h ∈ d \/ h ∈ e.
Proof.
  unfold dupdate. revert d; induction e as [|[k v] e IH]; intros d; cbn [foldl]; [by left|].
  intros [Hin|Hin]%IH; [|right; by apply elem_of_cons; right].
  destruct h as [j x]. apply dset_in in Hin as [Hin|[-> ->]]; [by left|right; apply elem_of_cons; by left].
Qed.

(** The identity headers of a forwarded request are the edge's. *)
Lemma edge_sets client i hs :
  dget "X-Real-IP" (edge_headers client i hs) = Some client
  /\ dget "X-Client-Cert-Thumbprint" (edge_headers client i hs) = Some (default EmptyString (wi_thumbprint i))
  /\ forall id, nonempty (wi_spiffe_id i) = Some id -> dget "X-Client-Spiffe-Id" (edge_headers client i hs) = Some id.
Proof.
  unfold edge_headers. cbv zeta. split_and!; [destruct (nonempty _)..|intros id ->]; by rewrite ?dget_dset.
Qed.

Lemma edge_no_spiffe client i hs h : nonempty (wi_spiffe_id i) = None -> h ∈ edge_headers client i hs ->
  lower_name h <> "x-client-spiffe-id".
Proof.
  unfold edge_headers. intros -> Hin. destruct h as [k v].
  apply dset_in in Hin as [Hin|[-> _]]; [|done]. apply dset_in in Hin as [Hin|[-> _]]; [|done].
  apply dset_in in Hin as [Hin|[-> _]]; [|done]. apply dupdate_in in Hin as [Hin|Hin]; [by apply elem_of_nil in Hin|].
  apply list_elem_of_In, filter_In in Hin as [_ Hp]. unfold passes_edge, lower_name in *. cbn [fst] in *.
  intros Heq. rewrite Heq in Hp. done.
Qed.

(** What a verified certificate says. *)
Lemma from_peercert_ok `{Externals} cert der i : from_peercert cert (Some der) = Ok i -> present i = true ->
  wi_verified i = true /\ wi_thumbprint i = Some (thumbprint_from_der der)
  /\ forall id, wi_spiffe_id i = Some id -> nonempty (Some id) = Some id /\ is_ok (parse_spiffe_id (PStr id)) = true.
Proof.
  unfold from_peercert. destruct der as [|c der]; [by intros [= <-]|].
  destruct (spiffe_id_from_san_uris _) as [spiffe|] eqn:Es; cbn [result_bind]; [|done]. intros [= <-] _.
  cbn [wi_verified wi_thumbprint wi_spiffe_id]. split_and!; [done|done|]. intros id ->. unfold spiffe_id_from_san_uris in Es.
  destruct (List.filter _ _) as [|uri [|]]; try done.
  destruct (parse_spiffe_id (PStr uri)) as [p|] eqn:Ep; cbn [result_bind] in Es; [|done]. injection Es as <-.
  rewrite Ep. split; [|done]. by destruct uri.
Qed.

(** A header the transport adds makes no claim of identity. *)
Definition neutral (h : string * string) : Prop := str_in (lower_name h) STRIP = false.

Lemma neutral_name h name : neutral h -> name ∈ STRIP -> lower_name h <> name.
Proof.
  unfold neutral, str_in. intros Hn Hin <-. apply not_true_iff_false in Hn. apply Hn, existsb_exists.
  exists (lower_name h). by rewrite <- list_elem_of_In, String.eqb_refl.
Qed.

Lemma dispatched_request networks canonical scope events r : app networks canonical scope events = Ok (Dispatched r) ->
  exists hs body, collect_headers (sc_headers scope) [] = inr hs /\ r = request_of networks canonical scope hs body.
Proof.
  unfold app. destruct (negb _); [done|]. destruct (_ <? _); [done|].
  destruct (collect_headers _ _) as [k|hs]; [done|]. destruct (declared_length hs) as [[refused|]|]; cbn [result_bind]; try done.
  destruct (String.eqb _ _); [|intros [= <-]; eauto].
  destruct (read_body _ _) as [o|body] eqn:Eb; [|intros [= <-]; eauto]. intros [= ->]. exfalso. revert Eb.
  generalize EmptyString. induction events as [|e events IH]; intros body; cbn [read_body]; [done|].
  destruct e as [bytes more| |]; try done. destruct (_ <? _); [done|]. destruct more; [apply IH|done].
Qed.

(** What the API sees of a request that passed the edge. *)
Lemma forwarded_identity `{Externals} networks canonical scope events r cert der i client hs extra :
  app networks canonical scope events = Ok (Dispatched r) -> from_trusted_proxy networks (sc_client scope) = true ->
  sha256 der <> EmptyString -> from_peercert cert (Some der) = Ok i -> present i = true ->
  is_Some (ip_address (py_strip client)) -> client <> EmptyString ->
  decoded (sc_headers scope) ≡ₚ edge_headers client i hs ++ extra -> Forall neutral extra ->
  h_workload r = Some i /\ h_client r = canonical (py_strip client).
Proof.
  intros (d & body & Hd & ->)%dispatched_request. cbn [request_of h_workload h_client]. unfold client_address, forwarded_workload.
  intros ->; cbn [negb]. intros Hsha Hi Hp [a Ha] Hclient Hperm Hextra.
  destruct (from_peercert_ok _ _ _ Hi Hp) as (Hv & Ht & Hspiffe). destruct (edge_sets client i hs) as (Hip & Hth & Hid).
  assert (forall k v, dget k (edge_headers client i hs) = Some v -> dget (py_lower k) d = Some v) as Hget.
  { intros k v Hk%dget_Some_in. apply (collect_found (sc_headers scope) [] d k v); [|done]. rewrite Hperm. set_solver. }
  apply Hget in Hip, Hth. change (py_lower "X-Real-IP") with "x-real-ip" in Hip.
  change (py_lower "X-Client-Cert-Thumbprint") with "x-client-cert-thumbprint" in Hth. rewrite Hip, Hth, Ht.
  change (default EmptyString (Some (thumbprint_from_der der))) with (thumbprint_from_der der).
  assert (nonempty (Some (thumbprint_from_der der)) = Some (thumbprint_from_der der)) as ->.
  { pose proof (b64e_is_empty (sha256 der)) as He. unfold thumbprint_from_der.
    destruct (sha256 der); [done|]. by destruct (_b64e _). }
  assert (nonempty (Some client) = Some client) as -> by (by destruct client). rewrite Ha. split; [|done].
  assert (nonempty (dget "x-client-spiffe-id" d) = wi_spiffe_id i) as ->.
  { destruct (wi_spiffe_id i) as [id|] eqn:Ei.
    - destruct (Hspiffe id eq_refl) as [Hne _]. specialize (Hid id Hne). apply Hget in Hid.
      change (py_lower "X-Client-Spiffe-Id") with "x-client-spiffe-id" in Hid. by rewrite Hid.
    - rewrite (collect_other (sc_headers scope) [] d); [done| |done]. intros (h & Hh & Hin)%list_elem_of_fmap.
      rewrite Hperm in Hin. apply elem_of_app in Hin as [Hin|Hin].
      + symmetry in Hh. revert Hh. by apply (edge_no_spiffe client i hs h); [rewrite Ei|].
      + rewrite Forall_forall in Hextra. symmetry in Hh. revert Hh. apply neutral_name; [by apply Hextra|]. by left. }
  destruct i as [spiffe thumbprint verified]. cbn [wi_spiffe_id wi_thumbprint wi_verified] in *. subst verified thumbprint.
  destruct spiffe as [id|]; [|done]. destruct (Hspiffe id eq_refl) as [_ Hok]. by rewrite Hok.
Qed.

(** ** Properties *)

Section properties.
Context `{Externals}.
Variable networks : list network.
Variable canonical : string -> string.

(** C16. A workload identity cannot be forged: whatever headers a client sends through the mTLS edge, if the
    adapter dispatches the forwarded request from the edge's network then the API sees exactly the identity
    of the client's verified certificate, and the client's own address; and whatever headers arrive from
    any other peer, the API sees no workload identity, and the address of that peer. *)
Theorem workload_unforgeable (scope : asgi_scope) (events : list asgi_event) (r : http_request) :
  app networks canonical scope events = Ok (Dispatched r) ->
  (from_trusted_proxy networks (sc_client scope) = false ->
     h_workload r = None /\ h_client r = default "unknown" (sc_client scope))
  /\ (from_trusted_proxy networks (sc_client scope) = true ->
      forall cert der i client hs extra,
      sha256 der <> EmptyString -> from_peercert cert (Some der) = Ok i -> present i = true ->
      is_Some (ip_address (py_strip client)) -> client <> EmptyString ->
      decoded (sc_headers scope) ≡ₚ edge_headers client i hs ++ extra -> Forall neutral extra ->
      h_workload r = Some i /\ h_client r = canonical (py_strip client)).
Proof.
  intros Happ. split.
  - apply dispatched_request in Happ as (d & body & Hd & ->). cbn [request_of h_workload h_client]. unfold client_address, forwarded_workload.
    intros ->; cbn [negb]. by destruct (nonempty _).
  - intros. by eapply forwarded_identity.
Qed.
End properties.

Module Witnesses.
#[local] Existing Instance Sample.externals.

Definition cert : peercert := [("subjectAltName", [("DNS", "a.example.org"); ("URI", "spiffe://example.org/agent/a")])].
Definition identity : WorkloadIdentity := mk_identity (Some "spiffe://example.org/agent/a") (Some (thumbprint_from_der "cert")) true.
Lemma certified : from_peercert (Some cert) (Some "cert") = Ok identity.
Proof. vm_compute. reflexivity. Qed.

(** A client that claims to be the administrator. *)
Definition forging : headers :=
  [("Authorization", "Bearer t"); ("X-Client-SPIFFE-ID", "spiffe://example.org/admin"); ("x-real-ip", "10.0.0.1")].
Definition internal : list network := [mk_network (IPv4 2886729728) 24].   (* 172.16.0.0/24 *)
Definition scope_from (peer : string) (hs : headers) : asgi_scope := mk_scope "http" "GET" hs (Some peer) "/v1/status" EmptyString.
Definition through : asgi_scope :=
  scope_from "172.16.0.9" (edge_headers "203.0.113.5" identity forging ++ [("Host", "harness:8080")]).
Definition outcome (s : asgi_scope) : result (option (string * option WorkloadIdentity)) :=
  let? o := app internal id s [] in
  Ok (match o with Dispatched r => Some (h_client r, h_workload r) | _ => None end).

Example outcomes :
  (outcome through, outcome (scope_from "203.0.113.5" forging), outcome (scope_from "172.16.0.9" (forging ++ [("authorization", "x")])))
  = (Ok (Some ("203.0.113.5", Some identity)), Ok (Some ("203.0.113.5", None)), Ok None).
Proof. vm_compute. reflexivity. Qed.

Definition request : http_request :=
  match app internal id through [] with Ok (Dispatched r) => r | _ => mk_http EmptyString EmptyString [] None EmptyString None end.
Lemma arrived : app internal id through [] = Ok (Dispatched request).
Proof. vm_compute. reflexivity. Qed.

Lemma workload_unforgeable_witness : h_workload request = Some identity /\ h_client request = "203.0.113.5".
Proof.
  destruct (workload_unforgeable internal id through [] request arrived) as [_ Htrusted].
  refine (Htrusted eq_refl (Some cert) "cert" identity "203.0.113.5" forging [("Host", "harness:8080")] _ certified eq_refl _ _ _ _).
  - discriminate.
  - eexists. reflexivity.
  - discriminate.
  - reflexivity.
  - constructor; [reflexivity|constructor].
Defined.

(** A body over the limit, a stalled one, and the edge without a certificate. *)
Example refusals :
  let post := mk_scope "http" "POST" [("content-length", "2")] None "/v1/actions" EmptyString in
  let status r := match r with Ok (Answered r) => Some (r_status r) | _ => None end in
  (status (app [] id post [Chunk "{" true; TimedOut]), status (app [] id post [Chunk "{}" false]),
   status (app [] id (mk_scope "http" "POST" [("content-length", "1000001")] None "/" EmptyString) []),
   status (app [] id (mk_scope "http" "GET" [("A", "1"); ("a", "2")] None "/" EmptyString) []),
   ep_status <$> match edge_handle (fun _ => None) (fun _ => None) None None "GET" "/" "1.2.3.4" [] with Ok r => Some r | _ => None end)
  = (Some 408, None, Some 413, Some 400, Some 400).
Proof. vm_compute. reflexivity. Qed.
End Witnesses.
