(* ===== verification/Server.v ===== *)
(** * The server: src/capgate/server.py

    The two transports of the API. The handler of the standard library's HTTP server is modelled whole;
    for uvicorn, whose application is [Edge.app], the configuration it is started with. The sockets, the
    handshake and the parsing of HTTP are parameters. *)

From S2P Require Import Prelude Datetime Regex PyVal Externals Json Request Decision NetAddr Timeutil Capability Contract Policy State AuditTrail Effects Interceptor Executor Harness System RateLimit Base64 Workload Identity Api Edge.

Definition REQUEST_TIMEOUT_SECONDS : Z := 10.

(** ** TLS *)

Record TLSConfig := mk_tls {
  tls_certfile : string;
  tls_keyfile : string;
  tls_client_ca : option string;
  tls_require_client_cert : bool;
}.

(** [TLSConfig.__init__]; the flag is true by default. *)
Definition make_tls (certfile keyfile : string) (client_ca : option string) (require_client_cert : bool) : TLSConfig :=
  mk_tls certfile keyfile client_ca (require_client_cert && bool_decide (client_ca <> None)).

(** [ssl.CERT_NONE], the default of a server context, [CERT_OPTIONAL] and [CERT_REQUIRED]. *)
Inductive verify_mode := CERT_NONE | CERT_OPTIONAL | CERT_REQUIRED.

Record ssl_context := mk_context {
  ctx_minimum_version : Z * Z;
  ctx_certificate : string * string;
  ctx_authorities : option string;
  ctx_verify : verify_mode;
}.

Definition server_context (t : TLSConfig) : ssl_context :=
  mk_context (1, 2) (tls_certfile t, tls_keyfile t) (tls_client_ca t)
    (match tls_client_ca t with
     | None => CERT_NONE
     | Some _ => if tls_require_client_cert t then CERT_REQUIRED else CERT_OPTIONAL
     end).

(** ** Choosing a transport *)

(** [default_transport]: the variable, or what is installed. *)
Definition default_transport (env : option string) (uvicorn_installed : bool) : string :=
  match nonempty env with
  | Some chosen => chosen
  | None => if uvicorn_installed then "uvicorn" else "stdlib"
  end.

(** The options [HarnessServer.__init__] hands to uvicorn. *)
Record uvicorn_config := mk_uvicorn {
  uv_trusted_proxies : option (list string);
  uv_tls : option (string * string);
  uv_client_ca : option (string * verify_mode);
  uv_timeout_keep_alive : Z;
  uv_limit_concurrency : Z;
  uv_h11_max_incomplete_event_size : Z;
  uv_proxy_headers : bool;
}.

Inductive transport :=
| Stdlib (tls : option ssl_context)
| Uvicorn (config : uvicorn_config).

Definition make_server (chosen env : option string) (uvicorn_installed : bool) (trusted_proxies : option (list string))
    (tls : option TLSConfig) : result transport :=
  let name := match nonempty chosen with Some t => t | None => default_transport env uvicorn_installed end in
  if String.eqb name "stdlib" then Ok (Stdlib (server_context <$> tls))
  else if String.eqb name "uvicorn" then
    Ok (Uvicorn (mk_uvicorn trusted_proxies ((fun t => (tls_certfile t, tls_keyfile t)) <$> tls)
      (match tls with
       | Some t => (fun ca => (ca, if tls_require_client_cert t then CERT_REQUIRED else CERT_OPTIONAL)) <$> tls_client_ca t
       | None => None
       end) 5 256 16000 false))
  else Raise (ValueError ("unknown transport " +:+ repr_str name)).

Definition server_url (tls : option TLSConfig) (address : string) (port : Z) : string :=
  (if some tls then "https" else "http") +:+ "://" +:+ address +:+ ":" +:+ show_Z port.

(** ** The handler of the standard library's server *)

(** [do_GET = do_POST = ... = _handle]; the base class answers any other method. *)
Definition handled_methods : list string := ["GET"; "POST"; "HEAD"; "PUT"; "DELETE"; "PATCH"; "OPTIONS"].

Section handler.
Context `{Externals}.
(** [rfile.read(n)]; [None] is an OSError, a timeout among them. *)
Variable read : Z -> option string.

(** [None]: no usable body. *)
Definition _read_body (hs : headers) : result (option string) :=
  match get_header "Content-Length" hs with
  | None => Ok None
  | Some raw_length =>
      if negb (isdigit (py_strip raw_length)) then Ok None else
      let? length := int_of (py_strip raw_length) in
      if MAX_BODY <? length then Ok None else
      match read length with
      | None => Ok None
      | Some raw => Ok (if s_len raw =? length then Some raw else None)
      end
  end.

(** [None] for a plain connection or a client without a certificate. *)
Definition _peer_workload (tls : bool) (cert : option peercert) (der : option string) : result (option WorkloadIdentity) :=
  if negb tls then Ok None else
  match der with
  | None | Some EmptyString => Ok None
  | Some bytes => let? i := from_peercert cert (Some bytes) in Ok (Some i)
  end.

Definition bad_body : Response :=
  mk_response 400 (PDict [("error", PStr "request body must be a JSON object under 1MB with a valid Content-Length")]) [] true false.

(** What [_handle] does with a request: answer it, or hand it to the API. *)
Definition _handle (tls : bool) (cert : option peercert) (der : option string) (command path client : string) (hs : headers) :
    result (Response + http_request) :=
  let dispatched body :=
    let? workload := _peer_workload tls cert der in
    Ok (inr (mk_http command path (dupdate [] hs) body client workload)) in
  if String.eqb command "POST" then
    let? body := _read_body hs in
    match body with
    | None => Ok (inl bad_body)
    | Some body => dispatched (Some body)
    end
  else dispatched None.

(** A request line with one of those methods gets to [_handle]; any other the base class answers itself, with
    a 501: [None]. *)
Definition do_method (tls : bool) (cert : option peercert) (der : option string) (command path client : string)
    (hs : headers) : option (result (Response + http_request)) :=
  if str_in command handled_methods then Some (_handle tls cert der command path client hs) else None.
End handler.

(** [_send]: status, headers and body as written, and whether the connection is closed. *)
Definition _send (command : string) (r : Response) : Z * headers * string * bool :=
  let data := encode r in
  (r_status r, [("Content-Type", "application/json"); ("Content-Length", show_Z (s_len data))] ++ r_headers r,
   if String.eqb command "HEAD" then EmptyString else data, r_close r).

(** ** Both transports hand on the same request *)

Lemma py_lower_ascii s : is_ascii s = true -> py_lower s = s_map lower_ascii s.
Proof.
  unfold is_ascii. induction s as [|a s IH]; [done|]. intros [Ha Hs]%andb_true_iff. apply Z.ltb_lt in Ha.
  specialize (IH Hs). assert ((byte_of a =? 196) = false /\ (byte_of a =? 226) = false) as [H1 H2] by lia.
  cbn [s_map]. rewrite <- IH. destruct s as [|b [|c s]]; cbn [py_lower]; rewrite ?H1, ?H2; done.
Qed.

Lemma latin1_ascii s : is_ascii s = true -> latin1 s = s.
Proof.
  unfold is_ascii. induction s as [|a s IH]; [done|]. intros [Ha Hs]%andb_true_iff. cbn [latin1]. by rewrite Ha, IH.
Qed.

Lemma lower_ascii_idem c : lower_ascii (lower_ascii c) = lower_ascii c /\ (byte_of c < 128 -> byte_of (lower_ascii c) < 128).
Proof. by destruct c as [[] [] [] [] [] [] [] []]. Qed.

Lemma py_lower_twice s : is_ascii s = true -> is_ascii (py_lower s) = true /\ py_lower (py_lower s) = py_lower s.
Proof.
  intros Hs. assert (is_ascii (py_lower s) = true) as Hl.
  { rewrite py_lower_ascii by done. unfold is_ascii in *. induction s as [|a s IH]; [done|].
    cbn [s_map s_forall] in *. apply andb_true_iff in Hs as [Ha Hs]. rewrite IH by done.
    apply Z.ltb_lt in Ha. apply lower_ascii_idem in Ha. by rewrite (proj2 (Z.ltb_lt _ _) Ha). }
  split; [done|]. rewrite (py_lower_ascii (py_lower s)), (py_lower_ascii s) by done. clear.
  induction s as [|a s IH]; [done|]. cbn [s_map]. by rewrite IH, (proj1 (lower_ascii_idem a)).
Qed.

(** Setting distinct keys one after another appends them. *)
Lemma foldl_dset {V} (g : string -> string) (l acc : dict V) : NoDup (dkeys acc ++ map (fun h => g h.1) l) ->
  foldl (fun d '(k, v) => dset (g k) v d) acc l = acc ++ map (fun h => (g h.1, h.2)) l.
Proof.
  revert acc; induction l as [|[k v] l IH]; intros acc Hnd; cbn [foldl map]; [by rewrite app_nil_r|].
  apply NoDup_app in Hnd as (Ha & Hdis & Hl). cbn [map fst] in *. apply NoDup_cons in Hl as [Hk Hl].
  rewrite dset_notin by (intros Hin; apply (Hdis _ Hin); by apply elem_of_cons; left).
  rewrite IH; [by rewrite <- app_assoc|]. unfold dkeys. rewrite map_app. cbn [map fst]. rewrite <- app_assoc. cbn [Datatypes.app].
  apply NoDup_app. split_and!; [done| |by apply NoDup_cons].
  intros x Hx Hin. by apply (Hdis x Hx).
Qed.

Lemma dget_find {V} k (d : dict V) : dget k d = snd <$> find (fun h => String.eqb h.1 k) d.
Proof. induction d as [|[j v] d IH]; [done|]. cbn [dget find fst]. rewrite String.eqb_sym. by destruct (String.eqb j k). Qed.

Lemma strip_digits s : s_forall is_digit s = true -> py_strip s = s.
Proof.
  intros Hs. assert (forall c, is_digit c = true -> is_space_char c = false /\ byte_of c <= 57) as Hd
    by (intros c; by destruct c as [[] [] [] [] [] [] [] []]).
  assert (py_lstrip s = s) as Hl.
  { destruct s as [|a s]; [done|]. apply andb_true_iff in Hs as [Ha _]. destruct (Hd a Ha) as [Hsp Hb]. cbn [py_lstrip].
    rewrite Hsp. destruct s as [|b s]; [done|]. unfold unicode_space2. rewrite (proj2 (Z.eqb_neq _ 194)) by lia. cbn [andb].
    destruct s as [|c s]; [done|]. unfold unicode_space3. by rewrite !(proj2 (Z.eqb_neq (byte_of a) _)) by lia. }
  unfold py_strip. rewrite Hl. clear Hl. induction s as [|a s IH]; [done|]. apply andb_true_iff in Hs as [Ha Hs].
  destruct (Hd a Ha) as [Hsp Hb]. cbn [py_rstrip]. rewrite (IH Hs).
  assert (is_blank (String a s) = false) as ->; [|done]. cbn [is_blank]. rewrite Hsp. destruct s as [|b s]; [done|].
  unfold unicode_space2. rewrite (proj2 (Z.eqb_neq _ 194)) by lia. cbn [andb].
  destruct s as [|c s]; [done|]. unfold unicode_space3. by rewrite !(proj2 (Z.eqb_neq (byte_of a) _)) by lia.
Qed.

(** The headers as the API sees them. *)
Definition canonical_headers (raw : headers) : dict string := map (fun h => (py_lower h.1, latin1 h.2)) raw.

(** A request whose header names are distinct and ASCII, as HTTP asks. *)
Record plain_headers (raw : headers) : Prop := {
  ph_ascii h : h ∈ raw -> is_ascii h.1 = true;
  ph_distinct : NoDup (map (fun h => py_lower h.1) raw);
}.

Lemma plain_decoded raw : plain_headers raw -> decoded raw = map (fun h => (h.1, latin1 h.2)) raw.
Proof.
  intros [Ha _]. unfold decoded. apply map_ext_in. intros h Hin%list_elem_of_In. by rewrite latin1_ascii by auto.
Qed.

Lemma NoDup_map_names raw : NoDup (map (fun h : string * string => py_lower h.1) raw) -> NoDup (map fst raw).
Proof.
  rewrite <- (map_map fst py_lower). generalize (map fst raw). intros l Hl. by apply (NoDup_fmap_1 py_lower) in Hl.
Qed.

(** What the adapter collects from the lower-cased headers of the scope. *)
Lemma collect_plain raw seen : plain_headers raw ->
  NoDup (dkeys seen ++ map (fun h => py_lower h.1) raw) ->
  collect_headers (map (fun h => (py_lower h.1, h.2)) raw) seen = inr (seen ++ canonical_headers raw).
Proof.
  intros Hp. assert (forall h, h ∈ raw -> is_ascii h.1 = true) as Ha by apply Hp. clear Hp.
  revert seen; induction raw as [|[k v] raw IH]; intros seen Hnd; [by cbn; rewrite app_nil_r|].
  cbn [map fst snd collect_headers]. assert (is_ascii k = true) as Hk by (apply (Ha (k, v)); by apply elem_of_cons; left).
  destruct (py_lower_twice k Hk) as [Hl Hll]. rewrite (latin1_ascii _ Hl), Hll.
  cbn [map fst] in Hnd. apply NoDup_app in Hnd as (Hs & Hdis & Hr). apply NoDup_cons in Hr as [Hkr Hr].
  assert (py_lower k ∉ dkeys seen) as Hks by (intros Hin; apply (Hdis _ Hin); by apply elem_of_cons; left).
  assert (dmem (py_lower k) seen = false) as -> by (apply not_true_iff_false; by rewrite dmem_spec).
  rewrite dset_notin by done.
  rewrite IH; [by unfold canonical_headers; cbn [map fst snd]; rewrite <- app_assoc|intros h Hh; apply Ha; by apply elem_of_cons; right|].
  unfold dkeys. rewrite map_app. cbn [map fst]. rewrite <- app_assoc. apply NoDup_app.
  split_and!; [done| |by apply NoDup_cons]. exact Hdis.
Qed.

Lemma lower_decoded raw : plain_headers raw ->
  lower_keys (dupdate [] (decoded raw)) = canonical_headers raw /\ lower_keys (canonical_headers raw) = canonical_headers raw.
Proof.
  intros Hp. pose proof (plain_decoded raw Hp) as Hd. destruct Hp as [Ha Hnd]. rewrite Hd. unfold lower_keys. split.
  - assert (dupdate [] (map (fun h => (h.1, latin1 h.2)) raw) = map (fun h => (h.1, latin1 h.2)) raw) as ->.
    { unfold dupdate. rewrite (foldl_dset id).
      - rewrite map_map. by apply map_ext.
      - cbn [dkeys map Datatypes.app]. rewrite map_map. by apply NoDup_map_names. }
    rewrite (foldl_dset py_lower); cbn [dkeys map Datatypes.app]; by rewrite map_map.
  - rewrite (foldl_dset py_lower); cbn [dkeys map Datatypes.app]; unfold canonical_headers; rewrite map_map; cbn [fst snd].
    + apply map_ext_in. intros h Hin%list_elem_of_In. by rewrite (proj2 (py_lower_twice _ (Ha h Hin))).
    + rewrite (map_ext_in _ (fun h => py_lower h.1)); [done|]. intros h Hin%list_elem_of_In. apply (py_lower_twice _ (Ha h Hin)).
Qed.

Lemma canonical_lookup name raw : plain_headers raw -> dget (py_lower name) (canonical_headers raw) = get_header name (decoded raw).
Proof.
  intros Hp. rewrite (plain_decoded raw Hp), dget_find. unfold get_header, canonical_headers. clear Hp.
  induction raw as [|h raw IH]; [done|]. cbn [map find fst]. by destruct (String.eqb (py_lower h.1) (py_lower name)).
Qed.

(** The body a request carries, as its headers declare it. *)
Definition carries (command : string) (raw : headers) (body : option string) : Prop :=
  match body with
  | Some b => command = "POST"
      /\ exists n, get_header "Content-Length" (decoded raw) = Some n /\ isdigit n = true /\ s_forall is_digit n = true
           /\ read_digits n = s_len b
  | None => command <> "POST" /\ get_header "Content-Length" (decoded raw) = None
  end.

(** Events that bring a body in pieces, the last of them marked so. *)
Inductive delivers : list asgi_event -> string -> Prop :=
| delivers_last b events : delivers (Chunk b false :: events) b
| delivers_more c events b : delivers events b -> delivers (Chunk c true :: events) (c +:+ b).

Lemma read_pieces events b acc : delivers events b -> s_len (acc +:+ b) <= MAX_BODY -> read_body acc events = inr (acc +:+ b).
Proof.
  intros Hd. revert acc. induction Hd as [b events|c events b Hd IH]; intros acc Hle; cbn [read_body].
  - by rewrite (proj2 (Z.ltb_ge _ _) Hle).
  - rewrite <- s_app_assoc in *. rewrite (proj2 (Z.ltb_ge _ _)); [by apply IH|].
    unfold s_len in *. rewrite (s_length_app (acc +:+ c)) in Hle. lia.
Qed.

Section transports.
Context {S : Type} `{StateStore S} `{Externals} `{Tools} `{Arith} `{!Rounding}.
Variable cf : config.
Variable extra : string -> string -> option (string -> string -> dict string -> A S Response).
Variable networks : list network.
Variable canonical : string -> string.
Variable read : Z -> option string.

(** A plain request in a scope of the adapter and on a connection of the standard library's server. *)
Record plain_request (raw : headers) (scope : asgi_scope) (client path : string) (body : option string)
    (events : list asgi_event) : Prop := {
  pr_headers : plain_headers raw;
  pr_size : header_bytes (map (fun h => (py_lower h.1, h.2)) raw) <= MAX_HEADER_BYTES;
  pr_type : sc_type scope = "http";
  pr_raw : sc_headers scope = map (fun h => (py_lower h.1, h.2)) raw;
  pr_client : sc_client scope = Some client;
  pr_path : path = latin1 (sc_target scope) +:+ (if s_is_empty (sc_query scope) then EmptyString else "?" +:+ latin1 (sc_query scope));
  pr_proxy : from_trusted_proxy networks (Some client) = false;
  pr_body : carries (sc_method scope) raw body;
  pr_events : forall b, body = Some b -> delivers events b;
  pr_read : forall b, body = Some b -> read (s_len b) = Some b;
}.

(** The request both hand on, but for the spelling of the header names. *)
Definition handed (raw : headers) (scope : asgi_scope) (client path : string) (body : option string) (hs : dict string) : http_request :=
  mk_http (sc_method scope) path hs body client None.

Lemma app_plain raw scope client path body events : plain_request raw scope client path body events ->
  app networks canonical scope events
  = Ok (if MAX_BODY <? s_len (default EmptyString body)
        then Answered (closing 413 "request body must be under 1MB with a valid Content-Length")
        else Dispatched (handed raw scope client path body (canonical_headers raw))).
Proof.
  intros [Hp Hsize Htype Hhs Hclient Hpath Hproxy Hbody Hev _]. unfold app. rewrite Htype, Hhs. cbn [String.eqb Ascii.eqb Bool.eqb negb].
  rewrite (proj2 (Z.ltb_ge _ _) Hsize), (collect_plain raw []) by (done || apply Hp).
  change ([] ++ canonical_headers raw) with (canonical_headers raw).
  assert (forall body, request_of networks canonical scope (canonical_headers raw) body
          = handed raw scope client path body (canonical_headers raw)) as Hr.
  { intros b. unfold request_of, client_address, forwarded_workload, handed. rewrite Hclient, Hproxy, Hpath. cbn [default negb].
    f_equal; [destruct (s_is_empty (sc_query scope)); by rewrite ?s_app_nil_r|]. by destruct (nonempty _). }
  unfold declared_length. change "content-length" with (py_lower "Content-Length"). rewrite (canonical_lookup _ raw Hp).
  destruct body as [b|]; cbn [carries from_option id] in *.
  - destruct Hbody as (Hm & n & Hn & Hd & Hdd & Hlen). rewrite Hn, Hd. cbn [negb]. unfold int_of. rewrite Hdd, Hlen.
    cbn [result_bind]. destruct (MAX_BODY <? s_len b) eqn:Hle; [done|]. apply Z.ltb_ge in Hle. rewrite Hm at 1. cbn [String.eqb Ascii.eqb Bool.eqb].
    rewrite (read_pieces events b EmptyString) by auto. rewrite s_app_nil_l. by rewrite Hr.
  - destruct Hbody as [Hm Hn]. rewrite Hn. cbn [result_bind]. rewrite (proj2 (String.eqb_neq _ _) Hm). by rewrite Hr.
Qed.

Lemma handle_plain raw scope client path body events : plain_request raw scope client path body events ->
  _handle read false None None (sc_method scope) path client (decoded raw)
  = Ok (if MAX_BODY <? s_len (default EmptyString body) then inl bad_body
        else inr (handed raw scope client path body (dupdate [] (decoded raw)))).
Proof.
  intros [Hp _ _ _ _ _ _ Hbody _ Hread]. unfold _handle. destruct body as [b|]; cbn [carries from_option id] in *.
  - destruct Hbody as (Hm & n & Hn & Hd & Hdd & Hlen). rewrite Hm at 1. cbn [String.eqb Ascii.eqb Bool.eqb].
    unfold _read_body. rewrite Hn, (strip_digits _ Hdd), Hd. cbn [negb]. unfold int_of. rewrite Hdd, Hlen. cbn [result_bind].
    destruct (MAX_BODY <? s_len b); [done|]. by rewrite (Hread b eq_refl), Z.eqb_refl.
  - destruct Hbody as [Hm _]. by rewrite (proj2 (String.eqb_neq _ _) Hm).
Qed.

(** C18. The transports are interchangeable for the methods the standard library's handler has a [do_] method
    for (GET, POST, HEAD, PUT, DELETE, PATCH, OPTIONS): a plain request - distinct ASCII header names within the
    header limit, unencrypted, from a peer that is no trusted proxy, a body exactly when it is a POST, brought
    to the adapter in any number of pieces - is refused by both before the API sees it when its body is over
    the limit (413 by the adapter, 400 by the handler), and otherwise reaches the API through both, which
    answers the same and ends in the same state. A request with any other method reaches the API through the
    adapter only: the standard library's server answers it itself. *)
Theorem transports_agree (raw : headers) (scope : asgi_scope) (client path : string) (body : option string) (events : list asgi_event) :
  plain_request raw scope client path body events ->
  let by_uvicorn := app networks canonical scope events in
  let by_stdlib := do_method read false None None (sc_method scope) path client (decoded raw) in
  if str_in (sc_method scope) ["GET"; "POST"; "HEAD"; "PUT"; "DELETE"; "PATCH"; "OPTIONS"] then
    if MAX_BODY <? s_len (default EmptyString body) then
      exists a1 a2, by_uvicorn = Ok (Answered a1) /\ r_status a1 = 413 /\ by_stdlib = Some (Ok (inl a2)) /\ r_status a2 = 400
    else
      exists r1 r2, by_uvicorn = Ok (Dispatched r1) /\ by_stdlib = Some (Ok (inr r2))
        /\ forall a s, dispatch cf extra a r1 s = dispatch cf extra a r2 s
  else by_stdlib = None /\ exists r1, by_uvicorn = Ok (Dispatched r1).
Proof.
  intros Hpr by_uvicorn by_stdlib. unfold by_uvicorn, by_stdlib, do_method, handled_methods.
  rewrite (app_plain _ _ _ _ _ _ Hpr), (handle_plain _ _ _ _ _ _ Hpr).
  destruct (lower_decoded raw (pr_headers _ _ _ _ _ _ Hpr)) as [Hl1 Hl2]. destruct (str_in _ _) eqn:Hm.
  - destruct (MAX_BODY <? _); [by eexists _, _|]. eexists _, _. split_and!; [done..|]. intros a s.
    unfold dispatch, handed. cbn [h_target h_method h_headers h_body h_client h_workload]. by rewrite Hl1, Hl2.
  - split; [done|]. pose proof (pr_body _ _ _ _ _ _ Hpr) as Hb. destruct body as [b|]; [by destruct Hb as [Hb _]; rewrite Hb in Hm|].
    by eexists.
Qed.
End transports.

Module Witnesses.
Import Api.Witnesses.
#[local] Existing Instances Sample.externals Executor.Witnesses.tools exact Api.Witnesses.rounding.

Definition raw : headers :=
  [("Host", "harness"); ("Content-Length", "2"); ("Authorization", "Bearer x"); ("X-Client-Spiffe-Id", "spiffe://example.org/admin")].
Definition scope : asgi_scope :=
  mk_scope "http" "POST" (map (fun h => (py_lower h.1, h.2)) raw) (Some "10.0.0.9") "/v1/actions" EmptyString.

Lemma raw_plain : plain_headers raw.
Proof.
  split; [|by apply (bool_decide_unpack _); vm_compute].
  intros h Hh. unfold raw in Hh. rewrite !elem_of_cons in Hh. destruct Hh as [->|[->|[->|[->|Hn]]]]; try reflexivity.
  by apply elem_of_nil in Hn.
Qed.

Definition pieces : list asgi_event := [Chunk "{" true; Chunk EmptyString true; Chunk "}" false].
Lemma raw_request : plain_request [] (fun _ => Some "{}") raw scope "10.0.0.9" "/v1/actions" (Some "{}") pieces.
Proof.
  split; try reflexivity; [exact raw_plain|vm_compute; discriminate|split; [reflexivity|exists "2"; split_and!; reflexivity]| |].
  - intros b [= <-]. apply (delivers_more "{" _ "}"), (delivers_more EmptyString _ "}"), (delivers_last "}").
  - by intros b [= <-].
Qed.

(** The same connection with a method there is no handler for. *)
Definition trace_raw : headers := [("Host", "harness")].
Definition trace_scope : asgi_scope := mk_scope "http" "TRACE" [("host", "harness")] (Some "10.0.0.9") "/v1/health" EmptyString.
Lemma trace_request : plain_request [] (fun _ => None) trace_raw trace_scope "10.0.0.9" "/v1/health" None [].
Proof.
  split; try reflexivity; try done.
  split; [|by apply (bool_decide_unpack _); vm_compute]. by intros h ->%list_elem_of_singleton.
Qed.

Lemma transports_agree_witness :
  (exists r1 r2, app [] id scope pieces = Ok (Dispatched r1)
    /\ do_method (fun _ => Some "{}") false None None "POST" "/v1/actions" "10.0.0.9" (decoded raw) = Some (Ok (inr r2))
    /\ forall a s, dispatch (S := SQLiteStateStore) cf no_routes a r1 s = dispatch cf no_routes a r2 s)
  /\ do_method (fun _ => None) false None None "TRACE" "/v1/health" "10.0.0.9" (decoded trace_raw) = None.
Proof.
  split; [exact (transports_agree cf no_routes [] id _ raw scope _ _ _ _ raw_request)|].
  exact (proj1 (transports_agree (S := SQLiteStateStore) cf no_routes [] id _ trace_raw trace_scope _ _ _ _ trace_request)).
Defined.
End Witnesses.
