(* ===== verification/ToolService.v ===== *)
(** * The controlled tool endpoint: src/capgate/toolservice.py

    The handler of [ToolService] as a function of a request and of the text of the ledger file. The ledger is
    written under a lock, so the requests of concurrent connections are a sequence in the order of the lock;
    sockets, threads and the command line of the module are not modelled. *)

From S2P Require Import Prelude Datetime Regex PyVal Externals Json Request Decision NetAddr Timeutil Capability Contract Policy State AuditTrail Effects Interceptor Executor Harness System RateLimit Base64 Workload Identity Api Edge.

(** ** The handler *)

(** A request as the server reads it: the target, the headers, and the bytes the client sends after them
    before it closes its side or the connection times out. *)
Inductive tool_request :=
| Get (path : string)
| Post (path : string) (hs : headers) (sent : string).

(** [Dropped]: the handler raised, the connection ends without a reply. *)
Inductive tool_reply :=
| Reply (code : Z) (body : pyval)
| Dropped (e : exn).

Section service.
Context `{Externals}.
Variable credential : string.

Definition ok_reply : tool_reply := Reply 200 (PDict [("ok", PBool true)]).
Definition error_reply (code : Z) (text : string) : tool_reply := Reply code (PDict [("error", PStr text)]).

Definition tool_get (path : string) : tool_reply :=
  if String.eqb path "/health" then ok_reply else error_reply 404 "not found".

Definition authorized (hs : headers) : bool :=
  String.eqb (default EmptyString (get_header "Authorization" hs)) ("Bearer " +:+ credential).
(** [min(int(headers.get("Content-Length") or 0), 1_000_000)] *)
Definition content_length (hs : headers) : result Z :=
  match get_header "Content-Length" hs with
  | None | Some EmptyString => Ok 0
  | Some text =>
      match read_int text with
      | Some z => Ok (Z.min z 1000000)
      | None => Raise (ValueError ("invalid literal for int() with base 10: " +:+ repr_str text))
      end
  end.
(** [rfile.read(n)]: everything that is sent when [n] is negative. *)
Definition read_sent (n : Z) (sent : string) : string := if n <? 0 then sent else s_take (Z.to_nat n) sent.

(** [json.loads] of the bytes: the value, a text that is not JSON, or bytes that are no text. *)
Definition read_payload (raw : string) : result (option pyval) :=
  let raw := if s_is_empty raw then "{}" else raw in
  match (if is_ascii raw && s_forall (fun c => 0 <? byte_of c) raw then Some raw else decode_bytes raw) with
  | None => Raise (ValueError "invalid start byte")
  | Some text => Ok (loads text)
  end.

Definition ledger_line (path : string) (payload : pyval) : string :=
  dumps ", " ": " (PDict [("path", PStr path); ("payload", payload)]) +:+ chr1 newline.

Definition tool_post (path : string) (hs : headers) (sent ledger : string) : tool_reply * string :=
  if negb (authorized hs) then (error_reply 401 "unauthorized", ledger) else
  match content_length hs with
  | Raise e => (Dropped e, ledger)
  | Ok length =>
      match read_payload (read_sent length sent) with
      | Raise e => (Dropped e, ledger)
      | Ok None => (error_reply 400 "invalid json", ledger)
      | Ok (Some payload) =>
          (Reply 200 (PDict [("ok", PBool true); ("path", PStr path); ("stored", payload)]), ledger +:+ ledger_line path payload)
      end
  end.

Definition tool_handle (q : tool_request) (ledger : string) : tool_reply * string :=
  match q with
  | Get path => (tool_get path, ledger)
  | Post path hs sent => tool_post path hs sent ledger
  end.
Fixpoint tool_serve (qs : list tool_request) (ledger : string) : list tool_reply * string :=
  match qs with
  | [] => ([], ledger)
  | q :: qs' => let '(r, ledger1) := tool_handle q ledger in let '(rs, ledger2) := tool_serve qs' ledger1 in (r :: rs, ledger2)
  end.
End service.

(** ** The tool that calls it: [ControlledEndpointTool] of src/capgate/tools.py *)

(** What the connection gives: a status and a body, an [HTTPError] among them, or nothing. *)
Inductive endpoint_answer :=
| Answered (status : Z) (raw : string)
| Unreachable (error : string).

Section endpoint.
Context `{Externals}.

Definition make_endpoint (credential : string) : result string :=
  if s_is_empty credential then Raise (ValueError "a controlled endpoint requires a credential") else Ok credential.
Definition repr_endpoint (url : pyval) : string := "ControlledEndpointTool(url=" +:+ py_repr url +:+ ", credential=<redacted>)".

Definition controlled_endpoint (urlopen : headers -> string -> endpoint_answer) (credential : string) (arguments : dict pyval) : result pyval :=
  if negb (serializable (PDict arguments)) then Raise (TypeError "Object is not JSON serializable") else
  match urlopen [("Content-Type", "application/json"); ("Authorization", "Bearer " +:+ credential)] (dumps ", " ": " (PDict arguments)) with
  | Unreachable e => Raise (OSError e)
  | Answered status raw =>
      if (200 <=? status) && (status <? 300) then json_bytes (if s_is_empty raw then "null" else raw)
      else Raise (RuntimeError ("tool endpoint returned HTTP " +:+ show_Z status))
  end.

(** The request as it arrives at the service, which gets the length of the body, and the reply as it comes back. *)
Definition delivered (path : string) (hs : headers) (data : string) : tool_request := Post path (hs ++ [("Content-Length", show_Z (s_len data))]) data.
Definition answered (r : tool_reply) : endpoint_answer :=
  match r with
  | Reply code body => Answered code (dumps ", " ": " body)
  | Dropped _ => Unreachable "Remote end closed connection without response"
  end.
End endpoint.

(** ** The ledger *)

(** [text.splitlines()], of a text that is ASCII, as the ledger's is. *)
Definition line_boundary (c : ascii) : bool := let b := byte_of c in in_range 10 13 c || in_range 28 30 c.
Fixpoint splitlines_from (acc s : string) : list string :=
  match s with
  | EmptyString => if s_is_empty acc then [] else [s_rev acc]
  | String c s1 =>
      if line_boundary c then
        s_rev acc :: match s1 with
                     | String d s2 => if (byte_of c =? 13) && (byte_of d =? 10) then splitlines_from EmptyString s2 else splitlines_from EmptyString s1
                     | EmptyString => []
                     end
      else splitlines_from (String c acc) s1
  end.
Definition splitlines (s : string) : list string := splitlines_from EmptyString s.

(** [side_effects()]; [None] is a ledger that does not exist. *)
Definition side_effects `{Externals} (ledger : option string) : result (list pyval) :=
  match ledger with
  | None => Ok []
  | Some text =>
      traverse (fun line => match loads line with Some v => Ok v | None => Raise (ValueError "Expecting value") end)
        (List.filter (fun line => negb (s_is_empty (py_strip line))) (splitlines text))
  end.

(** ** Theorems *)

Section correct.
Context `{Externals}.
Variable credential : string.

(** The request carries the credential, and a payload that can be read. *)
Definition effect_of (q : tool_request) : option (string * pyval) :=
  match q with
  | Get _ => None
  | Post path hs sent =>
      if authorized credential hs then
        match content_length hs with
        | Ok n => match read_payload (read_sent n sent) with Ok (Some payload) => Some (path, payload) | _ => None end
        | Raise _ => None
        end
      else None
  end.
Definition entry (e : string * pyval) : pyval := PDict [("path", PStr e.1); ("payload", e.2)].
Definition lines_of (es : list (string * pyval)) : string := s_concat EmptyString (map (fun e => ledger_line e.1 e.2) es).

Lemma handle_effect q ledger : tool_handle credential q ledger =
  match effect_of q with
  | Some (path, payload) => (Reply 200 (PDict [("ok", PBool true); ("path", PStr path); ("stored", payload)]), ledger +:+ ledger_line path payload)
  | None => ((tool_handle credential q EmptyString).1, ledger)
  end.
Proof.
  destruct q as [path|path hs sent]; [done|]. cbn [tool_handle effect_of]. unfold tool_post.
  destruct (authorized credential hs); [|done]. cbn [negb]. destruct (content_length hs) as [n|e]; [|done].
  by destruct (read_payload (read_sent n sent)) as [[payload|]|e].
Qed.

Lemma lines_cons e es : lines_of (e :: es) = ledger_line e.1 e.2 +:+ lines_of es.
Proof. unfold lines_of. destruct es as [|e' es]; cbn [map s_concat]; by rewrite ?s_app_nil_r, ?s_app_nil_l. Qed.

Lemma serve_effects qs ledger : (tool_serve credential qs ledger).2 = ledger +:+ lines_of (omap effect_of qs).
Proof.
  revert ledger. induction qs as [|q qs IH]; intros ledger; cbn [tool_serve]; [by rewrite s_app_nil_r|].
  rewrite handle_effect. destruct (effect_of q) as [[path payload]|] eqn:E.
  - cbn [omap list_omap]. rewrite E. rewrite lines_cons. cbn [fst snd].
    specialize (IH (ledger +:+ ledger_line path payload)). destruct (tool_serve _ qs _) as [rs l]. cbn [snd] in *. by rewrite IH, s_app_assoc.
  - cbn [omap list_omap]. rewrite E. specialize (IH ledger). destruct (tool_serve _ qs _) as [rs l]. by cbn [snd] in *.
Qed.

(** Reading the ledger back. *)
Lemma splitlines_line line rest : printable line = true -> forall acc, splitlines_from acc (line +:+ String newline rest)
  = (s_rev acc +:+ line) :: splitlines_from EmptyString rest.
Proof.
  induction line as [|c line IH]; intros Hp acc.
  - rewrite s_app_nil_l, s_app_nil_r. cbn [splitlines_from]. change (line_boundary newline) with true. cbv iota.
    by destruct rest.
  - rewrite printable_cons in Hp. apply andb_true_iff in Hp as [Hc Hp]. rewrite s_app_cons. cbn [splitlines_from].
    assert (line_boundary c = false) as -> by (unfold line_boundary, in_range in *; lia).
    rewrite (IH Hp). f_equal. rewrite s_rev_cons, s_app_assoc. done.
Qed.

Lemma strip_head_kept s : s_is_empty (py_strip (String "{" s)) = true -> False.
Proof.
  assert (py_lstrip (String "{" s) = String "{" s) as E by by destruct s as [|b [|c s]].
  unfold py_strip. rewrite E. by destruct s as [|b [|c s]].
Qed.

(** An entry of ASCII texts and of what the reader returns. *)
Definition recordable (e : string * pyval) : Prop := clean e.1 = true /\ clean_val e.2 = true /\ readable true e.2 = true.

Lemma entry_line e : recordable e -> exists line, ledger_line e.1 e.2 = line +:+ chr1 newline /\ printable line = true
  /\ loads line = Some (entry e) /\ s_is_empty (py_strip line) = false.
Proof.
  intros (Hpath & Hc & Hr). exists (dumps ", " ": " (entry e)). split; [done|].
  assert (clean_val (entry e) = true) as Hce by (unfold entry; cbn [clean_val forallb]; by rewrite Hpath, Hc).
  assert (readable true (entry e) = true) as Hre by (unfold entry; cbn [readable forallb dkeys map fst]; by rewrite Hr).
  destruct item_separators as [_ Hi], key_separators as [_ Hk]. split_and!.
  - by apply (printable_dumps true).
  - by apply loads_dumps.
  - destruct (s_is_empty (py_strip (dumps ", " ": " (entry e)))) eqn:E; [|done]. exfalso.
    assert (exists s, dumps ", " ": " (entry e) = String "{" s) as [s Hs] by (unfold entry; cbn [dumps]; rewrite s_app_cons; eauto).
    rewrite Hs in E. by apply strip_head_kept in E.
Qed.

Lemma side_effects_lines es : Forall recordable es -> side_effects (Some (lines_of es)) = Ok (map entry es).
Proof.
  unfold side_effects. intros Hes. induction Hes as [|e es He Hes IH]; [done|]. rewrite lines_cons.
  destruct (entry_line e He) as (line & -> & Hp & Hl & Hs). rewrite s_app_assoc. unfold splitlines in *.
  change (chr1 newline +:+ lines_of es) with (String newline (lines_of es)). rewrite splitlines_line by done.
  rewrite s_app_nil_l. cbn [List.filter]. rewrite Hs. cbn [negb traverse map]. rewrite Hl. cbn [result_bind]. by rewrite IH.
Qed.

Lemma lines_app es es' : lines_of (es ++ es') = lines_of es +:+ lines_of es'.
Proof. induction es as [|e es IH]; [done|]. change ((e :: es) ++ es') with (e :: es ++ es'). by rewrite !lines_cons, IH, s_app_assoc. Qed.

Lemma serve_replies qs ledger i q : qs !! i = Some q -> (tool_serve credential qs ledger).1 !! i = Some (tool_handle credential q EmptyString).1.
Proof.
  revert ledger i. induction qs as [|q' qs IH]; intros ledger i Hi; [done|]. cbn [tool_serve].
  assert ((tool_handle credential q' ledger).1 = (tool_handle credential q' EmptyString).1) as Hr
    by (destruct q'; [done|]; cbn [tool_handle]; unfold tool_post; repeat case_match; done).
  destruct (tool_handle _ q' ledger) as [r l1]. cbn [fst] in Hr. specialize (IH l1).
  destruct (tool_serve _ qs l1) as [rs l2]. cbn [fst] in *. destruct i as [|i]; cbn in *; [|by apply IH]. injection Hi as ->. by rewrite Hr.
Qed.

(** C20. No side effect without the credential: what a run of requests adds to the ledger is a line for each POST
    that carries the credential and whose body is JSON, in order, and nothing else; such a request, and no other
    POST, is answered with 200, and one without the credential with 401 whatever else it holds; and reading the
    ledger gives the entries recorded, with their payloads, after those that were there. *)
Theorem ledger_needs_credential (qs : list tool_request) (before : list (string * pyval)) :
  let '(replies, after) := tool_serve credential qs (lines_of before) in
  after = lines_of (before ++ omap effect_of qs)
  /\ (forall i path hs sent r, qs !! i = Some (Post path hs sent) -> replies !! i = Some r ->
       ((exists body, r = Reply 200 body) <-> is_Some (effect_of (Post path hs sent)))
       /\ (default EmptyString (get_header "Authorization" hs) <> "Bearer " +:+ credential ->
            effect_of (Post path hs sent) = None /\ r = error_reply 401 "unauthorized"))
  /\ (Forall recordable before -> Forall recordable (omap effect_of qs) ->
       side_effects (Some after) = Ok (map entry before ++ map entry (omap effect_of qs))).
Proof.
  pose proof (serve_effects qs (lines_of before)) as He. pose proof (serve_replies qs (lines_of before)) as Hr.
  destruct (tool_serve credential qs (lines_of before)) as [replies after]. cbn [fst snd] in *. rewrite <- lines_app in He. subst after.
  split_and!; [done| |].
  - intros i path hs sent r Hi Hri. specialize (Hr i _ Hi). assert (r = (tool_handle credential (Post path hs sent) EmptyString).1) as -> by congruence. split.
    + rewrite handle_effect. destruct (effect_of _) as [[p payload]|] eqn:E; [split; [done|eauto]|]. split; [|by intros [? ?]].
      intros [body Hb]. exfalso. cbn [tool_handle effect_of] in *. unfold tool_post in Hb. destruct (authorized credential hs); [|done].
      cbn [negb] in Hb. destruct (content_length hs); [|done]. by destruct (read_payload _) as [[|]|].
    + intros Hne. cbn [effect_of tool_handle]. unfold tool_post. unfold authorized. apply String.eqb_neq in Hne. by rewrite Hne.
  - intros Hb Hq. rewrite <- map_app. apply side_effects_lines. by apply Forall_app.
Qed.

Lemma read_payload_ok raw v : s_is_empty raw = false -> json_bytes raw = Ok v -> read_payload raw = Ok (Some v).
Proof.
  intros Hne. unfold json_bytes, json_bytes_with, read_payload, loads. rewrite Hne.
  destruct (is_ascii raw && _); [|destruct (decode_bytes raw); [|done]]; cbn [mbind option_bind]; by destruct (loads_with true _) as [w|]; [intros [= ->]|].
Qed.

(** An authorized call of the tool is recorded as it was authorized: with the credential of the service, the
    ledger gets one line with exactly these arguments and the tool returns what was stored; with another, the
    tool fails and nothing is written. *)
Theorem endpoint_through_service (path mine : string) (arguments : dict pyval) (ledger : string) :
  let data := dumps ", " ": " (PDict arguments) in
  let q hs d := delivered path hs d in
  let called := controlled_endpoint (fun hs d => answered (tool_handle credential (q hs d) ledger).1) mine arguments in
  let arrived := q [("Content-Type", "application/json"); ("Authorization", "Bearer " +:+ mine)] data in
  clean path = true -> clean_val (PDict arguments) = true -> plain (PDict arguments) = true ->
  s_len data <= 1000000 -> read_int (show_Z (s_len data)) = Some (s_len data) ->
  if String.eqb mine credential
  then (tool_handle credential arrived ledger).2 = ledger +:+ ledger_line path (PDict arguments)
       /\ called = Ok (PDict [("ok", PBool true); ("path", PStr path); ("stored", PDict arguments)])
  else (tool_handle credential arrived ledger).2 = ledger /\ called = Raise (RuntimeError "tool endpoint returned HTTP 401").
Proof.
  intros data q called arrived Hpath Hc Hp Hlen Hint.
  destruct item_separators as [_ Hi], key_separators as [_ Hk]. destruct (plain_readable _ Hp) as [Hr _].
  assert (s_is_empty data = false) as Hne by by apply (dumps_nonempty true).
  assert (serializable (PDict arguments) = true) as Hs by by apply plain_serializable.
  assert (authorized credential [("Content-Type", "application/json"); ("Authorization", "Bearer " +:+ mine); ("Content-Length", show_Z (s_len data))]
          = String.eqb mine credential) as Ha.
  { unfold authorized. cbn [get_header]. change (default EmptyString _) with ("Bearer " +:+ mine).
    destruct (String.eqb_spec mine credential) as [->|Hm]; [apply String.eqb_refl|]. apply String.eqb_neq. intros E. apply Hm. by injection E. }
  unfold called, controlled_endpoint, arrived, q, delivered. rewrite Hs. cbn [negb tool_handle Datatypes.app]. fold data. unfold tool_post.
  rewrite Ha. destruct (String.eqb mine credential); cbn [negb]; [|split; [done|reflexivity]].
  assert (content_length [("Content-Type", "application/json"); ("Authorization", "Bearer " +:+ mine); ("Content-Length", show_Z (s_len data))] = Ok (s_len data)) as ->.
  { unfold content_length. change (get_header "Content-Length" _) with (Some (show_Z (s_len data))).
    destruct (show_Z (s_len data)) eqn:E; [destruct (show_Z_chars (s_len data)) as (? & ? & E' & _); congruence|]. by rewrite Hint, Z.min_l. }
  assert (read_sent (s_len data) data = data) as ->.
  { unfold read_sent, s_len. destruct (Z.ltb_spec (Z.of_nat (String.length data)) 0); [done|]. rewrite Nat2Z.id. by apply s_take_all. }
  assert (read_payload data = Ok (Some (PDict arguments))) as ->.
  { apply read_payload_ok; [done|]. by apply bytes_round_trip. }
  split; [done|]. cbn [answered fst]. change (200 <=? 200) with true. change (200 <? 300) with true. cbn [andb].
  set (body := PDict [("ok", PBool true); ("path", PStr path); ("stored", PDict arguments)]).
  assert (clean_val body = true) as Hcb by (unfold body; cbn [clean_val forallb] in Hc |- *; by rewrite Hpath, Hc).
  assert (readable true body = true) as Hrb by (unfold body; cbn [readable forallb dkeys map fst] in Hr |- *; by rewrite Hr).
  rewrite (dumps_nonempty true) by done. by apply bytes_round_trip.
Qed.

(** A negative Content-Length is not capped: everything that is sent is read. *)
Lemma negative_length_uncapped hs text n sent : get_header "Content-Length" hs = Some text -> text <> EmptyString -> read_int text = Some n -> n < 0 ->
  exists m, content_length hs = Ok m /\ read_sent m sent = sent.
Proof.
  intros Ht Hne Hn Hneg. unfold content_length. rewrite Ht. destruct text as [|c text]; [done|]. rewrite Hn. eexists. split; [done|].
  unfold read_sent. by replace (Z.min n 1000000 <? 0) with true by lia.
Qed.
End correct.

Module Witnesses.
#[local] Existing Instances Sample.externals.

Definition signed (credential : string) (body : string) : tool_request :=
  Post "/write" [("Authorization", "Bearer " +:+ credential); ("Content-Length", show_Z (s_len body))] body.
Definition quoted_body : string := dumps ", " ": " (PDict [("row", PInt 7)]).
Definition requests : list tool_request :=
  [Get "/health"; signed "guess" quoted_body; signed "secret" quoted_body; signed "secret" "not json"].

Example replies_run : (tool_serve "secret" requests EmptyString).1 =
  [ok_reply; error_reply 401 "unauthorized";
   Reply 200 (PDict [("ok", PBool true); ("path", PStr "/write"); ("stored", PDict [("row", PInt 7)])]); error_reply 400 "invalid json"].
Proof. vm_compute. reflexivity. Qed.

Lemma ledger_needs_credential_witness :
  (tool_serve "secret" requests EmptyString).2 = lines_of (omap (effect_of "secret") requests)
  /\ omap (effect_of "secret") requests = [("/write", PDict [("row", PInt 7)])]
  /\ side_effects (Some (tool_serve "secret" requests EmptyString).2) = Ok [entry ("/write", PDict [("row", PInt 7)])].
Proof.
  pose proof (ledger_needs_credential "secret" requests []) as Hl. change (lines_of []) with EmptyString in Hl.
  assert (omap (effect_of "secret") requests = [("/write", PDict [("row", PInt 7)])]) as E by (vm_compute; reflexivity).
  destruct (tool_serve "secret" requests EmptyString) as [replies after]. destruct Hl as (-> & _ & Hs).
  cbn [snd]. split; [reflexivity|]. split; [exact E|]. rewrite E in Hs |- *. apply Hs; [constructor|].
  constructor; [|constructor]. split; [reflexivity|split; reflexivity].
Defined.
End Witnesses.
