(* ===== verification/Toolset.v ===== *)
(** * Tools: src/capgate/tools.py and src/capgate/secretsource.py

    The tools a task or a server configures, and the destination checks of the one that fetches URLs.
    Files and environment variables, name resolution, and what the network answers are parameters. *)

From S2P Require Import Prelude Datetime Regex PyVal Externals Json Request Decision NetAddr Timeutil Capability Contract Policy State AuditTrail Effects.

(** ** Secrets *)

Section secrets.
(** [Path.read_text] of a path, relative to [base] if given: the text, or [strerror]; and [os.environ]. *)
Variable read_text : option string -> string -> string + string.
Variable environ : string -> option string.

Definition read_secret (spec : dict pyval) (prefix label : string) (base : option string) : result string :=
  let file_key := prefix +:+ "_file" in
  let env_key := prefix +:+ "_env" in
  let? value :=
    (if truthy (pget file_key spec) then
       match pget file_key spec with
       | PStr path =>
           match read_text base path with
           | inl text => Ok (py_strip text)
           | inr strerror => Raise (ValueError (label +:+ ": cannot read " +:+ file_key +:+ " (" +:+ strerror +:+ ")"))
           end
       | _ => Raise (TypeError "argument should be a str")
       end
     else if truthy (pget env_key spec) then
       match pget env_key spec with
       | PStr name => Ok (py_strip (default EmptyString (environ name)))
       | _ => Raise (TypeError "str expected")
       end
     else Raise (ValueError (label +:+ ": set " +:+ file_key +:+ " or " +:+ env_key))) in
  if s_is_empty value then Raise (ValueError (label +:+ ": secret is empty")) else Ok value.
End secrets.

(** ** Configured tools *)

Inductive tool_kind :=
| EchoTool
| HttpFetchTool
| ControlledEndpointTool (url : pyval) (credential : string)
| MCPTool (server : string) (tool : pyval).

(** [action.rsplit(".", 1)[-1]] *)
Definition last_label (action : string) : string := (rpartition_on "."%char action).2.

Section build.
Variable read_text : option string -> string -> string + string.
Variable environ : string -> option string.
(** [build_mcp_clients]: the names of the configured upstream servers. *)
Variable mcp_clients : result (list string).

(** The tool of one entry; the upstream clients are built when the first entry needs them. *)
Definition build_tool (base : option string) (action : string) (cfg : pyval) : result tool_kind :=
  let? spec := or_mapping cfg in
  let kind := pget "type" spec in
  if equals_str kind "echo" then Ok EchoTool
  else if equals_str kind "http_fetch" then Ok HttpFetchTool
  else if equals_str kind "endpoint" then
    let? url := key "url" spec in
    let? credential := read_secret read_text environ spec "credential" ("tool " +:+ action) base in
    Ok (ControlledEndpointTool url credential)
  else if equals_str kind "mcp" then
    let? clients := mcp_clients in
    match pget "server" spec with
    | PStr server =>
        if str_in server clients
        then Ok (MCPTool server (if truthy (pget "tool" spec) then pget "tool" spec else PStr (last_label action)))
        else Raise (ValueError ("tool " +:+ action +:+ ": unknown mcp server " +:+ repr_str server))
    | server => Raise (ValueError ("tool " +:+ action +:+ ": unknown mcp server " +:+ py_repr server))
    end
  else Raise (ValueError ("tool " +:+ action +:+ ": unknown type " +:+ py_repr kind +:+ " (expected echo, endpoint, http_fetch or mcp)")).

Definition build_entry (base : option string) (entry : string * pyval) : result (string * tool_kind) :=
  let? t := build_tool base entry.1 entry.2 in Ok (entry.1, t).

Definition build_tools (spec : pyval) (base : option string) : result (dict tool_kind) :=
  let? entries := or_mapping spec in
  traverse (build_entry base) entries.
End build.

(** ** Fetching *)

(** [urlsplit] of any text: leading control characters and spaces, and tabs and newlines anywhere, go. *)
Definition is_c0_or_space (c : ascii) : bool := byte_of c <=? 32.
Definition is_unsafe_url_byte (c : ascii) : bool := (byte_of c =? 9) || (byte_of c =? 13) || (byte_of c =? 10).
Fixpoint s_drop_by (p : ascii -> bool) (s : string) : string :=
  match s with
  | EmptyString => EmptyString
  | String c s' => if p c then s_drop_by p s' else String c (s_drop_by p s')
  end.
Definition urlsplit_any `{Externals} (url : string) : option url_parts :=
  urlsplit (s_drop_by is_unsafe_url_byte (lstrip_by is_c0_or_space url)).

(** A connection to make: to [fp_address], for [fp_host]. *)
Record fetch_plan := mk_plan {
  fp_scheme : string;
  fp_host : string;
  fp_port : Z;
  fp_address : string;
  fp_path : string;
}.

Record http_response := mk_response {
  rs_status : Z;
  rs_location : option string;
  rs_body : string;
}.

Section fetch.
Context `{Externals}.
Variable max_bytes : nat.
Variable allow_private : bool.
Variable allowed_ports : option (list Z).
(** [str(ip)] of the address a text denotes, and the [n]-th answer of the resolver. *)
Variable canonical : string -> string.
Variable resolve : string -> Z -> nat -> result (list string).

Definition port_allowed (port : Z) : bool :=
  match allowed_ports with Some l => existsb (Z.eqb port) l | None => true end.

Definition before_percent (s : string) : string := (partition_on "%"%char s).1.1.

(** [is_public_ip(ipaddress.ip_address(address.split("%")[0]))] *)
Definition address_public (address : string) : result bool :=
  match ip_address (before_percent address) with
  | Some a => Ok (is_public_ip a)
  | None => Raise (ValueError (repr_str address +:+ " does not appear to be an IPv4 or IPv6 address"))
  end.

Definition addresses_of (host : string) (port : Z) (n : nat) : result (list string) :=
  let? literal := ip_literal host in
  match literal with
  | Some _ => Ok [canonical (strip_by is_bracket host)]
  | None => resolve host port n
  end.

Fixpoint vet (host : string) (addresses : list string) : result unit :=
  match addresses with
  | [] => Ok tt
  | address :: rest =>
      let? public := address_public address in
      if public then vet host rest
      else Raise (DestinationRefused (repr_str host +:+ " resolves to non-public address " +:+ address))
  end.

Definition plan_for (parts : url_parts) (n : nat) : result fetch_plan :=
  let scheme := u_scheme parts in
  if negb (str_in scheme ["http"; "https"]) || s_is_empty (u_hostname parts)
  then Raise (DestinationRefused "only http(s) URLs with a host are fetched") else
  if u_has_userinfo parts then Raise (DestinationRefused "URLs with embedded credentials are refused") else
  let? host := match normalize_hostname (u_hostname parts) with
               | Raise (InvalidHost msg) => Raise (DestinationRefused msg)
               | r => r
               end in
  let? given := match u_port parts with Some p => Ok p | None => Raise (ValueError "invalid port") end in
  let standard := if String.eqb scheme "https" then 443 else 80 in
  let port := match given with Some p => if p =? 0 then standard else p | None => standard end in
  if negb (port_allowed port) then Raise (DestinationRefused ("port " +:+ show_Z port +:+ " is not allowed")) else
  let? addresses := addresses_of host port n in
  match addresses with
  | [] => Raise (DestinationRefused (repr_str host +:+ " did not resolve"))
  | pinned :: _ =>
      (if allow_private then Ok tt else vet host addresses) ;?
      let path := if s_is_empty (u_path parts) then "/" else u_path parts in
      Ok (mk_plan scheme host port pinned (if s_is_empty (u_query parts) then path else path +:+ "?" +:+ u_query parts))
  end.

(** The first part of [HttpFetchTool.__call__], before a connection is opened. A false value that is not
    a text splits to empty bytes. *)
Definition fetch_plan_of (arguments : dict pyval) (n : nat) : result fetch_plan :=
  let? url := key "url" arguments in
  match url with
  | PStr url =>
      match urlsplit_any url with
      | Some parts => plan_for parts n
      | None => Raise (ValueError "Invalid URL")
      end
  | v => if truthy v then Raise (AttributeError "object has no attribute 'decode'")
         else Raise (DestinationRefused "only http(s) URLs with a host are fetched")
  end.

(** The [n]-th exchange over a connection, with the body as bytes; and [decode("utf-8", errors="replace")]. *)
Variable exchange : fetch_plan -> nat -> result http_response.
Variable decode_replace : string -> string.

Definition http_fetch (arguments : dict pyval) (n : nat) : result pyval :=
  let? plan := fetch_plan_of arguments n in
  let? resp := exchange plan n in
  let head := [("status", PInt (rs_status resp)); ("url", pget "url" arguments); ("resolved_ip", PStr (fp_address plan))] in
  if (300 <=? rs_status resp) && (rs_status resp <? 400)
  then Ok (PDict (head ++ [("redirect_to", ostr (rs_location resp)); ("followed", PBool false); ("body", PStr EmptyString)]))
  else let body := s_take (S max_bytes) (rs_body resp) in
       Ok (PDict (head ++ [("body", PStr (decode_replace (s_take max_bytes body)));
                           ("truncated", PBool (Nat.ltb max_bytes (String.length body)))])).
End fetch.

(** ** What a plan guarantees *)

Section lemmas.
Context `{Externals}.

Lemma lstrip_by_none p s : s_forall (fun c => negb (p c)) s = true -> lstrip_by p s = s.
Proof. destruct s as [|c s]; [done|]. cbn. by destruct (p c). Qed.

Lemma s_drop_by_none p s : s_forall (fun c => negb (p c)) s = true -> s_drop_by p s = s.
Proof. induction s as [|c s IH]; [done|]. cbn. destruct (p c); [done|]. cbn. intros Hs. by rewrite IH. Qed.

Lemma not_forbidden s : url_has_forbidden s = false -> s_forall (fun c => negb (url_forbidden_char c)) s = true.
Proof.
  induction s as [|c s IH]; [done|]. cbn [url_has_forbidden s_forall]. intros Hf.
  apply orb_false_iff in Hf as [[Hc Hs]%orb_false_iff _]. by rewrite Hc, IH.
Qed.

(** On a text the policy does not refuse outright, both read the same URL. *)
Lemma urlsplit_any_plain url : url_has_forbidden url = false -> urlsplit_any url = urlsplit url.
Proof.
  intros Hf%not_forbidden. unfold urlsplit_any.
  assert (forall p, (forall c, p c = true -> url_forbidden_char c = true) -> s_forall (fun c => negb (p c)) url = true) as Hall.
  { intros p Hp. apply (s_forall_impl (fun c => negb (url_forbidden_char c))); [|done].
    intros c Hc. cbn beta in *. destruct (p c) eqn:Ep; [|done]. apply Hp in Ep. by rewrite Ep in Hc. }
  rewrite (lstrip_by_none is_c0_or_space), (s_drop_by_none is_unsafe_url_byte); [done|apply Hall..];
    intros c; unfold is_c0_or_space, is_unsafe_url_byte, url_forbidden_char; lia.
Qed.

(** An address that denotes a public one. *)
Definition public_address (address : string) : Prop :=
  exists a, ip_address (before_percent address) = Some a /\ is_public_ip a = true.

Lemma vet_ok host addresses : vet host addresses = Ok tt -> Forall public_address addresses.
Proof.
  induction addresses as [|x l IH]; [by constructor|]. cbn [vet]. unfold address_public.
  destruct (ip_address (before_percent x)) as [a|] eqn:Ea; [|done]. cbn [result_bind].
  destruct (is_public_ip a) eqn:Ep; [|done]. intros Hv. constructor; [by exists a|by apply IH].
Qed.

Lemma plan_for_ok allow_private ports canonical resolve parts n p :
  plan_for allow_private ports canonical resolve parts n = Ok p ->
  str_in (u_scheme parts) ["http"; "https"] = true /\ s_is_empty (u_hostname parts) = false
  /\ u_has_userinfo parts = false /\ fp_scheme p = u_scheme parts
  /\ normalize_hostname (u_hostname parts) = Ok (fp_host p) /\ port_allowed ports (fp_port p) = true
  /\ exists addresses, addresses_of canonical resolve (fp_host p) (fp_port p) n = Ok addresses
       /\ head addresses = Some (fp_address p)
       /\ (allow_private = false -> vet (fp_host p) addresses = Ok tt).
Proof.
  unfold plan_for. destruct (str_in _ _); [|done]. destruct (s_is_empty (u_hostname parts)); [done|].
  cbn [negb orb]. destruct (u_has_userinfo parts); [done|].
  destruct (normalize_hostname (u_hostname parts)) as [host|[]]; cbn [result_bind]; try done.
  destruct (u_port parts) as [given|]; cbn [result_bind]; [|done].
  set (port := match given with Some _ => _ | None => _ end).
  destruct (port_allowed ports port) eqn:Eport; cbn [negb]; [|done].
  destruct (addresses_of _ _ _ _ _) as [addresses|] eqn:Ea; cbn [result_bind]; [|done].
  destruct addresses as [|pinned rest]; [done|]. intros Hp.
  assert ((if allow_private then Ok tt else vet host (pinned :: rest)) = Ok tt) as Hvet.
  { destruct (if allow_private then _ else _) as [[]|]; [done|]. by cbn [result_bind] in Hp. }
  rewrite Hvet in Hp. cbn [result_bind] in Hp. injection Hp as <-. cbn [fp_scheme fp_host fp_port fp_address].
  split_and!; try done. exists (pinned :: rest). split_and!; [done|done|]. by intros ->.
Qed.
End lemmas.

Section properties.
Context `{Externals}.

(** C25. The fetching tool connects only where its checks looked: a connection is planned only for an
    http or https URL without embedded credentials, to an allowed port, and to the first of the
    addresses that the URL's host is or resolved to in this one lookup; unless private destinations
    are enabled every one of those addresses is public, so a mixed answer is refused and a second
    answer is never used; and when the policy has judged the URL, the host connected to is the host
    that the policy judged. *)
Theorem fetch_connects_where_vetted (allow_private : bool) (ports : option (list Z)) (canonical : string -> string)
    (resolve : string -> Z -> nat -> result (list string)) (args : dict pyval) (n : nat) (p : fetch_plan) :
  fetch_plan_of allow_private ports canonical resolve args n = Ok p ->
  exists url parts, pget "url" args = PStr url /\ urlsplit_any url = Some parts
  /\ (fp_scheme p = "http" \/ fp_scheme p = "https") /\ u_has_userinfo parts = false
  /\ port_allowed ports (fp_port p) = true
  /\ (exists addresses, addresses_of canonical resolve (fp_host p) (fp_port p) n = Ok addresses
       /\ head addresses = Some (fp_address p)
       /\ (allow_private = false -> Forall public_address addresses))
  /\ forall name host, url_host name (PStr url) = inl (Ok host) -> fp_host p = host.
Proof.
  unfold fetch_plan_of, key, pget. destruct (dget "url" args) as [v|]; cbn [result_bind default]; [|done].
  destruct v as [| | | |url| | | | | |]; try (destruct (truthy _); done).
  destruct (urlsplit_any url) as [parts|] eqn:Eu; [|done].
  intros (Hs & He & Hi & Hsch & Hn & Hport & l & Hl & Hhd & Hvet)%plan_for_ok. exists url, parts.
  split_and!; try done.
  - rewrite Hsch. unfold str_in in Hs. cbn [existsb] in Hs. rewrite !orb_true_iff, !String.eqb_eq in Hs. naive_solver.
  - exists l. split_and!; [done|done|]. intros Ha. by eapply vet_ok, Hvet.
  - intros name host. unfold url_host. destruct (url_has_forbidden url) eqn:Ef; [done|].
    rewrite <- urlsplit_any_plain, Eu by done. destruct (u_port parts); [|done]. rewrite Hs, He, Hi, Hn. cbn. congruence.
Qed.
End properties.

Module Witnesses.
#[local] Existing Instance Sample.externals.

(** A resolver that gives a private address for one name, on its second answer. *)
Definition rebinding (host : string) (port : Z) (n : nat) : result (list string) :=
  Ok (match n with O => ["93.184.216.34"] | _ => ["93.184.216.34"; "10.0.0.7"] end).
Definition plan := fetch_plan_of false (Some [80; 443]) id rebinding.
Definition url (u : string) : dict pyval := [("url", PStr u)].

Example plans :
  (plan (url "https://Example.org/a?b=1#c") 0,
   plan (url "https://example.org/") 1,
   plan (url "http://127.0.0.1/") 0,
   plan (url "http://2130706433/") 0,
   plan (url "http://u@example.org/") 0,
   plan (url "http://example.org:8080/") 0)
  = (Ok (mk_plan "https" "example.org" 443 "93.184.216.34" "/a?b=1"),
     Raise (DestinationRefused "'example.org' resolves to non-public address 10.0.0.7"),
     Raise (DestinationRefused "'127.0.0.1' resolves to non-public address 127.0.0.1"),
     Raise (DestinationRefused "non-canonical IP address '2130706433'"),
     Raise (DestinationRefused "URLs with embedded credentials are refused"),
     Raise (DestinationRefused "port 8080 is not allowed")).
Proof. vm_compute. reflexivity. Qed.

Definition allowed_plan : fetch_plan := mk_plan "https" "example.org" 443 "93.184.216.34" "/a?b=1".
Lemma planned : plan (url "https://Example.org/a?b=1#c") 0 = Ok allowed_plan.
Proof. vm_compute. reflexivity. Qed.

Lemma fetch_connects_where_vetted_witness : public_address (fp_address allowed_plan).
Proof.
  destruct (fetch_connects_where_vetted false (Some [80; 443]) id rebinding _ 0 allowed_plan planned)
    as (? & ? & _ & _ & _ & _ & _ & (l & Hl & Hhd & Hall) & _).
  destruct l as [|pinned rest]; [discriminate Hhd|]. assert (pinned = fp_address allowed_plan) as Hx by (injection Hhd; auto). subst pinned. exact (Forall_inv (Hall eq_refl)).
Defined.

Example secrets :
  let read := fun (_ : option string) path => if String.eqb path "k" then inl "  s3cret " else inr "No such file or directory" in
  (read_secret read (fun _ => None) [("credential_file", PStr "k")] "credential" "tool x" None,
   read_secret read (fun _ => None) [("credential_file", PStr "m")] "credential" "tool x" None,
   read_secret read (fun _ => None) [("credential_env", PStr "K")] "credential" "tool x" None,
   read_secret read (fun _ => None) [] "credential" "tool x" None)
  = (Ok "s3cret", Raise (ValueError "tool x: cannot read credential_file (No such file or directory)"),
     Raise (ValueError "tool x: secret is empty"), Raise (ValueError "tool x: set credential_file or credential_env")).
Proof. vm_compute. reflexivity. Qed.

Example configured :
  build_tools (fun _ _ => inr "no file") (fun _ => Some "t") (Ok ["files"])
    (PDict [("web.fetch", PDict [("type", PStr "http_fetch")]); ("fs.read", PDict [("type", PStr "mcp"); ("server", PStr "files")])])
    None
  = Ok [("web.fetch", HttpFetchTool); ("fs.read", MCPTool "files" (PStr "read"))].
Proof. vm_compute. reflexivity. Qed.
End Witnesses.
