(* ===== verification/Upstream.v ===== *)
(** * Upstream MCP servers: src/capgate/mcp/upstream.py

    [MCPStdioClient] talks to a child process over pipes. One caller at a time holds the lock; a reader
    thread per process hands replies to the waiters. The client is a state machine whose events are the
    steps of the caller, of the readers and of the processes; what a process writes, when it exits and
    whether a write to it succeeds belong to the event. A line is read as text; what [json.loads] of it
    is, is [Json.loads]. *)

From S2P Require Import Prelude Regex PyVal Externals Json Contract Toolset.

Definition PROTOCOL_VERSION : string := "2025-06-18".

(** ** What a line from the server is *)

Inductive incoming :=
| Ignored
| ServerRequest (id : pyval)                    (* a request of the server; none is supported *)
| Reply (id : Z) (message : dict pyval).

Definition incoming_of `{Externals} (line : string) : incoming :=
  let line := py_strip line in
  if s_is_empty line then Ignored else
  match loads line with
  | Some (PDict message) =>
      if dmem "method" message && dmem "id" message then ServerRequest (pget "id" message)
      else match as_int (pget "id" message) with Some k => Reply k message | None => Ignored end
  | _ => Ignored
  end.

Definition unsupported (id : pyval) : dict pyval :=
  [("jsonrpc", PStr "2.0"); ("id", id);
   ("error", PDict [("code", PInt (-32601)); ("message", PStr "not supported by the harness executor")])].
Definition exited : dict pyval :=
  [("error", PDict [("code", PInt (-32000)); ("message", PStr "upstream MCP server exited")])].
Definition request_message (id : Z) (method : string) (params : dict pyval) : dict pyval :=
  [("jsonrpc", PStr "2.0"); ("id", PInt id); ("method", PStr method); ("params", PDict params)].
Definition initialize_params : dict pyval :=
  [("protocolVersion", PStr PROTOCOL_VERSION); ("capabilities", PDict []);
   ("clientInfo", PDict [("name", PStr "capgate-executor"); ("version", PStr "0.1.0")])].
Definition initialized : dict pyval := [("jsonrpc", PStr "2.0"); ("method", PStr "notifications/initialized")].

(** What a caller makes of the reply it waited for. *)
Definition result_of (name method : string) (reply : dict pyval) : result pyval :=
  match dget "error" reply with
  | Some (PDict error) => Raise (UpstreamError (name +:+ ": " +:+ method +:+ " failed: " +:+ py_str (pget "message" error)))
  | Some _ => Raise (AttributeError "get")
  | None => Ok (pget "result" reply)
  end.

(** ** The state *)

Record process := mk_process {
  pc_alive : bool;                      (* poll() is None *)
  pc_stdin : list (dict pyval);         (* written to it, in order *)
  pc_stdout : list string;              (* written by it and not read yet *)
  pc_closed : bool;                     (* no more will be written *)
  pc_puts : list (Z * dict pyval);      (* what its reader is putting into waiters *)
  pc_reading : bool;                    (* its reader is still in the loop over lines *)
}.

(** The request the holder of the lock waits for, and the one to send after [initialize]. *)
Record waiting := mk_waiting {
  wt_id : Z;
  wt_method : string;
  wt_then : option (string * dict pyval);
}.

Inductive happening :=
| Sent (process : nat) (id : Z) (method : string) (params : dict pyval)
| Heard (process : nat) (id : Z) (message : dict pyval)    (* a reply was taken out of the pending ones *)
| Answered (id : Z) (r : result pyval).                     (* the call whose last request had this id is over *)

Record client := mk_client {
  mc_name : string;
  mc_timeout : string;                  (* the timeout as text *)
  mc_procs : list process;
  mc_current : option nat;              (* self._proc *)
  mc_next_id : Z;
  mc_pending : gset Z;
  mc_boxes : gmap Z (dict pyval);       (* what waiters of size one hold *)
  mc_waiting : option waiting;          (* the lock is held *)
  mc_tools : option (dict pyval);
  mc_history : list happening;
}.

Definition make_client (name timeout : string) (command : list string) : result client :=
  if bool_decide (command = []) then Raise (ValueError "an MCP server needs a command")
  else Ok (mk_client name timeout [] None 0 ∅ ∅ None None []).

Definition set_procs f (c : client) : client :=
  mk_client (mc_name c) (mc_timeout c) (f (mc_procs c)) (mc_current c) (mc_next_id c) (mc_pending c) (mc_boxes c) (mc_waiting c) (mc_tools c) (mc_history c).
Definition on_process (p : nat) f : client -> client := set_procs (fun l => alter f p l).
Definition set_pending f (c : client) : client :=
  mk_client (mc_name c) (mc_timeout c) (mc_procs c) (mc_current c) (mc_next_id c) (f (mc_pending c)) (mc_boxes c) (mc_waiting c) (mc_tools c) (mc_history c).
Definition set_boxes f (c : client) : client :=
  mk_client (mc_name c) (mc_timeout c) (mc_procs c) (mc_current c) (mc_next_id c) (mc_pending c) (f (mc_boxes c)) (mc_waiting c) (mc_tools c) (mc_history c).
Definition happens (h : happening) (c : client) : client :=
  mk_client (mc_name c) (mc_timeout c) (mc_procs c) (mc_current c) (mc_next_id c) (mc_pending c) (mc_boxes c) (mc_waiting c) (mc_tools c) (mc_history c ++ [h]).
Definition set_waiting w (c : client) : client :=
  mk_client (mc_name c) (mc_timeout c) (mc_procs c) (mc_current c) (mc_next_id c) (mc_pending c) (mc_boxes c) w (mc_tools c) (mc_history c).

(** The call is over: the lock is released. *)
Definition finish (id : Z) (r : result pyval) (c : client) : client := happens (Answered id r) (set_waiting None c).

Definition alive (c : client) : bool :=
  match mc_current c with
  | Some p => match mc_procs c !! p with Some pr => pc_alive pr | None => false end
  | None => false
  end.

(** [_send]: a line to the current process, when the write succeeds. *)
Definition _send (message : dict pyval) (c : client) : client :=
  match mc_current c with
  | Some p => on_process p (fun pr => mk_process (pc_alive pr) (pc_stdin pr ++ [message]) (pc_stdout pr) (pc_closed pr) (pc_puts pr) (pc_reading pr)) c
  | None => c
  end.

(** [_request_locked] up to the wait: a new id, its waiter, and the message, if it can be written. *)
Definition _request_locked (method : string) (params : dict pyval) (next : option (string * dict pyval)) (written : bool) (c : client) : client :=
  let id := mc_next_id c + 1 in
  let c := mk_client (mc_name c) (mc_timeout c) (mc_procs c) (mc_current c) id ({[id]} ∪ mc_pending c) (mc_boxes c)
             (Some (mk_waiting id method next)) (mc_tools c) (mc_history c) in
  if written then happens (Sent (default O (mc_current c)) id method params) (_send (request_message id method params) c)
  else finish id (Raise (OSError "Broken pipe")) c.

(** [_ensure] with no live process: [Popen], a fresh reader, no pending requests, then [initialize]. *)
Definition spawn (c : client) : client :=
  mk_client (mc_name c) (mc_timeout c) (mc_procs c ++ [mk_process true [] [] false [] true]) (Some (length (mc_procs c)))
    (mc_next_id c) ∅ (mc_boxes c) (mc_waiting c) None (mc_history c).

(** ** Events *)

Inductive event :=
| Call (method : string) (params : dict pyval) (written : bool)   (* request() gets the lock *)
| Take (noted written : bool)                                     (* waiter.get returns *)
| Timeout                                                         (* waiter.get raises Empty *)
| Close                                                           (* close() *)
| Write (p : nat) (line : string)
| Exit (p : nat)
| CloseStdout (p : nat)
| ReadLine (p : nat) (written : bool)
| ReadEnd (p : nat)
| Put (p : nat).

Section machine.
Context `{Externals}.

Definition put_reader (puts : list (Z * dict pyval)) (reading : bool) (pr : process) : process :=
  mk_process (pc_alive pr) (pc_stdin pr) (pc_stdout pr) (pc_closed pr) puts reading.

(** One line in the reader of process [p]. *)
Definition read_line (p : nat) (line : string) (written : bool) (c : client) : client :=
  match incoming_of line with
  | Ignored => c
  | ServerRequest id =>
      if written && bool_decide (mc_current c <> None) then _send (unsupported id) c
      else on_process p (fun pr => put_reader [] false pr) c       (* the thread dies of the exception *)
  | Reply id message =>
      if bool_decide (id ∈ mc_pending c)
      then on_process p (fun pr => put_reader [(id, message)] (pc_reading pr) pr)
             (happens (Heard p id message) (set_pending (fun s => s ∖ {[id]}) c))
      else c
  end.

(** An event that can happen, and the state after it. *)
Definition act (e : event) (c : client) : option client :=
  match e with
  | Call method params written =>
      match mc_waiting c with
      | Some _ => None
      | None =>
          Some (if alive c then _request_locked method params None written c
                else _request_locked "initialize" initialize_params (Some (method, params)) written (spawn c))
      end
  | Take noted written =>
      match mc_waiting c with
      | None => None
      | Some w =>
          match mc_boxes c !! wt_id w with
          | None => None
          | Some reply =>
              let c := set_boxes (delete (wt_id w)) c in
              Some (match result_of (mc_name c) (wt_method w) reply with
                    | Raise e => finish (wt_id w) (Raise e) c
                    | Ok v =>
                        match wt_then w with
                        | None => finish (wt_id w) (Ok v) c
                        | Some (method, params) =>
                            if noted then _request_locked method params None written (_send initialized c)
                            else finish (wt_id w) (Raise (OSError "Broken pipe")) c
                        end
                    end)
          end
      end
  | Timeout =>
      match mc_waiting c with
      | None => None
      | Some w =>
          if bool_decide (mc_boxes c !! wt_id w = None)
          then Some (finish (wt_id w) (Raise (UpstreamError (mc_name c +:+ ": " +:+ wt_method w +:+ " timed out after " +:+ mc_timeout c +:+ "s")))
                       (set_pending (fun s => s ∖ {[wt_id w]}) c))
          else None
      end
  | Close =>
      match mc_waiting c with
      | Some _ => None
      | None =>
          let c := match mc_current c with
                   | Some p => on_process p (fun pr => mk_process false (pc_stdin pr) (pc_stdout pr) (pc_closed pr) (pc_puts pr) (pc_reading pr)) c
                   | None => c
                   end in
          Some (mk_client (mc_name c) (mc_timeout c) (mc_procs c) None (mc_next_id c) (mc_pending c) (mc_boxes c) None (mc_tools c) (mc_history c))
      end
  | Write p line =>
      match mc_procs c !! p with
      | Some pr =>
          if pc_closed pr then None
          else Some (on_process p (fun pr => mk_process (pc_alive pr) (pc_stdin pr) (pc_stdout pr ++ [line]) false (pc_puts pr) (pc_reading pr)) c)
      | None => None
      end
  | Exit p => Some (on_process p (fun pr => mk_process false (pc_stdin pr) (pc_stdout pr) (pc_closed pr) (pc_puts pr) (pc_reading pr)) c)
  | CloseStdout p => Some (on_process p (fun pr => mk_process (pc_alive pr) (pc_stdin pr) (pc_stdout pr) true (pc_puts pr) (pc_reading pr)) c)
  | ReadLine p written =>
      match mc_procs c !! p with
      | Some (mk_process al stdin (line :: rest) closed [] true) =>
          Some (read_line p line written (on_process p (fun _ => mk_process al stdin rest closed [] true) c))
      | _ => None
      end
  | ReadEnd p =>
      match mc_procs c !! p with
      | Some (mk_process al stdin [] true [] true) =>
          Some (on_process p (fun pr => put_reader (map (fun k => (k, exited)) (elements (mc_pending c))) false pr) c)
      | _ => None
      end
  | Put p =>
      match mc_procs c !! p with
      | Some pr =>
          match pc_puts pr with
          | (k, message) :: rest =>
              if bool_decide (mc_boxes c !! k = None)
              then Some (set_boxes (insert k message) (on_process p (fun pr => put_reader rest (pc_reading pr) pr) c))
              else None                                       (* the queue is full: the thread blocks *)
          | [] => None
          end
      | None => None
      end
  end.

Fixpoint run (es : list event) (c : client) : option client :=
  match es with
  | [] => Some c
  | e :: es' => match act e c with Some c' => run es' c' | None => None end
  end.
End machine.

(** ** Invariants *)

Definition sent_id (h : happening) : option Z := match h with Sent _ k _ _ => Some k | _ => None end.
Definition answered_id (h : happening) : option Z := match h with Answered k _ => Some k | _ => None end.

(** [k] was registered: sent, or given up before it could be. *)
Definition registered (k : Z) (h : list happening) : Prop := k ∈ omap sent_id h \/ k ∈ omap answered_id h.

(** A message that came out of a waiter: the notice that the server exited, or a reply that was heard
    after its request was registered. *)
Definition heard (h : list happening) (km : Z * dict pyval) : Prop :=
  km.2 = exited \/ exists h1 p h2, h = h1 ++ Heard p km.1 km.2 :: h2 /\ registered km.1 h1.

Lemma registered_app k h h' : registered k h -> registered k (h ++ h').
Proof. unfold registered. rewrite !omap_app, !elem_of_app. tauto. Qed.

Lemma heard_app h h' km : heard h km -> heard (h ++ h') km.
Proof. intros [He|(h1 & p & h2 & -> & Hr)]; [by left|]. right. exists h1, p, (h2 ++ h'). by rewrite <- app_assoc. Qed.

Section invariant.
Context `{Externals}.

Record invariant (es : list event) (c : client) : Prop := {
  iv_bound k : registered k (mc_history c) -> k <= mc_next_id c;
  iv_sent : NoDup (omap sent_id (mc_history c));
  iv_answered : NoDup (omap answered_id (mc_history c));
  iv_pending k : k ∈ mc_pending c -> registered k (mc_history c);
  iv_boxes k m : mc_boxes c !! k = Some m -> heard (mc_history c) (k, m);
  iv_puts p pr km : mc_procs c !! p = Some pr -> km ∈ pc_puts pr -> heard (mc_history c) km;
  iv_waiting w : mc_waiting c = Some w -> wt_id w = mc_next_id c /\ wt_id w ∉ omap answered_id (mc_history c)
    /\ exists p params, Sent p (wt_id w) (wt_method w) params ∈ mc_history c;
  iv_lines p pr line : mc_procs c !! p = Some pr -> line ∈ pc_stdout pr -> Write p line ∈ es;
  iv_heard p k m : Heard p k m ∈ mc_history c -> exists line, Write p line ∈ es /\ incoming_of line = Reply k m;
}.

(** A process is rewritten without new lines or messages to put. *)
Definition calmer (f : process -> process) : Prop :=
  forall pr, pc_stdout (f pr) = pc_stdout pr /\ (pc_puts (f pr) = pc_puts pr \/ pc_puts (f pr) = []).

Lemma alter_Some (p q : nat) (f : process -> process) (l : list process) pr : alter f p l !! q = Some pr ->
  exists pr', l !! q = Some pr' /\ (pr = pr' \/ (p = q /\ pr = f pr')).
Proof.
  destruct (base.decide (p = q)) as [<-|Hne].
  - rewrite list_lookup_alter_eq. destruct (l !! p) as [pr'|] eqn:E; [|done]. intros [= <-]. eauto.
  - rewrite list_lookup_alter_ne by done. eauto.
Qed.

Lemma invariant_calm es c p f : calmer f -> invariant es c -> invariant es (on_process p f c).
Proof.
  intros Hf []. split; simpl; try done.
  - intros q pr km (pr' & Hl & [->|[-> ->]])%alter_Some Hin; [eauto|]. destruct (Hf pr') as [_ [Hp|Hp]]; rewrite Hp in Hin; [eauto|].
    by apply elem_of_nil in Hin.
  - intros q pr line (pr' & Hl & [->|[-> ->]])%alter_Some Hin; [eauto|]. destruct (Hf pr') as [Ho _]. rewrite Ho in Hin. eauto.
Qed.

Lemma invariant_send es c m : invariant es c -> invariant es (_send m c).
Proof. intros Hi. unfold _send. destruct (mc_current c); [|done]. by apply invariant_calm; [intros pr; simpl; auto|]. Qed.

Lemma invariant_finish es c k r : invariant es c -> k <= mc_next_id c -> k ∉ omap answered_id (mc_history c) ->
  invariant es (finish k r c).
Proof.
  intros [] Hk Hn. unfold finish, happens, set_waiting. split; simpl; try done; rewrite ?omap_app; simpl; rewrite ?app_nil_r; try done.
  - intros j [Hj|Hj]; rewrite omap_app in Hj; simpl in Hj; rewrite ?app_nil_r in Hj; [apply iv_bound0; by left|].
    apply elem_of_app in Hj as [Hj| ->%list_elem_of_singleton]; [apply iv_bound0; by right|done].
  - apply NoDup_app. split_and!; [done| |by apply NoDup_singleton]. intros j Hj ->%list_elem_of_singleton. done.
  - intros j Hj. by apply registered_app, iv_pending0.
  - intros j m Hj. by apply heard_app, iv_boxes0.
  - intros p pr km Hp Hin. eapply heard_app, iv_puts0; eauto.
  - intros p j m [Hj|Hj%list_elem_of_singleton]%elem_of_app; [eauto|done].
Qed.

Lemma invariant_box es c k : invariant es c -> invariant es (set_boxes (delete k) c).
Proof. intros []. split; simpl; try done. intros j m [_ Hj]%lookup_delete_Some. eauto. Qed.

Lemma invariant_forget es c s : (forall k, k ∈ s (mc_pending c) -> k ∈ mc_pending c) -> invariant es c -> invariant es (set_pending s c).
Proof. intros Hs []. split; simpl; try done. auto. Qed.

Lemma invariant_spawn es c : invariant es c -> invariant es (spawn c).
Proof.
  intros []. unfold spawn. split; simpl; try done.
  - intros p pr km [Hl|(_ & Hl)]%lookup_app_Some Hin; [eauto|]. apply list_lookup_singleton_Some in Hl as [_ <-]. by apply elem_of_nil in Hin.
  - intros p pr line [Hl|(_ & Hl)]%lookup_app_Some Hin; [eauto|]. apply list_lookup_singleton_Some in Hl as [_ <-]. by apply elem_of_nil in Hin.
Qed.

(** A new request gets an id nobody has used. *)
Lemma registered_snoc k h x : registered k (h ++ [x]) -> registered k h \/ sent_id x = Some k \/ answered_id x = Some k.
Proof.
  unfold registered. rewrite !omap_app, !elem_of_app. simpl.
  destruct (sent_id x), (answered_id x); rewrite ?list_elem_of_singleton; intros [[?|?]|[?|?]]; subst; auto;
    by match goal with Hn : _ ∈ [] |- _ => apply elem_of_nil in Hn end.
Qed.

Lemma unused_id es c k : invariant es c -> mc_next_id c < k -> ~ registered k (mc_history c).
Proof. intros Hi Hk Hr. apply (iv_bound _ _ Hi) in Hr. lia. Qed.

Lemma NoDup_snoc {A} (l : list A) x : NoDup l -> x ∉ l -> NoDup (l ++ [x]).
Proof. intros Hl Hx. apply NoDup_app. split_and!; [done| |by apply NoDup_singleton]. by intros y Hy ->%list_elem_of_singleton. Qed.

(** The new request is sent, by a client whose processes only got more to read on their standard input. *)
Lemma invariant_sent es c procs p method params next : invariant es c ->
  (forall q pr, procs !! q = Some pr -> exists pr', mc_procs c !! q = Some pr' /\ pc_stdout pr = pc_stdout pr' /\ pc_puts pr = pc_puts pr') ->
  invariant es (mk_client (mc_name c) (mc_timeout c) procs (mc_current c) (mc_next_id c + 1) ({[mc_next_id c + 1]} ∪ mc_pending c)
    (mc_boxes c) (Some (mk_waiting (mc_next_id c + 1) method next)) (mc_tools c)
    (mc_history c ++ [Sent p (mc_next_id c + 1) method params])).
Proof.
  intros Hi Hprocs. pose proof (unused_id es c (mc_next_id c + 1) Hi ltac:(lia)) as Hnew. unfold registered in Hnew.
  destruct Hi. split; simpl; rewrite ?omap_app; simpl; rewrite ?app_nil_r; try done.
  - intros j [Hj|[[= <-]|[=]]]%registered_snoc; [|lia]. apply iv_bound0 in Hj. lia.
  - apply NoDup_snoc; tauto.
  - intros j [->%elem_of_singleton|Hj]%elem_of_union; [|by apply registered_app, iv_pending0].
    left. rewrite omap_app. apply elem_of_app. right. by apply list_elem_of_singleton.
  - intros j m Hj. by apply heard_app, iv_boxes0.
  - intros q pr km Hq Hin. destruct (Hprocs q pr Hq) as (pr' & Hl & _ & Hpp). rewrite Hpp in Hin. eapply heard_app, iv_puts0; eauto.
  - intros w [= <-]. simpl. split_and!; [done|tauto|]. eexists _, _. apply elem_of_app. right. by apply list_elem_of_singleton.
  - intros q pr line Hq Hin. destruct (Hprocs q pr Hq) as (pr' & Hl & Ho & _). rewrite Ho in Hin. eauto.
  - intros q j m [Hj|Hj%list_elem_of_singleton]%elem_of_app; [eauto|done].
Qed.

(** It could not be written: the id is used up, and stays among the pending ones. *)
Lemma invariant_unsent es c r : invariant es c ->
  invariant es (mk_client (mc_name c) (mc_timeout c) (mc_procs c) (mc_current c) (mc_next_id c + 1) ({[mc_next_id c + 1]} ∪ mc_pending c)
    (mc_boxes c) None (mc_tools c) (mc_history c ++ [Answered (mc_next_id c + 1) r])).
Proof.
  intros Hi. pose proof (unused_id es c (mc_next_id c + 1) Hi ltac:(lia)) as Hnew. unfold registered in Hnew.
  destruct Hi. split; simpl; rewrite ?omap_app; simpl; rewrite ?app_nil_r; try done.
  - intros j [Hj|[[=]|[= <-]]]%registered_snoc; [|lia]. apply iv_bound0 in Hj. lia.
  - apply NoDup_snoc; tauto.
  - intros j [->%elem_of_singleton|Hj]%elem_of_union; [|by apply registered_app, iv_pending0].
    right. rewrite omap_app. apply elem_of_app. right. by apply list_elem_of_singleton.
  - intros j m Hj. by apply heard_app, iv_boxes0.
  - intros q pr km Hq Hin. eapply heard_app, iv_puts0; eauto.
  - intros q j m [Hj|Hj%list_elem_of_singleton]%elem_of_app; [eauto|done].
Qed.

Lemma invariant_request es c method params next written : invariant es c ->
  invariant es (_request_locked method params next written c).
Proof.
  intros Hi. unfold _request_locked. destruct written; [|by apply (invariant_unsent es c)].
  destruct c as [nm tmo procs cur nid pend boxes wt tl hist].
  destruct cur as [p|]; refine (invariant_sent es _ _ _ method params next Hi _); simpl; [|eauto].
  intros q pr (pr' & Hl & [->|[-> ->]])%alter_Some; eauto.
Qed.

Lemma invariant_more es e c : invariant es c -> invariant (es ++ [e]) c.
Proof.
  intros []. split; try done.
  - intros p pr line Hp Hl. apply elem_of_app. left. eauto.
  - intros p k m Hh. destruct (iv_heard0 p k m Hh) as (line & Hw & Hi). exists line. rewrite elem_of_app. auto.
Qed.

Lemma invariant_waited es c w r : invariant es c -> mc_waiting c = Some w -> invariant es (finish (wt_id w) r c).
Proof. intros Hi Hw. destruct (iv_waiting _ _ Hi w Hw) as (Hid & Hn & _). apply invariant_finish; [done|lia|done]. Qed.

Lemma invariant_line es c p al stdin line rest closed written : invariant es c ->
  mc_procs c !! p = Some (mk_process al stdin (line :: rest) closed [] true) ->
  invariant es (read_line p line written (on_process p (fun _ => mk_process al stdin rest closed [] true) c)).
Proof.
  intros Hi Hp. set (c1 := on_process p _ c).
  assert (invariant es c1) as Hi1.
  { destruct Hi. split; simpl; try done.
    - intros q pr km (pr' & Hl & [->|[-> ->]])%alter_Some Hin; [eauto|]. by apply elem_of_nil in Hin.
    - intros q pr l (pr' & Hl & [->|[<- ->]])%alter_Some Hin; [eauto|]. simpl in Hin. apply (iv_lines0 p _ l Hp).
      apply elem_of_cons. by right. }
  assert (Write p line ∈ es) as Hw by (apply (iv_lines _ _ Hi p _ line Hp), elem_of_cons; by left).
  unfold read_line. destruct (incoming_of line) as [|id|k m] eqn:Ei; [done| |].
  - destruct (_ && _); [by apply invariant_send|]. by apply invariant_calm; [intros pr; simpl; auto|].
  - case_bool_decide as Hk; [|done]. pose proof (iv_pending _ _ Hi1 k Hk) as Hreg.
    assert (heard (mc_history c1 ++ [Heard p k m]) (k, m)) as Hheard.
    { right. exists (mc_history c1), p, []. done. }
    clearbody c1. destruct Hi1. split; simpl; rewrite ?omap_app; simpl; rewrite ?app_nil_r; try done.
    + intros j [Hj|[[=]|[=]]]%registered_snoc. auto.
    + intros j [Hj _]%elem_of_difference. by apply registered_app, iv_pending0.
    + intros j x Hj. by apply heard_app, iv_boxes0.
    + intros q pr km (pr' & Hl & [->|[-> ->]])%alter_Some Hin; [eapply heard_app, iv_puts0; eauto|].
      by apply list_elem_of_singleton in Hin as ->.
    + intros w' Hw'. destruct (iv_waiting0 w' Hw') as (H1 & H2 & q & params & H3). split_and!; [done|done|].
      exists q, params. apply elem_of_app. by left.
    + intros q pr l (pr' & Hl & [->|[-> ->]])%alter_Some Hin; eauto.
    + intros q j x [Hj|[= -> -> ->]%list_elem_of_singleton]%elem_of_app; eauto.
Qed.

Lemma act_invariant es e c c' : invariant es c -> act e c = Some c' -> invariant (es ++ [e]) c'.
Proof.
  intros Hi Hact. destruct e as [method params written|noted written| | |p line|p|p|p written|p|p]; cbn [act] in Hact.
  - apply invariant_more. destruct (mc_waiting c); [done|]. injection Hact as <-.
    destruct (alive c); apply invariant_request; [done|by apply invariant_spawn].
  - apply invariant_more. destruct (mc_waiting c) as [w|] eqn:Ew; [|done]. destruct (mc_boxes c !! wt_id w) as [reply|]; [|done].
    assert (invariant es (set_boxes (delete (wt_id w)) c)) as Hb by (by apply invariant_box).
    injection Hact as <-. destruct (result_of _ _ _) as [v|e]; [|by apply invariant_waited].
    destruct (wt_then w) as [[method params]|]; [|by apply invariant_waited].
    destruct noted; [by apply invariant_request, invariant_send|by apply invariant_waited].
  - apply invariant_more. destruct (mc_waiting c) as [w|] eqn:Ew; [|done]. case_bool_decide; [|done]. injection Hact as <-.
    apply invariant_waited; [|done]. apply invariant_forget; [|done]. by intros k [? _]%elem_of_difference.
  - apply invariant_more. destruct (mc_waiting c) eqn:Ew; [done|]. injection Hact as <-.
    set (c1 := match mc_current c with Some p => _ | None => c end).
    assert (invariant es c1 /\ mc_waiting c1 = None) as [Hc1 Hw1].
    { unfold c1. destruct (mc_current c); [|done]. split; [|done]. by apply invariant_calm; [intros pr; simpl; auto|]. }
    clearbody c1. destruct Hc1. by split.
  - destruct (mc_procs c !! p) as [pr|] eqn:Ep; [|done]. destruct (pc_closed pr); [done|]. injection Hact as <-.
    apply (invariant_more _ (Write p line)) in Hi. destruct Hi. split; simpl; try done.
    + intros q x km (pr' & Hl & [->|[-> ->]])%alter_Some Hin; eauto.
    + intros q x l (pr' & Hl & [->|[-> ->]])%alter_Some Hin; [eauto|]. simpl in Hin.
      apply elem_of_app in Hin as [Hin| ->%list_elem_of_singleton]; [eauto|]. apply elem_of_app. right. by apply list_elem_of_singleton.
  - apply invariant_more. injection Hact as <-. by apply invariant_calm; [intros pr; simpl; auto|].
  - apply invariant_more. injection Hact as <-. by apply invariant_calm; [intros pr; simpl; auto|].
  - apply invariant_more. destruct (mc_procs c !! p) as [[al stdin [|line rest] closed [|] []]|] eqn:Ep; try done.
    injection Hact as <-. by apply invariant_line.
  - apply invariant_more. destruct (mc_procs c !! p) as [[al stdin [|] [] [|] []]|] eqn:Ep; try done. injection Hact as <-.
    destruct Hi. split; simpl; try done.
    + intros q x km (pr' & Hl & [->|[-> ->]])%alter_Some Hin; [eauto|]. simpl in Hin.
      left. apply list_elem_of_fmap in Hin as (k & -> & _). done.
    + intros q x l (pr' & Hl & [->|[-> ->]])%alter_Some Hin; eauto.
  - apply invariant_more. destruct (mc_procs c !! p) as [pr|] eqn:Ep; [|done]. destruct (pc_puts pr) as [|[k m] rest] eqn:Epp; [done|].
    case_bool_decide; [|done]. injection Hact as <-. destruct Hi. split; simpl; try done.
    + intros j x [[-> ->]|[_ Hj]]%lookup_insert_Some; [|eauto]. eapply iv_puts0; [done|]. rewrite Epp. apply elem_of_cons. by left.
    + intros q x km (pr' & Hl & [->|[-> ->]])%alter_Some Hin; [eauto|]. simpl in Hin. assert (pr' = pr) as -> by congruence.
      eapply iv_puts0; [done|]. rewrite Epp. apply elem_of_cons. by right.
    + intros q x l (pr' & Hl & [->|[-> ->]])%alter_Some Hin; eauto.
Qed.

Lemma run_invariant es0 es c c' : invariant es0 c -> run es c = Some c' -> invariant (es0 ++ es) c'.
Proof.
  revert es0 c; induction es as [|e es IH]; intros es0 c Hi Hrun; cbn [run] in Hrun.
  - injection Hrun as <-. by rewrite app_nil_r.
  - destruct (act e c) as [c1|] eqn:Ea; [|done]. change (e :: es) with ([e] ++ es). rewrite app_assoc.
    apply (IH (es0 ++ [e]) c1); [by apply (act_invariant _ _ c)|done].
Qed.

(** A call that was answered with a result was served by a reply to its own request. *)
Definition served (h : list happening) (k : Z) (v : pyval) : Prop :=
  exists h1 p m h2, h = h1 ++ Heard p k m :: h2 /\ (exists q method params, Sent q k method params ∈ h1)
    /\ Answered k (Ok v) ∈ h2 /\ dget "error" m = None /\ v = pget "result" m.

Lemma served_app h h' k v : served h k v -> served (h ++ h') k v.
Proof.
  intros (h1 & p & m & h2 & -> & Hs & Ha & He & Hv). exists h1, p, m, (h2 ++ h'). rewrite <- app_assoc.
  split_and!; try done. apply elem_of_app. by left.
Qed.

Lemma request_history method params next written c : exists x, mc_history (_request_locked method params next written c) = mc_history c ++ [x]
  /\ forall k v, x <> Answered k (Ok v).
Proof.
  unfold _request_locked. destruct written; [|by eexists; split; [done|]].
  unfold _send. cbn. destruct (mc_current c); by eexists; split; [done|].
Qed.

Lemma send_history m c : mc_history (_send m c) = mc_history c.
Proof. unfold _send. by destruct (mc_current c). Qed.

(** What a step adds: at most one happening, a result only when a waiter gave the reply. *)
Lemma act_history e c c' : act e c = Some c' -> exists h, mc_history c' = mc_history c ++ h
  /\ forall k v, Answered k (Ok v) ∈ h -> h = [Answered k (Ok v)]
       /\ exists w reply, mc_waiting c = Some w /\ wt_id w = k /\ mc_boxes c !! k = Some reply
            /\ result_of (mc_name c) (wt_method w) reply = Ok v.
Proof.
  assert (forall x, (forall k v, x <> Answered k (Ok v)) -> forall k v, Answered k (Ok v) ∈ [x] -> False) as Hno
    by (intros x Hx k v <-%list_elem_of_singleton; by eapply Hx).
  assert (forall (P : Z -> pyval -> Prop), forall k v, Answered k (Ok v) ∈ [] -> P k v) as Hnil by (by intros P k v ?%elem_of_nil).
  intros Hact. destruct e as [method params written|noted written| | |p line|p|p|p written|p|p]; cbn [act] in Hact.
  - destruct (mc_waiting c); [done|]. injection Hact as <-.
    destruct (alive c); [destruct (request_history method params None written c) as (x & Hx & Hn)
                        |destruct (request_history "initialize" initialize_params (Some (method, params)) written (spawn c)) as (x & Hx & Hn)];
      exists [x]; (split; [done|]); intros k v Hin; by destruct (Hno x Hn k v Hin).
  - destruct (mc_waiting c) as [w|] eqn:Ew; [|done]. destruct (mc_boxes c !! wt_id w) as [reply|] eqn:Eb; [|done].
    injection Hact as <-. change (mc_name (set_boxes (delete (wt_id w)) c)) with (mc_name c).
    destruct (result_of _ _ _) as [v0|e] eqn:Er; [|eexists; split; [done|]; intros k v ?%list_elem_of_singleton; done].
    destruct (wt_then w) as [[method params]|]; [destruct noted|].
    + destruct (request_history method params None written (_send initialized (set_boxes (delete (wt_id w)) c))) as (x & Hx & Hn).
      exists [x]. rewrite Hx, send_history. split; [done|]. intros k v Hin. by destruct (Hno x Hn k v Hin).
    + eexists; split; [done|]; intros k v ?%list_elem_of_singleton; done.
    + eexists; split; [done|]. intros k v [= -> ->]%list_elem_of_singleton. eauto 10.
  - destruct (mc_waiting c) as [w|]; [|done]. case_bool_decide; [|done]. injection Hact as <-.
    eexists; split; [done|]; intros k v ?%list_elem_of_singleton; done.
  - destruct (mc_waiting c); [done|]. injection Hact as <-. exists []. rewrite app_nil_r. split; [by destruct (mc_current c)|apply Hnil].
  - destruct (_ !! p) as [pr|]; [|done]. destruct (pc_closed pr); [done|]. injection Hact as <-. exists []. rewrite app_nil_r. by split; [|apply Hnil].
  - injection Hact as <-. exists []. rewrite app_nil_r. by split; [|apply Hnil].
  - injection Hact as <-. exists []. rewrite app_nil_r. by split; [|apply Hnil].
  - destruct (_ !! p) as [[al stdin [|line rest] closed [|] []]|]; try done. injection Hact as <-.
    unfold read_line. destruct (incoming_of line) as [|id|k m]; [exists []; rewrite app_nil_r; by split; [|apply Hnil]| |].
    + exists []. rewrite app_nil_r. split; [|apply Hnil]. destruct (_ && _); [by rewrite send_history|done].
    + case_bool_decide; [|exists []; rewrite app_nil_r; by split; [|apply Hnil]].
      exists [Heard p k m]. split; [done|]. intros j v Hin. by apply Hno in Hin.
  - destruct (_ !! p) as [[al stdin [|] [] [|] []]|]; try done. injection Hact as <-. exists []. rewrite app_nil_r. by split; [|apply Hnil].
  - destruct (_ !! p) as [pr|]; [|done]. destruct (pc_puts pr) as [|[k m] rest]; [done|]. case_bool_decide; [|done].
    injection Hact as <-. exists []. rewrite app_nil_r. by split; [|apply Hnil].
Qed.

Lemma result_of_ok name method reply v : result_of name method reply = Ok v -> dget "error" reply = None /\ v = pget "result" reply.
Proof. unfold result_of. destruct (dget "error" reply) as [[]|]; try done. by intros [= <-]. Qed.

Lemma act_served es c e c' : invariant es c -> (forall k v, Answered k (Ok v) ∈ mc_history c -> served (mc_history c) k v) ->
  act e c = Some c' -> forall k v, Answered k (Ok v) ∈ mc_history c' -> served (mc_history c') k v.
Proof.
  intros Hi Hold Hact k v Hin. destruct (act_history e c c' Hact) as (h & Hh & Hnew). rewrite Hh in *.
  apply elem_of_app in Hin as [Hin|Hin]; [by apply served_app, Hold|].
  destruct (Hnew k v Hin) as (-> & w & reply & Hw & <- & Hb & Hr). apply result_of_ok in Hr as [He Hv].
  destruct (iv_waiting _ _ Hi w Hw) as (_ & Hna & _).
  destruct (iv_boxes _ _ Hi _ _ Hb) as [Hex|(h1 & p & h2 & Heq & Hreg)]; cbn [fst snd] in *; [by subst reply|].
  exists h1, p, reply, (h2 ++ [Answered (wt_id w) (Ok v)]). rewrite Heq, <- app_assoc. split; [done|]. split_and!; try done.
  - destruct Hreg as [Hreg|Hreg].
    + apply list_elem_of_omap in Hreg as ([q j method params| |] & Hy & [=]); subst; eauto.
    + destruct Hna. rewrite Heq, omap_app. apply elem_of_app. by left.
  - apply elem_of_app. right. by apply list_elem_of_singleton.
Qed.

Lemma run_served es0 es c c' : invariant es0 c -> (forall k v, Answered k (Ok v) ∈ mc_history c -> served (mc_history c) k v) ->
  run es c = Some c' -> forall k v, Answered k (Ok v) ∈ mc_history c' -> served (mc_history c') k v.
Proof.
  revert es0 c; induction es as [|e es IH]; intros es0 c Hi Hs Hrun; cbn [run] in Hrun; [by injection Hrun as <-|].
  destruct (act e c) as [c1|] eqn:Ea; [|done]. eapply (IH (es0 ++ [e]) c1); [by apply (act_invariant _ _ c)| |done].
  by apply (act_served es0 c e).
Qed.

Lemma make_client_invariant name timeout command c : make_client name timeout command = Ok c -> invariant [] c /\ mc_history c = [].
Proof.
  unfold make_client. case_bool_decide; [done|]. intros [= <-]. split; [|done].
  split; simpl; try done; try constructor; try (by intros; set_solver). by intros k [?%elem_of_nil|?%elem_of_nil].
Qed.

(** The line a reader comes to next. *)
Definition next_line (p : nat) (c : client) : option string := mc_procs c !! p ≫= (fun pr => head (pc_stdout pr)).

(** A step adds one happening at most, and a reply is heard only by a reader that comes to its line. *)
Definition heard_by (e : event) (c : client) (x : happening) : Prop :=
  forall p k m, x = Heard p k m -> exists written line, e = ReadLine p written /\ next_line p c = Some line /\ incoming_of line = Reply k m.

Lemma request_heard method params next written c0 : exists x, mc_history (_request_locked method params next written c0) = mc_history c0 ++ [x]
  /\ forall e c, heard_by e c x.
Proof.
  unfold _request_locked. destruct written; [|by eexists; split; [done|intros e c p k m [=]]].
  unfold _send. cbn. destruct (mc_current c0); by eexists; split; [done|intros e c p k m [=]].
Qed.

Lemma act_heard e c c' : act e c = Some c' ->
  mc_history c' = mc_history c \/ exists x, mc_history c' = mc_history c ++ [x] /\ heard_by e c x.
Proof.
  assert (forall k r, heard_by e c (Answered k r)) as Hno by (by intros k r p j m [=]).
  intros Hact. destruct e as [method params written|noted written| | |p line|p|p|p written|p|p]; cbn [act] in Hact.
  - destruct (mc_waiting c); [done|]. injection Hact as <-. right.
    destruct (alive c); [destruct (request_heard method params None written c) as (x & Hx & Hn)
                        |destruct (request_heard "initialize" initialize_params (Some (method, params)) written (spawn c)) as (x & Hx & Hn)];
      by exists x.
  - destruct (mc_waiting c) as [w|]; [|done]. destruct (mc_boxes c !! wt_id w) as [reply|]; [|done]. injection Hact as <-. right.
    destruct (result_of _ _ _) as [v0|e]; [|by eexists]. destruct (wt_then w) as [[method params]|]; [|by eexists].
    destruct noted; [|by eexists].
    destruct (request_heard method params None written (_send initialized (set_boxes (delete (wt_id w)) c))) as (x & Hx & Hn).
    rewrite send_history in Hx. by exists x.
  - destruct (mc_waiting c) as [w|]; [|done]. case_bool_decide; [|done]. injection Hact as <-. right. by eexists.
  - destruct (mc_waiting c); [done|]. injection Hact as <-. left. by destruct (mc_current c).
  - destruct (_ !! p) as [pr|]; [|done]. destruct (pc_closed pr); [done|]. injection Hact as <-. by left.
  - injection Hact as <-. by left.
  - injection Hact as <-. by left.
  - destruct (_ !! p) as [[al stdin [|line rest] closed [|] []]|] eqn:Ep; try done. injection Hact as <-.
    unfold read_line. destruct (incoming_of line) as [|id|k m] eqn:Ei; [by left|left; destruct (_ && _); [by rewrite send_history|done]|].
    case_bool_decide; [|by left]. right. exists (Heard p k m). split; [done|]. intros q j m' [= <- <- <-].
    exists written, line. unfold next_line. by rewrite Ep.
  - destruct (_ !! p) as [[al stdin [|] [] [|] []]|]; try done. injection Hact as <-. by left.
  - destruct (_ !! p) as [pr|]; [|done]. destruct (pc_puts pr) as [|[k m] rest]; [done|]. case_bool_decide; [|done].
    injection Hact as <-. by left.
Qed.

Lemma run_app es es' c : run (es ++ es') c = match run es c with Some c' => run es' c' | None => None end.
Proof. revert c; induction es as [|e es IH]; intros c; [done|]. cbn [run Datatypes.app]. by destruct (act e c). Qed.

(** The moment a reply was heard: the happenings before it are those of the state its line was read in. *)
Lemma run_heard es c0 c h1 p k m h2 : mc_history c0 = [] -> run es c0 = Some c -> mc_history c = h1 ++ Heard p k m :: h2 ->
  exists es1 written es2 c1 line, es = es1 ++ ReadLine p written :: es2 /\ run es1 c0 = Some c1 /\ mc_history c1 = h1
    /\ next_line p c1 = Some line /\ incoming_of line = Reply k m.
Proof.
  intros H0. revert c h2. induction es as [|e es IH] using rev_ind; intros c h2 Hrun Hh.
  { injection Hrun as ->. rewrite H0 in Hh. by destruct h1. }
  rewrite run_app in Hrun. destruct (run es c0) as [c1|] eqn:E1; [|done]. cbn [run] in Hrun.
  destruct (act e c1) as [c'|] eqn:Ea; [|done]. injection Hrun as ->.
  assert (forall h2', mc_history c1 = h1 ++ Heard p k m :: h2' -> exists es1 written es2 c2 line,
            es ++ [e] = es1 ++ ReadLine p written :: es2 /\ run es1 c0 = Some c2 /\ mc_history c2 = h1
            /\ next_line p c2 = Some line /\ incoming_of line = Reply k m) as Hold.
  { intros h2' Hh'. destruct (IH c1 h2' eq_refl Hh') as (es1 & written & es2 & c2 & line & -> & Hr).
    exists es1, written, (es2 ++ [e]), c2, line. by rewrite <- app_assoc. }
  destruct (act_heard e c1 c Ea) as [Heq|(x & Heq & Hx)]; [apply (Hold h2); congruence|].
  rewrite Hh in Heq. destruct h2 as [|y h2 _] using rev_ind.
  - apply app_inj_tail in Heq as [-> <-]. destruct (Hx p k m eq_refl) as (written & line & -> & Hl & Hi).
    exists es, written, [], c1, line. done.
  - rewrite app_comm_cons, app_assoc in Heq. apply app_inj_tail in Heq as [Heq _]. by apply (Hold h2).
Qed.

(** C19. Replies are matched to calls by their ids alone. Whatever the upstream processes write, in whatever
    order the caller, the readers and the processes take their steps, across exits, restarts and timeouts: every
    request id is sent once and answered once; and when a call is answered with a result, there is a moment after
    its request was sent and before it was answered at which the reader of a process came to a line, written to it
    before, that is a reply with the id of that request and no error, whose result is what the caller got. So a
    reply read before its request is sent, or after the call is over, is never the answer. That the line was
    written after the request, or by the process the request went to, does not hold. *)
Theorem replies_reach_their_caller (name timeout : string) (command : list string) (c0 : client) (es : list event) (c : client) :
  make_client name timeout command = Ok c0 -> run es c0 = Some c ->
  NoDup (omap sent_id (mc_history c)) /\ NoDup (omap answered_id (mc_history c))
  /\ forall k v, Answered k (Ok v) ∈ mc_history c ->
       exists es1 p written es2 c1 line m, es = es1 ++ ReadLine p written :: es2 /\ run es1 c0 = Some c1
         /\ (exists q method params, Sent q k method params ∈ mc_history c1) /\ k ∉ omap answered_id (mc_history c1)
         /\ Write p line ∈ es1 /\ next_line p c1 = Some line
         /\ incoming_of line = Reply k m /\ dget "error" m = None /\ v = pget "result" m.
Proof.
  intros Hmake Hrun. destruct (make_client_invariant _ _ _ _ Hmake) as [Hi Hh].
  pose proof (run_invariant [] es c0 c Hi Hrun) as Hic. split_and!; [apply Hic|apply Hic|]. intros k v Hin.
  destruct (run_served [] es c0 c Hi ltac:(intros j x Hj; rewrite Hh in Hj; by apply elem_of_nil in Hj) Hrun k v Hin)
    as (h1 & p & m & h2 & Heq & Hs & Ha & He & Hv).
  destruct (run_heard es c0 c h1 p k m h2 Hh Hrun Heq) as (es1 & written & es2 & c1 & line & Hes & Hr1 & Hh1 & Hl & Hline).
  exists es1, p, written, es2, c1, line, m. rewrite Hh1. split_and!; try done.
  - pose proof (iv_answered _ _ Hic) as Hnd. rewrite Heq, omap_app in Hnd. apply NoDup_app in Hnd as (_ & Hd & _).
    intros Hk. apply (Hd k Hk). cbn [omap list_omap answered_id]. apply list_elem_of_omap. by exists (Answered k (Ok v)).
  - pose proof (run_invariant [] es1 c0 c1 Hi Hr1) as Hi1. unfold next_line in Hl.
    destruct (mc_procs c1 !! p) as [pr|] eqn:Ep; [|done]. apply (iv_lines _ _ Hi1 p pr line Ep). cbn in Hl.
    destruct (pc_stdout pr); [done|]. injection Hl as ->. apply elem_of_cons. by left.
Qed.

(** A caller can always go on: it takes its reply, or times out. *)
Lemma waiting_progress c w : mc_waiting c = Some w -> exists e c', (e = Timeout \/ e = Take true true) /\ act e c = Some c'.
Proof.
  intros Hw. destruct (mc_boxes c !! wt_id w) as [reply|] eqn:Eb.
  - exists (Take true true). cbn [act]. rewrite Hw, Eb. eauto.
  - exists Timeout. cbn [act]. rewrite Hw, Eb. eauto.
Qed.
End invariant.

(** ** Listing tools *)

Definition hashable_key (v : pyval) : bool := match v with PList _ | PDict _ => false | _ => true end.

(** [listed[tool["name"]] = tool]; a key that is no text is never looked up. *)
Definition list_tool (listed : dict pyval) (tool : pyval) : result (dict pyval) :=
  match tool with
  | PDict t =>
      match dget "name" t with
      | None => Raise (KeyError "name")
      | Some (PStr name) => Ok (dset name tool listed)
      | Some v => if hashable_key v then Ok listed else Raise (TypeError "unhashable type")
      end
  | _ => Raise (TypeError "indices must be integers")
  end.

Section tools.
(** The answer to the n-th request made. *)
Variable request : nat -> string -> dict pyval -> result pyval.

(** One page: what is listed, and the cursor of the next one. *)
Definition tools_page (n : nat) (cursor : pyval) (listed : dict pyval) : result (dict pyval * pyval) :=
  let? result := request n "tools/list" (if truthy cursor then [("cursor", cursor)] else []) in
  match result with
  | PDict page =>
      let? tools := (match dget "tools" page with
                     | None => Ok []
                     | Some (PList l) | Some (PTuple l) => Ok l
                     | Some (PStr _ as v) | Some (PDict _ as v) => if truthy v then Raise (TypeError "string indices must be integers") else Ok []
                     | Some _ => Raise (TypeError "object is not iterable")
                     end) in
      let? listed := foldl (fun acc tool => let? d := acc in list_tool d tool) (Ok listed) tools in
      Ok (listed, pget "nextCursor" page)
  | _ => Raise (AttributeError "get")
  end.

(** The loop of [tools]; [None] when the fuel runs out, as it does for a server that pages forever. *)
Fixpoint list_tools (fuel n : nat) (cursor : pyval) (listed : dict pyval) : option (result (dict pyval)) :=
  match fuel with
  | O => None
  | S fuel =>
      match tools_page n cursor listed with
      | Raise e => Some (Raise e)
      | Ok (listed, next) => if truthy next then list_tools fuel (S n) next listed else Some (Ok listed)
      end
  end.

(** [tools]: cached after the first complete listing. *)
Definition tools (cached : option (dict pyval)) (fuel : nat) : option (result (dict pyval)) :=
  match cached with
  | Some listed => Some (Ok listed)
  | None => list_tools fuel 0 PNone []
  end.

(** It ends as soon as a page has no next cursor, or fails. *)
Lemma list_tools_ends last fuel n cursor listed : (n <= last < n + fuel)%nat ->
  (forall cursor listed, match tools_page last cursor listed with Ok (_, next) => truthy next = false | Raise _ => True end) ->
  exists r, list_tools fuel n cursor listed = Some r.
Proof.
  revert n cursor listed; induction fuel as [|fuel IH]; intros n cursor listed Hn Hlast; [lia|]. cbn [list_tools].
  destruct (base.decide (n = last)) as [->|Hne].
  - specialize (Hlast cursor listed). destruct (tools_page last cursor listed) as [[l next]|e]; [rewrite Hlast|]; eauto.
  - destruct (tools_page n cursor listed) as [[l next]|e]; [|eauto]. destruct (truthy next); [|eauto]. apply IH; [lia|done].
Qed.

(** [MCPTool.metadata] *)
Definition metadata (cached : option (dict pyval)) (tool : string) (fuel : nat) : option (result pyval) :=
  match tools cached fuel with
  | Some (Ok listed) => Some (Ok (pget tool listed))
  | Some (Raise (UpstreamError _)) => Some (Ok PNone)
  | Some (Raise e) => Some (Raise e)
  | None => None
  end.

(** [MCPTool.__call__], by the one request of [call_tool]. *)
Definition call_mcp_tool (client tool : string) (arguments : dict pyval) : result pyval :=
  let? result := request 0 "tools/call" [("name", PStr tool); ("arguments", PDict arguments)] in
  match result with
  | PDict _ => Ok (PDict [("_mcp", result)])
  | _ => Raise (UpstreamError (client +:+ "." +:+ tool +:+ ": malformed tools/call result"))
  end.
End tools.

(** ** Configuration *)

Record mcp_config := mk_mcp_config {
  mcp_name : string;
  mcp_command : list string;
  mcp_env : dict string;
  mcp_cwd : pyval;
  mcp_timeout : string;
}.

Section configuration.
Variable read_text : option string -> string -> string + string.
Variable environ : string -> option string.
Variable float_of : pyval -> result string.      (* float(v), as its text *)

Definition mcp_env_value (name key : string) (base : option string) (source : pyval) : result string :=
  match source with
  | PStr s => Ok s
  | PDict d =>
      match dget "value" d with
      | Some v => Ok (py_str v)
      | None =>
          read_secret read_text environ (map (fun '(k, v) => ("secret_" +:+ k, v)) d) "secret"
            ("mcp_servers." +:+ name +:+ ".env." +:+ key) base
      end
  | _ => Raise (ValueError ("mcp_servers." +:+ name +:+ ".env." +:+ key +:+ ": expected a string or {value|file|env}"))
  end.

Fixpoint mcp_env_of (name : string) (base : option string) (items : dict pyval) : result (dict string) :=
  match items with
  | [] => Ok []
  | (key, source) :: items' =>
      let? v := mcp_env_value name key base source in
      let? rest := mcp_env_of name base items' in
      Ok ((key, v) :: rest)
  end.

Definition build_mcp_client (name : string) (cfg : pyval) (base : option string) : result mcp_config :=
  match cfg with
  | PDict cfg =>
      let? items := (match pget "env" cfg with
                     | PDict d => Ok d
                     | v => if truthy v then Raise (AttributeError "items") else Ok []
                     end) in
      let? env := mcp_env_of name base items in
      match pget "command" cfg with
      | PList l =>
          match all_strs l with
          | Some command =>
              let? timeout := float_of (default (PInt 30) (dget "timeout" cfg)) in
              let? _ := make_client name timeout command in
              Ok (mk_mcp_config name command env (pget "cwd" cfg) timeout)
          | None => Raise (ValueError ("mcp_servers." +:+ name +:+ ".command must be a list of strings"))
          end
      | _ => Raise (ValueError ("mcp_servers." +:+ name +:+ ".command must be a list of strings"))
      end
  | _ => Raise (AttributeError "get")
  end.

Definition build_mcp_clients (spec : dict pyval) (base : option string) : result (list mcp_config) :=
  traverse (fun '(name, cfg) => build_mcp_client name cfg base) spec.

(** Secrets reach the environment of the child only: a configured client carries none elsewhere. *)
Definition repr_client (c : mcp_config) : string :=
  "MCPStdioClient(name=" +:+ repr_str (mcp_name c) +:+ ", command=" +:+ repr_strs (firstn 1 (mcp_command c)) +:+ ")".
End configuration.

Module Witnesses.
#[local] Existing Instance Sample.externals.

Definition q (s : string) : string := s_map (fun c => if Ascii.eqb c "'" then dquote else c) s.
Definition start : client := mk_client "notes" "30.0" [] None 0 ∅ ∅ None None [].
Definition asked : dict pyval := [("name", PStr "write_note"); ("arguments", PDict [])].

#[local] Ltac find_in := repeat first [apply elem_of_cons; left; reflexivity | apply elem_of_cons; right].

(** A call with its handshake; the server also asks for something it does not get, and answers late. *)
Definition session : list event :=
  [Call "tools/call" asked true; Write 0 (q "{'id': 1, 'result': {}}"); ReadLine 0 true; Put 0; Take true true;
   Write 0 (q "{'id': 7, 'method': 'roots/list'}"); ReadLine 0 true;
   Write 0 (q " {'id': 2, 'result': {'content': []}} "); ReadLine 0 true; Put 0; Take true true;
   Call "tools/call" asked true; Timeout; Write 0 (q "{'id': 3, 'result': {'late': true}}"); ReadLine 0 true;
   Call "tools/call" asked true; Write 0 (q "{'id': 4, 'error': {'message': 'no'}}"); ReadLine 0 true; Put 0; Take true true].

Definition after : client := match run session start with Some c => c | None => start end.
Lemma session_runs : run session start = Some after.
Proof. vm_compute. reflexivity. Qed.

Definition content : pyval := PDict [("content", PList [])].
Definition noted : dict pyval := [("id", PInt 2); ("result", content)].
Lemma history_after : mc_history after =
  [Sent 0 1 "initialize" initialize_params; Heard 0 1 [("id", PInt 1); ("result", PDict [])];
   Sent 0 2 "tools/call" asked; Heard 0 2 noted; Answered 2 (Ok content);
   Sent 0 3 "tools/call" asked; Answered 3 (Raise (UpstreamError "notes: tools/call timed out after 30.0s"));
   Sent 0 4 "tools/call" asked; Heard 0 4 [("id", PInt 4); ("error", PDict [("message", PStr "no")])];
   Answered 4 (Raise (UpstreamError "notes: tools/call failed: no"))].
Proof. vm_compute. reflexivity. Qed.

Lemma answered_2 : Answered 2 (Ok content) ∈ mc_history after.
Proof. rewrite history_after. find_in. Qed.

Lemma replies_reach_their_caller_witness : exists es1 written es2 line,
  session = es1 ++ ReadLine 0 written :: es2 /\ Write 0 line ∈ es1 /\ incoming_of line = Reply 2 noted.
Proof.
  destruct (replies_reach_their_caller "notes" "30.0" ["python3"] start session after eq_refl session_runs) as (_ & _ & Hserved).
  destruct (Hserved 2 _ answered_2) as (es1 & p & written & es2 & c1 & line & m & Hes & _ & _ & _ & Hw & _ & Hline & _).
  assert (Write p line ∈ session) as Hin by (rewrite Hes; apply elem_of_app; by left).
  assert (p = 0%nat /\ m = noted) as [-> ->]; [|by exists es1, written, es2, line].
  clear -Hin Hline. unfold session in Hin. rewrite !elem_of_cons in Hin.
  repeat (destruct Hin as [Hin|Hin]; [first [discriminate Hin | injection Hin as -> ->; vm_compute in Hline;
    first [discriminate Hline | by injection Hline as <-]]|]).
  by apply elem_of_nil in Hin.
Defined.

(** A reply written before its request: the server guesses the next id, and the reader comes to the line when the
    request is out. *)
Definition early : list event :=
  [Call "tools/call" asked true; Write 0 (q "{'id': 1, 'result': {}}"); Write 0 (q "{'id': 2, 'result': 'early'}");
   ReadLine 0 true; Put 0; Take true true; ReadLine 0 true; Put 0; Take true true].
Example early_reply : option_map (fun c => last (mc_history c)) (run early start) = Some (Some (Answered 2 (Ok (PStr "early")))).
Proof. vm_compute. reflexivity. Qed.

(** And one of the process before: its reader outlives it, and is heard for the process that was asked. *)
Definition previous : list event :=
  [Call "tools/call" asked true; Write 0 (q "{'id': 1, 'result': {}}"); Write 0 (q "{'id': 3, 'result': 'old'}");
   ReadLine 0 true; Put 0; Take true true; Timeout; Exit 0; Call "tools/call" asked true; ReadLine 0 true; Put 0; Take true true].
Example previous_process : option_map (fun c => omap (fun h => match h with Sent p k _ _ => Some (true, p, k)
    | Heard p k _ => Some (false, p, k) | _ => None end) (mc_history c)) (run previous start)
  = Some [(true, 0%nat, 1); (false, 0%nat, 1); (true, 0%nat, 2); (true, 1%nat, 3); (false, 0%nat, 3); (true, 1%nat, 4)].
Proof. vm_compute. reflexivity. Qed.

(** When the handshake fails the process stays, and the next call is sent to it without one. *)
Lemma unprepared_server : exists c, run [Call "tools/call" asked true; Timeout; Call "tools/call" asked true] start = Some c
  /\ omap (fun h => match h with Sent p k m _ => Some (p, k, m) | _ => None end) (mc_history c)
     = [(0%nat, 1, "initialize"); (0%nat, 2, "tools/call")].
Proof. eexists. split; vm_compute; reflexivity. Qed.

(** The reader of a dead process that is late tells the caller of its successor that the server exited. *)
Definition restarted : list event :=
  [Call "tools/call" asked true; Write 0 (q "{'id': 1, 'result': {}}"); ReadLine 0 true; Put 0; Take true true;
   Timeout; Exit 0; CloseStdout 0;
   Call "tools/call" asked true; Write 1 (q "{'id': 3, 'result': {}}"); ReadLine 1 true; Put 1; Take true true;
   ReadEnd 0; Put 0; Take true true].
Lemma live_server_reported_dead : option_map (fun c => (alive c, last (mc_history c))) (run restarted start)
  = Some (true, Some (Answered 4 (Raise (UpstreamError "notes: tools/call failed: upstream MCP server exited")))).
Proof. vm_compute. reflexivity. Qed.
End Witnesses.
