(* ===== verification/Simulation.v ===== *)
(** * Tasks: src/capgate/simulation.py

    A task file lists contracts and steps; [run_task] performs the steps through one harness, in simulate
    or enforce mode, and reports a row per decision. The YAML parser, the loading of contract files, the
    calls of the configured tools, and the person who approves are parameters. *)

From S2P Require Import Prelude Datetime Regex PyVal Externals Json Request Decision NetAddr Timeutil Capability Contract Policy State AuditTrail Effects Interceptor Executor Harness System Toolset.

(** ** Task files *)

Inductive step_kind := StepAction | StepMessage | StepDelegate.

Record Step := mk_step {
  st_kind : step_kind;
  st_agent : string;
  st_action : pyval;
  st_arguments : pyval;
  st_to : pyval;
  st_body : pyval;
}.

(** The path of the file, which nothing reads, is left out. *)
Record TaskFile := mk_task {
  tf_name : string;
  tf_contracts : list TaskContract;
  tf_steps : list Step;
  tf_tools : pyval;
}.

Definition _TASK_FIELDS : list string := ["name"; "contract"; "contracts"; "agent"; "steps"; "tools"].

Definition task_error {A} (where_ text : string) : result A := Raise (TaskError (where_ +:+ text)).

Definition or_empty (v : pyval) : pyval := if truthy v then v else PDict [].

Definition _parse_step (label : string) (index : Z) (raw default_agent : pyval) : result Step :=
  let where_ := label +:+ ": step " +:+ show_Z index in
  match raw with
  | PDict d =>
      match default default_agent (dget "agent" d) with
      | PStr agent =>
          match dget "action" d with
          | Some action =>
              match unknown_keys ["action"; "arguments"; "agent"] d with
              | [] => Ok (mk_step StepAction agent action (or_empty (pget "arguments" d)) PNone PNone)
              | unknown => task_error where_ (": unknown fields " +:+ repr_strs unknown)
              end
          | None =>
              match dget "message" d, dget "delegate" d with
              | Some m, _ =>
                  let? m := or_mapping m in
                  Ok (mk_step StepMessage agent (PStr MESSAGE_ACTION) (PDict []) (pget "to" m) (pget "body" m))
              | None, Some g =>
                  let? g := or_mapping g in
                  Ok (mk_step StepDelegate agent (pget "action" g) (or_empty (pget "arguments" g)) (pget "to" g) PNone)
              | None, None => task_error where_ ": expected one of 'action', 'message' or 'delegate'"
              end
          end
      | _ => task_error where_ ": no agent (set 'agent' on the step or at the top of the task)"
      end
  | _ => task_error where_ ": must be a mapping"
  end.

Fixpoint parse_steps (label : string) (index : Z) (raw : list pyval) (default_agent : pyval) : result (list Step) :=
  match raw with
  | [] => Ok []
  | r :: raw' =>
      let? s := _parse_step label index r default_agent in
      let? ss := parse_steps label (index + 1) raw' default_agent in
      Ok (s :: ss)
  end.

Section tasks.
Context `{Externals}.
(** [load_contracts] of a path relative to the task, and the YAML parser: [safe_load_all] and [safe_load] of
    a text, or the text of the error. *)
Variable load_file : string -> result (list TaskContract).
Variable safe_load_all : string -> list pyval + string.
Variable safe_load : string -> pyval + string.

Definition contracts_from_text (text : string) : result (list TaskContract) :=
  match safe_load_all text with
  | inr e => Raise (ContractError ("invalid YAML: " +:+ e))
  | inl docs =>
      match List.filter (fun d => negb (is_none d)) docs with
      | [] => Raise (ContractError "no contracts found")
      | docs => let? ls := traverse document_contracts docs in Ok (List.concat ls)
      end
  end.

Definition source_contracts (label : string) (source : pyval) : result (list TaskContract) :=
  match source with
  | PStr path => load_file path
  | PDict _ => let? c := contract_from_dict source in Ok [c]
  | _ => task_error label ": contract entries must be a path or a mapping"
  end.

Definition task_contracts (label : string) (data : dict pyval) : result (list TaskContract) :=
  let? more := (if truthy (pget "contracts" data) then iterate (pget "contracts" data) else Ok []) in
  match (match dget "contract" data with Some c => [c] | None => [] end) ++ more with
  | [] => task_error label ": a task needs 'contract' or 'contracts'"
  | sources => let? ls := traverse (source_contracts label) sources in Ok (List.concat ls)
  end.

Definition task_from_mapping (data : pyval) (name label : string) (contracts : option (list TaskContract)) : result TaskFile :=
  match data with
  | PDict d =>
      match unknown_keys _TASK_FIELDS d with
      | [] =>
          let? cs := match contracts with Some cs => Ok cs | None => task_contracts label d end in
          match pget "steps" d with
          | PList ((_ :: _) as raw) =>
              let? steps := parse_steps label 1 raw (pget "agent" d) in
              Ok (mk_task (if truthy (pget "name" d) then py_str (pget "name" d) else name) cs steps (or_empty (pget "tools" d)))
          | _ => task_error label ": 'steps' must be a non-empty list"
          end
      | unknown => task_error label (": unknown task fields " +:+ repr_strs unknown)
      end
  | _ => task_error label ": task must be a mapping"
  end.

Definition load_task (path stem text : string) : result TaskFile :=
  match safe_load text with
  | inr e => task_error path (": invalid YAML: " +:+ e)
  | inl data => task_from_mapping data stem path None
  end.

Definition task_from_text (task_text : string) (contracts_text : option string) (name : string) : result TaskFile :=
  match safe_load task_text with
  | inr e => task_error "task" (": invalid YAML: " +:+ e)
  | inl data =>
      let? contracts := match contracts_text with
                        | Some t => if is_blank t then Ok None else let? cs := contracts_from_text t in Ok (Some cs)
                        | None => Ok None
                        end in
      task_from_mapping data name "task" contracts
  end.
End tasks.

(** ** Runs *)

Record Row := mk_row {
  row_index : string;
  row_agent : pyval;
  row_label : pyval;
  row_decision : string;
  row_reason : string;
  row_outcome : string;
  row_detail : string;
  row_action : pyval;
  row_rule : option string;
  row_capability : option string;
  row_contract_id : option string;
  row_decision_id : string;
}.

Definition decision_upper (d : DecisionType) : string :=
  match d with ALLOW => "ALLOW" | DENY => "DENY" | ESCALATE => "ESCALATE" end.

Section run.
Context {S : Type} `{StateStore S} `{Externals} `{Tools}.
Variable cf : config.
(** [approve(result)]: a verdict and a note, or none, and [approver_id]. *)
Variable approver : option (AuthorizationResult -> option (bool * string)).
Variable approver_id : option string.

Definition _maybe_approve (res : AuthorizationResult) : M S approve_result :=
  if escalated (ar_decision res) && negb (cf_simulate cf) then
    match approver, approver_id with
    | Some ask, Some who =>
        match ask res with
        | None => ret (Approved res)
        | Some (ok, note) =>
            let id := default EmptyString (ar_approval_id res) in
            if ok : bool then approve cf id who note
            else let! r := reject cf id who note in ret (Approved r)
        end
    | _, _ => ret (Approved res)
    end
  else ret (Approved res).

Definition make_row (index : string) (agent label : pyval) (res : AuthorizationResult) (outcome : string) : Row :=
  let d := ar_decision res in
  mk_row index agent label (decision_upper (d_decision d)) (reason_value (d_reason_code d)) outcome (d_detail d)
    (rq_action (d_request d)) (d_rule d) (d_capability d) (d_contract_id d) (d_decision_id d).

Definition _row (index : string) (agent label : pyval) (res : AuthorizationResult) (outcome : option string) (execute : bool) : M S Row :=
  match outcome with
  | Some o => ret (make_row index agent label res o)
  | None =>
      if cf_simulate cf then ret (make_row index agent label res "not executed")
      else if escalated (ar_decision res) then ret (make_row index agent label res "awaiting approval")
      else if negb (ar_allowed res) then ret (make_row index agent label res "blocked")
      else if execute then
        let! o := try_except (let! out := harness_execute cf res in ret (er_status out))
                    (fun e => match e with
                              | ExecutionRefused reason _ => ret ("refused (" +:+ reason +:+ ")")
                              | e => raise e
                              end) in
        ret (make_row index agent label res o)
      else ret (make_row index agent label res "authorized")
  end.

(** A row is made from an authorization; an approved delegation is not one. *)
Definition row_of (index : string) (agent label : pyval) (r : approve_result) : M S Row :=
  match r with
  | Approved res => _row index agent label res None true
  | ApprovedDelegation _ => raise (AttributeError "'DelegationResult' object has no attribute 'escalated'")
  end.

Definition run_step (index : string) (s : Step) : M S (list Row) :=
  let agent := PStr (st_agent s) in
  match st_kind s with
  | StepAction =>
      let! args := lift (dict_of (st_arguments s)) in
      let! res := authorize cf agent (st_action s) (PDict args) PNone in
      let! r := _maybe_approve res in
      let! row := row_of index agent (st_action s) r in
      ret [row]
  | StepMessage =>
      let! res := send_message cf agent (st_to s) (st_body s) PNone in
      let! row := _row index agent (PStr ("agent.message → " +:+ py_str (st_to s))) res
                    (if ar_allowed res && negb (cf_simulate cf) then Some "delivered" else None) false in
      ret [row]
  | StepDelegate =>
      let! args := lift (dict_of (st_arguments s)) in
      let! d := delegate cf agent (st_to s) (st_action s) (PDict args) PNone in
      let! first := _maybe_approve (dl_delegation d) in
      let d := match first with ApprovedDelegation d' => d' | Approved _ => d end in
      let! row := _row index agent (PStr ("agent.delegate → " +:+ py_str (st_to s) +:+ " (" +:+ py_str (st_action s) +:+ ")"))
                    (dl_delegation d) None false in
      match dl_action d with
      | None => ret [row]
      | Some res =>
          let! r := _maybe_approve res in
          let! row2 := row_of "  ↳" (st_to s) (st_action s) r in
          ret [row; row2]
      end
  end.

Fixpoint run_steps (i : Z) (l : list Step) : M S (list Row) :=
  match l with
  | [] => ret []
  | s :: l' =>
      let! rows := run_step (if i <? 100 then pad 2 i else show_Z i) s in
      let! more := run_steps (i + 1) l' in
      ret (rows ++ more)
  end.
End run.

(** *** A whole task *)

Record Report := mk_report {
  rp_task : TaskFile;
  rp_simulate : bool;
  rp_rows : list Row;
  rp_audit : AuditLog;
}.

(** [Counter(r.decision for r in rows)] *)
Definition count_row (c : dict Z) (r : Row) : dict Z :=
  dset (row_decision r) (default 0 (dget (row_decision r) c) + 1) c.
Definition counts (rp : Report) : dict Z := foldl count_row [] (rp_rows rp).

Definition no_tools : Tools := {| tool_names := []; tool_outcome := fun _ _ _ => inr EmptyString |}.

Section tasks_run.
Context `{Externals}.
Variable read_text : option string -> string -> string + string.
Variable environ : string -> option string.
Variable mcp_clients : result (list string).
(** What calling the configured tools does. *)
Variable calling : dict tool_kind -> Tools.

Definition task_tools (t : TaskFile) (simulate : bool) : result Tools :=
  if simulate then Ok no_tools
  else let? tools := build_tools read_text environ mcp_clients (tf_tools t) None in Ok (calling tools).

(** A harness of its own, with a fresh store and the default lifetime of grants. *)
Definition run_task (t : TaskFile) (simulate : bool) (approver : option (AuthorizationResult -> option (bool * string)))
    (approver_id : option string) : M MemoryStateStore Report := fun w =>
  (let! tools := lift (task_tools t simulate) in
   let! cf := @make_harness MemoryStateStore _ tools (tf_contracts t) simulate None (seconds 60) in
   let! rows := @run_steps MemoryStateStore _ _ tools cf approver approver_id 1 (tf_steps t) in
   fun w => (Ok (mk_report t simulate rows (w_audit w)), w)) (with_store (fun _ => Memory.init) w).
End tasks_run.

(** ** Simulation and enforcement side by side

    Two runs over memory stores that may differ in everything but the counters a decision is made from. *)

Definition MW := world MemoryStateStore.

Record aligned (w1 w2 : MW) : Prop := {
  al_1 : quiescent w1;
  al_2 : quiescent w2;
  al_steps : a_steps (view (w_store w1)) = a_steps (view (w_store w2));
  al_calls : a_calls (view (w_store w1)) = a_calls (view (w_store w2));
}.

(** When both return, the results are related and the worlds aligned. *)
Definition agree {A B} (m1 : M MemoryStateStore A) (m2 : M MemoryStateStore B) (R : A -> B -> Prop) : Prop :=
  forall w1 w2 x y w1' w2', aligned w1 w2 -> m1 w1 = (Ok x, w1') -> m2 w2 = (Ok y, w2') -> R x y /\ aligned w1' w2'.

Lemma agree_ret {A B} (x : A) (y : B) (R : A -> B -> Prop) : R x y -> agree (ret x) (ret y) R.
Proof. intros Hr w1 w2 x' y' w1' w2' Ha [= <- <-] [= <- <-]. by split. Qed.

Lemma agree_lift {A} (r : result A) : agree (lift r) (lift r) (fun x y => x = y /\ r = Ok x).
Proof. intros w1 w2 x y w1' w2' Ha (Hx & ->)%lift_ok (Hy & ->)%lift_ok. split; [split; congruence|done]. Qed.

Lemma agree_bind {A B A' B'} (m1 : M _ A) (m2 : M _ B) (f1 : A -> M _ A') (f2 : B -> M _ B') (Q : A -> B -> Prop) (R : A' -> B' -> Prop) :
  agree m1 m2 Q -> (forall x y, Q x y -> agree (f1 x) (f2 y) R) -> agree (bind m1 f1) (bind m2 f2) R.
Proof.
  intros Hm Hf w1 w2 x y w1' w2' Ha H1 H2. mbind H1 as a v1 Hm1. mbind H2 as b v2 Hm2.
  destruct (Hm _ _ _ _ _ _ Ha Hm1 Hm2) as [Hq Ha']. by apply (Hf a b Hq v1 v2 x y w1' w2').
Qed.

Lemma agree_weaken {A B} (m1 : M _ A) (m2 : M _ B) (Q R : A -> B -> Prop) :
  agree m1 m2 Q -> (forall x y, Q x y -> R x y) -> agree m1 m2 R.
Proof. intros Hm Hqr w1 w2 x y w1' w2' Ha H1 H2. destruct (Hm _ _ _ _ _ _ Ha H1 H2). eauto. Qed.

(** The second run may do what leaves the counters alone. *)
Definition counting (w : MW) (a : authority) (_ : list (string * dict pyval)) : Prop :=
  a_steps a = a_steps (view (w_store w)) /\ a_calls a = a_calls (view (w_store w)).

Lemma counting_stable cf w : stable cf (counting w) False True True.
Proof. by split. Qed.

Lemma agree_right {A B} (x : A) (m : M _ B) (R : A -> B -> Prop) :
  (forall w, keeps (counting w) m) -> (forall w y w', m w = (Ok y, w') -> R x y) -> agree (ret x) m R.
Proof.
  intros Hk HR w1 w2 x' y w1' w2' [H1 H2 Hs Hc] [= <- <-] Hm. split; [eauto|].
  destruct (Hk w2 w2) as [[Hwf Happ [Hst Hca] _] _]; [by apply quiescent_sound|done|]. rewrite Hm in *. cbn [snd] in *.
  split; [done|split; [done|done|reflexivity]|congruence|congruence].
Qed.

(** *** Decisions *)

(** Equal but for identity, time and provenance. *)
Record alike (d1 d2 : Decision) : Prop := {
  ak_request : d_request d1 = d_request d2;
  ak_decision : d_decision d1 = d_decision d2;
  ak_reason : d_reason_code d1 = d_reason_code d2;
  ak_detail : d_detail d1 = d_detail d2;
  ak_contract : d_contract_id d1 = d_contract_id d2;
  ak_capability : d_capability d1 = d_capability d2;
  ak_rule : d_rule d1 = d_rule d2;
}.

Lemma alike_allowed d1 d2 : alike d1 d2 -> allowed d1 = allowed d2.
Proof. intros [_ Hd _ _ _ _ _]. unfold allowed. by rewrite Hd. Qed.

Section side_by_side.
Context `{Externals}.
Variables tools1 tools2 : Tools.
Variables cf1 cf2 : config.
Hypothesis Hcontracts : cf_contracts cf1 = cf_contracts cf2.
Hypothesis Hbindings : cf_bindings cf1 = cf_bindings cf2.
Hypothesis Hsim1 : cf_simulate cf1 = true.
Hypothesis Hsim2 : cf_simulate cf2 = false.
Variable t : Z.
Hypothesis Hclock : forall n, clock_at n = t.

(** What a second run may execute is a request built from well formed values. *)
Definition same_outcome (r1 r2 : AuthorizationResult) : Prop :=
  alike (ar_decision r1) (ar_decision r2) /\ (ar_allowed r2 = true -> wf_request (d_request (ar_decision r2))).

Lemma same_usage r a1 a2 : a_steps a1 = a_steps a2 -> a_calls a1 = a_calls a2 -> usage_of cf1 r a1 = usage_of cf2 r a2.
Proof. intros Hs Hc. unfold usage_of. rewrite Hbindings, Hs, Hc. done. Qed.

Lemma same_contract_id r : contract_id_of cf1 r = contract_id_of cf2 r.
Proof. unfold contract_id_of. by rewrite Hbindings. Qed.

Lemma counted_alike r d1 d2 a1 a2 : alike d1 d2 -> a_steps a1 = a_steps a2 -> a_calls a1 = a_calls a2 ->
  a_steps (count_call d1 (count_step cf1 r a1)) = a_steps (count_call d2 (count_step cf2 r a2))
  /\ a_calls (count_call d1 (count_step cf1 r a1)) = a_calls (count_call d2 (count_step cf2 r a2)).
Proof.
  intros Hd Hs Hc. unfold count_call, count_step. rewrite (alike_allowed _ _ Hd), (ak_request _ _ Hd), same_contract_id.
  destruct (contract_id_of cf2 r), (allowed d2); cbn; by rewrite ?Hs, ?Hc.
Qed.

Lemma outcome_counters cf d u k res a a' : outcome_of (S:=MemoryStateStore) cf d u k res a a' -> a_steps a' = a_steps a /\ a_calls a' = a_calls a.
Proof.
  intros [_ Hout]. destruct (d_decision d); [by destruct Hout as (_ & -> & _)|by destruct Hout as (_ & _ & ->)|].
  by destruct Hout as (_ & i & _ & ->).
Qed.

Lemma anything_stable cf : stable cf (fun _ _ => True) True True True.
Proof. done. Qed.

Lemma still_quiescent {A} (m : M MemoryStateStore A) w x w' :
  keeps (fun _ _ => True) m -> quiescent w -> m w = (x, w') -> quiescent w'.
Proof.
  intros Hk Hq Hm. destruct (Hk w) as [[Hwf Happ _ _] _]; [by apply quiescent_sound|done|]. by rewrite Hm in *.
Qed.

Lemma agree_request r db1 p1 db2 p2 : agree (authorize_request cf1 r db1 p1) (authorize_request cf2 r db2 p2)
  (fun r1 r2 => alike (ar_decision r1) (ar_decision r2) /\ d_request (ar_decision r2) = r).
Proof.
  intros w1 w2 x y w1' w2' [Hq1 Hq2 Hs Hc] H1 H2.
  pose proof (still_quiescent _ _ _ _ (keeps_authorize_request cf1 _ _ _ _ (anything_stable cf1) I r db1 p1) Hq1 H1) as Hq1'.
  pose proof (still_quiescent _ _ _ _ (keeps_authorize_request cf2 _ _ _ _ (anything_stable cf2) I r db2 p2) Hq2 H2) as Hq2'.
  apply authorize_request_ok in H1 as (ev1 & id1 & Hev1 & Ho1 & _); [|apply Hq1].
  apply authorize_request_ok in H2 as (ev2 & id2 & Hev2 & Ho2 & _); [|apply Hq2].
  rewrite (same_usage r _ _ Hs Hc), Hcontracts, Hbindings, Hclock in Hev1. rewrite Hclock in Hev2.
  assert (ev1 = ev2) as -> by congruence.
  pose proof (outcome_counters _ _ _ _ _ _ _ Ho1) as [Hs1 Hc1]. pose proof (outcome_counters _ _ _ _ _ _ _ Ho2) as [Hs2 Hc2].
  destruct Ho1 as [Hd1 _], Ho2 as [Hd2 _].
  assert (alike (decision_of cf1 id1 (clock_at (1 + w_clock w1)) r ev2 db1 p1 None) (decision_of cf2 id2 (clock_at (1 + w_clock w2)) r ev2 db2 p2 None)) as Hd.
  { split; try done. apply same_contract_id. }
  destruct (counted_alike r _ _ _ _ Hd Hs Hc) as [Hss Hcc].
  split; [split; [by rewrite Hd1, Hd2|by rewrite Hd2]|]. split; [done|done|congruence|congruence].
Qed.

Lemma agree_reject agent action reason detail :
  agree (reject_before_policy cf1 agent action reason detail) (reject_before_policy cf2 agent action reason detail)
    (fun d1 d2 => alike d1 d2 /\ d_decision d2 = DENY).
Proof.
  intros w1 w2 x y w1' w2' [Hq1 Hq2 Hs Hc] H1 H2.
  pose proof (still_quiescent _ _ _ _ (keeps_reject cf1 _ _ _ _ (anything_stable cf1) I agent action reason detail) Hq1 H1) as Hq1'.
  pose proof (still_quiescent _ _ _ _ (keeps_reject cf2 _ _ _ _ (anything_stable cf2) I agent action reason detail) Hq2 H2) as Hq2'.
  unfold reject_before_policy in H1, H2. mbind H1 as r v1 Hr. mbind H2 as r' v2 Hr'.
  apply lift_ok in Hr as [Hr ->], Hr' as [Hr' ->]. assert (r' = r) as -> by congruence.
  apply record_ok in H1 as ((? & ->) & _ & Hv1 & _); [|apply Hq1]. apply record_ok in H2 as ((? & ->) & _ & Hv2 & _); [|apply Hq2].
  split; [split; [|done]; split; try done; apply same_contract_id|].
  split; [done|done|by rewrite Hv1, Hv2..].
Qed.

Lemma agree_or_malformed rq agent action k1 k2 : (forall r, rq = Ok r -> agree (k1 r) (k2 r) same_outcome) ->
  agree (or_malformed cf1 rq agent action k1) (or_malformed cf2 rq agent action k2) same_outcome.
Proof.
  intros Hk. unfold or_malformed. destruct rq as [r|[]]; try (by apply Hk); try (by intros ? ? ? ? ? ? _ ?).
  eapply agree_bind; [apply agree_reject|]. intros d1 d2 [Hd Hdeny]. apply agree_ret. split; [done|].
  unfold ar_allowed, allowed. cbn [ar_decision]. rewrite Hdeny. done.
Qed.

Lemma agree_checked_request r db1 p1 db2 p2 : wf_request r ->
  agree (authorize_request cf1 r db1 p1) (authorize_request cf2 r db2 p2) same_outcome.
Proof. intros Hr. eapply agree_weaken; [apply agree_request|]. intros x y [Hd Hreq]. split; [done|]. by rewrite Hreq. Qed.

Lemma agree_authorize agent action d cid : wf_val (PDict d) = true ->
  agree (authorize cf1 agent action (PDict d) cid) (authorize cf2 agent action (PDict d) cid) same_outcome.
Proof.
  intros Hw. apply agree_or_malformed. intros r Hr. apply agree_checked_request.
  revert Hr. apply make_request_dict. by destruct (truthy (PDict d)).
Qed.

Lemma agree_send sender recipient body cid : wf_val recipient = true -> wf_val body = true ->
  agree (send_message (H1 := tools1) cf1 sender recipient body cid) (send_message (H1 := tools2) cf2 sender recipient body cid) same_outcome.
Proof.
  intros Hr Hb. apply agree_or_malformed. intros r Hreq.
  assert (wf_request r) as Hwf.
  { revert Hreq. unfold to_action_request. apply make_request_dict. cbn. by rewrite Hr, Hb. }
  eapply agree_bind; [by apply agree_checked_request|]. intros res1 res2 Hres. rewrite Hsim1, andb_false_r.
  destruct (ar_allowed res2 && negb (cf_simulate cf2)) eqn:E; [|by apply agree_ret].
  apply andb_true_iff in E as [E _].
  apply agree_right; [|by intros w y w' (? & ? & _ & [= <- <-])%bind_ok].
  intros w. apply keeps_bind; [|auto with keeps].
  eapply keeps_harness_execute; [apply (counting_stable cf2)|done|by apply Hres].
Qed.

Definition same_delegation (d1 d2 : DelegationResult) : Prop :=
  alike (ar_decision (dl_delegation d1)) (ar_decision (dl_delegation d2))
  /\ option_relation same_outcome (fun _ => False) (fun _ => False) (dl_action d1) (dl_action d2).

Lemma agree_raise {A B} (e : exn) (m : M MemoryStateStore B) (R : A -> B -> Prop) : agree (raise e) m R.
Proof. by intros ? ? ? ? ? ? _ ?. Qed.

Lemma agree_delegated_stage sender recipient action d cid p1 p2 : wf_val (PDict d) = true ->
  agree (delegated_stage cf1 (mk_delegation_request sender recipient action (PDict d) cid) p1)
        (delegated_stage cf2 (mk_delegation_request sender recipient action (PDict d) cid) p2) same_outcome.
Proof.
  intros Hw. unfold delegated_stage. eapply agree_bind; [apply agree_lift|]. intros r r' [<- Hr]. apply agree_checked_request.
  unfold delegated_action in Hr. cbn [dr_arguments dr_recipient dr_action] in Hr. destruct d as [|kv d].
  - by apply make_request_dict in Hr.
  - change (dict_of (PDict (kv :: d))) with (Ok (kv :: d)) in Hr. cbn [result_bind] in Hr. by apply make_request_dict in Hr.
Qed.

Lemma agree_delegate sender recipient action d cid : wf_val (PDict d) = true ->
  agree (delegate cf1 sender recipient action (PDict d) cid) (delegate cf2 sender recipient action (PDict d) cid) same_delegation.
Proof.
  intros Hw. unfold delegate.
  assert ((if truthy (PDict d) then PDict d else PDict []) = PDict d) as -> by (by destruct d).
  destruct (delegation_request _) as [r|e].
  - eapply agree_bind; [apply agree_request|]. intros f1 f2 [Hf _].
    assert (ar_allowed f1 = ar_allowed f2) as -> by (by apply alike_allowed).
    destruct (ar_allowed f2); cbn [negb]; [|by apply agree_ret].
    eapply agree_bind; [by apply agree_delegated_stage|]. intros s1 s2 Hs. apply agree_ret. by split.
  - destruct e; try apply agree_raise.
    eapply agree_bind; [apply agree_reject|]. intros d1 d2 [Hd _]. by apply agree_ret.
Qed.

(** *** Rows *)

(** Rows that say the same of everything but what was done and under which decision id. *)
Record same_row (r1 r2 : Row) : Prop := {
  sr_index : row_index r1 = row_index r2;
  sr_agent : row_agent r1 = row_agent r2;
  sr_label : row_label r1 = row_label r2;
  sr_decision : row_decision r1 = row_decision r2;
  sr_reason : row_reason r1 = row_reason r2;
  sr_detail : row_detail r1 = row_detail r2;
  sr_action : row_action r1 = row_action r2;
  sr_rule : row_rule r1 = row_rule r2;
  sr_capability : row_capability r1 = row_capability r2;
  sr_contract : row_contract_id r1 = row_contract_id r2;
}.

Lemma alike_row index agent label res1 res2 o1 o2 : alike (ar_decision res1) (ar_decision res2) ->
  same_row (make_row index agent label res1 o1) (make_row index agent label res2 o2).
Proof. intros [Hr Hd Hrc Hdet Hc Hcap Hru]. split; cbn; congruence. Qed.

Lemma row_simulated index agent label res execute :
  (_row (H1 := tools1) cf1 index agent label res None execute : M MemoryStateStore Row) = ret (make_row index agent label res "not executed").
Proof. unfold _row. by rewrite Hsim1. Qed.

Lemma row_made index agent label res outcome execute (w : MW) y w' :
  _row (H1 := tools2) cf2 index agent label res outcome execute w = (Ok y, w') -> exists o, y = make_row index agent label res o.
Proof.
  unfold _row. rewrite Hsim2. destruct outcome; [intros [= <- _]; eauto|].
  destruct (escalated _); [intros [= <- _]; eauto|]. destruct (negb _); [intros [= <- _]; eauto|].
  destruct execute; [|intros [= <- _]; eauto]. intros (o & ? & _ & [= <- _])%bind_ok. eauto.
Qed.

Lemma row_counting w index agent label res outcome (execute : bool) :
  (execute = true -> ar_allowed res = true -> wf_request (d_request (ar_decision res))) ->
  keeps (counting w) (_row (H1 := tools2) cf2 index agent label res outcome execute : M MemoryStateStore Row).
Proof.
  intros Hwf. unfold _row. rewrite Hsim2. destruct outcome; [apply keeps_ret|].
  destruct (escalated _); [apply keeps_ret|]. destruct (ar_allowed res) eqn:Ea; [|apply keeps_ret]. cbn [negb].
  destruct execute; [|apply keeps_ret]. apply keeps_bind; [|intros o; apply keeps_ret].
  apply keeps_try; [|intros []; auto with keeps]. apply keeps_bind; [|auto with keeps].
  eapply keeps_harness_execute; [apply (counting_stable cf2)|done|by apply Hwf].
Qed.

Lemma agree_row index agent label res1 res2 outcome execute : alike (ar_decision res1) (ar_decision res2) ->
  (execute = true -> ar_allowed res2 = true -> wf_request (d_request (ar_decision res2))) ->
  agree (_row (H1 := tools1) cf1 index agent label res1 None execute)
        (_row (H1 := tools2) cf2 index agent label res2 outcome execute) same_row.
Proof.
  intros Hd Hwf. rewrite row_simulated. apply agree_right; [intros w; by apply row_counting|].
  intros w y w' (o & ->)%row_made. by apply alike_row.
Qed.

(** Nobody is asked in simulation, and the second run has nobody to ask. *)
Lemma agree_maybe ask who res1 res2 :
  (_maybe_approve cf1 ask who res1 : M MemoryStateStore _) = ret (Approved res1)
  /\ (_maybe_approve cf2 None None res2 : M MemoryStateStore _) = ret (Approved res2).
Proof. unfold _maybe_approve. rewrite Hsim1, andb_false_r. by destruct (_ && _). Qed.

(** A step as a task file gives it: values with distinct keys. *)
Definition plain_step (s : Step) : Prop :=
  (forall d, dict_of (st_arguments s) = Ok d -> wf_val (PDict d) = true)
  /\ wf_val (st_to s) = true /\ wf_val (st_body s) = true.

Lemma bind_ret {A B} (x : A) (f : A -> M MemoryStateStore B) : bind (ret x) f = f x.
Proof. done. Qed.

Lemma agree_one {A B} (m1 : M _ A) (m2 : M _ B) (R : A -> B -> Prop) :
  agree m1 m2 R -> agree (let! x := m1 in ret [x]) (let! x := m2 in ret [x]) (Forall2 R).
Proof. intros Hm. eapply agree_bind; [exact Hm|]. intros x y Hr. apply agree_ret. by constructor. Qed.

Lemma agree_step ask who index s : plain_step s ->
  agree (run_step (H1 := tools1) cf1 ask who index s) (run_step (H1 := tools2) cf2 None None index s) (Forall2 same_row).
Proof.
  intros (Hargs & Hto & Hbody). unfold run_step. destruct (st_kind s).
  - eapply agree_bind; [apply agree_lift|]. intros d d' [<- Hd].
    eapply agree_bind; [by apply agree_authorize, Hargs|]. intros r1 r2 [Ha Hw].
    destruct (agree_maybe ask who r1 r2) as [-> ->]. rewrite !bind_ret. apply agree_one, agree_row; [done|auto].
  - eapply agree_bind; [by apply agree_send|]. intros r1 r2 [Ha Hw]. rewrite Hsim1, andb_false_r.
    apply agree_one, agree_row; [done|discriminate].
  - eapply agree_bind; [apply agree_lift|]. intros d d' [<- Hd].
    eapply agree_bind; [by apply agree_delegate, Hargs|]. intros d1 d2 [Ha Hs].
    destruct (agree_maybe ask who (dl_delegation d1) (dl_delegation d2)) as [-> ->]. rewrite !bind_ret.
    eapply agree_bind; [apply agree_row; [done|discriminate]|]. intros row1 row2 Hrow.
    destruct (dl_action d1) as [a1|], (dl_action d2) as [a2|]; try done; [|by apply agree_ret; constructor].
    destruct Hs as [Hs Hw]. destruct (agree_maybe ask who a1 a2) as [-> ->]. rewrite !bind_ret.
    eapply agree_bind; [apply agree_row; [done|auto]|]. intros row1' row2' Hrow'. apply agree_ret.
    do 2 (constructor; [done|]). constructor.
Qed.

Lemma agree_steps ask who l i : Forall plain_step l ->
  agree (run_steps (H1 := tools1) cf1 ask who i l) (run_steps (H1 := tools2) cf2 None None i l) (Forall2 same_row).
Proof.
  intros Hl. revert i. induction Hl as [|s l Hs Hl IH]; intros i; [by apply agree_ret|].
  cbn [run_steps]. eapply agree_bind; [by apply agree_step|]. intros rows1 rows2 Hrows.
  eapply agree_bind; [apply IH|]. intros more1 more2 Hmore. apply agree_ret. by apply Forall2_app.
Qed.
End side_by_side.

(** ** Properties *)

Lemma make_harness_ok `{Externals} (tools : Tools) contracts simulate key ttl (w : MW) cf w' :
  make_harness (H1 := tools) contracts simulate key ttl w = (Ok cf, w') ->
  build_bindings contracts = Ok (cf_contracts cf, cf_bindings cf) /\ cf_simulate cf = simulate /\ w' = w.
Proof.
  unfold make_harness. intros Hrun. mbind Hrun as [by_id bindings] w1 Hb. apply lift_ok in Hb as [Hb ->].
  mbind Hrun as k w2 Hk. assert (w2 = w) as -> by (destruct key as [k'|]; [destruct (s_is_empty k')|]; by injection Hk).
  destruct (List.filter _ _); [|done]. by injection Hrun as <- <-.
Qed.

Lemma fresh_quiescent (w : MW) : quiescent (with_store (fun _ => Memory.init) w).
Proof. split; [exact memory_init_wf|intros i r Hi; discriminate Hi|reflexivity]. Qed.

Lemma counts_alike l1 l2 c : Forall2 same_row l1 l2 -> foldl count_row c l1 = foldl count_row c l2.
Proof.
  intros Hl. revert c. induction Hl as [|r1 r2 l1 l2 Hr Hl IH]; intros c; [done|]. cbn [foldl].
  rewrite IH. unfold count_row. by rewrite (sr_decision _ _ Hr).
Qed.

Section properties.
Context `{Externals}.
Variable read_text : option string -> string -> string + string.
Variable environ : string -> option string.
Variable mcp_clients : result (list string).
Variable calling : dict tool_kind -> Tools.
#[local] Abbreviation run_task := (run_task read_text environ mcp_clients calling).

Lemma run_task_ok task simulate ask who (w : MW) rp w' : run_task task simulate ask who w = (Ok rp, w') ->
  exists tools cf w1, build_bindings (tf_contracts task) = Ok (cf_contracts cf, cf_bindings cf) /\ cf_simulate cf = simulate
  /\ run_steps (H1 := tools) cf ask who 1 (tf_steps task) (with_store (fun _ => Memory.init) w) = (Ok (rp_rows rp), w1).
Proof.
  unfold Simulation.run_task. intros Hrun. mbind Hrun as tools w1 Ht. apply lift_ok in Ht as [_ ->].
  mbind Hrun as cf w1 Hcf. apply make_harness_ok in Hcf as (Hb & Hs & ->).
  mbind Hrun as rows w1 Hrows. injection Hrun as <- <-. eauto 10.
Qed.

(** C24. Simulation tells the truth: at a fixed time, a task that can be run to the end in both modes - in
    enforcement with nobody to approve - gets the same report from simulation as from enforcement, row
    by row: the same decision, reason, detail, rule, capability and contract for every proposal, message
    and stage of a delegation, though simulation executes nothing. Only the outcomes and the identifiers
    of the decisions differ, and the counts agree. *)
Theorem simulation_faithful (task : TaskFile) ask who (t : Z) (w1 w2 w1' w2' : MW) (r1 r2 : Report) :
  (forall n, clock_at n = t) -> Forall plain_step (tf_steps task) ->
  run_task task true ask who w1 = (Ok r1, w1') -> run_task task false None None w2 = (Ok r2, w2') ->
  Forall2 same_row (rp_rows r1) (rp_rows r2) /\ counts r1 = counts r2.
Proof.
  intros Hclock Hplain H1 H2.
  apply run_task_ok in H1 as (tools1 & cf1 & v1 & Hb1 & Hs1 & H1). apply run_task_ok in H2 as (tools2 & cf2 & v2 & Hb2 & Hs2 & H2).
  assert (cf_contracts cf1 = cf_contracts cf2 /\ cf_bindings cf1 = cf_bindings cf2) as [Hc Hb] by (split; congruence).
  assert (Forall2 same_row (rp_rows r1) (rp_rows r2)) as Hrows.
  { eapply (agree_steps tools1 tools2 cf1 cf2 Hc Hb Hs1 Hs2 t Hclock ask who _ _ Hplain); [|exact H1|exact H2].
    split; [apply fresh_quiescent..|done|done]. }
  split; [done|]. by apply counts_alike.
Qed.
End properties.

Module Witnesses.
Import SampleContract.
Import Harness.Witnesses(of_run, of_run_ok).

(** The sample environment at a standstill, with digests of eight bytes. *)
Definition still : Externals :=
  Sample.with_digest (Sample.with_io Sample.externals (fun _ => Sample.start) (fun _ => true)) (s_take 8) (fun k t => s_take 8 (k +:+ t)).

Definition url : pyval := PDict [("url", PStr "https://docs.example.org/a")].
Definition steps : list pyval := [
  PDict [("action", PStr "web.fetch"); ("arguments", url); ("agent", PStr "b")];
  PDict [("message", PDict [("to", PStr "b"); ("body", PStr "hello")])];
  PDict [("delegate", PDict [("to", PStr "b"); ("action", PStr "web.fetch"); ("arguments", url)])];
  PDict [("action", PStr "doc.publish")];
  PDict [("action", PStr "fs.delete"); ("agent", PStr "b")];
  PDict [("action", PStr "web.fetch"); ("arguments", url); ("agent", PStr "b")]].
Definition document : pyval := PDict [
  ("contract", SampleContract.document); ("agent", PStr "a"); ("steps", PList steps);
  ("tools", PDict [("web.fetch", PDict [("type", PStr "echo")])])].

Definition echoing (d : dict tool_kind) : Tools :=
  {| tool_names := dkeys d; tool_outcome := fun _ args _ => inl (PDict [("echo", PDict args)]) |}.
Definition no_files (base : option string) (path : string) : string + string := inr "no file".
Definition run (t : TaskFile) (simulate : bool) :=
  @run_task still no_files (fun _ => None) (Ok []) echoing t simulate None None
    (Interceptor.Witnesses.world0 Memory.init false).

Definition no_task : TaskFile := mk_task EmptyString [] [] PNone.
Definition task : TaskFile :=
  match @task_from_mapping still (fun _ => Ok []) document "demo" "demo.yaml" None with Ok t => t | Raise _ => no_task end.
Definition report (simulate : bool) : Report :=
  of_run (mk_report no_task true [] (w_audit (Interceptor.Witnesses.world0 Memory.init false))) (run task simulate).

Lemma simulated : run task true = (Ok (report true), (run task true).2).
Proof. apply of_run_ok. vm_compute. reflexivity. Qed.
Lemma enforced : run task false = (Ok (report false), (run task false).2).
Proof. apply of_run_ok. vm_compute. reflexivity. Qed.

Definition summary (r : Row) : string * string * string := (row_index r, row_decision r, row_outcome r).
Example simulated_rows : map summary (rp_rows (report true)) =
  [("01", "ALLOW", "not executed"); ("02", "ALLOW", "not executed"); ("03", "ALLOW", "not executed");
   ("  ↳", "ALLOW", "not executed"); ("04", "ESCALATE", "not executed"); ("05", "DENY", "not executed");
   ("06", "DENY", "not executed")].
Proof. vm_compute. reflexivity. Qed.
Example enforced_rows : map summary (rp_rows (report false)) =
  [("01", "ALLOW", "succeeded"); ("02", "ALLOW", "delivered"); ("03", "ALLOW", "authorized");
   ("  ↳", "ALLOW", "succeeded"); ("04", "ESCALATE", "awaiting approval"); ("05", "DENY", "blocked");
   ("06", "DENY", "blocked")].
Proof. vm_compute. reflexivity. Qed.

Lemma plain : Forall (@plain_step still) (tf_steps task).
Proof.
  assert (tf_steps task = map (fun r => match @_parse_step "demo.yaml" 1 r (PStr "a") with Ok s => s | _ => mk_step StepAction EmptyString PNone PNone PNone PNone end) steps)
    as -> by (vm_compute; reflexivity).
  do 6 (apply Forall_cons_2; [split; [intros d Hd; vm_compute in Hd; injection Hd as <-; reflexivity|split; reflexivity]|]).
  apply Forall_nil_2.
Qed.

Lemma simulation_faithful_witness : counts (report true) = counts (report false).
Proof.
  exact (proj2 (@simulation_faithful still no_files (fun _ => None) (Ok []) echoing task None None Sample.start _ _ _ _ _ _
    (fun _ => eq_refl) plain simulated enforced)).
Defined.

(** An approver of a task that delegates by its action name is handed a delegation, which has no row. *)
Example approved_delegation_has_no_row :
  let r := mk_delegation (Harness.Witnesses.no_authorization) None in
  (@row_of MemoryStateStore _ still (echoing []) Interceptor.Witnesses.cf "01" (PStr "a") (PStr "agent.delegate")
    (ApprovedDelegation r) (Interceptor.Witnesses.world0 Memory.init false)).1
  = Raise (AttributeError "'DelegationResult' object has no attribute 'escalated'").
Proof. reflexivity. Qed.
End Witnesses.
