(* ===== verification/Render.v ===== *)
(** * Reports as text: [render] of src/capgate/simulation.py

    Columns are padded by code points, as Python's format does; colours are the escape sequences of a
    terminal. *)

From S2P Require Import Prelude Datetime Regex PyVal Externals Json Request Decision NetAddr Timeutil Capability Contract Policy State AuditTrail Effects Interceptor Executor Harness System Toolset Simulation.

Fixpoint s_repeat (n : nat) (s : string) : string := match n with O => EmptyString | S n' => s +:+ s_repeat n' s end.
Definition ljust (width : Z) (s : string) : string := s +:+ s_repeat (Z.to_nat (width - py_len s)) " ".

Definition escape_char : ascii := char_of 27.
Definition _COLORS : dict string := [("ALLOW", "32"); ("DENY", "31"); ("ESCALATE", "33")].
(** [NO_COLOR] is set when it is not empty. *)
Definition _use_color (isatty : bool) (no_color : option string) : bool :=
  isatty && match no_color with None | Some EmptyString => true | Some _ => false end.

Section render.
Variables color verbose : bool.

Definition paint (text code : string) : string :=
  if color then String escape_char ("[" +:+ code +:+ "m") +:+ text +:+ String escape_char "[0m" else text.

(** [len(r.label)], [", ".join(agents)]: of texts. *)
Definition want_text (v : pyval) : result string :=
  match v with PStr s => Ok s | _ => Raise (TypeError "expected str instance") end.

Definition label_cells (multi : bool) (agent label : string) : Z := py_len label + if multi then py_len agent + 2 else 0.

Definition render_row (multi enforce : bool) (width : Z) (r : Row) (agent label : string) : list string :=
  let label := if multi then agent +:+ ": " +:+ label else label in
  let decision := paint (ljust 11 (row_decision r)) (default "0" (dget (row_decision r) _COLORS)) in
  let line := ljust 4 (row_index r) +:+ ljust width label +:+ decision +:+ ljust 30 (row_reason r) in
  py_rstrip (if enforce then line +:+ row_outcome r else line) :: if verbose then ["      " +:+ row_detail r] else [].

Definition count_of (d : string) (rp : Report) : Z := default 0 (dget d (counts rp)).
Definition executed (rp : Report) : Z :=
  Z.of_nat (length (List.filter (fun r => str_in (row_outcome r) ["succeeded"; "delivered"]) (rp_rows rp))).

Definition summary (enforce : bool) (rp : Report) : list string :=
  [EmptyString; "Summary"; s_repeat 16 "─";
   "Allowed:      " +:+ show_Z (count_of "ALLOW" rp);
   "Denied:       " +:+ show_Z (count_of "DENY" rp);
   "Escalated:    " +:+ show_Z (count_of "ESCALATE" rp);
   EmptyString;
   if enforce then "Executed " +:+ show_Z (executed rp) +:+ " action(s). " +:+ show_Z (al_count (rp_audit rp)) +:+ " audit record(s) written."
   else "No external actions were executed."].

Definition render_lines (rp : Report) : result (list string) :=
  let rows := rp_rows rp in
  let enforce := negb (rp_simulate rp) in
  let? agents := traverse (fun r => want_text (row_agent r)) rows in
  let? labels := traverse (fun r => want_text (row_label r)) rows in
  let names := sorted_strs (remove_dups agents) in
  let multi := Nat.ltb 1 (length names) in
  let width := foldr Z.max 30 (zip_with (label_cells multi) agents labels) + 2 in
  let header := py_rstrip (ljust 4 EmptyString +:+ ljust width "ACTION" +:+ ljust 11 "DECISION" +:+ ljust 30 "REASON"
                            +:+ if enforce then "OUTCOME" else EmptyString) in
  Ok ([paint ("CAPGATE — " +:+ if enforce then "ENFORCEMENT" else "SIMULATION") "1"; EmptyString;
       "Contract: " +:+ s_concat ", " (map tc_contract_id (tf_contracts (rp_task rp)));
       (if multi then "Agents: " else "Agent: ") +:+ s_concat ", " names;
       EmptyString; header; s_repeat (Z.to_nat (py_len header)) "─"]
      ++ List.concat (zip_with (fun r al => render_row multi enforce width r al.1 al.2) rows (zip agents labels))
      ++ summary enforce rp).
Definition render (rp : Report) : result string := let? lines := render_lines rp in Ok (s_concat (chr1 newline) lines).
End render.

(** ** Theorems *)

Lemma count_from d rows c : default 0 (dget d (foldl count_row c rows)) =
  default 0 (dget d c) + Z.of_nat (length (List.filter (fun r => String.eqb (row_decision r) d) rows)).
Proof.
  revert c. induction rows as [|r rows IH]; intros c; cbn [foldl List.filter]; [simpl; lia|]. rewrite IH. unfold count_row. rewrite dget_dset.
  rewrite (String.eqb_sym d (row_decision r)). destruct (String.eqb_spec (row_decision r) d) as [->|]; cbn [default length]; [|lia].
  unfold default, id. destruct (dget d c); lia.
Qed.

(** A count of the summary is the number of rows with that decision. *)
Lemma count_of_rows d rp : count_of d rp = Z.of_nat (length (List.filter (fun r => String.eqb (row_decision r) d) (rp_rows rp))).
Proof. unfold count_of, counts. rewrite count_from. cbn [dget default]. unfold default, id. lia. Qed.

(** The summary adds up: of rows made from decisions each is counted once. *)
Theorem summary_adds_up (rp : Report) : Forall (fun r => exists d, row_decision r = decision_upper d) (rp_rows rp) ->
  count_of "ALLOW" rp + count_of "DENY" rp + count_of "ESCALATE" rp = Z.of_nat (length (rp_rows rp)).
Proof.
  rewrite !count_of_rows. induction 1 as [|r rows (d & Hd) Hrows IH]; [done|]. cbn [List.filter]. rewrite Hd. destruct d; cbn [decision_upper length] in *;
    repeat (change (String.eqb ?a ?b) with false || change (String.eqb ?a ?a) with true); simpl in *; lia.
Qed.

Lemma traverse_length {A B} (f : A -> result B) l l' : traverse f l = Ok l' -> length l' = length l.
Proof. revert l'. induction l as [|x l IH]; intros l' H; cbn [traverse] in H; inv_ok H; injection H as <-; simpl; auto. Qed.

(** Every row is a line, in order, between the header and the summary: seven lines come before, eight after. *)
Theorem rows_are_lines (color : bool) (rp : Report) (lines : list string) : render_lines color false rp = Ok lines ->
  length lines = (7 + length (rp_rows rp) + 8)%nat.
Proof.
  unfold render_lines. intros (agents & Ha%traverse_length & (labels & Hb%traverse_length & <-%Ok_inj)%result_bind_ok)%result_bind_ok.
  rewrite !length_app.
  enough (forall rows agents labels w m e, length agents = length rows -> length labels = length rows ->
    length (List.concat (zip_with (fun r al => render_row color false m e w r al.1 al.2) rows (zip agents labels))) = length rows) as Hl by (rewrite Hl by done; unfold summary; cbn [length]; lia).
  clear. intros rows. induction rows as [|r rows IH]; intros [|a agents] [|l labels] w m e Ha Hb; try done.
  simpl in *. rewrite IH; lia.
Qed.

Module Examples.
Definition row (d : DecisionType) (label : string) (outcome : string) : Row :=
  mk_row "01" (PStr "a") (PStr label) (decision_upper d) "OK" outcome EmptyString (PStr label) None None None EmptyString.
Definition report : Report :=
  mk_report (mk_task "t" [] [] PNone) true [row ALLOW "web.search" "not executed"; row DENY "web.fetch" "not executed"] (mk_audit false true EmptyString [] 0 GENESIS).
Example rendered : (let? l := render_lines false false report in Ok (nth 7 l EmptyString, nth 13 l EmptyString))
  = Ok ("01  web.search                      ALLOW      OK", "Denied:       1").
Proof. vm_compute. reflexivity. Qed.
End Examples.
