(* ===== verification/Inspect.v ===== *)
(** * The inspector: src/capgate/inspect/model.py

    The read-only views behind [capgate inspect]: simulate a task, explain a proposal, list and compare the
    grants of contracts, browse an audit file. *)

From S2P Require Import Prelude Datetime Regex PyVal Externals Json Request Decision NetAddr Timeutil Capability Contract Policy State AuditTrail Effects Interceptor Executor Harness System Toolset Simulation.

(** ** Contracts *)

(** [t.isoformat() if t else None] *)
Definition iso_or_none (t : option Z) : pyval := match t with Some t => PStr (isoformat t) | None => PNone end.

(** One granted action of an agent. *)
Definition grant_view (c : TaskContract) (agent : string) (entry : string * Capability) : dict pyval :=
  let '(action, cap) := entry in
  [("contract_id", PStr (tc_contract_id c)); ("agent", PStr agent); ("action", PStr action);
   ("effect", PStr (effect_value (cap_effect cap)));
   ("constraints", default (PDict []) (dget "constraints" (capability_to_dict cap)));
   ("expires_at", iso_or_none (cap_expires_at cap))].

(** [sorted(d.items())]: the keys are distinct, so they alone decide the order. *)
Definition key_le {V} (x y : string * V) : Prop := String.le x.1 y.1.
#[export] Instance key_le_dec {V} (x y : string * V) : base.Decision (key_le x y).
Proof. unfold key_le. apply _. Defined.
Definition sorted_by_key {V} (d : dict V) : dict V := merge_sort key_le d.

Definition contract_grants (c : TaskContract) : list (dict pyval) :=
  List.concat (map (fun '(agent, g) => map (grant_view c agent) (sorted_by_key (ag_capabilities g))) (sorted_by_key (tc_agents c))).
Definition grants_from_contracts (cs : list TaskContract) : list (dict pyval) := List.concat (map contract_grants cs).
Definition grants_value (cs : list TaskContract) : pyval := PList (map PDict (grants_from_contracts cs)).

Definition agent_ids (c : TaskContract) : pyval := pstrs (sorted_strs (dkeys (tc_agents c))).

(** [except ContractError as exc: raise InputError(f"contract: {exc}")] *)
Definition contract_input {A} (r : result A) : result A :=
  match r with
  | Raise (ContractError msg) => Raise (InputError ("contract: " +:+ msg))
  | r => r
  end.

Section views.
Context `{Externals}.
Variable load_file : string -> result (list TaskContract).
Variable safe_load_all : string -> list pyval + string.
Variable safe_load : string -> pyval + string.

Definition _contracts (text : string) : result (list TaskContract) :=
  contract_input (let? cs := contracts_from_text safe_load_all text in let? _ := build_bindings cs in Ok cs).

Definition policy_contract (c : TaskContract) : pyval :=
  PDict [("contract_id", PStr (tc_contract_id c)); ("hash", PStr (tc_content_hash c)); ("goal", PStr (tc_goal c));
         ("max_steps", PInt (tc_max_steps c)); ("expires_at", iso_or_none (tc_expires_at c));
         ("approvers", pstrs (tc_approvers c)); ("agents", agent_ids c)].

Definition policy (contracts_text : string) : result (dict pyval) :=
  let? cs := _contracts contracts_text in
  Ok [("contracts", PList (map policy_contract cs)); ("grants", grants_value cs)].

(** *** Simulation *)

Definition row_view (r : Row) : pyval :=
  PDict [("index", PStr (row_index r)); ("agent", row_agent r); ("label", row_label r); ("decision", PStr (row_decision r));
         ("reason", PStr (row_reason r)); ("outcome", PStr (row_outcome r)); ("detail", PStr (row_detail r));
         ("action", row_action r); ("rule", ostr (row_rule r)); ("capability", ostr (row_capability r));
         ("contract_id", ostr (row_contract_id r)); ("decision_id", PStr (row_decision_id r))].

Definition contract_summary (c : TaskContract) : pyval :=
  PDict [("contract_id", PStr (tc_contract_id c)); ("hash", PStr (tc_content_hash c)); ("agents", agent_ids c)].

Definition task_input (r : result TaskFile) : result TaskFile :=
  match r with
  | Raise (TaskError msg) | Raise (ContractError msg) | Raise (FileNotFoundError msg) => Raise (InputError msg)
  | r => r
  end.

(** [run_task] in simulate mode, with no tools, no approver and a log in memory. *)
Definition simulated_report (t : TaskFile) : M MemoryStateStore Report :=
  run_task (fun _ _ => inr EmptyString) (fun _ => None) (Ok []) (fun _ => no_tools) t true None None.

Definition simulate (task_text contracts_text : string) : M MemoryStateStore (dict pyval) :=
  let! t := lift (task_input (task_from_text load_file safe_load_all safe_load task_text (Some contracts_text) "task")) in
  let! _ := lift (contract_input (build_bindings (tf_contracts t))) in
  let! rp := simulated_report t in
  let count d := PInt (default 0 (dget d (counts rp))) in
  ret [("task", PStr (tf_name t)); ("contracts", PList (map contract_summary (tf_contracts t)));
       ("rows", PList (map row_view (rp_rows rp)));
       ("summary", PDict [("allow", count "ALLOW"); ("deny", count "DENY"); ("escalate", count "ESCALATE")]);
       ("grants", grants_value (tf_contracts t))].

(** *** Explanation *)

(** The text of [JSONDecodeError.msg] and of [str(exc)] of a malformed request. *)
Variable decode_error : string -> string.

Definition explain_arguments (arguments : pyval) : result pyval :=
  match arguments with
  | PStr text =>
      match loads (if s_is_empty text then "{}" else text) with
      | Some v => Ok v
      | None => Raise (InputError ("arguments: not valid JSON (" +:+ decode_error text +:+ ")"))
      end
  | v => Ok v
  end.

Definition explain_request (agent action arguments contract_id : pyval) : result ActionRequest :=
  match make_request agent action (if is_none arguments then PDict [] else arguments)
          (if truthy contract_id then contract_id else PNone) with
  | Raise (MalformedRequest msg) => Raise (InputError msg)
  | r => r
  end.

(** [bindings.get(agent)] *)
Definition bound_contract (bindings : dict string) (agent : pyval) : result pyval :=
  match agent with
  | PStr a => Ok (ostr (dget a bindings))
  | PList _ | PDict _ => Raise (TypeError "unhashable type")
  | _ => Ok PNone
  end.

Definition evaluation_view (ev : PolicyEvaluation) (bound : pyval) : dict pyval :=
  [("decision", PStr (decision_value (ev_decision ev))); ("reason_code", PStr (reason_value (ev_reason_code ev)));
   ("detail", PStr (ev_detail ev)); ("rule", ostr (ev_rule ev)); ("capability", ostr (ev_capability ev));
   ("bound_contract", bound);
   ("note", PStr "Evaluated with empty budgets at the current time; step and call limits are not reflected.")].

(** [now] is the reading of [utc_now()]. *)
Definition explain (contracts_text : string) (agent action arguments contract_id : pyval) (now : Z) : result (dict pyval) :=
  let? cs := _contracts contracts_text in
  let? (by_id, bindings) := build_bindings cs in
  let? arguments := explain_arguments arguments in
  let? r := explain_request agent action arguments contract_id in
  let? ev := evaluate r by_id bindings (mk_usage 0 0) now in
  let? bound := bound_contract bindings agent in
  Ok (evaluation_view ev bound).

(** *** Comparison *)

(** The last grant of each agent and action. *)
Definition grant_key (g : dict pyval) : string * string := (text_of (pget "agent" g), text_of (pget "action" g)).
Definition grant_index (gs : list (dict pyval)) : gmap (string * string) (dict pyval) :=
  foldl (fun m g => <[grant_key g := g]> m) ∅ gs.

Definition pair_le (x y : string * string) : Prop :=
  (x.1 <> y.1 /\ String.le x.1 y.1) \/ (x.1 = y.1 /\ String.le x.2 y.2).
#[export] Instance pair_le_dec (x y : string * string) : base.Decision (pair_le x y).
Proof. unfold pair_le. apply _. Defined.

Definition _rank (effect : pyval) : result Z :=
  match effect with
  | PStr e => if String.eqb e "deny" then Ok 0 else if String.eqb e "escalate" then Ok 1 else if String.eqb e "allow" then Ok 2
              else Raise (KeyError e)
  | v => Raise (KeyError (py_str v))
  end.

(** [a == b] of dictionaries does not see the order of their keys. *)
Definition same_value (a b : pyval) : bool := val_eqb (norm a) (norm b).
Definition same_grant (a b : dict pyval) : bool :=
  same_value (pget "effect" a) (pget "effect" b) && same_value (pget "constraints" a) (pget "constraints" b)
  && same_value (pget "expires_at" a) (pget "expires_at" b).

Definition changed_status (a b : dict pyval) : result string :=
  let? after := _rank (pget "effect" b) in
  let? before := _rank (pget "effect" a) in
  Ok (if before <? after then "widened" else if after <? before then "narrowed" else "changed").

(** How the grant of a key differs, if it does. *)
Definition grant_status (a b : option (dict pyval)) : result (option string) :=
  match a, b with
  | Some a, None => Ok (Some "removed")
  | None, Some b => Ok (Some "added")
  | Some a, Some b => if same_grant a b then Ok None else let? s := changed_status a b in Ok (Some s)
  | None, None => Ok None
  end.

Definition dict_or_none (d : option (dict pyval)) : pyval := match d with Some d => PDict d | None => PNone end.

Definition grant_change (lg rg : gmap (string * string) (dict pyval)) (k : string * string) : result (list pyval) :=
  let? status := grant_status (lg !! k) (rg !! k) in
  Ok (match status with
      | None => []
      | Some s => [PDict [("agent", PStr k.1); ("action", PStr k.2); ("status", PStr s);
                          ("before", dict_or_none (lg !! k)); ("after", dict_or_none (rg !! k))]]
      end).

Definition meta (cs : list TaskContract) : dict pyval :=
  foldl (fun d c => dset (tc_contract_id c)
    (PDict [("max_steps", PInt (tc_max_steps c)); ("expires_at", iso_or_none (tc_expires_at c));
            ("approvers", pstrs (sorted_strs (tc_approvers c)))]) d) [] cs.

Definition sorted_keys (l : list string) : list string := sorted_strs (remove_dups l).

Definition contract_change (lm rm : dict pyval) (cid : string) : list pyval :=
  if same_value (pget cid lm) (pget cid rm) then []
  else [PDict [("contract_id", PStr cid); ("before", pget cid lm); ("after", pget cid rm)]].

Definition diff (left_text right_text : string) : result (dict pyval) :=
  let? before := _contracts left_text in
  let? after := _contracts right_text in
  let lg := grant_index (grants_from_contracts before) in
  let rg := grant_index (grants_from_contracts after) in
  let? changes := traverse (grant_change lg rg) (merge_sort pair_le (elements (dom lg ∪ dom rg))) in
  let lm := meta before in
  let rm := meta after in
  Ok [("grants", PList (List.concat changes));
      ("contracts", PList (List.concat (map (contract_change lm rm) (sorted_keys (dkeys lm ++ dkeys rm)))))].

(** *** The audit browser *)

Record audit_filter := mk_filter {
  af_agent : string;
  af_action : string;
  af_decision : string;
  af_event : string;
  af_decision_id : string;
}.

(** [prev] is only compared while the chain is intact, when it is a text. *)
Record audit_scan := mk_scan {
  as_ok : bool;
  as_error : option string;
  as_bad_sequence : option Z;
  as_prev : string;
  as_total : Z;
  as_matched : list (dict pyval);
}.

Definition scan_start : audit_scan := mk_scan true None None GENESIS 0 [].

(** [if wanted and record.get(k) != wanted: continue] *)
Definition field_matches (k wanted : string) (record : dict pyval) : bool :=
  s_is_empty wanted || equals_str (pget k record) wanted.
Definition id_matches (wanted : string) (record : dict pyval) : bool :=
  s_is_empty wanted || equals_str (pget "decision_id" record) wanted || equals_str (pget "resulting_decision_id" record) wanted.
Definition passes (f : audit_filter) (record : dict pyval) : bool :=
  field_matches "agent_id" (af_agent f) record && field_matches "action" (af_action f) record
  && field_matches "decision" (af_decision f) record && field_matches "event" (af_event f) record
  && id_matches (af_decision_id f) record.

(** The problem of a record at its place in an intact chain, and its hash. *)
Definition record_problem (total : Z) (prev : string) (record : dict pyval) : result (option string * string) :=
  if negb (equals_int (pget "sequence" record) total) then Ok (Some "sequence gap or reordering", prev)
  else if negb (equals_str (pget "prev_hash" record) prev) then Ok (Some "chain broken (prev_hash mismatch)", prev)
  else let? h := hash_record record in
       if equals_str (pget "hash" record) h then Ok (None, h) else Ok (Some "contents modified", prev).

Definition scan_record (f : audit_filter) (s : audit_scan) (record : dict pyval) : result audit_scan :=
  let? s := (if as_ok s then
               let? (problem, prev) := record_problem (as_total s) (as_prev s) record in
               match problem with
               | Some p => Ok (mk_scan false (Some ("record " +:+ show_Z (as_total s) +:+ ": " +:+ p)) (Some (as_total s)) prev
                                 (as_total s) (as_matched s))
               | None => Ok (mk_scan true (as_error s) (as_bad_sequence s) prev (as_total s) (as_matched s))
               end
             else Ok s) in
  let record := dset "_valid" (PBool (as_ok s)) record in
  Ok (mk_scan (as_ok s) (as_error s) (as_bad_sequence s) (as_prev s) (as_total s + 1)
        (if passes f record then as_matched s ++ [record] else as_matched s)).

Definition scan_line (f : audit_filter) (number : Z) (s : audit_scan) (line : string) : result audit_scan :=
  if is_blank line then Ok s else
  match loads line with
  | None =>
      Ok (if as_ok s
          then mk_scan false (Some ("line " +:+ show_Z number +:+ ": not valid JSON")) (Some (as_total s)) (as_prev s)
                 (as_total s + 1) (as_matched s)
          else mk_scan false (as_error s) (as_bad_sequence s) (as_prev s) (as_total s + 1) (as_matched s))
  | Some (PDict record) => scan_record f s record
  | Some _ => Raise (AttributeError "object has no attribute 'get'")
  end.

Fixpoint scan_lines (f : audit_filter) (number : Z) (s : audit_scan) (lines : list string) : result audit_scan :=
  match lines with
  | [] => Ok s
  | line :: lines' => let? s := scan_line f number s line in scan_lines f (number + 1) s lines'
  end.

(** [matched[-limit:]] *)
Definition last_slice {A} (limit : Z) (l : list A) : list A :=
  if limit <=? 0 then drop (Z.to_nat (- limit)) l else drop (length l - Z.to_nat limit) l.

Record audit_view_result := mk_audit_view {
  av_path : string;
  av_total : Z;
  av_ok : bool;
  av_error : option string;
  av_bad_sequence : option Z;
  av_records : list (dict pyval);
  av_truncated : bool;
  av_matched : Z;
}.

(** [path] is the expanded path, [file] the text of the file, or [None] when there is none. *)
Definition audit_view (path : string) (file : option string) (f : audit_filter) (limit : Z) : result audit_view_result :=
  match file with
  | None => Raise (InputError ("audit file not found: " +:+ path))
  | Some text =>
      let? s := scan_lines f 1 scan_start (file_lines text) in
      let matched := as_matched s in
      Ok (mk_audit_view path (as_total s) (as_ok s) (as_error s) (as_bad_sequence s) (last_slice limit matched)
            (limit <? Z.of_nat (length matched)) (Z.of_nat (length matched)))
  end.
End views.

(** ** Lemmas *)

Lemma same_value_refl v : same_value v v = true.
Proof. by apply val_eqb_spec. Qed.

Lemma same_grant_refl g : same_grant g g = true.
Proof. unfold same_grant. by rewrite !same_value_refl. Qed.

(** A text compared with itself shows no change. *)
Lemma diff_self `{Externals} safe_load_all text out : diff safe_load_all text text = Ok out ->
  out = [("grants", PList []); ("contracts", PList [])].
Proof.
  unfold diff. destruct (_contracts safe_load_all text) as [cs|]; cbn [result_bind]; [|done].
  set (g := grant_index _). set (m := meta cs).
  assert (forall l, traverse (grant_change g g) l = Ok (map (fun _ => []) l)) as ->.
  { induction l as [|k l IH]; [done|]. cbn [traverse map]. unfold grant_change at 1.
    assert (grant_status (g !! k) (g !! k) = Ok None) as ->
      by (unfold grant_status; destruct (g !! k); by rewrite ?same_grant_refl).
    cbn [result_bind]. by rewrite IH. }
  assert (forall A (l : list A), List.concat (map (fun _ => []) l) = ([] : list pyval)) as Hnil.
  { intros A l. by induction l. }
  assert (forall l, List.concat (map (contract_change m m) l) = []) as Hm.
  { induction l as [|k l IH]; [done|]. cbn [map List.concat]. unfold contract_change at 1. by rewrite same_value_refl, IH. }
  cbn [result_bind]. intros [= <-]. by rewrite Hnil, Hm.
Qed.

Section audit_lemmas.
Context `{Externals}.

(** A record without a problem is one that [verify_chain] accepts at its place. *)
Lemma record_problem_none n p r h : record_problem n p r = Ok (None, h) <-> verify_record n p (PDict r) = Ok h.
Proof.
  unfold record_problem, verify_record, integrity. destruct (negb _); [by split|]. destruct (negb _); [by split|].
  destruct (hash_record r) as [h'|]; cbn [result_bind]; [|by split].
  destruct (equals_str _ _); [|by split]. split; intros [= ->]; done.
Qed.

Lemma scan_broken f lines number s s' : as_ok s = false -> scan_lines f number s lines = Ok s' -> as_ok s' = false.
Proof.
  revert number s; induction lines as [|line lines IH]; intros number s Hs; cbn [scan_lines]; [by intros [= <-]|].
  destruct (scan_line f number s line) as [s1|] eqn:E; cbn [result_bind]; [|done]. apply IH.
  unfold scan_line in E. destruct (is_blank line); [by injection E as <-|].
  destruct (loads line) as [[| | | | | | |r| | |]|]; try done.
  - unfold scan_record in E. rewrite Hs in E. cbn [result_bind] in E. by injection E as <-.
  - rewrite Hs in E. by injection E as <-.
Qed.

(** From an intact state the scan stays intact exactly when the rest parses and verifies. *)
Lemma scan_verdict f lines number s s' : as_ok s = true -> scan_lines f number s lines = Ok s' ->
  (as_ok s' = true <-> exists rs h, parse_lines number lines = Ok rs
     /\ verify_from (as_total s) (as_prev s) rs = Ok (as_total s', h)).
Proof.
  revert number s; induction lines as [|line lines IH]; intros number s Hs; cbn [scan_lines parse_lines].
  { intros [= <-]. split; [|done]. intros _. by exists [], (as_prev s). }
  destruct (scan_line f number s line) as [s1|] eqn:E; cbn [result_bind]; [|done]. intros Hrun.
  unfold scan_line in E. destruct (is_blank line); [injection E as <-; by apply IH|].
  destruct (loads line) as [[| | | | | | |r| | |]|] eqn:El; try done.
  2: { rewrite Hs in E. injection E as <-. split; [|by intros (? & ? & ? & _)]. intros Ht.
       apply scan_broken in Hrun; [congruence|done]. }
  unfold scan_record in E. rewrite Hs in E.
  destruct (record_problem (as_total s) (as_prev s) r) as [[problem h]|] eqn:Ep; cbn [result_bind] in E; [|done].
  destruct problem as [p|]; cbn [result_bind] in E; injection E as <-.
  - split; [intros Ht; apply scan_broken in Hrun; [congruence|done]|]. intros (rs & q & Hrs & Hv).
    destruct (parse_lines (number + 1) lines) as [rs'|]; cbn [result_bind] in Hrs; [|done]. injection Hrs as <-.
    cbn [verify_from] in Hv. destruct (verify_record _ _ _) as [h'|] eqn:Ev; cbn [result_bind] in Hv; [|done].
    apply record_problem_none in Ev. congruence.
  - apply record_problem_none in Ep. apply IH in Hrun; [|done]. rewrite Hrun. cbn [as_total as_prev].
    split.
    + intros (rs & q & Hrs & Hv). exists (PDict r :: rs), q. rewrite Hrs. cbn [result_bind verify_from].
      rewrite Ep. by split.
    + intros (rs & q & Hrs & Hv). destruct (parse_lines (number + 1) lines) as [rs'|]; cbn [result_bind] in Hrs; [|done].
      injection Hrs as <-. cbn [verify_from] in Hv. rewrite Ep in Hv. cbn [result_bind] in Hv. eauto.
Qed.

(** Only what passes the filter is matched. *)
Lemma scan_matched f lines number s s' : Forall (fun r => passes f r = true) (as_matched s) ->
  scan_lines f number s lines = Ok s' -> Forall (fun r => passes f r = true) (as_matched s').
Proof.
  revert number s; induction lines as [|line lines IH]; intros number s Hs; cbn [scan_lines]; [by intros [= <-]|].
  destruct (scan_line f number s line) as [s1|] eqn:E; cbn [result_bind]; [|done]. apply IH.
  unfold scan_line in E. destruct (is_blank line); [by injection E as <-|].
  destruct (loads line) as [[| | | | | | |r| | |]|]; try done; [|by destruct (as_ok s); injection E as <-].
  unfold scan_record in E. destruct (if as_ok s then _ else _) as [s2|] eqn:E2; cbn [result_bind] in E; [|done].
  assert (as_matched s2 = as_matched s) as Hm.
  { destruct (as_ok s); [|by injection E2 as <-].
    destruct (record_problem _ _ _) as [[[p|] h]|]; cbn [result_bind] in E2; try done; by injection E2 as <-. }
  injection E as <-. cbn [as_matched]. rewrite Hm. destruct (passes f _) eqn:Ef; [|done]. apply Forall_app. by split; [|constructor].
Qed.

Lemma last_slice_Forall {A} (P : A -> Prop) n l : Forall P l -> Forall P (last_slice n l).
Proof. intros Hl. unfold last_slice. destruct (n <=? 0); by apply Forall_drop. Qed.
End audit_lemmas.

(** ** Properties *)

Section properties.
Context `{Externals}.
Variable load_file : string -> result (list TaskContract).
Variable safe_load_all : string -> list pyval + string.
Variable decode_error : string -> string.

(** The audit browser verifies as the audit log does: whatever is filtered and however many records are
    shown, the view of a file is marked intact exactly when every line of it parses and [verify_chain]
    accepts the records, and then its total is the number of records of the chain; and every record shown
    passes the filter. *)
Theorem audit_view_verifies (path text : string) (f : audit_filter) (limit : Z) (v : audit_view_result) :
  audit_view path (Some text) f limit = Ok v ->
  (av_ok v = true <-> exists rs h, iter_records text = Ok rs /\ verify_chain rs = Ok (av_total v, h))
  /\ Forall (fun r => passes f r = true) (av_records v).
Proof.
  unfold audit_view. destruct (scan_lines _ _ _ _) as [s|] eqn:E; cbn [result_bind]; [|done]. intros [= <-]. cbn.
  split; [by apply (scan_verdict f _ 1 scan_start)|].
  apply last_slice_Forall. by eapply scan_matched, E; constructor.
Qed.

(** C26. An explanation predicts the harness: what [explain] answers about a proposal under the contracts of
    a text is what the harness of those contracts decides about it when it is first made at that time,
    before anything has been counted - the same decision, reason, detail, rule, capability and contract. *)
Theorem explain_predicts {S : Type} `{StateStore S} (text : string) (agent action arguments contract_id : pyval) (now : Z)
    (out : dict pyval) (cs : list TaskContract) (args : pyval) (r : ActionRequest) (cf : config) (db parent : option string)
    (w : world S) (d : Decision) (u : Usage) (w' : world S) :
  explain safe_load_all decode_error text agent action arguments contract_id now = Ok out ->
  _contracts safe_load_all text = Ok cs -> build_bindings cs = Ok (cf_contracts cf, cf_bindings cf) ->
  explain_arguments decode_error arguments = Ok args -> explain_request agent action args contract_id = Ok r ->
  (forall n, clock_at n = now) -> store_wf (w_store w) ->
  a_steps (view (w_store w)) = ∅ -> a_calls (view (w_store w)) = ∅ ->
  decide cf r db parent w = (Ok (d, u), w') ->
  pget "decision" out = PStr (decision_value (d_decision d)) /\ pget "reason_code" out = PStr (reason_value (d_reason_code d))
  /\ pget "detail" out = PStr (d_detail d) /\ pget "rule" out = ostr (d_rule d)
  /\ pget "capability" out = ostr (d_capability d) /\ pget "bound_contract" out = ostr (d_contract_id d).
Proof.
  intros Hex Hcs Hb Hargs Hr Hclock Hwf Hsteps Hcalls Hdec. unfold explain in Hex.
  rewrite Hcs in Hex. cbn [result_bind] in Hex. rewrite Hb in Hex. cbn [result_bind] in Hex.
  rewrite Hargs in Hex. cbn [result_bind] in Hex. rewrite Hr in Hex. cbn [result_bind] in Hex.
  apply decide_ok in Hdec as (Hu & (ev & id & Hev & ->) & _); [|done].
  assert (u = mk_usage 0 0) as ->.
  { rewrite Hu. unfold usage_of, counter. rewrite Hsteps, Hcalls. destruct (problems r); [|done].
    destruct (dget _ _); [|done]. by rewrite !lookup_empty. }
  rewrite Hclock in Hev. rewrite Hev in Hex. cbn [result_bind] in Hex.
  assert (rq_agent_id r = agent) as Hagent.
  { unfold explain_request in Hr. destruct (make_request _ _ _ _) as [r'|[]] eqn:Em; try done. injection Hr as ->.
    unfold make_request in Em. destruct (as_dict _); [|done]. inv_ok Em. by injection Em as <-. }
  destruct (bound_contract _ _) as [bound|] eqn:Ebound; cbn [result_bind] in Hex; [|done]. injection Hex as <-.
  split_and!; try reflexivity. cbn. unfold contract_id_of. rewrite Hagent.
  destruct agent; cbn [bound_contract] in Ebound; try done; by injection Ebound as <-.
Qed.
End properties.

Module Witnesses.
Import SampleContract.
Import Harness.Witnesses(of_run, of_run_ok).
#[local] Existing Instance Simulation.Witnesses.still.

(** *** An audit file of two records, and the same file without its first line. *)
Definition log0 : AuditLog := mk_audit true true EmptyString [] 0 GENESIS.
Definition append (log : AuditLog) (event agent : string) : AuditLog :=
  match audit_record log "r" Sample.start event [("agent_id", PStr agent)] true with Ok (_, l) => l | Raise _ => log end.
Definition file : string := al_file (append (append log0 "decision" "a") "execution" "b").
Definition truncated_head : string := (partition_on newline file).2.

Definition everything : audit_filter := mk_filter EmptyString EmptyString EmptyString EmptyString EmptyString.
Definition of_b : audit_filter := mk_filter "b" EmptyString EmptyString EmptyString EmptyString.

Definition no_view : audit_view_result := mk_audit_view EmptyString 0 false None None [] false 0.
Definition view_of (text : string) (f : audit_filter) : audit_view_result :=
  match audit_view "audit.jsonl" (Some text) f 500 with Ok v => v | Raise _ => no_view end.

Lemma intact : audit_view "audit.jsonl" (Some file) of_b 500 = Ok (view_of file of_b).
Proof. vm_compute. reflexivity. Qed.

Example views :
  (av_ok (view_of file of_b), av_total (view_of file of_b), av_matched (view_of file of_b),
   av_error (view_of truncated_head everything), av_error (view_of (file +:+ "{") everything),
   av_bad_sequence (view_of (file +:+ "{") everything))
  = (true, 2, 1, Some "record 0: sequence gap or reordering", Some "line 3: not valid JSON", Some 2).
Proof. vm_compute. reflexivity. Qed.

Lemma audit_view_verifies_witness : exists rs h, iter_records file = Ok rs /\ verify_chain rs = Ok (2, h).
Proof.
  destruct (audit_view_verifies "audit.jsonl" file of_b 500 (view_of file of_b) intact) as [[Hok _] _].
  assert (av_ok (view_of file of_b) = true) as Ht by (vm_compute; reflexivity).
  assert (av_total (view_of file of_b) = 2) as Htotal by (vm_compute; reflexivity).
  destruct (Hok Ht) as (rs & h & Hrs & Hv). rewrite Htotal in Hv. exists rs, h. split; assumption.
Defined.

(** *** An explanation of a fetch, and the decision that follows. *)
Definition yaml (text : string) : list pyval + string := if String.eqb text "contracts" then inl [document] else inr "no such text".
Definition arguments : pyval := PDict [("url", PStr "https://docs.example.org/a")].
Definition explained := explain yaml (fun _ => EmptyString) "contracts" (PStr "b") (PStr "web.fetch") arguments PNone Sample.start.
Definition answer : dict pyval := match explained with Ok out => out | Raise _ => [] end.
Lemma explained_ok : explained = Ok answer.
Proof. vm_compute. reflexivity. Qed.

Definition contracts : list TaskContract := match _contracts yaml "contracts" with Ok cs => cs | Raise _ => [] end.
Lemma contracts_ok : _contracts yaml "contracts" = Ok contracts.
Proof. vm_compute. reflexivity. Qed.
Definition cf : config :=
  let t := match build_bindings contracts with Ok t => t | Raise _ => ([], []) end in mk_config t.1 t.2 false "key" 60000000.
Lemma cf_ok : build_bindings contracts = Ok (cf_contracts cf, cf_bindings cf).
Proof. vm_compute. reflexivity. Qed.

Definition request : ActionRequest :=
  match explain_request (PStr "b") (PStr "web.fetch") arguments PNone with
  | Ok r => r
  | Raise _ => Policy.Witnesses.fetch
  end.
Lemma request_ok : explain_request (PStr "b") (PStr "web.fetch") arguments PNone = Ok request.
Proof. vm_compute. reflexivity. Qed.

Definition start := Interceptor.Witnesses.world0 Memory.init false.
Definition made := decide cf request None None start.
Definition decided : Decision * Usage := of_run (Interceptor.Witnesses.decision_in Interceptor.Witnesses.w1, mk_usage 0 0) made.
Lemma made_ok : made = (Ok (decided.1, decided.2), made.2).
Proof. rewrite <- surjective_pairing. apply of_run_ok. vm_compute. reflexivity. Qed.

Lemma explain_predicts_witness : pget "decision" answer = PStr "allow" /\ d_decision decided.1 = ALLOW.
Proof.
  destruct (explain_predicts yaml (fun _ => EmptyString) "contracts" (PStr "b") (PStr "web.fetch") arguments PNone Sample.start
    answer contracts arguments request cf None None start decided.1 decided.2 made.2
    explained_ok contracts_ok cf_ok eq_refl request_ok (fun _ => eq_refl) memory_init_wf eq_refl eq_refl made_ok) as [Hd _].
  assert (d_decision decided.1 = ALLOW) as Ha by (vm_compute; reflexivity).
  rewrite Ha in Hd. split; [exact Hd|exact Ha].
Defined.

(** *** Two contracts that differ in the effect of one action. *)
Definition widened : pyval := PDict [("contract_id", PStr "research"); ("goal", PStr "g"); ("max_steps", PInt 5);
  ("agents", PDict [("b", PDict [("capabilities", PDict [("web.fetch", PStr "allow")])])])].
Definition narrow : pyval := PDict [("contract_id", PStr "research"); ("goal", PStr "g"); ("max_steps", PInt 4);
  ("agents", PDict [("b", PDict [("capabilities", PDict [("web.fetch", PStr "escalate"); ("fs.read", PStr "allow")])])])].
Definition two (text : string) : list pyval + string := inl [if String.eqb text "wide" then widened else narrow].
Definition statuses (r : result (dict pyval)) : list pyval :=
  match r with
  | Ok out => match pget "grants" out with PList l => map (fun c => match c with PDict c => pget "status" c | v => v end) l | _ => [] end
  | Raise _ => []
  end.
Example differences :
  (statuses (diff two "narrow" "wide"), statuses (diff two "wide" "narrow"), statuses (diff two "wide" "wide"))
  = ([PStr "removed"; PStr "widened"], [PStr "added"; PStr "narrowed"], []).
Proof. vm_compute. reflexivity. Qed.
End Witnesses.
