(* ===== verification/InspectServer.v ===== *)
(** * The inspector's server: src/capgate/inspect/server.py

    One page and a JSON API for a single local user, guarded by the Host header and a nonce. The views
    are those of [Inspect]; files, YAML, the harness behind the proxy and the approver's token are
    parameters. *)

From S2P Require Import Prelude Datetime Regex PyVal Externals Json Request Decision NetAddr Timeutil Capability Contract Policy State AuditTrail Effects Interceptor Executor Harness System RateLimit Base64 Workload Identity Api Edge Simulation Inspect.

Definition NONCE_HEADER : string := "X-Inspect-Nonce".
Definition INSPECT_MAX_BODY : Z := 2000000.

(** [str(exc)] *)
Definition exn_text (e : exn) : string :=
  match e with
  | MalformedRequest m | CapabilityError m | ContractError m | ApprovalError m | TokenError m | AuditIntegrityError m
  | InvalidHost m | WorkloadError m | TaskError m | InputError m | DestinationRefused m | UpstreamError m | RuntimeError m
  | FileNotFoundError m | ValueError m | IndexError m | TypeError m | AttributeError m | OverflowError m | OSError m => m
  | ExecutionRefused reason detail => reason +:+ ": " +:+ detail
  | KeyError k => repr_str k
  | ZeroDivisionError => "division by zero"
  | StopIteration => EmptyString
  end.

(** ** Queries *)

(** [unquote_plus]: [+] is a space, [%XX] a byte; other percent signs stay. *)
Fixpoint unquote_plus (s : string) : string :=
  match s with
  | EmptyString => EmptyString
  | String c s1 =>
      match s1 with
      | String h (String l s2) =>
          if is_char "%" c && is_hex h && is_hex l
          then String (char_of (16 * hex_char_value h + hex_char_value l)) (unquote_plus s2)
          else String (if is_char "+" c then " "%char else c) (unquote_plus s1)
      | _ => String (if is_char "+" c then " "%char else c) (unquote_plus s1)
      end
  end.

(** [{k: v[0] for k, v in parse_qs(query).items()}]: the first non-empty value of each name. *)
Definition query_dict (query : string) : dict string :=
  foldl (fun d piece =>
           let '(k, found, v) := partition_on "=" piece in
           let k := unquote_plus k in
           if found && negb (s_is_empty v) && negb (dmem k d) then dset k (unquote_plus v) d else d)
    [] (split_on "&" query).

(** ** The server's configuration *)

Record inspect_app := mk_inspect {
  ia_tasks : list string;
  ia_audit_path : string;
  ia_harness_url : option string;
  ia_approver : bool;                     (* an approver token was configured *)
  ia_nonce : string;
  ia_port : Z;
}.

(** What trying to listen on a port gives: the port bound, or an errno. *)
Section construction.
Variable resolve : string -> string.
Variable bind : Z -> Z + Z.

Definition bound_port (port : Z) : result Z :=
  match bind port with
  | inl bound => Ok bound
  | inr errno =>
      if (port =? 0) || negb ((errno =? 48) || (errno =? 98)) then Raise (OSError "cannot listen")
      else match bind 0 with inl bound => Ok bound | inr _ => Raise (OSError "cannot listen") end
  end.

Definition make_inspect (tasks : list string) (audit_path harness_url : option string) (approver : bool) (nonce host : string) (port : Z) :
    result inspect_app :=
  if negb (str_in host ["127.0.0.1"; "localhost"; "::1"]) then Raise (ValueError "capgate inspect binds to loopback only") else
  let? bound := bound_port port in
  Ok (mk_inspect (map resolve tasks) (match nonempty audit_path with Some p => resolve p | None => EmptyString end)
        (rstrip_by (is_char "/") <$> nonempty harness_url) approver nonce bound).
End construction.

Definition inspect_config (app : inspect_app) : pyval :=
  PDict [("tasks", pstrs (ia_tasks app)); ("audit_path", PStr (ia_audit_path app));
         ("approvals", PDict [("configured", PBool (some (nonempty (ia_harness_url app)) && ia_approver app));
                              ("harness_url", ostr (ia_harness_url app))])].

(** ** Requests and answers *)

Record inspect_request := mk_inspect_request {
  ir_target : string;
  ir_headers : headers;
}.

(** A call to the harness on behalf of the user. *)
Record proxied := mk_proxied {
  px_method : string;
  px_path : string;
  px_body : option (dict pyval);
}.

Inductive proxy_outcome :=
| Status (code : Z) (raw : string)
| ErrorStatus (code : Z) (raw : string)
| NoConnection (error : string).

Inductive inspect_answer :=
| Page (nonce : string)
| Json (code : Z) (body : pyval).

(** Text that is no JSON, or an exception. *)
Inductive failure :=
| BadJSON
| Failed (e : exn).

Section server.
Context `{Externals}.
Variable app : inspect_app.
(** Contracts and tasks for [Inspect]; the audit file; the clock; what [run_task] starts from. *)
Variable load_file : string -> result (list TaskContract).
Variable safe_load_all : string -> list pyval + string.
Variable safe_load : string -> pyval + string.
Variable decode_error : string -> string.
Variable audit_file : string -> option string.
Variable now : Z.
Variable fresh : world MemoryStateStore.
(** Paths and files of [load_task]; [yaml.safe_load] and [yaml.safe_dump]. *)
Variable resolve parent : string -> string.
Variable read_task : string -> option string.
Variable read_sibling : string -> string -> result string.
Variable parse_yaml : string -> result pyval.
Variable dump_yaml : pyval -> string.
(** The harness, given the approver's token, and the source of that token. *)
Variable harness : string -> proxied -> proxy_outcome.
Variable approver_token : result string.
(** [isalnum] of a text that is not ASCII, and the bytes of the body. *)
Variable other_alnum : string -> bool.
Variable read : Z -> string.

(** A view together with the harness calls made for it. *)
Definition view_result : Type := list proxied * (failure + (Z * pyval)).
Definition answered (r : result pyval) : view_result :=
  ([], match r with Ok v => inr (200, v) | Raise e => inl (Failed e) end).
Definition failed (e : exn) : view_result := ([], inl (Failed e)).

(** *** [load_task] *)

Definition task_sources (data : pyval) : result (list pyval) :=
  match data with
  | PDict d =>
      let? more := (match pget "contracts" d with
                    | PList l | PTuple l => Ok l
                    | PStr s => Ok (if s_is_empty s then [] else [PStr s])
                    | PDict c => Ok (map (fun kv => PStr kv.1) c)
                    | v => if truthy v then Raise (TypeError "object is not iterable") else Ok []
                    end) in
      Ok ((match dget "contract" d with Some c => [c] | None => [] end) ++ more)
  | _ => Ok []
  end.

Definition source_text (directory : string) (source : pyval) : result (list string) :=
  match source with
  | PStr file => let? text := read_sibling directory file in Ok [py_strip text]
  | PDict _ => Ok [py_strip (dump_yaml source)]
  | _ => Ok []
  end.

Definition load_task_view (path : string) : result pyval :=
  let task_path := resolve path in
  match read_task task_path with
  | None => Raise (InputError ("task file not found: " +:+ task_path))
  | Some text =>
      let? data := parse_yaml text in
      let? sources := task_sources data in
      let? texts := traverse (source_text (parent task_path)) sources in
      Ok (PDict [("path", PStr task_path); ("base_dir", PStr (parent task_path)); ("task_text", PStr text);
                 ("contracts_text", PStr (s_concat (chr1 (char_of 10) +:+ "---" +:+ chr1 (char_of 10)) (List.concat texts)))])
  end.

(** *** The proxy *)

Definition parse_body (raw : string) : option pyval := loads (if s_is_empty raw then "{}" else raw).

Definition _proxy (call : proxied) : view_result :=
  match nonempty (ia_harness_url app), ia_approver app with
  | Some url, true =>
      match approver_token with
      | Raise e => failed e
      | Ok token =>
          if negb (is_ascii (px_path call)) then failed (ValueError "'ascii' codec can't encode characters") else
          ([call], match harness token call with
                   | Status code raw => match parse_body raw with Some v => inr (code, v) | None => inl BadJSON end
                   | ErrorStatus code raw =>
                       inr (code, default (PDict [("error", PStr ("harness returned HTTP " +:+ show_Z code))]) (parse_body raw))
                   | NoConnection error => inr (502, PDict [("error", PStr ("cannot reach harness at " +:+ url +:+ ": " +:+ error))])
                   end)
      end
  | _, _ => failed (InputError "approvals are not configured: start with --harness-url and --approver-token-file")
  end.

Definition approvals : view_result := _proxy (mk_proxied "GET" "/v1/approvals" None).

(** [s.isalnum()] *)
Definition isalnum (s : string) : bool :=
  if is_ascii s then negb (s_is_empty s) && s_forall is_alnum s else other_alnum s.
Fixpoint without (c : ascii) (s : string) : string :=
  match s with
  | EmptyString => EmptyString
  | String d s' => if is_char c d then without c s' else String d (without c s')
  end.

Definition decide_approval (approval_id : string) (verdict : pyval) (note : string) : view_result :=
  if negb (equals_str verdict "approve" || equals_str verdict "reject") then failed (InputError "verdict must be approve or reject")
  else if negb (isalnum (without "-" approval_id)) then failed (InputError "invalid approval id")
  else _proxy (mk_proxied "POST" ("/v1/approvals/" +:+ approval_id) (Some [("verdict", verdict); ("note", PStr note)])).

(** *** Routes *)

Definition text_argument (v : pyval) (f : string -> result pyval) : result pyval :=
  match v with PStr s => f s | _ => Raise (AttributeError "read") end.

Definition simulate_view (task_text contracts_text : pyval) : result pyval :=
  text_argument task_text (fun task => text_argument contracts_text (fun contracts =>
    let? d := (simulate load_file safe_load_all safe_load task contracts fresh).1 in Ok (PDict d))).

Definition audit_value (v : audit_view_result) : pyval :=
  PDict [("path", PStr (av_path v)); ("total", PInt (av_total v)); ("ok", PBool (av_ok v)); ("error", ostr (av_error v));
         ("bad_sequence", match av_bad_sequence v with Some n => PInt n | None => PNone end);
         ("records", PList (map PDict (av_records v))); ("truncated", PBool (av_truncated v)); ("matched", PInt (av_matched v))].

Definition audit_route (q : dict string) : result pyval :=
  let get k := default EmptyString (dget k q) in
  let path := match nonempty (dget "path" q) with Some p => p | None => ia_audit_path app end in
  let? limit := py_int (PStr (default "500" (dget "limit" q))) in
  let? v := audit_view path (audit_file path) (mk_filter (get "agent") (get "action") (get "decision") (get "event") (get "decision_id")) limit in
  Ok (audit_value v).

Definition _get (path : string) (q : dict string) : view_result :=
  if String.eqb path "/api/config" then answered (Ok (inspect_config app))
  else if String.eqb path "/api/task" then answered (load_task_view (default EmptyString (dget "path" q)))
  else if String.eqb path "/api/audit" then answered (audit_route q)
  else if String.eqb path "/api/approvals" then approvals
  else ([], inr (404, PDict [("error", PStr "not found")])).

Definition or_text (k : string) (body : dict pyval) : pyval := default (PStr EmptyString) (dget k body).

Definition _post (path : string) (body : dict pyval) : view_result :=
  if String.eqb path "/api/simulate" then answered (simulate_view (or_text "task_text" body) (or_text "contracts_text" body))
  else if String.eqb path "/api/policy" then
    answered (text_argument (or_text "contracts_text" body) (fun t => let? d := policy safe_load_all t in Ok (PDict d)))
  else if String.eqb path "/api/explain" then
    answered (text_argument (or_text "contracts_text" body) (fun t =>
      let? d := explain safe_load_all decode_error t (or_text "agent" body) (or_text "action" body)
                  (default (PDict []) (dget "arguments" body)) (pget "contract_id" body) now in
      Ok (PDict d)))
  else if String.eqb path "/api/diff" then
    answered (text_argument (or_text "left" body) (fun l => text_argument (or_text "right" body) (fun r =>
      let? d := diff safe_load_all l r in Ok (PDict d))))
  else if starts_with "/api/approvals/" path then
    decide_approval (rpartition_on "/" path).2 (or_text "verdict" body) (py_str (default (PStr EmptyString) (dget "note" body)))
  else ([], inr (404, PDict [("error", PStr "not found")])).

(** *** The handler *)

Definition host_names : list string :=
  let p := show_Z (ia_port app) in ["127.0.0.1:" +:+ p; "localhost:" +:+ p; "[::1]:" +:+ p].
Definition _host_ok (hs : headers) : bool := str_in (py_lower (default EmptyString (get_header "Host" hs))) host_names.

Definition _authorized (hs : headers) : result bool :=
  if _host_ok hs then compare_digest (default EmptyString (get_header NONCE_HEADER hs)) (ia_nonce app) else Ok false.

Definition _json_body (hs : headers) : failure + dict pyval :=
  let raw_length := default EmptyString (get_header "Content-Length" hs) in
  if negb (isdigit raw_length) then inl (Failed (InputError "request body missing or too large")) else
  match int_of raw_length with
  | Raise e => inl (Failed e)
  | Ok n =>
      if INSPECT_MAX_BODY <? n then inl (Failed (InputError "request body missing or too large")) else
      match parse_body (read n) with
      | None => inl BadJSON
      | Some (PDict d) => inr d
      | Some _ => inl (Failed (InputError "request body must be a JSON object"))
      end
  end.

Definition dispatch_view (v : view_result) : list proxied * inspect_answer :=
  (v.1, match v.2 with
        | inr (code, body) => Json code body
        | inl (Failed (InputError m)) => Json 422 (PDict [("error", PStr m)])
        | inl BadJSON => Json 400 (PDict [("error", PStr "invalid JSON")])
        | inl (Failed e) => Json 500 (PDict [("error", PStr (exn_name e +:+ ": " +:+ exn_text e))])
        end).

Definition forbidden (text : string) : list proxied * inspect_answer := ([], Json 403 (PDict [("error", PStr text)])).

Definition do_GET (r : inspect_request) : result (list proxied * inspect_answer) :=
  match urlsplit (ir_target r) with
  | None => Raise (ValueError "Invalid URL")
  | Some url =>
      if negb (_host_ok (ir_headers r)) then Ok (forbidden "unexpected Host header")
      else if str_in (u_path url) ["/"; "/index.html"] then Ok ([], Page (ia_nonce app))
      else
        let? ok := _authorized (ir_headers r) in
        if negb ok then Ok (forbidden "missing or invalid inspect nonce")
        else Ok (dispatch_view (_get (u_path url) (query_dict (u_query url))))
  end.

Definition do_POST (r : inspect_request) : result (list proxied * inspect_answer) :=
  let? ok := _authorized (ir_headers r) in
  if negb ok then Ok (forbidden "missing or invalid inspect nonce") else
  match urlsplit (ir_target r) with
  | None => Raise (ValueError "Invalid URL")
  | Some url =>
      Ok (dispatch_view (match _json_body (ir_headers r) with inl f => ([], inl f) | inr body => _post (u_path url) body end))
  end.

(** ** What the guard lets through *)

(** The calls the proxy may make: listing approvals, and deciding one named by a plain id. *)
Inductive may_proxy : proxied -> Prop :=
| proxy_list : may_proxy (mk_proxied "GET" "/v1/approvals" None)
| proxy_decide id verdict note : s_forall (fun c => is_alnum c || is_char "-" c) id = true ->
    verdict = "approve" \/ verdict = "reject" ->
    may_proxy (mk_proxied "POST" ("/v1/approvals/" +:+ id) (Some [("verdict", PStr verdict); ("note", PStr note)])).

Lemma proxy_calls call call' : call' ∈ (_proxy call).1 -> call' = call /\ is_ascii (px_path call) = true.
Proof.
  unfold _proxy, failed. destruct (nonempty _); [|by intros ?%elem_of_nil]. destruct (ia_approver app); [|by intros ?%elem_of_nil].
  destruct approver_token; [|by intros ?%elem_of_nil]. destruct (is_ascii (px_path call)); [|by intros ?%elem_of_nil].
  by intros ->%list_elem_of_singleton.
Qed.

Lemma without_forall id : s_forall is_alnum (without "-" id) = true -> s_forall (fun c => is_alnum c || is_char "-" c) id = true.
Proof.
  induction id as [|c id IH]; [done|]. cbn [without s_forall]. destruct (is_char "-" c); [by rewrite orb_true_r|].
  cbn [s_forall]. intros [-> Hid]%andb_true_iff. by rewrite IH.
Qed.

Lemma without_ascii id : is_ascii id = true -> is_ascii (without "-" id) = true.
Proof.
  unfold is_ascii. induction id as [|c id IH]; [done|]. cbn [without s_forall]. intros [Hc Hid]%andb_true_iff.
  destruct (is_char "-" c); [auto|]. cbn [s_forall]. by rewrite Hc, IH.
Qed.

Lemma decide_calls id verdict note call : call ∈ (decide_approval id verdict note).1 -> may_proxy call.
Proof.
  unfold decide_approval. destruct (equals_str verdict "approve" || equals_str verdict "reject") eqn:Ev; cbn [negb]; [|by intros ?%elem_of_nil].
  destruct (isalnum (without "-" id)) eqn:Ei; cbn [negb]; [|by intros ?%elem_of_nil].
  intros [-> Hascii]%proxy_calls. cbn [px_path] in Hascii. unfold is_ascii in Hascii. rewrite s_forall_app in Hascii.
  apply andb_true_iff in Hascii as [_ Hid]. fold (is_ascii id) in Hid. unfold isalnum in Ei. rewrite (without_ascii _ Hid) in Ei.
  apply andb_true_iff in Ei as [_ Ei]. apply orb_true_iff in Ev as [Hv|Hv]; apply equals_str_spec in Hv as ->;
    apply proxy_decide; auto using without_forall.
Qed.

Lemma get_calls path q call : call ∈ (_get path q).1 -> may_proxy call.
Proof.
  unfold _get, answered. repeat (case_match; [try by intros ?%elem_of_nil|]); try by intros ?%elem_of_nil.
  unfold approvals. intros [-> _]%proxy_calls. apply proxy_list.
Qed.

Lemma post_calls path body call : call ∈ (_post path body).1 -> may_proxy call.
Proof.
  unfold _post, answered. repeat (case_match; [try by intros ?%elem_of_nil|]); try by intros ?%elem_of_nil. apply decide_calls.
Qed.

(** The Host header is there and names this server: a loopback name or address, in any case, and its port. *)
Definition names_server (hs : headers) : Prop :=
  exists host name, get_header "Host" hs = Some host /\ name ∈ ["127.0.0.1"; "localhost"; "[::1]"]
    /\ py_lower host = name +:+ ":" +:+ show_Z (ia_port app).

(** The request comes from the page of this server. *)
Definition own_page (hs : headers) : Prop :=
  names_server hs /\ default EmptyString (get_header NONCE_HEADER hs) = ia_nonce app.

Lemma host_ok_names hs : _host_ok hs = true -> names_server hs.
Proof.
  unfold _host_ok, names_server. destruct (get_header "Host" hs) as [host|]; [|done]. cbn [from_option id].
  unfold host_names. intros Hin%str_in_spec. rewrite !elem_of_cons in Hin.
  destruct Hin as [Hh|[Hh|[Hh|Hh%elem_of_nil]]]; [| | |done];
    [exists host, "127.0.0.1"|exists host, "localhost"|exists host, "[::1]"]; split_and!; try done; rewrite !elem_of_cons; auto.
Qed.

Lemma authorized_own hs : _authorized hs = Ok true -> own_page hs.
Proof.
  unfold _authorized, own_page, compare_digest. destruct (_host_ok hs) eqn:Hh; [|done]. destruct (_ && _); [|done].
  intros [= Heq]. split; [by apply host_ok_names|]. by apply String.eqb_eq.
Qed.

(** C21. Only its own page moves the inspector. Whatever a browser is made to send, a request either is
    refused with no view computed and no call to the harness; or is served the page, and then its Host header
    is one of 127.0.0.1, localhost and [::1] (in any case) with this server's port; or it carries such a Host
    header and the nonce of this session. Even then the approver's token is only used to list the approvals or
    to approve or reject the one named by an id of letters, digits and hyphens: no request can be steered to
    another route of the harness. *)
Theorem inspect_guarded (r : inspect_request) (calls : list proxied) (a : inspect_answer) :
  do_GET r = Ok (calls, a) \/ do_POST r = Ok (calls, a) ->
  (calls = [] /\ ((exists text, a = Json 403 (PDict [("error", PStr text)])) \/ (a = Page (ia_nonce app) /\ names_server (ir_headers r))))
  \/ (own_page (ir_headers r) /\ forall call, call ∈ calls -> may_proxy call).
Proof.
  intros [Hrun|Hrun].
  - unfold do_GET in Hrun. destruct (urlsplit (ir_target r)) as [url|]; [|done].
    destruct (_host_ok (ir_headers r)) eqn:Hh; cbn [negb] in Hrun; [|injection Hrun as <- <-; eauto].
    apply host_ok_names in Hh. destruct (str_in (u_path url) _); [injection Hrun as <- <-; eauto|].
    destruct (_authorized (ir_headers r)) as [[]|e] eqn:Ha; cbn [result_bind negb] in Hrun; [|injection Hrun as <- <-; eauto|done].
    injection Hrun as <- <-. right. split; [by apply authorized_own|]. intros call. apply get_calls.
  - unfold do_POST in Hrun. destruct (_authorized (ir_headers r)) as [[]|e] eqn:Ha; cbn [result_bind negb] in Hrun; [|injection Hrun as <- <-; eauto|done].
    destruct (urlsplit (ir_target r)) as [url|]; [|done]. injection Hrun as <- <-. right. split; [by apply authorized_own|].
    intros call. destruct (_json_body (ir_headers r)) as [f|body]; [by intros ?%elem_of_nil|]. apply post_calls.
Qed.
End server.

Module Witnesses.
#[local] Existing Instance Sample.externals.
Definition q (s : string) : string := s_map (fun c => if Ascii.eqb c "'" then dquote else c) s.
Definition app : inspect_app := mk_inspect [] EmptyString (Some "http://harness") true "n0nce" 8765.
Definition answer_of (r : inspect_request) (body : string) : result (list proxied * inspect_answer) :=
  do_POST app (fun _ => Ok []) (fun _ => inl []) (fun _ => inl PNone) id 0 (Interceptor.Witnesses.world0 Memory.init false)
    (fun token call => Status 200 (q "{'ok': true}")) (Ok "secret") (fun _ => false) (fun _ => body) r.
Definition from (host nonce path : string) : inspect_request :=
  mk_inspect_request path [("Host", host); (NONCE_HEADER, nonce); ("Content-Length", "30")].
Definition verdict : string := q "{'verdict': 'approve'}".
Definition deciding : inspect_request := from "LOCALHOST:8765" "n0nce" "/api/approvals/ab-1?x=1".

Lemma inspect_guarded_witness : exists calls a, answer_of deciding verdict = Ok (calls, a)
  /\ calls = [mk_proxied "POST" "/v1/approvals/ab-1" (Some [("verdict", PStr "approve"); ("note", PStr EmptyString)])]
  /\ own_page app (ir_headers deciding).
Proof.
  assert (answer_of deciding verdict = Ok ([mk_proxied "POST" "/v1/approvals/ab-1" (Some [("verdict", PStr "approve"); ("note", PStr EmptyString)])],
    Json 200 (PDict [("ok", PBool true)]))) as Hrun by (vm_compute; reflexivity).
  eexists _, _. split; [exact Hrun|]. split; [reflexivity|]. unfold answer_of in Hrun.
  destruct (inspect_guarded app (fun _ => Ok []) (fun _ => inl []) (fun _ => inl PNone) id (fun _ => None) 0
    (Interceptor.Witnesses.world0 Memory.init false) id id (fun _ => None) (fun _ _ => Ok EmptyString) (fun _ => Ok PNone) (fun _ => EmptyString)
    (fun token call => Status 200 (q "{'ok': true}")) (Ok "secret") (fun _ => false) (fun _ => verdict) deciding _ _ (or_intror Hrun))
    as [[Hc _]|[Ho _]]; [discriminate Hc|exact Ho].
Defined.

(** A page of another origin, and one that rebinds its name to this address. *)
Lemma rebinding_refused :
  answer_of (from "localhost:8765" "guess" "/api/approvals/ab-1") verdict = Ok ([], Json 403 (PDict [("error", PStr "missing or invalid inspect nonce")]))
  /\ answer_of (from "evil.example:8765" "n0nce" "/api/approvals/ab-1") verdict = Ok ([], Json 403 (PDict [("error", PStr "missing or invalid inspect nonce")]))
  /\ (exists body, answer_of (from "localhost:8765" "n0nce" "/api/approvals/..%2f..%2factions") verdict = Ok ([], Json 422 body)).
Proof. split; [vm_compute; reflexivity|split; [vm_compute; reflexivity|eexists; vm_compute; reflexivity]]. Qed.
End Witnesses.
