(* ===== verification/Cli.v ===== *)
(** * The command line: src/capgate/cli.py

    The commands as functions of their parsed arguments, and the exit status they lead to. The terminal
    is what a command prints, as lines; argparse, the browser and the loop of the server are not
    modelled. Files are a map from paths to texts with a write permission. *)

From S2P Require Import Prelude Datetime Regex PyVal Externals Json Request Decision NetAddr Timeutil Capability Contract Policy State AuditTrail AuditFleet Effects Interceptor Executor Harness System RateLimit Postgres Base64 Workload Identity Api Toolset Simulation.

(** ** Exit status *)

Inductive exit_status :=
| Exit (code : Z)
| Traceback (e : exn).

(** [except (ContractError, TaskError, AuditIntegrityError, ValueError, FileNotFoundError, TokenError)],
    with the subclasses of ValueError. *)
Definition is_value_error (e : exn) : bool :=
  match e with
  | ValueError _ | MalformedRequest _ | CapabilityError _ | ContractError _ | InvalidHost _ | WorkloadError _ | TaskError _ | InputError _ => true
  | _ => false
  end.
Definition reported (e : exn) : bool :=
  is_value_error e || match e with AuditIntegrityError _ | FileNotFoundError _ | TokenError _ => true | _ => false end.
Definition main (command : result Z) : exit_status :=
  match command with
  | Ok code => Exit code
  | Raise e => if reported e then Exit 2 else Traceback e
  end.

(** ** Texts of options *)

(** [_duration]: seconds, or a number with a unit. *)
Definition int_text `{Externals} (s : string) : result Z :=
  match read_int s with
  | Some z => Ok z
  | None => Raise (ValueError ("invalid literal for int() with base 10: " +:+ repr_str s))
  end.
Definition unit_seconds (c : ascii) : option Z :=
  if is_char "s" c then Some 1 else if is_char "m" c then Some 60 else if is_char "h" c then Some 3600 else None.
Definition _duration `{Externals} (text : string) : result Z :=
  match s_rev text with
  | String c before =>
      match unit_seconds c with
      | Some n => let? z := int_text (s_rev before) in Ok (z * n)
      | None => int_text text
      end
  | EmptyString => int_text text
  end.

(** The items of a comma list. *)
Definition comma_list (text : string) : list string :=
  map py_strip (List.filter (fun s => negb (s_is_empty (py_strip s))) (split_on "," text)).
Definition fail_on_set (text : string) : list string := map py_upper (comma_list text).

(** POSIX paths as [pathlib] writes them. *)
Definition path_parts (s : string) : list string :=
  List.filter (fun p => negb (s_is_empty p || String.eqb p ".")) (split_on "/" s).
Definition is_absolute (s : string) : bool := starts_with "/" s.
Definition path_text (absolute : bool) (parts : list string) : string :=
  if absolute then "/" +:+ s_concat "/" parts else match parts with [] => "." | _ => s_concat "/" parts end.
Definition path_join (base p : string) : string :=
  if is_absolute p then path_text true (path_parts p) else path_text (is_absolute base) (path_parts base ++ path_parts p).
Definition path_parent (p : string) : string := path_text (is_absolute p) (removelast (path_parts p)).

(** ** validate *)

Definition validate_line (c : TaskContract) : string :=
  "ok  " +:+ tc_contract_id c +:+ "  " +:+ s_take 19 (tc_content_hash c) +:+ "  agents: "
  +:+ s_concat ", " (map (fun '(a, g) => a +:+ " (" +:+ show_Z (Z.of_nat (length (ag_capabilities g))) +:+ " capabilities)") (tc_agents c)).

(** The lines printed before a file fails are printed. *)
Fixpoint _validate (load : string -> result (list TaskContract)) (paths : list string) : list string * result Z :=
  match paths with
  | [] => ([], Ok 0)
  | path :: paths' =>
      match load path with
      | Raise e => ([], Raise e)
      | Ok cs => let '(out, code) := _validate load paths' in (map validate_line cs ++ out, code)
      end
  end.

(** ** simulate and enforce *)

(** The answer typed at the prompt. *)
Definition prompt_answer (typed : string) : bool * string := (str_in (py_lower (py_strip typed)) ["y"; "yes"], "via CLI").
Definition cli_approver (approver_id : option string) (tty : bool) (input : AuthorizationResult -> string) :
    option (AuthorizationResult -> option (bool * string)) :=
  if some (nonempty approver_id) && tty then Some (fun res => Some (prompt_answer (input res))) else None.

Definition run_status (fail_on : string) (rp : Report) : Z :=
  if existsb (fun d => dmem d (counts rp)) (fail_on_set fail_on) then 1 else 0.

Definition _run `{Externals} (read_text : option string -> string -> string + string) (environ : string -> option string)
    (mcp_clients : result (list string)) (calling : dict tool_kind -> Tools) (task : result TaskFile) (simulate : bool)
    (approver_id : option string) (tty : bool) (input : AuthorizationResult -> string) (fail_on : string) : M MemoryStateStore Z :=
  let! t := lift task in
  let! rp := run_task read_text environ mcp_clients calling t simulate (cli_approver approver_id tty input) approver_id in
  ret (run_status fail_on rp).

(** ** audit *)

Record audit_options := mk_audit_options {
  ao_agent : option string;
  ao_decision : option string;
  ao_event : option string;
  ao_verify : bool;
  ao_json : bool;
}.

(** What the command prints: the count, the records, or a row per decision with its outcome. *)
Inductive audit_output :=
| Verified (records : Z)
| Records (rows : list (dict pyval))
| Table (rows : list (dict pyval * pyval)).

Definition keeps_field (k : string) (wanted : option string) (r : dict pyval) : bool :=
  match nonempty wanted with Some v => equals_str (pget k r) v | None => true end.
Definition audit_rows (o : audit_options) (records : list (dict pyval)) : list (dict pyval) :=
  List.filter (fun r => keeps_field "agent_id" (ao_agent o) r && keeps_field "decision" (ao_decision o) r && keeps_field "event" (ao_event o) r) records.

Definition is_execution (r : dict pyval) : bool :=
  (equals_str (pget "event" r) "execution" || equals_str (pget "event" r) "execution_refused") && truthy (pget "decision_id" r).
(** Outcomes by decision id, the last one of each; ids are texts. *)
Definition executions (records : list (dict pyval)) : dict pyval :=
  foldl (fun d r => match pget "decision_id" r with PStr id => dset id (pget "outcome" r) d | _ => d end) []
    (List.filter is_execution records).

Definition row_outcome_of (done : dict pyval) (r : dict pyval) : result pyval :=
  match dget "decision_id" r with
  | None => Raise (KeyError "decision_id")
  | Some (PStr id) => Ok (default (pget "outcome" r) (dget id done))
  | Some (PList _ | PDict _) => Raise (TypeError "unhashable type")
  | Some _ => Ok (pget "outcome" r)
  end.

Definition _audit `{Externals} (o : audit_options) (text : result string) : result audit_output :=
  let? text := text in
  let? values := load_audit text true in
  let? records := traverse (fun v => match v with PDict d => Ok d | _ => Raise (AttributeError "get") end) values in
  if ao_verify o then Ok (Verified (Z.of_nat (length values)))
  else if ao_json o then Ok (Records (audit_rows o records))
  else
    let done := executions records in
    let? rows := traverse (fun r => let? outcome := row_outcome_of done r in Ok (r, outcome))
                   (List.filter (fun r => equals_str (pget "event" r) "decision") (audit_rows o records)) in
    Ok (Table rows).

(** ** Files *)

Record file := mk_file { f_text : string; f_writable : bool }.
#[global] Abbreviation files := (gmap string file).

Section files.
Variable superuser : bool.                 (* who may write whatever the permissions say *)

Definition write_text (path text : string) (fs : files) : result files :=
  match fs !! path with
  | Some f => if f_writable f || superuser then Ok (<[path := mk_file text (f_writable f)]> fs) else Raise (OSError "Permission denied")
  | None => Ok (<[path := mk_file text true]> fs)
  end.
(** [tmp.write_text(text); tmp.chmod(mode); tmp.replace(path)] *)
Definition write_atomically (path text : string) (writable : bool) (fs : files) : result files :=
  let tmp := path +:+ ".tmp" in
  let? fs := write_text tmp text fs in
  Ok (<[path := mk_file text writable]> (delete tmp fs)).
Definition read_file (path : string) (fs : files) : result string :=
  match fs !! path with Some f => Ok (f_text f) | None => Raise (FileNotFoundError path) end.

(** *** bootstrap *)

(** The files wanted, with a generator each; a path named twice is wanted once. *)
Definition wanted_files (secrets_dir tool_credential : string) (key keyring credential : string) : dict string :=
  dset tool_credential credential
    (dset (path_join secrets_dir "token_keyring") keyring [(path_join secrets_dir "signing_key", key)]).

Fixpoint create_missing (wanted : dict string) (fs : files) : list string * result files :=
  match wanted with
  | [] => ([], Ok fs)
  | (target, text) :: wanted' =>
      match fs !! target with
      | Some _ => let '(out, r) := create_missing wanted' fs in (("exists   " +:+ target) :: out, r)
      | None =>
          match write_atomically target text false fs with
          | Raise e => ([], Raise e)
          | Ok fs => let '(out, r) := create_missing wanted' fs in (("created  " +:+ target) :: out, r)
          end
      end
  end.
Definition _bootstrap (secrets_dir tool_credential key keyring credential : string) (fs : files) : list string * result files :=
  create_missing (wanted_files (path_join secrets_dir EmptyString) (path_join tool_credential EmptyString) key keyring credential) fs.

(** *** token *)

Section token.
Context `{Externals}.
(** The day, the random bytes of a key id and of a key, the file stamp the authority reads. *)
Variable day kid_entropy new_key : string.

Definition load_keyring (path : string) (fs : files) : result Keyring := let? text := read_file path fs in load text.
Definition save_keyring (path : string) (k : Keyring) (fs : files) : result files := write_atomically path (to_json k) true fs.

Definition token_keygen (path : string) (fs : files) : result (string * files) :=
  let? (kid, ring) := (if bool_decide (is_Some (fs !! path)) then let? k := load_keyring path fs in Ok (rotate day kid_entropy new_key k)
                       else let? k := generate day kid_entropy new_key in Ok (active k, k)) in
  let? fs := save_keyring path ring fs in
  Ok (kid, fs).

Definition token_retire (path kid : string) (fs : files) : result (string * files) :=
  let? k := load_keyring path fs in
  let? k := retire kid k in
  let? fs := save_keyring path k fs in
  Ok ("retired " +:+ kid, fs).

(** [_cert_der]: the first certificate of a PEM text, or the bytes as they are. *)
Fixpoint cut_at (sep s : string) (acc : string) : string * option string :=
  match strip_prefix sep s with
  | Some rest => (s_rev acc, Some rest)
  | None => match s with EmptyString => (s_rev acc, None) | String c s' => cut_at sep s' (String c acc) end
  end.
Definition newline_char (c : ascii) : bool := (byte_of c =? 10) || (byte_of c =? 13).
Fixpoint drop_newlines (s : string) : string :=
  match s with EmptyString => EmptyString | String c s' => if newline_char c then drop_newlines s' else String c (drop_newlines s') end.
Definition dashes : string := "-----".
Definition _cert_der (b64decode : string -> result string) (raw : string) : result string :=
  match cut_at "-----BEGIN CERTIFICATE-----" raw EmptyString with
  | (_, Some _) =>
      match cut_at dashes raw EmptyString with
      | (_, Some r1) =>
          match cut_at dashes r1 EmptyString with
          | (_, Some r2) => b64decode (drop_newlines (cut_at dashes r2 EmptyString).1)
          | (_, None) => Raise (KeyError "2")
          end
      | (_, None) => Raise (KeyError "2")
      end
  | (_, None) => Ok raw
  end.

(** [_binding] *)
Definition _binding (peercert_from_der : string -> peercert) (b64decode : string -> result string)
    (bind_cert : option (result string)) (bind_spiffe bind_thumbprint : option string) : result (option WorkloadBinding) :=
  match bind_cert with
  | Some raw =>
      let? raw := raw in
      let? der := _cert_der b64decode raw in
      let? b := from_cert_der peercert_from_der der true in
      Ok (Some b)
  | None =>
      match bind_spiffe, bind_thumbprint with
      | None, None => Ok None
      | _, _ => let? b := make_binding bind_spiffe bind_thumbprint in Ok (Some b)
      end
  end.

(** [TokenAuthority(path, ...)], then one token. The keyring is read once, and its stamp once more. *)
Definition token_issue (kf : key_file) (max_ttl ttl who wanted : string) (issued_at : option Z) (now : Z) (entropy : string)
    (binding : result (option WorkloadBinding)) (out : option string) (fs : files) : result (string * files) :=
  let? limit := _duration max_ttl in
  let? a := open_authority kf limit 30 in
  let? seconds := _duration ttl in
  let? workload := binding in
  let? token := (issue kf now entropy who wanted seconds issued_at workload a).1 in
  match nonempty out with
  | Some path =>
      let? fs := write_atomically path token false fs in
      Ok ("issued " +:+ wanted +:+ " token for " +:+ who +:+ " -> " +:+ path, fs)
  | None => Ok (token, fs)
  end.

Definition token_revoke {S : Type} `{StateStore S} (kf : key_file) (now : Z) (token : string) (store : S) : result string * option S :=
  match open_authority kf 3600 30 with
  | Raise e => (Raise e, Some store)
  | Ok a =>
      match revoke_token kf now (PStr token) (Some store) a with
      | (Ok c, _, s) => (Ok ("revoked " +:+ jti c +:+ " (" +:+ role c +:+ " " +:+ sub c +:+ ") until " +:+ show_Z (exp c)), s)
      | (Raise e, _, s) => (Raise e, s)
      end
  end.
End token.
End files.

(** *** inspect and mcp-bridge *)

Inductive token_source :=
| TokenFile (path : string)
| TokenVariable (name : string).

Definition inspect_source (token_file token_env : option string) : option token_source :=
  match nonempty token_file, nonempty token_env with
  | Some path, _ => Some (TokenFile path)
  | None, Some name => Some (TokenVariable name)
  | None, None => None
  end.
Definition _inspect (harness_url token_file token_env : option string) : result (option token_source) :=
  let source := inspect_source token_file token_env in
  if Bool.eqb (some (nonempty harness_url)) (some source) then Ok source
  else Raise (ValueError "--harness-url and an approver token must be given together").
Definition _mcp_bridge (token_file : option string) (token_env : string) : token_source :=
  match nonempty token_file with Some path => TokenFile path | None => TokenVariable token_env end.
Definition read_token (environ : string -> option string) (read : string -> result string) (s : token_source) : result string :=
  match s with
  | TokenFile path => let? text := read path in Ok (py_strip text)
  | TokenVariable name => Ok (default EmptyString (environ name))
  end.

(** ** serve: the configuration file *)

Section serve.
Context `{Externals} `{Arith}.
Variable environ : string -> option string.
Variable read_text : option string -> string -> string + string.
Variable load_contracts_at : string -> result (list TaskContract).
Variable mcp_clients : result (list string).
(** A number of the configuration as a float. *)
Variable to_num : pyval -> result num.

(** [if name and os.environ.get(name)] *)
Definition named_variable (name : pyval) : result (option string) :=
  match name with
  | PStr n => Ok (if s_is_empty n then None else nonempty (environ n))
  | v => if truthy v then Raise (TypeError "str expected") else Ok None
  end.

Definition mentions (sep s : string) : bool := some (cut_at sep s EmptyString).2.
(** A bare relative path is taken from the directory of the configuration. *)
Definition from_directory (base : string) (v : pyval) : pyval :=
  match v with
  | PStr s => if negb (mentions "://" s) && negb (starts_with "/" s) then PStr (path_join base s) else v
  | _ => v
  end.

Definition _state_url (cfg : dict pyval) (base : string) : result pyval :=
  let? named := named_variable (pget "state_env" cfg) in
  Ok (from_directory base (match named with Some url => PStr url | None => pget "state" cfg end)).
Definition open_state (url : pyval) : result opened :=
  match url with
  | PNone => Ok (open_state_store None)
  | PStr s => Ok (open_state_store (Some s))
  | _ => Raise (AttributeError "startswith")
  end.

(** [list(v)] of what a list is expected to be. *)
Definition as_list (v : pyval) : result (list pyval) :=
  match v with
  | PList l | PTuple l => Ok l
  | PDict d => Ok (map (fun kv => PStr kv.1) d)
  | PStr s => Ok (map (fun c => PStr (chr1 c)) (String.list_ascii_of_string s))
  | _ => Raise (TypeError "object is not iterable")
  end.
Definition or_default (v default : pyval) : pyval := if truthy v then v else default.

Definition _trusted_proxies (cfg : dict pyval) : result (option (list pyval)) :=
  let? proxies := as_list (or_default (pget "trusted_proxies" cfg) (PList [])) in
  let? named := named_variable (pget "trusted_proxies_env" cfg) in
  let proxies := proxies ++ match named with Some text => map PStr (comma_list text) | None => [] end in
  Ok (match proxies with [] => None | _ => Some proxies end).

(** [RateLimitConfig.from_mapping]; a value of another type is refused where it is first computed with. *)
Definition rate_fields : list string :=
  ["client_rate"; "client_burst"; "principal_rate"; "principal_burst"; "auth_failure_audit_per_minute"; "max_tracked_keys"; "enabled"; "shared"].
Definition int_field (k : string) (fallback : Z) (data : dict pyval) : result Z :=
  match dget k data with
  | None => Ok fallback
  | Some v => match as_int v with Some z => Ok z | None => Raise (TypeError k) end
  end.
Definition num_field (k : string) (fallback : num) (data : dict pyval) : result num :=
  match dget k data with None => Ok fallback | Some v => to_num v end.
Definition flag_field (k : string) (fallback : bool) (data : dict pyval) : bool :=
  match dget k data with None => fallback | Some v => truthy v end.
Definition from_mapping (data : pyval) : result RateLimitConfig :=
  if negb (truthy data) then Ok default_config else
  let? data := or_mapping data in
  match unknown_keys rate_fields data with
  | [] =>
      let c := default_config in
      let? client_rate := num_field "client_rate" (rc_client_rate c) data in
      let? client_burst := int_field "client_burst" (rc_client_burst c) data in
      let? principal_rate := num_field "principal_rate" (rc_principal_rate c) data in
      let? principal_burst := int_field "principal_burst" (rc_principal_burst c) data in
      let? per_minute := int_field "auth_failure_audit_per_minute" (rc_auth_failure_audit_per_minute c) data in
      let? max_keys := int_field "max_tracked_keys" (rc_max_tracked_keys c) data in
      Ok (mk_rate_config client_rate client_burst principal_rate principal_burst per_minute max_keys
            (flag_field "enabled" (rc_enabled c) data) (flag_field "shared" (rc_shared c) data))
  | unknown => Raise (ValueError ("rate_limit: unknown fields " +:+ repr_strs (sorted_strs unknown)))
  end.

(** [open_audit] of what the configuration says; a stream that is not a text is written as one. *)
Definition open_audit_of (target stream : pyval) (hostname : string) (pid : Z) : result audit_target :=
  match target with
  | PStr t => Ok (AuditFleet.open_audit (Some t) (if truthy stream then Some (py_str stream) else None) hostname pid)
  | v => if truthy v then Raise (TypeError "expected str, bytes or os.PathLike object") else Ok (AuditFleet.open_audit None None hostname pid)
  end.

Record serve_options := mk_serve_options { so_host : option string; so_port : option Z; so_transport : option string }.

Record settings := mk_settings {
  se_contracts : list TaskContract;
  se_tools : dict tool_kind;
  se_audit : audit_target;
  se_echo : bool;
  se_signing_key : option string;
  se_state : opened;
  se_keyring : string;
  se_max_ttl : Z;
  se_host : pyval;
  se_port : Z;
  se_rate_limit : RateLimitConfig;
  se_transport : pyval;
  se_trusted_proxies : option (list pyval);
  se_mcp : bool;
}.

Definition contract_source (base : string) (source : pyval) : result (list TaskContract) :=
  match source with PStr s => load_contracts_at (path_join base s) | _ => Raise (TypeError "unsupported operand") end.

(** [Harness(contracts, tools=...)]: what its constructor refuses. *)
Definition harness_accepts (contracts : list TaskContract) (tools : list string) : result unit :=
  let? _ := build_bindings contracts in
  match List.filter (fun a => str_in a tools) [DELEGATE_ACTION; MESSAGE_ACTION] with
  | [] => Ok tt
  | reserved => Raise (ValueError (repr_strs reserved +:+ " are handled by the harness and cannot be registered as tools"))
  end.

(** What [_serve] builds the harness, the authority and the server from. *)
Definition _serve (path : string) (document : pyval) (o : serve_options) (hostname : string) (pid : Z) : result settings :=
  let base := path_parent path in
  let? cfg := or_mapping document in
  let? sources := as_list (default (PList []) (dget "contracts" cfg)) in
  let? contracts := traverse (contract_source base) sources in
  let? audit_named := named_variable (pget "audit_env" cfg) in
  let target := match audit_named with Some t => PStr t | None => from_directory base (pget "audit" cfg) end in
  let? signing_key := (if truthy (pget "signing_key_file" cfg) || truthy (pget "signing_key_env" cfg)
                       then let? k := read_secret read_text environ cfg "signing_key" "signing_key" (Some base) in Ok (Some k)
                       else Ok None) in
  let? tools := build_tools read_text environ mcp_clients (pget "tools" cfg) (Some base) in
  let? audit := open_audit_of target (pget "audit_stream" cfg) hostname pid in
  let? url := _state_url cfg base in
  let? state := open_state url in
  let? _ := harness_accepts (List.concat contracts) (dkeys tools) in
  let? identity := or_mapping (pget "identity" cfg) in
  if negb (truthy (pget "keyring_file" identity))
  then Raise (ValueError "serve config needs identity.keyring_file (see `capgate token keygen`)") else
  let? keyring := (match pget "keyring_file" identity with PStr s => Ok s | _ => Raise (TypeError "expected str") end) in
  let? max_ttl := py_int (default (PInt 3600) (dget "max_ttl_seconds" identity)) in
  let? listen := or_mapping (pget "listen" cfg) in
  let? port := (match o.(so_port) with
                | Some (Zpos p) => Ok (Zpos p) | Some (Zneg p) => Ok (Zneg p)
                | _ => py_int (default (PInt 8700) (dget "port" listen))
                end) in
  let? rate_limit := from_mapping (pget "rate_limit" cfg) in
  let? proxies := _trusted_proxies cfg in
  Ok (mk_settings (List.concat contracts) tools audit (truthy (pget "audit_echo" cfg)) signing_key state (path_join base keyring) max_ttl
        (match nonempty (so_host o) with Some h => PStr h | None => default (PStr "127.0.0.1") (dget "host" listen) end) port rate_limit
        (match nonempty (so_transport o) with Some t => PStr t | None => pget "transport" cfg end) proxies
        (truthy (default (PBool true) (dget "mcp" cfg)))).
End serve.

(** ** Theorems *)

Definition tmp_of (path : string) : string := path +:+ ".tmp".
Definition writable_at (superuser : bool) (path : string) (fs : files) : bool :=
  match fs !! path with Some f => f_writable f || superuser | None => true end.
(** No target is the temporary file of another. *)
Definition tmp_free (targets : list string) : Prop := forall t t', t ∈ targets -> t' ∈ targets -> t <> tmp_of t'.

Lemma tmp_of_inj p q : tmp_of p = tmp_of q -> p = q.
Proof.
  unfold tmp_of. revert q. induction p as [|c p IH]; intros [|d q] E; try done.
  - apply (f_equal String.length) in E. rewrite !s_length_app in E. simpl in E. lia.
  - apply (f_equal String.length) in E. rewrite !s_length_app in E. simpl in E. lia.
  - injection E as -> E. f_equal. auto.
Qed.

Lemma dkeys_dset {V W} k (v : V) (w : W) d e : dkeys d = dkeys e -> dkeys (dset k v d) = dkeys (dset k w e).
Proof.
  revert e. induction d as [|[k1 v1] d IH]; intros [|[k2 v2] e] E; try done. injection E as -> E. simpl.
  case_match; simpl; [by rewrite E|]. f_equal. auto.
Qed.

Lemma write_atomically_spec su p text w fs : write_atomically su p text w fs =
  if writable_at su (tmp_of p) fs then Ok (<[p := mk_file text w]> (delete (tmp_of p) fs)) else Raise (OSError "Permission denied").
Proof.
  unfold write_atomically, write_text, writable_at, tmp_of. destruct (fs !! (p +:+ ".tmp")) as [f|] eqn:E.
  - destruct (f_writable f || su); [|done]. simpl. by rewrite delete_insert_eq.
  - simpl. by rewrite delete_insert_eq.
Qed.

(** What creating the missing files gives at any path. *)
Lemma create_missing_spec su wanted fs : NoDup (dkeys wanted) -> tmp_free (dkeys wanted) ->
  (forall t, t ∈ dkeys wanted -> fs !! t = None -> writable_at su (tmp_of t) fs = true) ->
  exists out fs', create_missing su wanted fs = (out, Ok fs')
    /\ (forall t, t ∈ dkeys wanted -> fs' !! t = match fs !! t with Some f => Some f | None => (fun s => mk_file s false) <$> dget t wanted end)
    /\ (forall p, p ∉ dkeys wanted -> fs' !! p = fs !! p \/ (fs' !! p = None /\ exists t, t ∈ dkeys wanted /\ p = tmp_of t)).
Proof.
  revert fs. induction wanted as [|[t text] wanted IH]; intros fs Hnd Hfree Hw.
  { exists [], fs. split_and!; [done|intros t Ht; by apply not_elem_of_nil in Ht|by left]. }
  apply NoDup_cons in Hnd as [Ht Hnd]. simpl dkeys in *.
  assert (tmp_free (dkeys wanted)) as Hfree' by (intros u u' Hu Hu'; apply Hfree; by apply list_elem_of_further).
  assert (forall u, u ∈ dkeys wanted -> u <> tmp_of t) as Htmp
    by (intros u Hu; apply Hfree; [by apply list_elem_of_further|apply list_elem_of_here]).
  cbn [create_missing]. destruct (fs !! t) as [f|] eqn:Et.
  - destruct (IH fs Hnd Hfree') as (out & fs' & -> & Hin & Hout); [intros u Hu; apply Hw; by apply list_elem_of_further|].
    eexists _, fs'. split_and!; [done| |].
    + intros u [->|Hu]%elem_of_cons; cbn [dget].
      * destruct (Hout t Ht) as [->|(_ & u & Hu & E)]; [by rewrite Et|exfalso].
        refine (Hfree t u _ _ E); [apply list_elem_of_here|by apply list_elem_of_further].
      * rewrite Hin by done. destruct (String.eqb_spec u t) as [->|]; [done|done].
    + intros p [Hp Hp']%not_elem_of_cons. destruct (Hout p Hp') as [|(? & u & ? & ?)]; [by left|right].
      split; [done|]. exists u. split; [by apply list_elem_of_further|done].
  - rewrite write_atomically_spec, (Hw t (list_elem_of_here _ _) Et).
    set (fs1 := <[t := mk_file text false]> (delete (tmp_of t) fs)).
    assert (forall u, u <> t -> u <> tmp_of t -> fs1 !! u = fs !! u) as Hfs1
      by (intros u ? ?; unfold fs1; rewrite lookup_insert_ne, lookup_delete_ne by congruence; done).
    destruct (IH fs1 Hnd Hfree') as (out & fs' & -> & Hin & Hout).
    { intros u Hu. pose proof (Htmp u Hu). assert (u <> t) by set_solver. rewrite Hfs1 by done. intros Hnone.
      specialize (Hw u (list_elem_of_further _ _ _ Hu) Hnone). unfold writable_at in *. rewrite Hfs1; [done| |].
      - intros E. refine (Hfree t u _ _ (eq_sym E)); [apply list_elem_of_here|by apply list_elem_of_further].
      - intros E%tmp_of_inj. done. }
    eexists _, fs'. split_and!; [done| |].
    + intros u [->|Hu]%elem_of_cons; cbn [dget].
      * rewrite String.eqb_refl, Et. destruct (Hout t Ht) as [->|(_ & u & Hu & E)].
        -- unfold fs1. by rewrite lookup_insert_eq.
        -- exfalso. refine (Hfree t u _ _ E); [apply list_elem_of_here|by apply list_elem_of_further].
      * assert (u <> t) by set_solver. rewrite Hin, Hfs1 by (try apply Htmp; done).
        destruct (String.eqb_spec u t) as [->|]; done.
    + intros p [Hp Hp']%not_elem_of_cons.
      destruct (base.decide (p = tmp_of t)) as [->|Hne].
      * right. split; [|exists t; split; [apply list_elem_of_here|done]].
        destruct (Hout _ Hp') as [->|[-> _]]; [|done]. unfold fs1. by rewrite lookup_insert_ne, lookup_delete_eq by congruence.
      * destruct (Hout p Hp') as [->|(? & u & ? & ?)]; [left; by apply Hfs1|right].
        split; [done|]. exists u. split; [by apply list_elem_of_further|done].
Qed.

Lemma create_missing_exists su wanted fs : (forall t, t ∈ dkeys wanted -> is_Some (fs !! t)) ->
  create_missing su wanted fs = (map (fun t => "exists   " +:+ t) (dkeys wanted), Ok fs).
Proof.
  induction wanted as [|[t text] wanted IH]; intros Hin; [done|]. simpl.
  destruct (Hin t (list_elem_of_here _ _)) as [f ->]. rewrite IH; [done|]. intros u Hu. apply Hin. by apply list_elem_of_further.
Qed.

Definition bootstrap_targets (secrets_dir tool_credential : string) : list string :=
  dkeys (wanted_files (path_join secrets_dir EmptyString) (path_join tool_credential EmptyString) EmptyString EmptyString EmptyString).

Lemma wanted_targets dir cred key keyring credential :
  dkeys (wanted_files (path_join dir EmptyString) (path_join cred EmptyString) key keyring credential) = bootstrap_targets dir cred.
Proof. unfold bootstrap_targets, wanted_files. by repeat apply dkeys_dset. Qed.

Lemma wanted_nodup dir cred key keyring credential : NoDup (dkeys (wanted_files dir cred key keyring credential)).
Proof. unfold wanted_files. repeat apply dset_NoDup. apply NoDup_singleton. Qed.

(** Bootstrapping is idempotent: unless a temporary file that is left over cannot be written, it ends well;
    every wanted file exists then, one that existed is as it was and a new one is not writable; no other file
    changes, but for the temporary ones; and bootstrapping again, with whatever new secrets, creates nothing and
    changes no file. *)
Theorem bootstrap_idempotent su dir cred key keyring credential fs :
  let targets := bootstrap_targets dir cred in
  tmp_free targets ->
  (forall t, t ∈ targets -> fs !! t = None -> writable_at su (tmp_of t) fs = true) ->
  exists out fs', _bootstrap su dir cred key keyring credential fs = (out, Ok fs')
    /\ (forall t, t ∈ targets -> exists f, fs' !! t = Some f
          /\ match fs !! t with Some f0 => f = f0 | None => f_writable f = false /\ f_text f ∈ [key; keyring; credential] end)
    /\ (forall p, p ∉ targets -> p ∉ map tmp_of targets -> fs' !! p = fs !! p)
    /\ forall key2 keyring2 credential2,
         _bootstrap su dir cred key2 keyring2 credential2 fs' = (map (fun t => "exists   " +:+ t) targets, Ok fs').
Proof.
  intros targets Hfree Hw. unfold _bootstrap.
  destruct (create_missing_spec su (wanted_files (path_join dir EmptyString) (path_join cred EmptyString) key keyring credential) fs)
    as (out & fs' & E & Hin & Hout); rewrite ?wanted_targets; try done; [apply wanted_nodup|].
  rewrite wanted_targets in Hin, Hout. fold targets in Hin, Hout.
  assert (forall t, t ∈ targets -> exists f, fs' !! t = Some f
            /\ match fs !! t with Some f0 => f = f0 | None => f_writable f = false /\ f_text f ∈ [key; keyring; credential] end) as Hall.
  { intros t Ht. rewrite Hin by done. destruct (fs !! t) as [f|]; [by exists f|].
    destruct (dget t _) as [s|] eqn:Es; [|exfalso].
    - eexists. split; [done|]. split; [done|]. apply dget_Some_in in Es. unfold wanted_files in Es.
      apply dset_in in Es as [Es|[_ ->]]; [|set_solver]. apply dset_in in Es as [Es|[_ ->]]; set_solver.
    - apply dget_None in Es. by rewrite wanted_targets in Es. }
  exists out, fs'. split_and!; [done|done| |].
  - intros p Hp Hp'. destruct (Hout p Hp) as [|(_ & t & Ht & ->)]; [done|]. exfalso. apply Hp'. by apply list_elem_of_fmap_2.
  - intros key2 keyring2 credential2. rewrite create_missing_exists, wanted_targets; [done|].
    intros t Ht. rewrite wanted_targets in Ht. destruct (Hall t Ht) as (f & -> & _). done.
Qed.

Lemma path_text_ends absolute l w : exists r, path_text absolute (l ++ [w]) = r +:+ w.
Proof.
  assert (exists r, s_concat "/" (l ++ [w]) = r +:+ w) as [r E].
  { induction l as [|x l [r IH]]; [by exists EmptyString|]. exists (x +:+ "/" +:+ r).
    change ((x :: l) ++ [w]) with (x :: (l ++ [w])). destruct (l ++ [w]) as [|y l'] eqn:El; [by destruct l|].
    rewrite s_concat_cons, IH. by rewrite !s_app_assoc. }
  unfold path_text. destruct absolute; [exists ("/" +:+ r); by rewrite E, s_app_assoc|].
  destruct (l ++ [w]) as [|y l'] eqn:El; [by destruct l|]. exists r. by rewrite E.
Qed.

Lemma path_join_ends base w : is_absolute w = false -> path_parts w = [w] -> exists r, path_join base w = r +:+ w.
Proof. intros Ha Hp. unfold path_join. rewrite Ha, Hp. apply path_text_ends. Qed.

Lemma keyring_not_key base : path_join base "token_keyring" <> path_join base "signing_key".
Proof.
  destruct (path_join_ends base "token_keyring") as [r ->]; [done|done|].
  destruct (path_join_ends base "signing_key") as [r' ->]; [done|done|].
  intros E%(f_equal s_rev). rewrite !s_rev_app in E. discriminate E.
Qed.

(** Interrupted between the change of permissions and the renaming, it cannot be run again but by the superuser. *)
Lemma bootstrap_interrupted dir cred key keyring credential text (fs : files) :
  let target := path_join (path_join dir EmptyString) "signing_key" in
  path_join cred EmptyString <> target ->
  fs !! target = None -> fs !! tmp_of target = Some (mk_file text false) ->
  main (let? _ := (_bootstrap false dir cred key keyring credential fs).2 in Ok 0) = Traceback (OSError "Permission denied").
Proof.
  intros target Hc Ht Htmp. unfold _bootstrap.
  assert (exists rest, wanted_files (path_join dir EmptyString) (path_join cred EmptyString) key keyring credential = (target, key) :: rest) as [rest ->].
  { unfold wanted_files. fold target. cbn [dset]. destruct (String.eqb_spec (path_join (path_join dir EmptyString) "token_keyring") target) as [E|_].
    - destruct (keyring_not_key (path_join dir EmptyString)). done.
    - cbn [dset]. case_match eqn:E; [apply String.eqb_eq in E; congruence|eauto]. }
  cbn [create_missing]. rewrite Ht, write_atomically_spec. unfold writable_at. by rewrite Htmp.
Qed.

(** *** Keyring commands *)

Lemma save_load `{Externals} su path k fs : wf_ring k -> writable_at su (tmp_of path) fs = true ->
  exists fs', save_keyring su path k fs = Ok fs' /\ load_keyring path fs' = Ok k /\ is_Some (fs' !! path).
Proof.
  intros Hk Hw. unfold save_keyring. rewrite write_atomically_spec, Hw. eexists. split; [done|].
  unfold load_keyring, read_file. rewrite lookup_insert_eq. split; [by apply keyring_round_trip|done].
Qed.

Lemma vouched_keys `{Externals} k k' token c : dget (kid c) (keys k') = dget (kid c) (keys k) -> vouched k' token c <-> vouched k token c.
Proof. intros E. unfold vouched. by rewrite E. Qed.

Lemma vouched_key `{Externals} k token c : vouched k token c -> is_Some (dget (kid c) (keys k)).
Proof. intros (key & body & signature & data & payload & _ & -> & _). done. Qed.

(** The keyring commands change what they say and nothing else, through the file: keygen on a ring makes the
    new key the active one, and every token under another key is vouched for as it was before; retiring a key
    other than the active one withdraws exactly the tokens under that key, and the active key is never retired;
    keygen without a file makes a ring of one key, which is active. *)
Theorem keyring_commands `{Externals} su day kid_entropy new_key path fs k :
  let new := _new_kid day kid_entropy in
  wf_ring k -> clean day = true -> (32 <= String.length new_key)%nat -> writable_at su (tmp_of path) fs = true ->
  (load_keyring path fs = Ok k ->
    (exists fs' k', token_keygen su day kid_entropy new_key path fs = Ok (new, fs') /\ load_keyring path fs' = Ok k' /\ wf_ring k'
       /\ active k' = new /\ dget new (keys k') = Some new_key
       /\ forall token c, kid c <> new -> vouched k' token c <-> vouched k token c)
    /\ (forall i, dmem i (keys k) = true -> i <> active k ->
         exists fs' k', token_retire su path i fs = Ok ("retired " +:+ i, fs') /\ load_keyring path fs' = Ok k' /\ wf_ring k'
           /\ active k' = active k /\ forall token c, vouched k' token c <-> vouched k token c /\ kid c <> i)
    /\ token_retire su path (active k) fs = Raise (ValueError "cannot retire the active key; rotate first"))
  /\ (fs !! path = None ->
       exists fs' k', token_keygen su day kid_entropy new_key path fs = Ok (new, fs') /\ load_keyring path fs' = Ok k'
         /\ keys k' = [(new, new_key)] /\ active k' = new).
Proof.
  intros new Hk Hd Hlen Hw. split.
  - intros Hload. assert (is_Some (fs !! path)) as Hfile.
    { unfold load_keyring, read_file in Hload. by destruct (fs !! path). }
    split_and!.
    + pose proof (rotate_wf day kid_entropy new_key k Hk Hd Hlen) as Hr.
      destruct (save_load su path _ fs Hr Hw) as (fs' & Hs & Hl & _). exists fs', (rotate day kid_entropy new_key k).2.
      unfold token_keygen. rewrite bool_decide_eq_true_2, Hload by done. cbn [result_bind rotate].
      cbn [rotate snd] in Hs. rewrite Hs. split_and!; [done|done|done|done|apply dget_dset_eq|].
      intros token c Hc. apply vouched_keys. cbn [rotate snd keys]. rewrite dget_dset_ne; [done|]. by intros E.
    + intros i Hi Hne. destruct (retire i k) as [k'|e] eqn:Er; [|exfalso].
      * destruct (retire_wf i k k' Hk Er) as (Hk' & _ & Hget).
        destruct (save_load su path k' fs Hk' Hw) as (fs' & Hs & Hl & _). exists fs', k'.
        unfold token_retire. rewrite Hload. cbn [result_bind]. rewrite Er. cbn [result_bind]. rewrite Hs.
        assert (active k' = active k) as Ha.
        { unfold retire in Er. destruct (String.eqb_spec i (active k)); [done|]. destruct (dmem i (keys k)); [|done]. by injection Er as <-. }
        split_and!; [done|done|done|done|]. intros token c. destruct (base.decide (kid c = i)) as [Hc|Hc].
        -- split; [|by intros [_ ?]]. intros Hv%vouched_key. rewrite Hget, Hc, String.eqb_refl in Hv. by destruct Hv.
        -- rewrite (vouched_keys k k'); [by split; [|intros [? _]]|]. rewrite Hget. by destruct (String.eqb_spec (kid c) i).
      * unfold retire in Er. destruct (String.eqb_spec i (active k)); [done|]. by rewrite Hi in Er.
    + unfold token_retire. rewrite Hload. cbn [result_bind]. unfold retire. by rewrite String.eqb_refl.
  - intros Hnone. destruct (generate_wf day kid_entropy new_key Hd Hlen) as (k' & Hg & Hk' & Ha).
    destruct (save_load su path k' fs Hk' Hw) as (fs' & Hs & Hl & _). exists fs', k'.
    unfold token_keygen. rewrite bool_decide_eq_false_2 by (rewrite Hnone; by intros [? ?]). rewrite Hg. cbn [result_bind].
    rewrite Hs, Ha. split_and!; [done|done| |done].
    unfold generate, make_keyring in Hg. inv_ok Hg. by injection Hg as <-.
Qed.

(** ** Exit status and outcomes *)

Lemma dmem_count d rows c : dmem d (foldl count_row c rows) = dmem d c || existsb (fun r => String.eqb d (row_decision r)) rows.
Proof.
  revert c. induction rows as [|r rows IH]; intros c; cbn [foldl existsb]; [by rewrite orb_false_r|].
  rewrite IH. unfold count_row at 1, dmem. rewrite dget_dset. destruct (String.eqb d (row_decision r)); [by rewrite orb_true_r|done].
Qed.

(** The status of a run is 1 when some row has a decision that is to fail it, and 0 otherwise. *)
Lemma run_status_spec fail_on rp : run_status fail_on rp =
  if existsb (fun r => str_in (row_decision r) (fail_on_set fail_on)) (rp_rows rp) then 1 else 0.
Proof.
  unfold run_status, counts. match goal with |- (if ?a then _ else _) = (if ?b then _ else _) => enough (a = b) as -> by done end. apply eq_true_iff_eq. rewrite !existsb_exists. split.
  - intros (d & Hd & Hr). rewrite dmem_count in Hr. cbn [dmem dget orb] in Hr. apply existsb_exists in Hr as (r & Hin & ->%String.eqb_eq).
    exists r. split; [done|]. apply str_in_spec. by apply list_elem_of_In.
  - intros (r & Hin & Hr%str_in_spec). exists (row_decision r). split; [by apply list_elem_of_In|].
    rewrite dmem_count. apply orb_true_iff. right. apply existsb_exists. exists r. by rewrite String.eqb_refl.
Qed.

(** A decision is shown with the outcome of its last execution, when there is one. *)
Lemma executions_last before r after id outcome :
  is_execution r = true -> pget "decision_id" r = PStr id -> pget "outcome" r = outcome ->
  Forall (fun r' => is_execution r' = true -> pget "decision_id" r' <> PStr id) after ->
  dget id (executions (before ++ r :: after)) = Some outcome.
Proof.
  intros He Hid Ho Hafter. unfold executions. rewrite List.filter_app, foldl_app. cbn [List.filter]. rewrite He. cbn [foldl]. rewrite Hid, Ho.
  set (d := foldl _ [] _). assert (dget id (dset id outcome d) = Some outcome) as Hd by apply dget_dset_eq.
  revert Hd. generalize (dset id outcome d) as d'. clear d. induction Hafter as [|r' after Hr' Hafter IH]; intros d' Hd'; [done|].
  cbn [List.filter]. destruct (is_execution r') eqn:E; [|by apply IH]. cbn [foldl]. apply IH.
  specialize (Hr' eq_refl). destruct (pget "decision_id" r') as [| | | |id'| | | | | |]; try done.
  rewrite dget_dset_ne; [done|]. by intros ->.
Qed.

Module Witnesses.
#[local] Existing Instances Sample.externals.

Definition some_files : files := {[ "/run/secrets/signing_key" := mk_file "an older key" false ]}.
Definition targets : list string := ["/run/secrets/signing_key"; "/run/secrets/token_keyring"; "/run/tool/credential"].

Lemma targets_run : bootstrap_targets "/run/secrets/" "/run/tool//credential" = targets.
Proof. vm_compute. reflexivity. Qed.
Lemma targets_free : tmp_free targets.
Proof.
  assert (forallb (fun t => forallb (fun t' => negb (String.eqb t (tmp_of t'))) targets) targets = true) as H by (vm_compute; reflexivity).
  intros t t' Ht Ht' ->. rewrite forallb_forall in H. specialize (H (tmp_of t') ltac:(by apply list_elem_of_In)).
  rewrite forallb_forall in H. specialize (H t' ltac:(by apply list_elem_of_In)). by rewrite String.eqb_refl in H.
Qed.
Lemma no_leftover t : t ∈ targets -> writable_at false (tmp_of t) some_files = true.
Proof.
  intros Ht. unfold writable_at, some_files. rewrite lookup_singleton_ne; [done|].
  intros E. refine (targets_free _ t _ Ht E). apply list_elem_of_here.
Qed.

(** On a host that has the signing key only. *)
Lemma bootstrap_idempotent_witness : exists out fs', _bootstrap false "/run/secrets/" "/run/tool//credential" "k" "r" "c" some_files = (out, Ok fs')
  /\ fs' !! "/run/secrets/signing_key" = Some (mk_file "an older key" false).
Proof.
  destruct (bootstrap_idempotent false "/run/secrets/" "/run/tool//credential" "k" "r" "c" some_files) as (out & fs' & Hrun & Hall & _).
  - rewrite targets_run. exact targets_free.
  - rewrite targets_run. intros t Ht _. by apply no_leftover.
  - exists out, fs'. split; [exact Hrun|]. destruct (Hall "/run/secrets/signing_key") as (f & Hf & ->); [rewrite targets_run; apply list_elem_of_here|exact Hf].
Defined.

(** What it says. *)
Example bootstrap_run : (_bootstrap false "/run/secrets/" "/run/tool//credential" "k" "r" "c" some_files).1
  = ["exists   /run/secrets/signing_key"; "created  /run/secrets/token_keyring"; "created  /run/tool/credential"].
Proof. vm_compute. reflexivity. Qed.

Definition key1 : string := "fedcba9876543210fedcba9876543210".
Definition ring2 : Keyring := mk_keyring [("k20231001-61", key1); ("k20231114-62", Identity.Witnesses.key0)] "k20231114-62".
Definition ring_files : files := {[ "keys.json" := mk_file (to_json ring2) true ]}.
Lemma ring2_wf : wf_ring ring2.
Proof.
  split_and!.
  - apply distinct_NoDup. by vm_compute.
  - repeat constructor; vm_compute; lia.
  - by vm_compute.
Qed.
Lemma ring_loads : load_keyring "keys.json" ring_files = Ok ring2.
Proof. unfold load_keyring, read_file, ring_files. rewrite lookup_singleton_eq. apply keyring_round_trip, ring2_wf. Qed.

(** The older of two keys is retired. *)
Lemma keyring_commands_witness : exists fs' k', token_retire false "keys.json" "k20231001-61" ring_files = Ok ("retired k20231001-61", fs')
  /\ load_keyring "keys.json" fs' = Ok k' /\ active k' = "k20231114-62".
Proof.
  destruct (keyring_commands false "k20240101" "e" key1 "keys.json" ring_files ring2) as [Hc _];
    [exact ring2_wf|by vm_compute|vm_compute; lia|by vm_compute|].
  destruct (Hc ring_loads) as (_ & Hr & _). destruct (Hr "k20231001-61") as (fs' & k' & H1 & H2 & _ & H3 & _); [by vm_compute|done|].
  exists fs', k'. split_and!; [exact H1|exact H2|exact H3].
Defined.

(** Durations, and the option of decisions that fail a run. *)
Example durations : map _duration ["90s"; "15m"; "1h"; "45"] = [Ok 90; Ok 900; Ok 3600; Ok 45]
  /\ _duration "soon" = Raise (ValueError "invalid literal for int() with base 10: 'soon'").
Proof. vm_compute. done. Qed.
Example fail_on_texts : fail_on_set " deny, escalate,," = ["DENY"; "ESCALATE"].
Proof. vm_compute. reflexivity. Qed.
(** A bare relative path of the configuration is one under its directory; a URL and an absolute path are not touched. *)
Example state_paths : map (fun v => from_directory "/etc/capgate" (PStr v)) ["state.db"; "sqlite:///state.db"; "/var/state.db"]
  = map PStr ["/etc/capgate/state.db"; "sqlite:///state.db"; "/var/state.db"].
Proof. vm_compute. reflexivity. Qed.
(** The rate limits, and a field that is not one. *)
Example unknown_rate `{Arith} (num_of : pyval -> result num) :
  from_mapping num_of (PDict [("clientrate", PInt 3)]) = Raise (ValueError "rate_limit: unknown fields ['clientrate']").
Proof. reflexivity. Qed.
End Witnesses.
