(* ===== verification/Artifacts.v ===== *)
(** * Build inputs: deploy/fetch_artifacts.py

    The packages an image needs, by the index of a repository: the closure of their dependencies, computed
    with a work list; and the archives that are written only when their digest is the one published. What is
    downloaded and what the base image has are parameters; unpacking is not modelled. Texts are ASCII. *)

From S2P Require Import Prelude Regex PyVal Externals Json Contract Base64 Workload.

(** ** Texts *)

(** [text.split("\n\n")], the lines of a block, [text.split()] and the text before a mark. *)
Definition nl (c : ascii) : bool := byte_of c =? 10.
Fixpoint blocks_from (acc s : string) : list string :=
  match s with
  | EmptyString => [s_rev acc]
  | String c s1 =>
      match s1 with
      | String d s2 => if nl c && nl d then s_rev acc :: blocks_from EmptyString s2 else blocks_from (String c acc) s1
      | EmptyString => [s_rev (String c acc)]
      end
  end.
Definition blocks (text : string) : list string := blocks_from EmptyString text.
Definition lines (text : string) : list string := split_on newline text.
Definition words (text : string) : list string :=
  List.filter (fun w => negb (s_is_empty w)) (split_on " " (s_map (fun c => if is_space_char c then " "%char else c) text)).
Definition before (c : ascii) (s : string) : string := hd EmptyString (split_on c s).

(** ** Verified downloads *)

Section downloads.
Context `{Externals}.
(** What a URL gives. *)
Variable fetch : string -> result string.

Definition PBS_RELEASE : string := "20260901".
Definition PYTHON_VERSION : string := "3.12.14".
Definition python_name (arch : string) : string :=
  "cpython-" +:+ PYTHON_VERSION +:+ "+" +:+ PBS_RELEASE +:+ "-" +:+ arch +:+ "-unknown-linux-musl-install_only_stripped.tar.gz".
(** The same with "+" as "%2B". *)
Definition python_name_quoted (arch : string) : string :=
  "cpython-" +:+ PYTHON_VERSION +:+ "%2B" +:+ PBS_RELEASE +:+ "-" +:+ arch +:+ "-unknown-linux-musl-install_only_stripped.tar.gz".
Definition python_base : string := "https://github.com/astral-sh/python-build-standalone/releases/download/" +:+ PBS_RELEASE.

(** [dict(line.split()[::-1] for line in ...)]: file names to digests. *)
Definition sum_entry (line : string) : result (string * string) :=
  match words line with [digest; name] => Ok (name, digest) | _ => Raise (ValueError "dictionary update sequence element has the wrong length") end.
Definition sums_of (text : string) : result (dict string) :=
  let? entries := traverse sum_entry (List.filter (fun l => negb (is_blank l)) (lines text)) in
  Ok (dupdate [] entries).

(** The archive as it is after the run, [None] when there is none. *)
Inductive fetched := Cached | Written (data : string).
Definition fetch_python (arch : string) (target : option string) : result fetched :=
  let? text := fetch (python_base +:+ "/SHA256SUMS") in
  let? sums := sums_of text in
  match dget (python_name arch) sums with
  | None => Raise (KeyError (python_name arch))
  | Some expected =>
      if match target with Some data => String.eqb (sha256_hex data) expected | None => false end then Ok Cached
      else
        let? data := fetch (python_base +:+ "/" +:+ python_name_quoted arch) in
        if String.eqb (sha256_hex data) expected then Ok (Written data)
        else Raise (RuntimeError ("python: checksum mismatch (" +:+ sha256_hex data +:+ " != " +:+ expected +:+ ")"))
  end.
End downloads.

(** ** The package index *)

Definition field_of (line : string) : option (string * string) :=
  match line with
  | String k (String c (String v rest)) => if is_char ":" c then Some (chr1 k, String v rest) else None
  | _ => None
  end.
Definition block_fields (block : string) : dict string :=
  foldl (fun d line => match field_of line with Some (k, v) => dset k v d | None => d end) [] (lines block).
(** [parse_apkindex], of the text of the APKINDEX member. *)
Definition parse_apkindex (text : string) : dict (dict string) :=
  foldl (fun packages block => let fields := block_fields block in
           match dget "P" fields with Some name => dset name fields packages | None => packages end)
    [] (blocks text).

Definition field (k : string) (fields : dict string) : string := default EmptyString (dget k fields).

(** [providers.setdefault(token, []).append(name)] *)
Definition provide (token name : string) (providers : dict (list string)) : dict (list string) :=
  dset token (default [] (dget token providers) ++ [name]) providers.
Definition provide_package (providers : dict (list string)) (entry : string * dict string) : dict (list string) :=
  let '(name, fields) := entry in
  foldl (fun d token => provide (before "=" token) name d) (provide name name providers) (words (field "p" fields)).
Definition providers_of (index : dict (dict string)) : dict (list string) := foldl provide_package [] index.

(** ** The closure of the dependencies *)

Section closure.
Variable index : dict (dict string).
Variable installed : list string.

Definition providers : dict (list string) := providers_of index.
Definition dep_name (dep : string) : string := before "~" (before "<" (before ">" (before "=" dep))).
Definition dependencies (name : string) : list string :=
  List.filter (fun dep => negb (starts_with "!" dep)) (words (field "D" (default [] (dget name index)))).
Definition candidates (dep : string) : list string := default [] (dget (dep_name dep) providers).

(** One dependency: nothing to do, or its first provider is queued. *)
Definition queue_dep (wanted : list string) (dep : string) : list string :=
  match candidates dep with
  | [] => []
  | c :: cs => if existsb (fun c => str_in c installed || str_in c wanted) (c :: cs) then [] else [c]
  end.

(** [queue.pop()] takes the last element, so the queue is kept with its end first. *)
Definition step (name : string) (wanted stack : list string) : list string * list string :=
  if str_in name wanted || str_in name installed then (wanted, stack)
  else
    let wanted := wanted ++ [name] in
    (wanted, foldl (fun st dep => queue_dep wanted dep ++ st) stack (dependencies name)).
Fixpoint resolve (fuel : nat) (wanted stack : list string) : option (list string) :=
  match stack with
  | [] => Some wanted
  | name :: stack =>
      match fuel with
      | O => None
      | S fuel => let '(wanted, stack) := step name wanted stack in resolve fuel wanted stack
      end
  end.

(** The fuel: the packages asked for, and every dependency of every package of the index. *)
Definition pending (wanted : list string) : nat :=
  list_sum (map (fun name => if str_in name wanted then 0%nat else length (dependencies name)) (dkeys index)).
Definition wanted_packages (packages : list string) : option (list string) :=
  let first := List.filter (fun p => dmem p index) packages in
  resolve (length first + pending []) [] (reverse first).

(** The files of an image's directory: those packages by name, and the release they are of. *)
Definition package_file (name : string) : result string :=
  match dget "V" (default [] (dget name index)) with
  | Some version => Ok (name +:+ "-" +:+ version +:+ ".apk")
  | None => Raise (KeyError "V")
  end.
Definition apk_files (packages : list string) : option (result (list string)) :=
  wanted ← wanted_packages packages;
  Some (let? files := traverse package_file (sorted_strs wanted) in Ok (files ++ ["RELEASE"])).

(** ** Theorems *)

Lemma provided_in token name p (P : string -> Prop) : (forall t l, dget t p = Some l -> Forall P l) -> P name ->
  forall t l, dget t (provide token name p) = Some l -> Forall P l.
Proof.
  intros Hp Hn t l. unfold provide. rewrite dget_dset. destruct (String.eqb t token); [|apply Hp].
  intros [= <-]. apply Forall_app. split; [|by repeat constructor]. destruct (dget token p) eqn:E; [by eapply Hp|constructor].
Qed.

Lemma providers_in_index token l : dget token providers = Some l -> Forall (fun c => c ∈ dkeys index) l.
Proof.
  unfold providers, providers_of. assert (forall (d : dict (dict string)) p, (forall e, e ∈ d -> e ∈ index) ->
    (forall t l, dget t p = Some l -> Forall (fun c => c ∈ dkeys index) l) ->
    forall t l, dget t (foldl provide_package p d) = Some l -> Forall (fun c => c ∈ dkeys index) l) as H; [|by apply H].
  induction d as [|[name fields] d IH]; intros p Hd Hp; [done|]. cbn [foldl]. apply IH; [intros e He; apply Hd; by apply list_elem_of_further|].
  assert (name ∈ dkeys index) as Hn by (apply (list_elem_of_fmap_2 fst index (name, fields)), Hd, list_elem_of_here).
  cbn [provide_package]. generalize (words (field "p" fields)) as tokens. pose proof (provided_in name name p _ Hp Hn) as Hp'. revert Hp'.
  generalize (provide name name p) as q. intros q Hq tokens. revert q Hq. induction tokens as [|tk tokens IHt]; intros q Hq; [done|].
  cbn [foldl]. apply IHt. by apply provided_in.
Qed.

Lemma candidates_in_index dep c : c ∈ candidates dep -> c ∈ dkeys index.
Proof.
  unfold candidates. destruct (dget (dep_name dep) providers) as [l|] eqn:E; [|by intros ?%not_elem_of_nil].
  intros Hc. pose proof (providers_in_index _ _ E) as Hl. rewrite Forall_forall in Hl. by apply Hl.
Qed.

(** A dependency is met by one of [known] or of the base image. *)
Definition met (known : list string) (dep : string) : Prop :=
  candidates dep = [] \/ exists c, c ∈ candidates dep /\ (c ∈ installed \/ c ∈ known).

Lemma met_weaken known known' dep : (forall c, c ∈ known -> c ∈ known' \/ c ∈ installed) -> met known dep -> met known' dep.
Proof. intros Hk [H|(c & Hc & [Hi|Hn])]; [by left|right; eauto|]. right. exists c. destruct (Hk c Hn); auto. Qed.

Lemma queue_dep_spec wanted dep : met (wanted ++ queue_dep wanted dep) dep /\ (length (queue_dep wanted dep) <= 1)%nat
  /\ forall c, c ∈ queue_dep wanted dep -> head (candidates dep) = Some c.
Proof.
  unfold queue_dep, met. destruct (candidates dep) as [|c cs]; [split_and!; [by left|simpl; lia|by intros c ?%not_elem_of_nil]|].
  destruct (existsb _ (c :: cs)) eqn:E.
  - split_and!; [|simpl; lia|by intros ? ?%not_elem_of_nil]. right. apply existsb_exists in E as (x & Hx & Hin). exists x.
    split; [by apply list_elem_of_In|]. apply orb_true_iff in Hin as [?%str_in_spec|?%str_in_spec]; [by left|right; set_solver].
  - split_and!; [right; exists c; set_solver|simpl; lia|]. intros x Hx%list_elem_of_singleton. by subst x.
Qed.

Lemma queue_deps_spec wanted deps stack : exists extra,
  foldl (fun st dep => queue_dep wanted dep ++ st) stack deps = extra ++ stack /\ (length extra <= length deps)%nat
  /\ (forall dep, dep ∈ deps -> met (wanted ++ extra) dep) /\ forall c, c ∈ extra -> exists dep, dep ∈ deps /\ head (candidates dep) = Some c.
Proof.
  revert stack. induction deps as [|dep deps IH]; intros stack; cbn [foldl].
  { exists []. split_and!; [done|simpl; lia|by intros ? ?%not_elem_of_nil|by intros ? ?%not_elem_of_nil]. }
  destruct (queue_dep_spec wanted dep) as (Hm & Hl & Hh). destruct (IH (queue_dep wanted dep ++ stack)) as (extra & -> & Hlen & Hmet & Hhead).
  exists (extra ++ queue_dep wanted dep). split_and!.
  - by rewrite app_assoc.
  - rewrite length_app. simpl. lia.
  - intros d [->|Hd]%elem_of_cons; [refine (met_weaken _ _ _ _ Hm)|refine (met_weaken _ _ _ _ (Hmet d Hd))]; set_solver.
  - intros c [Hc|Hc]%elem_of_app; [destruct (Hhead c Hc) as (d & ? & ?); exists d; set_solver|exists dep; set_solver].
Qed.

Section invariant.
Variable packages : list string.

Record sound (wanted stack : list string) : Prop := {
  so_distinct : NoDup wanted;
  so_index : forall n, n ∈ wanted ++ stack -> n ∈ dkeys index;
  so_fresh : forall n, n ∈ wanted -> n ∉ installed;
  so_closed : forall n dep, n ∈ wanted -> dep ∈ dependencies n -> met (wanted ++ stack) dep;
  so_asked : forall p, p ∈ packages -> p ∈ dkeys index -> p ∈ installed \/ p ∈ wanted ++ stack;
  so_needed : forall n, n ∈ wanted ++ stack -> n ∈ packages \/ exists m dep, m ∈ wanted /\ dep ∈ dependencies m /\ head (candidates dep) = Some n;
}.

Lemma step_sound name wanted stack : sound wanted (name :: stack) -> sound (step name wanted stack).1 (step name wanted stack).2.
Proof.
  intros [H1 H2 H3 H4 H5 H6]. unfold step. destruct (str_in name wanted || str_in name installed) eqn:E; cbn [fst snd].
  - assert (name ∈ wanted \/ name ∈ installed) as Hname by (apply orb_true_iff in E as [?%str_in_spec|?%str_in_spec]; auto).
    split; [done|set_solver|done| | |set_solver].
    + intros n dep Hn Hd. refine (met_weaken _ _ _ _ (H4 n dep Hn Hd)). set_solver.
    + intros p Hp Hi. destruct (H5 p Hp Hi) as [?|Hin]; [by left|]. set_solver.
  - apply orb_false_iff in E as [Ew Ei]. assert (name ∉ wanted) as Hw by (rewrite <- str_in_spec; by rewrite Ew).
    assert (name ∉ installed) as Hi by (rewrite <- str_in_spec; by rewrite Ei).
    destruct (queue_deps_spec (wanted ++ [name]) (dependencies name) stack) as (extra & -> & _ & Hmet & Hhead).
    assert (forall c, c ∈ extra -> c ∈ dkeys index) as Hextra.
    { intros c Hc. destruct (Hhead c Hc) as (dep & _ & Hh). apply (candidates_in_index dep). destruct (candidates dep); [done|]. injection Hh as ->. apply list_elem_of_here. }
    split.
    + apply NoDup_app. split_and!; [done|set_solver|apply NoDup_singleton].
    + set_solver.
    + set_solver.
    + intros n dep [Hn|Hn%list_elem_of_singleton]%elem_of_app Hd;
        [refine (met_weaken _ _ _ _ (H4 n dep Hn Hd))|subst n; refine (met_weaken _ _ _ _ (Hmet dep Hd))]; set_solver.
    + intros p Hp Hpi. destruct (H5 p Hp Hpi); [by left|right; set_solver].
    + intros n Hn. assert (n ∈ extra \/ n ∈ wanted ++ name :: stack) as [Hx|Ho] by set_solver.
      * destruct (Hhead n Hx) as (dep & ? & ?). right. exists name, dep. set_solver.
      * destruct (H6 n Ho) as [|(m & dep & ? & ? & ?)]; [by left|right; exists m, dep; set_solver].
Qed.

(** What is left to do shrinks with every package that is taken. *)
Lemma pending_added name wanted : name ∈ dkeys index -> name ∉ wanted ->
  (pending (wanted ++ [name]) + length (dependencies name) <= pending wanted)%nat.
Proof.
  intros Hin Hw. unfold pending. set (f := fun (w : list string) n => if str_in n w then 0%nat else length (dependencies n)).
  assert (forall n, (f (wanted ++ [name]) n <= f wanted n)%nat) as Hle.
  { intros n. unfold f. destruct (str_in n wanted) eqn:E; [|case_match; lia].
    assert (str_in n (wanted ++ [name]) = true) as ->; [|done]. apply str_in_spec. apply str_in_spec in E. set_solver. }
  assert (f (wanted ++ [name]) name = 0%nat) as H0 by (unfold f; assert (str_in name (wanted ++ [name]) = true) as -> by (apply str_in_spec; set_solver); done).
  assert (f wanted name = length (dependencies name)) as H1.
  { unfold f. destruct (str_in name wanted) eqn:E; [|done]. by apply str_in_spec in E. }
  change (list_sum (map (f (wanted ++ [name])) (dkeys index)) + length (dependencies name) <= list_sum (map (f wanted) (dkeys index)))%nat.
  rewrite <- H1. clear H1. clearbody f. induction (dkeys index) as [|n l IH]; [by apply not_elem_of_nil in Hin|]. cbn [map]. rewrite !list_sum_cons.
  assert (list_sum (map (f (wanted ++ [name])) l) <= list_sum (map (f wanted) l))%nat as Hl.
  { clear -Hle. induction l as [|x l IHl]; [done|]. cbn [map]. rewrite !list_sum_cons. specialize (Hle x). lia. }
  apply elem_of_cons in Hin as [->|Hin]; [rewrite H0; lia|]. specialize (IH Hin). specialize (Hle n). lia.
Qed.

Lemma resolve_sound fuel wanted stack : sound wanted stack -> (length stack + pending wanted <= fuel)%nat ->
  exists wanted', resolve fuel wanted stack = Some wanted' /\ sound wanted' [].
Proof.
  revert wanted stack. induction fuel as [|fuel IH]; intros wanted [|name stack] Hs Hf; try (by exists wanted); [simpl in Hf; lia|].
  cbn [resolve]. pose proof (step_sound _ _ _ Hs) as Hs'. assert (length (step name wanted stack).2 + pending (step name wanted stack).1 <= fuel)%nat as Hf'.
  { unfold step. destruct (str_in name wanted || str_in name installed) eqn:E; cbn [fst snd length] in *; [lia|].
    destruct (queue_deps_spec (wanted ++ [name]) (dependencies name) stack) as (extra & -> & Hlen & _). rewrite length_app.
    apply orb_false_iff in E as [Ew _]. assert (name ∉ wanted) as Hw by (rewrite <- str_in_spec; by rewrite Ew).
    pose proof (pending_added name wanted (so_index _ _ Hs name ltac:(set_solver)) Hw). lia. }
  destruct (step name wanted stack) as [w' s']. by apply IH.
Qed.
End invariant.

(** C40. The packages of an image are resolved whatever the index says, cycles and missing providers included: the
    work list is emptied within the fuel that is given, and what it gives are distinct packages of the index, none of
    them in the base image; every package asked for that the index has is there or in the base image; every
    dependency of a package that has a provider is met by one that is there or in the base image; and nothing is
    there but what was asked for and the first providers of dependencies. *)
Theorem packages_resolved (packages : list string) : exists wanted, wanted_packages packages = Some wanted
  /\ NoDup wanted /\ (forall n, n ∈ wanted -> n ∈ dkeys index /\ n ∉ installed)
  /\ (forall p, p ∈ packages -> p ∈ dkeys index -> p ∈ installed \/ p ∈ wanted)
  /\ (forall n dep, n ∈ wanted -> dep ∈ dependencies n -> met wanted dep)
  /\ (forall n, n ∈ wanted -> n ∈ packages \/ exists m dep, m ∈ wanted /\ dep ∈ dependencies m /\ head (candidates dep) = Some n).
Proof.
  unfold wanted_packages. set (first := List.filter (fun p => dmem p index) packages).
  assert (forall p, p ∈ first <-> p ∈ packages /\ p ∈ dkeys index) as Hfirst.
  { intros p. unfold first. rewrite !list_elem_of_In, filter_In, <- list_elem_of_In, <- list_elem_of_In. apply and_iff_compat_l. unfold dmem.
    destruct (dget p index) eqn:E; [|split; [done|]; intros Hin; by apply dget_None in E].
    split; [|done]. intros _. apply dget_Some_in in E. by apply (list_elem_of_fmap_2 fst index (p, _)) in E. }
  destruct (resolve_sound packages (length first + pending []) [] (reverse first)) as (wanted & Hr & [H1 H2 H3 H4 H5 H6]).
  - split; cbn [Datatypes.app].
    + apply NoDup_nil_2.
    + intros n Hn. rewrite elem_of_reverse in Hn. by apply Hfirst in Hn as [_ ?].
    + intros n Hn. by apply not_elem_of_nil in Hn.
    + intros n dep Hn. by apply not_elem_of_nil in Hn.
    + intros p ? ?. right. apply elem_of_reverse. by apply Hfirst.
    + intros n Hn. rewrite elem_of_reverse in Hn. left. by apply Hfirst in Hn as [? _].
  - by rewrite length_reverse.
  - exists wanted. split_and!; [done|done|intros n Hn; split; [apply H2; by rewrite app_nil_r|by apply H3]| | |].
    + intros p Hp Hi. pose proof (H5 p Hp Hi) as E. by rewrite app_nil_r in E.
    + intros n dep Hn Hd. pose proof (H4 n dep Hn Hd) as E. by rewrite app_nil_r in E.
    + intros n Hn. apply H6. by rewrite app_nil_r.
Qed.
End closure.

(** The Python archive is never one whose digest is not the published one. *)
Theorem python_verified `{Externals} fetch arch target r : fetch_python fetch arch target = Ok r ->
  exists text sums expected, fetch (python_base +:+ "/SHA256SUMS") = Ok text /\ sums_of text = Ok sums
    /\ dget (python_name arch) sums = Some expected
    /\ match r with Cached => exists data, target = Some data /\ sha256_hex data = expected | Written data => sha256_hex data = expected end.
Proof.
  unfold fetch_python. intros (text & Ht & (sums & Hs & Hrun)%result_bind_ok)%result_bind_ok. exists text, sums.
  destruct (dget (python_name arch) sums) as [expected|] eqn:Ee; [|done]. exists expected. split_and!; [done..|].
  destruct target as [data|]; [destruct (String.eqb_spec (sha256_hex data) expected) as [Hd|]; [injection Hrun as <-; eauto|]|];
    apply result_bind_ok in Hrun as (fresh & _ & Hrun); destruct (String.eqb_spec (sha256_hex fresh) expected); try done; by injection Hrun as <-.
Qed.

Module Examples.
Definition line (s : string) : string := s +:+ chr1 newline.
(** nginx needs a library that is provided under another name, and the base image has the shell. *)
Definition text : string :=
  line "P:nginx" +:+ line "V:1.2-r0" +:+ line "D:so:libc.so=1 pcre2>=10 /bin/sh !nginx-old" +:+ line EmptyString
  +:+ line "P:pcre2" +:+ line "V:10.4-r1" +:+ line "D:nginx" +:+ line EmptyString
  +:+ line "P:musl" +:+ line "V:1.2.5" +:+ line "p:so:libc.so=1 cmd:ldd".
Example files_of : apk_files (parse_apkindex text) ["busybox"] ["nginx"; "missing"]
  = Some (Ok ["musl-1.2.5.apk"; "nginx-1.2-r0.apk"; "pcre2-10.4-r1.apk"; "RELEASE"]).
Proof. vm_compute. reflexivity. Qed.
Example installed_of : wanted_packages (parse_apkindex text) ["busybox"; "musl"] ["nginx"] = Some ["nginx"; "pcre2"].
Proof. vm_compute. reflexivity. Qed.
End Examples.
