(* ===== verification/Fetch.v ===== *)
(** * The rest of the build inputs: deploy/fetch_artifacts.py

    The cache directory as the script leaves it: the Python archive, the sources of PyYAML and the wheels, each from
    an archive whose digest is the published one, and the packages of the images. The directory is a map of paths to
    contents; what a URL gives, what docker prints and what is in an archive are parameters. *)

From S2P Require Import Prelude Datetime Regex PyVal Externals Json Capability Contract AuditTrail Base64 Workload Identity PyObj Api Artifacts.

(** ** The cache *)

Definition cache : Type := dict string.
Definition fs (A : Type) : Type := cache -> result A * cache.
Definition fs_ret {A} (a : A) : fs A := fun c => (Ok a, c).
Definition fs_lift {A} (r : result A) : fs A := fun c => (r, c).
Definition fs_bind {A B} (m : fs A) (f : A -> fs B) : fs B := fun c =>
  match m c with (Ok a, c') => f a c' | (Raise e, c') => (Raise e, c') end.
Notation "'let+' x ':=' m 'in' k" := (fs_bind m (fun x => k))
  (at level 10, x pattern, m at level 100, k at level 200) : result_scope.
Fixpoint fs_each {X} (f : X -> fs unit) (l : list X) : fs unit :=
  match l with [] => fs_ret tt | x :: l' => let+ _ := f x in fs_each f l' end.
Definition look (path : string) : fs (option string) := fun c => (Ok (dget path c), c).
Definition write_file (path content : string) : fs unit := fun c => (Ok tt, dset path content c).
(** [shutil.rmtree(target, ignore_errors=True); target.mkdir(parents=True)] *)
Definition fresh_dir (dir : string) : fs unit := fun c => (Ok tt, List.filter (fun kv => negb (starts_with (dir +:+ "/") kv.1)) c).

(** [next(x for x in l if p(x))] *)
Fixpoint next_of {X} (p : X -> result bool) (l : list X) : result X :=
  match l with
  | [] => Raise StopIteration
  | x :: l' => let? b := p x in if b then Ok x else next_of p l'
  end.
Definition text_at (v : pyval) (k : string) : result string :=
  let? x := item_of v k in match x with PStr s => Ok s | _ => Raise (TypeError "expected str") end.

Section scripts.
Context `{Externals}.
Variable fetch : string -> result string.
(** The output of a docker command, without the white space around it. *)
Variable docker : list string -> result string.
(** The members of an archive, with whether a member is a file; those of a wheel. *)
Variable tar_members : string -> result (list (string * bool * string)).
Variable zip_members : string -> result (list (string * string)).
(** The text of the APKINDEX member of an index. *)
Variable apkindex_text : string -> result string.

Definition machine : result string :=
  let? arch := docker ["version"; "-f"; "{{.Server.Arch}}"] in
  Ok (if String.eqb arch "arm64" then "aarch64" else if String.eqb arch "amd64" then "x86_64" else arch).

Definition put_python (arch : string) : fs unit :=
  let+ target := look "python.tar.gz" in
  let+ r := fs_lift (fetch_python fetch arch target) in
  match r with Cached => fs_ret tt | Written data => write_file "python.tar.gz" data end.

(** A file that a package index lists, downloaded, when it has the digest listed with it. *)
Definition published (what : string) (chosen : pyval -> result bool) (meta_url : string) : result (pyval * string) :=
  let? meta := (let? raw := fetch meta_url in json_bytes raw) in
  let? urls := (let? v := item_of meta "urls" in elements v) in
  let? file := next_of chosen urls in
  let? data := (let? url := text_at file "url" in fetch url) in
  let? digest := (let? digests := item_of file "digests" in item_of digests "sha256") in
  if equals_str digest (sha256_hex data) then Ok (file, data) else Raise (RuntimeError (what +:+ ": checksum mismatch")).

Definition PYYAML_VERSION : string := "6.0.2".
Definition is_sdist (u : pyval) : result bool := let? t := item_of u "packagetype" in Ok (equals_str t "sdist").
(** Only the directory itself exists, so a member below it cannot be written. *)
Definition put_module (prefix : string) (m : string * bool * string) : fs unit :=
  let '(name, is_file, content) := m in
  match strip_prefix prefix name with
  | Some rest => if negb is_file then fs_ret tt
                 else if has_text "/" rest then fs_lift (Raise (FileNotFoundError ("yaml/" +:+ rest)))
                 else write_file ("yaml/" +:+ rest) content
  | None => fs_ret tt
  end.
Definition fetch_pyyaml : fs unit :=
  let+ cached := look "yaml/__init__.py" in
  match cached with
  | Some _ => fs_ret tt
  | None =>
      let+ (sdist, data) := fs_lift (published "pyyaml" is_sdist ("https://pypi.org/pypi/PyYAML/" +:+ PYYAML_VERSION +:+ "/json")) in
      let+ members := fs_lift (tar_members data) in
      let+ filename := fs_lift (text_at sdist "filename") in
      let+ _ := fresh_dir "yaml" in
      fs_each (put_module (s_take (String.length filename - 7) filename +:+ "/lib/yaml/")) members
  end.

Definition WHEELS : list (string * string) := [("uvicorn", "0.53.0"); ("h11", "0.16.0"); ("click", "8.5.0")].
Definition wheels_wanted : string := dumps ", " ": " (PDict (sort_items (map (fun kv => (kv.1, PStr kv.2)) WHEELS))).
Definition wheels_stamp : string := "pylibs/.versions".
Definition ends_with (suffix s : string) : bool := match strip_prefix (s_rev suffix) (s_rev s) with Some _ => true | None => false end.
Definition is_pure_wheel (u : pyval) : result bool :=
  let? t := item_of u "packagetype" in
  if equals_str t "bdist_wheel" then let? f := text_at u "filename" in Ok (ends_with "py3-none-any.whl" f) else Ok false.
(** What of the metadata of a wheel is left out. *)
Definition left_out (member : string) : bool :=
  has_text ".dist-info/" (before "/" member +:+ "/") && negb (ends_with "METADATA" member || ends_with "entry_points.txt" member).
(** [ZipFile.extract] drops empty, "." and ".." components; a name that ends in a slash is a directory. *)
Definition extract_path (member : string) : string :=
  s_concat "/" (List.filter (fun part => negb (str_in part [EmptyString; "."; ".."])) (split_on "/" member)).
Definition put_member (m : string * string) : fs unit :=
  if left_out m.1 || ends_with "/" m.1 then fs_ret tt else write_file ("pylibs/" +:+ extract_path m.1) m.2.
Definition fetch_wheel (nv : string * string) : fs unit :=
  let+ (_, data) := fs_lift (published nv.1 is_pure_wheel ("https://pypi.org/pypi/" +:+ nv.1 +:+ "/" +:+ nv.2 +:+ "/json")) in
  let+ members := fs_lift (zip_members data) in
  fs_each put_member members.
Definition fetch_wheels : fs unit :=
  let+ stamp := look wheels_stamp in
  if match stamp with Some text => String.eqb text wheels_wanted | None => false end then fs_ret tt
  else
    let+ _ := fresh_dir "pylibs" in
    let+ _ := fs_each fetch_wheel WHEELS in
    write_file wheels_stamp wheels_wanted.

(** [".".join(release.split(".")[:2])] *)
Definition branch_of (release : string) : string := "v" +:+ s_concat "." (firstn 2 (split_on "." release)).
Definition fetch_apks (arch directory : string) (packages : list string) : fs unit :=
  let+ release := fs_lift (docker ["run"; "--rm"; "alpine:latest"; "cat"; "/etc/alpine-release"]) in
  let+ info := fs_lift (docker ["run"; "--rm"; "alpine:latest"; "sh"; "-c"; "apk info 2>/dev/null"]) in
  let installed := words info in
  let repo := "https://dl-cdn.alpinelinux.org/alpine/" +:+ branch_of release +:+ "/main/" +:+ arch in
  let+ text := fs_lift (let? data := fetch (repo +:+ "/APKINDEX.tar.gz") in apkindex_text data) in
  let index := parse_apkindex text in
  let wanted := default [] (wanted_packages index installed packages) in
  let+ _ := fresh_dir directory in
  let+ _ := fs_each (fun name => let+ file := fs_lift (package_file index name) in
                                 let+ data := fs_lift (fetch (repo +:+ "/" +:+ file)) in
                                 write_file (directory +:+ "/" +:+ file) data) (sorted_strs wanted) in
  write_file (directory +:+ "/RELEASE") release.

Definition APK_SETS : list (string * list string) := [("apk", ["iptables"; "ip6tables"]); ("apk-proxy", ["nginx"])].
Definition fetch_main : fs Z :=
  let+ arch := fs_lift machine in
  let+ _ := put_python arch in
  let+ _ := fetch_pyyaml in
  let+ _ := fetch_wheels in
  let+ _ := fs_each (fun dp => fetch_apks arch dp.1 dp.2) APK_SETS in
  fs_ret 0.
End scripts.

(** ** Theorems *)

Section verified.
Context `{Externals}.
Variable fetch : string -> result string.
Variable tar_members : string -> result (list (string * bool * string)).
Variable zip_members : string -> result (list (string * string)).

(** What is handed on has the digest that is published with it. *)
Lemma published_verified what chosen url file data : published fetch what chosen url = Ok (file, data) ->
  exists digests, item_of file "digests" = Ok digests /\ item_of digests "sha256" = Ok (PStr (sha256_hex data)).
Proof.
  unfold published. intros Hp. apply result_bind_ok in Hp as (meta & _ & Hp). apply result_bind_ok in Hp as (urls & _ & Hp).
  apply result_bind_ok in Hp as (f & _ & Hp). apply result_bind_ok in Hp as (d & _ & Hp).
  apply result_bind_ok in Hp as (digest & (digests & Hds & Hd)%result_bind_ok & Hp).
  destruct (equals_str digest (sha256_hex d)) eqn:E; [|done]. injection Hp as -> ->. apply equals_str_spec in E as ->. eauto.
Qed.

(** Every step writes at most one file, and what [P] allows. *)
Definition writes (P : string -> string -> Prop) (m : fs unit) : Prop := forall c x c', m c = (x, c') ->
  forall path content, dget path c' = Some content -> dget path c = Some content \/ P path content.
Lemma writes_each {X} (P : string -> string -> Prop) (f : X -> fs unit) l : (forall x, x ∈ l -> writes P (f x)) -> writes P (fs_each f l).
Proof.
  induction l as [|x l IH]; intros Hf c y c' Hrun path content; cbn [fs_each] in Hrun; [injection Hrun as _ <-; by left|].
  unfold fs_bind in Hrun. destruct (f x c) as [[[]|e] c1] eqn:E.
  - intros Hg. assert (writes P (fs_each f l)) as Hw by (apply IH; intros; apply Hf; by right).
    destruct (Hw _ _ _ Hrun _ _ Hg) as [Hg'|]; [|by right]. eapply Hf; [by left|exact E|done].
  - injection Hrun as _ <-. eapply Hf; [by left|exact E].
Qed.
Lemma writes_file (P : string -> string -> Prop) path content : P path content -> writes P (write_file path content).
Proof.
  intros HP c x c' [= _ <-] p v. rewrite dget_dset. destruct (String.eqb_spec p path) as [->|]; [intros [= <-]; by right|by left].
Qed.
Lemma writes_ret (P : string -> string -> Prop) : writes P (fs_ret tt).
Proof. intros c x c' [= _ <-]. by left. Qed.
Lemma fresh_dir_get dir c path content : dget path (fresh_dir dir c).2 = Some content -> dget path c = Some content /\ starts_with (dir +:+ "/") path = false.
Proof.
  cbn [fresh_dir snd]. induction c as [|[k v] c IH]; [done|]. cbn [List.filter fst dget].
  destruct (starts_with (dir +:+ "/") k) eqn:E; cbn [negb].
  - intros Hg. destruct (IH Hg) as [Hg' Hs]. destruct (String.eqb_spec path k) as [->|]; [congruence|done].
  - cbn [dget]. destruct (String.eqb_spec path k) as [->|]; [by intros [= <-]|done].
Qed.

(** Nothing unverified is unpacked: whatever happens, a file of the cache after the run was there before, or it is a
    member of an archive that has the digest published for it. *)
Theorem pyyaml_verified (c : cache) (x : result unit) (c' : cache) : fetch_pyyaml fetch tar_members c = (x, c') ->
  forall path content, dget path c' = Some content ->
  dget path c = Some content
  \/ exists sdist data members digests name, item_of sdist "digests" = Ok digests /\ item_of digests "sha256" = Ok (PStr (sha256_hex data))
       /\ tar_members data = Ok members /\ (name, true, content) ∈ members.
Proof.
  unfold fetch_pyyaml, fs_bind, look, fs_lift. destruct (dget "yaml/__init__.py" c); [intros [= _ <-]; by left|].
  destruct (published _ _ _ _) as [[sdist data]|e] eqn:Ep; [|intros [= _ <-]; by left].
  destruct (tar_members data) as [members|e] eqn:Et; [|intros [= _ <-]; by left].
  destruct (text_at sdist "filename") as [filename|e]; [|intros [= _ <-]; by left].
  apply published_verified in Ep as (digests & Hd & Hs). intros Hrun path content Hg.
  destruct (writes_each (fun _ content => exists name, (name, true, content) ∈ members)
    (put_module (s_take (String.length filename - 7) filename +:+ "/lib/yaml/")) members) with (2 := Hrun) (3 := Hg) as [Hg'|[name Hin]].
  - intros [[name is_file] text] Hin. unfold put_module. destruct (strip_prefix _ name) as [rest|]; [|apply writes_ret].
    destruct is_file; [|apply writes_ret]. cbn [negb]. destruct (has_text "/" rest); [intros c1 y c2 [= _ <-]; by left|].
    apply writes_file. eauto.
  - left. by apply (fresh_dir_get "yaml").
  - right. exists sdist, data, members, digests, name. by split_and!.
Qed.
Theorem wheels_verified (c : cache) (x : result unit) (c' : cache) : fetch_wheels fetch zip_members c = (x, c') ->
  forall path content, dget path c' = Some content ->
  dget path c = Some content \/ (path = wheels_stamp /\ content = wheels_wanted /\ x = Ok tt)
  \/ exists wheel data members digests name, item_of wheel "digests" = Ok digests /\ item_of digests "sha256" = Ok (PStr (sha256_hex data))
       /\ zip_members data = Ok members /\ (name, content) ∈ members /\ path = "pylibs/" +:+ extract_path name.
Proof.
  unfold fetch_wheels. unfold fs_bind at 1, look. destruct (match dget wheels_stamp c with Some _ => _ | None => _ end); [intros [= _ <-]; by left|].
  unfold fs_bind. destruct (fresh_dir "pylibs" c) as [[[]|e] c1] eqn:Ef; [|done]. pose proof (fresh_dir_get "pylibs" c) as Hfresh. rewrite Ef in Hfresh. cbn [snd] in Hfresh.
  set (from_archive := fun path content => exists wheel data members digests name, item_of wheel "digests" = Ok digests /\ item_of digests "sha256" = Ok (PStr (sha256_hex data))
       /\ zip_members data = Ok members /\ (name, content) ∈ members /\ path = "pylibs/" +:+ extract_path name).
  assert (writes from_archive (fs_each (fetch_wheel fetch zip_members) WHEELS)) as Hw.
  { apply writes_each. intros nv _ d y d'. unfold fetch_wheel, fs_bind, fs_lift. destruct (published _ _ _ _) as [[wheel data]|e] eqn:Ep; [|intros [= _ <-]; by left].
    destruct (zip_members data) as [members|e] eqn:Ez; [|intros [= _ <-]; by left]. apply published_verified in Ep as (digests & Hd & Hs).
    revert d y d'. change (writes from_archive (fs_each put_member members)). apply writes_each. intros [name text] Hin. unfold put_member.
    destruct (left_out _ || _); [apply writes_ret|]. apply writes_file. exists wheel, data, members, digests, name. by split_and!. }
  destruct (fs_each _ WHEELS c1) as [[[]|e] c2] eqn:Ee; intros [= <- <-] path content.
  - rewrite dget_dset. destruct (String.eqb_spec path wheels_stamp) as [->|]; [intros [= <-]; auto|].
    intros Hg. destruct (Hw _ _ _ Ee _ _ Hg) as [Hg'|]; [left; by apply Hfresh|auto].
  - intros Hg. destruct (Hw _ _ _ Ee _ _ Hg) as [Hg'|]; [left; by apply Hfresh|auto].
Qed.
(** A run that fails does not look complete: unless a verified archive has a member of that name, there is no stamp, so
    the next run starts over. *)
Theorem wheels_incomplete (c : cache) (e : exn) (c' : cache) : fetch_wheels fetch zip_members c = (Raise e, c') ->
  (forall data members name content, zip_members data = Ok members -> (name, content) ∈ members -> extract_path name <> ".versions") ->
  dget wheels_stamp c' = None.
Proof.
  intros Hrun Hno. destruct (dget wheels_stamp c') as [content|] eqn:Eg; [|done]. exfalso. revert Hrun.
  unfold fetch_wheels. unfold fs_bind at 1, look. destruct (match dget wheels_stamp c with Some _ => _ | None => _ end); [done|].
  unfold fs_bind. destruct (fresh_dir "pylibs" c) as [[[]|e'] c1] eqn:Ef; [|done]. pose proof (fresh_dir_get "pylibs" c) as Hfresh. rewrite Ef in Hfresh. cbn [snd] in Hfresh.
  assert (writes (fun path _ => path <> wheels_stamp) (fs_each (fetch_wheel fetch zip_members) WHEELS)) as Hw.
  { apply writes_each. intros nv _ d y d'. unfold fetch_wheel, fs_bind, fs_lift. destruct (published _ _ _ _) as [[wheel data]|e'']; [|intros [= _ <-]; by left].
    destruct (zip_members data) as [members|e''] eqn:Ez; [|intros [= _ <-]; by left].
    revert d y d'. change (writes (fun path _ => path <> wheels_stamp) (fs_each put_member members)). apply writes_each. intros [name text] Hin. unfold put_member.
    destruct (left_out _ || _); [apply writes_ret|]. apply writes_file. intros Heq. apply (Hno data members name text); [done..|]. by apply (s_app_inj "pylibs/") in Heq. }
  destruct (fs_each _ WHEELS c1) as [[[]|e''] c2] eqn:Ee; [done|]. intros [= <- <-]. destruct (Hw _ _ _ Ee _ _ Eg) as [Hg|]; [|done].
  apply Hfresh in Hg as [_ Hs]. discriminate Hs.
Qed.
End verified.
