(* ===== verification/AgentLoop.v ===== *)
(** * The agent loop: examples/agent_loop/loop.py

    A model proposes tool calls, the loop sends each one through the MCP gateway, and the outcomes go back to the
    model, for a bounded number of turns. A model is an instance of the class [Model]: [ScriptedModel], which replays
    a plan, and [AnthropicModel], which keeps a conversation with a message service. What the gateway answers is a
    parameter ([exchange]), a function of every message sent before and of the one it answers; so is what the message
    service answers ([create]), a function of the request it is given. *)

From S2P Require Import Prelude Regex PyVal Externals Json Request Decision NetAddr Timeutil Capability Contract Policy State AuditTrail Effects Interceptor Executor Harness RateLimit Base64 Workload Identity PyObj Api.

(** ** Data *)

Record ToolCall := mk_tool_call { cl_id : string; cl_name : string; cl_input : pyval }.
Record ToolOutcome := mk_tool_outcome {
  to_id : string;
  to_name : string;
  to_text : string;
  to_is_error : bool;
  to_harness : pyval;
}.
Record Turn := mk_turn { tu_text : string; tu_calls : list ToolCall }.

Class Model (Mo : Type) := {
  model_start : string -> list (dict pyval) -> string -> Mo -> result Turn * Mo;
  model_step : list ToolOutcome -> Mo -> result Turn * Mo;
}.

(** ** The gateway as a tool surface *)

(** A message with the protocol version of its header, and the answer of an HTTP exchange. *)
Record rpc_request := mk_rpc { rp_message : dict pyval; rp_version : option pyval }.
Inductive rpc_answer :=
| Body (raw : string)
| HttpError (code : Z) (text : string)      (* with the repr of the first 200 bytes *)
| NoAnswer (e : exn).                       (* what the HTTP library raises *)

(** [gw_sent]: what was sent, the newest last. *)
Record GatewayClient := mk_gateway {
  gw_token : result string;
  gw_id : Z;
  gw_protocol : pyval;
  gw_sent : list rpc_request;
}.

(** Calls in sequence: the first that raises ends them. *)
Definition then_do {St A B} (r : result A * St) (f : A -> St -> result B * St) : result B * St :=
  match r with (Ok a, s) => f a s | (Raise e, s) => (Raise e, s) end.

Section gateway.
Context `{Externals}.
Variable exchange : list rpc_request -> rpc_request -> rpc_answer.

Definition rpc_message (method : string) (params : option pyval) (id : option Z) : dict pyval :=
  [("jsonrpc", PStr "2.0"); ("method", PStr method)]
  ++ match params with Some p => [("params", p)] | None => [] end
  ++ match id with Some i => [("id", PInt i)] | None => [] end.

(** What is made of the answer. *)
Definition read_reply (notify : bool) (a : rpc_answer) : result pyval :=
  match a with
  | NoAnswer e => Raise e
  | HttpError code text => Raise (RuntimeError ("gateway HTTP " +:+ show_Z code +:+ ": " +:+ text))
  | Body raw =>
      if notify || s_is_empty (strip_by (fun c => is_char " " c || in_range 9 13 c) raw) then Ok (PDict [])
      else
        let? reply := json_bytes raw in
        let? failed := contains_key "error" reply in
        if failed then let? e := item_of reply "error" in Raise (RuntimeError ("gateway JSON-RPC error: " +:+ py_str e))
        else get_of reply "result" (PDict [])
  end.

Definition _rpc (method : string) (params : option pyval) (notify : bool) (g : GatewayClient) : result pyval * GatewayClient :=
  match gw_token g with
  | Raise e => (Raise e, g)
  | Ok _ =>
      let id := if notify then gw_id g else gw_id g + 1 in
      let g := mk_gateway (gw_token g) id (gw_protocol g) (gw_sent g) in
      let message := rpc_message method params (if notify then None else Some id) in
      if negb (serializable (PDict message)) then (Raise (TypeError "Object is not JSON serializable"), g) else
      let q := mk_rpc message (if truthy (gw_protocol g) && negb (String.eqb method "initialize") then Some (gw_protocol g) else None) in
      (read_reply notify (exchange (gw_sent g) q), mk_gateway (gw_token g) id (gw_protocol g) (gw_sent g ++ [q]))
  end.

Definition hello : pyval :=
  PDict [("protocolVersion", PStr "2025-11-25"); ("capabilities", PDict []);
         ("clientInfo", PDict [("name", PStr "capgate-agent-loop"); ("version", PStr "1.0")])].
Definition connect (g : GatewayClient) : result unit * GatewayClient :=
  then_do (_rpc "initialize" (Some hello) false g) (fun r g =>
    match get_of r "protocolVersion" PNone with
    | Raise e => (Raise e, g)
    | Ok v =>
        then_do (_rpc "notifications/initialized" (Some (PDict [])) true (mk_gateway (gw_token g) (gw_id g) v (gw_sent g)))
          (fun _ g => (Ok tt, g))
    end).

Definition tool_entry (t : pyval) : result (dict pyval) :=
  let? name := item_of t "name" in
  let? description := get_of t "description" (PStr EmptyString) in
  let? schema := get_of t "inputSchema" (PDict [("type", PStr "object")]) in
  Ok [("name", name); ("description", description); ("input_schema", schema)].
Definition loop_list_tools (g : GatewayClient) : result (list (dict pyval)) * GatewayClient :=
  then_do (_rpc "tools/list" None false g) (fun r g =>
    (let? listed := get_of r "tools" (PList []) in let? l := elements listed in traverse tool_entry l, g)).

Definition block_text (b : pyval) : result (option pyval) :=
  let? kind := get_of b "type" PNone in
  if equals_str kind "text" then let? t := get_of b "text" (PStr EmptyString) in Ok (Some t) else Ok None.
(** [join] reads every item before it looks at their types. *)
Definition joined_text (t : pyval) : result string :=
  match t with PStr s => Ok s | _ => Raise (TypeError "sequence item: expected str instance") end.
Definition outcome_of_result (call : ToolCall) (r : pyval) : result ToolOutcome :=
  let? content := get_of r "content" (PList []) in
  let? l := elements content in
  let? items := traverse block_text l in
  let? texts := traverse joined_text (omap id items) in
  let text := s_concat (chr1 newline) texts in
  let? meta := get_of r "_meta" PNone in
  let? capgate := get_of (if truthy meta then meta else PDict []) "capgate" (PDict []) in
  let? is_error := get_of r "isError" PNone in
  Ok (mk_tool_outcome (cl_id call) (cl_name call) (if s_is_empty text then dumps ", " ": " r else text) (truthy is_error) capgate).
Definition call_params (call : ToolCall) : pyval := PDict [("name", PStr (cl_name call)); ("arguments", cl_input call)].
Definition loop_call_tool (call : ToolCall) (g : GatewayClient) : result ToolOutcome * GatewayClient :=
  then_do (_rpc "tools/call" (Some (call_params call)) false g) (fun r g => (outcome_of_result call r, g)).

(** ** The loop *)

Inductive Step :=
| StepText (text : string)
| StepTool (call : ToolCall) (outcome : ToolOutcome).

Fixpoint run_calls (calls : list ToolCall) (g : GatewayClient) : result (list (ToolCall * ToolOutcome)) * GatewayClient :=
  match calls with
  | [] => (Ok [], g)
  | call :: calls' =>
      then_do (loop_call_tool call g) (fun o g => then_do (run_calls calls' g) (fun rest g => (Ok ((call, o) :: rest), g)))
  end.

Section loop.
Context {Mo : Type} `{!Model Mo}.

Definition text_step (t : Turn) : list Step := if s_is_empty (tu_text t) then [] else [StepText (tu_text t)].
(** [for _ in range(max_turns)]; the turn the model makes after the last pass is not looked at. *)
Fixpoint turns (n : nat) (t : Turn) (st : GatewayClient * Mo) : result (list Step) * (GatewayClient * Mo) :=
  match n with
  | O => (Ok [], st)
  | S n' =>
      match tu_calls t with
      | [] => (Ok (text_step t), st)
      | calls =>
          match run_calls calls st.1 with
          | (Raise e, g) => (Raise e, (g, st.2))
          | (Ok done, g) =>
              let '(r, m) := model_step (map snd done) st.2 in
              then_do (r, (g, m)) (fun t' st =>
              then_do (turns n' t' st) (fun rest st =>
                (Ok (text_step t ++ map (fun co => StepTool co.1 co.2) done ++ rest), st)))
          end
      end
  end.
Definition run_agent_loop (m : Mo) (g : GatewayClient) (system goal : string) (max_turns : nat) : result (list Step) * (GatewayClient * Mo) :=
  match then_do (connect g) (fun _ g => loop_list_tools g) with
  | (Raise e, g) => (Raise e, (g, m))
  | (Ok tools, g) =>
      let '(r, m) := model_start system tools goal m in
      then_do (r, (g, m)) (fun t st => turns max_turns t st)
  end.
End loop.
End gateway.

(** ** The scripted model *)

Record ScriptedModel := mk_scripted {
  sm_plan : list (list (string * pyval));
  sm_narrate : string;
  sm_n : nat;
}.
Definition scripted_calls (n : nat) (turn : list (string * pyval)) : list ToolCall :=
  imap (fun i na => mk_tool_call ("call-" +:+ show_Z (Z.of_nat n) +:+ "-" +:+ show_Z (Z.of_nat i)) na.1 na.2) turn.
Definition _next (m : ScriptedModel) : Turn * ScriptedModel :=
  match sm_plan m !! sm_n m with
  | None => (mk_turn "done" [], m)
  | Some turn =>
      let n := S (sm_n m) in
      (mk_turn (sm_narrate m) (scripted_calls n turn), mk_scripted (sm_plan m) (sm_narrate m) n)
  end.
(** The set of the tools' names is made and never read; a name that cannot be hashed raises. *)
Definition hashable_name (tool : dict pyval) : bool := match dget "name" tool with Some name => hashable name | None => true end.
Definition scripted_start (tools : list (dict pyval)) (m : ScriptedModel) : result Turn * ScriptedModel :=
  if forallb hashable_name tools then let '(t, m') := _next m in (Ok t, m') else (Raise (TypeError "unhashable type"), m).
#[global] Instance scripted_model : Model ScriptedModel := {
  model_start := fun _ tools _ m => scripted_start tools m;
  model_step := fun _ m => let '(t, m') := _next m in (Ok t, m');
}.

(** ** The model behind a message service *)

Inductive content_block :=
| TextBlock (text : string)
| ToolUseBlock (id name : string) (input : pyval)
| OtherBlock.
Inductive chat_message :=
| UserGoal (goal : string)
| UserResults (outcomes : list ToolOutcome)
| Assistant (content : list content_block).
Record AnthropicModel := mk_anthropic {
  am_system : string;
  am_tools : list (dict pyval);
  am_messages : list chat_message;
}.
Definition text_of (b : content_block) : option string := match b with TextBlock t => Some t | _ => None end.
Definition call_of_block (b : content_block) : option ToolCall :=
  match b with ToolUseBlock i n input => Some (mk_tool_call i n input) | _ => None end.

Section anthropic.
Variable create : AnthropicModel -> result (list content_block).

Definition _respond (m : AnthropicModel) : result Turn * AnthropicModel :=
  match create m with
  | Raise e => (Raise e, m)
  | Ok content =>
      (Ok (mk_turn (s_concat EmptyString (omap text_of content)) (omap call_of_block content)),
       mk_anthropic (am_system m) (am_tools m) (am_messages m ++ [Assistant content]))
  end.
Definition anthropic_start (system : string) (tools : list (dict pyval)) (goal : string) (m : AnthropicModel) : result Turn * AnthropicModel :=
  _respond (mk_anthropic system tools [UserGoal goal]).
Definition anthropic_step (outcomes : list ToolOutcome) (m : AnthropicModel) : result Turn * AnthropicModel :=
  _respond (match outcomes with
            | [] => m
            | _ => mk_anthropic (am_system m) (am_tools m) (am_messages m ++ [UserResults outcomes])
            end).
#[local] Instance anthropic_model : Model AnthropicModel := {
  model_start := anthropic_start;
  model_step := anthropic_step;
}.
Definition run_anthropic `{Externals} exchange := run_agent_loop exchange (Mo := AnthropicModel).
End anthropic.

(** ** Theorems *)

Section correct.
Context `{Externals}.
Variable exchange : list rpc_request -> rpc_request -> rpc_answer.

Lemma then_do_ok {St A B} (r : result A * St) (f : A -> St -> result B * St) b s' :
  then_do r f = (Ok b, s') -> exists a s1, r = (Ok a, s1) /\ f a s1 = (Ok b, s').
Proof. destruct r as [[a|e] s1]; [eauto|done]. Qed.

Lemma rpc_ok method params notify g r g' : _rpc exchange method params notify g = (Ok r, g') ->
  exists q, rp_message q = rpc_message method params (if notify then None else Some (gw_id g + 1))
    /\ gw_id g' = (if notify then gw_id g else gw_id g + 1) /\ gw_sent g' = gw_sent g ++ [q]
    /\ read_reply notify (exchange (gw_sent g) q) = Ok r.
Proof.
  unfold _rpc. destruct (gw_token g) as [t|]; [|done]. destruct (negb _); [done|]. intros [= Hr <-].
  eexists. split; [|split_and!; [done|done|exact Hr]]. cbn [rp_message]. by destruct notify.
Qed.

(** The messages of calls that follow one another. *)
Definition calls_from (i : Z) (calls : list ToolCall) : list (dict pyval) :=
  imap (fun k call => rpc_message "tools/call" (Some (call_params call)) (Some (i + Z.of_nat k + 1))) calls.
Lemma calls_from_cons i call calls : calls_from i (call :: calls) =
  rpc_message "tools/call" (Some (call_params call)) (Some (i + 1)) :: calls_from (i + 1) calls.
Proof.
  unfold calls_from. cbn [imap]. rewrite Z.add_0_r. f_equal. apply imap_ext. intros k x _. cbn [compose].
  by replace (i + Z.of_nat (S k) + 1) with (i + 1 + Z.of_nat k + 1) by lia.
Qed.
Lemma calls_from_app i calls calls' : calls_from i (calls ++ calls') = calls_from i calls ++ calls_from (i + Z.of_nat (length calls)) calls'.
Proof.
  revert i. induction calls as [|call calls IH]; intros i; [by rewrite Z.add_0_r|].
  change ((call :: calls) ++ calls') with (call :: (calls ++ calls')). rewrite !calls_from_cons, IH. cbn [length Datatypes.app].
  by replace (i + 1 + Z.of_nat (length calls)) with (i + Z.of_nat (S (length calls))) by lia.
Qed.

(** The outcome is what the gateway answered to this call. *)
Definition answered_call (call : ToolCall) (o : ToolOutcome) : Prop :=
  to_id o = cl_id call /\ to_name o = cl_name call
  /\ exists sent i q r, rp_message q = rpc_message "tools/call" (Some (call_params call)) (Some i)
       /\ read_reply false (exchange sent q) = Ok r /\ outcome_of_result call r = Ok o.

Lemma outcome_of_call call r o : outcome_of_result call r = Ok o -> to_id o = cl_id call /\ to_name o = cl_name call.
Proof.
  unfold outcome_of_result. intros Ho. repeat apply result_bind_ok in Ho as (? & _ & Ho). by apply Ok_inj in Ho as <-.
Qed.

Lemma run_calls_ok calls g done g' : run_calls exchange calls g = (Ok done, g') ->
  map fst done = calls /\ gw_id g' = gw_id g + Z.of_nat (length calls)
  /\ map rp_message (gw_sent g') = map rp_message (gw_sent g) ++ calls_from (gw_id g) calls
  /\ Forall (fun co => answered_call co.1 co.2) done.
Proof.
  revert g done. induction calls as [|call calls IH]; intros g done; cbn [run_calls].
  { intros [= <- <-]. split_and!; [done|simpl; lia|by rewrite app_nil_r|constructor]. }
  intros (o & g1 & (r & g2 & Hrpc & [= Ho <-])%then_do_ok & (rest & g3 & Hrest & [= <- <-])%then_do_ok)%then_do_ok.
  apply rpc_ok in Hrpc as (q & Hq & Hid & Hsent & Hr). destruct (IH _ _ Hrest) as (Hm & Hi & Hs & Hall).
  split_and!.
  - cbn [map fst]. by rewrite Hm.
  - cbn [length]. rewrite Hi, Hid. lia.
  - rewrite Hs, Hsent, map_app, calls_from_cons, <- app_assoc, Hid. cbn [map Datatypes.app]. by rewrite Hq.
  - constructor; [|done]. cbn [fst snd]. destruct (outcome_of_call _ _ _ Ho). split_and!; [done|done|]. eexists _, _, _, _. done.
Qed.

Definition call_of (s : Step) : option ToolCall := match s with StepTool call _ => Some call | StepText _ => None end.
Definition step_ok (s : Step) : Prop := match s with StepTool call o => answered_call call o | StepText _ => True end.

Lemma calls_of_done done : omap call_of (map (fun co => StepTool co.1 co.2) done) = map fst done.
Proof. induction done as [|[c o] done IH]; [done|]. cbn. by rewrite IH. Qed.
Lemma text_step_spec t : omap call_of (text_step t) = [] /\ Forall step_ok (text_step t).
Proof. unfold text_step. destruct (s_is_empty _); split; repeat constructor. Qed.

Section any_model.
Context {Mo : Type} `{!Model Mo}.

Lemma turns_ok n t (st : GatewayClient * Mo) tr st' : turns exchange n t st = (Ok tr, st') ->
  map rp_message (gw_sent st'.1) = map rp_message (gw_sent st.1) ++ calls_from (gw_id st.1) (omap call_of tr) /\ Forall step_ok tr.
Proof.
  revert t st tr. induction n as [|n IH]; intros t st tr; cbn [turns].
  { intros [= <- <-]. split; [by rewrite app_nil_r|constructor]. }
  destruct (text_step_spec t) as [Ht1 Ht2]. destruct (tu_calls t) as [|call calls].
  { intros [= <- <-]. split; [by rewrite Ht1, app_nil_r|done]. }
  destruct (run_calls exchange _ _) as [[cos|] g1] eqn:Hrun; [|done]. apply run_calls_ok in Hrun as (Hm & Hi & Hs & Hall).
  destruct (model_step _ st.2) as [r m']. intros (t' & st1 & [= -> <-] & (rest & st2 & Hturns & [= <- <-])%then_do_ok)%then_do_ok.
  apply IH in Hturns as [Hs' Hall']. cbn [fst] in Hs'. rewrite !omap_app, Ht1, calls_of_done, Hm, app_nil_l. split.
  - rewrite Hs', Hs, calls_from_app, Hi, <- app_assoc. done.
  - apply Forall_app. split; [done|]. apply Forall_app. split; [|done]. apply Forall_map. exact Hall.
Qed.

(** The transcript is what happened: whatever the model, a run that ends has sent the handshake, one listing of the
    tools, and then one call for each call of the transcript, in order and under ids of their own, and nothing else;
    and each outcome of the transcript is what the gateway answered to its call. *)
Theorem transcript_is_sent (m : Mo) (g : GatewayClient) (system goal : string) (n : nat) (tr : list Step) (st' : GatewayClient * Mo) :
  run_agent_loop exchange m g system goal n = (Ok tr, st') ->
  map rp_message (gw_sent st'.1) = map rp_message (gw_sent g)
    ++ [rpc_message "initialize" (Some hello) (Some (gw_id g + 1));
        rpc_message "notifications/initialized" (Some (PDict [])) None;
        rpc_message "tools/list" None (Some (gw_id g + 2))]
    ++ calls_from (gw_id g + 2) (omap call_of tr)
  /\ Forall step_ok tr.
Proof.
  unfold run_agent_loop. destruct (then_do (connect exchange g) _) as [[tools|] g2] eqn:Hc; [|done].
  apply then_do_ok in Hc as ([] & g1 & Hc & Hl).
  destruct (model_start _ _ _ m) as [r m']. intros (t & st1 & [= -> <-] & (Hs & Hall)%turns_ok)%then_do_ok. split; [|done].
  unfold connect in Hc. apply then_do_ok in Hc as (r & g3 & (q1 & Hq1 & Hi1 & Hs1 & _)%rpc_ok & Hc).
  destruct (get_of r "protocolVersion" PNone) as [v|]; [|done].
  apply then_do_ok in Hc as (r2 & g4 & (q2 & Hq2 & Hi2 & Hs2 & _)%rpc_ok & [= <-]). cbn [gw_id gw_sent] in *.
  unfold loop_list_tools in Hl. apply then_do_ok in Hl as (r3 & g5 & (q3 & Hq3 & Hi3 & Hs3 & _)%rpc_ok & [= _ <-]). cbn [fst] in Hs.
  rewrite Hs, Hs3, Hs2, Hs1, !map_app. cbn [map]. rewrite Hq1, Hq2, Hq3, Hi3, Hi2, Hi1, <- !app_assoc.
  by replace (gw_id g + 1 + 1) with (gw_id g + 2) by lia.
Qed.
End any_model.

(** *** The conversation with the message service *)

Definition is_user (m : chat_message) : bool := match m with Assistant _ => false | _ => true end.
Definition asked_ids (content : list content_block) : list string := map cl_id (omap call_of_block content).
(** A goal first; then the two sides in turn, and what the user's side says next are the results of the calls asked
    for, all of them, in order. *)
Inductive conversation : list chat_message -> Prop :=
| conv_goal goal : conversation [UserGoal goal]
| conv_answer l u content : is_user u = true -> conversation (l ++ [u]) -> conversation ((l ++ [u]) ++ [Assistant content])
| conv_results l content outcomes : outcomes <> [] -> map to_id outcomes = asked_ids content ->
    conversation (l ++ [Assistant content]) -> conversation ((l ++ [Assistant content]) ++ [UserResults outcomes]).

(** The last word is the service's, and the turn is what it said. *)
Definition awaiting (t : Turn) (m : AnthropicModel) : Prop :=
  exists l content, am_messages m = l ++ [Assistant content] /\ conversation (am_messages m) /\ tu_calls t = omap call_of_block content.

Section anthropic_conversation.
Variable create : AnthropicModel -> result (list content_block).
#[local] Hint Extern 0 (Model AnthropicModel) => exact (anthropic_model create) : typeclass_instances.

Lemma respond_spec m l u r m' : am_messages m = l ++ [u] -> is_user u = true -> conversation (am_messages m) ->
  _respond create m = (r, m') -> conversation (am_messages m') /\ forall t, r = Ok t -> awaiting t m'.
Proof.
  intros Hm Hu Hc. unfold _respond. destruct (create m) as [content|e]; intros [= <- <-]; [|by split].
  assert (conversation (am_messages m ++ [Assistant content])) by (rewrite Hm in *; by constructor).
  split; [done|]. intros t [= <-]. exists (am_messages m), content. done.
Qed.

Lemma results_ids (calls : list ToolCall) (done : list (ToolCall * ToolOutcome)) : map fst done = calls ->
  Forall (fun co => answered_call co.1 co.2) done -> map to_id (map snd done) = map cl_id calls.
Proof. intros <-. induction 1 as [|co done (Hid & _) _ IH]; [done|]. cbn [map]. by rewrite Hid, IH. Qed.

Lemma turns_conversation n t st r st' : awaiting t st.2 -> turns exchange n t st = (r, st') -> conversation (am_messages st'.2).
Proof.
  revert t st r st'. induction n as [|n IH]; intros t st r st' Hw; pose proof Hw as (l & content & Hl & Hc & Ht); cbn [turns]; [by intros [= <- <-]|].
  destruct (tu_calls t) as [|call calls]; [by intros [= <- <-]|].
  destruct (run_calls exchange _ _) as [[cos|] g1] eqn:Hrun; [|by intros [= <- <-]].
  apply run_calls_ok in Hrun as (Hm & _ & _ & Hall). pose proof (results_ids _ _ Hm Hall) as Hids.
  destruct cos as [|co cos]; [done|]. cbn [model_step anthropic_model]. unfold anthropic_step. cbn [map] in *.
  destruct (_respond create _) as [r' m'] eqn:Er. eapply respond_spec in Er as [Hc' Hw']; [|done|done|].
  - destruct r' as [t'|]; cbn [then_do]; [|by intros [= <- <-]].
    destruct (turns exchange n t' _) as [r2 st2] eqn:Hturns. apply IH in Hturns; [|by apply Hw'].
    by destruct r2; cbn [then_do]; intros [= <- <-].
  - cbn [am_messages]. rewrite Hl in *. constructor; [done| |done]. unfold asked_ids. by rewrite <- Ht.
Qed.

(** Every tool call of the service is answered, by its id and in order, before the service is asked again, and no two
    messages of one side follow one another: however a run ends, exceptions of the gateway and of the service included,
    the conversation the model keeps is such a one, or is the one it had when the gateway failed before it began. *)
Theorem conversation_kept (m : AnthropicModel) (g : GatewayClient) (system goal : string) (n : nat) (r : result (list Step)) (st' : GatewayClient * AnthropicModel) :
  run_anthropic create exchange m g system goal n = (r, st') -> st'.2 = m \/ conversation (am_messages st'.2).
Proof.
  unfold run_anthropic, run_agent_loop. destruct (then_do (connect exchange g) _) as [[tools|] g1]; [|intros [= <- <-]; by left].
  cbn [model_start anthropic_model]. unfold anthropic_start. destruct (_respond create _) as [r' m'] eqn:Er.
  eapply (respond_spec _ []) in Er as [Hc Hw]; [|done|done|constructor].
  destruct r' as [t|]; cbn [then_do]; [|intros [= <- <-]; by right]. intros Hturns. right. eapply turns_conversation; [|exact Hturns]. by apply Hw.
Qed.
End anthropic_conversation.

(** The turns of a plan that are played: the first [n], up to the first that is empty. *)
Fixpoint played {A} (n : nat) (plan : list (list A)) : list (list A) :=
  match n, plan with
  | S n', (call :: calls) :: plan' => (call :: calls) :: played n' plan'
  | _, _ => []
  end.
Definition planned_calls (n : nat) (k : nat) (plan : list (list (string * pyval))) : list ToolCall :=
  List.concat (imap (fun i turn => scripted_calls (S (k + i)) turn) (played n plan)).

Lemma planned_cons n k turn plan : turn <> [] -> planned_calls (S n) k (turn :: plan) = scripted_calls (S k) turn ++ planned_calls n (S k) plan.
Proof.
  intros Hne. destruct turn as [|c turn]; [done|]. unfold planned_calls. cbn [played imap]. cbn [List.concat]. rewrite Nat.add_0_r. f_equal.
  f_equal. apply imap_ext. intros i x _. cbn. f_equal. lia.
Qed.

Lemma scripted_turns n plan before narrate g tr st' :
  let m := mk_scripted (before ++ plan) narrate (length before) in
  turns exchange n (_next m).1 (g, (_next m).2) = (Ok tr, st') -> omap call_of tr = planned_calls n (length before) plan.
Proof.
  revert plan before g tr. induction n as [|n IH]; intros plan before g tr m; cbn [turns]; [by intros [= <- <-]|].
  unfold m, _next. cbn [sm_plan sm_n sm_narrate]. destruct plan as [|turn plan].
  { rewrite app_nil_r, lookup_ge_None_2 by done. cbn [fst tu_calls]. intros [= <- <-]. by destruct (text_step_spec (mk_turn "done" [])). }
  rewrite list_lookup_middle by done. cbn [fst snd tu_calls]. destruct turn as [|c turn].
  { cbn [scripted_calls imap]. intros [= <- <-]. by destruct (text_step_spec (mk_turn narrate [])). }
  destruct (scripted_calls (S (length before)) (c :: turn)) as [|call calls] eqn:Ec; [done|].
  destruct (run_calls exchange _ _) as [[cos|] g1] eqn:Hrun; [|done]. apply run_calls_ok in Hrun as (Hm & _).
  cbn [model_step scripted_model]. destruct (_next _) as [t' m'] eqn:En.
  intros (t1 & st1 & [= -> <-] & (rest & st2 & Hturns & [= <- <-])%then_do_ok)%then_do_ok.
  destruct (text_step_spec (mk_turn narrate (call :: calls))) as [Ht _]. rewrite !omap_app, Ht, calls_of_done, Hm, planned_cons, <- Ec by done.
  cbn [Datatypes.app]. f_equal. specialize (IH plan (before ++ [c :: turn]) g1 rest).
  rewrite <- app_assoc, length_app, Nat.add_1_r in IH. cbn [Datatypes.app] in IH. rewrite En in IH. by apply IH.
Qed.

(** The scripted model plays its plan: the calls of a run are those of its first [max_turns] turns, up to the first
    empty one, in order. *)
Theorem plan_is_played (plan : list (list (string * pyval))) (narrate system goal : string) (g : GatewayClient) (n : nat) (tr : list Step)
    (st' : GatewayClient * ScriptedModel) :
  run_agent_loop exchange (mk_scripted plan narrate 0) g system goal n = (Ok tr, st') -> omap call_of tr = planned_calls n 0 plan.
Proof.
  unfold run_agent_loop. destruct (then_do (connect exchange g) _) as [[tools|] g1]; [|done].
  cbn [model_start scripted_model]. unfold scripted_start. destruct (forallb _ _); [|done]. destruct (_next _) as [t m'] eqn:En.
  cbn [then_do]. intros Hrun. apply (scripted_turns n plan [] narrate g1 tr st'). cbn [Datatypes.app length]. by rewrite En.
Qed.
End correct.

(** ** Instances *)

Module Witnesses.
#[local] Existing Instance Sample.externals.

(** A gateway that answers every call with the text [ok], and has one tool. *)
Definition answer_with (result : pyval) : rpc_answer := Body (dumps ", " ": " (PDict [("jsonrpc", PStr "2.0"); ("result", result)])).
Definition gateway_of_one (_ : list rpc_request) (q : rpc_request) : rpc_answer :=
  match dget "method" (rp_message q) with
  | Some (PStr "initialize") => answer_with (PDict [("protocolVersion", PStr "2025-11-25")])
  | Some (PStr "tools/list") => answer_with (PDict [("tools", PList [PDict [("name", PStr "send_email")]])])
  | Some (PStr "tools/call") => answer_with (PDict [("content", PList [PDict [("type", PStr "text"); ("text", PStr "ok")]])])
  | _ => Body EmptyString
  end.
Definition fresh_gateway : GatewayClient := mk_gateway (Ok "token") 0 PNone [].
Definition mail : string * pyval := ("send_email", PDict [("to", PStr "ann")]).
Definition outcome_ok (call : ToolCall) : Step := StepTool call (mk_tool_outcome (cl_id call) (cl_name call) "ok" false (PDict [])).

Definition mail_call (id : string) : ToolCall := mk_tool_call id mail.1 mail.2.

(** Two turns of the plan, then one that says it is done; the plan goes on after its empty turn, the run does not. *)
Example plan_runs :
  (run_agent_loop gateway_of_one (mk_scripted [[mail; mail]; [mail]; []; [mail]] "working" 0) fresh_gateway "be good" "mail ann" 8).1
  = Ok [StepText "working"; outcome_ok (mail_call "call-1-0"); outcome_ok (mail_call "call-1-1");
        StepText "working"; outcome_ok (mail_call "call-2-0"); StepText "working"].
Proof. vm_compute. reflexivity. Qed.

(** A service that asks for two calls of one tool, and is content with any answer. *)
Definition asks_twice (m : AnthropicModel) : result (list content_block) :=
  match am_messages m with
  | [_] => Ok [TextBlock "sending"; ToolUseBlock "a" mail.1 mail.2; OtherBlock; ToolUseBlock "b" mail.1 mail.2]
  | _ => Ok [TextBlock "sent"]
  end.
Example conversation_runs :
  (run_anthropic asks_twice gateway_of_one (mk_anthropic EmptyString [] []) fresh_gateway "be good" "mail ann" 8).1
  = Ok [StepText "sending"; outcome_ok (mail_call "a"); outcome_ok (mail_call "b"); StepText "sent"].
Proof. vm_compute. reflexivity. Qed.
End Witnesses.
