(* ===== verification/Manifests.v ===== *)
(** * Kubernetes manifests: deploy/k8s/validate.py

    The static check that runs on the rendered manifests before anything is deployed. The YAML parser and the
    file are parameters: [load] takes the documents a parser gave. Mappings have text keys. *)

From S2P Require Import Prelude Datetime Regex PyVal Externals AuditTrail Identity PyObj.

Definition AGENT_TOKEN_SECRET : string := "agent-token".
Definition HARNESS_SECRETS : list string := ["harness-signing-key"; "harness-token-keyring"; "tool-credential"].

Definition load (documents : list pyval) : list pyval := List.filter truthy documents.
Definition pod_template (doc : pyval) : result pyval :=
  let? s := item_of doc "spec" in let? t := item_of s "template" in item_of t "spec".

(** [[d for d in docs if d.get("kind") == kind and ...]] *)
Fixpoint select {A} (p : A -> result bool) (l : list A) : result (list A) :=
  match l with
  | [] => Ok []
  | x :: l' => let? b := p x in let? rest := select p l' in Ok (if b then x :: rest else rest)
  end.
Definition name_of (doc : pyval) : result pyval := let? m := item_of doc "metadata" in item_of m "name".
Definition is_kind (kind : string) (doc : pyval) : result bool := let? k := get_of doc "kind" PNone in Ok (equals_str k kind).
Definition is_agent_job (doc : pyval) : result bool :=
  let? job := is_kind "Job" doc in
  if job then let? n := name_of doc in Ok (equals_str n "agent") else Ok false.

Definition require_hashable (v : pyval) : result unit := require (hashable v) (TypeError "unhashable type").

(** A dictionary whose keys are any values, and a comprehension that builds one: a later entry of a key replaces
    the value of an earlier one. *)
Fixpoint store {V} (k : pyval) (v : V) (d : list (pyval * V)) : list (pyval * V) :=
  match d with
  | [] => [(k, v)]
  | (k', v') :: d' => if py_eq k k' then (k', v) :: d' else (k', v') :: store k v d'
  end.
Fixpoint lookup {V} (n : string) (d : list (pyval * V)) : option V :=
  match d with [] => None | (k, v) :: d' => if equals_str k n then Some v else lookup n d' end.
Definition comp_step {A V} (entry : A -> result (option (pyval * V))) (d : result (list (pyval * V))) (x : A) : result (list (pyval * V)) :=
  let? d := d in
  let? e := entry x in
  match e with Some (k, v) => Ok (store k v d) | None => Ok d end.
Definition comprehension {A V} (entry : A -> result (option (pyval * V))) (l : list A) : result (list (pyval * V)) :=
  foldl (comp_step entry) (Ok []) l.

(** [{v["name"]: v["secret"]["secretName"] for v in volumes if "secret" in v}] *)
Definition volume_entry (v : pyval) : result (option (pyval * pyval)) :=
  let? secret := contains_key "secret" v in
  if secret then
    let? name := item_of v "name" in
    let? s := item_of v "secret" in
    let? secret_name := item_of s "secretName" in
    require_hashable name ;? Ok (Some (name, secret_name))
  else Ok None.
Definition secret_vols (volumes : list pyval) : result (list (pyval * pyval)) := comprehension volume_entry volumes.
(** [set(l)] raises on what cannot be hashed; sets are kept as lists. *)
Definition as_set (l : list pyval) : result (list pyval) := traverse (fun v => require_hashable v ;? Ok v) l.
Definition set_is (ss : list string) (l : list pyval) : bool :=
  forallb (fun v => existsb (equals_str v) ss) l && forallb (fun s => existsb (fun v => equals_str v s) l) ss.

Section checks.
(** [str(sorted(names))], which raises on names that cannot be ordered; a part of messages only. *)
Variable sorted_text : list pyval -> result string.

Definition check_mounted (mounted : list pyval) : script unit :=
  (if set_is [AGENT_TOKEN_SECRET] mounted then Done tt
   else let* names := run (sorted_text mounted) in
        Exit ("agent may mount only the " +:+ repr_str AGENT_TOKEN_SECRET +:+ " Secret, got " +:+ names)) *?
  match List.filter (fun v => existsb (equals_str v) HARNESS_SECRETS) mounted with
  | [] => Done tt
  | both => let* names := run (sorted_text both) in Exit ("agent mounts harness secret(s): " +:+ names)
  end.

(** [if bad: fail(f"agent container {c['name']} ...")] *)
Definition fail_container (bad : bool) (c : pyval) (what : string) : script unit :=
  if bad then let* n := run (item_of c "name") in Exit ("agent container " +:+ py_str n +:+ " must " +:+ what) else Done tt.
Definition is_true (v : pyval) : bool := match v with PBool b => b | _ => false end.
Definition is_false (v : pyval) : bool := match v with PBool b => negb b | _ => false end.
Definition check_container (c : pyval) : script unit :=
  let* sc := run (get_of c "securityContext" (PDict [])) in
  let* escalation := run (get_of sc "allowPrivilegeEscalation" PNone) in
  fail_container (negb (is_false escalation)) c "set allowPrivilegeEscalation: false" *?
  let* readonly := run (get_of sc "readOnlyRootFilesystem" PNone) in
  fail_container (negb (is_true readonly)) c "set readOnlyRootFilesystem: true" *?
  let* caps := run (get_of sc "capabilities" (PDict [])) in
  let* drop := run (get_of caps "drop" PNone) in
  fail_container (negb (py_eq drop (PList [PStr "ALL"]))) c "drop ALL capabilities".

Definition check_agent (docs : list pyval) : script unit :=
  let* jobs := run (select is_agent_job docs) in
  match jobs with
  | [] => Exit "no agent Job found"
  | job :: _ =>
      let* spec := run (pod_template job) in
      let* runtime := run (get_of spec "runtimeClassName" PNone) in
      fail_if (negb (equals_str runtime "gvisor"))
        ("agent must set runtimeClassName: gvisor (got " +:+ py_repr runtime +:+ ")") *?
      let* automount := run (get_of spec "automountServiceAccountToken" PNone) in
      fail_if (negb (is_false automount)) "agent must set automountServiceAccountToken: false" *?
      let* v := run (get_of spec "volumes" (PList [])) in
      let* volumes := run (elements v) in
      let* vols := run (secret_vols volumes) in
      let* mounted := run (as_set (map snd vols)) in
      check_mounted mounted *?
      let* pod_sc := run (get_of spec "securityContext" (PDict [])) in
      let* nonroot := run (get_of pod_sc "runAsNonRoot" PNone) in
      fail_if (negb (is_true nonroot)) "agent pod securityContext must set runAsNonRoot: true" *?
      let* profile := run (get_of pod_sc "seccompProfile" (PDict [])) in
      let* kind := run (get_of profile "type" PNone) in
      fail_if (negb (equals_str kind "RuntimeDefault")) "agent pod must use the RuntimeDefault seccomp profile" *?
      let* c := run (item_of spec "containers") in
      let* containers := run (elements c) in
      for_each check_container containers
  end.

(** [{d["metadata"]["name"]: d for d in docs if d.get("kind") == "NetworkPolicy"}] *)
Definition policy_entry (doc : pyval) : result (option (pyval * pyval)) :=
  let? policy := is_kind "NetworkPolicy" doc in
  if policy then let? name := name_of doc in require_hashable name ;? Ok (Some (name, doc)) else Ok None.
Definition policies (docs : list pyval) : result (list (pyval * pyval)) := comprehension policy_entry docs.

Definition labelled (selector : pyval) (app : string) : result bool :=
  let? labels := get_of selector "matchLabels" (PDict []) in
  let? v := get_of labels "app" PNone in
  Ok (equals_str v app).
Definition check_peer (peer : pyval) : script unit :=
  let* selector := run (get_of peer "podSelector" (PDict [])) in
  let* proxy := run (labelled selector "proxy") in
  fail_if (negb proxy) ("agent egress allows a non-proxy peer: " +:+ py_str peer).
Definition check_port (port : pyval) : script unit :=
  let* n := run (get_of port "port" PNone) in
  fail_if (negb (equals_int n 8080)) ("agent egress allows a non-8080 port: " +:+ py_str port).
Definition check_rule (rule : pyval) : script unit :=
  let* t := run (get_of rule "to" (PList [])) in
  let* peers := run (elements t) in
  for_each check_peer peers *?
  let* p := run (get_of rule "ports" (PList [])) in
  let* ports := run (elements p) in
  for_each check_port ports.

Definition denies_both (deny : pyval) : result bool :=
  let? spec := item_of deny "spec" in
  let? t := get_of spec "policyTypes" (PList []) in
  let? l := elements t in
  let? types := as_set l in
  Ok (set_is ["Ingress"; "Egress"] types).
Definition deny_message : string := "a default-deny-all NetworkPolicy (Ingress+Egress, empty podSelector) is required".
Definition check_network (docs : list pyval) : script unit :=
  let* nps := run (policies docs) in
  match lookup "default-deny-all" nps with
  | None => Exit deny_message
  | Some deny =>
      let* both := run (denies_both deny) in
      fail_if (negb both) deny_message *?
      let* spec := run (item_of deny "spec") in
      let* selector := run (get_of spec "podSelector" PNone) in
      fail_if (negb (py_eq selector (PDict []) || is_none selector)) "default-deny-all must select all pods (empty podSelector)" *?
      match lookup "agent-egress-proxy-only" nps with
      | None => Exit "NetworkPolicy 'agent-egress-proxy-only' is required"
      | Some agent =>
          let* spec := run (item_of agent "spec") in
          let* selector := run (item_of spec "podSelector") in
          let* ours := run (labelled selector "agent") in
          fail_if (negb ours) "agent NetworkPolicy must select app: agent" *?
          let* egress := run (get_of spec "egress" (PList [])) in
          let* rules := run (elements egress) in
          for_each check_rule rules *?
          fail_if (negb (truthy egress)) "agent NetworkPolicy must define an egress rule (to the proxy)"
      end
  end.

(** The line printed when the script succeeds. *)
Definition main (argv : list string) (documents : result (list pyval)) : script string :=
  fail_if (negb (length argv =? 2)%nat) "usage: validate.py <rendered-manifests.yaml>" *?
  let* documents := run documents in
  let docs := load documents in
  check_agent docs *?
  check_network docs *?
  Done ("OK: " +:+ show_Z (Z.of_nat (length docs)) +:+ " objects; agent isolation invariants hold").
End checks.

(** ** Theorems *)

(** *** Paths into a document *)

Fixpoint at_path (ks : list string) (v : pyval) : option pyval :=
  match ks with
  | [] => Some v
  | k :: ks' => match v with PDict d => dget k d ≫= at_path ks' | _ => None end
  end.

Lemma item_of_at v k x ks : item_of v k = Ok x -> at_path (k :: ks) v = at_path ks x.
Proof. destruct v; try done. cbn. unfold get_item. case_match; [|done]. by intros [= ->]. Qed.
Lemma get_of_last v k x : get_of v k PNone = Ok x -> x <> PNone -> at_path [k] v = Some x.
Proof. destruct v; try done. cbn. intros [= <-]. by destruct (dget k d). Qed.
Lemma get_of_present v k fallback x : get_of v k fallback = Ok x -> at_path [k] v = Some x \/ x = fallback.
Proof. destruct v; try done. cbn. intros [= <-]. destruct (dget k d); [by left|by right]. Qed.
Lemma get_of_at v k x fallback ks y : get_of v k fallback = Ok x -> at_path ks fallback = None -> at_path ks x = Some y ->
  at_path (k :: ks) v = Some y.
Proof. destruct v; try done. cbn. intros [= <-]. destruct (dget k d); [done|]. cbn. congruence. Qed.

Lemma run_bind_done {A B} (r : result A) (f : A -> script B) b : script_bind (run r) f = Done b -> exists a, r = Ok a /\ f a = Done b.
Proof. intros (a & Ha%run_done & Hf)%script_bind_done. eauto. Qed.
Lemma fail_if_bind_done {B} bad msg (f : unit -> script B) b : script_bind (fail_if bad msg) f = Done b -> bad = false /\ f tt = Done b.
Proof. destruct bad; [done|]. by intros. Qed.

(** Takes the first command of a script that went through. *)
Ltac stage H :=
  match type of H with
  | script_bind (run _) _ = Done _ => apply run_bind_done in H; let a := fresh "a" in let E := fresh "E" in destruct H as (a & E & H); try stage H
  | script_bind (fail_if _ _) _ = Done _ => apply fail_if_bind_done in H; let E := fresh "E" in destruct H as (E & H); try stage H
  end.

Lemma is_true_spec v : negb (is_true v) = false -> v = PBool true.
Proof. by destruct v as [|[]| | | | | | | | |]. Qed.
Lemma is_false_spec v : negb (is_false v) = false -> v = PBool false.
Proof. by destruct v as [|[]| | | | | | | | |]. Qed.
Lemma not_str_spec v s : negb (equals_str v s) = false -> v = PStr s.
Proof. rewrite negb_false_iff. apply equals_str_spec. Qed.
#[local] Hint Resolve is_true_spec is_false_spec not_str_spec : core.

(** *** Containers *)

Record locked_container (c : pyval) : Prop := {
  lc_escalation : at_path ["securityContext"; "allowPrivilegeEscalation"] c = Some (PBool false);
  lc_readonly : at_path ["securityContext"; "readOnlyRootFilesystem"] c = Some (PBool true);
  lc_drop : at_path ["securityContext"; "capabilities"; "drop"] c = Some (PList [PStr "ALL"]);
}.

Lemma fail_container_done {B} bad c what (f : unit -> script B) b : script_bind (fail_container bad c what) f = Done b -> bad = false /\ f tt = Done b.
Proof. destruct bad; [|done]. unfold fail_container. by destruct (item_of c "name"). Qed.

Lemma check_container_done c : check_container c = Done tt -> locked_container c.
Proof.
  unfold check_container. intros H. stage H. apply fail_container_done in H as [Hesc H]. stage H. apply fail_container_done in H as [Hro H]. stage H.
  unfold fail_container in H. destruct (negb (py_eq _ _)) eqn:Hdrop; [by destruct (item_of c "name")|].
  apply is_false_spec in Hesc as ->. apply is_true_spec in Hro as ->. apply negb_false_iff, (py_eq_strs _ ["ALL"]) in Hdrop as ->.
  split.
  - eapply get_of_at; [done|done|]. by apply get_of_last.
  - eapply get_of_at; [done|done|]. by apply get_of_last.
  - eapply get_of_at; [done|done|]. eapply get_of_at; [done|done|]. by apply get_of_last.
Qed.

(** *** Comprehensions *)

Lemma py_eq_str_l s v : py_eq (PStr s) v = true -> v = PStr s.
Proof. by destruct v; simpl; try done; intros ->%String.eqb_eq. Qed.
Lemma equals_str_false v s : equals_str v s = false <-> v <> PStr s.
Proof. rewrite <- equals_str_spec. by destruct (equals_str v s). Qed.

Lemma lookup_store {V} n k (v : V) d : lookup n (store k v d) = if equals_str k n then Some v else lookup n d.
Proof.
  induction d as [|[k1 v1] d IH]; [done|]. cbn [store lookup]. destruct (py_eq k k1) eqn:E; cbn [lookup].
  - destruct (equals_str k n) eqn:Ek.
    + apply equals_str_spec in Ek as ->. apply py_eq_str_l in E as ->. simpl. by rewrite String.eqb_refl.
    + destruct (equals_str k1 n) eqn:Ek1; [|done]. apply equals_str_spec in Ek1 as ->. apply py_eq_str in E as ->. simpl in Ek. by rewrite String.eqb_refl in Ek.
  - rewrite IH. destruct (equals_str k n) eqn:Ek, (equals_str k1 n) eqn:Ek1; try done.
    apply equals_str_spec in Ek as ->. apply equals_str_spec in Ek1 as ->. simpl in E. by rewrite String.eqb_refl in E.
Qed.
Lemma lookup_value {V} n (v : V) d : lookup n d = Some v -> v ∈ map snd d.
Proof. induction d as [|[k x] d IH]; [done|]. cbn [lookup]. case_match; [intros [= ->]; left|right; auto]. Qed.
Lemma store_origin {V} k (v : V) d w : w ∈ map snd (store k v d) -> w = v \/ w ∈ map snd d.
Proof. induction d as [|[k1 v1] d IH]; cbn [store map snd]; [set_solver|]. destruct (py_eq k k1); set_solver. Qed.

Lemma foldl_raise {A B} (f : result A -> B -> result A) e l : (forall x, f (Raise e) x = Raise e) -> foldl f (Raise e) l = Raise e.
Proof. intros Hf. induction l as [|x l IH]; [done|]. cbn. by rewrite Hf. Qed.

Section comprehensions.
Context {A V : Type} (entry : A -> result (option (pyval * V))).
(** An entry of [n] comes after. *)
Definition shadowed (n : string) (l : list A) : Prop := exists x v, x ∈ l /\ entry x = Ok (Some (PStr n, v)).

Lemma comp_cons d x l d' : foldl (comp_step entry) (Ok d) (x :: l) = Ok d' ->
  exists e, entry x = Ok e /\ foldl (comp_step entry) (Ok (match e with Some (k, v) => store k v d | None => d end)) l = Ok d'.
Proof. cbn [foldl comp_step]. cbn. destruct (entry x) as [[[k v]|]|]; cbn; [eauto..|]. by rewrite foldl_raise. Qed.

Lemma comp_origin d l d' v : foldl (comp_step entry) (Ok d) l = Ok d' -> v ∈ map snd d' ->
  v ∈ map snd d \/ exists x k, x ∈ l /\ entry x = Ok (Some (k, v)).
Proof.
  revert d. induction l as [|x l IH]; intros d; [intros [= ->]; by left|]. intros (e & He & Hl)%comp_cons Hv.
  destruct (IH _ Hl Hv) as [Hd|(y & k & ? & ?)]; [|right; exists y, k; set_solver]. destruct e as [[k w]|]; [|by left].
  apply store_origin in Hd as [->|?]; [right; exists x, k; set_solver|by left].
Qed.

Lemma shadowed_cons n x l : shadowed n l -> shadowed n (x :: l).
Proof. intros (y & v & ? & ?). exists y, v. set_solver. Qed.
Lemma comp_keep d l d' n v : foldl (comp_step entry) (Ok d) l = Ok d' -> lookup n d = Some v -> lookup n d' = Some v \/ shadowed n l.
Proof.
  revert d. induction l as [|x l IH]; intros d; [intros [= ->]; by left|]. intros (e & He & Hl)%comp_cons Hd.
  destruct e as [[k w]|]; [|destruct (IH _ Hl Hd); auto using shadowed_cons].
  destruct (equals_str k n) eqn:Ek.
  - right. exists x, w. apply equals_str_spec in Ek as ->. split; [left|done].
  - destruct (IH _ Hl) as [|]; [by rewrite lookup_store, Ek|auto using shadowed_cons..].
Qed.
Lemma comp_present l1 x l2 d n v : comprehension entry (l1 ++ x :: l2) = Ok d -> entry x = Ok (Some (PStr n, v)) ->
  lookup n d = Some v \/ shadowed n l2.
Proof.
  unfold comprehension. rewrite foldl_app. intros Hf Hx. destruct (foldl _ (Ok []) l1) as [d0|e] eqn:E0; [|by rewrite foldl_raise in Hf].
  apply comp_cons in Hf as (e & He & Hl2). rewrite Hx in He. injection He as <-. eapply comp_keep; [exact Hl2|].
  rewrite lookup_store. simpl. by rewrite String.eqb_refl.
Qed.
Lemma comp_entry l1 x l2 d : comprehension entry (l1 ++ x :: l2) = Ok d -> exists e, entry x = Ok e.
Proof.
  unfold comprehension. rewrite foldl_app. intros Hf. destruct (foldl _ (Ok []) l1) as [d0|e]; [|by rewrite foldl_raise in Hf].
  apply comp_cons in Hf as (e & He & _). eauto.
Qed.

(** What is looked up is the last entry of its key. *)
Lemma comp_last d l d' n v : foldl (comp_step entry) (Ok d) l = Ok d' -> lookup n d' = Some v ->
  (lookup n d = Some v /\ ~ shadowed n l)
  \/ exists l1 x l2, l = l1 ++ x :: l2 /\ entry x = Ok (Some (PStr n, v)) /\ ~ shadowed n l2.
Proof.
  revert d. induction l as [|x l IH]; intros d.
  { intros [= ->] Hv. left. split; [done|]. intros (y & w & Hy & _). set_solver. }
  intros (e & He & Hl)%comp_cons Hv. destruct (IH _ Hl Hv) as [[Hd Hn]|(l1 & y & l2 & -> & ? & ?)]; [|right; by exists (x :: l1), y, l2].
  assert (shadowed n (x :: l) -> (exists w, e = Some (PStr n, w))) as Hsh.
  { intros (y & w & [->|Hy]%elem_of_cons & Hw); [exists w; congruence|]. destruct Hn. by exists y, w. }
  destruct e as [[k w]|]; [|left; split; [done|]; by intros (? & ?)%Hsh].
  rewrite lookup_store in Hd. destruct (equals_str k n) eqn:Ek.
  - injection Hd as ->. apply equals_str_spec in Ek as ->. right. by exists [], x, l.
  - left. split; [done|]. intros (w' & [= -> _])%Hsh. apply equals_str_false in Ek. done.
Qed.
End comprehensions.

(** *** Volumes *)

(** A volume that mounts a secret: its name and the secret's. *)
Definition mounts (v name secret : pyval) : Prop :=
  at_path ["name"] v = Some name /\ at_path ["secret"; "secretName"] v = Some secret.

Lemma volume_entry_mounts v name s : volume_entry v = Ok (Some (name, s)) -> mounts v name s.
Proof.
  unfold volume_entry. intros ([] & _ & Hv)%result_bind_ok; [|done].
  apply result_bind_ok in Hv as (n & Hn & (x & Hx & (sn & Hs & (u & _ & [= -> ->])%result_bind_ok)%result_bind_ok)%result_bind_ok).
  split; [by rewrite (item_of_at _ _ _ [] Hn)|by rewrite (item_of_at _ _ _ _ Hx), (item_of_at _ _ _ [] Hs)].
Qed.
Lemma volume_entry_secret v x e : at_path ["secret"] v = Some x -> volume_entry v = Ok e -> exists name s, e = Some (name, s).
Proof.
  intros Hx He. destruct e as [[]|]; [eauto|]. destruct v; try done. unfold volume_entry in He. cbn in Hx, He. unfold dmem in He.
  destruct (dget "secret" d); [|done]. cbn in He. apply result_bind_ok in He as (? & _ & (? & _ & (? & _ & (? & _ & [=])%result_bind_ok)%result_bind_ok)%result_bind_ok).
Qed.

Lemma set_is_in ss l s : set_is ss l = true -> str_in s ss = true -> PStr s ∈ l.
Proof.
  unfold set_is. rewrite andb_true_iff, !forallb_forall. intros [_ Hs] Hin.
  apply existsb_exists in Hin as (s' & Hin' & ->%String.eqb_eq). apply Hs in Hin'.
  apply existsb_exists in Hin' as (v & Hv & ->%equals_str_spec). by apply list_elem_of_In.
Qed.
Lemma set_is_only ss l v : set_is ss l = true -> v ∈ l -> exists s, v = PStr s /\ str_in s ss = true.
Proof.
  unfold set_is. rewrite andb_true_iff, !forallb_forall. intros [Hl _] Hin%list_elem_of_In. apply Hl in Hin.
  apply existsb_exists in Hin as (s & Hs & ->%equals_str_spec). exists s. split; [done|]. apply existsb_exists. exists s. split; [done|apply String.eqb_refl].
Qed.

Lemma as_set_ok l s : as_set l = Ok s -> s = l.
Proof.
  revert s. induction l as [|v l IH]; intros s; [by intros [= <-]|]. unfold as_set in *. cbn [traverse].
  destruct (require_hashable v); [|done]. cbn. destruct (traverse _ l) as [s'|] eqn:E; [|done]. intros [= <-]. by rewrite (IH s').
Qed.

(** *** The agent's pod *)

Record confined_pod (spec : pyval) : Prop := {
  cp_runtime : at_path ["runtimeClassName"] spec = Some (PStr "gvisor");
  cp_automount : at_path ["automountServiceAccountToken"] spec = Some (PBool false);
  cp_nonroot : at_path ["securityContext"; "runAsNonRoot"] spec = Some (PBool true);
  cp_seccomp : at_path ["securityContext"; "seccompProfile"; "type"] spec = Some (PStr "RuntimeDefault");
  cp_volumes : exists vs volumes, at_path ["volumes"] spec = Some vs /\ elements vs = Ok volumes
    /\ (exists v name, v ∈ volumes /\ mounts v name (PStr AGENT_TOKEN_SECRET))
    /\ forall l1 v l2 x n, volumes = l1 ++ v :: l2 -> at_path ["secret"] v = Some x -> at_path ["name"] v = Some (PStr n) ->
         mounts v (PStr n) (PStr AGENT_TOKEN_SECRET) \/ shadowed volume_entry n l2;
  cp_containers : exists cs containers, at_path ["containers"] spec = Some cs /\ elements cs = Ok containers
    /\ Forall locked_container containers;
}.

Section confined.
Variable sorted_text : list pyval -> result string.

Lemma check_mounted_bind {B} mounted (f : unit -> script B) b : script_bind (check_mounted sorted_text mounted) f = Done b ->
  set_is [AGENT_TOKEN_SECRET] mounted = true /\ f tt = Done b.
Proof.
  unfold check_mounted. intros (u & Hm & Hf)%script_bind_done. destruct u.
  destruct (set_is _ mounted); [done|]. cbn in Hm. by destruct (sorted_text mounted).
Qed.

Lemma select_spec {A} (p : A -> result bool) l l' : select p l = Ok l' ->
  match l' with
  | [] => Forall (fun x => p x = Ok false) l
  | x :: _ => exists before after, l = before ++ x :: after /\ p x = Ok true /\ Forall (fun x => p x = Ok false) before
  end.
Proof.
  revert l'. induction l as [|x l IH]; intros l'; cbn [select]; [by intros [= <-]; constructor|].
  destruct (p x) as [b|] eqn:Ep; [|done]. cbn. destruct (select p l) as [rest|]; [|done]. intros [= <-]. specialize (IH _ eq_refl).
  destruct b; [by exists [], l|]. destruct rest as [|y rest]; [by constructor|].
  destruct IH as (before & after & -> & Hy & Hb). exists (x :: before), after. split_and!; [done|done|by constructor].
Qed.

(** What the script has seen of the documents when it accepts the first Job called agent. *)
Lemma check_agent_done docs : check_agent sorted_text docs = Done tt ->
  exists before job after spec, docs = before ++ job :: after
    /\ is_agent_job job = Ok true /\ Forall (fun d => is_agent_job d = Ok false) before
    /\ at_path ["spec"; "template"; "spec"] job = Some spec /\ confined_pod spec.
Proof.
  unfold check_agent. intros H. apply run_bind_done in H as (jobs & Hjobs%select_spec & H). destruct jobs as [|job jobs]; [done|].
  destruct Hjobs as (before & after & -> & Hjob & Hbefore). apply run_bind_done in H as (spec & Hspec & H).
  assert (at_path ["spec"; "template"; "spec"] job = Some spec) as Hat.
  { unfold pod_template in Hspec. apply result_bind_ok in Hspec as (s & Hs & (t & Ht & Hsp)%result_bind_ok).
    by rewrite (item_of_at _ _ _ _ Hs), (item_of_at _ _ _ _ Ht), (item_of_at _ _ _ [] Hsp). }
  exists before, job, after, spec. split_and!; [done..|]. clear Hat Hspec Hjob Hbefore.
  apply run_bind_done in H as (runtime & Hruntime & H). apply fail_if_bind_done in H as [->%not_str_spec H].
  apply run_bind_done in H as (automount & Hauto & H). apply fail_if_bind_done in H as [->%is_false_spec H].
  apply run_bind_done in H as (vs & Hvs & H). apply run_bind_done in H as (volumes & Hvolumes & H).
  apply run_bind_done in H as (vols & Hvols & H). apply run_bind_done in H as (mounted & ->%as_set_ok & H).
  apply check_mounted_bind in H as [Hset H].
  apply run_bind_done in H as (pod_sc & Hsc & H). apply run_bind_done in H as (nonroot & Hroot & H).
  apply fail_if_bind_done in H as [->%is_true_spec H].
  apply run_bind_done in H as (profile & Hprofile & H). apply run_bind_done in H as (kind & Hkind & H).
  apply fail_if_bind_done in H as [->%not_str_spec H].
  apply run_bind_done in H as (cs & Hcs & H). apply run_bind_done in H as (containers & Hcontainers & H).
  apply for_each_done in H. pose proof (set_is_in _ _ AGENT_TOKEN_SECRET Hset eq_refl) as Hone.
  apply (comp_origin _ _ _ _ _ Hvols) in Hone as [?|(v & name & Hv & Hm%volume_entry_mounts)]; [set_solver|].
  assert (at_path ["volumes"] spec = Some vs) as Hat.
  { destruct (get_of_present _ _ _ _ Hvs) as [?| ->]; [done|]. injection Hvolumes as <-. set_solver. }
  split.
  - by apply get_of_last.
  - by apply get_of_last.
  - eapply get_of_at; [done|done|]. by apply get_of_last.
  - eapply get_of_at; [done|done|]. eapply get_of_at; [done|done|]. by apply get_of_last.
  - exists vs, volumes. split_and!; [done|done|by exists v, name|]. intros l1 w l2 x n -> Hx Hn.
    destruct (comp_entry _ _ _ _ _ Hvols) as (e & He). destruct (volume_entry_secret _ _ _ Hx He) as (nm & s & ->).
    pose proof (volume_entry_mounts _ _ _ He) as Hm'. destruct Hm' as [Hn' Hs']. rewrite Hn in Hn'. injection Hn' as <-.
    destruct (comp_present _ _ _ _ _ _ _ Hvols He) as [Hin%lookup_value|Hsh]; [|by right].
    left. destruct (set_is_only _ _ _ Hset Hin) as (t & -> & Ht). cbn in Ht. rewrite orb_false_r in Ht. by apply String.eqb_eq in Ht as ->.
  - exists cs, containers. split_and!; [by rewrite (item_of_at _ _ _ [] Hcs)|done|].
    eapply Forall_impl; [exact H|]. apply check_container_done.
Qed.
End confined.

(** *** The network policies *)

(** An element of the list at a key, a missing list being empty. *)
Definition listed (v : pyval) (k : string) (x : pyval) : Prop :=
  exists l xs, at_path [k] v = Some l /\ elements l = Ok xs /\ x ∈ xs.
Definition to_proxy (peer : pyval) : Prop := at_path ["podSelector"; "matchLabels"; "app"] peer = Some (PStr "proxy").
Definition on_8080 (port : pyval) : Prop := exists n, at_path ["port"] port = Some n /\ equals_int n 8080 = true.
Record proxy_rule (rule : pyval) : Prop := {
  pr_peers : forall peer, listed rule "to" peer -> to_proxy peer;
  pr_ports : forall port, listed rule "ports" port -> on_8080 port;
}.
(** The policy is for all pods and for both directions. What its own rules allow is another matter: Kubernetes
    denies everything only when it has none. *)
Record covers_all (deny : pyval) : Prop := {
  da_types : exists ts l, at_path ["spec"; "policyTypes"] deny = Some ts /\ elements ts = Ok l /\ PStr "Ingress" ∈ l /\ PStr "Egress" ∈ l;
  da_pods : at_path ["spec"; "podSelector"] deny ∈ [None; Some PNone; Some (PDict [])];
}.
Record proxy_only (agent : pyval) : Prop := {
  po_pods : at_path ["spec"; "podSelector"; "matchLabels"; "app"] agent = Some (PStr "agent");
  po_rules : exists egress rules, at_path ["spec"; "egress"] agent = Some egress /\ elements egress = Ok rules /\ rules <> []
    /\ Forall proxy_rule rules;
}.

Lemma labelled_at v app : labelled v app = Ok true -> at_path ["matchLabels"; "app"] v = Some (PStr app).
Proof.
  unfold labelled. intros (l & Hl & (x & Hx & [= Hs])%result_bind_ok)%result_bind_ok.
  apply equals_str_spec in Hs as ->. eapply get_of_at; [done|done|]. by apply get_of_last.
Qed.

Lemma listed_elements v k l xs x : get_of v k (PList []) = Ok l -> elements l = Ok xs -> listed v k x -> x ∈ xs.
Proof.
  intros Hl Hxs (l' & xs' & Hat & Hxs' & Hin). destruct v; try done. cbn in Hl, Hat. destruct (dget k d); [|done]. cbn in Hl, Hat. simplify_eq.
  rewrite Hxs' in Hxs. by injection Hxs as <-.
Qed.

Lemma check_rule_done rule : check_rule rule = Done tt -> proxy_rule rule.
Proof.
  unfold check_rule. intros H. apply run_bind_done in H as (t & Ht & (peers & Hpeers & H)%run_bind_done).
  apply script_bind_done in H as ([] & Hp%for_each_done & H). apply run_bind_done in H as (p & Hp' & (ports & Hports & Hq%for_each_done)%run_bind_done).
  rewrite Forall_forall in Hp, Hq. split.
  - intros peer Hin%(listed_elements _ _ _ _ _ Ht Hpeers)%Hp. unfold check_peer in Hin.
    apply run_bind_done in Hin as (sel & Hsel & (ok & Hok & Hin%fail_if_done%negb_false_iff)%run_bind_done). subst ok.
    eapply get_of_at; [done|done|]. by apply labelled_at.
  - intros port Hin%(listed_elements _ _ _ _ _ Hp' Hports)%Hq. unfold check_port in Hin.
    apply run_bind_done in Hin as (n & Hn & Hin%fail_if_done%negb_false_iff). exists n. split; [|done].
    destruct (get_of_present _ _ _ _ Hn) as [?| ->]; [done|]. done.
Qed.

(** The policy that counts: the last of that name. *)
Definition last_policy (name : string) (docs : list pyval) (doc : pyval) : Prop :=
  exists before after, docs = before ++ doc :: after /\ policy_entry doc = Ok (Some (PStr name, doc)) /\ ~ shadowed policy_entry name after.
Lemma policy_entry_doc d k doc : policy_entry d = Ok (Some (k, doc)) -> d = doc.
Proof.
  unfold policy_entry. intros ([] & _ & Hd)%result_bind_ok; [|done]. by apply result_bind_ok in Hd as (n & _ & (u & _ & [= _ ->])%result_bind_ok).
Qed.
Lemma policies_last name docs nps doc : policies docs = Ok nps -> lookup name nps = Some doc -> last_policy name docs doc.
Proof.
  intros Hn Hl. destruct (comp_last _ _ _ _ _ _ Hn Hl) as [[? _]|(l1 & x & l2 & -> & Hx & Hs)]; [done|].
  pose proof (policy_entry_doc _ _ _ Hx) as ->. by exists l1, l2.
Qed.

Lemma check_network_done docs : check_network docs = Done tt ->
  (exists deny, last_policy "default-deny-all" docs deny /\ covers_all deny)
  /\ exists agent, last_policy "agent-egress-proxy-only" docs agent /\ proxy_only agent.
Proof.
  unfold check_network. intros H. apply run_bind_done in H as (nps & Hnps & H).
  destruct (lookup "default-deny-all" nps) as [deny|] eqn:Hdeny; [|done].
  apply run_bind_done in H as (both & Hboth & H). apply fail_if_bind_done in H as [Hb%negb_false_iff H]. subst both.
  apply run_bind_done in H as (spec & Hspec & (selector & Hselector & H)%run_bind_done). apply fail_if_bind_done in H as [Hsel%negb_false_iff H].
  destruct (lookup "agent-egress-proxy-only" nps) as [agent|] eqn:Hagent; [|done].
  apply run_bind_done in H as (aspec & Haspec & (asel & Hasel & (ours & Hours & H)%run_bind_done)%run_bind_done).
  apply fail_if_bind_done in H as [Hb%negb_false_iff H]. subst ours.
  apply run_bind_done in H as (egress & Hegress & (rules & Hrules & H)%run_bind_done). apply script_bind_done in H as ([] & Hall%for_each_done & Htrue%fail_if_done%negb_false_iff).
  split; [exists deny|exists agent]; (split; [by eapply policies_last|]); split.
  - unfold denies_both in Hboth. apply result_bind_ok in Hboth as (sp & Hsp & (ts & Hts & (l & Hl & (types & ->%as_set_ok & [= Hset])%result_bind_ok)%result_bind_ok)%result_bind_ok).
    exists ts, l. split_and!; [|done|by eapply set_is_in..]. rewrite (item_of_at _ _ _ _ Hsp).
    destruct (get_of_present _ _ _ _ Hts) as [?| ->]; [done|]. injection Hl as <-. done.
  - rewrite (item_of_at _ _ _ _ Hspec). destruct spec as [| | | | | | |d| | |]; try done. cbn in Hselector |- *. injection Hselector as <-.
    destruct (dget "podSelector" d) as [x|]; [|left]. cbn in Hsel |- *. right. apply orb_true_iff in Hsel as [->%py_eq_dict_nil|Hx]; [right; left|].
    destruct x; try done. left.
  - rewrite (item_of_at _ _ _ _ Haspec), (item_of_at _ _ _ _ Hasel). by apply labelled_at.
  - exists egress, rules. split_and!; [| done | |].
    + rewrite (item_of_at _ _ _ _ Haspec). destruct (get_of_present _ _ _ _ Hegress) as [?| ->]; done.
    + intros ->. destruct egress as [| | | |[|c s]|[]|[]|[]| | |]; done.
    + eapply Forall_impl; [exact Hall|]. apply check_rule_done.
Qed.


(** *** What the check does not see *)

(** A harness secret is never reported: the mounted set has been found to be the agent's token alone. *)
Theorem harness_secrets_unreachable sorted_text mounted names : check_mounted sorted_text mounted <> Exit ("agent mounts harness secret(s): " +:+ names).
Proof.
  unfold check_mounted. destruct (set_is [AGENT_TOKEN_SECRET] mounted) eqn:Es; cbn [script_bind].
  - destruct (List.filter _ mounted) as [|v both] eqn:Ef; [done|]. exfalso.
    assert (In v (v :: both)) as Hin by (by left). rewrite <- Ef in Hin. apply filter_In in Hin as [Hv%list_elem_of_In Hs].
    destruct (set_is_only _ _ _ Es Hv) as (s & -> & [->%String.eqb_eq|[=]]%orb_true_iff). by vm_compute in Hs.
  - destruct (sorted_text mounted); cbn; [|done]. intros [=].
Qed.

(** A rule that lists neither peers nor ports passes; to Kubernetes it allows every destination. *)
Theorem open_rule_accepted d : dget "to" d = None -> dget "ports" d = None -> check_rule (PDict d) = Done tt.
Proof. intros Ht Hp. unfold check_rule. cbn. rewrite Ht. cbn. by rewrite Hp. Qed.

(** Whatever another policy allows, the answer is the same; to Kubernetes policies add up. *)
Theorem other_policies_unseen docs p n : policy_entry p = Ok (Some (PStr n, p)) -> n <> "default-deny-all" -> n <> "agent-egress-proxy-only" ->
  check_network (docs ++ [p]) = check_network docs.
Proof.
  intros Hp Hd Ha. unfold check_network. assert (policies (docs ++ [p]) = let? nps := policies docs in Ok (store (PStr n) p nps)) as ->.
  { unfold policies, comprehension. rewrite foldl_app. destruct (foldl _ _ docs); [|done].
    cbn [foldl]. unfold comp_step. cbn [result_bind]. by rewrite Hp. }
  destruct (policies docs) as [nps|e]; [|done]. cbn [result_bind run script_bind]. rewrite !lookup_store.
  apply String.eqb_neq in Hd, Ha. unfold equals_str. by rewrite Hd, Ha.
Qed.

(** ** The repository's manifests *)

Module Witnesses.

Definition obj (l : dict pyval) : pyval := PDict l.
Definition labels (app : string) : pyval := obj [("matchLabels", obj [("app", PStr app)])].
Definition named (kind name : string) (spec : pyval) : pyval :=
  obj [("kind", PStr kind); ("metadata", obj [("name", PStr name); ("namespace", PStr "capgate")]); ("spec", spec)].

(** agent.yaml. *)
Definition agent_container : pyval := obj [
  ("name", PStr "agent"); ("image", PStr "capgate-agent:local"); ("imagePullPolicy", PStr "IfNotPresent");
  ("command", pstrs ["python3"; "malicious_agent.py"]);
  ("env", PList [obj [("name", PStr "CAPGATE_URL"); ("value", PStr "http://proxy:8080")]]);
  ("securityContext", obj [("allowPrivilegeEscalation", PBool false); ("readOnlyRootFilesystem", PBool true);
                           ("capabilities", obj [("drop", pstrs ["ALL"])])]);
  ("volumeMounts", PList [obj [("name", PStr "token"); ("mountPath", PStr "/run/agent"); ("readOnly", PBool true)];
                          obj [("name", PStr "tmp"); ("mountPath", PStr "/tmp")]])].
Definition agent_volumes : list pyval := [
  obj [("name", PStr "token"); ("secret", obj [("secretName", PStr "agent-token")])];
  obj [("name", PStr "tmp"); ("emptyDir", obj [("medium", PStr "Memory"); ("sizeLimit", PStr "16Mi")])]].
Definition pod (volumes : list pyval) (containers : dict pyval) : pyval := obj ([
  ("runtimeClassName", PStr "gvisor"); ("restartPolicy", PStr "Never"); ("automountServiceAccountToken", PBool false);
  ("securityContext", obj [("runAsNonRoot", PBool true); ("runAsUser", PInt 20001); ("runAsGroup", PInt 20001);
                           ("seccompProfile", obj [("type", PStr "RuntimeDefault")])]);
  ("volumes", PList volumes)] ++ containers).
Definition job (pod : pyval) : pyval :=
  named "Job" "agent" (obj [("backoffLimit", PInt 0); ("template", obj [("metadata", obj [("labels", obj [("app", PStr "agent")])]); ("spec", pod)])]).
Definition agent_job : pyval := job (pod agent_volumes [("containers", PList [agent_container])]).

(** networkpolicies.yaml, its first three policies. *)
Definition both_types : string * pyval := ("policyTypes", pstrs ["Ingress"; "Egress"]).
Definition default_deny : pyval := named "NetworkPolicy" "default-deny-all" (obj [("podSelector", obj []); both_types]).
Definition allow_dns : pyval := named "NetworkPolicy" "allow-dns-egress" (obj [("podSelector", obj []); ("policyTypes", pstrs ["Egress"]);
  ("egress", PList [obj [("to", PList [obj [("namespaceSelector", obj [("matchLabels", obj [("kubernetes.io/metadata.name", PStr "kube-system")])])]]);
                         ("ports", PList [obj [("protocol", PStr "UDP"); ("port", PInt 53)]; obj [("protocol", PStr "TCP"); ("port", PInt 53)]])]])]).
Definition proxy_egress : pyval :=
  obj [("to", PList [obj [("podSelector", labels "proxy")]]); ("ports", PList [obj [("protocol", PStr "TCP"); ("port", PInt 8080)]])].
Definition agent_policy (rules : list pyval) : pyval :=
  named "NetworkPolicy" "agent-egress-proxy-only" (obj [("podSelector", labels "agent"); both_types; ("egress", PList rules)]).
Definition rendered : list pyval := [PNone; agent_job; default_deny; allow_dns; agent_policy [proxy_egress]].

Definition no_sorting (_ : list pyval) : result string := Ok "...".


(** A harness secret, a second runtime, a peer that is not the proxy: refused, with the reason. *)
Example harness_secret_refused :
  main no_sorting ["validate.py"; "k8s.yaml"] (Ok [job (pod (agent_volumes ++ [obj [("name", PStr "k"); ("secret", obj [("secretName", PStr "harness-signing-key")])]])
    [("containers", PList [agent_container])])])
  = Exit "agent may mount only the 'agent-token' Secret, got ...".
Proof. by vm_compute. Qed.
Example other_peer_refused :
  check_network [default_deny; agent_policy [obj [("to", PList [obj [("podSelector", labels "tools")]])]]]
  = Exit "agent egress allows a non-proxy peer: {'podSelector': {'matchLabels': {'app': 'tools'}}}".
Proof. by vm_compute. Qed.
(** Accepted, each against the script's own description: a default-deny policy that allows everything, a rule that is open to every destination, another policy that
    opens the agent's egress, an init container that is not locked down, and a harness secret in the environment. *)
Definition accepted (documents : list pyval) : Prop := exists text, main no_sorting ["validate.py"; "k8s.yaml"] (Ok documents) = Done text.
Example open_default_accepted :
  accepted [agent_job; named "NetworkPolicy" "default-deny-all" (obj [("podSelector", obj []); both_types;
    ("ingress", PList [obj []]); ("egress", PList [obj []])]); agent_policy [proxy_egress]].
Proof. eexists. by vm_compute. Qed.
Example open_egress_accepted : accepted [agent_job; default_deny; agent_policy [obj []]].
Proof. eexists. by vm_compute. Qed.
Example second_policy_accepted :
  accepted [agent_job; default_deny; agent_policy [proxy_egress]; named "NetworkPolicy" "agent-open" (obj [("podSelector", labels "agent"); ("egress", PList [obj []])])].
Proof. eexists. by vm_compute. Qed.
Example init_container_accepted :
  accepted [job (pod agent_volumes [("containers", PList [agent_container]);
      ("initContainers", PList [obj [("name", PStr "init"); ("securityContext", obj [("privileged", PBool true)])]])]);
    default_deny; agent_policy [proxy_egress]].
Proof. eexists. by vm_compute. Qed.
Example environment_secret_accepted :
  accepted [job (pod agent_volumes [("containers", PList [obj [("name", PStr "agent");
      ("envFrom", PList [obj [("secretRef", obj [("name", PStr "tool-credential")])]]);
      ("securityContext", obj [("allowPrivilegeEscalation", PBool false); ("readOnlyRootFilesystem", PBool true);
                               ("capabilities", obj [("drop", pstrs ["ALL"])])])]])]);
    default_deny; agent_policy [proxy_egress]].
Proof. eexists. by vm_compute. Qed.
End Witnesses.
