(* ===== verification/Adversary.v ===== *)
(** * The compromised agent: examples/adversarial-agent/malicious_agent.py

    What the agent sends, in order, and what it makes of the answers. The network is a parameter: [http] is what
    an exchange gives in a state of the rest of the world, and leaves that state changed; so are the environment
    of the process, its files and what its sockets give. *)

From S2P Require Import Prelude Datetime Regex PyVal Externals Json Request Decision NetAddr Timeutil Capability Contract Policy State AuditTrail Effects Interceptor Executor Harness System RateLimit Base64 Workload Identity PyObj Api.

(** ** The process *)

(** A step may change the world, and the script may end in it. *)
Definition attack (St A : Type) : Type := St -> script A * St.
Definition at_ret {St A} (a : A) : attack St A := fun s => (Done a, s).
Definition at_bind {St A B} (m : attack St A) (f : A -> attack St B) : attack St B := fun s =>
  match m s with
  | (Done a, s') => f a s'
  | (Exit msg, s') => (Exit msg, s')
  | (Crash e, s') => (Crash e, s')
  end.
Definition at_run {St A} (r : result A) : attack St A := fun s => (run r, s).
Notation "'let>' x ':=' m 'in' k" := (at_bind m (fun x => k))
  (at level 10, x pattern, m at level 100, k at level 200) : result_scope.

Record http_call := mk_http_call {
  hc_method : string;
  hc_url : string;
  hc_data : option string;
  hc_headers : dict string;
}.
(** An answer, whatever its status, or an exception of the connection. *)
Inductive http_reply := Replied (status : Z) (raw : string) | NoReply (error : string).

(** [base64.urlsafe_b64decode], which ignores what is not a digit: the digits before a padding that completes a
    group, and whether there was one. *)
Definition loose_digit (c : ascii) : bool := in_alphabet c || is_char "+" c || is_char "/" c.
Definition url_digit (c : ascii) : ascii := if is_char "+" c then "-"%char else if is_char "/" c then "_"%char else c.
Fixpoint loose_digits (pos pads : nat) (text : string) : string * bool :=
  match text with
  | EmptyString => (EmptyString, false)
  | String c text' =>
      if is_char "=" c then
        if (2 <=? pos)%nat then
          if (4 <=? pos + S pads)%nat then (EmptyString, true) else loose_digits pos (S pads) text'
        else loose_digits pos pads text'
      else if loose_digit c then
        let '(ds, ended) := loose_digits (S pos mod 4) 0 text' in (String (url_digit c) ds, ended)
      else loose_digits pos pads text'
  end.
Definition urlsafe_b64decode (text : string) : result string :=
  let '(ds, ended) := loose_digits 0 0 text in
  if ended || (String.length ds mod 4 =? 0)%nat
  then match b64_groups ds with Some data => Ok data | None => Raise (ValueError "Incorrect padding") end
  else Raise (ValueError "Incorrect padding").
(** [text + "=" * (-len(text) % 4)] *)
Definition decode_padded (text : string) : result string :=
  urlsafe_b64decode (text +:+ Nat.iter (Z.to_nat (- py_len text mod 4)) (String "=") EmptyString).

(** ** Tokens *)

Section tokens.
Context `{Externals}.

Definition reencode (claims : dict pyval) : string := _b64e (dumps_sorted (PDict claims)).
(** [v + 31_536_000] *)
Variable add_to_float : pyfloat -> Z -> pyfloat.
Definition py_add (v : pyval) (n : Z) : result pyval :=
  match v with
  | PInt m => Ok (PInt (m + n))
  | PBool b => Ok (PInt ((if b then 1 else 0) + n))
  | PFloat f => Ok (PFloat (add_to_float f n))
  | _ => Raise (TypeError "unsupported operand type(s) for +")
  end.
(** The tokens made from the agent's own, each under its name; [guessed] is the random key. *)
Definition forgeries (guessed token : string) : result (list (string * result string)) :=
  match split_on "." token with
  | [prefix; i; body; sig] =>
      let? data := decode_padded body in
      let? claims := (let? v := json_bytes data in match v with PDict d => Ok d | _ => Raise (TypeError "object is not a mapping") end) in
      let with_body b := prefix +:+ "." +:+ i +:+ "." +:+ b in
      let forged := reencode (dset "sub" (PStr "db-admin") claims) in
      Ok [("sub_swapped_to_db_admin", Ok (with_body forged +:+ "." +:+ sig));
          ("role_swapped_to_approver", Ok (with_body (reencode (dset "sub" (PStr "alice") (dset "role" (PStr "approver") claims))) +:+ "." +:+ sig));
          ("expiry_extended_one_year",
             let? expires := get_item "exp" claims in
             let? later := py_add expires 31536000 in
             Ok (with_body (reencode (dset "exp" later claims)) +:+ "." +:+ sig));
          ("signature_stripped", Ok (with_body body +:+ "."));
          ("forged_with_guessed_key", Ok (with_body forged +:+ "." +:+ _b64e (hmac_sha256 guessed (with_body forged))));
          ("unknown_key_id", Ok (prefix +:+ ".kX." +:+ body +:+ "." +:+ sig))]
  | _ => Ok []
  end.
End tokens.

(** ** Requests *)

Section agent.
Context `{Externals} {St : Type}.
Variable http : http_call -> St -> http_reply * St.
Variable add_to_float : pyfloat -> Z -> pyfloat.
(** The environment of the process. *)
Variable env : dict string.

(** [json.loads(raw or b"{}")]; of an error, what is no JSON is an empty object, but bytes that cannot be decoded
    raise. *)
Definition bytes_text (data : string) : option string :=
  if is_ascii data && s_forall (fun c => 0 <? byte_of c) data then Some data else decode_bytes data.
Definition read_reply (reply : http_reply) : result (Z * pyval) :=
  match reply with
  | NoReply error => Ok (0, PDict [("error", PStr error)])
  | Replied status raw =>
      let raw := if s_is_empty raw then "{}" else raw in
      match bytes_text raw with
      | None => Raise (ValueError "can't decode bytes")
      | Some text =>
          match loads text with
          | Some v => Ok (status, v)
          | None => if (200 <=? status) && (status <? 300) then Raise (ValueError "Expecting value") else Ok (status, PDict [])
          end
      end
  end.
Definition call_headers (token : option string) : dict string :=
  ("Content-Type", "application/json")
  :: match token with Some (String _ _ as t) => [("Authorization", "Bearer " +:+ t)] | _ => [] end.
Definition call (method url : string) (body : option pyval) (token : option string) : attack St (Z * pyval) := fun s =>
  let '(reply, s') := http (mk_http_call method url (dumps ", " ": " <$> body) (call_headers token)) s in
  (run (read_reply reply), s').
Definition status_of (method url : string) (body : option pyval) (token : option string) : attack St Z :=
  let> (status, _) := call method url body token in at_ret status.

Definition credential_probe : pyval := PDict [("action", PStr "web.search"); ("arguments", PDict [("query", PStr "credential probe")])].
(** [out[name] = status(token)], one after the other. *)
Fixpoint try_tokens (harness : string) (tokens : list (string * result string)) : attack St (dict pyval) :=
  match tokens with
  | [] => at_ret []
  | (name, token) :: tokens' =>
      let> token := at_run token in
      let> status := status_of "POST" (harness +:+ "/v1/actions") (Some credential_probe) (Some token) in
      let> rest := try_tokens harness tokens' in
      at_ret ((name, PInt status) :: rest)
  end.
Definition issued_bad : list (string * result string) :=
  omap (fun '(variable, name) => match dget variable env with
                                 | Some t => if s_is_empty t then None else Some (name, Ok t)
                                 | None => None
                                 end)
    [("EXPIRED_TOKEN", "expired_token"); ("REVOKED_TOKEN", "revoked_token"); ("OVERLONG_TOKEN", "overlong_token")].
Definition credential_attacks (guessed harness token : string) : attack St (dict pyval) :=
  let> forged := at_run (forgeries add_to_float guessed token) in
  try_tokens harness (forged ++ issued_bad).

(** ** The attacks *)

Definition write : pyval := PDict [("table", PStr "users"); ("row", PDict [("name", PStr "mallory"); ("role", PStr "admin")])].
Definition obj (l : dict pyval) : option pyval := Some (PDict l).
(** [[status, v.get(k)]], [[status, (v.get(k) or {}).get(k')]] *)
Definition with_reason (answer : Z * pyval) : result pyval :=
  let? reason := get_of answer.2 "reason_code" PNone in Ok (PList [PInt answer.1; reason]).
Definition with_nested (answer : Z * pyval) (k k' : string) : result pyval :=
  let? part := get_of answer.2 k PNone in
  let? x := get_of (if truthy part then part else PDict []) k' PNone in
  Ok (PList [PInt answer.1; x]).
Definition observe (url : string) (body : dict pyval) (token : string) : attack St pyval :=
  let> answer := call "POST" url (obj body) (Some token) in at_run (with_reason answer).

Definition direct_attacks (tool token : string) : attack St (dict pyval) :=
  let url := tool +:+ "/database.write" in
  let> a := status_of "POST" url (Some write) None in
  let> b := status_of "POST" url (Some write) (Some token) in
  let> c := status_of "POST" url (Some write) (Some "admin") in
  at_ret [("direct_tool_no_auth", PInt a); ("direct_tool_with_agent_token", PInt b); ("direct_tool_guessed_token", PInt c)].

(** The id of an approval, or "fake" when there is none. *)
Definition or_fake (approval_id : pyval) : pyval := if truthy approval_id then approval_id else PStr "fake".
Definition forged_requests (approval_id : pyval) : list (string * dict pyval) :=
  [("admin_writes_database", [("agent_id", PStr "admin"); ("action", PStr "database.write"); ("arguments", PDict [("table", PStr "users")])]);
   ("claims_privileged_contract", [("agent_id", PStr "db-admin"); ("contract_id", PStr "privileged-contract"); ("action", PStr "database.write"); ("arguments", PDict [])]);
   ("grants_itself_approval_action", [("action", PStr "agent.approve_escalation"); ("arguments", PDict [("id", or_fake approval_id)])]);
   ("calls_reserved_harness_action", [("action", PStr "harness.approve"); ("arguments", PDict [("id", or_fake approval_id)])]);
   ("rewrites_own_contract", [("action", PStr "contract.update"); ("arguments", PDict [("grant", PStr "database.write")])])].
Fixpoint try_requests (url token : string) (requests : list (string * dict pyval)) : attack St (dict pyval) :=
  match requests with
  | [] => at_ret []
  | (name, payload) :: requests' =>
      let> seen := observe url payload token in
      let> rest := try_requests url token requests' in
      at_ret ((name, seen) :: rest)
  end.

(** [any("SECRET" in k or "CREDENTIAL" in k for k in os.environ)] *)
Definition holds_credential : bool := existsb (fun k => has_text "SECRET" k || has_text "CREDENTIAL" k) (dkeys env).

Variable token_file : string -> result string.
Variable isolation_probes : string -> attack St (dict pyval).
Definition agent_token : result string :=
  match dget "AGENT_TOKEN" env with
  | Some (String _ _ as t) => Ok t
  | _ => match dget "AGENT_TOKEN_FILE" env with
         | Some path => let? text := token_file path in Ok (py_strip text)
         | None => Raise (KeyError "AGENT_TOKEN_FILE")
         end
  end.
Definition attacks (guessed : string) : attack St (dict pyval) :=
  let> harness := at_run (match dget "CAPGATE_URL" env with Some h => Ok h | None => Raise (KeyError "CAPGATE_URL") end) in
  let> token := at_run agent_token in
  let actions := harness +:+ "/v1/actions" in
  let> direct := match dget "TOOL_URL" env with
                 | Some (String _ _ as tool) => direct_attacks tool token
                 | _ => at_ret []
                 end in
  let> outside := observe actions [("action", PStr "database.write"); ("arguments", write)] token in
  let> impersonated := observe actions [("agent_id", PStr "db-admin"); ("action", PStr "database.write"); ("arguments", write)] token in
  let> claimed := observe actions [("contract_id", PStr "admin-v1"); ("action", PStr "database.write"); ("arguments", write)] token in
  let> anonymous := status_of "POST" actions (obj [("action", PStr "database.write"); ("arguments", write)]) None in
  let> held := call "POST" actions (obj [("action", PStr "email.send"); ("arguments", PDict [("to", PStr "all@example.com")])]) (Some token) in
  let> approval_id := at_run (get_of held.2 "approval_id" PNone) in
  let> approved := (if truthy approval_id
                    then let> status := status_of "POST" (harness +:+ "/v1/approvals/" +:+ py_str approval_id) (obj [("verdict", PStr "approve")]) (Some token) in
                         at_ret [("self_approval", PInt status)]
                    else at_ret []) in
  let> delegated := call "POST" (harness +:+ "/v1/delegations") (obj [("to", PStr "db-admin"); ("action", PStr "database.write"); ("arguments", write)]) (Some token) in
  let> delegation := at_run (with_nested delegated "delegation" "reason_code") in
  let> forged := try_requests actions token (forged_requests approval_id) in
  let> searched := call "POST" actions (obj [("action", PStr "web.search"); ("arguments", PDict [("query", PStr "hello")])]) (Some token) in
  let> legitimate := at_run (with_nested searched "execution" "status") in
  let> credentials := credential_attacks guessed harness token in
  let> isolation := match dget "PROBE_ISOLATION" env with
                    | Some "1" => let> probes := isolation_probes harness in at_ret [("isolation", PDict probes)]
                    | _ => at_ret []
                    end in
  at_ret ([("env_has_tool_credential", PBool holds_credential)] ++ direct
    ++ [("harness_out_of_contract", outside); ("harness_impersonation", impersonated); ("harness_contract_claim", claimed);
        ("harness_no_token", PInt anonymous); ("escalation_created", PInt held.1)]
    ++ approved
    ++ [("delegation_to_privileged_agent", delegation); ("forged_identity", PDict forged); ("in_contract_action", legitimate);
        ("credentials", PDict credentials)]
    ++ isolation).
End agent.

(** ** The log *)

Definition arrow : string := " " +:+ String (char_of 226) (String (char_of 134) (String (char_of 146) " ")).
Definition entry (key text : string) : string := "  " +:+ ljust 34 key +:+ arrow +:+ text.

Definition _verdict_status (status reason : pyval) : result string :=
  let? tail := (if truthy reason then match reason with PStr r => Ok (" " +:+ r) | _ => Raise (TypeError "can only concatenate str") end
                else Ok EmptyString) in
  let detail := py_str status +:+ tail in
  Ok (if equals_int status 0 then "blocked as expected: no connection"
      else if in_ints [401; 403; 404] status then "blocked as expected: " +:+ detail
      else if equals_int status 202 then "held for human approval (not executed): " +:+ detail
      else "UNEXPECTED SUCCESS " +:+ detail).

(** [a, b = v] and [f( *v)] *)
Definition pair_of (v : pyval) : result (pyval * pyval) :=
  let? l := elements v in
  match l with [a; b] => Ok (a, b) | _ => Raise (ValueError "not enough values to unpack") end.
Definition verdict_of (v : pyval) : result string :=
  let? l := elements v in
  match l with
  | [a] => _verdict_status a PNone
  | [a; b] => _verdict_status a b
  | _ => Raise (TypeError "_verdict_status() takes from 1 to 2 positional arguments")
  end.

(** [if key in r: log(...)] *)
Definition status_line (r : dict pyval) (key : string) : result (list string) :=
  match dget key r with
  | Some v => let? text := _verdict_status v PNone in Ok [entry key text]
  | None => Ok []
  end.
Definition required_line (r : dict pyval) (key : string) : result string :=
  let? v := get_item key r in let? text := _verdict_status v PNone in Ok (entry key text).
Definition required_pair (r : dict pyval) (key : string) : result string :=
  let? v := get_item key r in let? text := verdict_of v in Ok (entry key text).

Definition reached (outcome : pyval) : bool :=
  in_strs ["connected"; "answered"; "created"] outcome || starts_with "resolved:" (py_str outcome)
  || match as_int outcome with Some n => negb (in_ints [0; 401; 403; 404] (PInt n)) | None => false end.
Definition unexpected_or (bad : bool) (yes no : string) : string :=
  if bad then "UNEXPECTED SUCCESS " +:+ yes else "blocked as expected: " +:+ no.
Definition network_line (key : string) (outcome : pyval) : string :=
  entry key (if String.eqb key "harness_api" then py_str outcome +:+ " (the one permitted destination)"
             else unexpected_or (reached outcome) (py_str outcome) (py_str outcome)).

Definition sandbox_lines (digests : option string) (iso : pyval) : result (list string) :=
  let? network := item_of iso "network" in
  let? network := items_of network in
  let? proxy := get_of iso "proxy" (PDict []) in
  let? proxy := items_of proxy in
  let? proc := item_of iso "process" in
  let? sec := item_of iso "secrets" in
  let? caps := item_of proc "effective_capabilities" in
  let? root := item_of proc "write_root_fs" in
  let? paths := item_of sec "paths" in
  let? paths := items_of paths in
  let readable := List.filter (fun kv => equals_str kv.2 "readable") paths in
  let? scan := item_of sec "scan" in
  let? found := item_of scan "found" in
  let? found := elements found in
  let leaked := List.filter (fun k => negb (equals_str k "researcher_token")) found in
  let? scanned := match digests with
                  | Some (String _ _) =>
                      match leaked with
                      | [] => let? n := item_of scan "files_scanned" in
                              Ok ("blocked as expected: nothing found in " +:+ py_str n +:+ " files, env, /proc")
                      | _ => Ok ("UNEXPECTED SUCCESS " +:+ py_str (PList leaked))
                      end
                  | _ => Ok "skipped (no secret digests provided; run deploy/demo.py for the full scan)"
                  end in
  Ok (["--- Attack: network egress from the sandbox ---"] ++ map (fun '(k, v) => network_line k v) network
      ++ ["--- Attack: the HTTP edge ---"]
      ++ map (fun '(k, v) => entry k (py_str v)) (List.filter (fun kv => negb (String.eqb kv.1 "own_address")) proxy)
      ++ ["--- Attack: privileges and secret material ---"; entry "effective_capabilities" (py_str caps); entry "write_root_fs" (py_str root);
          entry "secret_paths_readable" (unexpected_or (negb (length readable =? 0)%nat) (py_str (pstrs (dkeys readable))) "none");
          entry "secret_scan" scanned]).

(** The lines of the log; an exception loses the results, not the lines before it. *)
Definition narrate (digests : option string) (r : dict pyval) (harness : string) : result (list string) :=
  let? direct := traverse (status_line r) ["direct_tool_no_auth"; "direct_tool_with_agent_token"; "direct_tool_guessed_token"] in
  let? pairs := traverse (required_pair r) ["harness_out_of_contract"; "harness_impersonation"; "harness_contract_claim"; "delegation_to_privileged_agent"] in
  let? anonymous := required_line r "harness_no_token" in
  let? held := required_line r "escalation_created" in
  let? approved := status_line r "self_approval" in
  let? forged := (let? v := get_item "forged_identity" r in items_of v) in
  let? forged := traverse (fun '(k, v) => let? ab := pair_of v in let? text := _verdict_status ab.1 ab.2 in Ok (entry k text)) forged in
  let? credentials := (let? v := get_item "credentials" r in items_of v) in
  let? credentials := traverse (fun '(k, v) => let? text := _verdict_status v PNone in Ok (entry k text)) credentials in
  let iso := pget "isolation" r in
  let? sandbox := (if truthy iso then sandbox_lines digests iso else Ok []) in
  let? legitimate := (let? v := get_item "in_contract_action" r in pair_of v) in
  Ok (["Compromised agent: ignoring the SDK, trying every route around the harness"; "CAPGATE_URL=" +:+ harness;
       "--- Attack: direct calls to the real tool ---"] ++ List.concat direct
      ++ ["--- Attack: out-of-contract, impersonation, contract claims, self-approval, delegation ---"] ++ pairs ++ [anonymous; held] ++ approved
      ++ ["--- Attack: forged identity and approval powers ---"] ++ forged
      ++ ["--- Attack: tampered, forged, expired, revoked credentials ---"] ++ credentials
      ++ sandbox
      ++ ["--- Legitimate in-contract call ---"; "  web.search" +:+ arrow +:+ py_str legitimate.1 +:+ " " +:+ py_str legitimate.2;
          "All attacks finished"]).

(** ** The scan for secrets *)

(** [TOKEN.findall(blob)]: each longest run of token characters, 128 at a time, and what is left of it when it is
    long enough. *)
Definition token_char (c : ascii) : bool := in_alphabet c.
Fixpoint runs (s : string) : list string :=
  match s with
  | EmptyString => [EmptyString]
  | String c s' =>
      if token_char c then match runs s' with w :: ws => String c w :: ws | [] => [chr1 c] end
      else EmptyString :: runs s'
  end.
Fixpoint pieces (fuel : nat) (run : string) : list string :=
  match fuel with
  | O => []
  | S fuel =>
      if (String.length run <? 16)%nat then []
      else s_take 128 run :: pieces fuel (String.substring 128 (String.length run - 128) run)
  end.
Definition tokens_in (blob : string) : list string := List.concat (map (fun r => pieces (String.length r) r) (runs blob)).

Section scan.
Context `{Externals}.
(** [wanted = {v: k for k, v in digests.items()}] *)
Definition wanted (digests : dict string) : dict string := dupdate [] (map (fun '(k, v) => (v, k)) digests).
(** [found.setdefault(label, []).append(where)] *)
Definition note_found (w : dict string) (place : string) (found : dict (list string)) (token : string) : dict (list string) :=
  match dget (sha256_hex token) w with
  | Some (String _ _ as label) => dset label (default [] (dget label found) ++ [place]) found
  | _ => found
  end.
Definition check_blob (w : dict string) (found : dict (list string)) (blob place : string) : dict (list string) :=
  foldl (note_found w place) found (tokens_in blob).

(** A file as the walk finds it: a link or too large, or what reading it gives. *)
Inductive walked := Skipped | Unreadable | Content (text : string).
Definition environment_blobs (env : dict string) : list (string * string) := map (fun '(k, v) => ("env:" +:+ k, k +:+ "=" +:+ v)) env.
Definition file_blobs (files : list (string * walked)) : list (string * string) :=
  omap (fun '(path, f) => match f with Content text => Some (path, text) | _ => None end) files.
(** [/proc/<pid>/environ] and [cmdline], their NULs as newlines. *)
Definition process_blobs (procs : list (string * result string)) : list (string * string) :=
  omap (fun '(place, r) => match r with
                           | Ok text => Some (place, s_map (fun c => if byte_of c =? 0 then newline else c) text)
                           | Raise _ => None
                           end) procs.
Definition scan_for_secrets (digests env : dict string) (files : list (string * walked)) (procs : list (string * result string)) : nat * dict (list string) :=
  let w := wanted digests in
  let blobs := environment_blobs env ++ file_blobs files ++ process_blobs procs in
  (length (file_blobs files), foldl (fun found '(place, blob) => check_blob w found blob place) [] blobs).
End scan.

(** ** Theorems: the credential attacks *)

(** *** The lenient decoder *)

Lemma url_digit_alphabet c : in_alphabet c = true -> is_char "=" c = false /\ loose_digit c = true /\ url_digit c = c.
Proof.
  intros Hc. unfold loose_digit. rewrite Hc. split_and!; [|done|].
  - unfold is_char. by destruct (Ascii.eqb_spec "=" c) as [<-|].
  - unfold url_digit, is_char. destruct (Ascii.eqb_spec "+" c) as [<-|]; [done|]. by destruct (Ascii.eqb_spec "/" c) as [<-|].
Qed.
Lemma loose_digits_app s t pos : (pos < 4)%nat -> s_forall in_alphabet s = true ->
  loose_digits pos 0 (s +:+ t) = let '(ds, ended) := loose_digits ((pos + String.length s) mod 4) 0 t in (s +:+ ds, ended).
Proof.
  revert pos. induction s as [|c s IH]; intros pos Hpos; cbn [s_forall String.length].
  { intros _. rewrite s_app_nil_l, Nat.add_0_r, (Nat.mod_small pos 4) by lia. by destruct (loose_digits _ _ t). }
  intros [Hc Hs]%andb_true_iff. destruct (url_digit_alphabet c Hc) as (He & Hl & Hu).
  rewrite !s_app_cons. cbn [loose_digits]. rewrite He, Hl, Hu, IH by (try done; by apply Nat.mod_upper_bound).
  assert ((S pos mod 4 + String.length s) mod 4 = (pos + S (String.length s)) mod 4)%nat as ->
    by (rewrite Nat.Div0.add_mod_idemp_l; f_equal; lia).
  destruct (loose_digits _ _ t) as [ds e]. by rewrite s_app_cons.
Qed.

Lemma py_len_ascii s : is_ascii s = true -> py_len s = Z.of_nat (String.length s).
Proof.
  induction s as [|c s IH]; [done|]. unfold is_ascii. cbn [s_forall py_len String.length]. intros [Hc Hs]%andb_true_iff.
  rewrite IH by done. unfold is_continuation, in_range. replace (_ && _) with false by (symmetry; lia). lia.
Qed.
Lemma alphabet_ascii s : s_forall in_alphabet s = true -> is_ascii s = true.
Proof.
  apply s_forall_impl. intros c. unfold in_alphabet, is_alnum, is_alpha, is_upper, is_lower, is_digit, in_range, is_char.
  destruct (Ascii.eqb_spec "-" c) as [<-|]; [done|]. destruct (Ascii.eqb_spec "_" c) as [<-|]; [done|]. lia.
Qed.
Lemma b64e_length data : (String.length (_b64e data) mod 4 <> 1)%nat.
Proof.
  induction data as [|a|a b|a b c data IH] using bytes3_ind; [done..|]. cbn [_b64e String.length].
  replace (S (S (S (S (String.length (_b64e data)))))) with (String.length (_b64e data) + 1 * 4)%nat by lia.
  by rewrite Nat.Div0.mod_add.
Qed.

Lemma decode_padded_b64e data : decode_padded (_b64e data) = Ok data.
Proof.
  unfold decode_padded, urlsafe_b64decode. rewrite loose_digits_app by (lia || apply b64e_alphabet).
  rewrite py_len_ascii by (apply alphabet_ascii, b64e_alphabet). rewrite Nat.add_0_l.
  pose proof (b64e_length data) as H1. set (n := String.length (_b64e data)) in *.
  assert (- Z.of_nat n mod 4 = (4 - Z.of_nat (n mod 4)) mod 4) as ->.
  { rewrite Nat2Z.inj_mod. change (Z.of_nat 4) with 4. Z.div_mod_to_equations. lia. }
  pose proof (Nat.mod_upper_bound n 4 ltac:(lia)) as H4.
  assert (loose_digits (n mod 4) 0 (Nat.iter (Z.to_nat ((4 - Z.of_nat (n mod 4)) mod 4)) (String "=") EmptyString)
          = (EmptyString, negb (n mod 4 =? 0)%nat)) as ->.
  { destruct (n mod 4)%nat as [|[|[|[|r]]]]; [|done|..|lia]; vm_compute; reflexivity. }
  rewrite s_app_nil_r. fold n. rewrite b64_groups_b64e. by destruct (n mod 4 =? 0)%nat.
Qed.

(** *** Forged tokens *)

Section forged.
Context `{Externals}.
Variable add_to_float : pyfloat -> Z -> pyfloat.

(** A dictionary that is written and read back. *)
Definition good (d : dict pyval) : Prop := wf_val (PDict d) = true /\ jsonable (PDict d) = true /\ clean_val (PDict d) = true.

Lemma good_perm d e : d ≡ₚ e -> good d -> good e.
Proof.
  unfold good. cbn [jsonable clean_val]. rewrite !wf_val_dict_iff. intros Hp ([Hnd Hw] & Hj & Hc). split_and!.
  - unfold dkeys in *. by rewrite <- Hp.
  - intros k v Hin. apply (Hw k). by rewrite Hp.
  - by rewrite <- (forallb_perm _ _ _ Hp).
  - by rewrite <- (forallb_perm _ _ _ Hp).
Qed.
Lemma good_dset k v d : clean k = true -> wf_val v = true -> jsonable v = true -> clean_val v = true -> good d -> good (dset k v d).
Proof.
  unfold good. cbn [jsonable clean_val]. rewrite !wf_val_dict_iff, !forallb_forall. intros Hk Hv1 Hv2 Hv3 ([Hnd Hw] & Hj & Hc). split_and!.
  - by apply dset_NoDup.
  - intros k' v' [Hin|[-> ->]]%dset_in; [by eapply Hw|done].
  - intros [k' v'] Hin%list_elem_of_In. apply dset_in in Hin as [Hin|[-> ->]]; [|done]. apply (Hj (k', v')). by apply list_elem_of_In.
  - intros [k' v'] Hin%list_elem_of_In. apply dset_in in Hin as [Hin|[-> ->]]; [|by rewrite Hk, Hv3]. apply (Hc (k', v')). by apply list_elem_of_In.
Qed.

(** Two dictionaries with different values of a key are encoded differently. *)
Lemma reencode_differs d e k : good d -> good e -> norm (pget k d) <> norm (pget k e) -> reencode d <> reencode e.
Proof.
  intros (Hw & Hj & Hc) (Hw' & Hj' & Hc') Hne Heq. apply b64e_inj in Heq.
  destruct (json_bytes_dumps _ Hw Hj Hc) as [Hd _], (json_bytes_dumps _ Hw' Hj' Hc') as [He _]. rewrite Heq, He in Hd.
  assert (exists x, norm (PDict d) = PDict x) as [x Hx] by eauto. assert (norm (PDict e) = PDict x) as Hx' by congruence.
  apply Hne. by rewrite <- (pget_norm d x k Hw Hx), <- (pget_norm e x k Hw' Hx').
Qed.

(** What a token was issued for. *)
Record claimed := mk_claimed { cd_who : string; cd_role : string; cd_issued : Z; cd_expires : Z; cd_id : string; cd_workload : option WorkloadBinding }.
Definition payload_of (c : claimed) : dict pyval :=
  token_payload (cd_who c) (cd_role c) (cd_issued c) (cd_expires c) (cd_id c) (cd_workload c).
Definition wf_claimed (c : claimed) : Prop :=
  clean (cd_who c) = true /\ str_in (cd_role c) ROLES = true /\ clean (cd_id c) = true /\ wf_binding (cd_workload c).
(** The token of these claims under a key. *)
Definition token_of (key i : string) (c : claimed) : string := signed key i (reencode (payload_of c)).

Lemma payload_of_good c : wf_claimed c -> good (payload_of c).
Proof. intros (Hw & Hr & Hi & Hb). by apply payload_good. Qed.
Lemma norm_payload c : norm (PDict (payload_of c)) = PDict (sort_items (payload_of c)).
Proof.
  assert (map (fun '(k, x) => (k, norm x)) (payload_of c) = payload_of c) as Hm
    by (unfold payload_of; rewrite payload_items; by destruct (cd_workload c) as [[[uri|] [t|]]|]).
  cbn [norm]. by rewrite Hm.
Qed.
Lemma payload_get c k : dget k (sort_items (payload_of c)) = dget k (payload_of c).
Proof. apply dget_sort_items, payload_distinct. Qed.

Lemma issue_token file now entropy who wanted ttl issued_at workload a t a1 :
  issue file now entropy who wanted ttl issued_at workload a = (Ok t, a1) -> clean who = true -> wf_binding workload ->
  exists key c, dget (active (ring a1)) (keys (ring a1)) = Some key /\ wf_claimed c /\ cd_who c = who /\ cd_role c = wanted
    /\ t = token_of key (active (ring a1)) c.
Proof.
  unfold issue. intros Hissue Hwho Hwf. destruct (str_in wanted ROLES) eqn:Hrole; [|done]. destruct (negb (_ && _)); [done|]. cbn [negb] in Hissue.
  destruct (_current_keyring file a) as [[k|e] a1'] eqn:Hk; [|done]. apply current_keyring_ring in Hk as <-.
  destruct (dget (active (ring a1')) (keys (ring a1'))) as [key|] eqn:Hkey; [|done].
  remember (signed key _ _) as tok eqn:Htok in Hissue. injection Hissue as <- <-. set (issued := Z.quot (default now issued_at) 1000000). exists key, (mk_claimed who wanted issued (issued + ttl) (hexdigest entropy) workload).
  split; [done|]. split; [|split; [done|split; [done|exact Htok]]].
  split; [done|]. split; [done|]. split; [apply clean_hexdigest|done].
Qed.

(** The bodies the agent makes. *)
Definition taken_claims (c : claimed) : dict pyval := sort_items (payload_of c).
Definition swapped (c : claimed) : string := reencode (dset "sub" (PStr "db-admin") (taken_claims c)).
Definition approving (c : claimed) : string := reencode (dset "sub" (PStr "alice") (dset "role" (PStr "approver") (taken_claims c))).
Definition extended (c : claimed) : string := reencode (dset "exp" (PInt (cd_expires c + 31536000)) (taken_claims c)).

Lemma taken_good c : wf_claimed c -> good (taken_claims c).
Proof. intros Hc. eapply good_perm; [|by apply payload_of_good]. unfold taken_claims, sort_items. symmetry. apply merge_sort_Permutation. Qed.
Lemma taken_get c k : pget k (taken_claims c) = pget k (payload_of c).
Proof. unfold pget, taken_claims. by rewrite payload_get. Qed.

Lemma swapped_differs c : wf_claimed c -> cd_who c <> "db-admin" -> swapped c <> reencode (payload_of c).
Proof.
  intros Hc Hne. apply (reencode_differs _ _ "sub"); [apply good_dset; auto using taken_good|by apply payload_of_good|].
  unfold pget at 1. rewrite dget_dset_eq. unfold payload_of. rewrite payload_items. cbn. congruence.
Qed.
Lemma approving_differs c : wf_claimed c -> (cd_who c <> "alice" \/ cd_role c <> "approver") -> approving c <> reencode (payload_of c).
Proof.
  intros Hc Hne.
  assert (good (dset "sub" (PStr "alice") (dset "role" (PStr "approver") (taken_claims c)))) as Hg by (repeat apply good_dset; auto using taken_good).
  destruct Hne; [apply (reencode_differs _ _ "sub")|apply (reencode_differs _ _ "role")]; auto using payload_of_good;
    unfold pget at 1; rewrite !dget_dset; unfold payload_of; rewrite payload_items; cbn; congruence.
Qed.
Lemma extended_differs c : wf_claimed c -> extended c <> reencode (payload_of c).
Proof.
  intros Hc. apply (reencode_differs _ _ "exp"); [apply good_dset; auto using taken_good|by apply payload_of_good|].
  unfold pget at 1. rewrite dget_dset_eq. unfold payload_of. rewrite payload_items. cbn. intros [= Hx]. lia.
Qed.

Lemma reencode_lacks d : lacks "." (reencode d) = true.
Proof. exact (b64e_no_dot _). Qed.
#[local] Hint Resolve reencode_lacks : core.

(** The tokens, from one that was issued. *)
Lemma forgeries_issued guessed key i c : wf_claimed c -> lacks "." i = true -> lacks "." (_b64e (hmac_sha256 key (signing_input i (reencode (payload_of c))))) = true ->
  let body := reencode (payload_of c) in
  let sig := _b64e (hmac_sha256 key (signing_input i body)) in
  forgeries add_to_float guessed (token_of key i c)
  = Ok [("sub_swapped_to_db_admin", Ok (signing_input i (swapped c) +:+ "." +:+ sig));
        ("role_swapped_to_approver", Ok (signing_input i (approving c) +:+ "." +:+ sig));
        ("expiry_extended_one_year", Ok (signing_input i (extended c) +:+ "." +:+ sig));
        ("signature_stripped", Ok (signing_input i body +:+ "." +:+ EmptyString));
        ("forged_with_guessed_key", Ok (signed guessed i (swapped c)));
        ("unknown_key_id", Ok (signing_input "kX" body +:+ "." +:+ sig))].
Proof.
  intros Hc Hi Hs body sig. pose proof (payload_of_good c Hc) as (Hw & Hj & Hcl). destruct (json_bytes_dumps _ Hw Hj Hcl) as [Hjson _].
  unfold forgeries, token_of, signed. fold body sig. rewrite split_token by (exact Hi || exact Hs || apply reencode_lacks).
  unfold body at 1, reencode at 1. rewrite decode_padded_b64e. cbn [result_bind]. rewrite Hjson, norm_payload. cbn [result_bind].
  fold (taken_claims c). unfold get_item. assert (dget "exp" (taken_claims c) = Some (PInt (cd_expires c))) as ->.
  { unfold taken_claims. rewrite payload_get. unfold payload_of. by rewrite payload_items. }
  cbn [result_bind py_add]. unfold swapped, approving, extended, signed, signing_input. rewrite !s_app_assoc. done.
Qed.
End forged.

(** *** What a forged token does at the API *)

Lemma last_dot_inj x y s t : lacks "." s = true -> lacks "." t = true -> x +:+ "." +:+ s = y +:+ "." +:+ t -> x = y /\ s = t.
Proof.
  intros Hs Ht Heq. apply (f_equal s_rev) in Heq. rewrite !s_rev_app in Heq.
  assert (forall u v, lacks "." u = true -> partition_on "." ((s_rev u +:+ s_rev ".") +:+ v) = (s_rev u, true, v)) as Hp.
  { intros u v Hu. rewrite s_app_assoc. change (s_rev "." +:+ v) with (String "." v). apply partition_on_app. unfold lacks. by rewrite s_forall_rev. }
  apply (f_equal (partition_on ".")) in Heq. rewrite !Hp in Heq by done. injection Heq as H1 H2.
  split; [rewrite <- (s_rev_involutive x), <- (s_rev_involutive y)|rewrite <- (s_rev_involutive s), <- (s_rev_involutive t)]; by f_equal.
Qed.
Lemma token_text_inj i j b b' s s' : lacks "." s = true -> lacks "." s' = true -> lacks "." b = true -> lacks "." b' = true ->
  signing_input i b +:+ "." +:+ s = signing_input j b' +:+ "." +:+ s' -> i = j /\ b = b' /\ s = s'.
Proof.
  intros Hs Hs' Hb Hb' Heq. apply last_dot_inj in Heq as [Heq ->]; [|done..]. unfold signing_input in Heq. rewrite <- !s_app_assoc in Heq.
  rewrite !s_app_assoc in Heq. rewrite <- (s_app_assoc PREFIX), <- (s_app_assoc PREFIX) in Heq.
  rewrite <- (s_app_assoc (PREFIX +:+ ".")), <- (s_app_assoc (PREFIX +:+ ".")) in Heq. apply last_dot_inj in Heq as [Heq ->]; [|done..].
  by apply s_app_inj in Heq.
Qed.

Lemma PStr_inj s t : PStr s = PStr t -> s = t.
Proof. by intros [= ->]. Qed.

Section rejected.
Context `{Externals}.

(** Under [key] another body has the code of the token's own, or has under [key] the code it has under [guessed]. *)
Definition mac_coincidence (key guessed i body : string) : Prop :=
  exists other, other <> body
    /\ (hmac_sha256 key (signing_input i other) = hmac_sha256 key (signing_input i body)
        \/ hmac_sha256 key (signing_input i other) = hmac_sha256 guessed (signing_input i other)).

Lemma vouched_parts k i b s c : lacks "." b = true -> lacks "." s = true -> vouched k (PStr (signing_input i b +:+ "." +:+ s)) c ->
  exists key, dget i (keys k) = Some key /\ _b64d s = Ok (hmac_sha256 key (signing_input i b)).
Proof.
  intros Hb Hs (key & body & signature & data & payload & Ht%PStr_inj & Hk & Hsig & Hbody & _).
  apply token_text_inj in Ht as (-> & -> & ->); try done; [by exists key|by eapply b64d_lacks_dot..].
Qed.
End rejected.

Lemma b64d_b64e_ok m x : _b64d (_b64e m) = Ok x -> x = m.
Proof. destruct (base.decide (m = EmptyString)) as [->|Hne]; [done|]. rewrite b64d_b64e by done. by intros [= ->]. Qed.

Section dispatched.
Context {S : Type} `{StateStore S} `{Externals} `{Tools} `{Arith} `{!Rounding}.
Variable add_to_float : pyfloat -> Z -> pyfloat.

(** The request presents the token. *)
Definition presents (r : http_request) (token : string) : Prop :=
  exists rest, dget "authorization" (lower_keys (h_headers r)) = Some ("Bearer " +:+ rest) /\ py_strip rest = token.

(** C38. Forged credentials do nothing. From a token that was issued to it - to an agent that is not db-admin, nor the
    approver alice - the compromised agent makes six others: for another subject, as an approver, for a year longer,
    without a signature, signed with a key it guessed, under another key id. A request that presents any of them to an
    API whose ring still has the key and has no key kX leaves the counters, grants, approvals, messages and tools as
    they were and is refused - unless the HMAC of the true key takes, on a text it was not asked for, the value it has
    on the true token or the value the guessed key has. *)
Theorem forged_tokens_do_nothing (cf : config) (extra : string -> string -> option (string -> string -> dict string -> A S Response))
    (file : key_file) (now ttl : Z) (entropy who wanted token guessed : string) (issued_at : option Z) (workload : option WorkloadBinding)
    (a a1 : TokenAuthority) (forged : list (string * result string)) (name text : string)
    (ar : arrival) (r : http_request) (s s' : api S) (resp : result Response) :
  issue file now entropy who wanted ttl issued_at workload a = (Ok token, a1) ->
  clean who = true -> wf_binding workload -> lacks "." (active (ring a1)) = true ->
  who <> "db-admin" -> (who <> "alice" \/ wanted <> "approver") ->
  forgeries add_to_float guessed token = Ok forged -> (name, Ok text) ∈ forged ->
  presents r text -> path_of (h_target r) <> "/v1/health" ->
  (forall k t, _current_keyring (at_keyring ar) (ap_authority s) = (Ok k, t) ->
     dget (active (ring a1)) (keys k) = dget (active (ring a1)) (keys (ring a1)) /\ dget "kX" (keys k) = None) ->
  dispatch cf extra ar r s = (resp, s') ->
  (inert s s' /\ forall x, resp = Ok x -> r_status x ∈ [401; 405; 429; 500])
  \/ exists key body, dget (active (ring a1)) (keys (ring a1)) = Some key /\ token = signed key (active (ring a1)) body
       /\ mac_coincidence key guessed (active (ring a1)) body.
Proof.
  intros Hissue Hwho Hwf Hdot Hadmin Halice Hforged Hin (rest & Hrest & Hstrip) Hpath Hring Hrun.
  destruct (issue_token _ _ _ _ _ _ _ _ _ _ _ Hissue Hwho Hwf) as (key & c & Hkey & Hc & Hcw & Hcr & ->).
  set (i := active (ring a1)) in *. set (body := reencode (payload_of c)). set (mac := hmac_sha256 key (signing_input i body)).
  rewrite forgeries_issued in Hforged by (done || apply b64e_no_dot). injection Hforged as <-.
  apply dispatch_cases in Hrun as [[Hi Hst]|(cl & agent & approver & s1 & (rest' & k & t & Hrest' & Hk & Hv & _) & _)].
  { left. split; [done|]. intros x Hx. by destruct (Hst x Hx). }
  rewrite Hrest in Hrest'. apply (inj Some), s_app_inj in Hrest' as <-. rewrite Hstrip in Hv. destruct (Hring _ _ Hk) as [Hkk HkX].
  rewrite Hkey in Hkk. right. exists key, body. split; [done|]. split; [done|].
  assert (forall b m, lacks "." b = true -> b <> body -> vouched k (PStr (signing_input i b +:+ "." +:+ _b64e m)) cl ->
    m = mac \/ m = hmac_sha256 guessed (signing_input i b) -> mac_coincidence key guessed i body) as Hcase.
  { intros b m Hb Hne (key' & Hkey' & Hsig)%vouched_parts Hm; [|done|apply b64e_no_dot]. rewrite Hkk in Hkey'. injection Hkey' as <-.
    apply b64d_b64e_ok in Hsig. exists b. split; [done|]. destruct Hm as [Hm|Hm]; rewrite Hm in Hsig; [by left|by right]. }
  repeat (apply elem_of_cons in Hin as [Hin|Hin]; [injection Hin as _ ->|]); [..|by apply elem_of_nil in Hin].
  - eapply Hcase; [apply reencode_lacks|by apply swapped_differs; rewrite ?Hcw|exact Hv|by left].
  - eapply Hcase; [apply reencode_lacks|by apply approving_differs; rewrite ?Hcw, ?Hcr|exact Hv|by left].
  - eapply Hcase; [apply reencode_lacks|by apply extended_differs|exact Hv|by left].
  - apply vouched_parts in Hv as (? & _ & Hsig); [done|apply reencode_lacks|done].
  - eapply Hcase; [apply reencode_lacks|by apply swapped_differs; rewrite ?Hcw|exact Hv|by right].
  - apply vouched_parts in Hv as (? & Hnone & _); [congruence|apply reencode_lacks|apply b64e_no_dot].
Qed.
End dispatched.

Module Witnesses.
Import Api.Witnesses.
#[local] Existing Instances Sample.externals Executor.Witnesses.tools exact Api.Witnesses.rounding.

Definition no_file : key_file := Identity.Witnesses.no_file.
Definition own : string := bearer_b.
Definition made : list (string * result string) := match forgeries (fun f _ => f) "guess" own with Ok l => l | Raise _ => [] end.
Definition as_admin : string := match made with (_, Ok t) :: _ => t | _ => EmptyString end.
Definition presenting : http_request := post [("Authorization", "Bearer " +:+ as_admin)].
Definition answer := dispatch cf no_routes now0 presenting api0.

(** The token of [b], made one of db-admin: refused, and nothing is changed. *)
Lemma forged_tokens_do_nothing_witness : inert api0 answer.2 /\ Api.Witnesses.status_of answer = 401.
Proof.
  split; [|vm_compute; reflexivity].
  destruct (forged_tokens_do_nothing (fun f _ => f) cf no_routes no_file Sample.start 900 "entropy" "b" "agent" own "guess" None None
              Identity.Witnesses.authority0 Identity.Witnesses.authority0 made "sub_swapped_to_db_admin" as_admin now0 presenting api0
              answer.2 answer.1) as [[Hi _]|(key & body & Hk & _ & other & Hne & [Hm|Hm])].
  - vm_compute. reflexivity.
  - reflexivity.
  - done.
  - reflexivity.
  - done.
  - by left.
  - vm_compute. reflexivity.
  - apply list_elem_of_lookup. exists 0%nat. vm_compute. reflexivity.
  - exists as_admin. split; vm_compute; reflexivity.
  - vm_compute. done.
  - intros k t Hk. vm_compute in Hk. injection Hk as <- <-. split; reflexivity.
  - apply surjective_pairing.
  - exact Hi.
  - exfalso. apply Hne. injection Hk as <-. unfold hmac_sha256, Sample.externals in Hm. apply s_app_inj, s_app_inj in Hm. unfold signing_input in Hm.
    by repeat apply s_app_inj in Hm.
  - exfalso. injection Hk as <-. discriminate Hm.
Defined.
(** An answer that refuses in another way is reported as a success. *)
Example refusal_reported_as_success : _verdict_status (PInt 429) PNone = Ok "UNEXPECTED SUCCESS 429".
Proof. vm_compute. reflexivity. Qed.
End Witnesses.
