(* ===== verification/Verdicts.v ===== *)
(** * The scripts that judge a deployment

    deploy/demo.py, deploy/mtls/demo.py and deploy/k8s-e2e/assert.py run the compromised agent in a container, over
    mutual TLS or in a cluster, and check what it observed against what the tools, the audit trail and the logs
    recorded. The observations are their input; starting containers and reading back files is not modelled. *)

From S2P Require Import Prelude Datetime Regex PyVal Externals Json AuditTrail Identity PyObj Contract Base64 Workload ToolService.

(** A check: its name, what was observed, whether it passed. *)
Record row := mk_row { rw_name : string; rw_observed : pyval; rw_ok : bool }.

Definition shown (v : pyval) : pyval := PStr (py_str v).
(** Underscores as spaces. *)
Definition spaced (s : string) : string := s_map (fun c => if is_char "_" c then " "%char else c) s.
(** [v[0]] *)
Definition first_of (v : pyval) : result pyval :=
  match v with
  | PList (x :: _) | PTuple (x :: _) => Ok x
  | PStr (String c _) => Ok (PStr (chr1 c))
  | PList [] | PTuple [] | PStr EmptyString => Raise (IndexError "index out of range")
  | _ => Raise (TypeError "object is not subscriptable")
  end.
Definition is_false (v : pyval) : bool := match v with PBool b => negb b | _ => false end.

(** A row about an item: as it is, or as [str] writes it. *)
Definition item_row (name : string) (v : pyval) (k : string) (ok : pyval -> bool) : result row :=
  let? x := item_of v k in Ok (mk_row name x (ok x)).
Definition text_row (name : string) (v : pyval) (k : string) (ok : pyval -> bool) : result row :=
  let? x := item_of v k in Ok (mk_row name (shown x) (ok x)).
(** [[e["path"] for e in effects]] *)
Definition paths_of (effects : pyval) : result (list pyval) := let? l := elements effects in traverse (fun e => item_of e "path") l.

(** [next(part.split("=", 1)[1] for part in line.split() if part.startswith("action="))] *)
Definition words (text : string) : list string :=
  List.filter (fun w => negb (s_is_empty w)) (split_on " " (s_map (fun c => if in_range 9 13 c || in_range 28 31 c then " "%char else c) text)).
Definition action_of (line : string) : result string :=
  match omap (strip_prefix "action=") (words line) with
  | a :: _ => Ok a
  | [] => Raise StopIteration
  end.
Definition is_execution (line : string) : bool := has_text " execution " (" " +:+ line +:+ " ") && has_text "outcome=succeeded" line.
Definition _logged_executions (logs : string) : result (list string) :=
  traverse action_of (List.filter is_execution (splitlines logs)).
Definition text_of (v : pyval) : result string :=
  match v with PStr s => Ok s | _ => Raise (AttributeError "object has no attribute 'splitlines'") end.

(** ** deploy/demo.py *)

Definition BLOCKED_TCP : list string := ["refused"; "timeout"; "dns_failed"; "error:"].
Definition PROTECTED : list string := ["tool_credential"; "signing_key"; "token_key"].
Definition blocked_by (prefixes : list string) (v : pyval) : bool := match v with PStr s => any_prefix prefixes s | _ => false end.
Definition blocked : pyval -> bool := blocked_by BLOCKED_TCP.

Section demo.
Context `{Externals}.

(** [sorted({r.get("client") for r in records})]; texts, or one value at most. *)
Definition is_spoof_record (r : pyval) : result bool :=
  let? event := get_of r "event" PNone in
  if equals_str event "authentication_failed" then let? e := get_of r "credential_error" PNone in Ok (equals_str e "TOKEN_MALFORMED") else Ok false.
Fixpoint filter_of (p : pyval -> result bool) (l : list pyval) : result (list pyval) :=
  match l with
  | [] => Ok []
  | x :: l' => let? b := p x in let? rest := filter_of p l' in Ok (if b then x :: rest else rest)
  end.
Definition sorted_set (l : list pyval) : result (list pyval) :=
  if forallb hashable l then
    match all_strs l with
    | Some ss => Ok (map PStr (sorted_strs (remove_dups ss)))
    | None => match l with
              | x :: l' => if forallb (py_eq x) l' then Ok [x] else Raise (TypeError "'<' not supported between instances")
              | [] => Ok []
              end
    end
  else Raise (TypeError "unhashable type").
Definition spoof_clients (audit : pyval) : result (list pyval) :=
  let? l := elements audit in
  let? records := filter_of is_spoof_record l in
  let? clients := traverse (fun r => get_of r "client" PNone) records in
  sorted_set clients.

Definition http_rows (a : pyval) : result (list row) :=
  let? attempts := traverse (fun '(name, k, ok) => text_row name a k ok)
    [("HTTP  direct call to tool endpoint (no auth)", "direct_tool_no_auth", in_ints [0]);
     ("HTTP  direct call to tool endpoint (agent token)", "direct_tool_with_agent_token", in_ints [0]);
     ("HTTP  direct call to tool endpoint (guessed token)", "direct_tool_guessed_token", in_ints [0]);
     ("HTTP  out-of-contract action via harness", "harness_out_of_contract", fun v => py_eq v (PList [PInt 403; PStr "TOOL_NOT_ALLOWED"]));
     ("HTTP  impersonate db-admin", "harness_impersonation", fun v => py_eq v (PList [PInt 403; PStr "IDENTITY_MISMATCH"]));
     ("HTTP  claim admin contract", "harness_contract_claim", fun v => py_eq v (PList [PInt 403; PStr "CONTRACT_MISMATCH"]));
     ("HTTP  no token", "harness_no_token", fun v => equals_int v 401)] in
  let? approval := get_of a "self_approval" PNone in
  let? delegation := text_row "HTTP  delegate to privileged agent" a "delegation_to_privileged_agent"
                       (fun v => py_eq v (PList [PInt 403; PStr "TOOL_NOT_ALLOWED"])) in
  let? forged := (let? v := item_of a "forged_identity" in items_of v) in
  let? forged := traverse (fun '(name, v) => let? status := first_of v in
                             Ok (mk_row ("HTTP  forged: " +:+ spaced name) (shown v) (in_ints [401; 403] status))) forged in
  let? env := text_row "HTTP  env holds a tool credential" a "env_has_tool_credential" is_false in
  let? credentials := (let? v := item_of a "credentials" in items_of v) in
  Ok (attempts ++ [mk_row "HTTP  approve own escalation" (shown approval) (equals_int approval 404); delegation] ++ forged ++ [env]
      ++ map (fun '(name, status) => mk_row ("CRED  " +:+ spaced name) (shown status) (equals_int status 401)) (sort_items credentials)).

Definition net_rows (result_ net : pyval) : result (list row) :=
  let? reach := traverse (fun '(name, k, ok) => item_row name net k ok)
    [("NET   tcp tools:9100 by name", "tool_by_name", blocked); ("NET   tcp tools:9100 by IP", "tool_by_ip", blocked);
     ("NET   harness on a non-API port", "harness_other_port", blocked);
     ("NET   misattached tool on the agent's own network", "misattached_tool_same_network", fun v => equals_str v "refused")] in
  let? guard := item_of result_ "netguard" in
  let? drops := contains_key "-P OUTPUT DROP" guard in
  let? accepts := (if drops then contains_key "--dport 8080 -j ACCEPT" guard else Ok false) in
  let? internet := traverse (fun '(name, k, ok) => item_row name net k ok)
    [("NET   internet tcp 1.1.1.1:443", "internet_tcp_ip", blocked); ("NET   internet tcp example.com:443", "internet_tcp_name", blocked);
     ("NET   internet ipv6", "internet_ipv6", blocked); ("NET   resolve example.com", "dns_external_name", fun v => equals_str v "dns_failed");
     ("NET   udp dns to 8.8.8.8", "udp_dns_8_8_8_8", fun v => negb (equals_str v "answered"));
     ("NET   host.docker.internal", "host_gateway", blocked); ("NET   docker bridge gateway", "docker_bridge_gateway", blocked);
     ("NET   raw socket", "raw_socket", fun v => negb (equals_str v "created"))] in
  let? web := traverse (fun '(name, k, ok) => text_row name net k ok)
    [("NET   http https://example.com", "http_example_com", fun v => equals_int v 0); ("NET   http 1.1.1.1", "http_1_1_1_1", fun v => equals_int v 0)] in
  let? metadata := item_of net "cloud_metadata_http" in
  let? metadata_tcp := item_of net "cloud_metadata_tcp" in
  Ok (reach ++ [mk_row "NET   egress allowlist installed (default DROP, only proxy:8080)" (PStr "iptables OUTPUT") (drops && accepts)] ++ internet ++ web
      ++ [mk_row "NET   cloud metadata 169.254.169.254 (http, tcp)" (PStr (py_str metadata +:+ ", " +:+ py_str metadata_tcp))
            (equals_int metadata 0 && blocked metadata_tcp)]).

(** [v.startswith("closed_after_") and int(v.split("_")[2].rstrip("s")) <= 15] *)
Definition closed_in_time (v : pyval) : result bool :=
  let? s := text_of v in
  if starts_with "closed_after_" s then
    match split_on "_" s with
    | _ :: _ :: seconds :: _ =>
        match read_int (rstrip_by (is_char "s") seconds) with
        | Some n => Ok (n <=? 15)
        | None => Raise (ValueError "invalid literal for int() with base 10")
        end
    | _ => Raise (IndexError "list index out of range")
    end
  else Ok false.
Definition edge_rows (result_ px : pyval) (clients : list pyval) : result (list row) :=
  let? direct := item_row "EDGE  harness not reachable directly (only via proxy)" px "harness_direct" (fun v => equals_str v "dns_failed") in
  let? slow := item_of px "slow_headers" in
  let? slow_ok := closed_in_time slow in
  let? refusals := traverse (fun '(name, k, ok) => text_row name px k ok)
    [("EDGE  1.5MB body refused before the harness", "oversized_body", in_ints [413]); ("EDGE  unknown path refused", "unknown_path", in_ints [404]);
     ("EDGE  encoded path traversal refused", "path_traversal", in_ints [400; 404]); ("EDGE  TRACE method refused", "trace_method", in_ints [403; 405])] in
  let? address := (match clients with
                   | [] => Ok PNone
                   | _ => if existsb (fun c => equals_str c "203.0.113.66") clients then Ok PNone else item_of px "own_address"
                   end) in
  let spoof_ok := negb (existsb (fun c => equals_str c "203.0.113.66") clients) && match clients with [c] => py_eq c address | _ => false end in
  let observed := s_concat ", " (map py_str clients) in
  let? logs := item_of result_ "harness_logs" in
  let? uvicorn := contains_key "transport=uvicorn" logs in
  Ok ([direct; mk_row "EDGE  slow headers (slowloris) connection closed" slow slow_ok] ++ refusals
      ++ [mk_row "EDGE  spoofed X-Real-IP ignored (audit shows agent's real address)" (PStr (if s_is_empty observed then "no record" else observed)) spoof_ok;
          mk_row "EDGE  harness served by uvicorn" (PStr "transport=uvicorn") uvicorn]).

Definition process_rows (proc : pyval) : result (list row) :=
  let? caps := text_row "PROC  effective capabilities" proc "effective_capabilities" (fun v => equals_int v 0) in
  let? uid := text_row "PROC  runs as non-root" proc "uid" (fun v => negb (equals_int v 0)) in
  let? pids := item_of proc "visible_pids" in
  let? visible := elements pids in
  let? docker := item_row "PROC  docker socket" proc "docker_socket" (fun v => equals_str v "not_found") in
  let? root := item_row "PROC  write to root filesystem" proc "write_root_fs" (in_strs ["error:30"; "error:13"]) in
  Ok [caps; uid; mk_row "PROC  other processes visible" (shown pids) (length visible <=? 2)%nat; docker; root].
Definition secret_rows (sec : pyval) : result (list row) :=
  let? scan := item_of sec "scan" in
  let? found := (let? v := item_of scan "found" in items_of v) in
  let? paths := (let? v := item_of sec "paths" in items_of v) in
  let leaked := List.filter (fun k => str_in k PROTECTED) (dkeys found) in
  let own := pget "researcher_token" found in
  Ok (map (fun '(path, status) => mk_row ("SEC   read " +:+ path) status (negb (equals_str status "readable"))) paths
      ++ [mk_row "SEC   filesystem + env + /proc scan for harness secrets"
            (PStr (match leaked with [] => "none found" | _ => s_concat ", " leaked end)) (length leaked =? 0)%nat;
          mk_row "SEC   scanner positive control (finds the agent's own token)" (shown own) (truthy own)]).
Definition path_rows (result_ a net : pyval) : result (list row) :=
  let? legitimate := text_row "PATH  in-contract action via harness" a "in_contract_action" (fun v => py_eq v (PList [PInt 200; PStr "succeeded"])) in
  let? reach := item_row "PATH  harness API reachable" net "harness_api" (fun v => equals_str v "connected") in
  let? paths := (let? v := item_of result_ "side_effects" in paths_of v) in
  let? decoy := item_of result_ "decoy_side_effects" in
  let? verified := item_of result_ "audit_verified" in
  let? logs := (let? v := item_of result_ "harness_logs" in text_of v) in
  let? executions := _logged_executions logs in
  let? count := elements decoy in
  Ok [legitimate; reach; mk_row "PATH  side effects at real tool" (shown (PList paths)) (py_eq (PList paths) (PList [PStr "/web.search"]));
      mk_row "PATH  side effects at misattached tool" (PStr (show_Z (Z.of_nat (length count)))) (py_eq decoy (PList []));
      mk_row "PATH  audit hash chain intact" (shown verified) (truthy verified);
      mk_row "PATH  harness logs: executions reaching a tool" (shown (pstrs executions)) (py_eq (pstrs executions) (PList [PStr "web.search"]))].

Definition checks (result_ : pyval) : result (list row) :=
  let? a := item_of result_ "agent" in
  let? iso := item_of a "isolation" in
  let? net := item_of iso "network" in
  let? proc := item_of iso "process" in
  let? sec := item_of iso "secrets" in
  let? px := item_of iso "proxy" in
  let? clients := (let? audit := item_of result_ "audit" in spoof_clients audit) in
  let? http := http_rows a in
  let? nets := net_rows result_ net in
  let? edge := edge_rows result_ px clients in
  let? process := process_rows proc in
  let? secrets := secret_rows sec in
  let? path := path_rows result_ a net in
  Ok (http ++ nets ++ edge ++ process ++ secrets ++ path).
End demo.

(** *** The report and the exit status *)

Definition all_pass (rows : list row) : bool := forallb rw_ok rows.
Definition status_code (rows : list row) : Z := if all_pass rows then 0 else 1.
Definition pass_text (ok : bool) : string := if ok then "PASS" else "FAIL".
Definition row_line (width : Z) (r : row) : string :=
  "  " +:+ pass_text (rw_ok r) +:+ "  " +:+ ljust width (rw_name r) +:+ py_str (rw_observed r).
Definition passed_of (rows : list row) : string :=
  show_Z (Z.of_nat (length (List.filter rw_ok rows))) +:+ "/" +:+ show_Z (Z.of_nat (length rows)) +:+ " checks passed.".
(** [max(len(c) for c, _, _ in rows) + 2] *)
Definition name_width (rows : list row) : Z := foldr Z.max 0 (map (fun r => py_len (rw_name r)) rows) + 2.
Definition demo_report (rows : list row) (side_effects : nat) : list string :=
  map (row_line (name_width rows)) rows
  ++ [passed_of rows +:+ " Side effects at the real tool: " +:+ show_Z (Z.of_nat side_effects) +:+ " (the authorized web.search)."].

(** ** deploy/mtls/demo.py *)

Definition mtls_checks (result_ : pyval) : result (list row) :=
  let? a := item_of result_ "agent" in
  let? effects := item_of result_ "side_effects" in
  let? allowed := text_row "agent with its SPIFFE cert + bound token -> allowed" a "authorized_call" (fun v => py_eq v (PList [PInt 200; PStr "succeeded"])) in
  let? firsts := traverse (fun '(name, k, ok) => let? v := item_of a k in let? x := first_of v in Ok (mk_row name (shown v) (ok x)))
    [("denied action still denied over mTLS", "denied_action", in_ints [403]);
     ("forged X-Client-Spiffe-Id header ignored (edge overwrites)", "forged_identity_header", in_ints [200]);
     ("no client certificate -> cannot connect", "no_client_cert", in_strs ["tls_error"; "conn_error"])] in
  let? paths := paths_of effects in
  Ok ([allowed] ++ firsts
      ++ [mk_row "only authorized web.search reached the tool (never database.write)" (shown (PList paths))
            (negb (py_eq effects (PList [])) && forallb (fun p => equals_str p "/web.search") paths)]).
Definition mtls_report (rows : list row) : list string := map (row_line (name_width rows)) rows ++ [passed_of rows].

(** ** deploy/k8s-e2e/assert.py *)

Definition BLOCKED : list string := ["refused"; "timeout"; "dns_failed"; "error:"; "no_ip"].
Definition is_allowed_decision (r : pyval) : result bool :=
  let? event := get_of r "event" PNone in
  if equals_str event "decision" then let? d := get_of r "decision" PNone in Ok (equals_str d "allow") else Ok false.
Fixpoint select_of (p : pyval -> result bool) (f : pyval -> result pyval) (l : list pyval) : result (list pyval) :=
  match l with
  | [] => Ok []
  | x :: l' => let? b := p x in
               if b then let? y := f x in let? rest := select_of p f l' in Ok (y :: rest) else select_of p f l'
  end.
Definition e2e_checks (obs : pyval) (ledger : list pyval) (audit : pyval) : result (list row) :=
  let? iso := item_of obs "isolation" in
  let? net := item_of iso "network" in
  let? proc := item_of iso "process" in
  let? sec := item_of iso "secrets" in
  let? reach := item_row "agent reaches the harness through the proxy" net "harness_api" (fun v => equals_str v "connected") in
  let? legitimate := item_row "in-contract action authorized and executed" obs "in_contract_action" (fun v => py_eq v (PList [PInt 200; PStr "succeeded"])) in
  let? egress := traverse (fun probe => item_row ("egress blocked: " +:+ probe) net probe (blocked_by BLOCKED))
                   ["tool_by_name"; "harness_other_port"; "internet_tcp_ip"; "internet_tcp_name"; "cloud_metadata_tcp"] in
  let? http_ip := item_of net "http_1_1_1_1" in
  let? http_name := item_of net "http_example_com" in
  let? metadata := item_row "cloud metadata unreachable" net "cloud_metadata_http" (fun v => equals_int v 0) in
  let? uid := item_row "runs as non-root" proc "uid" (fun v => negb (equals_int v 0)) in
  let? caps := item_row "no effective capabilities" proc "effective_capabilities" (fun v => equals_int v 0) in
  let? root := item_row "root filesystem is read-only" proc "write_root_fs" (in_strs ["error:30"; "error:13"]) in
  let? docker := item_row "no docker socket" proc "docker_socket" (fun v => equals_str v "not_found") in
  let? paths := item_of sec "paths" in
  let? secrets := traverse (fun p => let? st := get_of paths p PNone in Ok (mk_row ("secret unreadable: " +:+ p) st (negb (equals_str st "readable"))))
                    ["/secrets/signing_key"; "/secrets/token_keyring"; "/tool-credential/tool_credential"] in
  let? effects := traverse (fun e => item_of e "path") ledger in
  let? records := elements audit in
  let? allowed := select_of is_allowed_decision (fun r => item_of r "action") records in
  Ok ([reach; legitimate] ++ egress
      ++ [mk_row "no direct HTTP to the internet" (PTuple [http_ip; http_name]) (equals_int http_ip 0 && equals_int http_name 0);
          metadata; uid; caps; root; docker] ++ secrets
      ++ [mk_row "only the authorized side effect at the tool" (PList effects) (py_eq (PList effects) (PList [PStr "/web.search"]));
          mk_row "audit: only web.search allowed" (PList allowed) (py_eq (PList allowed) (PList [PStr "web.search"]))]).
Definition e2e_line (r : row) : string := "  " +:+ pass_text (rw_ok r) +:+ "  " +:+ rw_name r +:+ ": " +:+ py_str (rw_observed r).
Definition e2e_report (rows : list row) : list string :=
  let fails := map rw_name (List.filter (fun r => negb (rw_ok r)) rows) in
  map e2e_line rows
  ++ [match fails with
      | [] => "OK: live-cluster isolation invariants hold"
      | _ => "FAILED " +:+ show_Z (Z.of_nat (length fails)) +:+ " check(s): " +:+ py_str (pstrs fails)
      end].

(** ** Theorems *)

Lemma all_pass_spec rows : status_code rows = 0 <-> Forall (fun r => rw_ok r = true) rows.
Proof.
  unfold status_code, all_pass. rewrite Forall_forall. destruct (forallb rw_ok rows) eqn:E.
  - rewrite forallb_forall in E. split; [|done]. intros _ r Hr. by apply E, list_elem_of_In.
  - split; [done|]. intros Hall. apply not_true_iff_false in E. destruct E. apply forallb_forall. intros r Hr. by apply Hall, list_elem_of_In.
Qed.
Lemma passed_app rows rows' : status_code (rows ++ rows') = 0 <-> status_code rows = 0 /\ status_code rows' = 0.
Proof. rewrite !all_pass_spec. apply Forall_app. Qed.
Lemma passed_cons r rows : status_code (r :: rows) = 0 <-> rw_ok r = true /\ status_code rows = 0.
Proof. rewrite (all_pass_spec (r :: rows)), (all_pass_spec rows). by rewrite Forall_cons. Qed.

Lemma Ok_elim {A} (a b : A) : Ok a = Ok b -> a = b.
Proof. by intros [= ->]. Qed.

Lemma traverse_keep {A B} (f : A -> result B) (P : B -> Prop) l m : traverse f l = Ok m -> Forall P m ->
  forall x, x ∈ l -> exists y, f x = Ok y /\ P y.
Proof.
  revert m. induction l as [|a l IH]; intros m Hm HP x Hx; [by apply elem_of_nil in Hx|]. cbn in Hm.
  apply result_bind_ok in Hm as (y & Hy & Hm). apply result_bind_ok in Hm as (ys & Hys & Hm%Ok_elim). subst m.
  apply Forall_cons in HP as [Hp HP]. apply elem_of_cons in Hx as [->|Hx]; [by exists y|by apply (IH ys)].
Qed.

(** A mapping read in two steps. *)
Lemma values_bind_ok {B} (r : result pyval) (f : dict pyval -> result B) b : (let? x := (let? v := r in items_of v) in f x) = Ok b ->
  exists d, r = Ok (PDict d) /\ f d = Ok b.
Proof. destruct r as [v|]; [|done]. cbn. destruct v; try done. eauto. Qed.

Section passed.
Context `{Externals}.

Lemma http_rows_passed a rows : http_rows a = Ok rows -> status_code rows = 0 ->
  exists forged creds, item_of a "forged_identity" = Ok (PDict forged) /\ item_of a "credentials" = Ok (PDict creds)
    /\ Forall (fun kv => exists status, first_of kv.2 = Ok status /\ in_ints [401; 403] status = true) forged
    /\ Forall (fun kv => equals_int kv.2 401 = true) creds.
Proof.
  unfold http_rows. intros Hrows Hok. apply result_bind_ok in Hrows as (attempts & _ & Hrows).
  apply result_bind_ok in Hrows as (approval & _ & Hrows). apply result_bind_ok in Hrows as (delegation & _ & Hrows).
  apply values_bind_ok in Hrows as (forged & Hforged & Hrows). apply result_bind_ok in Hrows as (frows & Hfrows & Hrows).
  apply result_bind_ok in Hrows as (env & _ & Hrows). apply values_bind_ok in Hrows as (creds & Hcreds & Hrows). apply Ok_elim in Hrows as <-.
  rewrite !passed_app in Hok. destruct Hok as (_ & _ & Hf & _ & Hc). rewrite all_pass_spec in Hf, Hc. exists forged, creds. split_and!; [done|done|..].
  - apply Forall_forall. intros [k v] Hin. destruct (traverse_keep _ _ _ _ Hfrows Hf _ Hin) as (y & Hy & Hr).
    apply result_bind_ok in Hy as (status & Hs & [= <-]). by exists status.
  - rewrite Forall_map in Hc. unfold sort_items in Hc. rewrite (merge_sort_Permutation item_le creds) in Hc.
    eapply Forall_impl; [exact Hc|]. by intros [k v].
Qed.

Lemma path_rows_passed result_ a net rows : path_rows result_ a net = Ok rows -> status_code rows = 0 ->
  exists effects decoy, item_of result_ "side_effects" = Ok effects /\ paths_of effects = Ok [PStr "/web.search"]
    /\ item_of result_ "decoy_side_effects" = Ok decoy /\ decoy = PList [].
Proof.
  unfold path_rows. intros Hrows Hok. apply result_bind_ok in Hrows as (r1 & _ & Hrows). apply result_bind_ok in Hrows as (r2 & _ & Hrows).
  apply result_bind_ok in Hrows as (paths & Hpaths & Hrows). apply result_bind_ok in Hpaths as (effects & He & Hpaths).
  apply result_bind_ok in Hrows as (decoy & Hd & Hrows). apply result_bind_ok in Hrows as (verified & _ & Hrows).
  apply result_bind_ok in Hrows as (logs & _ & Hrows). apply result_bind_ok in Hrows as (execs & _ & Hrows).
  apply result_bind_ok in Hrows as (count & _ & Hrows). apply Ok_elim in Hrows as <-. rewrite !passed_cons in Hok. destruct Hok as (_ & _ & Hp & Hdec & _).
  cbn [rw_ok] in *. apply (py_eq_strs _ ["/web.search"]) in Hp. apply (py_eq_strs _ []) in Hdec. exists effects, decoy.
  split_and!; [done| |done|done]. rewrite Hpaths. by injection Hp as ->.
Qed.

Lemma secret_rows_passed sec rows : secret_rows sec = Ok rows -> status_code rows = 0 ->
  exists scan found, item_of sec "scan" = Ok scan /\ item_of scan "found" = Ok (PDict found)
    /\ Forall (fun k => str_in k PROTECTED = false) (dkeys found) /\ truthy (pget "researcher_token" found) = true.
Proof.
  unfold secret_rows. intros Hrows Hok. apply result_bind_ok in Hrows as (scan & Hscan & Hrows).
  apply values_bind_ok in Hrows as (found & Hfound & Hrows). apply values_bind_ok in Hrows as (paths & _ & Hrows). apply Ok_elim in Hrows as <-.
  rewrite passed_app, !passed_cons in Hok. destruct Hok as (_ & Hl & Ht & _). cbn [rw_ok] in *. exists scan, found. split_and!; [done..| |done].
  apply Forall_forall. intros k Hk. apply not_true_iff_false. intros Hp. apply Nat.eqb_eq, length_zero_iff_nil in Hl.
  apply list_elem_of_In in Hk. assert (In k (List.filter (fun k => str_in k PROTECTED) (dkeys found))) as Hin by by apply filter_In. by rewrite Hl in Hin.
Qed.

(** What a passing demonstration shows: the tool performed the one authorized search and nothing else, the decoy
    nothing; every credential the agent tried was answered by 401 and every forged identity by 401 or 403; and of the
    secrets it looked for, the agent found its own token and no protected one. *)
Theorem demo_passes (result_ : pyval) (rows : list row) : checks result_ = Ok rows -> status_code rows = 0 ->
  (exists effects decoy, item_of result_ "side_effects" = Ok effects /\ paths_of effects = Ok [PStr "/web.search"]
     /\ item_of result_ "decoy_side_effects" = Ok decoy /\ decoy = PList [])
  /\ (exists a forged creds, item_of result_ "agent" = Ok a /\ item_of a "forged_identity" = Ok (PDict forged) /\ item_of a "credentials" = Ok (PDict creds)
        /\ Forall (fun kv => exists status, first_of kv.2 = Ok status /\ in_ints [401; 403] status = true) forged
        /\ Forall (fun kv => equals_int kv.2 401 = true) creds)
  /\ exists a iso sec scan found, item_of result_ "agent" = Ok a /\ item_of a "isolation" = Ok iso /\ item_of iso "secrets" = Ok sec
       /\ item_of sec "scan" = Ok scan /\ item_of scan "found" = Ok (PDict found)
       /\ Forall (fun k => str_in k PROTECTED = false) (dkeys found) /\ truthy (pget "researcher_token" found) = true.
Proof.
  unfold checks. intros Hrows Hok. apply result_bind_ok in Hrows as (a & Ha & Hrows). apply result_bind_ok in Hrows as (iso & Hiso & Hrows).
  apply result_bind_ok in Hrows as (net & _ & Hrows). apply result_bind_ok in Hrows as (proc & _ & Hrows).
  apply result_bind_ok in Hrows as (sec & Hsec & Hrows). apply result_bind_ok in Hrows as (px & _ & Hrows).
  apply result_bind_ok in Hrows as (clients & _ & Hrows). apply result_bind_ok in Hrows as (http & Hhttp & Hrows).
  apply result_bind_ok in Hrows as (nets & _ & Hrows). apply result_bind_ok in Hrows as (edge & _ & Hrows).
  apply result_bind_ok in Hrows as (process & _ & Hrows). apply result_bind_ok in Hrows as (secrets & Hsecrets & Hrows).
  apply result_bind_ok in Hrows as (path & Hpath & Hrows). apply Ok_elim in Hrows as <-. rewrite !passed_app in Hok. destruct Hok as (Hh & _ & _ & _ & Hs & Hp).
  split; [by eapply path_rows_passed|split].
  - destruct (http_rows_passed _ _ Hhttp Hh) as (forged & creds & ?). by exists a, forged, creds.
  - destruct (secret_rows_passed _ _ Hsecrets Hs) as (scan & found & ?). by exists a, iso, sec, scan, found.
Qed.
End passed.

Module Witnesses.
#[local] Existing Instance Sample.externals.

(** A run of the cluster that did not look for the secrets at all: every check passes. *)
Definition network : pyval := PDict
  [("harness_api", PStr "connected"); ("tool_by_name", PStr "timeout"); ("harness_other_port", PStr "timeout"); ("internet_tcp_ip", PStr "timeout");
   ("internet_tcp_name", PStr "dns_failed"); ("cloud_metadata_tcp", PStr "timeout"); ("http_1_1_1_1", PInt 0); ("http_example_com", PInt 0);
   ("cloud_metadata_http", PInt 0)].
Definition process : pyval := PDict
  [("uid", PInt 1000); ("effective_capabilities", PInt 0); ("write_root_fs", PStr "error:30"); ("docker_socket", PStr "not_found")].
Definition unprobed : pyval := PDict
  [("in_contract_action", PList [PInt 200; PStr "succeeded"]);
   ("isolation", PDict [("network", network); ("process", process); ("secrets", PDict [("paths", PDict [])])])].
Definition search_allowed : pyval :=
  PList [PDict [("event", PStr "decision"); ("decision", PStr "allow"); ("action", PStr "web.search")]].
Example unprobed_secrets_pass :
  (let? rows := e2e_checks unprobed [PDict [("path", PStr "/web.search")]] search_allowed in Ok (status_code rows)) = Ok 0.
Proof. vm_compute. reflexivity. Qed.
Example executions_logged :
  _logged_executions ("INFO execution action=web.search outcome=succeeded" +:+ chr1 newline +:+ "INFO execution action=database.write outcome=refused")
  = Ok ["web.search"].
Proof. vm_compute. reflexivity. Qed.
End Witnesses.
