(* ===== verification/Deploy.v ===== *)
(** * Running the demonstrations: deploy/demo.py, deploy/mtls and deploy/k8s-e2e/assert.py

    The scripts as sequences of commands. What a command gives may depend on those before it and is a parameter: a
    process that ended, or an exception of [subprocess] - an [OSError] here, a timeout among them, since the scripts
    treat them alike. The random project name, port and subnet are given. *)

From S2P Require Import Prelude Datetime Regex PyVal Externals Json AuditTrail Identity PyObj Contract Base64 Workload ToolService Api Adversary Verdicts.

(** ** Commands *)

Record command := mk_command { cm_argv : list string; cm_env : dict string }.
Record proc := mk_proc { pr_returncode : Z; pr_stdout : string; pr_stderr : string }.

Definition shell (A : Type) : Type := list command -> result A * list command.
Definition sh_ret {A} (a : A) : shell A := fun t => (Ok a, t).
Definition sh_lift {A} (r : result A) : shell A := fun t => (r, t).
Definition sh_bind {A B} (m : shell A) (f : A -> shell B) : shell B := fun t =>
  match m t with (Ok a, t') => f a t' | (Raise e, t') => (Raise e, t') end.
Notation "'let$' x ':=' m 'in' k" := (sh_bind m (fun x => k))
  (at level 10, x pattern, m at level 100, k at level 200) : result_scope.
(** [try: m except E: handler]; [handler] is [None] for an exception that is not caught. *)
Definition sh_except {A} (m : shell A) (handler : exn -> option (shell A)) : shell A := fun t =>
  match m t with
  | (Raise e, t') => match handler e with Some h => h t' | None => (Raise e, t') end
  | done => done
  end.
(** [try: m finally: f] *)
Definition sh_finally {A} (m : shell A) (f : shell unit) : shell A := fun t =>
  let '(x, t1) := m t in
  match f t1 with (Ok _, t2) => (x, t2) | (Raise e, t2) => (Raise e, t2) end.

Definition is_os_error (e : exn) : bool := match e with OSError _ => true | _ => false end.
Definition is_value_error (e : exn) : bool := match e with ValueError _ => true | _ => false end.
Definition is_runtime_error (e : exn) : bool := match e with RuntimeError _ => true | _ => false end.

(** [l[-1]] *)
Definition last_line (text : string) : result string :=
  match rev (splitlines (py_strip text)) with l :: _ => Ok l | [] => Raise (IndexError "list index out of range") end.
Definition loads_text `{Externals} (text : string) : result pyval :=
  match loads text with Some v => Ok v | None => Raise (ValueError "Expecting value") end.
(** [[json.loads(line) for line in text.splitlines() if line.strip()]] *)
Definition jsonl `{Externals} (text : string) : result (list pyval) :=
  traverse loads_text (List.filter (fun line => negb (s_is_empty (py_strip line))) (splitlines text)).
Definition text_item (v : pyval) (k : string) : result string :=
  let? x := item_of v k in match x with PStr s => Ok s | _ => Raise (TypeError "expected str") end.

Section scripts.
Context `{Externals}.
Variable docker : list command -> command -> result proc.
(** The names in deploy/.cache. *)
Variable cached : list string.
Variable python here : string.

Definition run_command (c : command) : shell proc := fun t => (docker t c, t ++ [c]).
(** [subprocess.run(..., check=True)] *)
Definition checked_command (c : command) : shell proc :=
  let$ p := run_command c in
  sh_lift (if pr_returncode p =? 0 then Ok p else Raise (OSError "returned non-zero exit status")).

(** ** deploy/demo.py *)

Definition COMPOSE_FILE : string := here +:+ "/docker-compose.yml".
Definition GVISOR_OVERLAY : string := here +:+ "/gvisor/docker-compose.gvisor.yml".

Definition docker_available : shell bool :=
  sh_except (let$ _ := checked_command (mk_command ["docker"; "info"] []) in
             let$ _ := checked_command (mk_command ["docker"; "compose"; "version"] []) in
             sh_ret true)
    (fun e => if is_os_error e then Some (sh_ret false) else None).
Definition runsc_available : shell bool :=
  sh_except (let$ p := checked_command (mk_command ["docker"; "info"; "--format"; "{{json .Runtimes}}"] []) in
             let$ v := sh_lift (loads_text (if s_is_empty (pr_stdout p) then "{}" else pr_stdout p)) in
             sh_lift (contains_key "runsc" v))
    (fun e => if is_os_error e || is_value_error e then Some (sh_ret false) else None).

Record Stack := mk_stack { sk_project : string; sk_env : dict string; sk_compose_files : list string }.
Definition compose_command (s : Stack) (args : list string) : command :=
  mk_command (["docker"; "compose"; "-p"; sk_project s] ++ List.concat (map (fun path => ["-f"; path]) (sk_compose_files s)) ++ args) (sk_env s).
Definition compose (s : Stack) (args : list string) (check : bool) : shell proc :=
  let c := compose_command s args in
  let$ p := run_command c in
  sh_lift (if check && negb (pr_returncode p =? 0)
           then Raise (RuntimeError (s_concat " " (cm_argv c) +:+ " failed:" +:+ chr1 newline +:+ pr_stdout p +:+ chr1 newline +:+ pr_stderr p))
           else Ok p).
Definition stripped (m : shell proc) : shell string := let$ p := m in sh_ret (py_strip (pr_stdout p)).
Definition harness_cli (s : Stack) (args : list string) : shell string :=
  stripped (compose s (["exec"; "-T"; "harness"; "python3"; "-m"; "capgate.cli"] ++ args) true).
Definition read (s : Stack) (service path : string) : shell string := stripped (compose s ["exec"; "-T"; service; "cat"; path] true).
Definition container_ip (s : Stack) (service network : string) : shell string :=
  let$ cid := stripped (compose s ["ps"; "-q"; service] true) in
  let$ p := checked_command (mk_command ["docker"; "inspect"; "-f"; "{{json .NetworkSettings.Networks}}"; cid] []) in
  sh_lift (let? nets := loads_text (pr_stdout p) in
           let? net := item_of nets (sk_project s +:+ "_" +:+ network) in text_item net "IPAddress").
Definition create_stack (gvisor : bool) (project : string) (port subnet : Z) : Stack :=
  mk_stack project
    [("CAPGATE_PREFIX", project); ("CAPGATE_HOST_PORT", show_Z port); ("CAPGATE_API_SUBNET", "172.31." +:+ show_Z subnet +:+ ".0/24")]
    (if gvisor then [COMPOSE_FILE; GVISOR_OVERLAY] else [COMPOSE_FILE]).
Definition ensure_artifacts : shell unit :=
  if forallb (fun name => str_in name cached) ["python.tar.gz"; "yaml"; "apk"; "apk-proxy"; "pylibs"] then sh_ret tt
  else let$ _ := checked_command (mk_command [python; here +:+ "/fetch_artifacts.py"] []) in sh_ret tt.

Definition build_twice (build : shell proc) : shell proc := sh_except build (fun e => if is_runtime_error e then Some build else None).
(** [agent_token.rsplit(".", 1)[1]] *)
Definition signature_of (token : string) : result string :=
  let '(_, dot, sig) := rpartition_on "."%char token in if dot then Ok sig else Raise (IndexError "list index out of range").
Definition digest_list (wanted : list (string * string)) : string :=
  s_concat "," (map (fun '(name, value) => name +:+ ":" +:+ sha256_hex value) wanted).
Definition ledger_of (s : Stack) (service : string) : shell pyval :=
  let$ p := compose s ["exec"; "-T"; service; "sh"; "-c"; "cat /data/ledger.jsonl 2>/dev/null || true"] true in
  let$ l := sh_lift (jsonl (pr_stdout p)) in sh_ret (PList l).
Definition log_of (s : Stack) (service : string) : shell pyval :=
  let$ p := compose s ["logs"; "--no-log-prefix"; service] true in sh_ret (PStr (pr_stdout p)).

Definition run_attack (s : Stack) (an_hour_ago : string) : shell pyval :=
  let$ _ := ensure_artifacts in
  let$ _ := build_twice (compose s ["--profile"; "agent"; "build"] true) in
  let$ _ := compose s ["up"; "-d"; "--wait"; "harness"; "proxy"; "misattached-tool"; "netguard"] true in
  let$ tool_ip := container_ip s "tools" "tool_net" in
  let$ keyring := (let$ text := read s "harness" "/secrets/token_keyring" in sh_lift (loads_text text)) in
  let$ tool_credential := read s "harness" "/tool-credential/tool_credential" in
  let$ signing_key := read s "harness" "/secrets/signing_key" in
  let$ token_key := sh_lift (let? ks := item_of keyring "keys" in let? active := text_item keyring "active" in text_item ks active) in
  let$ _ := compose s ["run"; "--rm"; "agent-token"] true in
  let$ agent_token := stripped (compose s ["run"; "--rm"; "--no-deps"; "--entrypoint"; "cat"; "agent-token"; "/agent-credentials/token"] true) in
  let issue extra := harness_cli s (["token"; "issue"; "--keyring"; "/secrets/token_keyring"; "--sub"; "researcher"; "--role"; "agent"] ++ extra) in
  let$ expired := issue ["--ttl"; "60"; "--issued-at"; an_hour_ago] in
  let$ overlong := issue ["--ttl"; "24h"; "--max-ttl"; "24h"] in
  let$ revoked := issue ["--ttl"; "600"] in
  let$ _ := harness_cli s ["token"; "revoke"; "--keyring"; "/secrets/token_keyring"; "--state"; "/data/state.db"; "--token"; revoked] in
  let$ sig := sh_lift (signature_of agent_token) in
  let digests := digest_list [("tool_credential", tool_credential); ("signing_key", signing_key); ("token_key", token_key); ("researcher_token", sig)] in
  let$ p := compose s ["run"; "--rm"; "--no-deps"; "-T"; "-e"; "TOOL_URL=http://" +:+ tool_ip +:+ ":9100"; "-e"; "TOOL_IP=" +:+ tool_ip;
                       "-e"; "PROBE_DIGESTS=" +:+ digests; "-e"; "PROBE_ISOLATION=1"; "-e"; "EXPIRED_TOKEN=" +:+ expired;
                       "-e"; "REVOKED_TOKEN=" +:+ revoked; "-e"; "OVERLONG_TOKEN=" +:+ overlong; "agent"] true in
  let$ agent := sh_lift (let? l := last_line (pr_stdout p) in loads_text l) in
  let agent_log := s_concat (chr1 newline) (List.filter (starts_with "[malicious]") (splitlines (pr_stderr p))) in
  let$ side_effects := ledger_of s "tools" in
  let$ decoys := ledger_of s "misattached-tool" in
  let$ verified := compose s ["exec"; "-T"; "harness"; "python3"; "-m"; "capgate.cli"; "audit"; "/data/audit.jsonl"; "--verify"] false in
  let$ audit := (let$ text := harness_cli s ["audit"; "/data/audit.jsonl"; "--json"] in sh_lift (loads_text (if s_is_empty text then "[]" else text))) in
  let$ netguard := log_of s "netguard" in
  let$ harness_logs := log_of s "harness" in
  let$ proxy_logs := log_of s "proxy" in
  sh_ret (PDict [("agent", agent); ("agent_log", PStr agent_log); ("side_effects", side_effects); ("decoy_side_effects", decoys);
                 ("audit_verified", PBool (pr_returncode verified =? 0)); ("audit", audit); ("netguard", netguard); ("harness_logs", harness_logs);
                 ("proxy_logs", proxy_logs); ("tool_ip", PStr tool_ip)]).

Definition down_args : list string := ["--profile"; "agent"; "down"; "-v"; "--remove-orphans"].
Definition destroy_stack (s : Stack) : shell unit := let$ _ := compose s down_args false in sh_ret tt.

Definition demo_main (keep gvisor : bool) (project : string) (port subnet : Z) (an_hour_ago : string) : shell Z :=
  let$ available := docker_available in
  if negb available then sh_ret 2 else
  let$ runsc := (if gvisor then runsc_available else sh_ret true) in
  if negb runsc then sh_ret 2 else
  let stack := create_stack gvisor project port subnet in
  let$ result_ := sh_finally (run_attack stack an_hour_ago) (if keep then sh_ret tt else destroy_stack stack) in
  let$ rows := sh_lift (checks result_) in
  sh_ret (status_code rows).

(** ** deploy/mtls/demo.py *)

Definition SPIFFE_ID : string := "spiffe://capgate.test/agent/researcher".
(** The certificates are minted by tests/certs.py: what the demonstration uses is the thumbprint of the agent's. *)
Definition mtls_stack (project certs_dir thumbprint : string) (subnet : Z) : Stack :=
  mk_stack project
    [("CAPGATE_PREFIX", project); ("CAPGATE_CERTS_DIR", certs_dir); ("CAPGATE_EDGE_SUBNET", "172.30." +:+ show_Z subnet +:+ ".0/24");
     ("AGENT_SPIFFE_ID", SPIFFE_ID); ("AGENT_THUMBPRINT", thumbprint)] [COMPOSE_FILE].
(** The error of a command names its arguments alone. *)
Definition mtls_compose (s : Stack) (args : list string) (check : bool) : shell proc :=
  let$ p := run_command (compose_command s args) in
  sh_lift (if check && negb (pr_returncode p =? 0)
           then Raise (RuntimeError (s_concat " " args +:+ " failed:" +:+ chr1 newline +:+ pr_stdout p +:+ chr1 newline +:+ pr_stderr p))
           else Ok p).
Definition mtls_run (s : Stack) (thumbprint : string) : shell pyval :=
  let$ _ := build_twice (mtls_compose s ["--profile"; "agent"; "build"] true) in
  let$ _ := mtls_compose s ["up"; "-d"; "--wait"; "mtls-edge"] true in
  let$ issued := mtls_compose s ["run"; "--rm"; "--no-deps"; "-T"; "harness"; "python3"; "-m"; "capgate.cli"; "token"; "issue"; "--keyring";
                                 "/secrets/token_keyring"; "--sub"; "researcher"; "--role"; "agent"; "--ttl"; "15m"; "--max-ttl"; "15m";
                                 "--bind-spiffe=" +:+ SPIFFE_ID; "--bind-thumbprint=" +:+ thumbprint] true in
  let$ token := sh_lift (last_line (pr_stdout issued)) in
  let$ p := mtls_compose s ["--profile"; "agent"; "run"; "--rm"; "-T"; "agent"] true in
  let$ agent := sh_lift (let? l := last_line (pr_stdout p) in loads_text l) in
  let$ ledger := mtls_compose s ["exec"; "-T"; "tools"; "sh"; "-c"; "cat /data/ledger.jsonl 2>/dev/null || true"] true in
  let$ effects := sh_lift (jsonl (pr_stdout ledger)) in
  let$ logs := mtls_compose s ["logs"; "--no-log-prefix"; "harness"] true in
  sh_ret (PDict [("agent", agent); ("side_effects", PList effects); ("harness_logs", PStr (pr_stdout logs))]).

(** The containers are removed when there is a result. *)
Definition mtls_main (keep : bool) (project certs_dir : string) (thumbprint : result string) (subnet : Z) : shell Z :=
  let$ available := docker_available in
  if negb available then sh_ret 2 else
  let$ thumbprint := sh_lift thumbprint in
  let stack := mtls_stack project certs_dir thumbprint subnet in
  let$ result_ := mtls_run stack thumbprint in
  let$ _ := (if keep then sh_ret tt else let$ _ := mtls_compose stack down_args false in sh_ret tt) in
  let$ rows := sh_lift (mtls_checks result_) in
  sh_ret (status_code rows).

(** ** deploy/k8s-e2e/assert.py *)

(** [main] over the texts of its files; the audit is optional. *)
Definition e2e_main (observations ledger : string) (audit : option string) : result (list string * Z) :=
  let? obs := loads_text observations in
  let? effects := traverse loads_text (List.filter (fun l => negb (s_is_empty (py_strip l))) (file_lines ledger)) in
  let? records := (match audit with Some text => loads_text text | None => Ok (PList []) end) in
  let? rows := e2e_checks obs effects records in
  Ok (e2e_report rows, status_code rows).
End scripts.

(** ** deploy/mtls/agent/agent.py *)

(** An exchange over mutual TLS, with or without the client's certificate: an answer, or the exception of the
    connection. *)
Inductive tls_reply := TlsReplied (status : Z) (raw : string) | TlsError (text : string) | ConnError (text : string).

Section mtls_agent.
Context `{Externals} {St : Type}.
Variable exchange : bool -> dict string -> string -> St -> tls_reply * St.
Variable token : string.

Definition mtls_headers (extra : dict string) : dict string :=
  dupdate [("Authorization", "Bearer " +:+ token); ("Content-Type", "application/json")] extra.
Definition mtls_call (body : dict pyval) (cert : bool) (extra : dict string) : attack St (pyval * pyval) := fun s =>
  let '(reply, s) := exchange cert (mtls_headers extra) (dumps ", " ": " (PDict body)) s in
  (run (match reply with
        | TlsReplied status raw => let? v := json_bytes (if s_is_empty raw then "{}" else raw) in Ok (PInt status, v)
        | TlsError text => Ok (PStr "tls_error", PStr text)
        | ConnError text => Ok (PStr "conn_error", PStr text)
        end), s).
(** [(b.get("execution") or {}).get("status") if isinstance(b, dict) else b], and the reason code in the same way. *)
Definition seen_status (b : pyval) : result pyval :=
  match b with
  | PDict d => get_of (if truthy (pget "execution" d) then pget "execution" d else PDict []) "status" PNone
  | b => Ok b
  end.
Definition seen_reason (b : pyval) : result pyval := match b with PDict d => Ok (pget "reason_code" d) | b => Ok b end.
Definition seen_error (b : pyval) : result pyval := match b with PStr _ => Ok b | b => get_of b "reason_code" PNone end.
Definition mtls_observe (seen : pyval -> result pyval) (body : dict pyval) (cert : bool) (extra : dict string) : attack St pyval :=
  let> (status, b) := mtls_call body cert extra in
  let> x := at_run (seen b) in at_ret (PList [status; x]).

Definition search_for (query : string) : dict pyval := [("action", PStr "web.search"); ("arguments", PDict [("query", PStr query)])].
Definition forged_identity : dict string :=
  [("X-Client-Spiffe-Id", "spiffe://capgate.test/agent/admin"); ("X-Client-Cert-Thumbprint", Nat.iter 43 (String "A") EmptyString)].
Definition mtls_agent_main : attack St (dict pyval) :=
  let> authorized := mtls_observe seen_status (search_for "capability security") true [] in
  let> denied := mtls_observe seen_reason [("action", PStr "database.write"); ("arguments", PDict [("table", PStr "users")])] true [] in
  let> forged := mtls_observe seen_status (search_for "x") true forged_identity in
  let> anonymous := mtls_observe seen_error (search_for "x") false [] in
  at_ret [("authorized_call", authorized); ("denied_action", denied); ("forged_identity_header", forged); ("no_client_cert", anonymous)].
End mtls_agent.

(** ** Theorems *)

Section removed.
Context `{Externals}.
Variable docker : list command -> command -> result proc.
Variable cached : list string.
Variable python here : string.

(** What [m] adds to the commands are commands of [cs]. *)
Definition issues (cs : list command) {A} (m : shell A) : Prop := forall t, exists l, (m t).2 = t ++ l /\ Forall (fun c => c ∈ cs) l.
Lemma issues_ret cs {A} (a : A) : issues cs (sh_ret a).
Proof. intros t. exists []. by rewrite app_nil_r. Qed.
Lemma issues_lift cs {A} (r : result A) : issues cs (sh_lift r).
Proof. intros t. exists []. by rewrite app_nil_r. Qed.
Lemma issues_bind cs {A B} (m : shell A) (f : A -> shell B) : issues cs m -> (forall a, issues cs (f a)) -> issues cs (sh_bind m f).
Proof.
  intros Hm Hf t. unfold sh_bind. destruct (Hm t) as (l & Hl & Hc). destruct (m t) as [[a|e] t1]; cbn in *; [|eauto].
  destruct (Hf a t1) as (l' & Hl' & Hc'). exists (l ++ l'). rewrite Hl', Hl, app_assoc. split; [done|by apply Forall_app].
Qed.
Lemma issues_except cs {A} (m : shell A) h : issues cs m -> (forall e m', h e = Some m' -> issues cs m') -> issues cs (sh_except m h).
Proof.
  intros Hm Hh t. unfold sh_except. destruct (Hm t) as (l & Hl & Hc). destruct (m t) as [[a|e] t1]; cbn in *; [eauto|].
  destruct (h e) as [m'|] eqn:E; [|eauto]. destruct (Hh e m' E t1) as (l' & Hl' & Hc'). exists (l ++ l'). rewrite Hl', Hl, app_assoc. split; [done|by apply Forall_app].
Qed.
Lemma issues_command cs c : c ∈ cs -> issues cs (checked_command docker c).
Proof.
  intros Hc. apply issues_bind; [|intros; apply issues_lift]. intros t. exists [c]. split; [done|by constructor].
Qed.
#[local] Hint Resolve issues_ret issues_lift issues_bind issues_command : core.

(** The commands that ask docker what it can do. *)
Definition inquiries : list command :=
  [mk_command ["docker"; "info"] []; mk_command ["docker"; "compose"; "version"] []; mk_command ["docker"; "info"; "--format"; "{{json .Runtimes}}"] []].
Lemma issues_available : issues inquiries (docker_available docker).
Proof.
  apply issues_except; [|intros e m'; destruct (is_os_error e); [by intros [= <-]|done]].
  repeat (apply issues_bind; [apply issues_command; unfold inquiries; set_solver|intros _]). done.
Qed.
Lemma issues_runsc : issues inquiries (runsc_available docker).
Proof.
  apply issues_except; [|intros e m'; destruct (is_os_error e || is_value_error e); [by intros [= <-]|done]].
  apply issues_bind; [apply issues_command; unfold inquiries; set_solver|auto].
Qed.

(** Removing the stack is one command, whatever it gives. *)
Lemma destroy_last s t : (destroy_stack docker s t).2 = t ++ [compose_command s down_args].
Proof. unfold destroy_stack, compose, sh_bind, run_command. by destruct (docker t _) as [p|e]. Qed.

(** The demonstration cleans up and does not claim what it did not see. Without --keep, either it issues no command but
    the inquiries that tell whether docker and the sandbox are there, or its last command removes the containers,
    networks and volumes of its project, however the attack ended; and it ends with status 0 only when the attack gave
    a result on which every check passed. *)
Theorem demo_cleans_up (gvisor : bool) (project : string) (port subnet : Z) (an_hour_ago : string) (t t' : list command) (x : result Z) :
  let stack := create_stack here gvisor project port subnet in
  demo_main docker cached python here false gvisor project port subnet an_hour_ago t = (x, t') ->
  ((exists l, t' = t ++ l /\ Forall (fun c => c ∈ inquiries) l) \/ exists commands, t' = commands ++ [compose_command stack down_args])
  /\ (x = Ok 0 -> exists result_ rows t1 t2, run_attack docker cached python here stack an_hour_ago t1 = (Ok result_, t2)
        /\ checks result_ = Ok rows /\ status_code rows = 0).
Proof.
  intros stack. unfold demo_main. unfold sh_bind at 1. destruct (issues_available t) as (l & Hl & Hc).
  destruct (docker_available docker t) as [[[]|e] t1]; cbn in Hl; [|intros [= <- <-]; split; [left; eauto|done]..].
  cbn [negb]. unfold sh_bind at 1. assert (issues inquiries (if gvisor then runsc_available docker else sh_ret true)) as Hr by (destruct gvisor; auto using issues_runsc).
  set (runsc := if gvisor then runsc_available docker else sh_ret true) in *.
  destruct (Hr t1) as (l' & Hl' & Hc'). subst t1. rewrite <- app_assoc in Hl'.
  assert (Forall (fun c => c ∈ inquiries) (l ++ l')) as Hcc by by apply Forall_app.
  destruct (runsc (t ++ l)) as [[[]|e] t2]; cbn in Hl'; [|intros [= <- <-]; split; [left; eauto|done]..].
  cbn [negb]. fold stack. unfold sh_bind, sh_finally. destruct (run_attack _ _ _ _ stack _ t2) as [y t3] eqn:Er.
  pose proof (destroy_last stack t3) as Hd. destruct (destroy_stack docker stack t3) as [[u|e] t4]; cbn in Hd; subst t4.
  - destruct y as [result_|e]; [|intros [= <- <-]; split; [right; eauto|done]]. unfold sh_lift, sh_ret.
    destruct (checks result_) as [rows|e] eqn:Ec; intros [= <- <-]; (split; [right; eauto|]); [|done].
    intros Hs. apply Ok_elim in Hs. exists result_, rows, t2, t3. by split_and!.
  - intros [= <- <-]. split; [right; eauto|done].
Qed.
End removed.

Module Witnesses.
#[local] Existing Instance Sample.externals.

(** A docker that has nothing to say: every command succeeds without output. *)
Definition silent (t : list command) (c : command) : result proc := Ok (mk_proc 0 EmptyString EmptyString).
Definition artifacts : list string := ["python.tar.gz"; "yaml"; "apk"; "apk-proxy"; "pylibs"].
Definition failed_run := demo_main silent artifacts "python3" "/deploy" false false "capgate-test-1" 9000 7 "0.0" [].

(** The attack ends in an exception, and the stack is removed all the same. *)
Lemma demo_cleans_up_witness :
  failed_run.1 = Raise (ValueError "Expecting value")
  /\ exists commands, failed_run.2 = commands ++ [compose_command (create_stack "/deploy" false "capgate-test-1" 9000 7) down_args].
Proof.
  split; [vm_compute; reflexivity|].
  destruct (demo_cleans_up silent artifacts "python3" "/deploy" false "capgate-test-1" 9000 7 "0.0" [] failed_run.2 failed_run.1 (surjective_pairing _))
    as [[(l & Hl & Hf)|Hd] _]; [|exact Hd].
  exfalso. apply (Forall_lookup_1 _ _ 2 (mk_command ["docker"; "compose"; "-p"; "capgate-test-1"; "-f"; "/deploy/docker-compose.yml"; "--profile"; "agent"; "build"]
    [("CAPGATE_PREFIX", "capgate-test-1"); ("CAPGATE_HOST_PORT", "9000"); ("CAPGATE_API_SUBNET", "172.31.7.0/24")])) in Hf.
  - unfold inquiries in Hf. rewrite !elem_of_cons in Hf. destruct Hf as [Hf|[Hf|[Hf|Hf]]]; [discriminate Hf..|]. by apply elem_of_nil in Hf.
  - change ([] ++ l) with l in Hl. rewrite <- Hl. vm_compute. reflexivity.
Defined.

(** The mutual TLS demonstration leaves its containers running when its run ends in an exception. *)
Example mtls_left_running :
  let '(x, commands) := mtls_main silent "/deploy/mtls" false "capgate-mtls-1" "/tmp/certs" (Ok "thumb") 7 [] in
  x = Raise (IndexError "list index out of range")
  /\ existsb (fun c => String.eqb (default EmptyString (last (cm_argv c))) "mtls-edge") commands = true
  /\ existsb (fun c => str_in "down" (cm_argv c)) commands = false.
Proof. vm_compute. auto. Qed.
End Witnesses.
