(* ===== verification/EndToEnd.v ===== *)
(** * The compromised agent against a deployment: examples/adversarial-agent/run.py

    The parts put together: the contracts, the harness with its tools, the tool service, the tokens, and the agent's
    attacks as exchanges with them. A request to the harness goes through the handler of its HTTP server to the API,
    and the calls of tools it causes reach the tool service, which writes them to its ledger; a request to the tool
    service reaches it directly. The exchanges are one after the other, as the agent makes them. *)

From S2P Require Import Prelude Datetime Regex PyVal Externals Json Request Decision NetAddr Timeutil Capability Contract Policy State AuditTrail Effects Interceptor Executor Harness System RateLimit Base64 Workload Identity PyObj Api Edge ToolService Server InspectServer Adversary.

(** ** The site *)

(** The tools of the harness: endpoints of the tool service, called with its credential. *)
Section tools.
Context `{Externals}.
Variable tool_secret : string.

Definition tool_path (name : string) : string := "/" +:+ name.
(** What reaches the service when a tool is called. *)
Definition tool_call (name : string) (args : dict pyval) : tool_request :=
  delivered (tool_path name) [("Content-Type", "application/json"); ("Authorization", "Bearer " +:+ tool_secret)] (dumps ", " ": " (PDict args)).
Definition site_outcome (name : string) (args : dict pyval) : pyval + string :=
  match controlled_endpoint (fun hs data => ToolService.answered (tool_handle tool_secret (delivered (tool_path name) hs data) EmptyString).1) tool_secret args with
  | Ok v => inl v
  | Raise e => inr (exn_name e +:+ ": " +:+ exn_text e)
  end.
Definition site_tools : Tools := {| tool_names := ["web.search"; "database.write"]; tool_outcome := fun name args _ => site_outcome name args |}.
(** The service writes its ledger before it answers, and does not write what cannot be sent. *)
Definition note_call (ledger : string) (c : string * dict pyval) : string :=
  if serializable (PDict c.2) then (tool_handle tool_secret (tool_call c.1 c.2) ledger).2 else ledger.
End tools.

Record site (S : Type) `{Arith} := mk_site { st_api : api S; st_ledger : string; st_requests : nat }.
Arguments mk_site {S _}. Arguments st_api {S _}. Arguments st_ledger {S _}. Arguments st_requests {S _}.

Section site.
Context {S : Type} `{StateStore S} `{Externals} `{Arith} `{!Rounding}.
Variable tool_secret harness_url tools_url : string.
#[local] Instance tools : Tools := site_tools tool_secret.
Variable cf : config.
(** No routes but those of the API. *)
Definition no_extra (method path : string) : option (string -> string -> dict string -> A S Response) := None.
(** When the [n]-th request arrives. *)
Variable arrivals : nat -> arrival.

Definition sent_headers (q : http_call) : headers :=
  hc_headers q ++ match hc_data q with Some data => [("Content-Length", show_Z (s_len data))] | None => [] end.
Definition received (q : http_call) (target : string) : result (Response + http_request) :=
  _handle (fun n => Some (s_take (Z.to_nat n) (default EmptyString (hc_data q)))) false None None (hc_method q) target "127.0.0.1" (sent_headers q).
Definition replied (method : string) (r : Response) : http_reply :=
  let '(status, _, data, _) := _send method r in Replied status data.
Definition dropped : http_reply := NoReply "Remote end closed connection without response".

Definition harness_http (q : http_call) (target : string) (s : site S) : http_reply * site S :=
  match received q target with
  | Ok (inl refused) => (replied (hc_method q) refused, s)
  | Ok (inr r) =>
      let '(resp, a) := dispatch cf no_extra (arrivals (st_requests s)) r (st_api s) in
      let called := drop (length (w_ledger (ap_world (st_api s)))) (w_ledger (ap_world a)) in
      (match resp with Ok resp => replied (hc_method q) resp | Raise _ => dropped end,
       mk_site a (foldl (note_call tool_secret) (st_ledger s) called) (Datatypes.S (st_requests s)))
  | Raise _ => (dropped, s)
  end.
Definition tools_http (q : http_call) (target : string) (s : site S) : http_reply * site S :=
  let request := if String.eqb (hc_method q) "POST" then Post target (sent_headers q) (default EmptyString (hc_data q)) else Get target in
  let '(reply, ledger) := tool_handle tool_secret request (st_ledger s) in
  (match ToolService.answered reply with Answered status raw => Replied status raw | Unreachable e => NoReply e end,
   mk_site (st_api s) ledger (st_requests s)).
Definition http (q : http_call) (s : site S) : http_reply * site S :=
  match strip_prefix harness_url (hc_url q) with
  | Some target => harness_http q target s
  | None =>
      match strip_prefix tools_url (hc_url q) with
      | Some target => tools_http q target s
      | None => (NoReply "Connection refused", s)
      end
  end.
Fixpoint exchanges (qs : list http_call) (s : site S) : list http_reply * site S :=
  match qs with
  | [] => ([], s)
  | q :: qs' => let '(r, s1) := http q s in let '(rs, s2) := exchanges qs' s1 in (r :: rs, s2)
  end.
End site.

(** ** [main] *)

Section deploy.
Context {S : Type} `{StateStore S} `{Externals} `{Arith} `{!Rounding}.

Definition research_document : pyval := PDict [
  ("contract_id", PStr "research-v1"); ("goal", PStr "research"); ("max_steps", PInt 50); ("approvers", PList [PStr "alice"]);
  ("agents", PDict [("researcher", PDict [("capabilities", PDict [("web.search", PStr "allow"); ("email.send", PStr "escalate")])])])].
Definition admin_document : pyval := PDict [
  ("contract_id", PStr "admin-v1"); ("goal", PStr "maintain db"); ("max_steps", PInt 50);
  ("agents", PDict [("db-admin", PDict [("capabilities", PDict [("database.write", PStr "allow")])])])].

Record deployment := mk_deployment { dp_config : config; dp_site : site S; dp_env : dict string }.

(** The random values, and the time at which the tokens are issued. *)
Record chosen := mk_chosen { ch_day : string; ch_kid : string; ch_key : string; ch_jti : nat -> string; ch_now : Z }.
Variable tool_secret harness_url tools_url : string.
#[local] Instance deployed_tools : Tools := site_tools tool_secret.

Definition deploy (fresh : S) (ch : chosen) : result deployment :=
  let? research := contract_from_dict research_document in
  let? admin := contract_from_dict admin_document in
  let? log := open_log (Some EmptyString) true in
  let '(made, w) := make_harness [research; admin] false None 60000000 (mk_world fresh log 0 0 0 0 []) in
  let? cf := made in
  let? ring := generate (ch_day ch) (ch_kid ch) (ch_key ch) in
  let file := {| file_stamp := Raise (OSError "no keyring file"); file_text := Raise (OSError "no keyring file") |} in
  let '(token, a) := issue file (ch_now ch) (ch_jti ch 0) "researcher" "agent" 600 None None (make_authority ring 900 30) in
  let? token := token in
  let '(revoked, a) := issue file (ch_now ch) (ch_jti ch 1) "researcher" "agent" 600 None None a in
  let? revoked := revoked in
  let '(revocation, a, store) := revoke_token file (ch_now ch) (PStr revoked) (Some (w_store w)) a in
  let? _ := revocation in
  let? limiter := make_api_limiter cf None in
  let '(expired, a) := issue file (ch_now ch) (ch_jti ch 2) "researcher" "agent" 60 (Some (ch_now ch - 3600000000)) None a in
  let? expired := expired in
  Ok (mk_deployment cf
        (mk_site (mk_api (mk_world (default (w_store w) store) (w_audit w) (w_uuids w) (w_clock w) (w_system w) (w_writes w) (w_ledger w))
                    (limiter, no_rates) a) EmptyString 0)
        [("PATH", "/usr/bin:/bin"); ("CAPGATE_URL", harness_url); ("AGENT_TOKEN", token); ("TOOL_URL", tools_url);
         ("EXPIRED_TOKEN", expired); ("REVOKED_TOKEN", revoked)]).

(** The agent's run, and what is printed of it. *)
Definition unleash (float_add : pyfloat -> Z -> pyfloat) (arrivals : nat -> arrival) (guessed : string) (d : deployment) :
    script (dict pyval) * site S :=
  attacks (http tool_secret harness_url tools_url (dp_config d) arrivals) float_add (dp_env d) (fun _ => Raise (FileNotFoundError "no such file"))
    (fun _ => at_ret []) guessed (dp_site d).
Definition effect_line (effect : pyval) : result string :=
  let? path := item_of effect "path" in
  let? payload := item_of effect "payload" in
  Ok ("  " +:+ py_str path +:+ "  " +:+ py_str payload).
Definition report (audit_file : string) (results : dict pyval) (s : site S) : result (list string) :=
  let? effects := side_effects (Some (st_ledger s)) in
  let? effects := traverse effect_line effects in
  let log := w_audit (ap_world (st_api s)) in
  let? intact := audit_verify log in
  Ok ("Attempts by the compromised agent:" :: map (fun '(name, outcome) => "  " +:+ ljust 34 name +:+ " " +:+ py_str outcome) results
      ++ "Side effects recorded by the real tool:" :: effects
      ++ ["Audit trail: " +:+ audit_file +:+ " (" +:+ show_Z (al_count log) +:+ " records, chain intact: " +:+ py_str (PBool intact) +:+ ")"]).
End deploy.

(** ** Theorems *)

Section safe.
Context {S : Type} `{StateStore S} `{Externals} `{Arith} `{!Rounding}.
Variable tool_secret harness_url tools_url : string.
#[local] Instance safe_tools : Tools := site_tools tool_secret.
Variable cf : config.
Variable arrivals : nat -> arrival.
#[local] Abbreviation exchange := (http tool_secret harness_url tools_url cf arrivals).
#[local] Abbreviation run := (exchanges tool_secret harness_url tools_url cf arrivals).

(** The store of the harness, the calls of its tools and the ledger of the tool service are the same. *)
Definition unharmed (s s' : site S) : Prop := inert (st_api s) (st_api s') /\ st_ledger s' = st_ledger s.
(** The exchange is a request to the harness with a token that its authority verified when it arrived. *)
Definition with_token (s : site S) (q : http_call) : Prop :=
  exists target request c, strip_prefix harness_url (hc_url q) = Some target /\ received q target = Ok (inr request)
    /\ authenticated (arrivals (st_requests s)) request (st_api s) c.

(** No Authorization header of the request, in any spelling, presents the credential of the tools. *)
Definition keyless (q : http_call) : Prop :=
  forall name value, (name, value) ∈ hc_headers q -> py_lower name = "authorization" -> value <> "Bearer " +:+ tool_secret.

Lemma keyless_refused q : keyless q -> authorized tool_secret (sent_headers q) = false.
Proof.
  intros Hk. unfold authorized, get_header. apply String.eqb_neq.
  destruct (find _ (sent_headers q)) as [[name value]|] eqn:Ef; [|discriminate]. cbn [fmap option_fmap option_map snd from_option id].
  apply find_some in Ef as [Hin%list_elem_of_In Hn%String.eqb_eq]. cbn [fst] in Hn. change (py_lower "Authorization") with "authorization" in Hn.
  unfold sent_headers in Hin. apply elem_of_app in Hin as [Hin|Hin]; [by apply (Hk name)|].
  destruct (hc_data q); [|by apply elem_of_nil in Hin]. apply list_elem_of_singleton in Hin as [= -> ->]. discriminate Hn.
Qed.

Lemma unharmed_refl s : unharmed s s.
Proof. by split; [apply inert_refl|]. Qed.
Lemma unharmed_trans s1 s2 s3 : unharmed s1 s2 -> unharmed s2 s3 -> unharmed s1 s3.
Proof. intros [? ?] [? ?]. split; [by eapply inert_trans|congruence]. Qed.

Lemma harness_cases q target s r s' : harness_http tool_secret cf arrivals q target s = (r, s') ->
  unharmed s s' \/ exists request c, received q target = Ok (inr request) /\ authenticated (arrivals (st_requests s)) request (st_api s) c.
Proof.
  unfold harness_http. destruct (received q target) as [[refused|request]|e]; [intros [= _ <-]; left; apply unharmed_refl| |intros [= _ <-]; left; apply unharmed_refl].
  destruct (dispatch _ _ _ _ _) as [resp a] eqn:Ed. intros [= _ <-].
  apply dispatch_cases in Ed as [[[Hs Hl] _]|(c & agent & approver & s1 & Hc & _)]; [left|right; eauto].
  split; [by split|]. cbn [st_ledger st_api]. by rewrite Hl, drop_all.
Qed.
Lemma tools_cases q target s r s' : authorized tool_secret (sent_headers q) = false -> tools_http tool_secret q target s = (r, s') -> unharmed s s'.
Proof.
  unfold tools_http. intros Hno. set (request := if String.eqb _ _ then _ else _). assert (effect_of tool_secret request = None) as He.
  { unfold request. destruct (String.eqb _ _); [|done]. cbn [effect_of]. by rewrite Hno. }
  rewrite (handle_effect tool_secret request), He. intros [= _ <-]. split; [apply inert_refl|done].
Qed.
Lemma http_cases q s r s' : authorized tool_secret (sent_headers q) = false -> exchange q s = (r, s') -> unharmed s s' \/ with_token s q.
Proof.
  intros Hno. unfold http, with_token. destruct (strip_prefix harness_url (hc_url q)) as [target|].
  { intros [?|(request & c & ?)]%harness_cases; [by left|right]. exists target, request, c. by split. }
  destruct (strip_prefix tools_url (hc_url q)); [intros Hr; left; by eapply tools_cases|intros [= _ <-]; left; apply unharmed_refl].
Qed.

(** C37. There is no way around the harness. Whatever requests an agent makes, to the harness, to the tool service or
    elsewhere, as long as no Authorization header among them, as it is received, has the value "Bearer " followed by the
    credential of the tools: at the end the counters, grants, approvals and messages of the harness, the calls of its tools and the
    ledger of the tool service are as they were at the start - or one of the requests went to the harness with a
    bearer token that was verified when it arrived, and up to that request they were. *)
Theorem no_way_around (qs : list http_call) (s : site S) (replies : list http_reply) (s' : site S) :
  run qs s = (replies, s') -> Forall keyless qs ->
  unharmed s s'
  \/ exists before q after s1, qs = before ++ q :: after /\ (run before s).2 = s1 /\ unharmed s s1 /\ with_token s1 q.
Proof.
  revert s replies. induction qs as [|q qs IH]; intros s replies; cbn [exchanges]; [intros [= _ <-] _; left; apply unharmed_refl|].
  destruct (exchange q s) as [r s1] eqn:Eq. destruct (run qs s1) as [rs s2] eqn:Ers. intros [= _ <-] [Hno Hall]%Forall_cons.
  destruct (http_cases _ _ _ _ (keyless_refused q Hno) Eq) as [Hu|Ht]; [|right; exists [], q, qs, s; split_and!; [done..|apply unharmed_refl|done]].
  destruct (IH _ _ Ers Hall) as [Hu'|(before & q' & after & s3 & -> & Hs3 & Hu' & Ht)]; [left; by eapply unharmed_trans|].
  right. exists (q :: before), q', after, s3. split; [done|]. split; [|split; [by eapply unharmed_trans|done]].
  cbn [exchanges]. rewrite Eq. destruct (run before s1) as [rs' s4]. by cbn in *.
Qed.
End safe.

Module Witnesses.
#[local] Existing Instances exact Api.Witnesses.rounding.
(** Short digests, for a run of twenty requests. *)
#[local] Instance brief : Externals :=
  Sample.with_digest Sample.externals (fun text => show_Z (Z.of_nat (String.length text)))
    (fun key text => show_Z (Z.of_nat (String.length (key +:+ text)))).

Definition secret : string := "tool-secret".
Definition harness_at : string := "http://127.0.0.1:8080".
Definition tools_at : string := "http://127.0.0.1:9100".
Definition drawn : chosen := mk_chosen "20231114" "6b" Identity.Witnesses.key0 (Sample.numbered "jti-") Sample.start.
Definition deployed : result (deployment (S := MemoryStateStore)) := deploy secret harness_at tools_at Memory.init drawn.
Definition arrive (n : nat) : arrival := mk_arrival exact (of_Z 1) (of_Z 1) (of_Z 1) (Sample.start + seconds 60) Identity.Witnesses.no_file.
Definition attacked : script (dict pyval) * option (site MemoryStateStore) :=
  match deployed with
  | Ok d => let '(r, s) := unleash secret harness_at tools_at (fun f _ => f) arrive "guessed" d in (r, Some s)
  | Raise e => (Crash e, None)
  end.

(** Every attack is answered as the demonstration says, and the one search that the contract allows is done. *)
Example attacks_answered : attacked.1 = Done
  [("env_has_tool_credential", PBool false); ("direct_tool_no_auth", PInt 401); ("direct_tool_with_agent_token", PInt 401);
   ("direct_tool_guessed_token", PInt 401); ("harness_out_of_contract", PList [PInt 403; PStr "TOOL_NOT_ALLOWED"]);
   ("harness_impersonation", PList [PInt 403; PStr "IDENTITY_MISMATCH"]); ("harness_contract_claim", PList [PInt 403; PStr "CONTRACT_MISMATCH"]);
   ("harness_no_token", PInt 401); ("escalation_created", PInt 202); ("self_approval", PInt 404);
   ("delegation_to_privileged_agent", PList [PInt 403; PStr "TOOL_NOT_ALLOWED"]);
   ("forged_identity", PDict
      [("admin_writes_database", PList [PInt 403; PStr "IDENTITY_MISMATCH"]); ("claims_privileged_contract", PList [PInt 403; PStr "IDENTITY_MISMATCH"]);
       ("grants_itself_approval_action", PList [PInt 403; PStr "TOOL_NOT_ALLOWED"]);
       ("calls_reserved_harness_action", PList [PInt 403; PStr "RESERVED_ACTION"]); ("rewrites_own_contract", PList [PInt 403; PStr "RESERVED_ACTION"])]);
   ("in_contract_action", PList [PInt 200; PStr "succeeded"]);
   ("credentials", PDict
      [("sub_swapped_to_db_admin", PInt 401); ("role_swapped_to_approver", PInt 401); ("expiry_extended_one_year", PInt 401);
       ("signature_stripped", PInt 401); ("forged_with_guessed_key", PInt 401); ("unknown_key_id", PInt 401); ("expired_token", PInt 401);
       ("revoked_token", PInt 401)])].
Proof. vm_compute. reflexivity. Qed.
Example ledger_after : st_ledger <$> attacked.2 = Some (ledger_line "/web.search" (PDict [("query", PStr "hello")])).
Proof. vm_compute. reflexivity. Qed.
Example reported : match attacked with
                   | (Done results, Some s) => match report "audit.jsonl" results s with Ok lines => drop 15 lines | Raise _ => [] end
                   | _ => []
                   end
  = ["Side effects recorded by the real tool:"; "  /web.search  {'query': 'hello'}"; "Audit trail: audit.jsonl (21 records, chain intact: True)"].
Proof. vm_compute. reflexivity. Qed.

(** Two of the attacks: the tool with a guessed credential, and the harness without a token. *)
Definition attempts : list http_call :=
  [mk_http_call "POST" (tools_at +:+ "/database.write") (Some (dumps ", " ": " write)) (call_headers (Some "admin"));
   mk_http_call "POST" (harness_at +:+ "/v1/actions") (Some (dumps ", " ": " write)) (call_headers None)].
Definition site0 : site MemoryStateStore :=
  match deployed with
  | Ok d => dp_site d
  | Raise _ => mk_site (mk_api (mk_world Memory.init (mk_audit true true EmptyString [] 0 GENESIS) 0 0 0 0 []) (mk_limiter default_config None, no_rates) Identity.Witnesses.authority0) EmptyString 0
  end.
Definition site_config : config := match deployed with Ok d => dp_config d | Raise _ => Interceptor.Witnesses.cf end.
Definition tried := exchanges secret harness_at tools_at site_config arrive attempts site0.

Lemma no_way_around_witness : unharmed site0 tried.2
  /\ map (fun r => match r with Replied status _ => status | NoReply _ => 0 end) tried.1 = [401; 401].
Proof.
  split; [|vm_compute; reflexivity].
  destruct (no_way_around secret harness_at tools_at site_config arrive attempts site0 tried.1 tried.2) as [Hu|(before & q & after & s1 & Hq & _ & _ & Ht)].
  - apply surjective_pairing.
  - assert (forallb (fun q => forallb (fun h => negb (String.eqb h.2 ("Bearer " +:+ secret))) (hc_headers q)) attempts = true) as Ha by reflexivity.
    apply Forall_forall. intros q Hq name value Hin _ ->. rewrite forallb_forall in Ha.
    apply list_elem_of_In, Ha in Hq. rewrite forallb_forall in Hq. apply list_elem_of_In, Hq in Hin. discriminate Hin.
  - exact Hu.
  - exfalso. destruct Ht as (target & request & c & Ht & Hr & rest & k & t & Hh & _).
    destruct before as [|q1 [|q2 [|]]]; injection Hq as; subst; [discriminate Ht| |discriminate..].
    injection Ht as <-. vm_compute in Hr. injection Hr as <-. discriminate Hh.
Defined.
End Witnesses.
