(* ===== verification/MutualTLS.v ===== *)
(** * The agent behind the mutual TLS edge: deploy/mtls

    The edge, the adapter, the API and the tools as one system: a client with a certificate sends requests to the edge,
    which sends them on with the identity it verified, from an address the adapter trusts. *)

From S2P Require Import Prelude Datetime Regex PyVal Externals Json Request Decision NetAddr Timeutil Capability Contract Policy State AuditTrail Effects Interceptor Executor Harness System RateLimit Base64 Workload Identity PyObj Api Edge Server ToolService Adversary Verdicts Deploy EndToEnd.

Section behind_edge.
Context {S : Type} `{StateStore S} `{Externals} `{Arith} `{!Rounding}.
Variable tool_secret : string.
#[local] Instance search_only : Tools := {| tool_names := ["web.search"]; tool_outcome := fun name args _ => site_outcome tool_secret name args |}.
Variable cf : config.
Variable arrivals : nat -> arrival.
(** The networks the adapter trusts, the text of an address, and the address the edge connects from. *)
Variable networks : list network.
Variable canonical : string -> string.
Variable edge_address : string.

Definition forwarded_scope (fw : forwarded) : asgi_scope :=
  mk_scope "http" (fw_method fw) (fw_headers fw) (Some edge_address) (fw_path fw) EmptyString.
Definition at_api (fw : forwarded) (s : site S) : option (Z * headers * string) * site S :=
  let head := String.eqb (fw_method fw) "HEAD" in
  match app networks canonical (forwarded_scope fw) [Chunk (default EmptyString (fw_body fw)) false] with
  | Ok (Dispatched r) =>
      let '(resp, a) := dispatch cf no_extra (arrivals (st_requests s)) r (st_api s) in
      let called := drop (length (w_ledger (ap_world (st_api s)))) (w_ledger (ap_world a)) in
      (match resp with Ok resp => Some (send_response resp head) | Raise _ => None end,
       mk_site a (foldl (note_call tool_secret) (st_ledger s) called) (Datatypes.S (st_requests s)))
  | Ok (Edge.Answered r) => (Some (send_response r head), s)
  | Ok Edge.Dropped | Raise _ => (None, s)
  end.
(** [None]: the connection ends without an answer. *)
Definition edge_http (cert : option peercert) (der : option string) (client method path : string) (hs : headers) (sent : string) (s : site S) :
    option edge_reply * site S :=
  match edge_request (fun n => Some (s_take (Z.to_nat n) sent)) cert der method path client hs with
  | Ok (inl failure) => (Some failure, s)
  | Ok (inr fw) => let '(r, s') := at_api fw s in (Some (edge_answer method r), s')
  | Raise _ => (None, s)
  end.

(** The exchange of the agent: without its certificate there is no handshake. *)
Definition agent_exchange (cert : peercert) (der client : string) (with_cert : bool) (hs : dict string) (data : string) (s : site S) :
    tls_reply * site S :=
  if negb with_cert then (TlsError "tlsv13 alert certificate required", s) else
  let raw := [("Host", "mtls-edge:8443"); ("Accept-Encoding", "identity"); ("Content-Length", show_Z (s_len data))] ++ hs in
  let '(r, s') := edge_http (Some cert) (Some der) client "POST" "/v1/actions" raw data s in
  (match r with Some r => TlsReplied (ep_status r) (ep_body r) | None => ConnError "Remote end closed connection without response" end, s').

(** ** A token without its workload *)

Definition ascii_header (h : string * string) : Prop := is_ascii h.1 = true /\ is_ascii h.2 = true.
Lemma decoded_ascii hs : Forall ascii_header hs -> decoded hs = hs.
Proof.
  unfold decoded. induction 1 as [|[k v] hs [Hk Hv] Hall IH]; [done|]. cbn [map fst snd] in *. by rewrite !latin1_ascii, IH by done.
Qed.

(** One of these headers is an Authorization header with a bearer token that the keyring at the time signed, that can
    be used then by the workload [i] - it is not expired, revoked or early - and that is bound to no other workload. *)
Definition verified_for (i : WorkloadIdentity) (hs : headers) (s : site S) : Prop :=
  exists name token k t c, (name, "Bearer " +:+ token) ∈ hs /\ py_lower name = "authorization"
    /\ _current_keyring (at_keyring (arrivals (st_requests s))) (ap_authority (st_api s)) = (Ok k, t)
    /\ vouched k (PStr (py_strip token)) c
    /\ usable (at_verify (arrivals (st_requests s))) (max_ttl (ap_authority (st_api s))) (leeway (ap_authority (st_api s)))
         (Some (fun id => is_revoked id (w_store (ap_world (st_api s))))) (Some i) c
    /\ forall b, binding c = Some b -> agrees (wb_thumbprint b) (wi_thumbprint i) /\ agrees (wb_spiffe_id b) (wi_spiffe_id i).

(** Where a header that the API looks up comes from. *)
Lemma lower_keys_in d k v : (k, v) ∈ lower_keys d -> exists j, (j, v) ∈ d /\ py_lower j = k.
Proof.
  unfold lower_keys. assert (forall acc, (k, v) ∈ foldl (fun h '(k, v) => dset (py_lower k) v h) acc d ->
    (k, v) ∈ acc \/ exists j, (j, v) ∈ d /\ py_lower j = k) as Hg; [|by intros [?%elem_of_nil|]%Hg].
  induction d as [|[j x] d IH]; intros acc; cbn [foldl]; [by left|]. intros [Hin|(j' & Hj & Hk)]%IH; [|right; exists j'; split; [apply elem_of_cons; by right|done]].
  apply dset_in in Hin as [Hin|[-> ->]]; [by left|]. right. exists j. split; [apply elem_of_cons; by left|done].
Qed.

Lemma collect_in raw seen d k v : collect_headers raw seen = inr d -> (k, v) ∈ d ->
  (k, v) ∈ seen \/ exists h, h ∈ decoded raw /\ k = py_lower h.1 /\ v = h.2.
Proof.
  revert seen; induction raw as [|[j x] raw IH]; intros seen; cbn [collect_headers]; [by intros [= <-]; left|].
  destruct (dmem _ seen); [done|]. intros Hc Hin. destruct (IH _ Hc Hin) as [Hs|(h & Hh & Heq)]; [|right; exists h; split; [apply elem_of_cons; by right|done]].
  apply dset_in in Hs as [Hs|[-> ->]]; [by left|]. right. exists (latin1 j, latin1 x). split; [apply elem_of_cons; by left|done].
Qed.

(** The edge adds no Authorization header. *)
Lemma edge_authorization client i hs name v : (name, v) ∈ edge_headers client i hs -> py_lower name = "authorization" -> (name, v) ∈ hs.
Proof.
  unfold edge_headers. intros Hin Hn.
  assert (forall k x d, py_lower k <> "authorization" -> (name, v) ∈ dset k x d -> (name, v) ∈ d) as Hd
    by (intros k x d Hk [?|[-> _]]%dset_in; done).
  apply Hd in Hin; [|done]. assert ((name, v) ∈ dset "X-Client-Cert-Thumbprint" (default EmptyString (wi_thumbprint i))
    (dset "X-Real-IP" client (dupdate [] (List.filter passes_edge hs)))) as Hin' by (destruct (nonempty _); [by apply Hd in Hin|done]).
  apply Hd in Hin'; [|done]. apply Hd in Hin'; [|done]. apply dupdate_in in Hin' as [?%elem_of_nil|Hf]; [done|].
  by apply list_elem_of_In, filter_In in Hf as [?%list_elem_of_In _].
Qed.

Lemma authorization_sent fw client i hs d body v : fw_headers fw = edge_headers client i hs -> Forall ascii_header (edge_headers client i hs) ->
  collect_headers (sc_headers (forwarded_scope fw)) [] = inr d ->
  dget "authorization" (lower_keys (h_headers (request_of networks canonical (forwarded_scope fw) d body))) = Some v ->
  exists name, (name, v) ∈ hs /\ py_lower name = "authorization".
Proof.
  intros Hfw Hascii Hd Hv. cbn [h_headers request_of forwarded_scope sc_headers] in *. rewrite Hfw in Hd.
  apply dget_Some_in, lower_keys_in in Hv as (k & Hin & Hk).
  destruct (collect_in _ _ _ _ _ Hd Hin) as [?%elem_of_nil|([name x] & Hh & -> & ->)]; [done|]. rewrite decoded_ascii in Hh by done.
  cbn [fst snd] in *. rewrite Forall_forall in Hascii. destruct (Hascii _ Hh) as [Ha _].
  rewrite (proj2 (py_lower_twice name Ha)) in Hk. exists name. split; [by eapply edge_authorization|done].
Qed.

Lemma at_api_cases fw i client hs der cert s r s' : from_trusted_proxy networks (Some edge_address) = true ->
  sha256 der <> EmptyString -> from_peercert cert (Some der) = Ok i -> present i = true ->
  is_Some (ip_address (py_strip client)) -> client <> EmptyString ->
  fw_headers fw = edge_headers client i hs -> Forall ascii_header (edge_headers client i hs) ->
  at_api fw s = (r, s') -> unharmed s s' \/ verified_for i hs s.
Proof.
  intros Htrusted Hsha Hi Hp Hip Hne Hfw Hascii. unfold at_api.
  destruct (app _ _ _ _) as [[resp| |request]|e] eqn:Ea; [intros [= _ <-]; left; apply unharmed_refl..| |intros [= _ <-]; left; apply unharmed_refl].
  destruct (forwarded_identity networks canonical (forwarded_scope fw) _ request cert der i client hs [] Ea Htrusted Hsha Hi Hp Hip Hne) as [Hw _];
    [by rewrite app_nil_r; cbn [forwarded_scope sc_headers]; rewrite Hfw, decoded_ascii|constructor|].
  destruct (dispatch _ _ _ _ _) as [resp a] eqn:Ed. intros [= _ <-].
  apply dispatch_cases in Ed as [[[Hs Hl] _]|(c & agent & approver & s1 & (rest & k & t & Hh & Hk & Hv & Hu) & _)]; [left|right].
  - split; [by split|]. cbn [st_ledger st_api]. by rewrite Hl, drop_all.
  - apply dispatched_request in Ea as (d & body & Hd & ->). rewrite Hw in Hu.
    destruct (authorization_sent fw client i hs d body _ Hfw Hascii Hd Hh) as (name & Hin & Hn).
    exists name, rest, k, t, c. split_and!; [done..|]. intros b Hb. destruct Hu as (_ & _ & _ & _ & _ & Hbind).
    destruct (Hbind b Hb) as (j & Hj & _ & ? & ?). by injection Hj as ->.
Qed.

(** C39. A stolen token is useless without its workload. Whatever a client sends through the edge - any path, headers,
    body, with a certificate of its own - nothing changes: the counters, grants, approvals and messages of the harness,
    the calls of its tools and the ledger of the tool service are as they were; unless an Authorization header the
    client itself sent carries a bearer token that is signed with a key of the harness, is usable when the request
    arrives, and is bound to no workload or to the one of the certificate the edge verified. Headers are ASCII, and
    the harness trusts the address of the edge. *)
Theorem stolen_token_useless (cert : option peercert) (der client method path : string) (hs : headers) (sent : string)
    (i : WorkloadIdentity) (s : site S) (reply : option edge_reply) (s' : site S) :
  from_trusted_proxy networks (Some edge_address) = true -> sha256 der <> EmptyString ->
  from_peercert cert (Some der) = Ok i -> present i = true -> is_Some (ip_address (py_strip client)) -> client <> EmptyString ->
  Forall ascii_header (edge_headers client i hs) -> edge_http cert (Some der) client method path hs sent s = (reply, s') ->
  unharmed s s' \/ verified_for i hs s.
Proof.
  intros Htrusted Hsha Hi Hp Hip Hne Hascii. unfold edge_http, edge_request, edge_identity.
  assert (exists c d, der = String c d) as (c & d & Hder).
  { destruct der as [|c d]; [|by exists c, d]. unfold from_peercert in Hi. by injection Hi as <-. }
  rewrite Hder, <- Hder. rewrite Hi. cbn [result_bind]. rewrite Hp. cbn [negb].
  destruct (edge_body _ _ _) as [[failure|body]|e]; cbn [result_bind]; [intros [= _ <-]; left; apply unharmed_refl| |intros [= _ <-]; left; apply unharmed_refl].
  destruct (at_api _ s) as [r s1] eqn:Ea. intros [= _ <-]. eapply (at_api_cases _ i client hs der cert); [done..| | |exact Ea]; done.
Qed.
End behind_edge.

(** ** The demonstration *)

Module Witnesses.
#[local] Existing Instances exact Api.Witnesses.rounding.
(** Digests of 32 bytes that stay short when they are printed. *)
#[local] Instance padded_digests : Externals :=
  Sample.with_digest Sample.externals (fun text => pad 32 (Z.of_nat (String.length text))) (fun key text => pad 32 (Z.of_nat (String.length (key +:+ text)))).
Definition secret : string := "tool-secret".
#[local] Existing Instance search_only.

(** deploy/mtls/config/contracts.yaml *)
Definition mtls_document : pyval := PDict [
  ("contract_id", PStr "research-v1"); ("goal", PStr "Research using web search; the agent is identified by a SPIFFE workload certificate");
  ("max_steps", PInt 1000);
  ("agents", PDict [("researcher", PDict [("capabilities", PDict [("web.search", PStr "allow"); ("database.write", PStr "deny")])])])].
Definition cert_of (uri : string) : peercert := [("subjectAltName", [("URI", uri)])].
Definition agent_der : string := "the certificate of the agent".
Definition agent_identity : WorkloadIdentity := mk_identity (Some SPIFFE_ID) (Some (thumbprint_from_der agent_der)) true.
Definition bound_to : WorkloadBinding := mk_binding (Some SPIFFE_ID) (Some (thumbprint_from_der agent_der)).
Definition edge_network : list network := [mk_network (IPv4 2887649024) 24].   (* 172.30.7.0/24 *)

Definition started : result (config * site MemoryStateStore * string) :=
  let? contract := contract_from_dict mtls_document in
  let '(made, w) := make_harness (H1 := search_only secret) [contract] false None 60000000 (mk_world Memory.init (mk_audit true true EmptyString [] 0 GENESIS) 0 0 0 0 []) in
  let? cf := made in
  let? limiter := make_api_limiter cf None in
  let '(token, a) := issue Identity.Witnesses.no_file Sample.start "entropy" "researcher" "agent" 900 None (Some bound_to) (make_authority Identity.Witnesses.ring0 900 30) in
  let? token := token in
  Ok (cf, mk_site (mk_api w (limiter, no_rates) a) EmptyString 0, token).
Definition arrive : nat -> arrival := EndToEnd.Witnesses.arrive.
Definition observed : result (list row) :=
  let? (cf, s, token) := started in
  let '(r, s') := mtls_agent_main (agent_exchange secret cf arrive edge_network id "172.30.7.2" (cert_of SPIFFE_ID) agent_der "172.30.7.9") token s in
  match r with
  | Done seen => let? effects := side_effects (Some (st_ledger s')) in mtls_checks (PDict [("agent", PDict seen); ("side_effects", PList effects)])
  | Crash e => Raise e
  | Exit msg => Raise (RuntimeError msg)
  end.
(** The agent is let in with its certificate and refused the write; its forged identity header does nothing, and
    without a certificate it is not connected: every check of the demonstration passes. *)
Example demonstrated : (let? rows := observed in Ok (status_code rows, map (fun r => py_str (rw_observed r)) rows))
  = Ok (0, ["[200, 'succeeded']"; "[403, 'EXPLICITLY_DENIED']"; "[200, 'succeeded']"; "['tls_error', 'tlsv13 alert certificate required']";
            "['/web.search', '/web.search']"]).
Proof. vm_compute. reflexivity. Qed.

(** The token in the hands of another workload, with a certificate of its own. *)
Definition thief_identity : WorkloadIdentity :=
  mk_identity (Some "spiffe://capgate.test/agent/other") (Some (thumbprint_from_der "the certificate of another")) true.
Definition running : config * site MemoryStateStore * string :=
  match started with Ok x => x | Raise _ => (Interceptor.Witnesses.cf, EndToEnd.Witnesses.site0, EmptyString) end.
Definition stolen : headers :=
  [("Host", "mtls-edge:8443"); ("Content-Type", "application/json"); ("Content-Length", "2"); ("Authorization", "Bearer " +:+ running.2);
   ("X-Client-Spiffe-Id", SPIFFE_ID)].
Definition tried := edge_http secret running.1.1 arrive edge_network id "172.30.7.2" (Some (cert_of "spiffe://capgate.test/agent/other"))
  (Some "the certificate of another") "172.30.7.66" "POST" "/v1/actions" stolen "{}" running.1.2.

(** The stolen token is the only bearer token among these headers, and it is bound to the agent's certificate. *)
Lemma thief_unverified : ~ verified_for arrive thief_identity stolen running.1.2.
Proof.
  intros (name & token & k & t & c & Hin & _ & Hk & Hv & Hu & _).
  assert (token = running.2) as ->.
  { unfold stolen in Hin. rewrite !elem_of_cons in Hin.
    destruct Hin as [Hin|[Hin|[Hin|[Hin|[Hin|Hin%elem_of_nil]]]]]; try done; apply (f_equal snd) in Hin; cbn [snd] in Hin; try discriminate Hin.
    by apply s_app_inj in Hin. }
  assert (_current_keyring (at_keyring (arrive (st_requests running.1.2))) (ap_authority (st_api running.1.2))
          = (Ok Identity.Witnesses.ring0, ap_authority (st_api running.1.2))) as Hring by (vm_compute; reflexivity).
  rewrite Hring in Hk. injection Hk as <- <-.
  assert (lacks "." (kid c) = true) as Hkid.
  { destruct Hv as (key & _ & _ & _ & _ & _ & Hkey & _). cbn [keys Identity.Witnesses.ring0 dget] in Hkey.
    destruct (String.eqb_spec "k20231114-62" (kid c)) as [<-|]; [reflexivity|]. by destruct (String.eqb_spec (kid c) "k20231114-62"). }
  pose proof (verify_complete _ _ _ _ _ _ _ _ _ Hring Hkid Hv Hu) as Hc.
  assert ((verify (at_keyring (arrive (st_requests running.1.2))) (at_verify (arrive (st_requests running.1.2)))
             (Some (fun id => is_revoked id (w_store (ap_world (st_api running.1.2))))) (PStr (py_strip running.2)) (Some thief_identity)
             (ap_authority (st_api running.1.2))).1 = Raise (TokenError "TOKEN_BINDING_MISMATCH")) as Hno by (vm_compute; reflexivity).
  rewrite Hc in Hno. discriminate Hno.
Qed.

Lemma stolen_token_useless_witness : unharmed running.1.2 tried.2 /\ match tried.1 with Some r => ep_status r | None => 0 end = 401.
Proof.
  split; [|vm_compute; reflexivity].
  destruct (stolen_token_useless secret running.1.1 arrive edge_network id "172.30.7.2" (Some (cert_of "spiffe://capgate.test/agent/other"))
           "the certificate of another" "172.30.7.66" "POST" "/v1/actions" stolen "{}" thief_identity running.1.2 tried.1 tried.2) as [Hu|Hv].
  - vm_compute. reflexivity.
  - discriminate.
  - vm_compute. reflexivity.
  - reflexivity.
  - eexists. vm_compute. reflexivity.
  - discriminate.
  - apply Forall_forall. intros h Hh. assert (forallb (fun h => is_ascii h.1 && is_ascii h.2) (edge_headers "172.30.7.66" thief_identity stolen) = true) as Ha by (vm_compute; reflexivity).
    rewrite forallb_forall in Ha. apply list_elem_of_In, Ha, andb_true_iff in Hh. exact Hh.
  - unfold tried. apply surjective_pairing.
  - exact Hu.
  - by destruct (thief_unverified Hv).
Defined.
End Witnesses.
