(* ===== verification/Demos.v ===== *)
(** * The examples that run the library: examples/basic, examples/delegation-boundary and examples/agent_loop/demo.py

    What each script does with the library, and what it prints. The contract files are the documents a YAML parser
    gives for them. The servers of the agent loop are the API with the routes of the gateway; what is not modelled is
    the model behind a message service. *)

From S2P Require Import Prelude Datetime Regex PyVal Externals Json Request Decision NetAddr Timeutil Capability Contract Policy State AuditTrail AuditFleet Effects Interceptor Executor Harness System RateLimit Base64 Workload Identity PyObj Api Gateway AgentLoop.

(** ** The contracts *)

Definition basic_document : pyval := PDict [
  ("contract_id", PStr "basic-v1"); ("goal", PStr "Look up a topic and store a note about it"); ("max_steps", PInt 10);
  ("agents", PDict [("researcher", PDict [("capabilities", PDict [
     ("web.search", PStr "allow");
     ("notes.write", PDict [("effect", PStr "allow"); ("constraints", PDict [
        ("allowed_arguments", PList [PStr "title"; PStr "body"]); ("required_arguments", PList [PStr "title"]); ("max_argument_length", PInt 2000)])]);
     ("database.write", PStr "deny")])])])].
Definition contract_a_document : pyval := PDict [
  ("contract_id", PStr "contract-a"); ("goal", PStr "Coordinate research and hand off follow-up work"); ("max_steps", PInt 100);
  ("agents", PDict [("agent-a", PDict [("capabilities", PDict [
     ("web.search", PStr "allow"); ("web.fetch", PStr "allow"); ("database.write", PStr "deny"); ("create_agent", PStr "deny");
     ("agent.message", PDict [("effect", PStr "allow"); ("constraints", PDict [("allowed_targets", PList [PStr "agent-b"])])]);
     ("agent.delegate", PDict [("effect", PStr "allow"); ("constraints", PDict [
        ("allowed_targets", PList [PStr "agent-b"]); ("allowed_actions", PList [PStr "web.search"; PStr "database.write"])])])])])])].
Definition contract_b_document : pyval := PDict [
  ("contract_id", PStr "contract-b"); ("goal", PStr "Answer research questions"); ("max_steps", PInt 100);
  ("agents", PDict [("agent-b", PDict [("capabilities", PDict [("web.search", PStr "allow")])])])].
Definition loop_document : pyval := PDict [
  ("contract_id", PStr "research-v1"); ("goal", PStr "Research a topic with web tools; publishing needs human approval"); ("max_steps", PInt 50);
  ("approvers", PList [PStr "editor"]);
  ("agents", PDict [("researcher", PDict [("capabilities", PDict [
     ("web.search", PStr "allow");
     ("web.fetch", PDict [("effect", PStr "allow"); ("constraints", PDict [
        ("allowed_arguments", PList [PStr "url"]); ("block_private_hosts", PBool true)])]);
     ("docs.publish", PStr "escalate"); ("database.write", PStr "deny")])])])].

(** A format field that is a text, as the fields of records are. *)
Definition text_field (width : Z) (v : pyval) : result string :=
  match v with PStr s => Ok (ljust width s) | _ => Raise (TypeError "unsupported format string passed to __format__") end.

Section fresh.
Context {S : Type} `{StateStore S} `{Externals} `{Tools}.

(** A harness in a process of its own, with its audit log in memory. *)
Definition new_harness (documents : list pyval) : M S config :=
  let! contracts := lift (traverse contract_from_dict documents) in make_harness contracts false None 60000000.
Definition fresh_world (store : S) : world S := mk_world store (mk_audit false true EmptyString [] 0 GENESIS) 0 0 0 0 [].
Definition read_audit {A} (f : AuditLog -> result A) : M S A := fun w => (f (w_audit w), w).

(** ** examples/basic/run.py *)

Definition basic_arrow : string := "                 -> ".
Definition basic_step (cf : config) (proposal : string * pyval) : M S (list string) :=
  let '(action, arguments) := proposal in
  let! res := authorize cf (PStr "researcher") (PStr action) arguments PNone in
  let d := ar_decision res in
  let line := ljust 16 action +:+ " " +:+ ljust 9 (py_upper (decision_value (d_decision d))) +:+ " " +:+ reason_value (d_reason_code d) in
  if ar_allowed res then
    let! out := harness_execute cf res in ret [line; basic_arrow +:+ py_str (er_output out)]
  else
    try_except (harness_execute cf res ;! ret [line])
      (fun e => match e with
                | ExecutionRefused reason _ => ret [line; basic_arrow +:+ "executor refused: " +:+ reason]
                | e => raise e
                end).
Fixpoint in_turn {X} (f : X -> M S (list string)) (l : list X) : M S (list string) :=
  match l with
  | [] => ret []
  | x :: l' => let! a := f x in let! b := in_turn f l' in ret (a ++ b)
  end.
Definition basic_run : M S (list string) :=
  let! cf := new_harness [basic_document] in
  let! lines := in_turn (basic_step cf)
    [("web.search", PDict [("query", PStr "capability-based security")]);
     ("database.write", PDict [("table", PStr "users"); ("row", PDict [("role", PStr "admin")])])] in
  let! n := read_audit (fun log => Ok (al_count log)) in
  let! intact := read_audit audit_verify in
  ret (lines ++ [show_Z n +:+ " audit records; chain intact: " +:+ py_str (PBool intact)]).

(** ** examples/delegation-boundary *)

(** [AgentB.handle_inbox]: every instruction is obeyed. *)
Fixpoint obey (cf : config) (messages : list Message) : M S (list AuthorizationResult) :=
  match messages with
  | [] => ret []
  | m :: messages' =>
      let! action := lift (item_of (m_body m) "action") in
      let! arguments := lift (get_of (m_body m) "arguments" (PDict [])) in
      let! contract_id := lift (get_of (m_body m) "contract_id" PNone) in
      let! res := authorize cf (PStr "agent-b") action arguments contract_id in
      let! rest := obey cf messages' in
      ret (res :: rest)
  end.
Definition handle_inbox (cf : config) : M S (list AuthorizationResult) :=
  let! messages := receive "agent-b" in obey cf messages.

Definition boundary_write : dict pyval := [("table", PStr "users"); ("row", PDict [("name", PStr "mallory"); ("role", PStr "admin")])].
Definition show_result (label : string) (res : AuthorizationResult) : string :=
  let d := ar_decision res in
  "  " +:+ ljust 50 label +:+ " " +:+ ljust 9 (py_upper (decision_value (d_decision d))) +:+ " " +:+ ljust 30 (reason_value (d_reason_code d))
  +:+ " (agent=" +:+ py_str (rq_agent_id (d_request d)) +:+ ", contract=" +:+ py_str (ostr (d_contract_id d)) +:+ ")".
Definition record_line (rec : dict pyval) : result string :=
  let? agent := get_item "agent_id" rec in let? agent := text_field 8 agent in
  let? contract := get_item "contract_id" rec in let? contract := text_field 11 contract in
  let? decision := get_item "decision" rec in let? decision := text_field 5 decision in
  let? reason := get_item "reason_code" rec in let? reason := text_field 20 reason in
  let? by_ := get_item "delegated_by" rec in
  Ok ("  " +:+ agent +:+ " " +:+ contract +:+ " " +:+ decision +:+ " " +:+ reason +:+ " delegated_by=" +:+ py_str by_).
Definition to : string := String (char_of 226) (String (char_of 134) (chr1 (char_of 146))).
Definition then_ : string := String (char_of 226) (String (char_of 134) (chr1 (char_of 179))).
Definition boundary_main : M S (list string) :=
  let! cf := new_harness [contract_a_document; contract_b_document] in
  let! direct := authorize cf (PStr "agent-a") (PStr "database.write") (PDict boundary_write) PNone in
  let! delegated := delegate cf (PStr "agent-a") (PStr "agent-b") (PStr "database.write") (PDict boundary_write) PNone in
  let! second := lift (match dl_action delegated with Some r => Ok r | None => Raise (AttributeError "'NoneType' object has no attribute 'decision'") end) in
  let send body := send_message cf (PStr "agent-a") (PStr "agent-b") (PDict body) PNone in
  send [("action", PStr "database.write"); ("arguments", PDict boundary_write); ("contract_id", PStr "contract-a")] ;!
  send [("action", PStr "database.write"); ("arguments", PDict (dset "authorized_by" (PStr "agent-a") boundary_write))] ;!
  let! results := handle_inbox cf in
  let! written := (fun w => (Ok (length (w_ledger w)), w)) in
  let! n := read_audit (fun log => Ok (al_count log)) in
  let! records := read_audit (fun log => audit_query log [("event", PStr "decision"); ("action", PStr "database.write")]) in
  let! lines := lift (traverse record_line records) in
  ret ([show_result ("agent-a " +:+ to +:+ " database.write") direct;
        show_result ("agent-a " +:+ to +:+ " agent.delegate(agent-b, database.write)") (dl_delegation delegated);
        show_result ("  " +:+ then_ +:+ " agent-b " +:+ to +:+ " database.write") second]
       ++ map (show_result ("  " +:+ then_ +:+ " agent-b " +:+ to +:+ " database.write (from message)")) results
       ++ ["Rows written to the database: " +:+ show_Z (Z.of_nat written); "Audit records: " +:+ show_Z n] ++ lines).
End fresh.

(** ** examples/agent_loop/demo.py *)

Section loop_demo.
Context {S : Type} `{StateStore S} `{Externals} `{Arith} `{!Rounding}.
#[local] Instance echo_tools : Tools :=
  {| tool_names := ["web.search"; "web.fetch"; "docs.publish"; "database.write"]; tool_outcome := fun _ args _ => inl (PDict [("echo", PDict args)]) |}.
Variable tool_metadata : string -> option (dict pyval).
Variable server_info : dict pyval.
Variable arrivals : nat -> arrival.

Record stack := mk_stack { sk_config : config; sk_api : api S; sk_token : string }.
Definition build_stack (store : S) (ring : Keyring) (jti : string) (now : Z) : result stack :=
  let '(made, w) := new_harness [loop_document] (fresh_world store) in
  let? cf := made in
  let file := {| file_stamp := Raise (OSError "no keyring file"); file_text := Raise (OSError "no keyring file") |} in
  let? limiter := make_api_limiter cf None in
  let '(token, a) := issue file now jti "researcher" "agent" 900 None None (make_authority ring 3600 30) in
  let? token := token in
  Ok (mk_stack cf (mk_api w (limiter, no_rates) a) token).

(** A message of the client at the API, the [n]-th to arrive. *)
Definition mcp_post (token : string) (q : rpc_request) : http_request :=
  mk_http "POST" "/mcp"
    ([("Authorization", "Bearer " +:+ token); ("Content-Type", "application/json"); ("Accept", "application/json, text/event-stream")]
     ++ match rp_version q with Some v => [("MCP-Protocol-Version", py_str v)] | None => [] end)
    (Some (dumps ", " ": " (PDict (rp_message q)))) "127.0.0.1" None.
Definition deliver_mcp (st : stack) (n : nat) (q : rpc_request) (s : api S) : result Response * api S :=
  dispatch (sk_config st) (mcp_routes (sk_config st) tool_metadata server_info) (arrivals n) (mcp_post (sk_token st) q) s.
Fixpoint after (st : stack) (n : nat) (sent : list rpc_request) (s : api S) : api S :=
  match sent with [] => s | q :: sent' => after st (Datatypes.S n) sent' (deliver_mcp st n q s).2 end.
Definition mcp_exchange (st : stack) (sent : list rpc_request) (q : rpc_request) : rpc_answer :=
  match (deliver_mcp st (length sent) q (after st 0 sent (sk_api st))).1 with
  | Ok r => if (200 <=? r_status r) && (r_status r <? 300) then Body (encode r)
            else HttpError (r_status r) ("b" +:+ repr_str (s_take 200 (encode r)))
  | Raise _ => NoAnswer (OSError "Remote end closed connection without response")
  end.

Definition OFFLINE_PLAN : list (list (string * pyval)) :=
  [[("web-search", PDict [("query", PStr "capability-based security for AI agents")])];
   [("web-fetch", PDict [("url", PStr "https://arxiv.org/abs/2401.00001")])];
   [("database-write", PDict [("table", PStr "summaries"); ("row", PDict [("topic", PStr "capgate")])])];
   [("docs-publish", PDict [("title", PStr "Findings")])];
   [("web-search", PDict [("query", PStr "confused deputy problem")])]].
Definition SYSTEM : string :=
  "You are a research agent. Use the available tools to gather information. Every tool call is authorized by a security harness before it runs; if a call is denied or needs human approval, do not retry it " +:+ String (char_of 226) (String (char_of 128) (String (char_of 148) " continue with what you are allowed to do, then finish.")).
Definition GOAL : string :=
  "Research capability-based security for AI agents: search for it and fetch one source. Also try to write a summary row to the database, and to publish your findings.".

Definition mark (third second : Z) : string := String (char_of 226) (String (char_of second) (chr1 (char_of third))).
Definition or_text (v : pyval) (other : string) : pyval := if truthy v then v else PStr other.
Definition step_lines (step : Step) : result (list string) :=
  match step with
  | StepText text => Ok (if negb (s_is_empty text) && negb (str_in text ["working"; "done"]) then ["  model: " +:+ text] else [])
  | StepTool call outcome =>
      let? mv := (if negb (to_is_error outcome) then Ok (mark 147 156, PStr "ALLOW")
                  else
                    let? approval := get_of (to_harness outcome) "approval_id" PNone in
                    let? reason := get_of (to_harness outcome) "reason_code" PNone in
                    Ok (if truthy approval then (mark 184 143, or_text reason "REQUIRES_APPROVAL") else (mark 151 156, or_text reason "DENIED"))) in
      let? verdict := text_field 20 mv.2 in
      Ok ["  " +:+ mv.1 +:+ " " +:+ ljust 16 (cl_name call) +:+ " " +:+ verdict +:+ " " +:+ py_take 70 (to_text outcome)]
  end.
Definition audit_lines (log : AuditLog) : result (list string) :=
  let? records := audit_query log [("event", PStr "execution")] in
  let? executed := traverse (get_item "action") (List.filter (fun r => equals_str (pget "outcome" r) "succeeded") records) in
  let? intact := audit_verify log in
  Ok ["real tool executions: " +:+ py_str (PList executed);
      "audit records: " +:+ show_Z (al_count log) +:+ " (chain intact: " +:+ py_str (PBool intact) +:+ ")"].
(** [main] with the offline plan: what is printed, and the state of the API. *)
Definition loop_main (max_turns : nat) (store : S) (ring : Keyring) (jti : string) (now : Z) : result (list string) * option (api S) :=
  match build_stack store ring jti now with
  | Raise e => (Raise e, None)
  | Ok st =>
      let '(ran, (g, _)) := run_agent_loop (mcp_exchange st) (mk_scripted OFFLINE_PLAN "working" 0) (mk_gateway (Ok (sk_token st)) 0 PNone []) SYSTEM GOAL max_turns in
      let s := after st 0 (gw_sent g) (sk_api st) in
      (let? steps := ran in
       let? lines := traverse step_lines steps in
       let? audit := audit_lines (w_audit (ap_world s)) in
       Ok (List.concat lines ++ audit), Some s)
  end.
End loop_demo.

(** ** Theorems *)

Section obedience.
Context {S : Type} `{StateStore S} `{Externals} `{Tools}.
Variable cf : config.
Hypothesis Htables : wf_tables (cf_contracts cf) (cf_bindings cf).

Lemma authorize_sound agent action arguments cid (w : world S) res w' : store_wf (w_store w) ->
  authorize cf agent action arguments cid w = (Ok res, w') ->
  store_wf (w_store w') /\ w_ledger w' = w_ledger w
  /\ (ar_allowed res = true -> exists r now, rq_agent_id r = agent /\ d_request (ar_decision res) = r
        /\ d_contract_id (ar_decision res) = contract_id_of cf r
        /\ authorized (cf_contracts cf) (cf_bindings cf) r (usage_of cf r (view (w_store w))) now EAllow).
Proof.
  intros Hwf Hrun. assert (store_wf (w_store w') /\ w_ledger w' = w_ledger w) as [Hw Hl].
  { revert Hrun. unfold authorize, or_malformed. destruct (make_request _ _ _ _) as [r|e].
    - intros Hr. apply authorize_request_ok in Hr as (? & ? & _ & _ & ? & ? & _); done.
    - destruct e; try done. intros Hr. mbind Hr as d w1 Hd. injection Hr as <- <-. unfold reject_before_policy in Hd. mbind Hd as r w2 Hr.
      apply lift_ok in Hr as [_ ->]. by apply record_ok in Hd as (_ & [? ? ?] & _); [|done]. }
  split_and!; [done..|]. intros Hall. destruct (authorize_built cf _ _ _ _ _ _ _ Hwf Hrun Hall) as (r & Hr & Hrr).
  destruct (authorize_allowed _ Htables _ _ _ _ _ _ Hwf Hrr Hall) as (Ha & Hd & _ & _ & Hc & _).
  exists r, (clock_at (w_clock w)). split_and!; try done. by apply make_request_agent in Hr.
Qed.

(** The decision is an allowed one of the request's own agent, under the contract that agent is bound to. *)
Definition own_right (agent : string) (res : AuthorizationResult) : Prop :=
  exists r u now, rq_agent_id r = PStr agent /\ d_request (ar_decision res) = r /\ d_contract_id (ar_decision res) = contract_id_of cf r
    /\ authorized (cf_contracts cf) (cf_bindings cf) r u now EAllow.

Lemma obey_sound messages (w : world S) results w' : store_wf (w_store w) -> obey cf messages w = (Ok results, w') ->
  w_ledger w' = w_ledger w /\ Forall (fun res => ar_allowed res = true -> own_right "agent-b" res) results.
Proof.
  revert w results. induction messages as [|m messages IH]; intros w results Hwf Hrun; cbn [obey] in Hrun; [by injection Hrun as <- <-|].
  mbind Hrun as action w1 Ha. apply lift_ok in Ha as [_ ->]. mbind Hrun as arguments w2 Hb. apply lift_ok in Hb as [_ ->].
  mbind Hrun as cid w3 Hc. apply lift_ok in Hc as [_ ->]. mbind Hrun as res w4 Hres. mbind Hrun as rest w5 Hrest. injection Hrun as <- <-.
  apply authorize_sound in Hres as (Hwf4 & Hl4 & Hall); [|done]. destruct (IH _ _ Hwf4 Hrest) as [Hl Hf]. split; [congruence|].
  constructor; [|done]. intros Hallowed. destruct (Hall Hallowed) as (r & now & ? & ? & ? & ?). by eexists r, _, now.
Qed.

(** Obeying is not having the right: an agent that does whatever its messages say, in whatever words, runs no tool by it,
    and what it is then allowed is what its own contract allows it. *)
Theorem obedience_contained (w : world S) (results : list AuthorizationResult) (w' : world S) :
  store_wf (w_store w) -> handle_inbox cf w = (Ok results, w') ->
  w_ledger w' = w_ledger w /\ Forall (fun res => ar_allowed res = true -> own_right "agent-b" res) results.
Proof.
  intros Hwf Hrun. unfold handle_inbox, receive in Hrun. mbind Hrun as messages w1 Hm. mbind Hm as l w2 Hd. apply lift_ok in Hm as [_ ->].
  unfold update_store in Hd. injection Hd as _ <-. pose proof (drain_messages_spec (w_store w) "agent-b" Hwf) as (_ & Hs & _).
  by apply obey_sound in Hrun.
Qed.
End obedience.

Module Witnesses.
#[local] Existing Instances exact Api.Witnesses.rounding.
(** Short digests, for runs of many records. *)
#[local] Instance brief : Externals :=
  Sample.with_digest Sample.externals (fun text => show_Z (Z.of_nat (String.length text)))
    (fun key text => show_Z (Z.of_nat (String.length (key +:+ text)))).

Definition search_tool : Tools :=
  {| tool_names := ["web.search"];
     tool_outcome := fun _ args _ => match dget "query" args with
                                     | Some q => inl (PDict [("results", PList [PStr ("result for " +:+ py_repr q)])])
                                     | None => inr "KeyError: 'query'"
                                     end |}.
Definition write_tool : Tools := {| tool_names := ["database.write"]; tool_outcome := fun _ _ _ => inl (PStr "row written") |}.
Definition printed {X} (r : result (list string) * X) : list string := match r.1 with Ok l => l | Raise e => [exn_name e] end.

Example basic_printed : printed (basic_run (H1 := search_tool) (fresh_world Memory.init)) =
  ["web.search       ALLOW     CAPABILITY_GRANTED"; "                 -> {'results': [" +:+ chr1 dquote +:+ "result for 'capability-based security'" +:+ chr1 dquote +:+ "]}";
   "database.write   DENY      EXPLICITLY_DENIED"; "                 -> executor refused: NO_GRANT"; "4 audit records; chain intact: True"].
Proof. vm_compute. reflexivity. Qed.
Example boundary_printed : printed (boundary_main (H1 := write_tool) (fresh_world Memory.init)) =
  ["  agent-a → database.write                           DENY      EXPLICITLY_DENIED              (agent=agent-a, contract=contract-a)";
   "  agent-a → agent.delegate(agent-b, database.write)  ALLOW     CAPABILITY_GRANTED             (agent=agent-a, contract=contract-a)";
   "    ↳ agent-b → database.write                       DENY      TOOL_NOT_ALLOWED               (agent=agent-b, contract=contract-b)";
   "    ↳ agent-b → database.write (from message)        DENY      CONTRACT_MISMATCH              (agent=agent-b, contract=contract-b)";
   "    ↳ agent-b → database.write (from message)        DENY      TOOL_NOT_ALLOWED               (agent=agent-b, contract=contract-b)";
   "Rows written to the database: 0"; "Audit records: 9";
   "  agent-a  contract-a  deny  EXPLICITLY_DENIED    delegated_by=None";
   "  agent-b  contract-b  deny  TOOL_NOT_ALLOWED     delegated_by=agent-a";
   "  agent-b  contract-b  deny  CONTRACT_MISMATCH    delegated_by=None";
   "  agent-b  contract-b  deny  TOOL_NOT_ALLOWED     delegated_by=None"].
Proof. vm_compute. reflexivity. Qed.
Definition loop_ran := loop_main (fun _ => None) [("name", PStr "capgate"); ("version", PStr "0.1.0")]
  (fun _ => mk_arrival exact (of_Z 1) (of_Z 1) (of_Z 1) (Sample.start + seconds 60) Identity.Witnesses.no_file) 8 Memory.init Identity.Witnesses.ring0 "jti" Sample.start.
Example loop_printed : map (s_take 48) (printed loop_ran) =
  ["  ✓ web-search       ALLOW                {" +:+ chr1 dquote +:+ "ec"; "  ✓ web-fetch        ALLOW                {" +:+ chr1 dquote +:+ "ec";
   "  ✗ database-write   EXPLICITLY_DENIED    Deni"; "  ⏸ docs-publish     REQUIRES_APPROVAL    Not ";
   "  ✓ web-search       ALLOW                {" +:+ chr1 dquote +:+ "ec"; "real tool executions: ['web.search', 'web.fetch'"; "audit records: 8 (chain intact: True)"].
Proof. vm_compute. reflexivity. Qed.
Example loop_executed : map fst (default [] ((fun s => w_ledger (ap_world s)) <$> loop_ran.2)) = ["web.search"; "web.fetch"; "web.search"].
Proof. vm_compute. reflexivity. Qed.
End Witnesses.
